(* ===== verification/_CoqProject ===== *)
-Q . S2P
Prelude.v
Hardforks.v
GenesisConfig.v
ChainSpec.v
Networks.v
Chain.v
BaseFee.v
Alloy.v
AlloyRef.v
TxType.v
L1Message.v
Envelope.v
Typed.v
Pooled.v
TxTheorems.v
Consensus.v
CodeWitness.v
Transitions.v
Receipt.v
TxEnv.v
Executor.v
Build.v
Engine.v
Payload.v
PayloadEntry.v
Replay.v
Sync.v
PoolTx.v
PoolCapacity.v
PoolValidator.v
PoolAdmission.v
PoolMaintenance.v
PoolTask.v
Wire.v
WireNet.v
Follow.v
RpcFee.v
RpcTypes.v
RpcBuilder.v
Node.v
Start.v
Witness.v
