(* ===== verification/Prelude.v ===== *)
(** * dogeos-reth: verification library

    A model in Rocq of the DogeOS node, and the theorems that make it correct.
    Definitions keep the names of the Rust items they translate; each file opens
    with the sources it models. Paths are below src/crates.

    ** The program and its parts

    DogeOS is a Scroll-style rollup on reth. A chain specification schedules
    forks; transactions arrive over the RPC and wait in the pool, or are forced
    by the Engine API (L1 messages among them); the payload builder executes
    them and assembles a block; a node that learns of the block over the wire
    checks who signed it, imports it through its engine, recomputes the base fee
    and executes it again. The files follow that path:

    - [Prelude]: machine integers with their wrap-around, [result] and
      [outcome] (a computation that may panic), fallible state passing
      ([sresult]), loops over lists, labelled runs and their simulation, and the
      tactics all files share.
    - [Hardforks] (dogeos-hardforks): the forks, the built-in schedules, the
      sorted schedule and its binary search.
    - [GenesisConfig] (dogeos-chainspec/src/genesis.rs, constants.rs): the fork
      times and the sequencer configuration of a genesis document as JSON, the
      strict readers and the writer serde derives, their validation.
    - [ChainSpec] (dogeos-chainspec/src/lib.rs): the construction of a
      specification, base-fee parameters, fork-filter keys.
    - [Networks] (dogeos-chainspec): the embedded genesis documents, the specs
      built from them, and the builder that changes one.
    - [Chain]: headers, accounts, the database interface and its laws.
    - [BaseFee] (dogeos-reth-evm/src/base_fee.rs): the base fee from the parent
      and the overhead stored in the system-config contract.
    - [Alloy], [AlloyRef]: interfaces of the transaction libraries with their
      laws, and a concrete instance of them that the witnesses run on.
    - [TxType], [L1Message], [Envelope], [Typed], [Pooled], [TxTheorems]
      (dogeos-protocol-types/src/transaction): transaction types, L1 messages,
      the three transaction enums with their encodings, and their theorems.
    - [Consensus] (dogeos-reth-consensus): header, parent, body and
      post-execution checks; the order of L1 messages.
    - [CodeWitness] (dogeos-reth-evm/src/code_witness.rs): the meter of distinct
      code and the inspector hooks that feed it.
    - [Transitions] (dogeos-reth-evm/src/transitions): the state changes of the
      Feynman, GalileoV2 and Tsuki forks.
    - [Receipt] (dogeos-protocol-types/src/receipt,
      dogeos-reth-primitives/src/receipt.rs): receipts and their four encodings.
    - [TxEnv] (dogeos-reth-evm/src/tx): transaction environments, compression.
    - [Executor] (dogeos-reth-evm/src/block and what it calls): the block
      executor as a state machine over the EVM, its database, the receipts and
      the gas counter. The code-witness inspector is a field of its EVM.
    - [Build] (dogeos-reth-evm/src/config.rs, build.rs, lib.rs): block
      environments, the EVM factory, the import hook of the base fee, block
      assembly.
    - [Engine] (dogeos-reth-engine): payload attributes, the payload
      identifier, the Engine validator, built payloads and their answers.
    - [Payload] (dogeos-reth-payload): configuration, forced transactions, and
      the build of a candidate over the executor of [Executor].
    - [PayloadEntry] (dogeos-reth-payload/src/builder.rs): the methods reth calls
      on the payload builder, among them the payload without a pool.
    - [Replay]: a build and the import of its block as two runs of the executor
      of [Executor] from states with the same contents, related step by step.
    - [Sync]: a node that follows another block after block: the header checks
      of [Consensus], then the import of [Replay].
    - [PoolTx], [PoolCapacity], [PoolValidator], [PoolAdmission],
      [PoolMaintenance] (dogeos-reth-txpool): the pool's transactions; the
      bounded executor of validations, as interleaved steps; the validator with
      its cache of L1 fees; the simulation that meters code before admission;
      the base fee the pool enforces, and the calls that pass through.
    - [PoolTask] (dogeos-reth-node/src/pool.rs): how the node builds the pool,
      and the task that keeps the fee cache current.
    - [Wire], [WireNet] (dogeos-scroll-wire, dogeos-reth-node/src/wire_import.rs):
      announcements and their bytes, the signing hash; connections, the manager
      and the importer that hands authorized blocks to the engine.
    - [Follow]: the composition of all of these, from the block one node builds
      to the state of a node that hears of it: [WireNet], [Engine], [Consensus],
      [Sync].
    - [RpcFee], [RpcTypes], [RpcBuilder] (dogeos-reth-rpc, dogeos-rpc-types): fee
      suggestions, fee history, forwarding and the sequencer's client, and the
      methods they register; requests, answers for transactions and receipts, and
      their converters; the builder a client fills a request through.
    - [Witness] (dogeos-reth-evm/src/witness_state.rs,
      dogeos-reth-rpc/src/witness.rs): the message-queue state a witness must
      hold, and the endpoint that answers with the witness of a block.
    - [Node] (dogeos-reth-node): the command line, the parts it configures, body
      storage, the attributes of local and pending blocks.
    - [Start] (src/bin/dogeos-reth): the chain a command line names, and the
      start of the node on it.

    ** State and interaction

    The executor's state is [Executor.ScrollBlockExecutor]; the fork
    transitions and the base fee run on the database inside its EVM ([on_db]).
    The payload builder's state is that executor with the transactions
    committed so far. Its code-witness handle is not a copy: [Payload.meter_of]
    and [Payload.set_meter] read and write the inspector of the executor's EVM,
    as the shared handle does, so a hook that runs during execution is seen by
    the check before the commit. The environment of a build comes from
    [Build.next_evm_env], its base fee from [BaseFee.next_block_base_fee]; the
    admission simulation and the pool's maintenance use the same two.

    A builder and an importer never share a state. [Replay.exec_sim] relates
    their executors: the same receipts, gas and environment, databases with the
    same contents ([same_contents], an equivalence that rewrites), and whatever
    inspector each has. [Replay.ReplayLaws] states of revm that its results
    depend on no more than that, unless the inspector stops a run; a failed read
    of the importer's database is the one difference the theorems leave open.

    What runs concurrently is a run of steps. [PoolCapacity.State] holds the
    semaphores and the jobs of requests that interleave; [PoolTask.task_step]
    interleaves the fee task with a node that moves at any moment;
    [WireNet.World] holds the channels of a node that its connections, its
    manager and its importer share. A provider is read at a moment: [moves] of
    [PoolValidator] orders the moments, so a head can change between two reads.
    A lock is sequential access, since each critical section is one call.

    External code is an interface: a class of operations, and a class of laws
    that state its documented behaviour. [Alloy] has codecs, signed
    transactions and EIP-2718; [Chain] the database and reth's header checks;
    [BaseFee] the EIP-1559 formula; [TxEnv] zstd and the Ethereum environments;
    [Executor] revm, whose laws say that it keeps the environment, runs hooks
    only, and uses at most a transaction's gas limit; [Engine] the conversion
    between payloads and blocks; [Payload] reth's block builder and the pool
    iterator; [PoolValidator] reth's validator and the provider; [PoolAdmission]
    the disposable overlay of a state; [PoolTask] tokio's broadcast channel and
    clock; [Wire] and [WireNet] the RLP of blocks, the LRU set and the engine
    handle; [GenesisConfig] the readers of addresses and hashes; [RpcFee] and
    [RpcTypes] the block cache, HTTP and WebSocket clients, reth's own fee history,
    alloy's requests and the JSON objects of serde; [Witness] revm's caching
    state and the recorder; [Networks] reth's own spec builder. Each is
    instantiated once ([ref_*], [mem_*]) and the witnesses apply the theorems to
    concrete inputs over these instances.

    ** What the theorems show

    - Execution: gas accounting over any run, all outcomes of a transaction,
      cached compression, fork transitions that run once and are idempotent.
    - Building: a filled candidate keeps the gas, code and DA budgets; forced
      transactions are kept in order and dropped only when invalid; the pool
      loop ends by the clock; the gas limit ramps to its target within the bound;
      the payload built in an emergency is the one of the forced transactions.
    - Building against importing: an assembled block passes the consensus
      checks, is executed in the same environment, and carries the one base
      fee the import hook accepts; it survives the Engine API and storage. Its
      import gives the receipts, gas and state of the build, from the block or
      from the bytes of its payload; a node that follows a builder accepts the
      whole chain it builds and ends in its state, and so does one that only
      hears the frames the builder announces it with: frames, events, payloads,
      the conversion back, the body and header checks, the import.
    - Consensus: the header, body, gas-limit and L1-message checks accept
      exactly the blocks their specification describes.
    - The pool: what is admitted, exactly; an admitted sender can pay what
      execution charges; the verdict of the simulation and its environment; the
      bounded executor refines an abstract server and always drains; the fee
      cache refines its specification, is never stale past a message the task
      took, and recovers from a failure without a new block.
    - The wire: one announcement, one frame, one call of the engine; only
      authorized blocks, each once; no sender is leaked; the import loop drains;
      what a signature commits to; a node started on a public chain gives its
      engine nothing but blocks the signer of its command line signed.
    - The RPC: the fee suggestion and history; a client's settings are kept, the
      last of a field, and requests never build an L1 message or a blob transaction; answers for transactions and receipts lead
      back to what they were made from; forwarding follows the local pool.
    - The node: limits accepted on the command line build, and reach every part
      they govern; stored bodies are read back.
    - Fees: the rule of EIP-1559 above the overhead and the clamp of each fork,
      bounds, agreement of the entry points, the fee the pool enforces.
    - Metering: exact and bounded accounting over any interleaving of hooks.
    - Encodings: round trips of transactions and receipts through their wire
      and storage forms, agreement of the views of one transaction.
    - Witnesses: no panic, the queue slots recorded with the values of the
      state, the header of every block whose hash was read.
    - Configuration: a written configuration is read back, in any order of its
      keys, and an unknown key is refused; schedule lookup, activation order,
      custom genesis; the built-in specs follow the built-in schedules; a spec
      rebuilt is itself.

    ** Bounds and fuel

    Integers are mathematical with their machine range as a hypothesis
    ([in_u64] and the like); additions that wrap in a release build are
    [wrap_u64], and the theorems show where they cannot. Loops whose length the
    environment decides have fuel, and a theorem that enough of it gives the
    result: [Payload.pool_loop] ends once its time is up or the build is cancelled,
    however many transactions the pool yields ([pool_loop_stops_in_time]), unless
    they are ones it skips for ever; [WireNet.run] needs one more than the waiting
    events ([import_loop_drains]); [PoolTask.drain] one more than the
    messages sent during startup ([startup_drains]). The refresh of the fee
    cache has its own bound of three attempts, in the code.

    ** Not modelled

    The EVM itself, tries and roots; sockets, HTTP clients and the server behind
    the RPC methods; reth's construction of its validator, its RPC and its
    network, its fork choice, and its command line other than running the node;
    JSON and serde shapes beyond the genesis configuration, the tagged forms of
    transactions and the fields of answered transactions. [Sync] leaves out the
    check of a block's body, which [Follow] has. Methods that only read a field or
    forward to a wrapped library type (accessors of the EVM and of receipts) are
    left out where no claim depends on them: they are most of what the map does
    not cover, with tests, trait bounds, imports and derived code. *)

From stdpp Require Import prelude gmap strings list.
From Stdlib Require Import ZArith Lia.

(** ** Scope and basic types *)

Declare Scope dogeos_scope.
Delimit Scope dogeos_scope with dogeos.
#[global] Open Scope Z_scope.
#[global] Open Scope dogeos_scope.

(** 160-bit addresses, 256-bit hashes and 256-bit words are kept as the integer
    they denote; a byte is an integer in [0, 256). *)
Abbreviation Address := Z.
Abbreviation B256 := Z.
Abbreviation U256 := Z.
Abbreviation bytes := (list Z).

(** ** Machine integers

    Rust's [u64], [u128] and [U256] as integers with their range written out.
    [+], [-] and [*] on machine integers wrap in the release profile (the
    workspace sets no [overflow-checks]); the [saturating_*] and [checked_*]
    methods of the standard library are the definitions below. *)

Definition u8_max : Z := 2 ^ 8 - 1.
Definition u32_max : Z := 2 ^ 32 - 1.
Definition u64_max : Z := 2 ^ 64 - 1.
Definition u128_max : Z := 2 ^ 128 - 1.
Definition u256_max : Z := 2 ^ 256 - 1.

Definition in_u8 (x : Z) : Prop := 0 <= x <= u8_max.
Definition in_u64 (x : Z) : Prop := 0 <= x <= u64_max.
Definition in_u128 (x : Z) : Prop := 0 <= x <= u128_max.
Definition in_u256 (x : Z) : Prop := 0 <= x <= u256_max.
Definition in_address (a : Z) : Prop := 0 <= a < 2 ^ 160.

Definition wrap (max x : Z) : Z := x mod (max + 1).
Definition wrap_u64 (x : Z) : Z := wrap u64_max x.
Definition saturating_add (max a b : Z) : Z := Z.min (a + b) max.
Definition saturating_sub (a b : Z) : Z := Z.max (a - b) 0.
Definition saturating_mul (max a b : Z) : Z := Z.min (a * b) max.
Definition saturating_to (max a : Z) : Z := Z.min a max.
Definition checked_add (max a b : Z) : option Z :=
  if a + b <=? max then Some (a + b) else None.
Definition abs_diff (a b : Z) : Z := Z.abs (a - b).

(** [Ord::clamp]; the standard library panics when [lo > hi]. *)
Definition clamp (x lo hi : Z) : Z := Z.min (Z.max x lo) hi.

Ltac unfold_ints :=
  unfold in_u8, in_u64, in_u128, in_u256, wrap_u64, wrap, saturating_add,
    saturating_sub, saturating_mul, saturating_to, abs_diff, clamp,
    u8_max, u32_max, u64_max, u128_max, u256_max in *.

(** Closes linear goals over machine integers. *)
Ltac solve_ints := unfold_ints; lia.

Create HintDb ints.
Create Rewrite HintDb ints.

Lemma saturating_add_range max a b :
  0 <= max -> 0 <= a -> 0 <= b -> 0 <= saturating_add max a b <= max.
Proof. solve_ints. Qed.

Lemma saturating_sub_range max a b :
  0 <= a <= max -> 0 <= b -> 0 <= saturating_sub a b <= max.
Proof. solve_ints. Qed.

Lemma saturating_add_exact max a b :
  a + b <= max -> saturating_add max a b = a + b.
Proof. solve_ints. Qed.

Lemma wrap_u64_small x : in_u64 x -> wrap_u64 x = x.
Proof. intros H. unfold wrap_u64, wrap. apply Z.mod_small. solve_ints. Qed.

#[export] Hint Resolve saturating_add_range saturating_sub_range : ints.
#[export] Hint Rewrite saturating_add_exact wrap_u64_small using solve_ints : ints.

(** ** Fallible code

    [result] is Rust's [Result]; [outcome] is a computation that may panic
    ([expect], [unreachable!], out-of-bounds slicing). *)

Inductive result (A E : Type) : Type :=
| Ok (a : A)
| Err (e : E).
Arguments Ok {A E} a.
Arguments Err {A E} e.

Inductive outcome (A : Type) : Type :=
| Returns (a : A)
| Panics (msg : string).
Arguments Returns {A} a.
Arguments Panics {A} msg.

Section Results.
Context {A B E F : Type}.

Definition rbind (m : result A E) (f : A -> result B E) : result B E :=
  match m with Ok a => f a | Err e => Err e end.

Definition rmap (f : A -> B) (m : result A E) : result B E :=
  match m with Ok a => Ok (f a) | Err e => Err e end.

Definition map_err (f : E -> F) (m : result A E) : result A F :=
  match m with Ok a => Ok a | Err e => Err (f e) end.

Definition ok_or (o : option A) (e : E) : result A E :=
  match o with Some a => Ok a | None => Err e end.

Definition is_ok (m : result A E) : bool :=
  match m with Ok _ => true | Err _ => false end.

Lemma rbind_Ok m f b :
  rbind m f = Ok b <-> exists a, m = Ok a /\ f a = Ok b.
Proof. destruct m; naive_solver. Qed.

Lemma rbind_Err m f e :
  rbind m f = Err e <-> m = Err e \/ exists a, m = Ok a /\ f a = Err e.
Proof. destruct m; naive_solver. Qed.

Lemma rmap_Ok f m b : rmap f m = Ok b <-> exists a, m = Ok a /\ b = f a.
Proof. destruct m; naive_solver. Qed.

Lemma map_err_Ok f m a : map_err f m = Ok a <-> m = Ok a.
Proof. destruct m; naive_solver. Qed.
End Results.

Notation "'let?' x := m 'in' k" := (rbind m (fun x => k))
  (at level 10, x binder, m at level 100, k at level 200,
   format "'let?'  x  :=  m  'in' '//' k") : dogeos_scope.

(** Splits every hypothesis that says a monadic computation succeeded. *)
Ltac result_inv :=
  repeat match goal with
  | H : rbind _ _ = Ok _ |- _ => apply rbind_Ok in H; destruct H as (? & ? & ?)
  | H : rmap _ _ = Ok _ |- _ => apply rmap_Ok in H; destruct H as (? & ? & ?)
  | H : map_err _ _ = Ok _ |- _ => apply map_err_Ok in H
  | H : Ok _ = Ok _ |- _ => injection H as H; try subst
  | H : Err _ = Ok _ |- _ => discriminate H
  | H : Ok _ = Err _ |- _ => discriminate H
  | H : context [let '(_, _) := ?p in _] |- _ => destruct p eqn:?
  end.

(** Reduces boolean comparisons to propositions. *)
Ltac bool_to_prop :=
  repeat match goal with
  | H : (_ <=? _) = true |- _ => apply Z.leb_le in H
  | H : (_ <=? _) = false |- _ => apply Z.leb_gt in H
  | H : (_ <? _) = true |- _ => apply Z.ltb_lt in H
  | H : (_ <? _) = false |- _ => apply Z.ltb_ge in H
  | H : (_ =? _) = true |- _ => apply Z.eqb_eq in H
  | H : (_ =? _) = false |- _ => apply Z.eqb_neq in H
  | H : andb _ _ = true |- _ => apply andb_prop in H; destruct H
  | H : orb _ _ = false |- _ => apply orb_false_elim in H; destruct H
  | H : negb _ = true |- _ => apply negb_true_iff in H
  | H : negb _ = false |- _ => apply negb_false_iff in H
  end.

(** ** Iteration of a fallible step over a list *)

Section TryFold.
Context {S A E : Type} (step : S -> A -> result S E).

Fixpoint try_fold (s : S) (l : list A) : result S E :=
  match l with
  | [] => Ok s
  | a :: l => rbind (step s a) (fun s => try_fold s l)
  end.

Lemma try_fold_app s l1 l2 :
  try_fold s (l1 ++ l2) = rbind (try_fold s l1) (fun s' => try_fold s' l2).
Proof.
  revert s. induction l1 as [|a l1 IH]; intros s; simpl; [done|].
  destruct (step s a); simpl; auto.
Qed.

(** A property every step keeps holds of the result of the whole loop. *)
Lemma try_fold_invariant (P : S -> Prop) s l s' :
  (forall s a s', P s -> a ∈ l -> step s a = Ok s' -> P s') ->
  P s -> try_fold s l = Ok s' -> P s'.
Proof.
  revert s. induction l as [|a l IH]; intros s Hstep Hs H; simpl in H.
  - by simplify_eq.
  - apply rbind_Ok in H as (s1 & H1 & H2).
    apply (IH s1); [|by eapply Hstep; [exact Hs|left|exact H1]|done].
    intros. eapply Hstep; eauto. by right.
Qed.
End TryFold.

Section TryMap.
Context {A B E : Type} (f : A -> result B E).

(** [Iterator::map] followed by [collect::<Result<Vec<_>, _>>]. *)
Fixpoint try_map (l : list A) : result (list B) E :=
  match l with
  | [] => Ok []
  | a :: l => rbind (f a) (fun b => rbind (try_map l) (fun bs => Ok (b :: bs)))
  end.

Lemma try_map_Ok l bs :
  try_map l = Ok bs <-> Forall2 (fun a b => f a = Ok b) l bs.
Proof.
  revert bs. induction l as [|a l IH]; intros bs; simpl; split; intros H.
  - by simplify_eq.
  - by inversion H.
  - result_inv. constructor; [done|]. by apply IH.
  - inversion H as [|? b ? bs' Hb Hl]; subst. rewrite Hb. simpl.
    apply IH in Hl. by rewrite Hl.
Qed.
End TryMap.

(** ** Labelled runs

    Programs that interleave (requests, a moving chain head) are runs of an
    executable step: a label the state does not allow has no successor. *)

Section Runs.
Context {S L : Type} (step : S -> L -> option S).

Fixpoint lsteps (s : S) (l : list L) : option S :=
  match l with
  | [] => Some s
  | a :: l => match step s a with Some s => lsteps s l | None => None end
  end.

Lemma lsteps_app s l1 l2 :
  lsteps s (l1 ++ l2) = match lsteps s l1 with Some s => lsteps s l2 | None => None end.
Proof. revert s. induction l1 as [|a l1 IH]; intros s; simpl; [done|]. by destruct (step s a). Qed.

(** A property that every step keeps holds after every run. *)
Lemma lsteps_invariant (P : S -> Prop) s l s' :
  (forall s a s', P s -> step s a = Some s' -> P s') -> P s -> lsteps s l = Some s' -> P s'.
Proof.
  intros Hstep. revert s. induction l as [|a l IH]; intros s Hs; simpl; [by intros [= <-]|].
  destruct (step s a) as [s1|] eqn:E; [|done]. by apply IH, (Hstep s a).
Qed.
End Runs.

Section Simulation.
Context {S1 L1 S2 L2 : Type} (step1 : S1 -> L1 -> option S1) (step2 : S2 -> L2 -> option S2)
  (inv : S1 -> Prop) (abs : S1 -> S2) (lab : S1 -> L1 -> list L2).

(** The abstract labels of a run: each concrete step stands for some abstract ones,
    none when it stutters. *)
Fixpoint abs_labels (s : S1) (l : list L1) : list L2 :=
  match l with
  | [] => []
  | a :: l => lab s a ++ match step1 s a with Some s => abs_labels s l | None => [] end
  end.

(** A forward simulation carries over to runs. *)
Lemma simulation_run s l s' :
  (forall s a s', inv s -> step1 s a = Some s' ->
     inv s' /\ lsteps step2 (abs s) (lab s a) = Some (abs s')) ->
  inv s -> lsteps step1 s l = Some s' ->
  inv s' /\ lsteps step2 (abs s) (abs_labels s l) = Some (abs s').
Proof.
  intros Hsim. revert s. induction l as [|a l IH]; intros s Hs; simpl; [by intros [= <-]|].
  destruct (step1 s a) as [s1|] eqn:E; [|done]. intros Hr.
  destruct (Hsim s a s1 Hs E) as [Hi Ha]. rewrite lsteps_app, Ha. by apply IH.
Qed.
End Simulation.

(** ** Fallible code over a mutable state

    A computation that reads and writes a state and may fail; the state reached
    is kept on failure. The notation is stdpp's monadic one. *)

Definition sresult (S E A : Type) : Type := S -> result A E * S.

#[export] Instance sresult_ret S E : MRet (sresult S E) := fun A a s => (Ok a, s).
#[export] Instance sresult_bind S E : MBind (sresult S E) := fun A B f m s =>
  match m s with
  | (Ok a, s) => f a s
  | (Err e, s) => (Err e, s)
  end.

Lemma sbind_Ok {S E A B} (m : sresult S E A) (f : A -> sresult S E B) s b s' :
  (m ≫= f) s = (Ok b, s') <-> exists a s1, m s = (Ok a, s1) /\ f a s1 = (Ok b, s').
Proof.
  unfold mbind, sresult_bind. destruct (m s) as [[a|e] s1]; naive_solver.
Qed.

Lemma sret_Ok {S E A} (a b : A) (s s' : S) :
  (mret a : sresult S E A) s = (Ok b, s') <-> a = b /\ s = s'.
Proof. unfold mret, sresult_ret. naive_solver. Qed.

(** A run that succeeds, by evaluation of its flag. *)
Lemma sresult_run {S E A} (m : sresult S E A) s :
  is_ok (m s).1 = true -> exists a, m s = (Ok a, (m s).2).
Proof. destruct (m s) as [[a|e] s']; [by exists a|done]. Qed.

(** Splits every hypothesis that says such a computation succeeded. *)
Ltac sresult_inv :=
  repeat match goal with
  | H : (_ ≫= _) _ = (Ok _, _) |- _ =>
      apply sbind_Ok in H; let a := fresh "v" in let s := fresh "db" in
      let H1 := fresh "H" in destruct H as (a & s & H1 & H)
  | H : mret _ _ = (Ok _, _) |- _ => apply sret_Ok in H; destruct H; subst
  end.

(** ** Lists *)

Lemma omap_cons {A B} (f : A -> option B) x l :
  omap f (x :: l) = match f x with Some y => y :: omap f l | None => omap f l end.
Proof. reflexivity. Qed.
