(* ===== verification/Hardforks.v ===== *)
(** * Hardfork policy (crates/dogeos-hardforks)

    The ordered DogeOS hardforks, the activation conditions of the three
    networks, the sorted schedule with its binary search, and the helpers of
    the [DogeosHardforks] trait.

    [ForkCondition] and its activation tests come from [alloy_hardforks]: the
    variants the code builds or matches are the constructors below (of [TTD]
    only the field the code reads is kept), and the tests are the operations
    of the interface [AlloyForks] with the laws the crate documents. *)

From stdpp Require Import prelude list strings.
From Stdlib Require Import ZArith Lia Sorting.Sorted.
From S2P Require Import Prelude.

(** ** The external fork conditions *)

Inductive ForkCondition : Type :=
| Block (number : Z)
| TTD (fork_block : option Z)
| Timestamp (time : Z)
| Never.

#[export] Instance ForkCondition_eq_dec : EqDecision ForkCondition.
Proof. solve_decision. Defined.

Class AlloyForks := {
  active_at_timestamp : ForkCondition -> Z -> bool;
  active_at_timestamp_or_number : ForkCondition -> Z -> Z -> bool;
  condition_leb : ForkCondition -> ForkCondition -> bool;
}.

Class AlloyForksLaws `{AlloyForks} : Prop := {
  active_at_timestamp_Timestamp t now :
    active_at_timestamp (Timestamp t) now = (t <=? now);
  active_at_timestamp_Never now : active_at_timestamp Never now = false;
  active_at_timestamp_Block n now : active_at_timestamp (Block n) now = false;
  active_at_or_number_Timestamp t now n :
    active_at_timestamp_or_number (Timestamp t) now n = (t <=? now);
  active_at_or_number_Never now n :
    active_at_timestamp_or_number Never now n = false;
}.

(** The documented behaviour as a program, for concrete runs. *)
Definition ref_active (c : ForkCondition) (now : Z) : bool :=
  match c with Timestamp t => t <=? now | _ => false end.

#[export] Instance ref_forks : AlloyForks := {
  active_at_timestamp := ref_active;
  active_at_timestamp_or_number c now n :=
    match c with Block b => b <=? n | _ => ref_active c now end;
  condition_leb _ _ := true;
}.

#[export] Instance ref_forks_laws : AlloyForksLaws.
Proof. by split. Qed.

(** ** Hardfork identifiers and schedules *)

Inductive DogeosHardfork : Type := Feynman | Galileo | GalileoV2 | Tsuki | TsukiV2.

#[export] Instance DogeosHardfork_eq_dec : EqDecision DogeosHardfork.
Proof. solve_decision. Defined.

(** The order derived from the declaration order of the variants. *)
Definition hardfork_index (f : DogeosHardfork) : Z :=
  match f with
  | Feynman => 0 | Galileo => 1 | GalileoV2 => 2 | Tsuki => 3 | TsukiV2 => 4
  end.

#[export] Instance hardfork_index_inj : Inj (=) (=) hardfork_index.
Proof. by intros [] []. Qed.

Definition hardfork_cmp (f g : DogeosHardfork) : comparison :=
  hardfork_index f ?= hardfork_index g.

Definition CHIKYU_TSUKI_V2_TIMESTAMP : Z := 1798761600.

Definition chikyu : list (DogeosHardfork * ForkCondition) :=
  [ (Feynman, Timestamp 0);
    (Galileo, Timestamp 1790030800);
    (GalileoV2, Timestamp 1790030800);
    (Tsuki, Timestamp 1790030900);
    (TsukiV2, Timestamp CHIKYU_TSUKI_V2_TIMESTAMP) ].

Definition mainnet : list (DogeosHardfork * ForkCondition) :=
  [ (Feynman, Timestamp 0); (Galileo, Timestamp 0); (GalileoV2, Timestamp 0);
    (Tsuki, Timestamp 0); (TsukiV2, Timestamp 0) ].

Definition dev : list (DogeosHardfork * ForkCondition) :=
  [ (Feynman, Timestamp 0); (Galileo, Timestamp 0); (GalileoV2, Timestamp 0);
    (Tsuki, Timestamp 0); (TsukiV2, Timestamp 0) ].

(** ** The trait [DogeosHardforks] *)

Class DogeosHardforks (S : Type) := {
  dogeos_fork_activation : S -> DogeosHardfork -> ForkCondition;
}.

Section TraitMethods.
Context `{AlloyForks} {S : Type} `{DogeosHardforks S}.

Definition is_feynman_active_at_timestamp (s : S) (timestamp : Z) : bool :=
  active_at_timestamp (dogeos_fork_activation s Feynman) timestamp.

Definition is_tsuki_active_at_timestamp (s : S) (timestamp : Z) : bool :=
  active_at_timestamp (dogeos_fork_activation s Tsuki) timestamp.

Definition is_tsuki_v2_active_at_timestamp (s : S) (timestamp : Z) : bool :=
  active_at_timestamp (dogeos_fork_activation s TsukiV2) timestamp.
End TraitMethods.

(** ** The sorted schedule *)

Record DogeosChainHardforks := { forks : list (DogeosHardfork * ForkCondition) }.

(** The order of [(DogeosHardfork, ForkCondition)] pairs: lexicographic. *)
Definition entry_leb `{AlloyForks} (a b : DogeosHardfork * ForkCondition) : bool :=
  match hardfork_cmp a.1 b.1 with
  | Lt => true
  | Gt => false
  | Eq => condition_leb a.2 b.2
  end.

(** [slice::sort], a stable sort; insertion sort computes the same list. *)
Section Sort.
Context `{AlloyForks}.

Fixpoint insert_entry (a : DogeosHardfork * ForkCondition)
    (l : list (DogeosHardfork * ForkCondition)) : list (DogeosHardfork * ForkCondition) :=
  match l with
  | [] => [a]
  | b :: l' => if entry_leb a b then a :: b :: l' else b :: insert_entry a l'
  end.

Definition sort_entries (l : list (DogeosHardfork * ForkCondition)) :
    list (DogeosHardfork * ForkCondition) :=
  foldr insert_entry [] l.

Definition new_schedule (l : list (DogeosHardfork * ForkCondition)) : DogeosChainHardforks :=
  {| forks := sort_entries l |}.
End Sort.

(** [slice::binary_search_by] of the standard library: halve the window
    [[base, base + size)] until one element is left, then test it. The fuel is
    the length of the slice, which bounds the number of halvings. *)
Section BinarySearch.
Context {A : Type} (f : A -> comparison).

Fixpoint search_base (fuel size base : nat) (l : list A) : nat :=
  match fuel with
  | O => base
  | S fuel =>
      if (size <=? 1)%nat then base
      else
        let half := (size / 2)%nat in
        let mid := (base + half)%nat in
        let base' :=
          match l !! mid with
          | Some a => match f a with Gt => base | _ => mid end
          | None => base
          end in
        search_base fuel (size - half)%nat base' l
  end.

Definition binary_search_by (l : list A) : option nat :=
  match l with
  | [] => None
  | _ =>
      let base := search_base (length l) (length l) 0 l in
      match l !! base with
      | Some a => match f a with Eq => Some base | _ => None end
      | None => None
      end
  end.
End BinarySearch.

Definition schedule_fork_activation (s : DogeosChainHardforks) (fork : DogeosHardfork) :
    ForkCondition :=
  match binary_search_by (fun e => hardfork_cmp e.1 fork) (forks s) with
  | Some index => match forks s !! index with Some e => e.2 | None => Never end
  | None => Never
  end.

#[export] Instance DogeosChainHardforks_hardforks : DogeosHardforks DogeosChainHardforks :=
  { dogeos_fork_activation := schedule_fork_activation }.

(** The Ethereum baseline of a schedule: every fork up to London at block 0,
    Shanghai at time 0, nothing later. *)
Inductive EthereumHardfork : Type :=
| Frontier | Homestead | Tangerine | SpuriousDragon | Byzantium | Constantinople
| Petersburg | Istanbul | Berlin | London | Shanghai
| LaterEthereumFork (name : string).

Definition ethereum_fork_activation (s : DogeosChainHardforks) (fork : EthereumHardfork) :
    ForkCondition :=
  match fork with
  | Frontier | Homestead | Tangerine | SpuriousDragon | Byzantium | Constantinople
  | Petersburg | Istanbul | Berlin | London => Block 0
  | Shanghai => Timestamp 0
  | LaterEthereumFork _ => Never
  end.

(** The reference reading of a schedule: the condition listed for the fork. *)
Fixpoint listed_condition (l : list (DogeosHardfork * ForkCondition)) (fork : DogeosHardfork) :
    ForkCondition :=
  match l with
  | [] => Never
  | e :: l => if decide (e.1 = fork) then e.2 else listed_condition l fork
  end.

(** ** Lemmas *)

Definition entries_sorted (l : list (DogeosHardfork * ForkCondition)) : Prop :=
  forall i j a b, (i <= j)%nat -> l !! i = Some a -> l !! j = Some b ->
    hardfork_index a.1 <= hardfork_index b.1.

Section SortLemmas.
Context `{AlloyForks}.

Lemma insert_entry_permutation a l : insert_entry a l ≡ₚ a :: l.
Proof.
  induction l as [|b l IH]; simpl; [done|].
  destruct (entry_leb a b); [done|]. rewrite IH. constructor.
Qed.

Lemma sort_entries_permutation l : sort_entries l ≡ₚ l.
Proof.
  induction l as [|a l IH]; simpl; [done|]. by rewrite insert_entry_permutation, IH.
Qed.

Lemma entry_leb_true a b : entry_leb a b = true -> hardfork_index a.1 <= hardfork_index b.1.
Proof.
  unfold entry_leb, hardfork_cmp.
  destruct (Z.compare_spec (hardfork_index a.1) (hardfork_index b.1)); try done; lia.
Qed.

Lemma entry_leb_false a b : entry_leb a b = false -> hardfork_index b.1 <= hardfork_index a.1.
Proof.
  unfold entry_leb, hardfork_cmp.
  destruct (Z.compare_spec (hardfork_index a.1) (hardfork_index b.1)); try done; lia.
Qed.

Definition key_le (a b : DogeosHardfork * ForkCondition) : Prop :=
  hardfork_index a.1 <= hardfork_index b.1.

Lemma insert_entry_sorted a l :
  StronglySorted key_le l -> StronglySorted key_le (insert_entry a l).
Proof.
  induction 1 as [|b l Hl IH Hb]; simpl; [by repeat constructor|].
  destruct (entry_leb a b) eqn:E.
  - apply entry_leb_true in E. constructor; [by constructor|].
    constructor; [done|]. eapply Forall_impl; [exact Hb|].
    unfold key_le. intros; lia.
  - apply entry_leb_false in E. constructor; [done|].
    rewrite insert_entry_permutation. by constructor.
Qed.

Lemma sort_entries_sorted l : StronglySorted key_le (sort_entries l).
Proof. induction l; simpl; [constructor|]. by apply insert_entry_sorted. Qed.
End SortLemmas.

Lemma strongly_sorted_entries l : StronglySorted key_le l -> entries_sorted l.
Proof.
  intros Hs i j a b Hij Ha Hb.
  destruct (decide (i = j)) as [->|]; [naive_solver lia|].
  revert i j Hij n Ha Hb. induction Hs as [|c l Hl IH Hc]; intros [|i] [|j] Hij Hne Ha Hb;
    simpl in *; simplify_eq; try lia.
  - rewrite Forall_forall in Hc. apply Hc. by eapply list_elem_of_lookup_2.
  - eapply (IH i j); eauto; lia.
Qed.

Lemma search_base_step {A} (f : A -> comparison) fuel size base l :
  search_base f (S fuel) size base l =
  if (size <=? 1)%nat then base
  else search_base f fuel (size - size / 2)%nat
    match l !! (base + size / 2)%nat with
    | Some a => match f a with Gt => base | _ => (base + size / 2)%nat end
    | None => base
    end l.
Proof. reflexivity. Qed.

(** If the target's key is at index [t] of the window of a sorted list, it is
    the element the halving ends on, provided the key occurs once. *)
Lemma search_base_finds l fork t e :
  entries_sorted l -> NoDup l.*1 -> l !! t = Some e -> e.1 = fork ->
  forall fuel size base,
  (size <= fuel)%nat -> (base + size <= length l)%nat -> (0 < size)%nat ->
  (base <= t < base + size)%nat ->
  search_base (fun x => hardfork_cmp x.1 fork) fuel size base l = t.
Proof.
  intros Hs Hnd Ht He fuel.
  induction fuel as [|fuel IH]; intros size base Hf Hlen Hpos Hin; [lia|].
  rewrite search_base_step.
  destruct (Nat.leb_spec size 1) as [|Hsize]; [lia|].
  pose proof (Nat.div_lt size 2 ltac:(lia) ltac:(lia)).
  assert (0 < size / 2)%nat by (apply Nat.div_str_pos; lia).
  pose proof (Nat.Div0.mul_div_le size 2).
  destruct (lookup_lt_is_Some_2 l (base + size / 2)) as [x Hx]; [lia|]. rewrite Hx.
  unfold hardfork_cmp.
  destruct (Z.compare_spec (hardfork_index x.1) (hardfork_index fork)) as [Heq|Hlt|Hgt].
  - apply (inj hardfork_index) in Heq.
    assert (t = (base + size / 2)%nat) as Hmid.
    { eapply (NoDup_lookup l.*1 _ _ fork); [done|..]; rewrite list_lookup_fmap.
      - rewrite Ht. simpl. by rewrite He.
      - rewrite Hx. simpl. by rewrite Heq. }
    apply IH; lia.
  - assert (base + size / 2 <= t)%nat.
    { destruct (decide (base + size / 2 <= t)%nat) as [|Hn]; [done|].
      pose proof (Hs t (base + size / 2)%nat e x ltac:(lia) Ht Hx). rewrite He in *. lia. }
    apply IH; lia.
  - assert (t < base + size / 2)%nat.
    { destruct (decide (t < base + size / 2)%nat) as [|Hn]; [done|].
      pose proof (Hs (base + size / 2)%nat t x e ltac:(lia) Hx Ht). rewrite He in *. lia. }
    apply IH; lia.
Qed.

Lemma search_base_in_range {A} (f : A -> comparison) l fuel size base :
  (base < length l)%nat -> (search_base f fuel size base l < length l)%nat.
Proof.
  revert size base. induction fuel as [|fuel IH]; intros size base Hb; [done|].
  rewrite search_base_step. destruct (size <=? 1)%nat; [done|]. apply IH.
  destruct (l !! (base + size / 2)%nat) as [x|] eqn:E; [|done].
  apply lookup_lt_Some in E. by destruct (f x).
Qed.

Lemma listed_condition_lookup l fork t e :
  NoDup l.*1 -> l !! t = Some e -> e.1 = fork -> listed_condition l fork = e.2.
Proof.
  revert t. induction l as [|c l IH]; intros t Hnd Ht He; [done|].
  apply NoDup_cons in Hnd as [Hc Hnd]. destruct t as [|t]; simpl in *; simplify_eq.
  - by rewrite decide_True.
  - rewrite decide_False; [by eapply IH|]. intros Hce. apply Hc. rewrite Hce.
    eapply list_elem_of_fmap. exists e. split; [done|]. by eapply list_elem_of_lookup_2.
Qed.

Lemma listed_condition_absent l fork : fork ∉ l.*1 -> listed_condition l fork = Never.
Proof.
  induction l as [|c l IH]; intros Hn; simpl; [done|].
  rewrite fmap_cons, not_elem_of_cons in Hn. destruct Hn as [Hne Hn].
  rewrite decide_False by (intros <-; by apply Hne). by apply IH.
Qed.

Lemma listed_condition_permutation l l' fork :
  l ≡ₚ l' -> NoDup l.*1 -> listed_condition l fork = listed_condition l' fork.
Proof.
  intros Hp Hnd. assert (NoDup l'.*1) as Hnd' by (by rewrite <- Hp).
  destruct (decide (fork ∈ l.*1)) as [Hin|Hn].
  - apply list_elem_of_fmap in Hin as (e & -> & Hin).
    assert (e ∈ l') as Hin' by (by rewrite <- Hp).
    apply list_elem_of_lookup in Hin as [t Ht]. apply list_elem_of_lookup in Hin' as [t' Ht'].
    by rewrite (listed_condition_lookup l _ t e), (listed_condition_lookup l' _ t' e).
  - assert (fork ∉ l'.*1) by (by rewrite <- Hp).
    by rewrite !listed_condition_absent.
Qed.

(** The binary search of a sorted schedule agrees with the reference reading. *)
Lemma sorted_schedule_lookup l fork :
  entries_sorted l -> NoDup l.*1 ->
  schedule_fork_activation {| forks := l |} fork = listed_condition l fork.
Proof.
  intros Hs Hnd. unfold schedule_fork_activation, binary_search_by; simpl.
  destruct l as [|e0 l0] eqn:El; [done|]. rewrite <- El in *.
  assert (0 < length l)%nat by (rewrite El; simpl; lia).
  destruct (decide (fork ∈ l.*1)) as [Hin|Hn].
  - apply list_elem_of_fmap in Hin as (e & -> & Hin). apply list_elem_of_lookup in Hin as [t Ht].
    pose proof (lookup_lt_Some _ _ _ Ht).
    rewrite (search_base_finds l e.1 t e) by (done || lia). rewrite Ht.
    unfold hardfork_cmp at 1. rewrite Z.compare_refl, Ht.
    by rewrite (listed_condition_lookup l _ t e).
  - rewrite listed_condition_absent by done.
    destruct (lookup_lt_is_Some_2 l
      (search_base (fun x => hardfork_cmp x.1 fork) (length l) (length l) 0 l)) as [x Hx].
    { by apply search_base_in_range. }
    rewrite Hx. destruct (hardfork_cmp x.1 fork) eqn:E; [|done..].
    exfalso. apply Hn. unfold hardfork_cmp in E. apply Z.compare_eq_iff in E.
    apply (inj hardfork_index) in E. subst fork.
    apply list_elem_of_fmap. exists x. split; [done|]. by eapply list_elem_of_lookup_2.
Qed.

Lemma schedule_activation `{AlloyForks} (l : list (DogeosHardfork * ForkCondition)) fork :
  NoDup l.*1 ->
  schedule_fork_activation (new_schedule l) fork = listed_condition l fork.
Proof.
  intros Hnd. unfold new_schedule.
  rewrite sorted_schedule_lookup.
  - symmetry. apply listed_condition_permutation; [|done].
    symmetry. apply sort_entries_permutation.
  - apply strongly_sorted_entries, sort_entries_sorted.
  - by rewrite sort_entries_permutation.
Qed.

(** ** Properties *)

(** Looking a fork up in a schedule built by [new_schedule] (sort, then binary search)
    returns the condition the input lists for it, and [Never] for a fork the
    input does not list, whatever the order of the input. *)
Theorem new_schedule_lookup `{AlloyForks} (l : list (DogeosHardfork * ForkCondition))
    (fork : DogeosHardfork) :
  NoDup l.*1 ->
  dogeos_fork_activation (new_schedule l) fork = listed_condition l fork.
Proof. apply schedule_activation. Qed.

Lemma new_schedule_lookup_witness :
  dogeos_fork_activation (new_schedule (rev chikyu)) Tsuki = Timestamp 1790030900
  /\ dogeos_fork_activation (new_schedule [(Tsuki, Timestamp 7); (Feynman, Timestamp 0)]) TsukiV2 = Never.
Proof.
  split.
  - rewrite (new_schedule_lookup (rev chikyu) Tsuki); [reflexivity|].
    apply (bool_decide_unpack _). vm_compute. exact I.
  - rewrite (new_schedule_lookup _ TsukiV2); [reflexivity|].
    apply (bool_decide_unpack _). vm_compute. exact I.
Defined.

(** The forks of a schedule activate in their declared order and never
    deactivate: a fork active at [t] has every earlier fork active at any
    [t' >= t]. *)
Definition activates_in_order `{AlloyForks} {S} `{DogeosHardforks S} (s : S) : Prop :=
  forall f g t t', hardfork_index f <= hardfork_index g -> t <= t' ->
    active_at_timestamp (dogeos_fork_activation s g) t = true ->
    active_at_timestamp (dogeos_fork_activation s f) t' = true.

(** On each built-in network the forks activate in declaration order and stay
    active: once a fork is active, it and every earlier fork are active at
    every later timestamp. *)
Theorem builtin_networks_activate_in_order `{AlloyForksLaws} :
  activates_in_order (new_schedule chikyu) /\ activates_in_order (new_schedule mainnet)
  /\ activates_in_order (new_schedule dev).
Proof.
  assert (NoDup chikyu.*1 /\ NoDup mainnet.*1 /\ NoDup dev.*1) as (H1 & H2 & H3).
  { repeat split; apply (bool_decide_unpack _); vm_compute; exact I. }
  repeat split; intros f g t t' Hfg Ht; simpl;
    rewrite !schedule_activation by done;
    destruct f, g; simpl in *; try lia; rewrite !active_at_timestamp_Timestamp;
    intros; bool_to_prop; apply Z.leb_le; unfold CHIKYU_TSUKI_V2_TIMESTAMP in *; lia.
Qed.

Lemma builtin_networks_activate_in_order_witness :
  is_tsuki_active_at_timestamp (new_schedule chikyu) (CHIKYU_TSUKI_V2_TIMESTAMP + 1) = true.
Proof.
  destruct builtin_networks_activate_in_order as (H & _ & _).
  apply (H Tsuki TsukiV2 CHIKYU_TSUKI_V2_TIMESTAMP); [vm_compute; discriminate..|reflexivity].
Defined.
