(* ===== verification/GenesisConfig.v ===== *)
(** * Genesis extension fields (dogeos-chainspec: genesis.rs, constants.rs)

    The flexible integer reader, the hardfork timestamps with their validation,
    and the sequencer configuration with its strict JSON reader and its writer.

    A document is what [serde_json] makes of it. The serde derives are modelled
    by what they generate: a struct is read from an object by the camelCase
    keys of its fields, or from an array by their positions. The readers of
    addresses and hashes ([alloy_primitives]) are an interface. *)

From stdpp Require Import prelude gmap list strings.
From Stdlib Require Import ZArith Lia Ascii.
From Stdlib Require String.
From S2P Require Import Prelude.
From S2P Require Import Hardforks.

(** ** [genesis.rs]: reading integers *)

(** The kinds of [std::num::ParseIntError]. *)
Inductive IntErrorKind : Type := Empty | InvalidDigit | PosOverflow.

(** [char::to_digit] for a radix of at most 36. *)
Definition to_digit (radix : Z) (c : ascii) : option Z :=
  let n := Z.of_nat (nat_of_ascii c) in
  let d :=
    if (48 <=? n) && (n <=? 57) then Some (n - 48)
    else if (97 <=? n) && (n <=? 122) then Some (n - 97 + 10)
    else if (65 <=? n) && (n <=? 90) then Some (n - 65 + 10)
    else None in
  match d with Some d => if d <? radix then Some d else None | None => None end.

(** The checked loop of [u64::from_str_radix]. *)
Fixpoint parse_digits (radix acc : Z) (l : list ascii) : result Z IntErrorKind :=
  match l with
  | [] => Ok acc
  | c :: l =>
      match to_digit radix c with
      | None => Err InvalidDigit
      | Some d =>
          if acc * radix <=? u64_max then
            if acc * radix + d <=? u64_max then parse_digits radix (acc * radix + d) l
            else Err PosOverflow
          else Err PosOverflow
      end
  end.

(** [u64::from_str_radix]: one leading [+] is allowed, digits must follow. *)
Definition from_str_radix (l : list ascii) (radix : Z) : result Z IntErrorKind :=
  match l with
  | [] => Err Empty
  | c :: l' =>
      if bool_decide (c = "+"%char) then
        match l' with [] => Err InvalidDigit | _ => parse_digits radix 0 l' end
      else parse_digits radix 0 l
  end.

(** [serde_json::Value]; of a number, what [Number::as_u64] returns; of an object,
    its entries in the order of its map, which has each key once. *)
Inductive JsonValue : Type :=
| Null
| Bool (b : bool)
| Number (as_u64 : option Z)
| JString (s : string)
| Array (items : list JsonValue)
| Object (fields : list (string * JsonValue)).

(** The [serde_json] errors the code builds, and those of the parsers it calls. *)
Inductive GenesisError : Type :=
| ExpectedUnsigned
| ExpectedUnsignedOrString
| ParseInt (k : IntErrorKind)
| RetiredKey
| TsukiV2Required
| TsukiV2WithoutTsuki
| TsukiV2Early
| MissingField (name : string)
| UnknownField (name : string)
| InvalidType
| InvalidLength
| InvalidHex.

Definition strip_prefix_0x (l : list ascii) : option (list ascii) :=
  match l with
  | c1 :: c2 :: l =>
      if bool_decide (c1 = "0"%char /\ c2 = "x"%char) then Some l else None
  | _ => None
  end.

Definition deserialize_u64_flexible (v : JsonValue) : result Z GenesisError :=
  match v with
  | Number value => ok_or value ExpectedUnsigned
  | JString value =>
      let s := String.list_ascii_of_string value in
      let '(digits, radix) :=
        match strip_prefix_0x s with Some digits => (digits, 16) | None => (s, 10) end in
      map_err ParseInt (from_str_radix digits radix)
  | _ => Err ExpectedUnsignedOrString
  end.

(** [Option::<Value>::deserialize] reads [null] as [None]. *)
Definition deserialize_optional_u64_flexible (v : JsonValue) : result (option Z) GenesisError :=
  match v with
  | Null => Ok None
  | Number value => rmap Some (ok_or value ExpectedUnsigned)
  | JString value =>
      let s := String.list_ascii_of_string value in
      let '(digits, radix) :=
        match strip_prefix_0x s with Some digits => (digits, 16) | None => (s, 10) end in
      rmap Some (map_err ParseInt (from_str_radix digits radix))
  | _ => Err ExpectedUnsignedOrString
  end.

(** ** [genesis.rs]: hardfork timestamps *)

Record DogeosHardforkInfo := {
  feynman_time : option Z;
  galileo_time : option Z;
  galileo_v2_time : option Z;
  tsuki_time : option Z;
  tsuki_v2_time : option Z;
}.

Definition RETIRED_TSUKI_FEE_PARAMS_TIME : string := "tsukiFeeParamsTime".

Definition condition (timestamp : option Z) : ForkCondition :=
  match timestamp with Some timestamp => Timestamp timestamp | None => Never end.

Definition activation_schedule (self : DogeosHardforkInfo) : list (DogeosHardfork * ForkCondition) :=
  [ (Feynman, condition (feynman_time self));
    (Galileo, condition (galileo_time self));
    (GalileoV2, condition (galileo_v2_time self));
    (Tsuki, condition (tsuki_time self));
    (TsukiV2, condition (tsuki_v2_time self)) ].

Definition validate (self : DogeosHardforkInfo) : result DogeosHardforkInfo GenesisError :=
  match tsuki_time self, tsuki_v2_time self with
  | Some _, None => Err TsukiV2Required
  | None, Some _ => Err TsukiV2WithoutTsuki
  | Some tsuki, Some tsuki_v2 =>
      if tsuki_v2 <? tsuki then Err TsukiV2Early else Ok self
  | None, None => Ok self
  end.

(** The flattened unknown fields of the genesis config, by key. *)
Abbreviation OtherFields := (gmap string JsonValue).

(** A [#[serde(default, deserialize_with = ...)]] field. *)
Definition optional_field (others : OtherFields) (key : string) : result (option Z) GenesisError :=
  match others !! key with
  | None => Ok None
  | Some v => deserialize_optional_u64_flexible v
  end.

Definition deserialize_hardfork_info (others : OtherFields) :
    result DogeosHardforkInfo GenesisError :=
  let? f := optional_field others "feynmanTime" in
  let? g := optional_field others "galileoTime" in
  let? g2 := optional_field others "galileoV2Time" in
  let? t := optional_field others "tsukiTime" in
  let? t2 := optional_field others "tsukiV2Time" in
  Ok {| feynman_time := f; galileo_time := g; galileo_v2_time := g2;
        tsuki_time := t; tsuki_v2_time := t2 |}.

Definition hardfork_info_try_from (others : OtherFields) : result DogeosHardforkInfo GenesisError :=
  if bool_decide (is_Some (others !! RETIRED_TSUKI_FEE_PARAMS_TIME)) then Err RetiredKey
  else let? info := deserialize_hardfork_info others in validate info.

(** ** [genesis.rs] and [constants.rs]: the sequencer configuration *)

Record L1Config := {
  l1_chain_id : Z;
  l1_message_queue_address : Address;
  l1_message_queue_v2_address : Address;
  scroll_chain_address : Address;
  l2_system_config_address : Address;
  num_l1_messages_per_block : Z;
}.

Record ScrollChainConfig := {
  fee_vault_address : option Address;
  max_tx_payload_bytes_per_block : Z;
  l1_config : L1Config;
}.

(** The strict input schema, with the four legacy metadata fields. *)
Record ScrollChainConfigJson := {
  json_fee_vault_address : option Address;
  json_max_tx_payload_bytes_per_block : Z;
  json_l1_config : L1Config;
  json_use_zktrie : option bool;
  json_max_tx_per_block : option Z;
  json_genesis_state_root : option B256;
  json_missing_header_fields_sha256 : option B256;
}.

Definition scroll_config_from (config : ScrollChainConfigJson) : ScrollChainConfig :=
  {| fee_vault_address := json_fee_vault_address config;
     max_tx_payload_bytes_per_block := json_max_tx_payload_bytes_per_block config;
     l1_config := json_l1_config config |}.

Definition SCROLL_FEE_VAULT_ADDRESS : Address := 0x5300000000000000000000000000000000000005.
Definition MAX_TX_PAYLOAD_BYTES_PER_BLOCK : Z := 120 * 1024.

(** [alloy_eips::eip1559::BaseFeeParams]: the code builds values of it. *)
Record BaseFeeParams := {
  max_change_denominator : Z;
  elasticity_multiplier : Z;
}.

#[export] Instance BaseFeeParams_eq_dec : EqDecision BaseFeeParams.
Proof. solve_decision. Defined.

Definition DOGEOS_BASE_FEE_PARAMS_FEYNMAN : BaseFeeParams :=
  {| max_change_denominator := 8; elasticity_multiplier := 2 |}.

Definition DOGEOS_BASE_FEE_PARAMS_TSUKI : BaseFeeParams :=
  {| max_change_denominator := 48; elasticity_multiplier := 10 |}.

Definition DOGEOS_MAINNET_L1_CONFIG : L1Config :=
  {| l1_chain_id := 1;
     l1_message_queue_address := 0x890579692e4eFb4353852ea192663a17632C2b75;
     l1_message_queue_v2_address := 0x97E03805774DC6A8219F6c0a11c1998CC7F60990;
     scroll_chain_address := 0x23834c0FcC397dDd8292174E99F95b93577a91DA;
     l2_system_config_address := 0x198c9525615604f871f74857DEDFcC7A7dEe6531;
     num_l1_messages_per_block := 10 |}.

Definition DOGEOS_CHIKYU_L1_CONFIG : L1Config :=
  {| l1_chain_id := 111111;
     l1_message_queue_address := 0x3396BeD5adB7d83CC6C424264d229478556d3C02;
     l1_message_queue_v2_address := 0x6B72155A3aC485Ea8C4CCacF243F6e634D4869bD;
     scroll_chain_address := 0x8cB645a973e0C595aaAb55361fe917915b4E656c;
     l2_system_config_address := 0x2669B071E88e272CBDA1e12182D8C754CB737400;
     num_l1_messages_per_block := 10 |}.

Definition scroll_config_new (l1 : L1Config) : ScrollChainConfig :=
  {| fee_vault_address := Some SCROLL_FEE_VAULT_ADDRESS;
     max_tx_payload_bytes_per_block := MAX_TX_PAYLOAD_BYTES_PER_BLOCK;
     l1_config := l1 |}.

Definition scroll_config_mainnet : ScrollChainConfig := scroll_config_new DOGEOS_MAINNET_L1_CONFIG.
Definition scroll_config_chikyu : ScrollChainConfig := scroll_config_new DOGEOS_CHIKYU_L1_CONFIG.

(** *** Derived readers *)

(** The readers and writers of addresses and hashes. *)
Class PrimitiveJson := {
  read_address : JsonValue -> result Address GenesisError;
  write_address : Address -> string;
  read_b256 : JsonValue -> result B256 GenesisError;
}.

Section Json.
Context `{PrimitiveJson}.

(** [u64] and [usize] of a 64-bit target; [bool]; [Option], where [null] is [None]. *)
Definition read_u64 (v : JsonValue) : result Z GenesisError :=
  match v with Number (Some n) => Ok n | _ => Err InvalidType end.

Definition read_bool (v : JsonValue) : result bool GenesisError :=
  match v with Bool b => Ok b | _ => Err InvalidType end.

Definition read_option {A} (read : JsonValue -> result A GenesisError) (v : JsonValue) :
    result (option A) GenesisError :=
  match v with Null => Ok None | _ => rmap Some (read v) end.

(** The entry of a key. *)
Fixpoint entry (key : string) (fields : list (string * JsonValue)) : option JsonValue :=
  match fields with
  | [] => None
  | (k, v) :: fields => if String.eqb k key then Some v else entry key fields
  end.

(** A field that must be there, by position or by key, and an optional one: absent
    from an object it is [None], absent from an array it is an error. *)
Definition required {A} (v : JsonValue) (i : nat) (key : string)
    (read : JsonValue -> result A GenesisError) : result A GenesisError :=
  match v with
  | Array items => match items !! i with Some x => read x | None => Err InvalidLength end
  | Object fields => match entry key fields with Some x => read x | None => Err (MissingField key) end
  | _ => Err InvalidType
  end.

Definition optional {A} (v : JsonValue) (i : nat) (key : string)
    (read : JsonValue -> result A GenesisError) : result (option A) GenesisError :=
  match v with
  | Array items => match items !! i with Some x => read_option read x | None => Err InvalidLength end
  | Object fields => match entry key fields with Some x => read_option read x | None => Ok None end
  | _ => Err InvalidType
  end.

(** What a struct's visitor does with each entry of an object before it asks for
    missing fields: the entry of a field is read, any other is refused or
    ignored. *)
Abbreviation Schema := (list (string * (JsonValue -> result unit GenesisError))).

Definition reads {A} (read : JsonValue -> result A GenesisError) (v : JsonValue) :
    result unit GenesisError := rmap (fun _ => tt) (read v).

Fixpoint visit_entry (schema : Schema) (deny_unknown_fields : bool) (key : string) (v : JsonValue) :
    result unit GenesisError :=
  match schema with
  | [] => if deny_unknown_fields then Err (UnknownField key) else Ok tt
  | (k, check) :: schema =>
      if String.eqb k key then check v else visit_entry schema deny_unknown_fields key v
  end.

Fixpoint visit_entries (schema : Schema) (deny_unknown_fields : bool)
    (fields : list (string * JsonValue)) : result unit GenesisError :=
  match fields with
  | [] => Ok tt
  | (k, v) :: fields =>
      let? _ := visit_entry schema deny_unknown_fields k v in
      visit_entries schema deny_unknown_fields fields
  end.

Definition visit (schema : Schema) (deny_unknown_fields : bool) (v : JsonValue) :
    result unit GenesisError :=
  match v with
  | Array _ => Ok tt
  | Object fields => visit_entries schema deny_unknown_fields fields
  | _ => Err InvalidType
  end.

(** An array may not be longer than the struct. *)
Definition finish_struct (schema : Schema) (v : JsonValue) : result unit GenesisError :=
  match v with
  | Array items => if (length schema <? length items)%nat then Err InvalidLength else Ok tt
  | _ => Ok tt
  end.

(** *** The L1 configuration *)

Definition l1_schema : Schema :=
  [ ("l1ChainId", reads deserialize_u64_flexible); ("l1MessageQueueAddress", reads read_address);
    ("l1MessageQueueV2Address", reads read_address); ("scrollChainAddress", reads read_address);
    ("l2SystemConfigAddress", reads read_address);
    ("numL1MessagesPerBlock", reads deserialize_u64_flexible) ]%string.

Definition read_l1_config (v : JsonValue) : result L1Config GenesisError :=
  let? _ := visit l1_schema false v in
  let? chain_id := required v 0 "l1ChainId" deserialize_u64_flexible in
  let? queue := required v 1 "l1MessageQueueAddress" read_address in
  let? queue_v2 := required v 2 "l1MessageQueueV2Address" read_address in
  let? scroll_chain := required v 3 "scrollChainAddress" read_address in
  let? system_config := required v 4 "l2SystemConfigAddress" read_address in
  let? messages := required v 5 "numL1MessagesPerBlock" deserialize_u64_flexible in
  let? _ := finish_struct l1_schema v in
  Ok {| l1_chain_id := chain_id; l1_message_queue_address := queue;
        l1_message_queue_v2_address := queue_v2; scroll_chain_address := scroll_chain;
        l2_system_config_address := system_config; num_l1_messages_per_block := messages |}.

Definition write_l1_config (self : L1Config) : JsonValue :=
  Object
    [ ("l1ChainId", Number (Some (l1_chain_id self)));
      ("l1MessageQueueAddress", JString (write_address (l1_message_queue_address self)));
      ("l1MessageQueueV2Address", JString (write_address (l1_message_queue_v2_address self)));
      ("scrollChainAddress", JString (write_address (scroll_chain_address self)));
      ("l2SystemConfigAddress", JString (write_address (l2_system_config_address self)));
      ("numL1MessagesPerBlock", Number (Some (num_l1_messages_per_block self))) ]%string.

(** *** The sequencer configuration *)

Definition scroll_schema : Schema :=
  [ ("feeVaultAddress", reads (read_option read_address)); ("maxTxPayloadBytesPerBlock", reads read_u64);
    ("l1Config", reads read_l1_config); ("useZktrie", reads (read_option read_bool));
    ("maxTxPerBlock", reads (read_option read_u64)); ("genesisStateRoot", reads (read_option read_b256));
    ("missingHeaderFieldsSHA256", reads (read_option read_b256)) ]%string.

Definition read_scroll_config_json (v : JsonValue) : result ScrollChainConfigJson GenesisError :=
  let? _ := visit scroll_schema true v in
  let? fee_vault := optional v 0 "feeVaultAddress" read_address in
  let? max_bytes := required v 1 "maxTxPayloadBytesPerBlock" read_u64 in
  let? l1 := required v 2 "l1Config" read_l1_config in
  let? zktrie := optional v 3 "useZktrie" read_bool in
  let? max_tx := optional v 4 "maxTxPerBlock" read_u64 in
  let? state_root := optional v 5 "genesisStateRoot" read_b256 in
  let? missing := optional v 6 "missingHeaderFieldsSHA256" read_b256 in
  let? _ := finish_struct scroll_schema v in
  Ok {| json_fee_vault_address := fee_vault; json_max_tx_payload_bytes_per_block := max_bytes;
        json_l1_config := l1; json_use_zktrie := zktrie; json_max_tx_per_block := max_tx;
        json_genesis_state_root := state_root; json_missing_header_fields_sha256 := missing |}.

Definition write_scroll_config (self : ScrollChainConfig) : list (string * JsonValue) :=
  [ ("feeVaultAddress",
       match fee_vault_address self with Some a => JString (write_address a) | None => Null end);
    ("maxTxPayloadBytesPerBlock", Number (Some (max_tx_payload_bytes_per_block self)));
    ("l1Config", write_l1_config (l1_config self)) ]%string.

(** Reading the ["scroll"] key. *)
Definition scroll_config_try_from (others : OtherFields) : result ScrollChainConfig GenesisError :=
  match others !! ("scroll" : string) with
  | Some v => rmap scroll_config_from (read_scroll_config_json v)
  | None => Err (MissingField "scroll")
  end.

Definition extract_from (others : OtherFields) : option ScrollChainConfig :=
  match scroll_config_try_from others with Ok config => Some config | Err _ => None end.
End Json.

(** ** Lemmas: reading integers *)

Definition digits_value (radix acc : Z) (ds : list Z) : Z :=
  fold_left (fun a d => a * radix + d) ds acc.

Lemma to_digit_range radix c d : to_digit radix c = Some d -> 0 <= d < radix.
Proof.
  unfold to_digit. intros E.
  repeat match type of E with
  | context [if ?b then _ else _] => destruct b eqn:?
  end; simplify_eq; bool_to_prop; lia.
Qed.

Lemma digits_value_ge radix acc ds :
  1 <= radix -> 0 <= acc -> Forall (fun d => 0 <= d) ds -> acc <= digits_value radix acc ds.
Proof.
  intros Hr. revert acc. induction ds as [|d ds IH]; intros acc Ha Hd; [done|].
  apply Forall_cons in Hd as [? ?]. simpl.
  transitivity (acc * radix + d); [nia|]. apply IH; [nia|done].
Qed.

Lemma mapM_to_digit_nonneg radix l ds :
  mapM (to_digit radix) l = Some ds -> Forall (fun d => 0 <= d) ds.
Proof.
  intros E. apply mapM_Some_1 in E. induction E; constructor; [|done].
  match goal with Hc : _ = Some _ |- _ => apply to_digit_range in Hc end. lia.
Qed.

Lemma parse_digits_cons radix acc c l :
  parse_digits radix acc (c :: l) =
  match to_digit radix c with
  | None => Err InvalidDigit
  | Some d =>
      if acc * radix <=? u64_max then
        if acc * radix + d <=? u64_max then parse_digits radix (acc * radix + d) l
        else Err PosOverflow
      else Err PosOverflow
  end.
Proof. reflexivity. Qed.

(** The checked loop computes the unbounded value, and accepts it exactly when
    it fits. *)
Lemma parse_digits_Ok radix acc l n :
  1 <= radix -> 0 <= acc <= u64_max ->
  parse_digits radix acc l = Ok n <->
  exists ds, mapM (to_digit radix) l = Some ds /\ n = digits_value radix acc ds /\ n <= u64_max.
Proof.
  intros Hr. revert acc. induction l as [|c l IH]; intros acc Ha.
  - simpl. split; [intros; simplify_eq; exists []; naive_solver|].
    intros (ds & [= <-] & -> & ?). done.
  - rewrite parse_digits_cons. simpl mapM. destruct (to_digit radix c) as [d|] eqn:Ed.
    2:{ split; [done|]. intros (ds & ? & _). by simplify_eq. }
    pose proof (to_digit_range _ _ _ Ed) as Hd.
    destruct (Z.leb_spec (acc * radix) u64_max); [destruct (Z.leb_spec (acc * radix + d) u64_max)|].
    + rewrite IH by nia. split.
      * intros (ds & E & -> & ?). exists (d :: ds). simpl. by rewrite E.
      * intros (ds & E & -> & ?). destruct (mapM (to_digit radix) l) as [ds'|]; [|done].
        injection E as <-. exists ds'. split; [done|]. by split.
    + split; [done|]. intros (ds & E & -> & ?). destruct (mapM _ l) as [ds'|] eqn:E'; [|done].
      injection E as <-. pose proof (digits_value_ge radix (acc * radix + d) ds'
        ltac:(lia) ltac:(nia) (mapM_to_digit_nonneg _ _ _ E')). unfold digits_value in *. simpl in *. lia.
    + split; [done|]. intros (ds & E & -> & ?). destruct (mapM _ l) as [ds'|] eqn:E'; [|done].
      injection E as <-. pose proof (digits_value_ge radix (acc * radix + d) ds'
        ltac:(lia) ltac:(nia) (mapM_to_digit_nonneg _ _ _ E')). unfold digits_value in *. simpl in *. lia.
Qed.

Definition strip_plus (l : list ascii) : list ascii :=
  match l with c :: l' => if bool_decide (c = "+"%char) then l' else l | [] => [] end.

Lemma from_str_radix_Ok l radix n :
  1 <= radix ->
  from_str_radix l radix = Ok n <->
  strip_plus l <> [] /\
  exists ds, mapM (to_digit radix) (strip_plus l) = Some ds
             /\ n = digits_value radix 0 ds /\ n <= u64_max.
Proof.
  intros Hr. unfold from_str_radix, strip_plus. destruct l as [|c l]; [naive_solver|].
  assert (0 <= 0 <= u64_max) by solve_ints.
  case_bool_decide; [destruct l as [|c' l]; [naive_solver|]|]; rewrite parse_digits_Ok by done;
    naive_solver.
Qed.

(** ** Lemmas: the schedule of a custom genesis *)

Lemma activation_schedule_NoDup info : NoDup (activation_schedule info).*1.
Proof. apply (bool_decide_unpack _). vm_compute. exact I. Qed.

Lemma hardfork_info_try_from_Ok others info :
  hardfork_info_try_from others = Ok info -> validate info = Ok info.
Proof.
  unfold hardfork_info_try_from. case_bool_decide; [done|].
  intros (x & _ & E)%rbind_Ok.
  assert (x = info) as -> by (unfold validate in *; repeat case_match; by simplify_eq).
  done.
Qed.

Lemma validate_Ok info :
  validate info = Ok info <->
  (tsuki_time info = None /\ tsuki_v2_time info = None) \/
  exists t t2, tsuki_time info = Some t /\ tsuki_v2_time info = Some t2 /\ t <= t2.
Proof.
  unfold validate. destruct (tsuki_time info), (tsuki_v2_time info); try naive_solver.
  destruct (Z.ltb_spec z0 z); naive_solver lia.
Qed.

(** ** Lemmas: the sequencer configuration *)

(** The value of [0x] and 40 hexadecimal digits. *)
Definition hex_address (s : string) : option Address :=
  match strip_prefix_0x (String.list_ascii_of_string s) with
  | Some digits =>
      if (length digits =? 40)%nat then digits_value 16 0 <$> mapM (to_digit 16) digits else None
  | None => None
  end.

(** Addresses are read from their hexadecimal digits, and as they are written. *)
Class PrimitiveJsonLaws `{PrimitiveJson} : Prop := {
  read_hex_address s a : hex_address s = Some a -> read_address (JString s) = Ok a;
  read_write_address a : in_address a -> read_address (JString (write_address a)) = Ok a;
}.

Section Readers.
Context `{PrimitiveJsonLaws}.

Lemma entry_elem k fields v : entry k fields = Some v -> (k, v) ∈ fields.
Proof.
  induction fields as [|[k' v'] l IH]; simpl; [done|]. destruct (String.eqb_spec k' k) as [->|].
  - intros [= ->]. by left.
  - intros E. right. by apply IH.
Qed.

Lemma elem_entry k fields v : NoDup fields.*1 -> (k, v) ∈ fields -> entry k fields = Some v.
Proof.
  induction fields as [|[k' v'] l IH]; simpl; intros Hnd Hin; [by apply elem_of_nil in Hin|].
  apply NoDup_cons in Hnd as [Hk Hnd]. apply elem_of_cons in Hin as [[= -> ->]|Hin].
  - by rewrite String.eqb_refl.
  - destruct (String.eqb_spec k' k) as [->|]; [|by apply IH].
    destruct Hk. by apply (list_elem_of_fmap_2 fst) in Hin.
Qed.

(** The order of the entries does not matter. *)
Lemma entry_perm k l l' : NoDup l.*1 -> l ≡ₚ l' -> entry k l = entry k l'.
Proof.
  intros Hnd Hp. assert (Hnd' : NoDup l'.*1) by (by rewrite <- Hp).
  destruct (entry k l) as [v|] eqn:E.
  - symmetry. apply elem_entry; [done|]. rewrite <- Hp. by apply entry_elem.
  - destruct (entry k l') as [v|] eqn:E'; [|done]. apply entry_elem in E'. rewrite <- Hp in E'.
    apply elem_entry in E'; [|done]. congruence.
Qed.

Lemma visit_entries_Ok schema deny fields :
  visit_entries schema deny fields = Ok tt <->
  Forall (fun e => visit_entry schema deny e.1 e.2 = Ok tt) fields.
Proof.
  induction fields as [|[k v] l IH]; [done|]. cbn [visit_entries].
  rewrite Forall_cons, rbind_Ok, <- IH. simpl. split; [by intros ([] & ? & ?)|]. intros [? ?]. by exists tt.
Qed.

(** What was visited can be read. *)
Lemma visited_entry schema deny fields k v :
  visit_entries schema deny fields = Ok tt -> entry k fields = Some v ->
  visit_entry schema deny k v = Ok tt.
Proof. rewrite visit_entries_Ok, Forall_forall. intros Hf Hk%entry_elem. apply (Hf _ Hk). Qed.

Lemma optional_visited {A} schema deny fields i k (read : JsonValue -> result A GenesisError) :
  visit_entries schema deny fields = Ok tt ->
  (forall v, visit_entry schema deny k v = reads (read_option read) v) ->
  exists o, optional (Object fields) i k read = Ok o.
Proof.
  intros Hv Hk. simpl. destruct (entry k fields) as [v|] eqn:E; [|by eexists].
  apply (visited_entry _ _ _ _ _ Hv) in E. rewrite Hk in E. apply rmap_Ok in E as (o & E & _). by exists o.
Qed.

Lemma visit_unknown schema key v :
  key ∉ map fst schema -> visit_entry schema true key v = Err (UnknownField key).
Proof.
  induction schema as [|[k c] l IH]; simpl; [done|]. intros [Hn1 Hn2]%not_elem_of_cons.
  destruct (String.eqb_spec k key); [congruence|by apply IH].
Qed.

Lemma l1_config_roundtrip (c : L1Config) :
  in_address (l1_message_queue_address c) -> in_address (l1_message_queue_v2_address c) ->
  in_address (scroll_chain_address c) -> in_address (l2_system_config_address c) ->
  read_l1_config (write_l1_config c) = Ok c.
Proof.
  intros Ha Hb Hc Hd. unfold read_l1_config, write_l1_config. simpl. unfold reads.
  rewrite !read_write_address by done. by destruct c.
Qed.
End Readers.

(** ** Properties *)

(** The flexible integer reader accepts a string exactly when, after an
    optional [0x] (radix 16, else 10) and an optional [+], it is a non-empty
    sequence of digits whose value fits in 64 bits, and returns that value: no
    accepted string wraps around. *)
Theorem deserialize_u64_flexible_string (s : string) (n : Z) :
  let l := String.list_ascii_of_string s in
  let digits := default l (strip_prefix_0x l) in
  let radix := match strip_prefix_0x l with Some _ => 16 | None => 10 end in
  deserialize_u64_flexible (JString s) = Ok n <->
  strip_plus digits <> [] /\
  exists ds, mapM (to_digit radix) (strip_plus digits) = Some ds
             /\ n = digits_value radix 0 ds /\ n <= u64_max.
Proof.
  intros l digits radix. subst digits radix. unfold deserialize_u64_flexible. fold l.
  destruct (strip_prefix_0x l); simpl; rewrite map_err_Ok; by apply from_str_radix_Ok.
Qed.

(** Every address of a configuration has 160 bits. *)
Record config_valid (c : ScrollChainConfig) : Prop := {
  cv_vault : forall a, fee_vault_address c = Some a -> in_address a;
  cv_queue : in_address (l1_message_queue_address (l1_config c));
  cv_queue_v2 : in_address (l1_message_queue_v2_address (l1_config c));
  cv_scroll_chain : in_address (scroll_chain_address (l1_config c));
  cv_system_config : in_address (l2_system_config_address (l1_config c));
}.

(** An entry of the published genesis documents that does not configure the node. *)
Definition legacy_entry `{PrimitiveJson} (e : string * JsonValue) : Prop :=
  e.1 ∈ map fst (drop 3 scroll_schema) /\ visit_entry scroll_schema true e.1 e.2 = Ok tt.

(** C17: The sequencer configuration is read back from what is written for it, with
    the entries in any order and whatever well-formed metadata of the old
    genesis documents stands beside them; and the reader is strict: a document
    with any other key is refused. *)
Theorem scroll_config_json_roundtrip `{PrimitiveJsonLaws} (config : ScrollChainConfig)
    (fields legacy : list (string * JsonValue)) :
  config_valid config -> NoDup fields.*1 -> fields ≡ₚ write_scroll_config config ++ legacy ->
  Forall legacy_entry legacy ->
  (exists json, read_scroll_config_json (Object fields) = Ok json /\ scroll_config_from json = config)
  /\ forall key v fields', key ∉ map fst scroll_schema -> (key, v) ∈ fields' ->
     exists e, read_scroll_config_json (Object fields') = Err e.
Proof.
  intros [Hvault Hq Hq2 Hs Hsys] Hnd Hp Hleg. split.
  - assert (read_l1_config (write_l1_config (l1_config config)) = Ok (l1_config config)) as Hl1
      by (by apply l1_config_roundtrip).
    set (vault := match fee_vault_address config with Some a => JString (write_address a) | None => Null end).
    assert (read_option read_address vault = Ok (fee_vault_address config)) as Hv.
    { unfold vault. destruct (fee_vault_address config) as [a|]; [|done]. simpl.
      by rewrite read_write_address by auto. }
    assert (visit_entries scroll_schema true fields = Ok tt) as Hvisit.
    { apply visit_entries_Ok. rewrite Hp. apply Forall_app. split.
      - repeat constructor; simpl; unfold reads; [by fold vault; rewrite Hv|by rewrite Hl1].
      - eapply Forall_impl; [exact Hleg|]. by intros e []. }
    destruct (optional_visited _ _ _ 3 "useZktrie" read_bool Hvisit ltac:(done)) as [o3 E3].
    destruct (optional_visited _ _ _ 4 "maxTxPerBlock" read_u64 Hvisit ltac:(done)) as [o4 E4].
    destruct (optional_visited _ _ _ 5 "genesisStateRoot" read_b256 Hvisit ltac:(done)) as [o5 E5].
    destruct (optional_visited _ _ _ 6 "missingHeaderFieldsSHA256" read_b256 Hvisit ltac:(done)) as [o6 E6].
    unfold read_scroll_config_json. rewrite E3, E4, E5, E6. simpl visit. rewrite Hvisit. simpl.
    rewrite !(entry_perm _ _ _ Hnd Hp). simpl. fold vault. rewrite Hv, Hl1. simpl.
    eexists. split; [done|]. by destruct config.
  - intros key v fields' Hk Hin. destruct (read_scroll_config_json (Object fields')) as [json|e] eqn:E; [|by eexists].
    exfalso. unfold read_scroll_config_json in E. apply rbind_Ok in E as ([] & Hv & _). simpl in Hv.
    rewrite visit_entries_Ok, Forall_forall in Hv. specialize (Hv _ Hin). simpl fst in Hv. simpl snd in Hv.
    by rewrite visit_unknown in Hv.
Qed.

(** ** Witness: addresses in lower-case hexadecimal *)

Definition hex_char (d : Z) : ascii :=
  ascii_of_nat (Z.to_nat (if d <? 10 then 48 + d else 87 + d)).

Lemma hex_char_digit d : 0 <= d < 16 -> to_digit 16 (hex_char d) = Some d.
Proof.
  intros Hd. assert (Forall (fun d => to_digit 16 (hex_char d) = Some d) (seqZ 0 16)) as Hall
    by (apply (bool_decide_unpack _); vm_compute; exact I).
  rewrite Forall_forall in Hall. apply Hall, elem_of_seqZ. lia.
Qed.

Fixpoint hex_digits (k : nat) (n : Z) : list Z :=
  match k with O => [] | S k => hex_digits k (n / 16) ++ [n mod 16] end.

Lemma hex_digits_value k n : 0 <= n < 16 ^ Z.of_nat k -> digits_value 16 0 (hex_digits k n) = n.
Proof.
  revert n. induction k as [|k IH]; intros n Hn; [simpl in *; lia|].
  rewrite Nat2Z.inj_succ, Z.pow_succ_r in Hn by lia. unfold digits_value in *. cbn [hex_digits].
  rewrite fold_left_app. simpl. rewrite IH.
  - pose proof (Z.div_mod n 16). lia.
  - split; [apply Z.div_pos; lia|apply Z.div_lt_upper_bound; lia].
Qed.

Lemma hex_digits_chars k n : mapM (to_digit 16) (map hex_char (hex_digits k n)) = Some (hex_digits k n).
Proof.
  apply mapM_Some. revert n. induction k as [|k IH]; intros n; [constructor|]. cbn [hex_digits].
  rewrite map_app. apply Forall2_app; [apply IH|]. constructor; [|constructor].
  apply hex_char_digit, Z.mod_pos_bound. lia.
Qed.

Lemma hex_digits_length k n : length (hex_digits k n) = k.
Proof. revert n. induction k as [|k IH]; intros n; simpl; [done|]. rewrite length_app, IH. simpl. lia. Qed.

Definition ref_write_address (a : Address) : string :=
  String.string_of_list_ascii ("0"%char :: "x"%char :: map hex_char (hex_digits 40 a)).

Lemma ref_write_address_hex a : in_address a -> hex_address (ref_write_address a) = Some a.
Proof.
  intros Ha. unfold hex_address, ref_write_address. rewrite String.list_ascii_of_string_of_list_ascii.
  cbn [strip_prefix_0x]. rewrite bool_decide_true by done. rewrite length_map, hex_digits_length.
  rewrite hex_digits_chars. cbn [option_fmap fmap option_map Nat.eqb]. f_equal.
  apply (hex_digits_value 40). exact Ha.
Qed.

#[export] Instance ref_primitive_json : PrimitiveJson := {
  read_address v :=
    match v with JString s => ok_or (hex_address s) InvalidHex | _ => Err InvalidType end;
  write_address := ref_write_address;
  read_b256 v := match v with JString _ => Ok 0 | _ => Err InvalidType end;
}.

#[export] Instance ref_primitive_json_laws : PrimitiveJsonLaws.
Proof.
  split.
  - intros s a E. change (ok_or (hex_address s) InvalidHex = Ok a). by rewrite E.
  - intros a Ha. change (ok_or (hex_address (ref_write_address a)) InvalidHex = Ok a).
    by rewrite ref_write_address_hex.
Qed.

(** The Chikyu configuration, its keys turned round, with the metadata of its
    document; and the same with one more key. *)
Definition sample_config_fields : list (string * JsonValue) :=
  [("useZktrie", Bool false)%string; ("maxTxPerBlock", Number (Some 100))%string;
   ("genesisStateRoot", Null)%string] ++ rev (write_scroll_config scroll_config_chikyu).

Lemma chikyu_valid : config_valid scroll_config_chikyu.
Proof. split; [intros a [= <-]|..]; apply (bool_decide_unpack _); vm_compute; exact I. Qed.

Lemma scroll_config_json_roundtrip_witness :
  (exists json, read_scroll_config_json (Object sample_config_fields) = Ok json
     /\ scroll_config_from json = scroll_config_chikyu)
  /\ exists e, read_scroll_config_json (Object (("unknownPolicy"%string, Bool true) :: sample_config_fields)) = Err e.
Proof.
  destruct (scroll_config_json_roundtrip scroll_config_chikyu sample_config_fields
    [("useZktrie", Bool false)%string; ("maxTxPerBlock", Number (Some 100))%string;
     ("genesisStateRoot", Null)%string]) as [Hr Hu].
  - exact chikyu_valid.
  - apply (bool_decide_unpack _). vm_compute. exact I.
  - unfold sample_config_fields. rewrite Permutation_app_comm. f_equiv. symmetry. apply Permutation_rev.
  - repeat constructor; try (apply (bool_decide_unpack _); vm_compute; exact I).
  - split; [exact Hr|]. apply (Hu "unknownPolicy"%string (Bool true)); [|by left].
    apply (bool_decide_unpack _). vm_compute. exact I.
Defined.
