(* ===== verification/ChainSpec.v ===== *)
(** * Chain specifications (dogeos-chainspec: lib.rs)

    The spec built from a genesis document, its base-fee parameters and its
    EIP-2124 fork-filter keys. [reth_chainspec] is the interface
    [RethChainSpec], with the laws its documentation states. *)

From stdpp Require Import prelude gmap list strings.
From Stdlib Require Import ZArith Lia Ascii.
From Stdlib Require String.
From S2P Require Import Prelude.
From S2P Require Import Hardforks.
From S2P Require Import GenesisConfig.

(** ** The external chain-spec library *)

(** [Box<dyn Hardfork>]. *)
Inductive AnyHardfork : Type :=
| Eth (fork : EthereumHardfork)
| Doge (fork : DogeosHardfork).

#[export] Instance EthereumHardfork_eq_dec : EqDecision EthereumHardfork.
Proof. solve_decision. Defined.
#[export] Instance AnyHardfork_eq_dec : EqDecision AnyHardfork.
Proof. solve_decision. Defined.

Inductive ForkFilterKey : Type := KeyBlock (block : Z) | KeyTime (time : Z).

Record Head := { head_number : Z; head_timestamp : Z }.

Class RethChainSpec := {
  ChainHardforks : Type;
  ForkFilter : Type;
  ForkId : Type;
  chain_hardforks_new : list (AnyHardfork * ForkCondition) -> ChainHardforks;
  fork : ChainHardforks -> AnyHardfork -> ForkCondition;
  forks_iter : ChainHardforks -> list (AnyHardfork * ForkCondition);
  (** The parameters of a [BaseFeeParamsKind::Variable] list at a timestamp. *)
  variable_params : list (AnyHardfork * BaseFeeParams) -> ChainHardforks -> Z -> BaseFeeParams;
  fork_filter_new : Head -> B256 -> Z -> list ForkFilterKey -> ForkFilter;
  current : ForkFilter -> ForkId;
}.

(** The condition a list of boxed forks gives a fork. *)
Fixpoint listed_any (l : list (AnyHardfork * ForkCondition)) (f : AnyHardfork) : ForkCondition :=
  match l with
  | [] => Never
  | e :: l => if decide (e.1 = f) then e.2 else listed_any l f
  end.

(** The last entry of the list whose fork is active, else the first one. *)
Definition last_active `{AlloyForks} (get : AnyHardfork -> ForkCondition)
    (l : list (AnyHardfork * BaseFeeParams)) (timestamp : Z) : option BaseFeeParams :=
  match filter (fun e => active_at_timestamp (get e.1) timestamp = true) l with
  | [] => snd <$> head l
  | active => snd <$> last active
  end.

Class RethChainSpecLaws `{AlloyForks} `{RethChainSpec} : Prop := {
  fork_new l f : NoDup l.*1 -> fork (chain_hardforks_new l) f = listed_any l f;
  forks_iter_new l : forks_iter (chain_hardforks_new l) = l;
  variable_params_last l h timestamp p :
    last_active (fork h) l timestamp = Some p -> variable_params l h timestamp = p;
}.

#[export] Instance ref_chainspec : RethChainSpec := {
  ChainHardforks := list (AnyHardfork * ForkCondition);
  ForkFilter := Head * B256 * Z * list ForkFilterKey;
  ForkId := Z * list ForkFilterKey;
  chain_hardforks_new l := l;
  fork := listed_any;
  forks_iter l := l;
  variable_params l h timestamp :=
    default DOGEOS_BASE_FEE_PARAMS_FEYNMAN (last_active (listed_any h) l timestamp);
  fork_filter_new h hash time keys := (h, hash, time, keys);
  current f := let '(_, hash, _, keys) := f in (hash, keys);
}.

#[export] Instance ref_chainspec_laws : RethChainSpecLaws.
Proof. split; simpl; [done..|]. intros l h t p E. by rewrite E. Qed.

(** ** [lib.rs]: the chain spec *)

(** The genesis document; the fields the code reads. *)
Record Genesis := {
  genesis_chain_id : Z;
  genesis_extra_fields : OtherFields;
  genesis_gas_limit : Z;
  genesis_difficulty : U256;
  genesis_nonce : Z;
  genesis_extra_data : bytes;
  genesis_time : Z;
  genesis_mix_hash : B256;
  genesis_coinbase : Address;
  genesis_base_fee_per_gas : option Z;
}.

(** The genesis header as [make_genesis_header] fills it; [state_root] is the
    trie root [reth_trie_common] computes from the allocation. *)
Record GenesisHeader := {
  gh_gas_limit : Z;
  gh_difficulty : U256;
  gh_nonce : Z;
  gh_extra_data : bytes;
  gh_state_root : B256;
  gh_timestamp : Z;
  gh_mix_hash : B256;
  gh_beneficiary : Address;
  gh_base_fee_per_gas : option Z;
  gh_withdrawals_root : option B256;
  gh_parent_beacon_block_root : option B256;
  gh_blob_gas_used : option Z;
  gh_excess_blob_gas : option Z;
  gh_requests_hash : option B256;
}.

(** The Ethereum baseline of every DogeOS network, then the DogeOS forks. *)
Definition feynman_forks (dogeos_forks : list (DogeosHardfork * ForkCondition)) :
    list (AnyHardfork * ForkCondition) :=
  [ (Eth Frontier, Block 0); (Eth Homestead, Block 0); (Eth Tangerine, Block 0);
    (Eth SpuriousDragon, Block 0); (Eth Byzantium, Block 0);
    (Eth Constantinople, Block 0); (Eth Petersburg, Block 0);
    (Eth Istanbul, Block 0); (Eth Berlin, Block 0); (Eth London, Block 0);
    (Eth Shanghai, Timestamp 0) ]
  ++ map (fun e => (Doge e.1, e.2)) dogeos_forks.

Section Spec.
Context `{AlloyForks} `{RethChainSpec} `{PrimitiveJson}.
(** The state root of the genesis allocation and the hash of a header. *)
Context (state_root_of : Genesis -> B256) (hash_header : GenesisHeader -> B256).

Record DogeosChainSpec := {
  chain : Z;
  genesis_header : GenesisHeader;
  genesis : Genesis;
  hardforks : ChainHardforks;
  base_fee_params : list (AnyHardfork * BaseFeeParams);
  config : ScrollChainConfig;
}.

Definition make_genesis_header (g : Genesis) : outcome GenesisHeader :=
  let base_fee := default 0 (genesis_base_fee_per_gas g) in
  if base_fee <=? u64_max then
    Returns {| gh_gas_limit := genesis_gas_limit g;
               gh_difficulty := genesis_difficulty g;
               gh_nonce := genesis_nonce g;
               gh_extra_data := genesis_extra_data g;
               gh_state_root := state_root_of g;
               gh_timestamp := genesis_time g;
               gh_mix_hash := genesis_mix_hash g;
               gh_beneficiary := genesis_coinbase g;
               gh_base_fee_per_gas := Some base_fee;
               gh_withdrawals_root := None;
               gh_parent_beacon_block_root := None;
               gh_blob_gas_used := None;
               gh_excess_blob_gas := None;
               gh_requests_hash := None |}
  else Panics "base fee should fit in u64".

Definition build_spec_with_hardforks (g : Genesis) (c : ScrollChainConfig)
    (h : ChainHardforks) (chain_override : option Z) : outcome DogeosChainSpec :=
  match make_genesis_header g with
  | Panics msg => Panics msg
  | Returns header =>
      Returns {| chain := default (genesis_chain_id g) chain_override;
                 genesis_header := header;
                 genesis := g;
                 hardforks := h;
                 base_fee_params :=
                   [ (Doge Feynman, DOGEOS_BASE_FEE_PARAMS_FEYNMAN);
                     (Doge TsukiV2, DOGEOS_BASE_FEE_PARAMS_TSUKI) ];
                 config := c |}
  end.

Definition feynman_hardforks (dogeos_forks : list (DogeosHardfork * ForkCondition)) :
    ChainHardforks :=
  chain_hardforks_new (feynman_forks dogeos_forks).

Definition build_spec (g : Genesis) (c : ScrollChainConfig)
    (dogeos_forks : list (DogeosHardfork * ForkCondition)) (chain_override : option Z) :
    outcome DogeosChainSpec :=
  build_spec_with_hardforks g c (feynman_hardforks dogeos_forks) chain_override.

Definition from_custom_genesis (g : Genesis) : outcome DogeosChainSpec :=
  match scroll_config_try_from (genesis_extra_fields g) with
  | Err _ => Panics "custom DogeOS genesis must contain a valid inherited scroll config"
  | Ok c =>
      match hardfork_info_try_from (genesis_extra_fields g) with
      | Err _ => Panics "custom DogeOS genesis hardfork timestamps must be valid"
      | Ok info => build_spec g c (activation_schedule info) None
      end
  end.

Definition as_timestamp (c : ForkCondition) : option Z :=
  match c with Timestamp t => Some t | _ => None end.

Definition spec_fork (s : DogeosChainSpec) (f : AnyHardfork) : ForkCondition :=
  fork (hardforks s) f.

Definition genesis_timestamp (s : DogeosChainSpec) : Z := gh_timestamp (genesis_header s).

(** The closure of [fork_filter_keys]. *)
Definition filter_key (tsuki : option Z) (genesis_timestamp : Z)
    (e : AnyHardfork * ForkCondition) : option ForkFilterKey :=
  match e.2 with
  | Block block | TTD (Some block) => Some (KeyBlock block)
  | Timestamp time =>
      if match tsuki with Some tsuki => tsuki <? time | None => false end
         && (genesis_timestamp <? time)
      then Some (KeyTime time) else None
  | _ => None
  end.

Definition fork_filter_keys (s : DogeosChainSpec) : list ForkFilterKey :=
  let tsuki := as_timestamp (spec_fork s (Doge Tsuki)) in
  omap (filter_key tsuki (genesis_timestamp s)) (forks_iter (hardforks s)).

Definition base_fee_params_at_timestamp (s : DogeosChainSpec) (timestamp : Z) : BaseFeeParams :=
  variable_params (base_fee_params s) (hardforks s) timestamp.

Definition genesis_hash (s : DogeosChainSpec) : B256 := hash_header (genesis_header s).

Definition fork_filter (s : DogeosChainSpec) (head : Head) : ForkFilter :=
  fork_filter_new head (genesis_hash s) (genesis_timestamp s) (fork_filter_keys s).

Definition fork_id (s : DogeosChainSpec) (head : Head) : ForkId :=
  current (fork_filter s head).

Definition latest_fork_id (s : DogeosChainSpec) : ForkId :=
  fork_id s {| head_number := u64_max; head_timestamp := u64_max |}.

Definition spec_ethereum_fork_activation (s : DogeosChainSpec) (f : EthereumHardfork) :
    ForkCondition := spec_fork s (Eth f).

#[export] Instance DogeosChainSpec_hardforks : DogeosHardforks DogeosChainSpec :=
  { dogeos_fork_activation s f := spec_fork s (Doge f) }.
End Spec.
Arguments DogeosChainSpec {_}.

(** ** Lemmas *)

Section SpecLemmas.
Context `{AlloyForksLaws} `{!RethChainSpec} `{!RethChainSpecLaws} `{PrimitiveJson}
  (state_root_of : Genesis -> B256).

Lemma feynman_forks_NoDup info : NoDup (feynman_forks (activation_schedule info)).*1.
Proof. apply (bool_decide_unpack _). vm_compute. exact I. Qed.

(** A custom spec, spelled out. *)
Lemma from_custom_genesis_Returns g s :
  from_custom_genesis state_root_of g = Returns s ->
  exists info, hardfork_info_try_from (genesis_extra_fields g) = Ok info
    /\ hardforks s = feynman_hardforks (activation_schedule info)
    /\ base_fee_params s = [ (Doge Feynman, DOGEOS_BASE_FEE_PARAMS_FEYNMAN);
                             (Doge TsukiV2, DOGEOS_BASE_FEE_PARAMS_TSUKI) ]
    /\ genesis_timestamp s = genesis_time g.
Proof.
  unfold from_custom_genesis, build_spec, build_spec_with_hardforks, make_genesis_header,
    genesis_timestamp. intros E.
  repeat case_match; simplify_eq/=. eexists. by repeat split.
Qed.

Lemma custom_fork_condition g s f :
  from_custom_genesis state_root_of g = Returns s ->
  exists info, hardfork_info_try_from (genesis_extra_fields g) = Ok info
    /\ spec_fork s (Doge f) = listed_condition (activation_schedule info) f.
Proof.
  intros (info & Hi & Hh & _ & _)%from_custom_genesis_Returns. exists info. split; [done|].
  unfold spec_fork. rewrite Hh. unfold feynman_hardforks.
  rewrite fork_new by apply feynman_forks_NoDup. by destruct f.
Qed.
End SpecLemmas.

(** ** Properties *)

(** On a chain built from a custom genesis document, TsukiV2 is scheduled
    exactly when Tsuki is, and Tsuki is active whenever TsukiV2 is. *)
Theorem custom_genesis_tsuki_before_tsuki_v2 `{AlloyForksLaws} `{!RethChainSpec}
    `{!RethChainSpecLaws} `{PrimitiveJson} state_root_of g s t :
  from_custom_genesis state_root_of g = Returns s ->
  (spec_fork s (Doge Tsuki) = Never <-> spec_fork s (Doge TsukiV2) = Never) /\
  (is_tsuki_v2_active_at_timestamp s t = true -> is_tsuki_active_at_timestamp s t = true).
Proof.
  intros Hs. unfold is_tsuki_v2_active_at_timestamp, is_tsuki_active_at_timestamp; simpl.
  destruct (custom_fork_condition _ _ _ Tsuki Hs) as (info & Hi & ->).
  destruct (custom_fork_condition _ _ _ TsukiV2 Hs) as (info' & Hi' & ->).
  rewrite Hi in Hi'. injection Hi' as <-.
  apply hardfork_info_try_from_Ok, validate_Ok in Hi. simpl.
  destruct Hi as [(-> & ->)|(t1 & t2 & -> & -> & Hle)]; simpl; [done|].
  rewrite !active_at_timestamp_Timestamp, !Z.leb_le. split; [done|lia].
Qed.

(** A small genesis document. *)
Definition sample_genesis (fields : OtherFields) : Genesis :=
  {| genesis_chain_id := 4242; genesis_extra_fields := <["scroll" := Object (write_scroll_config scroll_config_mainnet)]> fields;
     genesis_gas_limit := 20000000; genesis_difficulty := 1; genesis_nonce := 0;
     genesis_extra_data := []; genesis_time := 100; genesis_mix_hash := 0;
     genesis_coinbase := 0; genesis_base_fee_per_gas := Some 7 |}.

Definition sample_fields : OtherFields :=
  <["feynmanTime" := Number (Some 0)]> (<["galileoTime" := JString "0x1f4"]>
  (<["tsukiTime" := JString "900"]> (<["tsukiV2Time" := JString "0x3E8"]> ∅))).

Definition sample_spec : DogeosChainSpec :=
  match from_custom_genesis (fun _ => 0) (sample_genesis sample_fields) with
  | Returns s => s
  | Panics _ =>
      {| chain := 0; genesis_header :=
           {| gh_gas_limit := 0; gh_difficulty := 0; gh_nonce := 0; gh_extra_data := [];
              gh_state_root := 0; gh_timestamp := 0; gh_mix_hash := 0; gh_beneficiary := 0;
              gh_base_fee_per_gas := None; gh_withdrawals_root := None;
              gh_parent_beacon_block_root := None; gh_blob_gas_used := None;
              gh_excess_blob_gas := None; gh_requests_hash := None |};
         genesis := sample_genesis ∅; hardforks := []; base_fee_params := [];
         config := scroll_config_mainnet |}
  end.

Lemma custom_genesis_tsuki_before_tsuki_v2_witness :
  spec_fork sample_spec (Doge TsukiV2) = Timestamp 1000 /\
  is_tsuki_active_at_timestamp sample_spec 1000 = true.
Proof.
  split; [vm_compute; reflexivity|].
  apply (custom_genesis_tsuki_before_tsuki_v2 (fun _ => 0)
    (sample_genesis sample_fields) sample_spec 1000); vm_compute; reflexivity.
Defined.

(** The EIP-1559 parameters of a custom chain at a timestamp are the Tsuki ones
    (denominator 48, elasticity 10) exactly when TsukiV2 is active, and the
    Feynman ones (8, 2) otherwise, even before any fork is active. *)
Theorem custom_genesis_base_fee_params `{AlloyForksLaws} `{!RethChainSpec}
    `{!RethChainSpecLaws} `{PrimitiveJson} state_root_of g s t :
  from_custom_genesis state_root_of g = Returns s ->
  base_fee_params_at_timestamp s t =
  if is_tsuki_v2_active_at_timestamp s t then DOGEOS_BASE_FEE_PARAMS_TSUKI
  else DOGEOS_BASE_FEE_PARAMS_FEYNMAN.
Proof.
  intros (_ & _ & _ & Hp & _)%from_custom_genesis_Returns.
  unfold base_fee_params_at_timestamp, is_tsuki_v2_active_at_timestamp; simpl.
  rewrite Hp. apply variable_params_last. unfold last_active, spec_fork.
  rewrite !filter_cons, filter_nil; simpl.
  repeat case_decide; repeat case_match; simplify_eq/=; congruence.
Qed.

Lemma custom_genesis_base_fee_params_witness :
  base_fee_params_at_timestamp sample_spec 999 = DOGEOS_BASE_FEE_PARAMS_FEYNMAN /\
  base_fee_params_at_timestamp sample_spec 1000 = DOGEOS_BASE_FEE_PARAMS_TSUKI.
Proof.
  split; rewrite (custom_genesis_base_fee_params (fun _ => 0)
    (sample_genesis sample_fields) sample_spec); vm_compute; reflexivity.
Defined.

Definition key_time (k : ForkFilterKey) : option Z :=
  match k with KeyTime t => Some t | KeyBlock _ => None end.

(** The timestamps a fork-filter key list may take from a schedule. *)
Definition later_times (tsuki : option Z) (genesis_time : Z)
    (l : list (DogeosHardfork * ForkCondition)) : list Z :=
  match tsuki with
  | None => []
  | Some tsuki => filter (fun t => tsuki < t /\ genesis_time < t) (omap (as_timestamp ∘ snd) l)
  end.

Lemma schedule_keys (tsuki : option Z) now l :
  Forall (fun e => as_timestamp e.2 <> None \/ e.2 = Never) l ->
  omap (filter_key tsuki now) (map (fun e => (Doge e.1, e.2)) l) = map KeyTime (later_times tsuki now l).
Proof.
  induction 1 as [|[f c] l Hc _ IH]; [by destruct tsuki|].
  simpl map. rewrite omap_cons, IH.
  destruct tsuki as [t1|], c as [|o|t|]; simpl in *; try done; try by destruct Hc.
  rewrite filter_cons.
  unfold filter_key; simpl.
  destruct (Z.ltb_spec t1 t), (Z.ltb_spec now t); simpl; case_decide; try done; lia.
Qed.

Lemma condition_shape o : as_timestamp (condition o) <> None \/ condition o = Never.
Proof. destruct o; [by left|by right]. Qed.

(** The EIP-2124 keys of a custom chain are the ten block-0 keys of the
    Ethereum baseline followed by the DogeOS fork times later than both Tsuki
    and genesis; a chain without Tsuki announces no timestamp at all. *)
Theorem custom_genesis_fork_filter_keys `{AlloyForksLaws} `{!RethChainSpec}
    `{!RethChainSpecLaws} `{PrimitiveJson} state_root_of g s :
  from_custom_genesis state_root_of g = Returns s -> 0 <= genesis_time g ->
  exists info, hardfork_info_try_from (genesis_extra_fields g) = Ok info /\
  fork_filter_keys s =
    replicate 10 (KeyBlock 0) ++
    map KeyTime (later_times (tsuki_time info) (genesis_time g) (activation_schedule info)).
Proof.
  intros Hs Hg. destruct (from_custom_genesis_Returns _ _ _ Hs) as (info & Hi & Hh & _ & Ht).
  destruct (custom_fork_condition _ _ _ Tsuki Hs) as (info' & Hi' & Hc).
  exists info. split; [done|]. rewrite Hi in Hi'. injection Hi' as <-.
  unfold fork_filter_keys. rewrite Hc, Hh, Ht. unfold feynman_hardforks.
  rewrite forks_iter_new. unfold feynman_forks. simpl listed_condition.
  rewrite omap_app. f_equal.
  - simpl. unfold filter_key; simpl. destruct (Z.ltb_spec (genesis_time g) 0); [lia|].
    by rewrite andb_false_r.
  - replace (as_timestamp (condition (tsuki_time info))) with (tsuki_time info)
      by (by destruct (tsuki_time info)).
    apply schedule_keys. unfold activation_schedule.
    repeat (apply Forall_cons; split; [apply condition_shape|]). constructor.
Qed.

Lemma custom_genesis_fork_filter_keys_witness :
  fork_filter_keys sample_spec = replicate 10 (KeyBlock 0) ++ [KeyTime 1000].
Proof.
  destruct (custom_genesis_fork_filter_keys (fun _ => 0)
    (sample_genesis sample_fields) sample_spec) as (info & Hi & ->);
    [vm_compute; reflexivity|vm_compute; discriminate|].
  vm_compute in Hi. injection Hi as <-. vm_compute. reflexivity.
Defined.
