(* ===== verification/Networks.v ===== *)
(** * Built-in networks and the spec builder (dogeos-chainspec)

    dogeos.rs, chikyu.rs, dev.rs: the specs of the embedded genesis documents;
    lib.rs: [DogeosChainSpecBuilder]. The documents are transcribed without
    their allocation, whose trie root is an argument; reth's own builder is an
    interface with laws. *)

From stdpp Require Import prelude gmap list strings.
From Stdlib Require Import ZArith Lia.
From S2P Require Import Prelude.
From S2P Require Import Hardforks.
From S2P Require Import GenesisConfig.
From S2P Require Import ChainSpec.

(** ** The embedded documents (res/genesis) *)

(** The keys every document activates at genesis that are not fields of alloy's
    [ChainConfig]; no code reads them. *)
Definition scroll_fork_keys : OtherFields :=
  list_to_map (map (fun key => (key, Number (Some 0)))
    ["archimedesBlock"; "shanghaiBlock"; "bernoulliBlock"; "curieBlock"; "darwinTime"; "darwinV2Time";
     "euclidTime"; "euclidV2Time"] : list (string * JsonValue)).

(** The five DogeOS fork keys of a document. *)
Definition fork_times (feynman galileo galileo_v2 tsuki tsuki_v2 : Z) (others : OtherFields) :
    OtherFields :=
  <["feynmanTime" := Number (Some feynman)]>
  (<["galileoTime" := Number (Some galileo)]>
  (<["galileoV2Time" := Number (Some galileo_v2)]>
  (<["tsukiTime" := Number (Some tsuki)]>
  (<["tsukiV2Time" := Number (Some tsuki_v2)]> others)))).

(** The ["scroll"] objects of the two network documents. *)
Definition mainnet_scroll : JsonValue :=
  Object
    [ ("maxTxPayloadBytesPerBlock", Number (Some 122880));
      ("feeVaultAddress", JString "0x5300000000000000000000000000000000000005");
      ("l1Config", Object
         [ ("l1ChainId", Number (Some 1));
           ("l1MessageQueueAddress", JString "0x890579692e4eFb4353852ea192663a17632C2b75");
           ("l1MessageQueueV2Address", JString "0x97E03805774DC6A8219F6c0a11c1998CC7F60990");
           ("scrollChainAddress", JString "0x23834c0FcC397dDd8292174E99F95b93577a91DA");
           ("systemContractAddress", JString "0x471Ff39bC44a2307CA0429060924bA60E9Ed4f40");
           ("l2SystemConfigAddress", JString "0x198c9525615604f871f74857DEDFcC7A7dEe6531");
           ("numL1MessagesPerBlock", Number (Some 10));
           ("startL1Block", Number (Some 0)) ]) ]%string.

Definition chikyu_scroll : JsonValue :=
  Object
    [ ("useZktrie", Bool false);
      ("maxTxPerBlock", Number (Some 100));
      ("maxTxPayloadBytesPerBlock", Number (Some 122880));
      ("feeVaultAddress", JString "0x5300000000000000000000000000000000000005");
      ("l1Config", Object
         [ ("l1ChainId", Number (Some 111111));
           ("l1MessageQueueAddress", JString "0x3396BeD5adB7d83CC6C424264d229478556d3C02");
           ("l1MessageQueueV2Address", JString "0x6B72155A3aC485Ea8C4CCacF243F6e634D4869bD");
           ("l1MessageQueueV2DeploymentBlock", Number (Some 0));
           ("scrollChainAddress", JString "0x8cB645a973e0C595aaAb55361fe917915b4E656c");
           ("systemContractAddress", JString "0x2000369731833cBf00e97146999442ADf10a4E59");
           ("l2SystemConfigAddress", JString "0x2669B071E88e272CBDA1e12182D8C754CB737400");
           ("numL1MessagesPerBlock", Number (Some 10));
           ("startL1Block", Number (Some 14023282)) ]);
      ("genesisStateRoot", Null);
      ("missingHeaderFieldsSHA256", Null) ]%string.

(** The clique settings of the Chikyu document; no code reads them. *)
Definition chikyu_system_contract : JsonValue :=
  Object
    [ ("period", Number (Some 3));
      ("system_contract_address", JString "0x2000369731833cBf00e97146999442ADf10a4E59");
      ("system_contract_slot",
        JString "0x0000000000000000000000000000000000000000000000000000000000000067");
      ("relaxed_period", Bool true) ]%string.

Definition mainnet_genesis : Genesis :=
  {| genesis_chain_id := 1122005;
     genesis_extra_fields := fork_times 0 0 0 0 0 (<["scroll" := mainnet_scroll]> scroll_fork_keys);
     genesis_gas_limit := 0x1c9c380; genesis_difficulty := 1; genesis_nonce := 0;
     genesis_extra_data := []; genesis_time := 0; genesis_mix_hash := 0; genesis_coinbase := 0;
     genesis_base_fee_per_gas := Some 0x3b9aca00 |}.

(** The signer address the clique extra data carries between its zero bytes. *)
Definition chikyu_signer : bytes :=
  [0xc9; 0x13; 0x96; 0xC8; 0x88; 0xe0; 0x2B; 0xE4; 0x5d; 0x47;
   0x16; 0xEf; 0xDe; 0xD4; 0x25; 0x29; 0x66; 0x85; 0x56; 0x35].

Definition chikyu_genesis : Genesis :=
  {| genesis_chain_id := 6281971;
     genesis_extra_fields :=
       fork_times 0 1790030800 1790030800 1790030900 1798761600
         (<["systemContract" := chikyu_system_contract]> (<["scroll" := chikyu_scroll]> scroll_fork_keys));
     genesis_gas_limit := 10000000; genesis_difficulty := 1; genesis_nonce := 0;
     genesis_extra_data := replicate 32 0 ++ chikyu_signer ++ replicate 65 0;
     genesis_time := 0x68e7e322; genesis_mix_hash := 0; genesis_coinbase := 0;
     genesis_base_fee_per_gas := Some 0x5f5e100 |}.

(** The development document has no [config]; [default_chain_id] is alloy's. *)
Definition dev_genesis (default_chain_id : Z) : Genesis :=
  {| genesis_chain_id := default_chain_id; genesis_extra_fields := ∅;
     genesis_gas_limit := 0x1312D00; genesis_difficulty := 0; genesis_nonce := 0;
     genesis_extra_data := []; genesis_time := 0x6490fdd2; genesis_mix_hash := 0;
     genesis_coinbase := 0; genesis_base_fee_per_gas := Some 0 |}.

(** ** The built-in specs *)

Definition DOGEOS_DEV_L1_CONFIG : L1Config :=
  {| l1_chain_id := 5; l1_message_queue_address := 0; l1_message_queue_v2_address := 0;
     scroll_chain_address := 0; l2_system_config_address := 0; num_l1_messages_per_block := 10 |}.

Definition scroll_config_dev : ScrollChainConfig := scroll_config_new DOGEOS_DEV_L1_CONFIG.

(** [alloy_chains::Chain::dev]. *)
Definition CHAIN_DEV : Z := 1337.

Section Builtin.
Context `{RethChainSpec} `{PrimitiveJson} (state_root_of : Genesis -> B256).

Definition DOGEOS_MAINNET : outcome DogeosChainSpec :=
  from_custom_genesis state_root_of mainnet_genesis.

Definition DOGEOS_CHIKYU : outcome DogeosChainSpec :=
  from_custom_genesis state_root_of chikyu_genesis.

Definition DOGEOS_DEV (default_chain_id : Z) : outcome DogeosChainSpec :=
  build_spec state_root_of (dev_genesis default_chain_id) scroll_config_dev dev (Some CHAIN_DEV).
End Builtin.

(** ** reth's builder *)

Class RethSpecBuilder `{RethChainSpec} := {
  ChainSpecBuilder : Type;
  builder_default : ChainSpecBuilder;
  builder_chain : ChainSpecBuilder -> Z -> ChainSpecBuilder;
  builder_genesis : ChainSpecBuilder -> Genesis -> ChainSpecBuilder;
  builder_with_forks : ChainSpecBuilder -> ChainHardforks -> ChainSpecBuilder;
  builder_with_fork : ChainSpecBuilder -> AnyHardfork -> ForkCondition -> ChainSpecBuilder;
  (** The chain, the genesis and the forks of the spec that is built. *)
  builder_build : ChainSpecBuilder -> outcome (Z * Genesis * ChainHardforks);
  hardforks_insert : ChainHardforks -> AnyHardfork -> ForkCondition -> ChainHardforks;
}.

(** What a builder holds: [build] needs a chain and a genesis. *)
Class RethSpecBuilderLaws `{RethSpecBuilder}
    (parts : ChainSpecBuilder -> option Z * option Genesis * ChainHardforks) : Prop := {
  chain_parts b c : parts (builder_chain b c) = (Some c, (parts b).1.2, (parts b).2);
  genesis_parts b g : parts (builder_genesis b g) = ((parts b).1.1, Some g, (parts b).2);
  with_forks_parts b h : parts (builder_with_forks b h) = ((parts b).1, h);
  with_fork_parts b f c :
    parts (builder_with_fork b f c) = ((parts b).1, hardforks_insert (parts b).2 f c);
  build_parts b c g h : parts b = (Some c, Some g, h) -> builder_build b = Returns (c, g, h);
  insert_lookup h f c f' :
    fork (hardforks_insert h f c) f' = if decide (f' = f) then c else fork h f';
}.

(** ** [DogeosChainSpecBuilder] *)

Module Builder.
Section Builder.
Context `{RethSpecBuilder} `{PrimitiveJson} (state_root_of : Genesis -> B256).

Record DogeosChainSpecBuilder := { inner : ChainSpecBuilder }.

Definition from_spec (spec : DogeosChainSpec) : DogeosChainSpecBuilder :=
  {| inner := builder_with_forks
                (builder_genesis (builder_chain builder_default (ChainSpec.chain spec))
                   (ChainSpec.genesis spec)) (hardforks spec) |}.

(** Forcing a built-in spec panics when its document is rejected. *)
Definition forced (spec : outcome DogeosChainSpec) : outcome DogeosChainSpecBuilder :=
  match spec with Returns spec => Returns (from_spec spec) | Panics msg => Panics msg end.

Definition dogeos_mainnet : outcome DogeosChainSpecBuilder :=
  forced (DOGEOS_MAINNET state_root_of).
Definition dogeos_chikyu : outcome DogeosChainSpecBuilder :=
  forced (DOGEOS_CHIKYU state_root_of).
Definition dev (default_chain_id : Z) : outcome DogeosChainSpecBuilder :=
  forced (DOGEOS_DEV state_root_of default_chain_id).

Definition chain (self : DogeosChainSpecBuilder) (chain : Z) : DogeosChainSpecBuilder :=
  {| inner := builder_chain (inner self) chain |}.

Definition genesis (self : DogeosChainSpecBuilder) (genesis : Genesis) : DogeosChainSpecBuilder :=
  {| inner := builder_genesis (inner self) genesis |}.

Definition with_fork (self : DogeosChainSpecBuilder) (fork : AnyHardfork) (condition : ForkCondition) :
    DogeosChainSpecBuilder :=
  {| inner := builder_with_fork (inner self) fork condition |}.

Definition build (self : DogeosChainSpecBuilder) (config : ScrollChainConfig) :
    outcome DogeosChainSpec :=
  match builder_build (inner self) with
  | Panics msg => Panics msg
  | Returns (chain, genesis, hardforks) =>
      build_spec_with_hardforks state_root_of genesis config hardforks (Some chain)
  end.
End Builder.
End Builder.

(** ** Lemmas *)

Section Lemmas.
Context `{AlloyForksLaws} `{!RethChainSpec} `{!RethChainSpecLaws} (state_root_of : Genesis -> B256).

Lemma listed_doge l f : listed_any (feynman_forks l) (Doge f) = listed_condition l f.
Proof.
  unfold feynman_forks. simpl. induction l as [|[g c] l IH]; simpl; [done|].
  rewrite IH. destruct (decide (Doge g = Doge f)), (decide (g = f)); congruence.
Qed.

Lemma listed_eth l s f : listed_any (feynman_forks l) (Eth f) = ethereum_fork_activation s f.
Proof.
  assert (Htail : listed_any (map (fun e => (Doge e.1, e.2)) l) (Eth f) = Never).
  { induction l as [|[g c] l IH]; [done|]. exact IH. }
  destruct f; try reflexivity. exact Htail.
Qed.

(** What a spec says of a network. *)
Record describes (s : DogeosChainSpec) (g : Genesis) (chain_id : Z) (c : ScrollChainConfig)
    (l : list (DogeosHardfork * ForkCondition)) : Prop := {
  d_genesis : ChainSpec.genesis s = g;
  d_chain : chain s = chain_id;
  d_config : config s = c;
  d_dogeos f : dogeos_fork_activation s f = dogeos_fork_activation (new_schedule l) f;
  d_ethereum f : spec_ethereum_fork_activation s f = ethereum_fork_activation (new_schedule l) f;
  d_base_fee : gh_base_fee_per_gas (genesis_header s) = Some (default 0 (genesis_base_fee_per_gas g));
}.

Lemma build_spec_describes g c l o s :
  NoDup l.*1 -> NoDup (feynman_forks l).*1 -> build_spec state_root_of g c l o = Returns s ->
  describes s g (default (genesis_chain_id g) o) c l.
Proof.
  unfold build_spec, build_spec_with_hardforks, make_genesis_header. intros Hl Hall Hs.
  repeat case_match; simplify_eq/=. split; simpl; [done..| | |done].
  - intros f. unfold spec_fork; simpl. unfold feynman_hardforks.
    by rewrite fork_new, listed_doge, schedule_activation.
  - intros f. unfold spec_ethereum_fork_activation, spec_fork; simpl. unfold feynman_hardforks.
    by rewrite fork_new, (listed_eth _ (new_schedule l)).
Qed.
End Lemmas.

(** The two ["scroll"] objects are accepted: their keys are known, those of the L1
    configuration that no code reads are passed over. *)
Create HintDb address.

Section Documents.
Context `{PrimitiveJsonLaws}.

#[local] Hint Extern 1 (read_address _ = Ok _) =>
  apply read_hex_address; vm_compute; reflexivity : address.

Lemma read_fee_vault : read_address (JString "0x5300000000000000000000000000000000000005") = Ok SCROLL_FEE_VAULT_ADDRESS.
Proof. auto with address. Qed.

(** Runs the reader up to the addresses. *)
Ltac read_document :=
  unfold read_scroll_config_json, mainnet_scroll, chikyu_scroll, read_l1_config;
  cbn -[DOGEOS_MAINNET_L1_CONFIG DOGEOS_CHIKYU_L1_CONFIG];
  unfold reads, read_option, read_l1_config;
  cbn -[DOGEOS_MAINNET_L1_CONFIG DOGEOS_CHIKYU_L1_CONFIG]; unfold reads.

Lemma mainnet_scroll_read : exists json, read_scroll_config_json mainnet_scroll = Ok json
  /\ scroll_config_from json = scroll_config_mainnet.
Proof.
  assert (read_address (JString "0x890579692e4eFb4353852ea192663a17632C2b75")
    = Ok (l1_message_queue_address DOGEOS_MAINNET_L1_CONFIG)) as E1 by auto with address.
  assert (read_address (JString "0x97E03805774DC6A8219F6c0a11c1998CC7F60990")
    = Ok (l1_message_queue_v2_address DOGEOS_MAINNET_L1_CONFIG)) as E2 by auto with address.
  assert (read_address (JString "0x23834c0FcC397dDd8292174E99F95b93577a91DA")
    = Ok (scroll_chain_address DOGEOS_MAINNET_L1_CONFIG)) as E3 by auto with address.
  assert (read_address (JString "0x198c9525615604f871f74857DEDFcC7A7dEe6531")
    = Ok (l2_system_config_address DOGEOS_MAINNET_L1_CONFIG)) as E4 by auto with address.
  read_document. rewrite read_fee_vault, E1, E2, E3, E4. eexists. split; reflexivity.
Qed.

Lemma chikyu_scroll_read : exists json, read_scroll_config_json chikyu_scroll = Ok json
  /\ scroll_config_from json = scroll_config_chikyu.
Proof.
  assert (read_address (JString "0x3396BeD5adB7d83CC6C424264d229478556d3C02")
    = Ok (l1_message_queue_address DOGEOS_CHIKYU_L1_CONFIG)) as E1 by auto with address.
  assert (read_address (JString "0x6B72155A3aC485Ea8C4CCacF243F6e634D4869bD")
    = Ok (l1_message_queue_v2_address DOGEOS_CHIKYU_L1_CONFIG)) as E2 by auto with address.
  assert (read_address (JString "0x8cB645a973e0C595aaAb55361fe917915b4E656c")
    = Ok (scroll_chain_address DOGEOS_CHIKYU_L1_CONFIG)) as E3 by auto with address.
  assert (read_address (JString "0x2669B071E88e272CBDA1e12182D8C754CB737400")
    = Ok (l2_system_config_address DOGEOS_CHIKYU_L1_CONFIG)) as E4 by auto with address.
  read_document. rewrite read_fee_vault, E1, E2, E3, E4. eexists. split; reflexivity.
Qed.
End Documents.

(** A custom document whose fork times are known builds the spec of its schedule. *)
Lemma custom_describes `{AlloyForksLaws} `{!RethChainSpec} `{!RethChainSpecLaws} `{PrimitiveJson}
    state_root_of v c info g :
  genesis_extra_fields g !! ("scroll" : string) = Some v ->
  (exists json, read_scroll_config_json v = Ok json /\ scroll_config_from json = c) ->
  hardfork_info_try_from (genesis_extra_fields g) = Ok info ->
  default 0 (genesis_base_fee_per_gas g) <= u64_max ->
  exists s, from_custom_genesis state_root_of g = Returns s
    /\ describes s g (genesis_chain_id g) c (activation_schedule info).
Proof.
  intros Hk (json & Hr & <-) Hi Hfee.
  assert (Hs : exists s, from_custom_genesis state_root_of g = Returns s
                 /\ build_spec state_root_of g (scroll_config_from json) (activation_schedule info) None = Returns s).
  { unfold from_custom_genesis, scroll_config_try_from. rewrite Hk, Hr, Hi. simpl.
    unfold build_spec, build_spec_with_hardforks, make_genesis_header.
    apply Z.leb_le in Hfee. rewrite Hfee. by eexists. }
  destruct Hs as (s & Hs & Hb). exists s. split; [done|].
  apply (build_spec_describes state_root_of g _ _ None); [|apply feynman_forks_NoDup|done].
  apply activation_schedule_NoDup.
Qed.

(** The documents are accepted, and the specs follow the declared schedules. *)
Lemma builtin_specs `{AlloyForksLaws} `{!RethChainSpec} `{!RethChainSpecLaws}
    `{PrimitiveJsonLaws} (state_root_of : Genesis -> B256) (default_chain_id : Z) :
  exists s1 s2 s3,
    DOGEOS_MAINNET state_root_of = Returns s1
    /\ DOGEOS_CHIKYU state_root_of = Returns s2
    /\ DOGEOS_DEV state_root_of default_chain_id = Returns s3
    /\ describes s1 mainnet_genesis 1122005 scroll_config_mainnet mainnet
    /\ describes s2 chikyu_genesis 6281971 scroll_config_chikyu chikyu
    /\ describes s3 (dev_genesis default_chain_id) CHAIN_DEV scroll_config_dev dev.
Proof.
  unfold DOGEOS_MAINNET, DOGEOS_CHIKYU.
  destruct (custom_describes state_root_of mainnet_scroll scroll_config_mainnet
    {| feynman_time := Some 0; galileo_time := Some 0; galileo_v2_time := Some 0;
       tsuki_time := Some 0; tsuki_v2_time := Some 0 |} mainnet_genesis) as (s1 & E1 & D1);
    [reflexivity|exact mainnet_scroll_read|vm_compute; reflexivity|by vm_compute|].
  destruct (custom_describes state_root_of chikyu_scroll scroll_config_chikyu
    {| feynman_time := Some 0; galileo_time := Some 1790030800; galileo_v2_time := Some 1790030800;
       tsuki_time := Some 1790030900; tsuki_v2_time := Some 1798761600 |} chikyu_genesis) as (s2 & E2 & D2);
    [reflexivity|exact chikyu_scroll_read|vm_compute; reflexivity|by vm_compute|].
  eexists s1, s2, _. do 2 (split; [done|]). split; [reflexivity|]. do 2 (split; [done|]).
  apply (build_spec_describes state_root_of _ _ _ (Some CHAIN_DEV)); [| |reflexivity];
    apply (bool_decide_unpack _); vm_compute; exact I.
Qed.

(** ** Properties *)

(** C16: The three built-in specs exist: no embedded document is rejected. Each has its
    document's base fee and chain id (the development chain its own), the
    configuration the crate declares for it, and at every fork, DogeOS's or
    Ethereum's, the condition of the schedule that the hardforks crate declares
    for the network: the node and everything that runs on a bare schedule
    follow the same rules. *)
Theorem builtin_specs_match_schedules `{AlloyForksLaws} `{!RethChainSpec} `{!RethChainSpecLaws}
    `{PrimitiveJsonLaws} (state_root_of : Genesis -> B256) (default_chain_id : Z) :
  exists s1 s2 s3,
    DOGEOS_MAINNET state_root_of = Returns s1
    /\ DOGEOS_CHIKYU state_root_of = Returns s2
    /\ DOGEOS_DEV state_root_of default_chain_id = Returns s3
    /\ describes s1 mainnet_genesis 1122005 scroll_config_mainnet mainnet
    /\ describes s2 chikyu_genesis 6281971 scroll_config_chikyu chikyu
    /\ describes s3 (dev_genesis default_chain_id) CHAIN_DEV scroll_config_dev dev.
Proof. apply builtin_specs. Qed.

Lemma builtin_specs_match_schedules_witness :
  exists s, DOGEOS_CHIKYU (fun _ => 0) = Returns s
    /\ dogeos_fork_activation s Tsuki = Timestamp 1790030900 /\ config s = scroll_config_chikyu.
Proof.
  destruct (builtin_specs_match_schedules (fun _ => 0) 1) as (_ & s & _ & _ & H & _ & _ & D & _).
  exists s. split; [exact H|]. rewrite (d_dogeos _ _ _ _ _ D), (d_config _ _ _ _ _ D).
  split; vm_compute; reflexivity.
Defined.

Module BuilderTheorems.
Section BuilderTheorems.
Context `{RethSpecBuilderLaws} (state_root_of : Genesis -> B256).

Lemma from_spec_parts s :
  parts (Builder.inner (Builder.from_spec s)) = (Some (chain s), Some (genesis s), hardforks s).
Proof. simpl. by rewrite with_forks_parts, genesis_parts, chain_parts. Qed.

Lemma build_of_parts b c g h cfg :
  parts (Builder.inner b) = (Some c, Some g, h) ->
  Builder.build state_root_of b cfg = build_spec_with_hardforks state_root_of g cfg h (Some c).
Proof. intros Hb. unfold Builder.build. by rewrite (build_parts _ _ _ _ Hb). Qed.

(** C31: The builder starts from a spec that was built and gives it back: rebuilding
    with the spec's own configuration is the identity. One fork set on the way
    changes that fork and no other; another genesis document changes the
    header and the document alone, and its fork keys are not read; another chain
    changes the chain alone. In each case the configuration is the one given. *)
Theorem spec_builder_roundtrip (g : Genesis) (cfg : ScrollChainConfig) (h : ChainHardforks)
    (o : option Z) (s : DogeosChainSpec) :
  build_spec_with_hardforks state_root_of g cfg h o = Returns s ->
  Builder.build state_root_of (Builder.from_spec s) (config s) = Returns s
  /\ (forall f c cfg', exists s',
        Builder.build state_root_of (Builder.with_fork (Builder.from_spec s) f c) cfg' = Returns s'
        /\ (forall f', spec_fork s' f' = if decide (f' = f) then c else spec_fork s f')
        /\ genesis_header s' = genesis_header s /\ genesis s' = genesis s /\ chain s' = chain s
        /\ base_fee_params s' = base_fee_params s /\ config s' = cfg')
  /\ (forall g' cfg', default 0 (genesis_base_fee_per_gas g') <= u64_max -> exists s',
        Builder.build state_root_of (Builder.genesis (Builder.from_spec s) g') cfg' = Returns s'
        /\ make_genesis_header state_root_of g' = Returns (genesis_header s') /\ genesis s' = g'
        /\ hardforks s' = hardforks s /\ chain s' = chain s /\ config s' = cfg')
  /\ (forall c cfg', exists s',
        Builder.build state_root_of (Builder.chain (Builder.from_spec s) c) cfg' = Returns s'
        /\ genesis_header s' = genesis_header s /\ genesis s' = genesis s
        /\ hardforks s' = hardforks s /\ chain s' = c /\ config s' = cfg').
Proof.
  unfold build_spec_with_hardforks at 1. intros Hs.
  destruct (make_genesis_header state_root_of g) as [header|] eqn:Eh; [|done]. simplify_eq/=.
  pose proof from_spec_parts as Hp. unfold Builder.with_fork, Builder.genesis, Builder.chain. repeat split.
  - erewrite build_of_parts by apply Hp. unfold build_spec_with_hardforks. simpl. by rewrite Eh.
  - intros f c cfg'. eexists. erewrite build_of_parts by (etrans; [apply with_fork_parts|by rewrite Hp]).
    unfold build_spec_with_hardforks. simpl. rewrite Eh. split; [done|]. simpl.
    split; [|done]. intros f'. apply insert_lookup.
  - intros g' cfg' Hfee. erewrite build_of_parts by (etrans; [apply genesis_parts|by rewrite Hp]).
    unfold build_spec_with_hardforks, make_genesis_header. simpl.
    apply Z.leb_le in Hfee. rewrite Hfee. by eexists.
  - intros c cfg'. erewrite build_of_parts by (etrans; [apply chain_parts|by rewrite Hp]).
    unfold build_spec_with_hardforks. simpl. rewrite Eh. by eexists.
Qed.
End BuilderTheorems.
End BuilderTheorems.

(** reth's builder as the triple of what it holds. *)
#[export] Instance ref_builder : RethSpecBuilder := {
  ChainSpecBuilder := option Z * option Genesis * list (AnyHardfork * ForkCondition);
  builder_default := (None, None, []);
  builder_chain b c := (Some c, b.1.2, b.2);
  builder_genesis b g := (b.1.1, Some g, b.2);
  builder_with_forks b h := (b.1, h);
  builder_with_fork b f c := (b.1, (f, c) :: b.2);
  builder_build b :=
    match b with
    | (Some c, Some g, h) => Returns (c, g, h)
    | (None, _, _) => Panics "The chain is required"
    | _ => Panics "The genesis is required"
    end;
  hardforks_insert h f c := (f, c) :: h;
}.

#[export] Instance ref_builder_laws : RethSpecBuilderLaws (fun b => b).
Proof.
  split; simpl; try done.
  - by intros b c g h ->.
  - intros h f c f'. destruct (decide (f = f')), (decide (f' = f)); congruence.
Qed.

(** The mainnet spec over the reference library. *)
Definition mainnet_spec : DogeosChainSpec :=
  match DOGEOS_MAINNET (fun _ => 0) with
  | Returns s => s
  | Panics _ => sample_spec
  end.

Lemma mainnet_spec_built :
  build_spec_with_hardforks (fun _ => 0) mainnet_genesis scroll_config_mainnet
    (feynman_hardforks mainnet) None = Returns mainnet_spec.
Proof. vm_compute. reflexivity. Qed.

Lemma mainnet_spec_config : config mainnet_spec = scroll_config_mainnet.
Proof. vm_compute. reflexivity. Qed.

(** Mainnet rebuilt, and rebuilt with TsukiV2 a thousand seconds later. *)
Lemma spec_builder_roundtrip_witness :
  Builder.build (fun _ => 0) (Builder.from_spec mainnet_spec) scroll_config_mainnet = Returns mainnet_spec
  /\ exists s',
    Builder.build (fun _ => 0)
      (Builder.with_fork (Builder.from_spec mainnet_spec) (Doge TsukiV2) (Timestamp 1000)) scroll_config_dev
    = Returns s'
    /\ spec_fork s' (Doge TsukiV2) = Timestamp 1000 /\ spec_fork s' (Doge Tsuki) = Timestamp 0
    /\ config s' = scroll_config_dev.
Proof.
  destruct (BuilderTheorems.spec_builder_roundtrip (fun _ => 0) _ _ _ _ _ mainnet_spec_built) as (Hr & Hf & _).
  rewrite mainnet_spec_config in Hr. split; [exact Hr|].
  destruct (Hf (Doge TsukiV2) (Timestamp 1000) scroll_config_dev) as (s' & Hs' & Hfork & _ & _ & _ & _ & Hc).
  exists s'. split; [exact Hs'|]. rewrite !Hfork. split; [reflexivity|]. split; [|exact Hc].
  vm_compute. reflexivity.
Defined.
