(* ===== verification/Chain.v ===== *)
(** * Shared chain data: headers, accounts, databases and gas rules

    The values of the external crates the code builds and takes apart: the
    block header of [alloy_consensus], and the [Database] interface of [revm]
    with the views its laws are stated on. *)

From stdpp Require Import prelude gmap list strings.
From Stdlib Require Import ZArith Lia.
From S2P Require Import Prelude.

(** ** Headers ([alloy_consensus::Header]) *)

Record Header := {
  parent_hash : B256;
  ommers_hash : B256;
  beneficiary : Address;
  state_root : B256;
  transactions_root : B256;
  receipts_root : B256;
  logs_bloom : Z;
  difficulty : U256;
  number : Z;
  gas_limit : Z;
  gas_used : Z;
  timestamp : Z;
  extra_data : bytes;
  mix_hash : B256;
  nonce : Z;
  base_fee_per_gas : option Z;
  withdrawals_root : option B256;
  blob_gas_used : option Z;
  excess_blob_gas : option Z;
  parent_beacon_block_root : option B256;
  requests_hash : option B256;
}.

(** ** Accounts and databases ([revm]) *)

Record AccountInfo := {
  acc_balance : U256;
  acc_nonce : Z;
  acc_code_hash : B256;
  acc_code : option bytes;
}.

#[export] Instance AccountInfo_eq_dec : EqDecision AccountInfo.
Proof. solve_decision. Defined.

(** One storage slot of a committed change: the value before and after. *)
Record StorageSlot := { original_value : U256; present_value : U256 }.

(** A committed account change. *)
Record Account := {
  account_info : AccountInfo;
  account_storage : gmap Z StorageSlot;
}.

(** [Database] and [DatabaseCommit]. A read may fail, and it may change the
    database value (a cache fills), so the new value is returned in both cases. *)
Class Database (DB E : Type) := {
  basic : DB -> Address -> result (option AccountInfo) E * DB;
  storage : DB -> Address -> U256 -> result U256 E * DB;
  commit : DB -> gmap Address Account -> DB;
}.

(** What a database holds, apart from its caches; reading changes none of it,
    and a commit writes exactly the touched accounts and slots. *)
Class DatabaseView (DB : Type) := {
  info_of : DB -> Address -> option AccountInfo;
  slot_of : DB -> Address -> U256 -> U256;
}.

Class DatabaseLaws (DB E : Type) `{Database DB E} `{DatabaseView DB} : Prop := {
  basic_reads db a r db' : basic db a = (Ok r, db') -> r = info_of db a;
  basic_info db a b : info_of (snd (basic db a)) b = info_of db b;
  basic_slot db a b k : slot_of (snd (basic db a)) b k = slot_of db b k;
  storage_reads db a k v db' : storage db a k = (Ok v, db') -> v = slot_of db a k;
  storage_info db a k b : info_of (snd (storage db a k)) b = info_of db b;
  storage_slot db a k b k' : slot_of (snd (storage db a k)) b k' = slot_of db b k';
  commit_info db m a :
    info_of (commit db m) a =
    match m !! a with Some acc => Some (account_info acc) | None => info_of db a end;
  commit_slot db m a k :
    slot_of (commit db m) a k =
    match m !! a with
    | Some acc =>
        match account_storage acc !! k with
        | Some s => present_value s
        | None => slot_of db a k
        end
    | None => slot_of db a k
    end;
}.

(** A database that answers every read from its maps. *)
Record MemDb := {
  mem_accounts : gmap Z AccountInfo;
  mem_storage : gmap Z (gmap Z U256);
}.

Definition mem_slot (db : MemDb) (a k : Z) : U256 :=
  match mem_storage db !! a with Some m => default 0 (m !! k) | None => 0 end.

Definition mem_commit (db : MemDb) (m : gmap Address Account) : MemDb :=
  {| mem_accounts := (account_info <$> m) ∪ mem_accounts db;
     mem_storage :=
       merge (fun acc old =>
         match acc with
         | Some acc => Some ((present_value <$> account_storage acc) ∪ default ∅ old)
         | None => old
         end) m (mem_storage db) |}.

#[export] Instance mem_database : Database MemDb unit := {
  basic db a := (Ok (mem_accounts db !! a), db);
  storage db a k := (Ok (mem_slot db a k), db);
  commit := mem_commit;
}.

#[export] Instance mem_view : DatabaseView MemDb := {
  info_of db a := mem_accounts db !! a;
  slot_of := mem_slot;
}.

#[export] Instance mem_laws : DatabaseLaws MemDb unit.
Proof.
  split; simpl; try done.
  - intros db a r db' E. by simplify_eq.
  - intros db a k v db' E. by simplify_eq.
  - intros db m a. rewrite lookup_union, lookup_fmap.
    destruct (m !! a); simpl; [by rewrite union_Some_l|by rewrite (left_id_L None _)].
  - intros db m a k. unfold mem_slot, mem_commit; simpl. rewrite lookup_merge. unfold diag_None.
    destruct (m !! a) as [acc|]; simpl.
    + destruct (mem_storage db !! a) as [old|]; simpl; rewrite lookup_union, lookup_fmap;
        destruct (account_storage acc !! k); simpl;
        rewrite ?union_Some_l, ?(left_id_L None _); done.
    + by destruct (mem_storage db !! a).
Qed.

(** ** The gas and header rules of [reth_consensus_common] *)

Inductive ConsensusError : Type :=
| BlockGasUsed (got expected : Z)
| BodyReceiptRootDiff (got expected : B256)
| BodyBloomLogDiff (got expected : Z)
| BodyTransactionRootDiff
| TheMergeOmmerRootIsNotEmpty
| TimestampIsInPast (parent_timestamp timestamp : Z)
| GasLimitInvalidIncrease (parent_gas_limit child_gas_limit : Z)
| GasLimitInvalidDecrease (parent_gas_limit child_gas_limit : Z)
| GasLimitInvalidMinimum (child_gas_limit : Z)
| HeaderGasUsedExceedsGasLimit (gas_used gas_limit : Z)
| ParentHashMismatch
| ParentBlockNumberMismatch
| Other (msg : string).

Class RethConsensus := {
  EMPTY_OMMER_ROOT_HASH : B256;
  GAS_LIMIT_BOUND_DIVISOR : Z;
  MINIMUM_GAS_LIMIT : Z;
  validate_header_gas : Header -> result unit ConsensusError;
  (** The second header is the sealed parent: with its hash. *)
  validate_against_parent_hash_number : Header -> Header -> B256 -> result unit ConsensusError;
}.

Class RethConsensusLaws `{RethConsensus} : Prop := {
  bound_divisor_positive : 0 < GAS_LIMIT_BOUND_DIVISOR;
  minimum_gas_limit_positive : 0 < MINIMUM_GAS_LIMIT;
  validate_header_gas_Ok h : is_ok (validate_header_gas h) = (gas_used h <=? gas_limit h);
  validate_against_parent_Ok h p hash :
    is_ok (validate_against_parent_hash_number h p hash) =
    (number h =? number p + 1) && (parent_hash h =? hash);
}.

#[export] Instance ref_consensus : RethConsensus := {
  EMPTY_OMMER_ROOT_HASH := 0x1dcc4de8dec75d7aab85b567b6ccd41ad312451b948a7413f0a142fd40d49347;
  GAS_LIMIT_BOUND_DIVISOR := 1024;
  MINIMUM_GAS_LIMIT := 5000;
  validate_header_gas h :=
    if gas_used h <=? gas_limit h then Ok tt
    else Err (HeaderGasUsedExceedsGasLimit (gas_used h) (gas_limit h));
  validate_against_parent_hash_number h p hash :=
    if number h =? number p + 1 then
      if parent_hash h =? hash then Ok tt else Err ParentHashMismatch
    else Err ParentBlockNumberMismatch;
}.

#[export] Instance ref_consensus_laws : RethConsensusLaws.
Proof.
  split; simpl; try lia; intros; repeat case_match; try done.
Qed.
