(* ===== verification/BaseFee.v ===== *)
(** * The L2 base fee (crates/dogeos-reth-evm/src/base_fee.rs)

    The EIP-1559 rule applied to the part of the base fee above the overhead
    the system-config contract stores, with the clamp of the active fork. The
    formula of [alloy_eips] is the interface [AlloyEips]. *)

From stdpp Require Import prelude gmap list strings.
From Stdlib Require Import ZArith Lia.
From S2P Require Import Prelude.
From S2P Require Import Hardforks.
From S2P Require Import GenesisConfig.
From S2P Require Import ChainSpec.
From S2P Require Import Chain.

(** ** Interfaces *)

(** The part of [EthChainSpec] the rule uses. *)
Class EthChainSpec (S : Type) := {
  spec_base_fee_params : S -> Z -> BaseFeeParams;
}.

(** The trait [ChainConfig] with [Config = ScrollChainConfig]. *)
Class ChainConfig (S : Type) := {
  chain_config : S -> ScrollChainConfig;
}.

#[export] Instance DogeosChainSpec_eth `{AlloyForks} `{RethChainSpec} : EthChainSpec DogeosChainSpec :=
  { spec_base_fee_params := base_fee_params_at_timestamp }.

#[export] Instance DogeosChainSpec_config `{RethChainSpec} : ChainConfig DogeosChainSpec :=
  { chain_config := config }.

Class AlloyEips := {
  (** gas used, gas limit, base fee, parameters *)
  calc_next_block_base_fee : Z -> Z -> Z -> BaseFeeParams -> Z;
}.

(** By how much EIP-1559 moves a fee for gas that is [off] the target. *)
Definition eip1559_step (fee off target : Z) (p : BaseFeeParams) : Z :=
  fee * off / (target * max_change_denominator p).

(** What EIP-1559 says of the next base fee, where the function divides by no zero
    and the sum fits 64 bits; it returns a [u64] whenever it returns. *)
Class AlloyEipsLaws `{AlloyEips} : Prop := {
  calc_range used limit fee p :
    in_u64 used -> in_u64 limit -> in_u64 fee ->
    in_u64 (calc_next_block_base_fee used limit fee p);
  calc_at_target used limit fee p :
    used = limit / elasticity_multiplier p -> calc_next_block_base_fee used limit fee p = fee;
  calc_above_target used limit fee p :
    let target := limit / elasticity_multiplier p in
    let step := Z.max 1 (eip1559_step fee (used - target) target p) in
    0 < target < used -> 0 < max_change_denominator p -> 0 <= fee -> fee + step <= u64_max ->
    calc_next_block_base_fee used limit fee p = fee + step;
  calc_below_target used limit fee p :
    let target := limit / elasticity_multiplier p in
    0 <= used < target -> 0 < max_change_denominator p -> 0 <= fee ->
    calc_next_block_base_fee used limit fee p = Z.max 0 (fee - eip1559_step fee (target - used) target p);
}.

(** EIP-1559 as a program, for concrete runs. *)
Definition ref_calc (used limit fee : Z) (p : BaseFeeParams) : Z :=
  let target := limit / elasticity_multiplier p in
  if used =? target then fee
  else if target <? used then
    saturating_add u64_max fee
      (Z.max 1 (fee * (used - target) / Z.max 1 target / Z.max 1 (max_change_denominator p)))
  else
    saturating_sub fee (Z.max 0 (fee * (target - used) / Z.max 1 target / Z.max 1 (max_change_denominator p))).

#[export] Instance ref_eips : AlloyEips := { calc_next_block_base_fee := ref_calc }.

#[export] Instance ref_eips_laws : AlloyEipsLaws.
Proof.
  split; simpl; unfold ref_calc, eip1559_step; intros used limit fee p; [intros Hu Hl Hf|intros ->; by rewrite Z.eqb_refl|..].
  - destruct (Z.eqb_spec used (limit / elasticity_multiplier p)); [done|].
    destruct (Z.ltb_spec (limit / elasticity_multiplier p) used); solve_ints.
  - set (target := limit / elasticity_multiplier p). intros [Ht Hu] Hd Hf Hs.
    rewrite (proj2 (Z.eqb_neq _ _)), (proj2 (Z.ltb_lt _ _)), (Z.max_r 1 target),
      (Z.max_r 1 (max_change_denominator p)), Z.div_div by lia.
    unfold saturating_add. lia.
  - set (target := limit / elasticity_multiplier p). intros [Hu Ht] Hd Hf.
    assert (0 <= fee * (target - used) / (target * max_change_denominator p)) by (apply Z.div_pos; nia).
    rewrite (proj2 (Z.eqb_neq _ _)), (proj2 (Z.ltb_ge _ _)), (Z.max_r 1 target), (Z.max_r 1 (max_change_denominator p)),
      Z.div_div by lia.
    unfold saturating_sub. lia.
Qed.

(** ** The provider *)

Definition MAX_L2_BASE_FEE : Z := 420000000000000.
Definition PRE_TSUKI_V2_MAX_L2_BASE_FEE : Z := 10000000000.
Definition L2_BASE_FEE_OVERHEAD_SLOT : U256 := 101.
Definition DEFAULT_BASE_FEE_OVERHEAD : U256 := 15680000.

Record ScrollBaseFeeParent := {
  parent_base_fee_per_gas : Z;
  parent_gas_used : Z;
  parent_gas_limit : Z;
}.

Definition from_header (header : Header) : option ScrollBaseFeeParent :=
  match base_fee_per_gas header with
  | None => None
  | Some fee =>
      Some {| parent_base_fee_per_gas := fee; parent_gas_used := gas_used header;
              parent_gas_limit := gas_limit header |}
  end.

Section BaseFee.
Context `{AlloyForks} `{AlloyEips} {S : Type} `{DogeosHardforks S} `{EthChainSpec S}
  `{ChainConfig S} {DB E : Type} `{Database DB E}.

Definition base_fee_overhead (chain_spec : S) (db : DB) : result Z E * DB :=
  let system_config := l2_system_config_address (l1_config (chain_config chain_spec)) in
  let '(configured_overhead, db) := storage db system_config L2_BASE_FEE_OVERHEAD_SLOT in
  (rmap (fun v => saturating_to u64_max (if v =? 0 then DEFAULT_BASE_FEE_OVERHEAD else v))
     configured_overhead, db).

Definition max_l2_base_fee_at_timestamp (chain_spec : S) (timestamp : Z) : Z :=
  if is_tsuki_v2_active_at_timestamp chain_spec timestamp then MAX_L2_BASE_FEE
  else PRE_TSUKI_V2_MAX_L2_BASE_FEE.

Definition next_block_base_fee_with_overhead (chain_spec : S) (parent : ScrollBaseFeeParent)
    (overhead timestamp : Z) : Z :=
  let parent_eip1559_base_fee := saturating_sub (parent_base_fee_per_gas parent) overhead in
  let next_eip1559_base_fee :=
    calc_next_block_base_fee (parent_gas_used parent) (parent_gas_limit parent)
      parent_eip1559_base_fee (spec_base_fee_params chain_spec timestamp) in
  Z.min (saturating_add u64_max next_eip1559_base_fee overhead)
    (max_l2_base_fee_at_timestamp chain_spec timestamp).

Definition next_block_base_fee_for_parent (chain_spec : S) (db : DB)
    (parent : ScrollBaseFeeParent) (timestamp : Z) : result Z E * DB :=
  let '(overhead, db) := base_fee_overhead chain_spec db in
  (rmap (fun o => next_block_base_fee_with_overhead chain_spec parent o timestamp) overhead, db).

Definition next_block_base_fee (chain_spec : S) (db : DB) (parent : Header) (timestamp : Z) :
    outcome (result Z E * DB) :=
  match from_header parent with
  | None => Panics "Feynman+ parent headers carry a base fee"
  | Some parent => Returns (next_block_base_fee_for_parent chain_spec db parent timestamp)
  end.

Definition predict_next_block_base_fee (chain_spec : S) (db : DB) (parent : Header) :
    outcome (result Z E * DB) :=
  next_block_base_fee chain_spec db parent (saturating_add u64_max (timestamp parent) 1).

(** ** The rule as a specification: what the stored slot means and the fee of
    the child block. *)

Definition effective_overhead (slot : U256) : Z :=
  if slot =? 0 then 15680000 else Z.min slot u64_max.

(** The clamp of the fork: 420,000 gwei from TsukiV2, 10 gwei before. *)
Definition fork_clamp (chain_spec : S) (timestamp : Z) : Z :=
  if active_at_timestamp (dogeos_fork_activation chain_spec TsukiV2) timestamp then 420000000000000
  else 10000000000.

Definition expected_base_fee (chain_spec : S) (slot : U256) (parent : ScrollBaseFeeParent)
    (timestamp : Z) : Z :=
  let overhead := effective_overhead slot in
  let congestion := Z.max (parent_base_fee_per_gas parent - overhead) 0 in
  Z.min
    (Z.min
      (calc_next_block_base_fee (parent_gas_used parent) (parent_gas_limit parent) congestion
         (spec_base_fee_params chain_spec timestamp) + overhead) u64_max)
    (fork_clamp chain_spec timestamp).
End BaseFee.

(** ** Lemmas *)

Section BaseFeeLemmas.
Context `{AlloyForks} `{AlloyEips} {S : Type} `{DogeosHardforks S} `{EthChainSpec S}
  `{ChainConfig S} {DB E : Type} `{Database DB E} `{DatabaseView DB} `{!DatabaseLaws DB E}.

Let overhead_slot (s : S) (db : DB) : U256 :=
  slot_of db (l2_system_config_address (l1_config (chain_config s))) 101.

Lemma max_l2_base_fee_le (s : S) t : max_l2_base_fee_at_timestamp s t <= MAX_L2_BASE_FEE.
Proof.
  unfold max_l2_base_fee_at_timestamp, MAX_L2_BASE_FEE, PRE_TSUKI_V2_MAX_L2_BASE_FEE.
  case_match; lia.
Qed.

Lemma max_l2_base_fee_clamp (s : S) t : max_l2_base_fee_at_timestamp s t = fork_clamp s t.
Proof. reflexivity. Qed.

Lemma fork_clamp_le (s : S) t : 0 <= fork_clamp s t <= 420000000000000.
Proof. unfold fork_clamp. case_match; lia. Qed.

Lemma with_overhead_le (s : S) p o t :
  next_block_base_fee_with_overhead s p o t <= max_l2_base_fee_at_timestamp s t.
Proof. unfold next_block_base_fee_with_overhead. lia. Qed.

Lemma base_fee_overhead_reads (s : S) (db : DB) v db' :
  base_fee_overhead s db = (Ok v, db') -> v = effective_overhead (overhead_slot s db).
Proof.
  unfold base_fee_overhead, overhead_slot.
  destruct (storage db _ _) as [[slot|e] db1] eqn:Er; intros Ev; simplify_eq/=.
  apply storage_reads in Er as ->.
  unfold effective_overhead, saturating_to, L2_BASE_FEE_OVERHEAD_SLOT.
  case_match; [|done]. reflexivity.
Qed.

Lemma base_fee_overhead_views (s : S) (db : DB) :
  (forall a, info_of (base_fee_overhead s db).2 a = info_of db a) /\
  (forall a k, slot_of (base_fee_overhead s db).2 a k = slot_of db a k).
Proof.
  unfold base_fee_overhead.
  destruct (storage db _ _) as [r db1] eqn:Er. simpl.
  split; intros; [rewrite <- (storage_info db (l2_system_config_address (l1_config (chain_config s)))
      L2_BASE_FEE_OVERHEAD_SLOT)
    |rewrite <- (storage_slot db (l2_system_config_address (l1_config (chain_config s)))
      L2_BASE_FEE_OVERHEAD_SLOT)]; by rewrite Er.
Qed.

Lemma for_parent_reads (s : S) (db : DB) p t v db' :
  next_block_base_fee_for_parent s db p t = (Ok v, db') ->
  v = expected_base_fee s (overhead_slot s db) p t.
Proof.
  unfold next_block_base_fee_for_parent.
  destruct (base_fee_overhead s db) as [[o|e] db1] eqn:Eo; intros Ev; simplify_eq/=.
  by apply base_fee_overhead_reads in Eo as ->.
Qed.
End BaseFeeLemmas.

(** ** Properties *)

(** Every entry point of the provider returns the fee of the specification
    for the slot the database holds (a zero slot meaning 15,680,000 and a slot
    beyond 64 bits saturating), at the given timestamp for the builder and at
    the parent's timestamp plus one for predictors, and changes nothing in the
    database. *)
Theorem base_fee_entry_points `{AlloyForks} `{AlloyEips} {S} `{DogeosHardforks S}
    `{EthChainSpec S} `{ChainConfig S} {DB E} `{Database DB E} `{DatabaseView DB}
    `{!DatabaseLaws DB E} (s : S) (db db' : DB) (h : Header) (t : Z) (fee predicted : Z) db'' :
  next_block_base_fee s db h t = Returns (Ok fee, db') ->
  predict_next_block_base_fee s db h = Returns (Ok predicted, db'') ->
  let slot := slot_of db (l2_system_config_address (l1_config (chain_config s))) 101 in
  exists p, from_header h = Some p
    /\ fee = expected_base_fee s slot p t
    /\ predicted = expected_base_fee s slot p (Z.min (timestamp h + 1) u64_max)
    /\ (forall a k, slot_of db' a k = slot_of db a k) /\ (forall a, info_of db' a = info_of db a).
Proof.
  unfold predict_next_block_base_fee, next_block_base_fee.
  destruct (from_header h) as [p|]; [|done]. intros [= E1] [= E2]. exists p.
  split; [done|]. split; [by eapply for_parent_reads|]. split; [by eapply for_parent_reads|].
  unfold next_block_base_fee_for_parent in E1. pose proof (base_fee_overhead_views s db) as [Ha Hk].
  destruct (base_fee_overhead s db) as [o db1]; simplify_eq/=. by split.
Qed.

(** C23: The base fee is EIP-1559 on what the parent paid above the overhead, plus
    the overhead, cut at the clamp of the child's fork, which is 420,000 gwei
    from TsukiV2 and 10 gwei before. It is a fee between zero and the clamp, and
    at least the overhead where the clamp does not cut it; a parent on target
    keeps its congestion part, one above its target raises it by the step of
    EIP-1559 and at least by one, one below lowers it by the step and not below
    zero; a parent that paid less than the overhead has no congestion part. *)
Theorem base_fee_bounds `{AlloyForks} `{AlloyEipsLaws} {S} `{DogeosHardforks S}
    `{EthChainSpec S} (s : S) (p : ScrollBaseFeeParent) (overhead t : Z) :
  in_u64 (parent_base_fee_per_gas p) -> in_u64 (parent_gas_used p) ->
  in_u64 (parent_gas_limit p) -> in_u64 overhead ->
  let fee := next_block_base_fee_with_overhead s p overhead t in
  let params := spec_base_fee_params s t in
  let used := parent_gas_used p in
  let target := parent_gas_limit p / elasticity_multiplier params in
  let congestion := Z.max 0 (parent_base_fee_per_gas p - overhead) in
  let clamp := if active_at_timestamp (dogeos_fork_activation s TsukiV2) t then 420000000000000
               else 10000000000 in
  0 <= fee <= clamp
  /\ (fee < clamp -> overhead <= fee)
  /\ (used = target -> fee = Z.min clamp (congestion + overhead))
  /\ (0 < max_change_denominator params ->
      let step off := congestion * off / (target * max_change_denominator params) in
      (used < target -> fee = Z.min clamp (Z.max 0 (congestion - step (target - used)) + overhead))
      /\ (0 < target < used -> congestion + Z.max 1 (step (used - target)) <= u64_max ->
          fee = Z.min clamp (congestion + Z.max 1 (step (used - target)) + overhead))).
Proof.
  intros Hf Hu Hl Ho fee params used target congestion clamp.
  pose proof (fork_clamp_le s t) as Hclamp. change (fork_clamp s t) with clamp in Hclamp.
  pose proof (calc_range (parent_gas_used p) (parent_gas_limit p)
    (saturating_sub (parent_base_fee_per_gas p) overhead) (spec_base_fee_params s t)
    Hu Hl ltac:(solve_ints)) as Hc.
  assert (Efee : forall next, calc_next_block_base_fee used (parent_gas_limit p) congestion params = next ->
    fee = Z.min clamp (Z.min (next + overhead) u64_max)).
  { intros next <-. unfold fee, next_block_base_fee_with_overhead.
    rewrite max_l2_base_fee_clamp. change (fork_clamp s t) with clamp.
    replace (saturating_sub (parent_base_fee_per_gas p) overhead) with congestion by solve_ints.
    unfold saturating_add. fold used params. lia. }
  assert (Hcut : clamp <= u64_max) by (unfold u64_max; lia).
  replace (saturating_sub (parent_base_fee_per_gas p) overhead) with congestion in Hc by solve_ints.
  fold used params in Hc.
  split; [rewrite (Efee _ eq_refl); solve_ints|].
  split; [rewrite (Efee _ eq_refl); solve_ints|].
  split; [intros Ht; rewrite (Efee _ (calc_at_target _ _ _ _ Ht)); lia|].
  intros Hd step. split.
  - intros Ht. assert (Hu' : 0 <= used < target) by solve_ints.
    rewrite (Efee _ (calc_below_target used _ congestion params Hu' Hd (Z.le_max_l 0 _))).
    change (eip1559_step _ _ _ _) with (step (target - used)). lia.
  - intros Ht Hs. rewrite (Efee _ (calc_above_target used _ congestion params Ht Hd (Z.le_max_l 0 _) Hs)).
    change (eip1559_step _ _ _ _) with (step (used - target)). lia.
Qed.

Definition sample_parent (fee : Z) : ScrollBaseFeeParent :=
  {| parent_base_fee_per_gas := fee; parent_gas_used := 10000000;
     parent_gas_limit := 20000000 |}.

#[export] Instance schedule_params : EthChainSpec DogeosChainHardforks :=
  { spec_base_fee_params s t :=
      if is_tsuki_v2_active_at_timestamp s t then DOGEOS_BASE_FEE_PARAMS_TSUKI
      else DOGEOS_BASE_FEE_PARAMS_FEYNMAN }.

#[export] Instance schedule_config : ChainConfig DogeosChainHardforks :=
  { chain_config _ := scroll_config_mainnet }.

(** A parent that used 90% of its gas; the chikyu schedule activates TsukiV2 at
    1,798,761,600. *)
Definition busy_parent : ScrollBaseFeeParent :=
  {| parent_base_fee_per_gas := 9999000000; parent_gas_used := 18000000; parent_gas_limit := 20000000 |}.

Lemma base_fee_bounds_witness :
  next_block_base_fee_with_overhead (new_schedule chikyu) busy_parent 15680000 1798761599 = 10000000000
  /\ next_block_base_fee_with_overhead (new_schedule chikyu) busy_parent 15680000 1798761600 = 11662886666.
Proof.
  split.
  - destruct (base_fee_bounds (new_schedule chikyu) busy_parent 15680000 1798761599)
      as (_ & _ & _ & Hs); [vm_compute; split; discriminate..|].
    destruct (Hs ltac:(vm_compute; reflexivity)) as [_ Ha].
    etransitivity; [apply Ha|]; vm_compute; repeat split; discriminate.
  - destruct (base_fee_bounds (new_schedule chikyu) busy_parent 15680000 1798761600)
      as (_ & _ & _ & Hs); [vm_compute; split; discriminate..|].
    destruct (Hs ltac:(vm_compute; reflexivity)) as [_ Ha].
    etransitivity; [apply Ha|]; vm_compute; repeat split; discriminate.
Defined.

Definition sample_header (fee : option Z) : Header :=
  {| parent_hash := 0; ommers_hash := EMPTY_OMMER_ROOT_HASH; beneficiary := 0; state_root := 0;
     transactions_root := 0; receipts_root := 0; logs_bloom := 0; difficulty := 1; number := 5;
     gas_limit := 20000000; gas_used := 10000000; timestamp := 50; extra_data := [];
     mix_hash := 0; nonce := 0; base_fee_per_gas := fee; withdrawals_root := None;
     blob_gas_used := None; excess_blob_gas := None; parent_beacon_block_root := None;
     requests_hash := None |}.

Definition empty_db : MemDb := {| mem_accounts := ∅; mem_storage := ∅ |}.

Lemma base_fee_entry_points_witness :
  expected_base_fee (new_schedule mainnet) 0 (sample_parent 1000000000) 51 = 1082026666.
Proof.
  destruct (base_fee_entry_points (new_schedule mainnet) empty_db empty_db
    (sample_header (Some 1000000000)) 51 1082026666 1082026666 empty_db)
    as (p & Hp & Hfee & _ & _); [vm_compute; reflexivity..|].
  injection Hp as <-. symmetry. exact Hfee.
Defined.
