(* ===== verification/Alloy.v ===== *)
(** * The external transaction libraries

    Interfaces of [alloy_rlp], [alloy_consensus], [alloy_eips] and
    [reth_codecs] as the protocol types use them: codecs with their round-trip
    laws, the [Transaction] methods of the Ethereum transaction types, signed
    and sealed values, and the EIP-2718 envelope decoding. *)

From stdpp Require Import prelude gmap list strings.
From Stdlib Require Import ZArith Lia.
From S2P Require Import Prelude.

(** ** RLP *)

Inductive RlpError : Type :=
| UnexpectedString
| UnexpectedLength
| InputTooShort
| ListLengthMismatch (expected got : Z)
| RlpCustom (msg : string)
| OtherRlpError.

Inductive Eip2718Error : Type :=
| UnexpectedType (ty : Z)
| RlpErr (e : RlpError).

(** The length of a byte buffer as a [usize]. *)
Definition blen (b : bytes) : Z := Z.of_nat (length b).

Lemma blen_app b c : blen (b ++ c) = blen b + blen c.
Proof. unfold blen. rewrite length_app. lia. Qed.

Lemma blen_cons x b : blen (x :: b) = 1 + blen b.
Proof. unfold blen. simpl. lia. Qed.

Lemma blen_nonneg b : 0 <= blen b.
Proof. unfold blen. lia. Qed.

Lemma blen_nil : blen [] = 0.
Proof. reflexivity. Qed.

Create Rewrite HintDb bytes.
#[export] Hint Rewrite blen_app blen_cons blen_nil : bytes.

(** [Encodable] and [Decodable]: a decoder reads a prefix and returns the rest. *)
Record codec (A : Type) := {
  enc : A -> bytes;
  dec : bytes -> result (A * bytes) RlpError;
  len : A -> Z;
}.
Arguments enc {A} _ _.
Arguments dec {A} _ _.
Arguments len {A} _ _.

Record codec_ok {A} (valid : A -> Prop) (c : codec A) : Prop := {
  dec_enc a rest : valid a -> dec c (enc c a ++ rest) = Ok (a, rest);
  len_enc a : valid a -> len c a = blen (enc c a);
}.
Arguments dec_enc {A valid c} _.
Arguments len_enc {A valid c} _.

Record RlpHeader := { header_list : bool; payload_length : Z }.

Class Rlp := {
  rlp_u8 : codec Z;
  rlp_u64 : codec Z;
  rlp_u256 : codec U256;
  rlp_address : codec Address;
  rlp_bytes : codec bytes;
  rlp_header : codec RlpHeader;
}.

(** [Header::length_with_payload]. *)
Definition length_with_payload `{Rlp} (h : RlpHeader) : Z := len rlp_header h + payload_length h.

Class RlpLaws `{Rlp} : Prop := {
  rlp_u8_ok : codec_ok in_u8 rlp_u8;
  rlp_u64_ok : codec_ok in_u64 rlp_u64;
  rlp_u256_ok : codec_ok in_u256 rlp_u256;
  rlp_address_ok : codec_ok in_address rlp_address;
  rlp_bytes_ok : codec_ok (Forall in_u8) rlp_bytes;
  (** A list header is read back when the input holds its payload. *)
  rlp_list_header n rest :
    0 <= n <= blen rest -> n <= u64_max ->
    dec rlp_header (enc rlp_header {| header_list := true; payload_length := n |} ++ rest)
    = Ok ({| header_list := true; payload_length := n |}, rest);
  rlp_list_header_len n :
    0 <= n <= u64_max ->
    len rlp_header {| header_list := true; payload_length := n |}
    = blen (enc rlp_header {| header_list := true; payload_length := n |});
  (** A list header starts with a byte of at least [0xc0]. *)
  rlp_list_header_first n :
    0 <= n <= u64_max ->
    exists b l, enc rlp_header {| header_list := true; payload_length := n |} = b :: l
                /\ 0xc0 <= b <= 0xff;
}.

(** ** Transaction types and their methods *)

Inductive TxKind : Type := Create | Call (to : Address).

Class AlloyTypes := {
  AccessList : Type;
  SignedAuthorization : Type;
  Signature : Type;
  signature_new : U256 -> U256 -> bool -> Signature;
}.

(** The methods of [alloy_consensus::Transaction], and [Typed2718::ty]. *)
Class Transaction `{AlloyTypes} (T : Type) := {
  tx_ty : T -> Z;
  tx_chain_id : T -> option Z;
  tx_nonce : T -> Z;
  tx_gas_limit : T -> Z;
  tx_gas_price : T -> option Z;
  tx_max_fee_per_gas : T -> Z;
  tx_max_priority_fee_per_gas : T -> option Z;
  tx_max_fee_per_blob_gas : T -> option Z;
  tx_priority_fee_or_price : T -> Z;
  tx_to : T -> option Address;
  tx_kind : T -> TxKind;
  tx_value : T -> U256;
  tx_input : T -> bytes;
  tx_access_list : T -> option AccessList;
  tx_blob_versioned_hashes : T -> option (list B256);
  tx_authorization_list : T -> option (list SignedAuthorization);
  tx_is_dynamic_fee : T -> bool;
  tx_effective_gas_price : T -> option Z -> Z;
  tx_is_create : T -> bool;
}.

(** [Signed<T>] and [Sealed<T>]: a value with its signature and hash. *)
Record Signed `{AlloyTypes} (T : Type) := new_unchecked {
  stx : T;
  ssig : Signature;
  shash : B256;
}.
Arguments new_unchecked {_ T} _ _ _.
Arguments stx {_ T} _.
Arguments ssig {_ T} _.
Arguments shash {_ T} _.

Record Sealed (T : Type) := seal_unchecked { inner : T; seal : B256 }.
Arguments seal_unchecked {T} _ _.
Arguments inner {T} _.
Arguments seal {T} _.

(** The encodings of a signable Ethereum transaction type
    ([RlpEcdsaEncodableTx], [RlpEcdsaDecodableTx], [SignableTransaction]). *)
Class SignedTx `{AlloyTypes} (T : Type) := {
  signature_hash : T -> B256;
  set_chain_id : T -> Z -> T;
  encode_for_signing : T -> bytes;
  payload_len_for_signature : T -> Z;
  fields_length : T -> Z;
  encode_fields : T -> bytes;
  tx_hash_with_type : T -> Signature -> Z -> B256;
  tx_hash_of : T -> Signature -> B256;
  encode_2718_with_type : T -> Signature -> Z -> bytes;
  encode_2718_of : T -> Signature -> bytes;
  network_encode_with_type : T -> Signature -> Z -> bytes;
  network_encode_of : T -> Signature -> bytes;
  (** of a signed transaction *)
  signed_encode_2718 : Signed T -> bytes;
  signed_encode_2718_len : Signed T -> Z;
  rlp_decode_signed : bytes -> result (Signed T * bytes) RlpError;
}.

(** [Signed::new_unhashed]: the hash is computed when it is first asked for. *)
Definition new_unhashed `{AlloyTypes} {T} `{!SignedTx T} (t : T) (s : Signature) : Signed T :=
  new_unchecked t s (tx_hash_of t s).

(** A signed value whose hash is the hash of its contents. *)
Definition signed_ok `{AlloyTypes} {T} `{!SignedTx T} (s : Signed T) : Prop :=
  shash s = tx_hash_of (stx s) (ssig s).

(** What the libraries document for a typed transaction: one type byte, then a
    list the signed decoder reads back, with the hash recomputed. *)
Class TypedTxLaws `{AlloyTypes} (T : Type) `{!Transaction T} `{!SignedTx T} (id : Z) : Prop := {
  typed_ty t : tx_ty t = id;
  typed_hash_with_type t s : tx_hash_with_type t s (tx_ty t) = tx_hash_of t s;
  typed_encode (s : Signed T) :
    exists body, signed_encode_2718 s = id :: body
      /\ forall rest, signed_ok s -> rlp_decode_signed (body ++ rest) = Ok (s, rest);
  typed_encode_len (s : Signed T) : signed_encode_2718_len s = blen (signed_encode_2718 s);
}.

(** The legacy encoding is the bare list. *)
Class LegacyTxLaws `{AlloyTypes} `{Rlp} (T : Type) `{!Transaction T} `{!SignedTx T} : Prop := {
  legacy_ty t : tx_ty t = 0;
  legacy_hash_with_type t s : tx_hash_with_type t s (tx_ty t) = tx_hash_of t s;
  legacy_encode (s : Signed T) :
    exists payload,
    signed_encode_2718 s =
      enc rlp_header {| header_list := true; payload_length := blen payload |} ++ payload /\
    blen payload <= u64_max /\
    forall rest, signed_ok s -> rlp_decode_signed (signed_encode_2718 s ++ rest) = Ok (s, rest);
  legacy_encode_len (s : Signed T) : signed_encode_2718_len s = blen (signed_encode_2718 s);
}.

(** ** EIP-2718 decoding ([Decodable2718]) *)

Definition decoder2718 (T : Type) : Type := bytes -> result (T * bytes) Eip2718Error.

Class Eip2718 := {
  (** The provided method [decode_2718], from [typed_decode] and [fallback_decode]. *)
  decode_2718 : forall {T}, (Z -> decoder2718 T) -> decoder2718 T -> decoder2718 T;
  (** The provided method [network_decode]. *)
  network_decode : forall {T}, (Z -> decoder2718 T) -> decoder2718 T -> decoder2718 T;
  (** The provided method [network_encode], from the type flag and the encoding. *)
  network_encode : option Z -> bytes -> bytes;
}.

(** [decode_2718_exact]: nothing may be left in the buffer. *)
Definition decode_2718_exact `{Eip2718} {T} (typed_decode : Z -> decoder2718 T)
    (fallback_decode : decoder2718 T) (buf : bytes) : result T Eip2718Error :=
  let? p := decode_2718 typed_decode fallback_decode buf in
  match p.2 with [] => Ok p.1 | _ :: _ => Err (RlpErr UnexpectedLength) end.

Class Eip2718Laws `{Eip2718} `{Rlp} : Prop := {
  (** A first byte up to [0x7f] is a type, and anything above starts a legacy list. *)
  decode_2718_typed {T} (typed : Z -> decoder2718 T) fallback ty body :
    0 <= ty <= 0x7f -> decode_2718 typed fallback (ty :: body) = typed ty body;
  decode_2718_fallback {T} (typed : Z -> decoder2718 T) fallback b body :
    0x7f < b -> decode_2718 typed fallback (b :: body) = fallback (b :: body);
  (** What [network_encode] writes for a typed transaction, [network_decode]
      hands to [typed_decode], and it checks that all of it was consumed; an
      untyped encoding goes to [fallback_decode] as it is. *)
  network_decode_typed {T} (typed : Z -> decoder2718 T) fallback ty body rest t :
    0 <= ty <= 0x7f -> body <> [] -> blen (ty :: body) <= u64_max ->
    typed ty (body ++ rest) = Ok (t, rest) ->
    network_decode typed fallback (network_encode (Some ty) (ty :: body) ++ rest) = Ok (t, rest);
  network_encode_untyped b : network_encode None b = b;
  network_decode_list {T} (typed : Z -> decoder2718 T) fallback payload rest :
    blen payload <= u64_max ->
    let input := enc rlp_header {| header_list := true; payload_length := blen payload |}
                 ++ payload ++ rest in
    network_decode typed fallback input = fallback input;
}.

(** ** Compact storage encoding ([reth_codecs]) *)

Class CompactIds := {
  COMPACT_IDENTIFIER_LEGACY : Z;
  COMPACT_IDENTIFIER_EIP2930 : Z;
  COMPACT_IDENTIFIER_EIP1559 : Z;
  COMPACT_EXTENDED_IDENTIFIER_FLAG : Z;
}.

Class CompactIdsLaws `{CompactIds} : Prop := {
  compact_ids_distinct :
    NoDup [COMPACT_IDENTIFIER_LEGACY; COMPACT_IDENTIFIER_EIP2930; COMPACT_IDENTIFIER_EIP1559;
           COMPACT_EXTENDED_IDENTIFIER_FLAG];
}.

#[export] Instance ref_compact_ids : CompactIds := {
  COMPACT_IDENTIFIER_LEGACY := 0;
  COMPACT_IDENTIFIER_EIP2930 := 1;
  COMPACT_IDENTIFIER_EIP1559 := 2;
  COMPACT_EXTENDED_IDENTIFIER_FLAG := 3;
}.

#[export] Instance ref_compact_ids_laws : CompactIdsLaws.
Proof. split. apply (bool_decide_unpack _). vm_compute. exact I. Qed.

(** [Compact] of a transaction struct: bytes appended to the buffer, and a
    reader of a prefix (the length argument is the whole remaining buffer). *)
Class Compact (T : Type) := {
  to_compact : T -> bytes;
  from_compact : bytes -> Z -> T * bytes;
}.

Class CompactLaws (T : Type) `{Compact T} : Prop := {
  from_to_compact t rest : from_compact (to_compact t ++ rest) (blen (to_compact t ++ rest)) = (t, rest);
}.

(** ** The four Ethereum transaction types the envelopes carry *)

Class EthTxs `{AlloyTypes} := {
  TxLegacy : Type;
  TxEip2930 : Type;
  TxEip1559 : Type;
  TxEip7702 : Type;
  TxLegacy_tx :: Transaction TxLegacy;
  TxEip2930_tx :: Transaction TxEip2930;
  TxEip1559_tx :: Transaction TxEip1559;
  TxEip7702_tx :: Transaction TxEip7702;
  TxLegacy_signed :: SignedTx TxLegacy;
  TxEip2930_signed :: SignedTx TxEip2930;
  TxEip1559_signed :: SignedTx TxEip1559;
  TxEip7702_signed :: SignedTx TxEip7702;
  TxLegacy_compact :: Compact TxLegacy;
  TxEip2930_compact :: Compact TxEip2930;
  TxEip1559_compact :: Compact TxEip1559;
  TxEip7702_compact :: Compact TxEip7702;
}.

(** [alloy_consensus::TxEnvelope], the Ethereum envelope, over its blob transactions. *)
Inductive EthereumTxEnvelope `{EthTxs} (Eip4844 : Type) : Type :=
| EthLegacy (tx : Signed TxLegacy)
| EthEip2930 (tx : Signed TxEip2930)
| EthEip1559 (tx : Signed TxEip1559)
| EthEip4844 (tx : Eip4844)
| EthEip7702 (tx : Signed TxEip7702).
Arguments EthLegacy {_ _ Eip4844} tx.
Arguments EthEip2930 {_ _ Eip4844} tx.
Arguments EthEip1559 {_ _ Eip4844} tx.
Arguments EthEip4844 {_ _ Eip4844} tx.
Arguments EthEip7702 {_ _ Eip4844} tx.

Class EthTxsLaws `{EthTxs} `{Rlp} : Prop := {
  legacy_laws :: LegacyTxLaws TxLegacy;
  eip2930_laws :: TypedTxLaws TxEip2930 1;
  eip1559_laws :: TypedTxLaws TxEip1559 2;
  eip7702_laws :: TypedTxLaws TxEip7702 4;
  legacy_compact_laws :: CompactLaws TxLegacy;
  eip2930_compact_laws :: CompactLaws TxEip2930;
  eip1559_compact_laws :: CompactLaws TxEip1559;
  eip7702_compact_laws :: CompactLaws TxEip7702;
}.
