(* ===== verification/AlloyRef.v ===== *)
(** * A concrete instance of the library interfaces

    The laws of [Alloy] are met by this program: the RLP of the Ethereum yellow
    paper on integers, byte strings and list headers, and one-byte transactions.
    It is used by the witnesses only. *)

From stdpp Require Import prelude gmap list strings.
From Stdlib Require Import ZArith Lia.
From Stdlib Require Ascii.
From S2P Require Import Prelude.
From S2P Require Import Alloy.

(** ** Big-endian integers *)

Fixpoint le_bytes (k : nat) (n : Z) : bytes :=
  match k with O => [] | S k => n mod 256 :: le_bytes k (n / 256) end.

Fixpoint le_value (b : bytes) : Z :=
  match b with [] => 0 | x :: b => x + 256 * le_value b end.

Definition be_bytes (k : nat) (n : Z) : bytes := rev (le_bytes k n).
Definition be_value (b : bytes) : Z := le_value (rev b).

Lemma le_value_bytes k n : 0 <= n < 256 ^ Z.of_nat k -> le_value (le_bytes k n) = n.
Proof.
  revert n. induction k as [|k IH]; intros n Hn; simpl; [lia|].
  rewrite Nat2Z.inj_succ, Z.pow_succ_r in Hn by lia.
  rewrite IH; [pose proof (Z.div_mod n 256); lia|].
  split; [apply Z.div_pos; lia|apply Z.div_lt_upper_bound; lia].
Qed.

Lemma le_bytes_length k n : length (le_bytes k n) = k.
Proof. revert n. induction k; intros n; simpl; congruence. Qed.

Lemma be_value_bytes k n : 0 <= n < 256 ^ Z.of_nat k -> be_value (be_bytes k n) = n.
Proof. intros Hn. unfold be_value, be_bytes. rewrite rev_involutive. by apply le_value_bytes. Qed.

Lemma be_bytes_length k n : length (be_bytes k n) = k.
Proof. unfold be_bytes. by rewrite length_rev, le_bytes_length. Qed.

(** The number of bytes an integer needs. *)
Definition num_bytes (n : Z) : nat := if n =? 0 then 0%nat else Z.to_nat (Z.log2 n / 8 + 1).

Lemma num_bytes_bound n : 0 <= n -> n < 256 ^ Z.of_nat (num_bytes n).
Proof.
  intros Hn. unfold num_bytes. destruct (Z.eqb_spec n 0) as [->|]; [reflexivity|].
  pose proof (Z.log2_nonneg n). assert (0 <= Z.log2 n / 8) by (apply Z.div_pos; lia).
  rewrite Z2Nat.id by lia. change 256 with (2 ^ 8). rewrite <- Z.pow_mul_r by lia.
  apply Z.log2_lt_pow2; [lia|]. pose proof (Z.div_mod (Z.log2 n) 8).
  pose proof (Z.mod_pos_bound (Z.log2 n) 8). lia.
Qed.

Lemma num_bytes_le n k : 0 <= n < 256 ^ Z.of_nat k -> (num_bytes n <= k)%nat.
Proof.
  intros [Hn Hlt]. unfold num_bytes. destruct (Z.eqb_spec n 0); [lia|].
  assert (Z.log2 n < 8 * Z.of_nat k).
  { apply Z.log2_lt_pow2; [lia|]. rewrite Z.pow_mul_r by lia. exact Hlt. }
  pose proof (Z.log2_nonneg n).
  assert (Z.log2 n / 8 < Z.of_nat k) by (apply Z.div_lt_upper_bound; lia). lia.
Qed.

(** ** RLP *)

Definition prefixed (base : Z) (n : Z) : bytes :=
  (base + Z.of_nat (num_bytes n)) :: be_bytes (num_bytes n) n.

(** Reads a big-endian integer of [k] bytes. *)
Definition take_value (k : nat) (b : bytes) : result (Z * bytes) RlpError :=
  if (length b <? k)%nat then Err InputTooShort else Ok (be_value (take k b), drop k b).

Lemma take_value_be k n rest :
  0 <= n < 256 ^ Z.of_nat k -> take_value k (be_bytes k n ++ rest) = Ok (n, rest).
Proof.
  intros Hn. unfold take_value.
  rewrite (proj2 (Nat.ltb_ge _ _)) by (rewrite length_app, be_bytes_length; lia).
  rewrite take_app_length', drop_app_length' by (by rewrite be_bytes_length).
  by rewrite be_value_bytes.
Qed.

Definition enc_uint (n : Z) : bytes :=
  if (0 <? n) && (n <? 0x80) then [n] else prefixed 0x80 n.

Definition dec_uint (b : bytes) : result (Z * bytes) RlpError :=
  match b with
  | [] => Err InputTooShort
  | x :: b => if x <? 0x80 then Ok (x, b) else take_value (Z.to_nat (x - 0x80)) b
  end.

Definition ref_uint : codec Z := {| enc := enc_uint; dec := dec_uint; len n := blen (enc_uint n) |}.

Lemma ref_uint_ok (P : Z -> Prop) : (forall n, P n -> 0 <= n) -> codec_ok P ref_uint.
Proof.
  intros HP. split; [|done]. intros n rest Hn%HP. simpl. unfold enc_uint, dec_uint.
  destruct (Z.ltb_spec 0 n), (Z.ltb_spec n 0x80); simpl.
  - by rewrite (proj2 (Z.ltb_lt _ _)).
  - rewrite (proj2 (Z.ltb_ge _ _)) by lia. rewrite <- (take_value_be (num_bytes n) n rest).
    + f_equal. lia.
    + split; [done|by apply num_bytes_bound].
  - assert (n = 0) as -> by lia. done.
  - lia.
Qed.

Definition ref_fixed (k : nat) : codec Z :=
  {| enc n := (0x80 + Z.of_nat k) :: be_bytes k n;
     dec b := match b with
              | [] => Err InputTooShort
              | x :: b => if x =? 0x80 + Z.of_nat k then take_value k b else Err UnexpectedLength
              end;
     len n := 1 + Z.of_nat k |}.

Lemma ref_fixed_ok (P : Z -> Prop) k :
  (forall n, P n -> 0 <= n < 256 ^ Z.of_nat k) -> codec_ok P (ref_fixed k).
Proof.
  intros HP. split; simpl.
  - intros n rest Hn%HP. rewrite Z.eqb_refl. by apply take_value_be.
  - intros n _. rewrite blen_cons. unfold blen. by rewrite be_bytes_length.
Qed.

Definition enc_string (b : bytes) : bytes :=
  match b with
  | [x] => if x <? 0x80 then [x] else [0x81; x]
  | _ => if blen b <=? 55 then (0x80 + blen b) :: b else prefixed 0xb7 (blen b) ++ b
  end.

Definition dec_string (b : bytes) : result (bytes * bytes) RlpError :=
  match b with
  | [] => Err InputTooShort
  | x :: b =>
      if x <? 0x80 then Ok ([x], b)
      else if x <=? 0xb7 then
        let k := Z.to_nat (x - 0x80) in
        if (length b <? k)%nat then Err InputTooShort else Ok (take k b, drop k b)
      else
        match take_value (Z.to_nat (x - 0xb7)) b with
        | Err e => Err e
        | Ok (n, b) =>
            if blen b <? n then Err InputTooShort
            else Ok (take (Z.to_nat n) b, drop (Z.to_nat n) b)
        end
  end.

Definition ref_bytes : codec bytes :=
  {| enc := enc_string; dec := dec_string; len b := blen (enc_string b) |}.

Lemma take_drop_app (b rest : bytes) n :
  n = length b -> take n (b ++ rest) = b /\ drop n (b ++ rest) = rest.
Proof. intros ->. by rewrite take_app_length, drop_app_length. Qed.

Lemma dec_string_long b rest :
  55 < blen b -> dec_string ((prefixed 0xb7 (blen b) ++ b) ++ rest) = Ok (b, rest).
Proof.
  intros Hb. unfold prefixed. simpl. set (k := num_bytes (blen b)).
  assert (0 < Z.of_nat k).
  { pose proof (num_bytes_bound (blen b) ltac:(lia)). fold k in H.
    destruct k; [simpl in *; lia|lia]. }
  rewrite (proj2 (Z.ltb_ge _ _)), (proj2 (Z.leb_gt _ _)) by lia.
  replace (Z.to_nat (183 + Z.of_nat k - 183)) with k by lia.
  rewrite <- app_assoc, take_value_be by (split; [lia|apply num_bytes_bound; lia]).
  rewrite (proj2 (Z.ltb_ge _ _)) by (rewrite blen_app; pose proof (blen_nonneg rest); lia).
  destruct (take_drop_app b rest (Z.to_nat (blen b))) as [-> ->]; [unfold blen; lia|done].
Qed.

Lemma dec_string_short b rest :
  blen b <= 55 -> dec_string (((0x80 + blen b) :: b) ++ rest) = Ok (b, rest).
Proof.
  intros Hb. pose proof (blen_nonneg b). simpl.
  rewrite (proj2 (Z.ltb_ge _ _)), (proj2 (Z.leb_le _ _)) by lia.
  replace (Z.to_nat (128 + blen b - 128)) with (length b) by (unfold blen; lia).
  rewrite (proj2 (Nat.ltb_ge _ _)) by (rewrite length_app; lia).
  by destruct (take_drop_app b rest (length b)) as [-> ->].
Qed.

Lemma ref_bytes_ok : codec_ok (Forall in_u8) ref_bytes.
Proof.
  split; [|done]. intros b rest Hb. simpl. unfold enc_string.
  assert (Hlong : dec_string ((if blen b <=? 55 then (0x80 + blen b) :: b
    else prefixed 0xb7 (blen b) ++ b) ++ rest) = Ok (b, rest)).
  { destruct (Z.leb_spec (blen b) 55); [by apply dec_string_short|by apply dec_string_long]. }
  destruct b as [|x [|y b]]; try exact Hlong.
  destruct (Z.ltb_spec x 0x80); [|by apply (dec_string_short [x])].
  simpl. by rewrite (proj2 (Z.ltb_lt _ _)).
Qed.

Definition enc_header (h : RlpHeader) : bytes :=
  let base := if header_list h then 0xc0 else 0x80 in
  if payload_length h <=? 55 then [base + payload_length h]
  else prefixed (base + 55) (payload_length h).

Definition dec_header (b : bytes) : result (RlpHeader * bytes) RlpError :=
  match b with
  | [] => Err InputTooShort
  | x :: r =>
      let finish l n rest :=
        if blen rest <? n then Err InputTooShort
        else Ok ({| header_list := l; payload_length := n |}, rest) in
      let long l k :=
        match take_value k r with Err e => Err e | Ok (n, rest) => finish l n rest end in
      if x <? 0x80 then Ok ({| header_list := false; payload_length := 1 |}, b)
      else if x <=? 0xb7 then finish false (x - 0x80) r
      else if x <? 0xc0 then long false (Z.to_nat (x - 0xb7))
      else if x <=? 0xf7 then finish true (x - 0xc0) r
      else long true (Z.to_nat (x - 0xf7))
  end.

Definition ref_header : codec RlpHeader :=
  {| enc := enc_header; dec := dec_header; len h := blen (enc_header h) |}.

Lemma num_bytes_pos n : 0 < n -> (0 < num_bytes n)%nat.
Proof.
  intros Hn. pose proof (num_bytes_bound n ltac:(lia)) as H. destruct (num_bytes n); [simpl in H; lia|lia].
Qed.

Lemma dec_header_list n rest :
  0 <= n <= blen rest -> n <= u64_max ->
  dec_header (enc_header {| header_list := true; payload_length := n |} ++ rest)
  = Ok ({| header_list := true; payload_length := n |}, rest).
Proof.
  intros Hn Hmax. unfold enc_header; simpl. destruct (Z.leb_spec n 55).
  - simpl. rewrite (proj2 (Z.ltb_ge (192 + n) 128)), (proj2 (Z.leb_gt (192 + n) 183)),
      (proj2 (Z.ltb_ge (192 + n) 192)), (proj2 (Z.leb_le (192 + n) 247)) by lia.
    replace (192 + n - 192) with n by lia.
    by rewrite (proj2 (Z.ltb_ge _ _)) by lia.
  - unfold prefixed. simpl. pose proof (num_bytes_pos n ltac:(lia)).
    set (k := num_bytes n) in *. change (192 + 55) with 247. change (128 + 55) with 183.
    rewrite (proj2 (Z.ltb_ge (247 + Z.of_nat k) 128)), (proj2 (Z.leb_gt (247 + Z.of_nat k) 183)),
      (proj2 (Z.ltb_ge (247 + Z.of_nat k) 192)), (proj2 (Z.leb_gt (247 + Z.of_nat k) 247)) by lia.
    replace (Z.to_nat (247 + Z.of_nat k - 247)) with k by lia.
    rewrite take_value_be by (split; [lia|apply num_bytes_bound; lia]).
    by rewrite (proj2 (Z.ltb_ge _ _)) by lia.
Qed.

Lemma enc_header_first n :
  0 <= n <= u64_max ->
  exists b l, enc_header {| header_list := true; payload_length := n |} = b :: l
              /\ 0xc0 <= b <= 0xff.
Proof.
  intros Hn. unfold enc_header, prefixed; simpl. destruct (Z.leb_spec n 55).
  - exists (192 + n), []. split; [done|lia].
  - eexists _, _. split; [done|].
    pose proof (num_bytes_le n 8) as Hle. unfold u64_max in Hn.
    assert (num_bytes n <= 8)%nat by (apply Hle; change (256 ^ Z.of_nat 8) with (2 ^ 64); lia).
    pose proof (num_bytes_pos n ltac:(lia)). lia.
Qed.

#[export] Instance ref_rlp : Rlp := {
  rlp_u8 := ref_uint;
  rlp_u64 := ref_uint;
  rlp_u256 := ref_uint;
  rlp_address := ref_fixed 20;
  rlp_bytes := ref_bytes;
  rlp_header := ref_header;
}.

#[export] Instance ref_rlp_laws : RlpLaws.
Proof.
  split.
  - apply ref_uint_ok. solve_ints.
  - apply ref_uint_ok. solve_ints.
  - apply ref_uint_ok. solve_ints.
  - apply ref_fixed_ok. unfold in_address. change (256 ^ Z.of_nat 20) with (2 ^ 160). lia.
  - apply ref_bytes_ok.
  - apply dec_header_list.
  - done.
  - apply enc_header_first.
Qed.

(** ** One-byte transactions *)

#[export] Instance ref_types : AlloyTypes := {
  AccessList := unit;
  SignedAuthorization := unit;
  Signature := bool;
  signature_new _ _ v := v;
}.

(** A transaction of EIP-2718 type [id] whose content is one byte. *)
Record RefTx (id : Z) := { ref_byte : Ascii.ascii }.
Arguments ref_byte {id} _.

Definition byte_of (a : Ascii.ascii) : Z := Z.of_nat (Ascii.nat_of_ascii a).
Definition ascii_of (x : Z) : Ascii.ascii := Ascii.ascii_of_nat (Z.to_nat x).

Lemma ascii_of_byte a : ascii_of (byte_of a) = a.
Proof. unfold ascii_of, byte_of. by rewrite Nat2Z.id, Ascii.ascii_nat_embedding. Qed.

#[export] Instance ref_transaction id : Transaction (RefTx id) := {
  tx_ty _ := id;
  tx_chain_id _ := Some 1;
  tx_nonce t := byte_of (ref_byte t);
  tx_gas_limit _ := 21000;
  tx_gas_price _ := if id <=? 1 then Some 7 else None;
  tx_max_fee_per_gas _ := 7;
  tx_max_priority_fee_per_gas _ := if id <=? 1 then None else Some 1;
  tx_max_fee_per_blob_gas _ := None;
  tx_priority_fee_or_price _ := 7;
  tx_to _ := Some 5;
  tx_kind _ := Call 5;
  tx_value _ := 0;
  tx_input t := [byte_of (ref_byte t)];
  tx_access_list _ := None;
  tx_blob_versioned_hashes _ := None;
  tx_authorization_list _ := None;
  tx_is_dynamic_fee _ := 1 <? id;
  tx_effective_gas_price _ base_fee :=
    if id <=? 1 then 7 else match base_fee with Some b => Z.min 7 (b + 1) | None => 7 end;
  tx_is_create _ := false;
}.

Definition ref_body {id} (s : Signed (RefTx id)) : bytes :=
  enc_header {| header_list := true; payload_length := 2 |}
  ++ [byte_of (ref_byte (stx s)); Z.b2z (ssig s)].

Definition ref_hash {id} (t : RefTx id) (s : bool) : B256 :=
  id * 512 + byte_of (ref_byte t) * 2 + Z.b2z s.

Definition ref_encode {id} (s : Signed (RefTx id)) : bytes :=
  if id =? 0 then ref_body s else id :: ref_body s.

Definition ref_decode {id} (b : bytes) : result (Signed (RefTx id) * bytes) RlpError :=
  match dec_header b with
  | Err e => Err e
  | Ok (h, x :: y :: rest) =>
      let t := {| ref_byte := ascii_of x |} in
      Ok (new_unchecked t (y =? 1) (ref_hash t (y =? 1)), rest)
  | Ok _ => Err InputTooShort
  end.

#[export] Instance ref_signed id : SignedTx (RefTx id) := {
  signature_hash t := byte_of (ref_byte t);
  set_chain_id t _ := t;
  encode_for_signing t := [byte_of (ref_byte t)];
  payload_len_for_signature _ := 1;
  fields_length _ := 1;
  encode_fields t := [byte_of (ref_byte t)];
  tx_hash_with_type t s _ := ref_hash t s;
  tx_hash_of := ref_hash;
  encode_2718_with_type t s _ := ref_encode (new_unchecked t s 0);
  encode_2718_of t s := ref_encode (new_unchecked t s 0);
  network_encode_with_type t s _ := ref_encode (new_unchecked t s 0);
  network_encode_of t s := ref_encode (new_unchecked t s 0);
  signed_encode_2718 := ref_encode;
  signed_encode_2718_len s := blen (ref_encode s);
  rlp_decode_signed := ref_decode;
}.

Lemma ref_decode_body {id} (s : Signed (RefTx id)) rest :
  signed_ok s -> ref_decode (ref_body s ++ rest) = Ok (s, rest).
Proof.
  destruct s as [[b] v h]. unfold signed_ok, ref_decode, ref_body. simpl. intros ->.
  rewrite (proj2 (Z.ltb_ge _ _))
    by (rewrite !blen_cons; pose proof (blen_nonneg rest); lia).
  rewrite ascii_of_byte. by destruct v.
Qed.

#[export] Instance ref_compact id : Compact (RefTx id) := {
  to_compact t := [byte_of (ref_byte t)];
  from_compact b _ :=
    match b with
    | x :: b => ({| ref_byte := ascii_of x |}, b)
    | [] => ({| ref_byte := Ascii.zero |}, [])
    end;
}.

#[export] Instance ref_compact_laws id : CompactLaws (RefTx id).
Proof. split. intros [b] rest. simpl. by rewrite ascii_of_byte. Qed.

#[export] Instance ref_typed_laws id : id <> 0 -> TypedTxLaws (RefTx id) id.
Proof.
  intros Hid. split; simpl; try done.
  intros s. exists (ref_body s). unfold ref_encode. rewrite (proj2 (Z.eqb_neq _ _) Hid).
  split; [done|]. intros rest. apply ref_decode_body.
Qed.

#[export] Instance ref_legacy_laws : LegacyTxLaws (RefTx 0).
Proof.
  split; simpl; try done.
  intros s. unfold ref_encode. simpl. exists [byte_of (ref_byte (stx s)); Z.b2z (ssig s)].
  split; [reflexivity|].
  split; [vm_compute; discriminate|]. intros rest. apply (ref_decode_body s).
Qed.

#[export] Instance ref_eth_txs : EthTxs := {
  TxLegacy := RefTx 0;
  TxEip2930 := RefTx 1;
  TxEip1559 := RefTx 2;
  TxEip7702 := RefTx 4;
}.

#[export] Instance ref_eth_txs_laws : EthTxsLaws.
Proof. split; try apply _; by apply ref_typed_laws. Qed.

(** ** EIP-2718 *)

Definition ref_decode_2718 {T} (typed : Z -> decoder2718 T) (fallback : decoder2718 T) :
    decoder2718 T :=
  fun b => match b with
           | ty :: body => if ty <=? 0x7f then typed ty body else fallback b
           | [] => fallback b
           end.

Definition ref_network_decode {T} (typed : Z -> decoder2718 T) (fallback : decoder2718 T) :
    decoder2718 T :=
  fun b =>
    match dec_header b with
    | Err e => Err (RlpErr e)
    | Ok (h, rest) =>
        if header_list h then fallback b
        else
          match rest with
          | [] => Err (RlpErr InputTooShort)
          | ty :: body =>
              match typed ty body with
              | Err e => Err e
              | Ok (t, remaining) =>
                  if bool_decide (blen rest - blen remaining = payload_length h) then Ok (t, remaining)
                  else Err (RlpErr UnexpectedLength)
              end
          end
    end.

Definition ref_network_encode (flag : option Z) (b : bytes) : bytes :=
  match flag with
  | None => b
  | Some _ => enc_header {| header_list := false; payload_length := blen b |} ++ b
  end.

#[export] Instance ref_eip2718 : Eip2718 := {
  decode_2718 := @ref_decode_2718;
  network_decode := @ref_network_decode;
  network_encode := ref_network_encode;
}.

(** A string header of more than one byte is read back. *)
Lemma dec_header_string n rest :
  1 < n <= blen rest -> n <= u64_max ->
  dec_header (enc_header {| header_list := false; payload_length := n |} ++ rest)
  = Ok ({| header_list := false; payload_length := n |}, rest).
Proof.
  intros Hn Hmax. unfold enc_header; simpl. destruct (Z.leb_spec n 55).
  - simpl. rewrite (proj2 (Z.ltb_ge (128 + n) 128)), (proj2 (Z.leb_le (128 + n) 183)) by lia.
    replace (128 + n - 128) with n by lia.
    by rewrite (proj2 (Z.ltb_ge _ _)) by lia.
  - unfold prefixed. simpl. pose proof (num_bytes_pos n ltac:(lia)).
    assert (num_bytes n <= 8)%nat.
    { apply num_bytes_le. unfold u64_max in Hmax. change (256 ^ Z.of_nat 8) with (2 ^ 64). lia. }
    set (k := num_bytes n) in *. change (192 + 55) with 247. change (128 + 55) with 183.
    rewrite (proj2 (Z.ltb_ge (183 + Z.of_nat k) 128)), (proj2 (Z.leb_gt (183 + Z.of_nat k) 183)),
      (proj2 (Z.ltb_lt (183 + Z.of_nat k) 192)) by lia.
    replace (Z.to_nat (183 + Z.of_nat k - 183)) with k by lia.
    rewrite take_value_be by (split; [lia|apply num_bytes_bound; lia]).
    by rewrite (proj2 (Z.ltb_ge _ _)) by lia.
Qed.

#[export] Instance ref_eip2718_laws : Eip2718Laws.
Proof.
  split; simpl; intros.
  - unfold ref_decode_2718. by rewrite (proj2 (Z.leb_le _ _)) by lia.
  - unfold ref_decode_2718. by rewrite (proj2 (Z.leb_gt _ _)) by lia.
  - unfold ref_network_decode.
    rewrite <- app_assoc, dec_header_string; simpl.
    + match goal with E : typed _ _ = _ |- _ => rewrite E end.
      rewrite bool_decide_true; [done|]. rewrite !blen_cons, blen_app. lia.
    + rewrite !blen_cons, blen_app. destruct body; [done|]. rewrite blen_cons.
      pose proof (blen_nonneg body). pose proof (blen_nonneg rest). lia.
    + done.
  - done.
  - unfold ref_network_decode.
    by rewrite dec_header_list
      by (rewrite ?blen_app; pose proof (blen_nonneg payload); pose proof (blen_nonneg rest); lia).
Qed.
