(* ===== verification/TxType.v ===== *)
(** * Transaction types (dogeos-protocol-types/src/transaction/tx_type.rs)

    The type identifiers, their conversions and their two storage encodings,
    and the trait [ScrollTransaction] the transaction enums implement. *)

From stdpp Require Import prelude gmap list strings.
From Stdlib Require Import ZArith Lia.
From S2P Require Import Prelude.
From S2P Require Import Alloy.
From S2P Require Import AlloyRef.

(** The trait of [envelope.rs]. *)
Class ScrollTransaction (T : Type) := {
  is_l1_message : T -> bool;
  queue_index : T -> option Z;
}.

(** What clients rely on: exactly the L1 messages have a queue index, and it is
    a 64-bit integer. *)
Class ScrollTransactionLaws (T : Type) `{ScrollTransaction T} (valid : T -> Prop) : Prop := {
  l1_message_has_index t : is_l1_message t = true <-> is_Some (queue_index t);
  queue_index_u64 t i : valid t -> queue_index t = Some i -> in_u64 i;
}.

Definition L1_MESSAGE_TX_TYPE_ID : Z := 126.

Module ScrollTxType.

Inductive t : Type := Legacy | Eip2930 | Eip1559 | Eip7702 | L1Message.

#[export] Instance t_eq_dec : EqDecision t.
Proof. solve_decision. Defined.

Definition ALL : list t := [Legacy; Eip1559; Eip2930; Eip7702; L1Message].

(** [v as u8]. *)
Definition to_u8 (v : t) : Z :=
  match v with
  | Legacy => 0
  | Eip2930 => 1
  | Eip1559 => 2
  | Eip7702 => 4
  | L1Message => L1_MESSAGE_TX_TYPE_ID
  end.

(** [From<ScrollTxType> for U8]. *)
Definition to_U8 (tx_type : t) : Z := to_u8 tx_type.

Definition try_from_u8 (value : Z) : result t Eip2718Error :=
  if value =? to_u8 Legacy then Ok Legacy
  else if value =? to_u8 Eip2930 then Ok Eip2930
  else if value =? to_u8 Eip1559 then Ok Eip1559
  else if value =? to_u8 Eip7702 then Ok Eip7702
  else if value =? to_u8 L1Message then Ok L1Message
  else Err (UnexpectedType value).

Definition try_from_u64 (value : Z) : result t string :=
  if value <=? u8_max then map_err (fun _ => "invalid tx type"%string) (try_from_u8 value)
  else Err "invalid tx type"%string.

(** [TryFrom<U64>]. *)
Definition try_from_U64 (value : Z) : result t string := try_from_u64 value.

Definition eq_u8 (self : t) (other : Z) : bool := to_u8 self =? other.

Definition ty (self : t) : Z := to_u8 self.

Definition encode `{Rlp} (self : t) : bytes := enc rlp_u8 (to_u8 self).

Definition length_rlp (self : t) : Z := 1.

Definition decode `{Rlp} (buf : bytes) : result (t * bytes) RlpError :=
  match dec rlp_u8 buf with
  | Err e => Err e
  | Ok (ty, buf) =>
      rmap (fun v => (v, buf))
        (map_err (fun _ => RlpCustom "invalid transaction type") (try_from_u8 ty))
  end.

(** [Compact::to_compact]: the bytes appended to the buffer and the identifier. *)
Definition to_compact `{CompactIds} (self : t) : bytes * Z :=
  match self with
  | Legacy => ([], COMPACT_IDENTIFIER_LEGACY)
  | Eip2930 => ([], COMPACT_IDENTIFIER_EIP2930)
  | Eip1559 => ([], COMPACT_IDENTIFIER_EIP1559)
  | Eip7702 => ([4], COMPACT_EXTENDED_IDENTIFIER_FLAG)
  | L1Message => ([L1_MESSAGE_TX_TYPE_ID], COMPACT_EXTENDED_IDENTIFIER_FLAG)
  end.

(** [Buf::get_u8] panics on an empty buffer. *)
Definition from_compact `{CompactIds} (buf : bytes) (identifier : Z) : outcome (t * bytes) :=
  if identifier =? COMPACT_IDENTIFIER_LEGACY then Returns (Legacy, buf)
  else if identifier =? COMPACT_IDENTIFIER_EIP2930 then Returns (Eip2930, buf)
  else if identifier =? COMPACT_IDENTIFIER_EIP1559 then Returns (Eip1559, buf)
  else if identifier =? COMPACT_EXTENDED_IDENTIFIER_FLAG then
    match buf with
    | [] => Panics "advance out of bounds"
    | extended_identifier :: buf =>
        if extended_identifier =? 4 then Returns (Eip7702, buf)
        else if extended_identifier =? L1_MESSAGE_TX_TYPE_ID then Returns (L1Message, buf)
        else Panics "Unsupported TxType identifier"
    end
  else Panics "Unknown identifier for TxType".

End ScrollTxType.
Export (hints) ScrollTxType.

(** ** Lemmas *)

Lemma try_from_to_u8 v : ScrollTxType.try_from_u8 (ScrollTxType.to_u8 v) = Ok v.
Proof. by destruct v. Qed.

Lemma try_from_u8_Ok x v :
  ScrollTxType.try_from_u8 x = Ok v <-> x = ScrollTxType.to_u8 v.
Proof.
  split; [|intros ->; apply try_from_to_u8].
  unfold ScrollTxType.try_from_u8. intros H.
  repeat match type of H with
  | context [if ?b then _ else _] => destruct b eqn:?
  end; simplify_eq/=; by bool_to_prop.
Qed.

Lemma try_from_u8_Err x e : ScrollTxType.try_from_u8 x = Err e -> e = UnexpectedType x.
Proof.
  unfold ScrollTxType.try_from_u8. intros H.
  repeat match type of H with
  | context [if ?b then _ else _] => destruct b eqn:?
  end; by simplify_eq/=.
Qed.

Lemma to_u8_range v : in_u8 (ScrollTxType.to_u8 v) /\ 0 <= ScrollTxType.to_u8 v <= 0x7f.
Proof. unfold in_u8, u8_max. destruct v; simpl; unfold L1_MESSAGE_TX_TYPE_ID; lia. Qed.

Lemma tx_type_compact_roundtrip `{CompactIdsLaws} v rest :
  ScrollTxType.from_compact ((ScrollTxType.to_compact v).1 ++ rest) (ScrollTxType.to_compact v).2
  = Returns (v, rest).
Proof.
  pose proof compact_ids_distinct as Hnd. rewrite !NoDup_cons in Hnd.
  destruct Hnd as (H1 & H2 & H3 & _). rewrite !not_elem_of_cons in *.
  unfold ScrollTxType.from_compact.
  destruct v; simpl; rewrite ?Z.eqb_refl;
    repeat match goal with
    | |- context [?a =? ?b] => destruct (Z.eqb_spec a b); [naive_solver congruence|]
    end; done.
Qed.

(** ** Properties *)

(** The two storage forms of a transaction type are read back: the RLP byte,
    and the compact form (two-bit identifier, with the byte in the buffer for
    the extended types), whatever follows in the buffer; and a byte outside
    {0, 1, 2, 4, 126} is rejected by the RLP reader. *)
Theorem tx_type_roundtrips `{RlpLaws} `{CompactIdsLaws} (v : ScrollTxType.t) (rest : bytes) (x : Z) :
  ScrollTxType.decode (ScrollTxType.encode v ++ rest) = Ok (v, rest)
  /\ ScrollTxType.from_compact ((ScrollTxType.to_compact v).1 ++ rest) (ScrollTxType.to_compact v).2
     = Returns (v, rest)
  /\ (in_u8 x -> x ∉ [0; 1; 2; 4; 126] ->
      ScrollTxType.decode (enc rlp_u8 x ++ rest) = Err (RlpCustom "invalid transaction type")).
Proof.
  split; [|split].
  - unfold ScrollTxType.decode, ScrollTxType.encode.
    rewrite (dec_enc rlp_u8_ok) by apply to_u8_range. by rewrite try_from_to_u8.
  - apply tx_type_compact_roundtrip.
  - intros Hx Hn. unfold ScrollTxType.decode. rewrite (dec_enc rlp_u8_ok) by done.
    destruct (ScrollTxType.try_from_u8 x) as [v'|] eqn:E; [|done].
    apply try_from_u8_Ok in E. exfalso. apply Hn. subst x.
    destruct v'; simpl; unfold L1_MESSAGE_TX_TYPE_ID; set_solver.
Qed.

Lemma tx_type_roundtrips_witness :
  ScrollTxType.decode (126 :: [1; 2]) = Ok (ScrollTxType.L1Message, [1; 2])
  /\ ScrollTxType.decode [3] = Err (RlpCustom "invalid transaction type").
Proof.
  destruct (tx_type_roundtrips ScrollTxType.L1Message [1; 2] 3) as (H & _ & _).
  destruct (tx_type_roundtrips ScrollTxType.Legacy [] 3) as (_ & _ & Hx).
  split; [exact H|apply Hx; [vm_compute; split; discriminate|set_solver]].
Defined.
