(* ===== verification/L1Message.v ===== *)
(** * L1 messages (dogeos-protocol-types/src/transaction/l1_message.rs)

    The message transaction of the settlement layer: its RLP and EIP-2718
    forms, its [Transaction] methods, and the serde helper with the extra
    [nonce] field. *)

From stdpp Require Import prelude gmap list strings.
From Stdlib Require Import ZArith Lia.
From S2P Require Import Prelude.
From S2P Require Import Alloy.
From S2P Require Import AlloyRef.
From S2P Require Import TxType.

Definition L1_MESSAGE_TRANSACTION_TYPE : Z := 126.

Record TxL1Message := {
  l1_queue_index : Z;
  l1_gas_limit : Z;
  l1_to : Address;
  l1_value : U256;
  l1_sender : Address;
  l1_input : bytes;
}.

(** Every field at its width. *)
Definition l1_message_valid (t : TxL1Message) : Prop :=
  in_u64 (l1_queue_index t) /\ in_u64 (l1_gas_limit t) /\ in_address (l1_to t)
  /\ in_u256 (l1_value t) /\ Forall in_u8 (l1_input t) /\ in_address (l1_sender t).

Module L1Msg.
Section L1Msg.
Context `{Rlp}.

Definition signature `{AlloyTypes} : Signature := signature_new 0 0 false.

Definition rlp_decode_fields (buf : bytes) : result (TxL1Message * bytes) RlpError :=
  let? queue_index := dec rlp_u64 buf in
  let? gas_limit := dec rlp_u64 queue_index.2 in
  let? to := dec rlp_address gas_limit.2 in
  let? value := dec rlp_u256 to.2 in
  let? input := dec rlp_bytes value.2 in
  let? sender := dec rlp_address input.2 in
  Ok ({| l1_queue_index := queue_index.1; l1_gas_limit := gas_limit.1; l1_to := to.1;
         l1_value := value.1; l1_sender := sender.1; l1_input := input.1 |}, sender.2).

Definition rlp_decode (buf : bytes) : result (TxL1Message * bytes) RlpError :=
  let? header := dec rlp_header buf in
  let '(header, buf) := header in
  if negb (header_list header) then Err UnexpectedString
  else
    let remaining := blen buf in
    let? this := rlp_decode_fields buf in
    let '(this, buf) := this in
    if bool_decide (blen buf + payload_length header = remaining) then Ok (this, buf)
    else Err (ListLengthMismatch (payload_length header) (remaining - blen buf)).

Definition rlp_encoded_fields_length (t : TxL1Message) : Z :=
  len rlp_u64 (l1_queue_index t) + len rlp_u64 (l1_gas_limit t) + len rlp_address (l1_to t)
  + len rlp_u256 (l1_value t) + len rlp_bytes (l1_input t) + len rlp_address (l1_sender t).

Definition rlp_encode_fields (t : TxL1Message) : bytes :=
  enc rlp_u64 (l1_queue_index t) ++ enc rlp_u64 (l1_gas_limit t) ++ enc rlp_address (l1_to t)
  ++ enc rlp_u256 (l1_value t) ++ enc rlp_bytes (l1_input t) ++ enc rlp_address (l1_sender t).

Definition tx_type (t : TxL1Message) : Z := L1_MESSAGE_TRANSACTION_TYPE.

Definition header_of (t : TxL1Message) : RlpHeader :=
  {| header_list := true; payload_length := rlp_encoded_fields_length t |}.

Definition rlp_encode (t : TxL1Message) : bytes :=
  enc rlp_header (header_of t) ++ rlp_encode_fields t.

Definition rlp_encoded_length (t : TxL1Message) : Z := length_with_payload (header_of t).

Definition eip2718_encoded_length (t : TxL1Message) : Z := rlp_encoded_length t + 1.

Definition eip2718_encode (t : TxL1Message) : bytes :=
  L1_MESSAGE_TRANSACTION_TYPE :: rlp_encode t.

(** The in-memory size: 8 + 8 + 20 + 32 bytes, the input, and 20 bytes. *)
Definition size (t : TxL1Message) : Z := 8 + 8 + 20 + 32 + blen (l1_input t) + 20.

(** [keccak256] is an argument. *)
Definition tx_hash (keccak256 : bytes -> B256) (t : TxL1Message) : B256 :=
  keccak256 (eip2718_encode t).

Definition ty (t : TxL1Message) : Z := ScrollTxType.to_u8 ScrollTxType.L1Message.

Definition type_flag (t : TxL1Message) : option Z := Some (tx_type t).

Definition encode_2718_len (t : TxL1Message) : Z := eip2718_encoded_length t.

Definition encode_2718 (t : TxL1Message) : bytes := tx_type t :: rlp_encode t.

Definition typed_decode (ty : Z) (buf : bytes) : result (TxL1Message * bytes) Eip2718Error :=
  if negb (ty =? L1_MESSAGE_TRANSACTION_TYPE) then Err (UnexpectedType ty)
  else map_err RlpErr (rlp_decode buf).

Definition encode (t : TxL1Message) : bytes := rlp_encode t.

Definition length_rlp (t : TxL1Message) : Z := rlp_encoded_length t.

Definition decode (buf : bytes) : result (TxL1Message * bytes) RlpError := rlp_decode buf.

Definition fallback_decode (buf : bytes) : result (TxL1Message * bytes) Eip2718Error :=
  map_err RlpErr (decode buf).

Definition seal_slow (keccak256 : bytes -> B256) (t : TxL1Message) : Sealed TxL1Message :=
  seal_unchecked t (tx_hash keccak256 t).
End L1Msg.

(** ** The [Transaction] methods *)

Section Methods.
Context `{AlloyTypes}.

Definition chain_id (t : TxL1Message) : option Z := None.
Definition nonce (t : TxL1Message) : Z := 0.
Definition gas_limit (t : TxL1Message) : Z := l1_gas_limit t.
Definition gas_price (t : TxL1Message) : option Z := None.
Definition max_fee_per_gas (t : TxL1Message) : Z := 0.
Definition max_priority_fee_per_gas (t : TxL1Message) : option Z := None.
Definition max_fee_per_blob_gas (t : TxL1Message) : option Z := None.
Definition priority_fee_or_price (t : TxL1Message) : Z := 0.
Definition effective_gas_price (t : TxL1Message) (base_fee : option Z) : Z := 0.
Definition is_dynamic_fee (t : TxL1Message) : bool := false.
Definition kind (t : TxL1Message) : TxKind := Call (l1_to t).
Definition is_create (t : TxL1Message) : bool := false.
Definition value (t : TxL1Message) : U256 := l1_value t.
Definition input (t : TxL1Message) : bytes := l1_input t.
Definition access_list (t : TxL1Message) : option AccessList := None.
Definition blob_versioned_hashes (t : TxL1Message) : option (list B256) := None.
Definition authorization_list (t : TxL1Message) : option (list SignedAuthorization) := None.

(** [to] is the provided method of the trait: the target of [kind]. *)
#[export] Instance TxL1Message_transaction : Transaction TxL1Message := {
  tx_ty := ty;
  tx_chain_id := chain_id;
  tx_nonce := nonce;
  tx_gas_limit := gas_limit;
  tx_gas_price := gas_price;
  tx_max_fee_per_gas := max_fee_per_gas;
  tx_max_priority_fee_per_gas := max_priority_fee_per_gas;
  tx_max_fee_per_blob_gas := max_fee_per_blob_gas;
  tx_priority_fee_or_price := priority_fee_or_price;
  tx_to t := match kind t with Call to => Some to | Create => None end;
  tx_kind := kind;
  tx_value := value;
  tx_input := input;
  tx_access_list := access_list;
  tx_blob_versioned_hashes := blob_versioned_hashes;
  tx_authorization_list := authorization_list;
  tx_is_dynamic_fee := is_dynamic_fee;
  tx_effective_gas_price := effective_gas_price;
  tx_is_create := is_create;
}.
End Methods.

(** ** The serde helper *)

Record L1MsgSerdeHelper := {
  h_queue_index : Z;
  h_gas_limit : Z;
  h_to : Address;
  h_value : U256;
  h_sender : Address;
  h_input : bytes;
  h_nonce : Z;
}.

Definition from_helper (helper : L1MsgSerdeHelper) : TxL1Message :=
  {| l1_queue_index := h_queue_index helper; l1_gas_limit := h_gas_limit helper;
     l1_to := h_to helper; l1_value := h_value helper; l1_sender := h_sender helper;
     l1_input := h_input helper |}.

Definition to_helper (t : TxL1Message) : L1MsgSerdeHelper :=
  {| h_queue_index := l1_queue_index t; h_gas_limit := l1_gas_limit t; h_to := l1_to t;
     h_value := l1_value t; h_sender := l1_sender t; h_input := l1_input t; h_nonce := 0 |}.

Record ScrollL1MessageTransactionFields := {
  fields_queue_index : Z;
  fields_sender : Address;
}.
End L1Msg.

Export (hints) L1Msg.

(** ** Lemmas *)

Section L1Lemmas.
Context `{RlpLaws}.

Lemma l1_fields_length t :
  l1_message_valid t -> L1Msg.rlp_encoded_fields_length t = blen (L1Msg.rlp_encode_fields t).
Proof.
  intros (? & ? & ? & ? & ? & ?). unfold L1Msg.rlp_encoded_fields_length, L1Msg.rlp_encode_fields.
  rewrite (len_enc rlp_u64_ok), (len_enc rlp_u64_ok), (len_enc rlp_address_ok),
    (len_enc rlp_u256_ok), (len_enc rlp_bytes_ok), (len_enc rlp_address_ok) by done.
  autorewrite with bytes. lia.
Qed.

Lemma l1_decode_fields t rest :
  l1_message_valid t ->
  L1Msg.rlp_decode_fields (L1Msg.rlp_encode_fields t ++ rest) = Ok (t, rest).
Proof.
  intros (? & ? & ? & ? & ? & ?). unfold L1Msg.rlp_decode_fields, L1Msg.rlp_encode_fields.
  rewrite <- !app_assoc.
  rewrite (dec_enc rlp_u64_ok) by done. cbn [rbind fst snd].
  rewrite (dec_enc rlp_u64_ok) by done. cbn [rbind fst snd].
  rewrite (dec_enc rlp_address_ok) by done. cbn [rbind fst snd].
  rewrite (dec_enc rlp_u256_ok) by done. cbn [rbind fst snd].
  rewrite (dec_enc rlp_bytes_ok) by done. cbn [rbind fst snd].
  rewrite (dec_enc rlp_address_ok) by done. cbn [rbind fst snd]. by destruct t.
Qed.

Lemma l1_decode_encode t rest :
  l1_message_valid t -> blen (L1Msg.rlp_encode_fields t) <= u64_max ->
  L1Msg.rlp_decode (L1Msg.rlp_encode t ++ rest) = Ok (t, rest).
Proof.
  intros Ht Hlen. unfold L1Msg.rlp_decode, L1Msg.rlp_encode, L1Msg.header_of.
  rewrite (l1_fields_length t Ht), <- app_assoc.
  rewrite rlp_list_header by (rewrite ?blen_app;
    pose proof (blen_nonneg (L1Msg.rlp_encode_fields t)); pose proof (blen_nonneg rest); lia).
  simpl. rewrite l1_decode_fields by done. simpl.
  rewrite bool_decide_true by (rewrite blen_app; lia). done.
Qed.

Lemma l1_encoded_length t :
  l1_message_valid t -> blen (L1Msg.rlp_encode_fields t) <= u64_max ->
  L1Msg.eip2718_encoded_length t = blen (L1Msg.encode_2718 t).
Proof.
  intros Ht Hlen. unfold L1Msg.eip2718_encoded_length, L1Msg.rlp_encoded_length,
    length_with_payload, L1Msg.encode_2718, L1Msg.rlp_encode, L1Msg.header_of.
  cbn [payload_length]. rewrite (l1_fields_length t Ht).
  pose proof (blen_nonneg (L1Msg.rlp_encode_fields t)).
  rewrite rlp_list_header_len by lia. autorewrite with bytes. lia.
Qed.
End L1Lemmas.

(** ** Properties *)

(** An L1 message written in its EIP-2718 form is read back from any buffer
    that starts with it, the declared length is the number of bytes written,
    and every other type byte is refused before the body is looked at. *)
Theorem l1_message_roundtrip `{RlpLaws} `{!Eip2718} `{!Eip2718Laws} (t : TxL1Message) (rest : bytes) :
  l1_message_valid t -> blen (L1Msg.rlp_encode_fields t) <= u64_max ->
  decode_2718 L1Msg.typed_decode L1Msg.fallback_decode (L1Msg.encode_2718 t ++ rest) = Ok (t, rest)
  /\ L1Msg.encode_2718_len t = blen (L1Msg.encode_2718 t)
  /\ (forall ty body, ty <> 126 -> L1Msg.typed_decode ty body = Err (UnexpectedType ty)).
Proof.
  intros Ht Hlen. repeat split.
  - unfold L1Msg.encode_2718, L1Msg.tx_type, L1_MESSAGE_TRANSACTION_TYPE. simpl.
    rewrite decode_2718_typed by lia. unfold L1Msg.typed_decode, L1_MESSAGE_TRANSACTION_TYPE.
    simpl. by rewrite l1_decode_encode.
  - by apply l1_encoded_length.
  - intros ty body Hty. unfold L1Msg.typed_decode, L1_MESSAGE_TRANSACTION_TYPE.
    by rewrite (proj2 (Z.eqb_neq _ _) Hty).
Qed.

Definition sample_l1_message : TxL1Message :=
  {| l1_queue_index := 7; l1_gas_limit := 200000; l1_to := 0x42; l1_value := 10 ^ 18;
     l1_sender := 0x99; l1_input := [1; 2; 3; 255] |}.

Lemma sample_l1_message_valid : l1_message_valid sample_l1_message.
Proof.
  unfold l1_message_valid, in_address; simpl. repeat split; try solve_ints.
  repeat constructor; solve_ints.
Qed.

Lemma l1_message_roundtrip_witness :
  decode_2718 L1Msg.typed_decode L1Msg.fallback_decode (L1Msg.encode_2718 sample_l1_message ++ [9])
  = Ok (sample_l1_message, [9]).
Proof.
  destruct (l1_message_roundtrip sample_l1_message [9]) as (H & _ & _);
    [exact sample_l1_message_valid|vm_compute; discriminate|exact H].
Defined.
