(* ===== verification/Envelope.v ===== *)
(** * Transaction envelopes (dogeos-protocol-types/src/transaction/envelope.rs)

    The signed transaction enum of the chain: its methods, its EIP-2718 and
    network encodings, its storage parts, signer recovery and the
    bincode-compatible representation. *)

From stdpp Require Import prelude gmap list strings.
From Stdlib Require Import ZArith Lia.
From S2P Require Import Prelude.
From S2P Require Import Alloy.
From S2P Require Import AlloyRef.
From S2P Require Import TxType.
From S2P Require Import L1Message.

(** [reth_codecs::alloy::transaction::CompactEnvelope]: the storage form of an
    envelope, over its signature, its type and the compact form of what it
    holds. *)
Class CompactEnvelope `{AlloyTypes} := {
  ce_to_compact {E : Type} : (E -> Signature) -> (E -> ScrollTxType.t) -> (E -> bytes) -> E -> bytes * Z;
  ce_from_compact {E : Type} : (bytes -> ScrollTxType.t -> Signature -> E * bytes) -> bytes -> Z -> E * bytes;
}.

(** What was written is read back when the parts are. *)
Class CompactEnvelopeLaws `{CompactEnvelope} : Prop := {
  ce_reads_back {E} (sig : E -> Signature) ty to from (e : E) :
    from (to e) (ty e) (sig e) = (e, []) ->
    let '(out, len) := ce_to_compact sig ty to e in (ce_from_compact from out len).1 = e;
}.

Module TxEnvelope.
Section TxEnvelope.
Context `{EthTxs}.

Inductive ScrollTxEnvelope : Type :=
| Legacy (tx : Signed TxLegacy)
| Eip2930 (tx : Signed TxEip2930)
| Eip1559 (tx : Signed TxEip1559)
| Eip7702 (tx : Signed TxEip7702)
| L1Message (tx : Sealed TxL1Message).

(** The [From] conversions that wrap a variant. *)
Definition from_legacy (v : Signed TxLegacy) : ScrollTxEnvelope := Legacy v.
Definition from_eip2930 (v : Signed TxEip2930) : ScrollTxEnvelope := Eip2930 v.
Definition from_eip1559 (v : Signed TxEip1559) : ScrollTxEnvelope := Eip1559 v.
Definition from_eip7702 (v : Signed TxEip7702) : ScrollTxEnvelope := Eip7702 v.
Definition from_sealed_l1_message (v : Sealed TxL1Message) : ScrollTxEnvelope := L1Message v.

Definition from_l1_message `{Rlp} (keccak256 : bytes -> B256) (v : TxL1Message) : ScrollTxEnvelope :=
  L1Message (L1Msg.seal_slow keccak256 v).

Definition ty (self : ScrollTxEnvelope) : Z :=
  match self with
  | Legacy tx => tx_ty (stx tx)
  | Eip2930 tx => tx_ty (stx tx)
  | Eip1559 tx => tx_ty (stx tx)
  | Eip7702 tx => tx_ty (stx tx)
  | L1Message tx => tx_ty (inner tx)
  end.

Definition is_type (type_id : Z) : bool :=
  (type_id =? 1) || (type_id =? 2) || (type_id =? 4) || (type_id =? L1_MESSAGE_TX_TYPE_ID).

Definition chain_id (self : ScrollTxEnvelope) : option Z :=
  match self with
  | Legacy tx => tx_chain_id (stx tx)
  | Eip2930 tx => tx_chain_id (stx tx)
  | Eip1559 tx => tx_chain_id (stx tx)
  | Eip7702 tx => tx_chain_id (stx tx)
  | L1Message tx => tx_chain_id (inner tx)
  end.

Definition nonce (self : ScrollTxEnvelope) : Z :=
  match self with
  | Legacy tx => tx_nonce (stx tx)
  | Eip2930 tx => tx_nonce (stx tx)
  | Eip1559 tx => tx_nonce (stx tx)
  | Eip7702 tx => tx_nonce (stx tx)
  | L1Message tx => tx_nonce (inner tx)
  end.

Definition gas_limit (self : ScrollTxEnvelope) : Z :=
  match self with
  | Legacy tx => tx_gas_limit (stx tx)
  | Eip2930 tx => tx_gas_limit (stx tx)
  | Eip1559 tx => tx_gas_limit (stx tx)
  | Eip7702 tx => tx_gas_limit (stx tx)
  | L1Message tx => tx_gas_limit (inner tx)
  end.

Definition gas_price (self : ScrollTxEnvelope) : option Z :=
  match self with
  | Legacy tx => tx_gas_price (stx tx)
  | Eip2930 tx => tx_gas_price (stx tx)
  | Eip1559 tx => tx_gas_price (stx tx)
  | Eip7702 tx => tx_gas_price (stx tx)
  | L1Message tx => tx_gas_price (inner tx)
  end.

Definition max_fee_per_gas (self : ScrollTxEnvelope) : Z :=
  match self with
  | Legacy tx => tx_max_fee_per_gas (stx tx)
  | Eip2930 tx => tx_max_fee_per_gas (stx tx)
  | Eip1559 tx => tx_max_fee_per_gas (stx tx)
  | Eip7702 tx => tx_max_fee_per_gas (stx tx)
  | L1Message tx => tx_max_fee_per_gas (inner tx)
  end.

Definition max_priority_fee_per_gas (self : ScrollTxEnvelope) : option Z :=
  match self with
  | Legacy tx => tx_max_priority_fee_per_gas (stx tx)
  | Eip2930 tx => tx_max_priority_fee_per_gas (stx tx)
  | Eip1559 tx => tx_max_priority_fee_per_gas (stx tx)
  | Eip7702 tx => tx_max_priority_fee_per_gas (stx tx)
  | L1Message tx => tx_max_priority_fee_per_gas (inner tx)
  end.

Definition max_fee_per_blob_gas (self : ScrollTxEnvelope) : option Z :=
  match self with
  | Legacy tx => tx_max_fee_per_blob_gas (stx tx)
  | Eip2930 tx => tx_max_fee_per_blob_gas (stx tx)
  | Eip1559 tx => tx_max_fee_per_blob_gas (stx tx)
  | Eip7702 tx => tx_max_fee_per_blob_gas (stx tx)
  | L1Message tx => tx_max_fee_per_blob_gas (inner tx)
  end.

Definition priority_fee_or_price (self : ScrollTxEnvelope) : Z :=
  match self with
  | Legacy tx => tx_priority_fee_or_price (stx tx)
  | Eip2930 tx => tx_priority_fee_or_price (stx tx)
  | Eip1559 tx => tx_priority_fee_or_price (stx tx)
  | Eip7702 tx => tx_priority_fee_or_price (stx tx)
  | L1Message tx => tx_priority_fee_or_price (inner tx)
  end.

Definition to (self : ScrollTxEnvelope) : option Address :=
  match self with
  | Legacy tx => tx_to (stx tx)
  | Eip2930 tx => tx_to (stx tx)
  | Eip1559 tx => tx_to (stx tx)
  | Eip7702 tx => tx_to (stx tx)
  | L1Message tx => tx_to (inner tx)
  end.

Definition kind (self : ScrollTxEnvelope) : TxKind :=
  match self with
  | Legacy tx => tx_kind (stx tx)
  | Eip2930 tx => tx_kind (stx tx)
  | Eip1559 tx => tx_kind (stx tx)
  | Eip7702 tx => tx_kind (stx tx)
  | L1Message tx => tx_kind (inner tx)
  end.

Definition value (self : ScrollTxEnvelope) : U256 :=
  match self with
  | Legacy tx => tx_value (stx tx)
  | Eip2930 tx => tx_value (stx tx)
  | Eip1559 tx => tx_value (stx tx)
  | Eip7702 tx => tx_value (stx tx)
  | L1Message tx => tx_value (inner tx)
  end.

Definition input (self : ScrollTxEnvelope) : bytes :=
  match self with
  | Legacy tx => tx_input (stx tx)
  | Eip2930 tx => tx_input (stx tx)
  | Eip1559 tx => tx_input (stx tx)
  | Eip7702 tx => tx_input (stx tx)
  | L1Message tx => tx_input (inner tx)
  end.

Definition access_list (self : ScrollTxEnvelope) : option AccessList :=
  match self with
  | Legacy tx => tx_access_list (stx tx)
  | Eip2930 tx => tx_access_list (stx tx)
  | Eip1559 tx => tx_access_list (stx tx)
  | Eip7702 tx => tx_access_list (stx tx)
  | L1Message tx => tx_access_list (inner tx)
  end.

Definition blob_versioned_hashes (self : ScrollTxEnvelope) : option (list B256) :=
  match self with
  | Legacy tx => tx_blob_versioned_hashes (stx tx)
  | Eip2930 tx => tx_blob_versioned_hashes (stx tx)
  | Eip1559 tx => tx_blob_versioned_hashes (stx tx)
  | Eip7702 tx => tx_blob_versioned_hashes (stx tx)
  | L1Message tx => tx_blob_versioned_hashes (inner tx)
  end.

Definition authorization_list (self : ScrollTxEnvelope) : option (list SignedAuthorization) :=
  match self with
  | Legacy tx => tx_authorization_list (stx tx)
  | Eip2930 tx => tx_authorization_list (stx tx)
  | Eip1559 tx => tx_authorization_list (stx tx)
  | Eip7702 tx => tx_authorization_list (stx tx)
  | L1Message tx => tx_authorization_list (inner tx)
  end.

Definition is_dynamic_fee (self : ScrollTxEnvelope) : bool :=
  match self with
  | Legacy tx => tx_is_dynamic_fee (stx tx)
  | Eip2930 tx => tx_is_dynamic_fee (stx tx)
  | Eip1559 tx => tx_is_dynamic_fee (stx tx)
  | Eip7702 tx => tx_is_dynamic_fee (stx tx)
  | L1Message tx => tx_is_dynamic_fee (inner tx)
  end.

Definition effective_gas_price (self : ScrollTxEnvelope) (base_fee : option Z) : Z :=
  match self with
  | Legacy tx => tx_effective_gas_price (stx tx) base_fee
  | Eip2930 tx => tx_effective_gas_price (stx tx) base_fee
  | Eip1559 tx => tx_effective_gas_price (stx tx) base_fee
  | Eip7702 tx => tx_effective_gas_price (stx tx) base_fee
  | L1Message tx => tx_effective_gas_price (inner tx) base_fee
  end.

Definition is_create (self : ScrollTxEnvelope) : bool :=
  match self with
  | Legacy tx => tx_is_create (stx tx)
  | Eip2930 tx => tx_is_create (stx tx)
  | Eip1559 tx => tx_is_create (stx tx)
  | Eip7702 tx => tx_is_create (stx tx)
  | L1Message tx => tx_is_create (inner tx)
  end.

Definition is_legacy (self : ScrollTxEnvelope) : bool :=
  match self with Legacy _ => true | _ => false end.

Definition is_eip2930 (self : ScrollTxEnvelope) : bool :=
  match self with Eip2930 _ => true | _ => false end.

Definition is_eip1559 (self : ScrollTxEnvelope) : bool :=
  match self with Eip1559 _ => true | _ => false end.

Definition is_eip7702 (self : ScrollTxEnvelope) : bool :=
  match self with Eip7702 _ => true | _ => false end.

Definition is_l1_message (self : ScrollTxEnvelope) : bool :=
  match self with L1Message _ => true | _ => false end.

Definition as_legacy (self : ScrollTxEnvelope) : option (Signed TxLegacy) :=
  match self with Legacy tx => Some tx | _ => None end.

Definition as_eip2930 (self : ScrollTxEnvelope) : option (Signed TxEip2930) :=
  match self with Eip2930 tx => Some tx | _ => None end.

Definition as_eip1559 (self : ScrollTxEnvelope) : option (Signed TxEip1559) :=
  match self with Eip1559 tx => Some tx | _ => None end.

Definition as_eip7702 (self : ScrollTxEnvelope) : option (Signed TxEip7702) :=
  match self with Eip7702 tx => Some tx | _ => None end.

Definition as_l1_message (self : ScrollTxEnvelope) : option (Sealed TxL1Message) :=
  match self with L1Message tx => Some tx | _ => None end.

Definition tx_type (self : ScrollTxEnvelope) : ScrollTxType.t :=
  match self with
  | Legacy tx => ScrollTxType.Legacy
  | Eip2930 tx => ScrollTxType.Eip2930
  | Eip1559 tx => ScrollTxType.Eip1559
  | Eip7702 tx => ScrollTxType.Eip7702
  | L1Message tx => ScrollTxType.L1Message
  end.

Section Encodings.
Context `{Rlp}.

Definition eip2718_encoded_length (self : ScrollTxEnvelope) : Z :=
  match self with
  | Legacy tx => signed_encode_2718_len tx
  | Eip2930 tx => signed_encode_2718_len tx
  | Eip1559 tx => signed_encode_2718_len tx
  | Eip7702 tx => signed_encode_2718_len tx
  | L1Message tx => L1Msg.eip2718_encoded_length (inner tx)
  end.

Definition signature (self : ScrollTxEnvelope) : option Signature :=
  match self with
  | Legacy tx => Some (ssig tx)
  | Eip2930 tx => Some (ssig tx)
  | Eip1559 tx => Some (ssig tx)
  | Eip7702 tx => Some (ssig tx)
  | L1Message tx => None
  end.

Definition queue_index (self : ScrollTxEnvelope) : option Z :=
  match self with
  | Legacy tx => None
  | Eip2930 tx => None
  | Eip1559 tx => None
  | Eip7702 tx => None
  | L1Message tx => Some (l1_queue_index (inner tx))
  end.

Definition to_tx_compact (self : ScrollTxEnvelope) (l1_compact : TxL1Message -> bytes) : bytes :=
  match self with
  | Legacy tx => to_compact (stx tx)
  | Eip2930 tx => to_compact (stx tx)
  | Eip1559 tx => to_compact (stx tx)
  | Eip7702 tx => to_compact (stx tx)
  | L1Message tx => l1_compact (inner tx)
  end.

Definition from_tx_compact (keccak256 : bytes -> B256)
    (l1_from_compact : bytes -> Z -> TxL1Message * bytes)
    (buf : bytes) (tx_type : ScrollTxType.t) (signature : Signature) : ScrollTxEnvelope * bytes :=
  match tx_type with
  | ScrollTxType.Legacy =>
      let '(tx, buf) := from_compact buf (blen buf) in
      (Legacy (new_unhashed tx signature), buf)
  | ScrollTxType.Eip2930 =>
      let '(tx, buf) := from_compact buf (blen buf) in
      (Eip2930 (new_unhashed tx signature), buf)
  | ScrollTxType.Eip1559 =>
      let '(tx, buf) := from_compact buf (blen buf) in
      (Eip1559 (new_unhashed tx signature), buf)
  | ScrollTxType.Eip7702 =>
      let '(tx, buf) := from_compact buf (blen buf) in
      (Eip7702 (new_unhashed tx signature), buf)
  | ScrollTxType.L1Message =>
      let '(tx, buf) := l1_from_compact buf (blen buf) in
      (L1Message (L1Msg.seal_slow keccak256 tx), buf)
  end.

Definition tx_hash (self : ScrollTxEnvelope) : B256 :=
  match self with
  | Legacy tx => shash tx
  | Eip2930 tx => shash tx
  | Eip1559 tx => shash tx
  | Eip7702 tx => shash tx
  | L1Message tx => seal tx
  end.

Definition envelope_signature (self : ScrollTxEnvelope) : Signature :=
  match self with
  | Legacy tx => ssig tx
  | Eip2930 tx => ssig tx
  | Eip1559 tx => ssig tx
  | Eip7702 tx => ssig tx
  | L1Message tx => signature_new 0 0 false
  end.

(** [Compact for ScrollTxEnvelope]. *)
Definition envelope_to_compact `{!CompactEnvelope} (l1_compact : TxL1Message -> bytes) (self : ScrollTxEnvelope) :
    bytes * Z :=
  ce_to_compact envelope_signature tx_type (fun e => to_tx_compact e l1_compact) self.

Definition envelope_from_compact `{!CompactEnvelope} (keccak256 : bytes -> B256)
    (l1_from_compact : bytes -> Z -> TxL1Message * bytes) (buf : bytes) (len : Z) : ScrollTxEnvelope * bytes :=
  ce_from_compact (from_tx_compact keccak256 l1_from_compact) buf len.

Definition typed_decode (keccak256 : bytes -> B256) (ty : Z) (buf : bytes) :
    result (ScrollTxEnvelope * bytes) Eip2718Error :=
  let? v := map_err (fun _ => UnexpectedType ty) (ScrollTxType.try_from_u8 ty) in
  match v with
  | ScrollTxType.Eip2930 =>
      map_err RlpErr (rmap (fun '(tx, buf) => (Eip2930 tx, buf)) (rlp_decode_signed buf))
  | ScrollTxType.Eip1559 =>
      map_err RlpErr (rmap (fun '(tx, buf) => (Eip1559 tx, buf)) (rlp_decode_signed buf))
  | ScrollTxType.Eip7702 =>
      map_err RlpErr (rmap (fun '(tx, buf) => (Eip7702 tx, buf)) (rlp_decode_signed buf))
  | ScrollTxType.L1Message =>
      map_err RlpErr
        (rmap (fun '(tx, buf) => (L1Message (L1Msg.seal_slow keccak256 tx), buf)) (L1Msg.decode buf))
  | ScrollTxType.Legacy =>
      Err (RlpErr (RlpCustom "type-0 eip2718 transactions are not supported"))
  end.

Definition fallback_decode (buf : bytes) : result (ScrollTxEnvelope * bytes) Eip2718Error :=
  map_err RlpErr (rmap (fun '(tx, buf) => (Legacy tx, buf)) (rlp_decode_signed buf)).

Definition type_flag (self : ScrollTxEnvelope) : option Z :=
  match self with
  | Legacy tx => None
  | Eip2930 tx => Some (ScrollTxType.to_u8 ScrollTxType.Eip2930)
  | Eip1559 tx => Some (ScrollTxType.to_u8 ScrollTxType.Eip1559)
  | Eip7702 tx => Some (ScrollTxType.to_u8 ScrollTxType.Eip7702)
  | L1Message tx => Some (ScrollTxType.to_u8 ScrollTxType.L1Message)
  end.

Definition encode_2718_len (self : ScrollTxEnvelope) : Z := eip2718_encoded_length self.

Definition encode_2718 (self : ScrollTxEnvelope) : bytes :=
  match self with
  | Legacy tx => signed_encode_2718 tx
  | Eip2930 tx => signed_encode_2718 tx
  | Eip1559 tx => signed_encode_2718 tx
  | Eip7702 tx => signed_encode_2718 tx
  | L1Message tx => L1Msg.eip2718_encode (inner tx)
  end.

Definition trie_hash (self : ScrollTxEnvelope) : B256 :=
  match self with
  | Legacy tx => shash tx
  | Eip2930 tx => shash tx
  | Eip1559 tx => shash tx
  | Eip7702 tx => shash tx
  | L1Message tx => seal tx
  end.

(** [Encodable::encode] and [Decodable::decode]: the network form. *)
Definition encode `{!Eip2718} (self : ScrollTxEnvelope) : bytes := network_encode (type_flag self) (encode_2718 self).

(** [network_len], provided by [Encodable2718]. *)
Definition network_len (self : ScrollTxEnvelope) : Z :=
  let payload_length := encode_2718_len self in
  if is_legacy self then payload_length
  else payload_length
       + len rlp_header {| header_list := false; Alloy.payload_length := payload_length |}.

Definition length_rlp (self : ScrollTxEnvelope) : Z := network_len self.

Definition decode `{!Eip2718} (keccak256 : bytes -> B256) (buf : bytes) :
    result (ScrollTxEnvelope * bytes) Eip2718Error :=
  network_decode (typed_decode keccak256) fallback_decode buf.
End Encodings.

(** Signer recovery, with the curve operation (checked or unchecked) as an argument. *)
Section Recovery.
Context {E : Type} (recover : Signature -> B256 -> result Address E).

Definition recover_with (signature : option Signature) (signature_hash : B256) :
    outcome (result Address E) :=
  match signature with
  | None => Panics "handled L1 message in previous match"
  | Some s => Returns (recover s signature_hash)
  end.

Definition recover_signer (self : ScrollTxEnvelope) : outcome (result Address E) :=
  match self with
  | Legacy tx => recover_with (signature self) (signature_hash (stx tx))
  | Eip2930 tx => recover_with (signature self) (signature_hash (stx tx))
  | Eip1559 tx => recover_with (signature self) (signature_hash (stx tx))
  | Eip7702 tx => recover_with (signature self) (signature_hash (stx tx))
  | L1Message tx => Returns (Ok (l1_sender (inner tx)))
  end.

Definition recover_signer_unchecked (self : ScrollTxEnvelope) : outcome (result Address E) :=
  match self with
  | Legacy tx => recover_with (signature self) (signature_hash (stx tx))
  | Eip2930 tx => recover_with (signature self) (signature_hash (stx tx))
  | Eip1559 tx => recover_with (signature self) (signature_hash (stx tx))
  | Eip7702 tx => recover_with (signature self) (signature_hash (stx tx))
  | L1Message tx => Returns (Ok (l1_sender (inner tx)))
  end.

End Recovery.

(** The bincode-compatible representation: parts without the cached hash. *)
Inductive Bincode : Type :=
| BLegacy (signature : Signature) (transaction : TxLegacy)
| BEip2930 (signature : Signature) (transaction : TxEip2930)
| BEip1559 (signature : Signature) (transaction : TxEip1559)
| BEip7702 (signature : Signature) (transaction : TxEip7702)
| BL1Message (hash : B256) (transaction : TxL1Message).

Definition to_bincode (self : ScrollTxEnvelope) : Bincode :=
  match self with
  | Legacy tx => BLegacy (ssig tx) (stx tx)
  | Eip2930 tx => BEip2930 (ssig tx) (stx tx)
  | Eip1559 tx => BEip1559 (ssig tx) (stx tx)
  | Eip7702 tx => BEip7702 (ssig tx) (stx tx)
  | L1Message tx => BL1Message (seal tx) (inner tx)
  end.

Definition from_bincode (value : Bincode) : ScrollTxEnvelope :=
  match value with
  | BLegacy signature transaction => Legacy (new_unhashed transaction signature)
  | BEip2930 signature transaction => Eip2930 (new_unhashed transaction signature)
  | BEip1559 signature transaction => Eip1559 (new_unhashed transaction signature)
  | BEip7702 signature transaction => Eip7702 (new_unhashed transaction signature)
  | BL1Message hash transaction => L1Message (seal_unchecked transaction hash)
  end.

(** The serde representation, tagged, and with an untagged legacy form. *)
Inductive TaggedTxEnvelope : Type :=
| TLegacy (signed : Signed TxLegacy)
| TEip2930 (signed : Signed TxEip2930)
| TEip1559 (signed : Signed TxEip1559)
| TEip7702 (signed : Signed TxEip7702)
| TL1Message (tx : Sealed TxL1Message).

Inductive MaybeTaggedTxEnvelope : Type :=
| Tagged (tagged : TaggedTxEnvelope)
| Untagged (tx : Signed TxLegacy).

Definition from_tagged (value : TaggedTxEnvelope) : ScrollTxEnvelope :=
  match value with
  | TLegacy signed => Legacy signed
  | TEip2930 signed => Eip2930 signed
  | TEip1559 signed => Eip1559 signed
  | TEip7702 signed => Eip7702 signed
  | TL1Message tx => L1Message tx
  end.

Definition from_maybe_tagged (value : MaybeTaggedTxEnvelope) : ScrollTxEnvelope :=
  match value with Tagged tagged => from_tagged tagged | Untagged tx => Legacy tx end.

Definition into_tagged (self : ScrollTxEnvelope) : TaggedTxEnvelope :=
  match self with
  | Legacy tx => TLegacy tx
  | Eip2930 tx => TEip2930 tx
  | Eip1559 tx => TEip1559 tx
  | Eip7702 tx => TEip7702 tx
  | L1Message tx => TL1Message tx
  end.

#[export] Instance ScrollTxEnvelope_transaction : Transaction ScrollTxEnvelope := {
  tx_ty := ty;
  tx_chain_id := chain_id;
  tx_nonce := nonce;
  tx_gas_limit := gas_limit;
  tx_gas_price := gas_price;
  tx_max_fee_per_gas := max_fee_per_gas;
  tx_max_priority_fee_per_gas := max_priority_fee_per_gas;
  tx_max_fee_per_blob_gas := max_fee_per_blob_gas;
  tx_priority_fee_or_price := priority_fee_or_price;
  tx_to := to;
  tx_kind := kind;
  tx_value := value;
  tx_input := input;
  tx_access_list := access_list;
  tx_blob_versioned_hashes := blob_versioned_hashes;
  tx_authorization_list := authorization_list;
  tx_is_dynamic_fee := is_dynamic_fee;
  tx_effective_gas_price := effective_gas_price;
  tx_is_create := is_create;
}.

#[export] Instance ScrollTxEnvelope_scroll : ScrollTransaction ScrollTxEnvelope := {
  TxType.is_l1_message := is_l1_message;
  TxType.queue_index := queue_index;
}.
End TxEnvelope.
End TxEnvelope.
Export (hints) TxEnvelope.
