(* ===== verification/Typed.v ===== *)
(** * Unsigned transactions (dogeos-protocol-types/src/transaction/typed.rs)

    The transaction enum without signatures: its methods, its signing and
    hashing operations, its compact storage form, and the conversions from and
    to the signed envelope. *)

From stdpp Require Import prelude gmap list strings.
From Stdlib Require Import ZArith Lia.
From S2P Require Import Prelude.
From S2P Require Import Alloy.
From S2P Require Import AlloyRef.
From S2P Require Import TxType.
From S2P Require Import L1Message.
From S2P Require Import Envelope.

Module TypedTx.
Section TypedTx.
Context `{EthTxs}.

Inductive ScrollTypedTransaction : Type :=
| Legacy (tx : TxLegacy)
| Eip2930 (tx : TxEip2930)
| Eip1559 (tx : TxEip1559)
| Eip7702 (tx : TxEip7702)
| L1Message (tx : TxL1Message).

(** The [From] conversions that wrap a variant. *)
Definition from_legacy (tx : TxLegacy) : ScrollTypedTransaction := Legacy tx.
Definition from_eip2930 (tx : TxEip2930) : ScrollTypedTransaction := Eip2930 tx.
Definition from_eip1559 (tx : TxEip1559) : ScrollTypedTransaction := Eip1559 tx.
Definition from_eip7702 (tx : TxEip7702) : ScrollTypedTransaction := Eip7702 tx.
Definition from_l1_message (tx : TxL1Message) : ScrollTypedTransaction := L1Message tx.

Definition from_envelope (envelope : TxEnvelope.ScrollTxEnvelope) : ScrollTypedTransaction :=
  match envelope with
  | TxEnvelope.Legacy tx => Legacy (stx tx)
  | TxEnvelope.Eip2930 tx => Eip2930 (stx tx)
  | TxEnvelope.Eip1559 tx => Eip1559 (stx tx)
  | TxEnvelope.Eip7702 tx => Eip7702 (stx tx)
  | TxEnvelope.L1Message tx => L1Message (inner tx)
  end.

(** [From<Signed<ScrollTypedTransaction>> for ScrollTxEnvelope] of [envelope.rs]. *)
Definition envelope_from_signed (value : Signed ScrollTypedTransaction) : TxEnvelope.ScrollTxEnvelope :=
  let '(tx, sig, hash) := (stx value, ssig value, shash value) in
  match tx with
  | Legacy tx => TxEnvelope.Legacy (new_unchecked tx sig hash)
  | Eip2930 tx => TxEnvelope.Eip2930 (new_unchecked tx sig hash)
  | Eip1559 tx => TxEnvelope.Eip1559 (new_unchecked tx sig hash)
  | Eip7702 tx => TxEnvelope.Eip7702 (new_unchecked tx sig hash)
  | L1Message tx => TxEnvelope.L1Message (seal_unchecked tx hash)
  end.

Definition tx_type (self : ScrollTypedTransaction) : ScrollTxType.t :=
  match self with
  | Legacy tx => ScrollTxType.Legacy
  | Eip2930 tx => ScrollTxType.Eip2930
  | Eip1559 tx => ScrollTxType.Eip1559
  | Eip7702 tx => ScrollTxType.Eip7702
  | L1Message tx => ScrollTxType.L1Message
  end.

Definition legacy (self : ScrollTypedTransaction) : option TxLegacy :=
  match self with Legacy tx => Some tx | _ => None end.

Definition eip2930 (self : ScrollTypedTransaction) : option TxEip2930 :=
  match self with Eip2930 tx => Some tx | _ => None end.

Definition eip1559 (self : ScrollTypedTransaction) : option TxEip1559 :=
  match self with Eip1559 tx => Some tx | _ => None end.

Definition eip7702 (self : ScrollTypedTransaction) : option TxEip7702 :=
  match self with Eip7702 tx => Some tx | _ => None end.

Definition l1_message (self : ScrollTypedTransaction) : option TxL1Message :=
  match self with L1Message tx => Some tx | _ => None end.

Definition signature_hash (self : ScrollTypedTransaction) : B256 :=
  match self with
  | Legacy tx => Alloy.signature_hash tx
  | Eip2930 tx => Alloy.signature_hash tx
  | Eip1559 tx => Alloy.signature_hash tx
  | Eip7702 tx => Alloy.signature_hash tx
  | L1Message tx => 0
  end.

Definition ty (self : ScrollTypedTransaction) : Z :=
  match self with
  | Legacy tx => ScrollTxType.to_u8 ScrollTxType.Legacy
  | Eip2930 tx => ScrollTxType.to_u8 ScrollTxType.Eip2930
  | Eip1559 tx => ScrollTxType.to_u8 ScrollTxType.Eip1559
  | Eip7702 tx => ScrollTxType.to_u8 ScrollTxType.Eip7702
  | L1Message tx => ScrollTxType.to_u8 ScrollTxType.L1Message
  end.

Definition chain_id (self : ScrollTypedTransaction) : option Z :=
  match self with
  | Legacy tx => tx_chain_id tx
  | Eip2930 tx => tx_chain_id tx
  | Eip1559 tx => tx_chain_id tx
  | Eip7702 tx => tx_chain_id tx
  | L1Message tx => tx_chain_id tx
  end.

Definition nonce (self : ScrollTypedTransaction) : Z :=
  match self with
  | Legacy tx => tx_nonce tx
  | Eip2930 tx => tx_nonce tx
  | Eip1559 tx => tx_nonce tx
  | Eip7702 tx => tx_nonce tx
  | L1Message tx => tx_nonce tx
  end.

Definition gas_limit (self : ScrollTypedTransaction) : Z :=
  match self with
  | Legacy tx => tx_gas_limit tx
  | Eip2930 tx => tx_gas_limit tx
  | Eip1559 tx => tx_gas_limit tx
  | Eip7702 tx => tx_gas_limit tx
  | L1Message tx => tx_gas_limit tx
  end.

Definition gas_price (self : ScrollTypedTransaction) : option Z :=
  match self with
  | Legacy tx => tx_gas_price tx
  | Eip2930 tx => tx_gas_price tx
  | Eip1559 tx => tx_gas_price tx
  | Eip7702 tx => tx_gas_price tx
  | L1Message tx => tx_gas_price tx
  end.

Definition max_fee_per_gas (self : ScrollTypedTransaction) : Z :=
  match self with
  | Legacy tx => tx_max_fee_per_gas tx
  | Eip2930 tx => tx_max_fee_per_gas tx
  | Eip1559 tx => tx_max_fee_per_gas tx
  | Eip7702 tx => tx_max_fee_per_gas tx
  | L1Message tx => tx_max_fee_per_gas tx
  end.

Definition max_priority_fee_per_gas (self : ScrollTypedTransaction) : option Z :=
  match self with
  | Legacy tx => tx_max_priority_fee_per_gas tx
  | Eip2930 tx => tx_max_priority_fee_per_gas tx
  | Eip1559 tx => tx_max_priority_fee_per_gas tx
  | Eip7702 tx => tx_max_priority_fee_per_gas tx
  | L1Message tx => tx_max_priority_fee_per_gas tx
  end.

Definition max_fee_per_blob_gas (self : ScrollTypedTransaction) : option Z :=
  match self with
  | Legacy tx => tx_max_fee_per_blob_gas tx
  | Eip2930 tx => tx_max_fee_per_blob_gas tx
  | Eip1559 tx => tx_max_fee_per_blob_gas tx
  | Eip7702 tx => tx_max_fee_per_blob_gas tx
  | L1Message tx => tx_max_fee_per_blob_gas tx
  end.

Definition priority_fee_or_price (self : ScrollTypedTransaction) : Z :=
  match self with
  | Legacy tx => tx_priority_fee_or_price tx
  | Eip2930 tx => tx_priority_fee_or_price tx
  | Eip1559 tx => tx_priority_fee_or_price tx
  | Eip7702 tx => tx_priority_fee_or_price tx
  | L1Message tx => tx_priority_fee_or_price tx
  end.

Definition to (self : ScrollTypedTransaction) : option Address :=
  match self with
  | Legacy tx => tx_to tx
  | Eip2930 tx => tx_to tx
  | Eip1559 tx => tx_to tx
  | Eip7702 tx => tx_to tx
  | L1Message tx => tx_to tx
  end.

Definition kind (self : ScrollTypedTransaction) : TxKind :=
  match self with
  | Legacy tx => tx_kind tx
  | Eip2930 tx => tx_kind tx
  | Eip1559 tx => tx_kind tx
  | Eip7702 tx => tx_kind tx
  | L1Message tx => tx_kind tx
  end.

Definition value (self : ScrollTypedTransaction) : U256 :=
  match self with
  | Legacy tx => tx_value tx
  | Eip2930 tx => tx_value tx
  | Eip1559 tx => tx_value tx
  | Eip7702 tx => tx_value tx
  | L1Message tx => tx_value tx
  end.

Definition input (self : ScrollTypedTransaction) : bytes :=
  match self with
  | Legacy tx => tx_input tx
  | Eip2930 tx => tx_input tx
  | Eip1559 tx => tx_input tx
  | Eip7702 tx => tx_input tx
  | L1Message tx => tx_input tx
  end.

Definition access_list (self : ScrollTypedTransaction) : option AccessList :=
  match self with
  | Legacy tx => tx_access_list tx
  | Eip2930 tx => tx_access_list tx
  | Eip1559 tx => tx_access_list tx
  | Eip7702 tx => tx_access_list tx
  | L1Message tx => tx_access_list tx
  end.

Definition blob_versioned_hashes (self : ScrollTypedTransaction) : option (list B256) :=
  match self with
  | Legacy tx => tx_blob_versioned_hashes tx
  | Eip2930 tx => tx_blob_versioned_hashes tx
  | Eip1559 tx => tx_blob_versioned_hashes tx
  | Eip7702 tx => tx_blob_versioned_hashes tx
  | L1Message tx => tx_blob_versioned_hashes tx
  end.

Definition authorization_list (self : ScrollTypedTransaction) : option (list SignedAuthorization) :=
  match self with
  | Legacy tx => tx_authorization_list tx
  | Eip2930 tx => tx_authorization_list tx
  | Eip1559 tx => tx_authorization_list tx
  | Eip7702 tx => tx_authorization_list tx
  | L1Message tx => tx_authorization_list tx
  end.

Definition is_dynamic_fee (self : ScrollTypedTransaction) : bool :=
  match self with
  | Legacy tx => tx_is_dynamic_fee tx
  | Eip2930 tx => tx_is_dynamic_fee tx
  | Eip1559 tx => tx_is_dynamic_fee tx
  | Eip7702 tx => tx_is_dynamic_fee tx
  | L1Message tx => tx_is_dynamic_fee tx
  end.

Definition effective_gas_price (self : ScrollTypedTransaction) (base_fee : option Z) : Z :=
  match self with
  | Legacy tx => tx_effective_gas_price tx base_fee
  | Eip2930 tx => tx_effective_gas_price tx base_fee
  | Eip1559 tx => tx_effective_gas_price tx base_fee
  | Eip7702 tx => tx_effective_gas_price tx base_fee
  | L1Message tx => tx_effective_gas_price tx base_fee
  end.

Definition is_create (self : ScrollTypedTransaction) : bool :=
  match self with
  | Legacy tx => tx_is_create tx
  | Eip2930 tx => tx_is_create tx
  | Eip1559 tx => tx_is_create tx
  | Eip7702 tx => tx_is_create tx
  | L1Message tx => tx_is_create tx
  end.

Section Encodings.
Context `{Rlp} (keccak256 : bytes -> B256).

Definition rlp_encoded_fields_length (self : ScrollTypedTransaction) : Z :=
  match self with
  | Legacy tx => fields_length tx
  | Eip2930 tx => fields_length tx
  | Eip1559 tx => fields_length tx
  | Eip7702 tx => fields_length tx
  | L1Message tx => L1Msg.rlp_encoded_fields_length tx
  end.

Definition rlp_encode_fields (self : ScrollTypedTransaction) : bytes :=
  match self with
  | Legacy tx => encode_fields tx
  | Eip2930 tx => encode_fields tx
  | Eip1559 tx => encode_fields tx
  | Eip7702 tx => encode_fields tx
  | L1Message tx => L1Msg.rlp_encode_fields tx
  end.

Definition eip2718_encode_with_type (self : ScrollTypedTransaction) (signature : Signature) (_ty : Z) : bytes :=
  match self with
  | Legacy tx => encode_2718_with_type tx signature (tx_ty tx)
  | Eip2930 tx => encode_2718_with_type tx signature (tx_ty tx)
  | Eip1559 tx => encode_2718_with_type tx signature (tx_ty tx)
  | Eip7702 tx => encode_2718_with_type tx signature (tx_ty tx)
  | L1Message tx => L1Msg.encode_2718 tx
  end.

Definition eip2718_encode (self : ScrollTypedTransaction) (signature : Signature) : bytes :=
  match self with
  | Legacy tx => encode_2718_of tx signature
  | Eip2930 tx => encode_2718_of tx signature
  | Eip1559 tx => encode_2718_of tx signature
  | Eip7702 tx => encode_2718_of tx signature
  | L1Message tx => L1Msg.encode_2718 tx
  end.

Definition network_encode_with_type `{!Eip2718} (self : ScrollTypedTransaction) (signature : Signature) (_ty : Z) : bytes :=
  match self with
  | Legacy tx => Alloy.network_encode_with_type tx signature (tx_ty tx)
  | Eip2930 tx => Alloy.network_encode_with_type tx signature (tx_ty tx)
  | Eip1559 tx => Alloy.network_encode_with_type tx signature (tx_ty tx)
  | Eip7702 tx => Alloy.network_encode_with_type tx signature (tx_ty tx)
  | L1Message tx => Alloy.network_encode (L1Msg.type_flag tx) (L1Msg.encode_2718 tx)
  end.

Definition network_encode `{!Eip2718} (self : ScrollTypedTransaction) (signature : Signature) : bytes :=
  match self with
  | Legacy tx => network_encode_of tx signature
  | Eip2930 tx => network_encode_of tx signature
  | Eip1559 tx => network_encode_of tx signature
  | Eip7702 tx => network_encode_of tx signature
  | L1Message tx => Alloy.network_encode (L1Msg.type_flag tx) (L1Msg.encode_2718 tx)
  end.

Definition tx_hash_with_type (self : ScrollTypedTransaction) (signature : Signature) (_ty : Z) : B256 :=
  match self with
  | Legacy tx => Alloy.tx_hash_with_type tx signature (tx_ty tx)
  | Eip2930 tx => Alloy.tx_hash_with_type tx signature (tx_ty tx)
  | Eip1559 tx => Alloy.tx_hash_with_type tx signature (tx_ty tx)
  | Eip7702 tx => Alloy.tx_hash_with_type tx signature (tx_ty tx)
  | L1Message tx => L1Msg.tx_hash keccak256 tx
  end.

Definition tx_hash (self : ScrollTypedTransaction) (signature : Signature) : B256 :=
  match self with
  | Legacy tx => tx_hash_of tx signature
  | Eip2930 tx => tx_hash_of tx signature
  | Eip1559 tx => tx_hash_of tx signature
  | Eip7702 tx => tx_hash_of tx signature
  | L1Message tx => L1Msg.tx_hash keccak256 tx
  end.

Definition set_chain_id (self : ScrollTypedTransaction) (chain_id : Z) : ScrollTypedTransaction :=
  match self with
  | Legacy tx => Legacy (Alloy.set_chain_id tx chain_id)
  | Eip2930 tx => Eip2930 (Alloy.set_chain_id tx chain_id)
  | Eip1559 tx => Eip1559 (Alloy.set_chain_id tx chain_id)
  | Eip7702 tx => Eip7702 (Alloy.set_chain_id tx chain_id)
  | L1Message tx => L1Message tx
  end.

Definition encode_for_signing (self : ScrollTypedTransaction) : bytes :=
  match self with
  | Legacy tx => Alloy.encode_for_signing tx
  | Eip2930 tx => Alloy.encode_for_signing tx
  | Eip1559 tx => Alloy.encode_for_signing tx
  | Eip7702 tx => Alloy.encode_for_signing tx
  | L1Message tx => []
  end.

Definition payload_len_for_signature (self : ScrollTypedTransaction) : Z :=
  match self with
  | Legacy tx => Alloy.payload_len_for_signature tx
  | Eip2930 tx => Alloy.payload_len_for_signature tx
  | Eip1559 tx => Alloy.payload_len_for_signature tx
  | Eip7702 tx => Alloy.payload_len_for_signature tx
  | L1Message tx => 0
  end.

Definition into_signed (self : ScrollTypedTransaction) (signature : Signature) : Signed ScrollTypedTransaction :=
  new_unchecked self signature (tx_hash self signature).
End Encodings.

(** The compact storage form; the L1 message uses its derived [Compact]. *)
Section Compact.
Context `{CompactIds} `{!Compact TxL1Message}.

Definition to_compact (self : ScrollTypedTransaction) : bytes * Z :=
  let '(out, identifier) := ScrollTxType.to_compact (tx_type self) in
  (out ++ match self with
          | Legacy tx => Alloy.to_compact tx
          | Eip2930 tx => Alloy.to_compact tx
          | Eip1559 tx => Alloy.to_compact tx
          | Eip7702 tx => Alloy.to_compact tx
          | L1Message tx => Alloy.to_compact tx
          end, identifier).

Definition from_compact (buf : bytes) (identifier : Z) : outcome (ScrollTypedTransaction * bytes) :=
  match ScrollTxType.from_compact buf identifier with
  | Panics msg => Panics msg
  | Returns (tx_type, buf) =>
      Returns
        match tx_type with
        | ScrollTxType.Legacy =>
            let '(tx, buf) := Alloy.from_compact buf (blen buf) in (Legacy tx, buf)
        | ScrollTxType.Eip2930 =>
            let '(tx, buf) := Alloy.from_compact buf (blen buf) in (Eip2930 tx, buf)
        | ScrollTxType.Eip1559 =>
            let '(tx, buf) := Alloy.from_compact buf (blen buf) in (Eip1559 tx, buf)
        | ScrollTxType.Eip7702 =>
            let '(tx, buf) := Alloy.from_compact buf (blen buf) in (Eip7702 tx, buf)
        | ScrollTxType.L1Message =>
            let '(tx, buf) := Alloy.from_compact buf (blen buf) in (L1Message tx, buf)
        end
  end.
End Compact.

(** The serde representation, tagged, and with an untagged legacy form. *)
Inductive TaggedTypedTransaction : Type :=
| TLegacy (tx : TxLegacy)
| TEip2930 (tx : TxEip2930)
| TEip1559 (tx : TxEip1559)
| TEip7702 (tx : TxEip7702)
| TL1Message (tx : TxL1Message).

Inductive MaybeTaggedTypedTransaction : Type :=
| Tagged (tagged : TaggedTypedTransaction)
| Untagged (tx : TxLegacy).

Definition from_tagged (value : TaggedTypedTransaction) : ScrollTypedTransaction :=
  match value with
  | TLegacy signed => Legacy signed
  | TEip2930 signed => Eip2930 signed
  | TEip1559 signed => Eip1559 signed
  | TEip7702 signed => Eip7702 signed
  | TL1Message tx => L1Message tx
  end.

Definition from_maybe_tagged (value : MaybeTaggedTypedTransaction) : ScrollTypedTransaction :=
  match value with Tagged tagged => from_tagged tagged | Untagged tx => Legacy tx end.

Definition into_tagged (self : ScrollTypedTransaction) : TaggedTypedTransaction :=
  match self with
  | Legacy signed => TLegacy signed
  | Eip2930 signed => TEip2930 signed
  | Eip1559 signed => TEip1559 signed
  | Eip7702 signed => TEip7702 signed
  | L1Message tx => TL1Message tx
  end.

#[export] Instance ScrollTypedTransaction_transaction : Transaction ScrollTypedTransaction := {
  tx_ty := ty;
  tx_chain_id := chain_id;
  tx_nonce := nonce;
  tx_gas_limit := gas_limit;
  tx_gas_price := gas_price;
  tx_max_fee_per_gas := max_fee_per_gas;
  tx_max_priority_fee_per_gas := max_priority_fee_per_gas;
  tx_max_fee_per_blob_gas := max_fee_per_blob_gas;
  tx_priority_fee_or_price := priority_fee_or_price;
  tx_to := to;
  tx_kind := kind;
  tx_value := value;
  tx_input := input;
  tx_access_list := access_list;
  tx_blob_versioned_hashes := blob_versioned_hashes;
  tx_authorization_list := authorization_list;
  tx_is_dynamic_fee := is_dynamic_fee;
  tx_effective_gas_price := effective_gas_price;
  tx_is_create := is_create;
}.
End TypedTx.
End TypedTx.
Export (hints) TypedTx.
