(* ===== verification/Pooled.v ===== *)
(** * Pooled transactions (dogeos-protocol-types/src/transaction/pooled.rs)

    The transactions the peer-to-peer network may carry: every variant of the
    envelope except L1 messages. *)

From stdpp Require Import prelude gmap list strings.
From Stdlib Require Import ZArith Lia.
From S2P Require Import Prelude.
From S2P Require Import Alloy.
From S2P Require Import AlloyRef.
From S2P Require Import TxType.
From S2P Require Import L1Message.
From S2P Require Import Envelope.

Module PooledTx.
Section PooledTx.
Context `{EthTxs}.

Inductive ScrollPooledTransaction : Type :=
| Legacy (tx : Signed TxLegacy)
| Eip2930 (tx : Signed TxEip2930)
| Eip1559 (tx : Signed TxEip1559)
| Eip7702 (tx : Signed TxEip7702).

Definition signature_hash (self : ScrollPooledTransaction) : B256 :=
  match self with
  | Legacy tx => Alloy.signature_hash (stx tx)
  | Eip2930 tx => Alloy.signature_hash (stx tx)
  | Eip1559 tx => Alloy.signature_hash (stx tx)
  | Eip7702 tx => Alloy.signature_hash (stx tx)
  end.

Definition hash (self : ScrollPooledTransaction) : B256 :=
  match self with
  | Legacy tx => shash tx
  | Eip2930 tx => shash tx
  | Eip1559 tx => shash tx
  | Eip7702 tx => shash tx
  end.

Definition signature (self : ScrollPooledTransaction) : Signature :=
  match self with
  | Legacy tx => ssig tx
  | Eip2930 tx => ssig tx
  | Eip1559 tx => ssig tx
  | Eip7702 tx => ssig tx
  end.

Definition encode_for_signing (self : ScrollPooledTransaction) : bytes :=
  match self with
  | Legacy tx => Alloy.encode_for_signing (stx tx)
  | Eip2930 tx => Alloy.encode_for_signing (stx tx)
  | Eip1559 tx => Alloy.encode_for_signing (stx tx)
  | Eip7702 tx => Alloy.encode_for_signing (stx tx)
  end.

Definition into_scroll_envelope (self : ScrollPooledTransaction) : TxEnvelope.ScrollTxEnvelope :=
  match self with
  | Legacy tx => TxEnvelope.Legacy tx
  | Eip2930 tx => TxEnvelope.Eip2930 tx
  | Eip1559 tx => TxEnvelope.Eip1559 tx
  | Eip7702 tx => TxEnvelope.Eip7702 tx
  end.

Definition as_legacy (self : ScrollPooledTransaction) : option TxLegacy :=
  match self with Legacy tx => Some (stx tx) | _ => None end.

Definition as_eip2930 (self : ScrollPooledTransaction) : option TxEip2930 :=
  match self with Eip2930 tx => Some (stx tx) | _ => None end.

Definition as_eip1559 (self : ScrollPooledTransaction) : option TxEip1559 :=
  match self with Eip1559 tx => Some (stx tx) | _ => None end.

Definition as_eip7702 (self : ScrollPooledTransaction) : option TxEip7702 :=
  match self with Eip7702 tx => Some (stx tx) | _ => None end.

Definition into_envelope {Eip4844} (self : ScrollPooledTransaction) : EthereumTxEnvelope Eip4844 :=
  match self with
  | Legacy tx => EthLegacy tx
  | Eip2930 tx => EthEip2930 tx
  | Eip1559 tx => EthEip1559 tx
  | Eip7702 tx => EthEip7702 tx
  end.

(** The [From] conversions: those that wrap a variant, and those that convert. *)
Definition from_legacy (v : Signed TxLegacy) : ScrollPooledTransaction := Legacy v.
Definition from_eip2930 (v : Signed TxEip2930) : ScrollPooledTransaction := Eip2930 v.
Definition from_eip1559 (v : Signed TxEip1559) : ScrollPooledTransaction := Eip1559 v.
Definition from_eip7702 (v : Signed TxEip7702) : ScrollPooledTransaction := Eip7702 v.
Definition tx_envelope_from {Eip4844} (tx : ScrollPooledTransaction) : EthereumTxEnvelope Eip4844 :=
  into_envelope tx.
Definition scroll_envelope_from (tx : ScrollPooledTransaction) : TxEnvelope.ScrollTxEnvelope :=
  into_scroll_envelope tx.

(** [ScrollTxEnvelope::try_into_pooled] of [envelope.rs]; the error carries the
    envelope back. *)
Definition try_into_pooled (self : TxEnvelope.ScrollTxEnvelope) :
    result ScrollPooledTransaction (TxEnvelope.ScrollTxEnvelope * string) :=
  match self with
  | TxEnvelope.Legacy tx => Ok (Legacy tx)
  | TxEnvelope.Eip2930 tx => Ok (Eip2930 tx)
  | TxEnvelope.Eip1559 tx => Ok (Eip1559 tx)
  | TxEnvelope.Eip7702 tx => Ok (Eip7702 tx)
  | TxEnvelope.L1Message tx => Err (TxEnvelope.L1Message tx, "L1 messages cannot be pooled"%string)
  end.

Definition try_from (value : TxEnvelope.ScrollTxEnvelope) :
    result ScrollPooledTransaction (TxEnvelope.ScrollTxEnvelope * string) := try_into_pooled value.

Definition type_flag (self : ScrollPooledTransaction) : option Z :=
  match self with
  | Legacy tx => None
  | Eip2930 tx => Some 1
  | Eip1559 tx => Some 2
  | Eip7702 tx => Some 4
  end.

Definition encode_2718_len (self : ScrollPooledTransaction) : Z :=
  match self with
  | Legacy tx => signed_encode_2718_len tx
  | Eip2930 tx => signed_encode_2718_len tx
  | Eip1559 tx => signed_encode_2718_len tx
  | Eip7702 tx => signed_encode_2718_len tx
  end.

Definition encode_2718 (self : ScrollPooledTransaction) : bytes :=
  match self with
  | Legacy tx => signed_encode_2718 tx
  | Eip2930 tx => signed_encode_2718 tx
  | Eip1559 tx => signed_encode_2718 tx
  | Eip7702 tx => signed_encode_2718 tx
  end.

Definition is_legacy (self : ScrollPooledTransaction) : bool := bool_decide (type_flag self = None).

Definition network_len `{Rlp} (self : ScrollPooledTransaction) : Z :=
  let payload_length := encode_2718_len self in
  if is_legacy self then payload_length
  else payload_length + len rlp_header {| header_list := false; payload_length := payload_length |}.

Definition trie_hash (self : ScrollPooledTransaction) : B256 := hash self.

Definition typed_decode (ty : Z) (buf : bytes) : result (ScrollPooledTransaction * bytes) Eip2718Error :=
  let? v := map_err (fun _ => RlpErr (RlpCustom "unexpected tx type")) (ScrollTxType.try_from_u8 ty) in
  match v with
  | ScrollTxType.Eip2930 =>
      map_err RlpErr (rmap (fun '(tx, buf) => (Eip2930 tx, buf)) (rlp_decode_signed buf))
  | ScrollTxType.Eip1559 =>
      map_err RlpErr (rmap (fun '(tx, buf) => (Eip1559 tx, buf)) (rlp_decode_signed buf))
  | ScrollTxType.Eip7702 =>
      map_err RlpErr (rmap (fun '(tx, buf) => (Eip7702 tx, buf)) (rlp_decode_signed buf))
  | ScrollTxType.Legacy => Err (UnexpectedType (ScrollTxType.to_u8 ScrollTxType.Legacy))
  | ScrollTxType.L1Message => Err (UnexpectedType (ScrollTxType.to_u8 ScrollTxType.L1Message))
  end.

Definition fallback_decode (buf : bytes) : result (ScrollPooledTransaction * bytes) Eip2718Error :=
  map_err RlpErr (rmap (fun '(tx, buf) => (Legacy tx, buf)) (rlp_decode_signed buf)).

Definition chain_id (self : ScrollPooledTransaction) : option Z :=
  match self with
  | Legacy tx => tx_chain_id (stx tx)
  | Eip2930 tx => tx_chain_id (stx tx)
  | Eip1559 tx => tx_chain_id (stx tx)
  | Eip7702 tx => tx_chain_id (stx tx)
  end.

Definition nonce (self : ScrollPooledTransaction) : Z :=
  match self with
  | Legacy tx => tx_nonce (stx tx)
  | Eip2930 tx => tx_nonce (stx tx)
  | Eip1559 tx => tx_nonce (stx tx)
  | Eip7702 tx => tx_nonce (stx tx)
  end.

Definition gas_limit (self : ScrollPooledTransaction) : Z :=
  match self with
  | Legacy tx => tx_gas_limit (stx tx)
  | Eip2930 tx => tx_gas_limit (stx tx)
  | Eip1559 tx => tx_gas_limit (stx tx)
  | Eip7702 tx => tx_gas_limit (stx tx)
  end.

Definition gas_price (self : ScrollPooledTransaction) : option Z :=
  match self with
  | Legacy tx => tx_gas_price (stx tx)
  | Eip2930 tx => tx_gas_price (stx tx)
  | Eip1559 tx => tx_gas_price (stx tx)
  | Eip7702 tx => tx_gas_price (stx tx)
  end.

Definition max_fee_per_gas (self : ScrollPooledTransaction) : Z :=
  match self with
  | Legacy tx => tx_max_fee_per_gas (stx tx)
  | Eip2930 tx => tx_max_fee_per_gas (stx tx)
  | Eip1559 tx => tx_max_fee_per_gas (stx tx)
  | Eip7702 tx => tx_max_fee_per_gas (stx tx)
  end.

Definition max_priority_fee_per_gas (self : ScrollPooledTransaction) : option Z :=
  match self with
  | Legacy tx => tx_max_priority_fee_per_gas (stx tx)
  | Eip2930 tx => tx_max_priority_fee_per_gas (stx tx)
  | Eip1559 tx => tx_max_priority_fee_per_gas (stx tx)
  | Eip7702 tx => tx_max_priority_fee_per_gas (stx tx)
  end.

Definition max_fee_per_blob_gas (self : ScrollPooledTransaction) : option Z :=
  match self with
  | Legacy tx => tx_max_fee_per_blob_gas (stx tx)
  | Eip2930 tx => tx_max_fee_per_blob_gas (stx tx)
  | Eip1559 tx => tx_max_fee_per_blob_gas (stx tx)
  | Eip7702 tx => tx_max_fee_per_blob_gas (stx tx)
  end.

Definition priority_fee_or_price (self : ScrollPooledTransaction) : Z :=
  match self with
  | Legacy tx => tx_priority_fee_or_price (stx tx)
  | Eip2930 tx => tx_priority_fee_or_price (stx tx)
  | Eip1559 tx => tx_priority_fee_or_price (stx tx)
  | Eip7702 tx => tx_priority_fee_or_price (stx tx)
  end.

Definition kind (self : ScrollPooledTransaction) : TxKind :=
  match self with
  | Legacy tx => tx_kind (stx tx)
  | Eip2930 tx => tx_kind (stx tx)
  | Eip1559 tx => tx_kind (stx tx)
  | Eip7702 tx => tx_kind (stx tx)
  end.

Definition value (self : ScrollPooledTransaction) : U256 :=
  match self with
  | Legacy tx => tx_value (stx tx)
  | Eip2930 tx => tx_value (stx tx)
  | Eip1559 tx => tx_value (stx tx)
  | Eip7702 tx => tx_value (stx tx)
  end.

Definition input (self : ScrollPooledTransaction) : bytes :=
  match self with
  | Legacy tx => tx_input (stx tx)
  | Eip2930 tx => tx_input (stx tx)
  | Eip1559 tx => tx_input (stx tx)
  | Eip7702 tx => tx_input (stx tx)
  end.

Definition access_list (self : ScrollPooledTransaction) : option AccessList :=
  match self with
  | Legacy tx => tx_access_list (stx tx)
  | Eip2930 tx => tx_access_list (stx tx)
  | Eip1559 tx => tx_access_list (stx tx)
  | Eip7702 tx => tx_access_list (stx tx)
  end.

Definition blob_versioned_hashes (self : ScrollPooledTransaction) : option (list B256) :=
  match self with
  | Legacy tx => tx_blob_versioned_hashes (stx tx)
  | Eip2930 tx => tx_blob_versioned_hashes (stx tx)
  | Eip1559 tx => tx_blob_versioned_hashes (stx tx)
  | Eip7702 tx => tx_blob_versioned_hashes (stx tx)
  end.

Definition authorization_list (self : ScrollPooledTransaction) : option (list SignedAuthorization) :=
  match self with
  | Legacy tx => tx_authorization_list (stx tx)
  | Eip2930 tx => tx_authorization_list (stx tx)
  | Eip1559 tx => tx_authorization_list (stx tx)
  | Eip7702 tx => tx_authorization_list (stx tx)
  end.

Definition is_dynamic_fee (self : ScrollPooledTransaction) : bool :=
  match self with
  | Legacy tx => tx_is_dynamic_fee (stx tx)
  | Eip2930 tx => tx_is_dynamic_fee (stx tx)
  | Eip1559 tx => tx_is_dynamic_fee (stx tx)
  | Eip7702 tx => tx_is_dynamic_fee (stx tx)
  end.

Definition effective_gas_price (self : ScrollPooledTransaction) (base_fee : option Z) : Z :=
  match self with
  | Legacy tx => tx_effective_gas_price (stx tx) base_fee
  | Eip2930 tx => tx_effective_gas_price (stx tx) base_fee
  | Eip1559 tx => tx_effective_gas_price (stx tx) base_fee
  | Eip7702 tx => tx_effective_gas_price (stx tx) base_fee
  end.

Definition is_create (self : ScrollPooledTransaction) : bool :=
  match self with
  | Legacy tx => tx_is_create (stx tx)
  | Eip2930 tx => tx_is_create (stx tx)
  | Eip1559 tx => tx_is_create (stx tx)
  | Eip7702 tx => tx_is_create (stx tx)
  end.

Definition ty (self : ScrollPooledTransaction) : Z :=
  match self with
  | Legacy tx => tx_ty (stx tx)
  | Eip2930 tx => tx_ty (stx tx)
  | Eip1559 tx => tx_ty (stx tx)
  | Eip7702 tx => tx_ty (stx tx)
  end.

Definition is_type (type_id : Z) : bool :=
  (type_id =? 1) || (type_id =? 2) || (type_id =? 4).

Definition encode `{!Eip2718} (self : ScrollPooledTransaction) : bytes := network_encode (type_flag self) (encode_2718 self).

Definition decode `{!Eip2718} (buf : bytes) : result (ScrollPooledTransaction * bytes) Eip2718Error :=
  network_decode typed_decode fallback_decode buf.

Definition recover_signer {E} (recover : Signature -> B256 -> result Address E) (self : ScrollPooledTransaction) :
    result Address E :=
  recover (signature self) (signature_hash self).

Definition recover_signer_unchecked {E} (recover : Signature -> B256 -> result Address E) (self : ScrollPooledTransaction) :
    result Address E :=
  recover (signature self) (signature_hash self).

(** The inherent [recover_signer]: [Signed::recover_signer] of the variant. *)
Definition recover_signer_of {E} (recover : Signature -> B256 -> result Address E)
    (self : ScrollPooledTransaction) : result Address E :=
  match self with
  | Legacy tx => recover (ssig tx) (Alloy.signature_hash (stx tx))
  | Eip2930 tx => recover (ssig tx) (Alloy.signature_hash (stx tx))
  | Eip1559 tx => recover (ssig tx) (Alloy.signature_hash (stx tx))
  | Eip7702 tx => recover (ssig tx) (Alloy.signature_hash (stx tx))
  end.

Definition length_rlp `{Rlp} (self : ScrollPooledTransaction) : Z := network_len self.

(** [Hash]: what is fed to the hasher. *)
Definition hash_input (self : ScrollPooledTransaction) : B256 := trie_hash self.

Definition tx_hash (self : ScrollPooledTransaction) : B256 :=
  match self with
  | Legacy tx => shash tx
  | Eip2930 tx => shash tx
  | Eip1559 tx => shash tx
  | Eip7702 tx => shash tx
  end.

#[export] Instance ScrollPooledTransaction_transaction : Transaction ScrollPooledTransaction := {
  tx_ty := ty;
  tx_chain_id := chain_id;
  tx_nonce := nonce;
  tx_gas_limit := gas_limit;
  tx_gas_price := gas_price;
  tx_max_fee_per_gas := max_fee_per_gas;
  tx_max_priority_fee_per_gas := max_priority_fee_per_gas;
  tx_max_fee_per_blob_gas := max_fee_per_blob_gas;
  tx_priority_fee_or_price := priority_fee_or_price;
  tx_to self := match kind self with Call to => Some to | Create => None end;
  tx_kind := kind;
  tx_value := value;
  tx_input := input;
  tx_access_list := access_list;
  tx_blob_versioned_hashes := blob_versioned_hashes;
  tx_authorization_list := authorization_list;
  tx_is_dynamic_fee := is_dynamic_fee;
  tx_effective_gas_price := effective_gas_price;
  tx_is_create := is_create;
}.
End PooledTx.
End PooledTx.
Export (hints) PooledTx.
