(* ===== verification/TxTheorems.v ===== *)
(** * Properties of the transaction enums

    Coherence of the three enums (envelope, unsigned, pooled), their wire and
    storage round trips, and signer recovery. *)

From stdpp Require Import prelude gmap list strings.
From Stdlib Require Import ZArith Lia.
From S2P Require Import Prelude.
From S2P Require Import Alloy.
From S2P Require Import AlloyRef.
From S2P Require Import TxType.
From S2P Require Import L1Message.
From S2P Require Import Envelope.
From S2P Require Import Typed.
From S2P Require Import Pooled.

Import TxEnvelope(ScrollTxEnvelope).
Import TypedTx(ScrollTypedTransaction).
Import PooledTx(ScrollPooledTransaction).

(** ** What two transactions share when every [Transaction] method agrees *)

Record agree `{AlloyTypes} {A B} `{!Transaction A} `{!Transaction B} (a : A) (b : B) : Prop := {
  agree_ty : tx_ty a = tx_ty b;
  agree_chain_id : tx_chain_id a = tx_chain_id b;
  agree_nonce : tx_nonce a = tx_nonce b;
  agree_gas_limit : tx_gas_limit a = tx_gas_limit b;
  agree_gas_price : tx_gas_price a = tx_gas_price b;
  agree_max_fee : tx_max_fee_per_gas a = tx_max_fee_per_gas b;
  agree_priority_fee : tx_max_priority_fee_per_gas a = tx_max_priority_fee_per_gas b;
  agree_blob_fee : tx_max_fee_per_blob_gas a = tx_max_fee_per_blob_gas b;
  agree_fee_or_price : tx_priority_fee_or_price a = tx_priority_fee_or_price b;
  agree_kind : tx_kind a = tx_kind b;
  agree_value : tx_value a = tx_value b;
  agree_input : tx_input a = tx_input b;
  agree_access_list : tx_access_list a = tx_access_list b;
  agree_blobs : tx_blob_versioned_hashes a = tx_blob_versioned_hashes b;
  agree_authorizations : tx_authorization_list a = tx_authorization_list b;
  agree_dynamic : tx_is_dynamic_fee a = tx_is_dynamic_fee b;
  agree_price base : tx_effective_gas_price a base = tx_effective_gas_price b base;
  agree_create : tx_is_create a = tx_is_create b;
}.

(** A well-formed envelope: the cached hash is the hash of the contents, and an
    L1 message has its fields at their widths. *)
Definition envelope_ok `{EthTxs} `{Rlp} (keccak256 : bytes -> B256) (e : ScrollTxEnvelope) : Prop :=
  match e with
  | TxEnvelope.Legacy tx => signed_ok tx
  | TxEnvelope.Eip2930 tx => signed_ok tx
  | TxEnvelope.Eip1559 tx => signed_ok tx
  | TxEnvelope.Eip7702 tx => signed_ok tx
  | TxEnvelope.L1Message tx =>
      l1_message_valid (inner tx) /\ blen (L1Msg.rlp_encode_fields (inner tx)) <= u64_max
      /\ seal tx = L1Msg.tx_hash keccak256 (inner tx)
  end.

Definition typed_ok `{EthTxs} (t : ScrollTypedTransaction) : Prop :=
  match t with TypedTx.L1Message m => l1_message_valid m | _ => True end.

(** The derived compact form of an L1 message. *)
Class L1CompactLaws `{!Compact TxL1Message} : Prop := {
  l1_from_to_compact m rest :
    l1_message_valid m ->
    from_compact (to_compact m ++ rest) (blen (to_compact m ++ rest)) = (m, rest);
}.

Section Lemmas.
Context `{EthTxsLaws} `{!RlpLaws} (keccak256 : bytes -> B256).

Lemma seal_slow_ok (tx : Sealed TxL1Message) :
  seal tx = L1Msg.tx_hash keccak256 (inner tx) -> L1Msg.seal_slow keccak256 (inner tx) = tx.
Proof. destruct tx; simpl. unfold L1Msg.seal_slow. by intros ->. Qed.

Lemma signed_new_unhashed {T} `{!SignedTx T} (s : Signed T) :
  signed_ok s -> new_unhashed (stx s) (ssig s) = s.
Proof. destruct s. unfold signed_ok, new_unhashed. simpl. by intros ->. Qed.

(** The typed encodings: a type byte and a body [typed_decode] reads back. *)
Lemma typed_envelope_encode (e : ScrollTxEnvelope) ty :
  TxEnvelope.type_flag e = Some ty ->
  exists body, TxEnvelope.encode_2718 e = ty :: body /\ 0 <= ty <= 0x7f /\
    forall rest, envelope_ok keccak256 e ->
    TxEnvelope.typed_decode keccak256 ty (body ++ rest) = Ok (e, rest).
Proof.
  destruct e as [s|s|s|s|s]; simpl; [done|..]; intros [= <-].
  - destruct (typed_encode s) as (body & E & Hd). exists body.
    split; [done|]. split; [simpl; lia|]. intros rest Hs. simpl in *.
    unfold TxEnvelope.typed_decode. simpl. by rewrite Hd.
  - destruct (typed_encode s) as (body & E & Hd). exists body.
    split; [done|]. split; [simpl; lia|]. intros rest Hs. simpl in *.
    unfold TxEnvelope.typed_decode. simpl. by rewrite Hd.
  - destruct (typed_encode s) as (body & E & Hd). exists body.
    split; [done|]. split; [simpl; lia|]. intros rest Hs. simpl in *.
    unfold TxEnvelope.typed_decode. simpl. by rewrite Hd.
  - exists (L1Msg.rlp_encode (inner s)).
    split; [done|]. split; [unfold L1_MESSAGE_TX_TYPE_ID; lia|]. intros rest (Hv & Hl & Hs).
    unfold TxEnvelope.typed_decode. simpl. unfold L1Msg.decode.
    rewrite l1_decode_encode by done. simpl. by rewrite seal_slow_ok.
Qed.

Lemma envelope_encode_length (e : ScrollTxEnvelope) :
  envelope_ok keccak256 e -> TxEnvelope.encode_2718_len e = blen (TxEnvelope.encode_2718 e).
Proof.
  destruct e as [s|s|s|s|s]; simpl; intros Hs.
  - apply legacy_encode_len.
  - apply (typed_encode_len (id := 1)).
  - apply (typed_encode_len (id := 2)).
  - apply (typed_encode_len (id := 4)).
  - destruct Hs as (? & ? & _). by apply l1_encoded_length.
Qed.

(** The untyped form is the legacy list, read back by [fallback_decode]. *)
Lemma legacy_envelope_encode (e : ScrollTxEnvelope) :
  TxEnvelope.type_flag e = None ->
  exists payload,
    TxEnvelope.encode_2718 e
      = enc rlp_header {| header_list := true; payload_length := blen payload |} ++ payload
    /\ blen payload <= u64_max
    /\ forall rest, envelope_ok keccak256 e ->
       TxEnvelope.fallback_decode (TxEnvelope.encode_2718 e ++ rest) = Ok (e, rest).
Proof.
  destruct e as [s|s|s|s|s]; simpl; try done. intros _.
  destruct (legacy_encode s) as (payload & E & Hl & Hd). exists payload.
  split; [done|]. split; [done|]. intros rest Hs.
  unfold TxEnvelope.fallback_decode. by rewrite Hd.
Qed.
End Lemmas.

Lemma envelope_decode_encode `{EthTxsLaws} `{!RlpLaws} `{!Eip2718} `{!Eip2718Laws}
    (keccak256 : bytes -> B256) (e : ScrollTxEnvelope) (rest : bytes) :
  envelope_ok keccak256 e ->
  decode_2718 (TxEnvelope.typed_decode keccak256) TxEnvelope.fallback_decode
    (TxEnvelope.encode_2718 e ++ rest) = Ok (e, rest).
Proof.
  intros He.
  destruct (TxEnvelope.type_flag e) as [ty|] eqn:Et.
  - destruct (typed_envelope_encode keccak256 e ty Et) as (body & -> & Hty & Hd).
    simpl. rewrite decode_2718_typed by done. by apply Hd.
  - destruct (legacy_envelope_encode keccak256 e Et) as (payload & Ee & Hl & Hd).
    pose proof (Hd rest He) as Hdec. rewrite <- Hdec at 1.
    destruct (rlp_list_header_first (blen payload)) as (b & l & Eb & Hb);
      [pose proof (blen_nonneg payload); lia|].
    rewrite Ee, Eb. simpl. apply decode_2718_fallback. lia.
Qed.

(** The envelope meets the contract its clients rely on. *)
#[export] Instance envelope_scroll_laws `{EthTxs} `{Rlp} (keccak256 : bytes -> B256) :
  ScrollTransactionLaws ScrollTxEnvelope (envelope_ok keccak256).
Proof.
  split.
  - intros e. split; [by destruct e; simpl; try done; eexists|].
    intros [i Hi]. by destruct e.
  - intros e i He Hi. destruct e; simpl in *; simplify_eq. by destruct He as ((? & _) & _).
Qed.

(** ** Properties *)

(** C40: An envelope is read back from its EIP-2718 form, whatever follows in
    the buffer, and the length it declares is the number of bytes it writes. *)
Theorem envelope_2718_roundtrip `{EthTxsLaws} `{!RlpLaws} `{!Eip2718} `{!Eip2718Laws}
    (keccak256 : bytes -> B256) (e : ScrollTxEnvelope) (rest : bytes) :
  envelope_ok keccak256 e ->
  decode_2718 (TxEnvelope.typed_decode keccak256) TxEnvelope.fallback_decode
    (TxEnvelope.encode_2718 e ++ rest) = Ok (e, rest)
  /\ TxEnvelope.encode_2718_len e = blen (TxEnvelope.encode_2718 e).
Proof.
  intros He. split; [by apply envelope_decode_encode|by eapply envelope_encode_length].
Qed.

(** An envelope is read back from its network form (the EIP-2718 form, in an
    RLP string unless it is a legacy list), whatever follows in the buffer. *)
Theorem envelope_network_roundtrip `{EthTxsLaws} `{!RlpLaws} `{!Eip2718} `{!Eip2718Laws}
    (keccak256 : bytes -> B256) (e : ScrollTxEnvelope) (rest : bytes) :
  envelope_ok keccak256 e -> 1 < blen (TxEnvelope.encode_2718 e) <= u64_max ->
  TxEnvelope.decode keccak256 (TxEnvelope.encode e ++ rest) = Ok (e, rest).
Proof.
  intros He Hlen. unfold TxEnvelope.decode, TxEnvelope.encode.
  destruct (TxEnvelope.type_flag e) as [ty|] eqn:Et.
  - destruct (typed_envelope_encode keccak256 e ty Et) as (body & Eb & Hty & Hd). rewrite Eb in *.
    apply network_decode_typed; [done| |lia|by apply Hd].
    destruct body; [|done]. rewrite blen_cons, blen_nil in Hlen. lia.
  - destruct (legacy_envelope_encode keccak256 e Et) as (payload & Ee & Hl & Hd).
    rewrite network_encode_untyped. pose proof (Hd rest He) as Hdec.
    rewrite Ee in *. rewrite <- app_assoc in *. by rewrite network_decode_list.
Qed.

(** A type byte is accepted by the envelope decoder only when [is_type]
    announces it, and the decoded transaction carries that type; bytes
    [is_type] does not announce are refused whatever the body. *)
Theorem envelope_type_acceptance `{EthTxsLaws} `{!RlpLaws} (keccak256 : bytes -> B256)
    (ty : Z) (buf : bytes) :
  (forall e rest, TxEnvelope.typed_decode keccak256 ty buf = Ok (e, rest) ->
     TxEnvelope.is_type ty = true /\ TxEnvelope.type_flag e = Some ty /\ TxEnvelope.ty e = ty
     /\ ScrollTxType.to_u8 (TxEnvelope.tx_type e) = ty)
  /\ (TxEnvelope.is_type ty = false -> ty <> 0 ->
      TxEnvelope.typed_decode keccak256 ty buf = Err (UnexpectedType ty))
  /\ (forall p rest, PooledTx.typed_decode ty buf = Ok (p, rest) ->
      PooledTx.is_type ty = true /\ PooledTx.type_flag p = Some ty
      /\ TxEnvelope.typed_decode keccak256 ty buf = Ok (PooledTx.into_scroll_envelope p, rest)).
Proof.
  unfold TxEnvelope.typed_decode, PooledTx.typed_decode.
  destruct (ScrollTxType.try_from_u8 ty) as [v|err] eqn:Ev; simpl.
  - apply try_from_u8_Ok in Ev. subst ty. split; [|split].
    + intros e rest E. destruct v; simpl in *; [done|..];
        apply map_err_Ok, rmap_Ok in E as ([tx buf'] & _ & [= -> ->]); simpl;
        rewrite ?typed_ty; done.
    + by destruct v.
    + intros p rest E. destruct v; simpl in *; try done;
        apply map_err_Ok, rmap_Ok in E as ([tx buf'] & Hd & [= -> ->]); rewrite Hd; done.
  - by split; [|split].
Qed.

(** The three views of a transaction agree: the unsigned form and, for every
    transaction but an L1 message, the pooled form of an envelope answer every
    [Transaction] method as the envelope does; signing the unsigned form with
    the envelope's signature and hash gives the envelope back, and so does
    leaving the pool; exactly L1 messages cannot enter it. *)
Theorem transaction_views_agree `{EthTxsLaws} (e : ScrollTxEnvelope) :
  agree (TypedTx.from_envelope e) e
  /\ (forall sig,
       TxEnvelope.signature e = Some sig \/ TxEnvelope.is_l1_message e = true ->
       TypedTx.envelope_from_signed
         (new_unchecked (TypedTx.from_envelope e) sig (TxEnvelope.tx_hash e)) = e)
  /\ match PooledTx.try_into_pooled e with
     | Ok p => agree p e /\ PooledTx.into_scroll_envelope p = e
               /\ TxEnvelope.is_l1_message e = false
               /\ PooledTx.encode_2718 p = TxEnvelope.encode_2718 e
               /\ PooledTx.tx_hash p = TxEnvelope.tx_hash e
     | Err (e', _) => e' = e /\ TxEnvelope.is_l1_message e = true
     end.
Proof.
  split; [|split].
  - destruct e; split; simpl; rewrite ?legacy_ty, ?typed_ty; done.
  - intros sig Hs. destruct e as [[]|[]|[]|[]|[]]; simpl in *;
      destruct Hs as [Hs|Hs]; try discriminate Hs; simplify_eq; done.
  - destruct e; simpl; split; try done; split; try done.
Qed.

(** Recovering the signer never hits the [expect] on a missing signature:
    an L1 message answers with its sender, any other transaction with the
    recovery on its own signature and signing hash. *)
Theorem recover_signer_total `{EthTxs} {E} (recover : Signature -> B256 -> result Address E)
    (e : ScrollTxEnvelope) :
  TxEnvelope.recover_signer recover e =
  Returns (match TxEnvelope.as_l1_message e with
           | Some tx => Ok (l1_sender (inner tx))
           | None => recover (TxEnvelope.envelope_signature e)
                       (TypedTx.signature_hash (TypedTx.from_envelope e))
           end).
Proof. by destruct e. Qed.

(** The compact form of the parts of an envelope, with its type and signature. *)
Lemma tx_compact_parts `{EthTxsLaws} `{!Compact TxL1Message} `{!L1CompactLaws} (keccak256 : bytes -> B256)
    (e : ScrollTxEnvelope) rest :
  envelope_ok keccak256 e ->
  TxEnvelope.from_tx_compact keccak256 from_compact (TxEnvelope.to_tx_compact e to_compact ++ rest)
    (TxEnvelope.tx_type e) (TxEnvelope.envelope_signature e) = (e, rest).
Proof.
  intros He. destruct e as [s|s|s|s|s]; simpl in *;
    [rewrite from_to_compact; simpl; by rewrite signed_new_unhashed..|].
  destruct He as (Hv & _ & Hs). rewrite l1_from_to_compact by done. simpl. by rewrite seal_slow_ok.
Qed.

(** The storage forms are read back: the compact form of an unsigned
    transaction with the identifier it returns, the compact parts of an
    envelope with its type and signature, the envelope in the database, and the
    bincode representation, which drops and recomputes the cached hash. *)
Theorem storage_roundtrips `{EthTxsLaws} `{CompactIdsLaws} `{!Compact TxL1Message}
    `{!L1CompactLaws} `{!CompactEnvelope} `{!CompactEnvelopeLaws} (keccak256 : bytes -> B256) (e : ScrollTxEnvelope)
    (t : ScrollTypedTransaction) (rest : bytes) :
  envelope_ok keccak256 e -> typed_ok t ->
  TypedTx.from_compact ((TypedTx.to_compact t).1 ++ rest) (TypedTx.to_compact t).2
    = Returns (t, rest)
  /\ TxEnvelope.from_tx_compact keccak256 from_compact
       (TxEnvelope.to_tx_compact e to_compact ++ rest)
       (TxEnvelope.tx_type e) (TxEnvelope.envelope_signature e) = (e, rest)
  /\ (let '(out, len) := TxEnvelope.envelope_to_compact to_compact e in
      (TxEnvelope.envelope_from_compact keccak256 from_compact out len).1 = e)
  /\ TxEnvelope.from_bincode (TxEnvelope.to_bincode e) = e.
Proof.
  intros He Ht. pose proof (tx_compact_parts keccak256 e) as Hp. split; [|split; [by apply Hp|split]].
  - unfold TypedTx.to_compact, TypedTx.from_compact.
    destruct (ScrollTxType.to_compact (TypedTx.tx_type t)) as [out identifier] eqn:Eo. simpl.
    rewrite <- app_assoc.
    pose proof (tx_type_compact_roundtrip (TypedTx.tx_type t)) as Hr. rewrite Eo in Hr.
    simpl in Hr. rewrite Hr.
    destruct t; simpl in *; by rewrite ?from_to_compact, ?l1_from_to_compact.
  - apply ce_reads_back. pose proof (Hp [] He) as E. by rewrite app_nil_r in E.
  - destruct e as [s|s|s|s|s]; simpl in *; rewrite ?signed_new_unhashed by done;
      [done..|]. by destruct s.
Qed.

(** ** Witnesses *)

Definition sample_hash (b : bytes) : B256 := blen b.

Definition sample_l1_envelope : ScrollTxEnvelope :=
  TxEnvelope.from_l1_message sample_hash sample_l1_message.

Definition sample_envelope : ScrollTxEnvelope :=
  TxEnvelope.Eip1559 (new_unhashed (T := RefTx 2) {| ref_byte := Ascii.ascii_of_nat 77 |} true).

Definition sample_legacy : ScrollTxEnvelope :=
  TxEnvelope.Legacy (new_unhashed (T := RefTx 0) {| ref_byte := Ascii.ascii_of_nat 9 |} false).

Lemma sample_l1_envelope_ok : envelope_ok sample_hash sample_l1_envelope.
Proof.
  split; [exact sample_l1_message_valid|]. split; [vm_compute; discriminate|reflexivity].
Qed.

#[local] Instance sample_l1_compact : Compact TxL1Message := {
  to_compact t := L1Msg.rlp_encode_fields t;
  from_compact b _ :=
    match L1Msg.rlp_decode_fields b with Ok r => r | Err _ => (sample_l1_message, b) end;
}.

#[local] Instance sample_l1_compact_laws : L1CompactLaws.
Proof. split. intros m rest Hm. simpl. by rewrite l1_decode_fields. Qed.

(** The type byte, the parity of the signature, the transaction. *)
#[local] Instance sample_compact_envelope : CompactEnvelope (H := ref_types) := {
  ce_to_compact E sig ty to e := (ScrollTxType.to_u8 (ty e) :: (if sig e : bool then 1 else 0) :: to e, 0);
  ce_from_compact E from b _ :=
    match b with
    | t :: s :: b =>
        from b (match ScrollTxType.try_from_u8 t with Ok ty => ty | Err _ => ScrollTxType.Legacy end) (s =? 1)
    | _ => from [] ScrollTxType.Legacy false
    end;
}.

#[local] Instance sample_compact_envelope_laws : CompactEnvelopeLaws (H := ref_types).
Proof. split. intros E sig ty to from e He. simpl. destruct (ty e), (sig e); cbn; by rewrite He. Qed.

Lemma storage_roundtrips_witness :
  TypedTx.from_compact ((TypedTx.to_compact (TypedTx.L1Message sample_l1_message)).1 ++ [4]) 3
    = Returns (TypedTx.L1Message sample_l1_message, [4])
  /\ TxEnvelope.from_bincode (TxEnvelope.to_bincode sample_l1_envelope) = sample_l1_envelope.
Proof.
  destruct (storage_roundtrips sample_hash sample_l1_envelope
    (TypedTx.L1Message sample_l1_message) [4]) as (H1 & _ & _ & H2);
    [exact sample_l1_envelope_ok|exact sample_l1_message_valid|].
  split; [exact H1|exact H2].
Defined.

Lemma envelope_2718_roundtrip_witness :
  decode_2718 (TxEnvelope.typed_decode sample_hash) TxEnvelope.fallback_decode
    (TxEnvelope.encode_2718 sample_l1_envelope ++ [1; 2]) = Ok (sample_l1_envelope, [1; 2])
  /\ decode_2718 (TxEnvelope.typed_decode sample_hash) TxEnvelope.fallback_decode
       (TxEnvelope.encode_2718 sample_legacy ++ [1; 2]) = Ok (sample_legacy, [1; 2]).
Proof.
  split.
  - apply (envelope_2718_roundtrip sample_hash sample_l1_envelope [1; 2]).
    exact sample_l1_envelope_ok.
  - apply (envelope_2718_roundtrip sample_hash sample_legacy [1; 2]). reflexivity.
Defined.

Lemma envelope_network_roundtrip_witness :
  TxEnvelope.decode sample_hash (TxEnvelope.encode sample_envelope ++ [5]) = Ok (sample_envelope, [5])
  /\ TxEnvelope.decode sample_hash (TxEnvelope.encode sample_legacy ++ [5]) = Ok (sample_legacy, [5]).
Proof.
  split; apply envelope_network_roundtrip; first [reflexivity|vm_compute; split; [reflexivity|discriminate]].
Defined.

Lemma envelope_type_acceptance_witness :
  TxEnvelope.typed_decode sample_hash 3 [1] = Err (UnexpectedType 3).
Proof.
  destruct (envelope_type_acceptance sample_hash 3 [1]) as (_ & H & _).
  apply H; [reflexivity|discriminate].
Defined.

Lemma transaction_views_agree_witness :
  agree (TypedTx.from_envelope sample_l1_envelope) sample_l1_envelope
  /\ PooledTx.try_into_pooled sample_l1_envelope
     = Err (sample_l1_envelope, "L1 messages cannot be pooled"%string).
Proof.
  destruct (transaction_views_agree sample_l1_envelope) as (H & _ & _).
  split; [exact H|reflexivity].
Defined.
