(* ===== verification/Consensus.v ===== *)
(** * Consensus checks (crates/dogeos-reth-consensus/src/lib.rs)

    Header rules, the order of L1 messages in a body, the gas-limit bound
    against the parent, and the checks after execution. *)

From stdpp Require Import prelude gmap list strings.
From Stdlib Require Import ZArith Lia.
From S2P Require Import Prelude.
From S2P Require Import Chain.
From S2P Require Import Alloy.
From S2P Require Import TxType.

Definition DOGEOS_MAXIMUM_BASE_FEE : Z := 420000000000000.
Definition DOGEOS_BLOCK_DIFFICULTY : U256 := 1.

Inductive DogeosConsensusError : Type :=
| InvalidL1MessageOrder
| MixHashNotZero (mix_hash : option B256)
| CoinbaseNotZero (coinbase : Address)
| NonceNotZero (nonce : option Z)
| DifficultyNotOne (difficulty : U256)
| ExtraDataNotEmpty
| BaseFeeMissing
| BaseFeeOverLimit
| WithdrawalsPresent
| BlobFieldsPresent.

(** [From<DogeosConsensusError> for ConsensusError]: the message text; the
    arguments of the messages are not kept. *)
Definition error_text (e : DogeosConsensusError) : string :=
  match e with
  | InvalidL1MessageOrder => "invalid L1 message order"
  | MixHashNotZero _ => "block mix hash is not zero"
  | CoinbaseNotZero _ => "block coinbase is not zero"
  | NonceNotZero _ => "block nonce is not zero"
  | DifficultyNotOne _ => "block difficulty must be one"
  | ExtraDataNotEmpty => "block extra data must be empty"
  | BaseFeeMissing => "base fee missing"
  | BaseFeeOverLimit => "base fee exceeds the maximum"
  | WithdrawalsPresent => "withdrawals are not supported"
  | BlobFieldsPresent => "blob fields are not supported"
  end.

Definition into_consensus (e : DogeosConsensusError) : ConsensusError := Other (error_text e).

(** ** Bodies *)

Section L1Messages.
Context {T : Type} `{ScrollTransaction T}.

(** The loop of [validate_l1_messages] from a given state. [queue_index + 1]
    wraps in the release profile. *)
Fixpoint check_l1_messages (saw_l2 : bool) (next_queue_index : option Z) (transactions : list T) :
    outcome (result unit DogeosConsensusError) :=
  match transactions with
  | [] => Returns (Ok tt)
  | transaction :: transactions =>
      if is_l1_message transaction then
        if saw_l2 then Returns (Err InvalidL1MessageOrder)
        else
          match queue_index transaction with
          | None => Panics "L1 message has queue index"
          | Some index =>
              if match next_queue_index with
                 | Some expected => negb (index =? expected)
                 | None => false
                 end
              then Returns (Err InvalidL1MessageOrder)
              else check_l1_messages saw_l2 (Some (wrap_u64 (index + 1))) transactions
          end
      else check_l1_messages true next_queue_index transactions
  end.

Definition validate_l1_messages (transactions : list T) :
    outcome (result unit DogeosConsensusError) :=
  check_l1_messages false None transactions.
End L1Messages.

(** A block: header, body, and what the body checks compute from it. *)
Record SealedBlock (T : Type) := {
  block_header : Header;
  transactions : list T;
  ommers : option (list Header);
  withdrawals : option (list Z);
}.
Arguments block_header {T} _.
Arguments transactions {T} _.
Arguments ommers {T} _.
Arguments withdrawals {T} _.

(** A receipt as the post-execution check reads it ([TxReceipt]). *)
Class TxReceipt (R : Type) := {
  rv_cumulative_gas_used : R -> Z;
  rv_bloom : R -> Z;
}.

Section Consensus.
Context `{RethConsensus} {T : Type} `{ScrollTransaction T} {R : Type} `{TxReceipt R}.
(** The transaction root of a body and the receipt root of receipts with their
    blooms ([alloy_consensus::proofs]). *)
Context (transaction_root : list T -> B256) (calculate_receipt_root : list R -> B256).

Definition validate_block_pre_execution (block : SealedBlock T) :
    outcome (result unit ConsensusError) :=
  if match ommers block with Some (_ :: _) => true | _ => false end then
    Returns (Err (Other "uncles not allowed"))
  else if negb (ommers_hash (block_header block) =? EMPTY_OMMER_ROOT_HASH) then
    Returns (Err TheMergeOmmerRootIsNotEmpty)
  else if negb (transactions_root (block_header block) =? transaction_root (transactions block)) then
    Returns (Err BodyTransactionRootDiff)
  else if match withdrawals block with Some _ => true | None => false end then
    Returns (Err (into_consensus WithdrawalsPresent))
  else
    match validate_l1_messages (transactions block) with
    | Panics msg => Panics msg
    | Returns (Err e) => Returns (Err (into_consensus e))
    | Returns (Ok tt) => Returns (Ok tt)
    end.

Definition validate_block_post_execution (header : Header) (receipts : list R)
    (receipt_root_bloom : option (B256 * Z)) : result unit ConsensusError :=
  let cumulative_gas_used :=
    match last receipts with Some r => rv_cumulative_gas_used r | None => 0 end in
  if negb (gas_used header =? cumulative_gas_used) then
    Err (BlockGasUsed cumulative_gas_used (gas_used header))
  else
    let '(receipts_root_, logs_bloom_) :=
      match receipt_root_bloom with
      | Some value => value
      | None =>
          (calculate_receipt_root receipts,
           fold_left (fun bloom r => Z.lor bloom (rv_bloom r)) receipts 0)
      end in
    if negb (receipts_root_ =? receipts_root header) then
      Err (BodyReceiptRootDiff receipts_root_ (receipts_root header))
    else if negb (logs_bloom_ =? logs_bloom header) then
      Err (BodyBloomLogDiff logs_bloom_ (logs_bloom header))
    else Ok tt.

(** ** Headers *)

(** The host check; [now] is the wall clock in seconds. A proof guest has none
    and skips it. *)
Definition validate_header_timestamp (now : Z) (header : Header) : result unit ConsensusError :=
  if now <? timestamp header then Err (TimestampIsInPast now (timestamp header)) else Ok tt.

Definition validate_header (now : option Z) (header : Header) : result unit ConsensusError :=
  if negb (ommers_hash header =? EMPTY_OMMER_ROOT_HASH) then Err TheMergeOmmerRootIsNotEmpty
  else if negb (mix_hash header =? 0) then
    Err (into_consensus (MixHashNotZero (Some (mix_hash header))))
  else if negb (beneficiary header =? 0) then
    Err (into_consensus (CoinbaseNotZero (beneficiary header)))
  else if negb (nonce header =? 0) then
    Err (into_consensus (NonceNotZero (Some (nonce header))))
  else if negb (difficulty header =? DOGEOS_BLOCK_DIFFICULTY) then
    Err (into_consensus (DifficultyNotOne (difficulty header)))
  else if match extra_data header with [] => false | _ => true end then
    Err (into_consensus ExtraDataNotEmpty)
  else
    match base_fee_per_gas header with
    | None => Err (into_consensus BaseFeeMissing)
    | Some base_fee =>
        if DOGEOS_MAXIMUM_BASE_FEE <? base_fee then Err (into_consensus BaseFeeOverLimit)
        else if bool_decide (is_Some (withdrawals_root header) \/ is_Some (blob_gas_used header)
                \/ is_Some (excess_blob_gas header) \/ is_Some (parent_beacon_block_root header)
                \/ is_Some (requests_hash header)) then
          Err (into_consensus BlobFieldsPresent)
        else
          let? _ := match now with
                    | Some now => validate_header_timestamp now header
                    | None => Ok tt
                    end in
          validate_header_gas header
    end.

Definition validate_gas_limit_against_parent (gas_limit parent_gas_limit : Z) :
    result unit ConsensusError :=
  let diff := abs_diff gas_limit parent_gas_limit in
  let limit := parent_gas_limit / GAS_LIMIT_BOUND_DIVISOR in
  if limit <? diff then
    if parent_gas_limit <? gas_limit then Err (GasLimitInvalidIncrease parent_gas_limit gas_limit)
    else Err (GasLimitInvalidDecrease parent_gas_limit gas_limit)
  else if gas_limit <? MINIMUM_GAS_LIMIT then Err (GasLimitInvalidMinimum gas_limit)
  else Ok tt.

Definition validate_header_against_parent (header parent : Header) (parent_seal : B256) :
    result unit ConsensusError :=
  let? _ := validate_against_parent_hash_number header parent parent_seal in
  if timestamp header <? timestamp parent then
    Err (TimestampIsInPast (timestamp parent) (timestamp header))
  else validate_gas_limit_against_parent (gas_limit header) (gas_limit parent).

(** ** The rules as a specification *)

Record header_valid (now : option Z) (h : Header) : Prop := {
  hv_ommers : ommers_hash h = EMPTY_OMMER_ROOT_HASH;
  hv_mix_hash : mix_hash h = 0;
  hv_coinbase : beneficiary h = 0;
  hv_nonce : nonce h = 0;
  hv_difficulty : difficulty h = 1;
  hv_extra_data : extra_data h = [];
  hv_base_fee : exists fee, base_fee_per_gas h = Some fee /\ fee <= 420000000000000;
  hv_withdrawals : withdrawals_root h = None;
  hv_blob_gas : blob_gas_used h = None /\ excess_blob_gas h = None;
  hv_beacon_root : parent_beacon_block_root h = None;
  hv_requests : requests_hash h = None;
  hv_time : forall t, now = Some t -> timestamp h <= t;
  hv_gas : gas_used h <= gas_limit h;
}.
End Consensus.

(** The L1 messages come first and their queue indices count up by one, modulo
    [2^64]. *)
Definition l1_ordered {T} `{ScrollTransaction T} (transactions : list T) : Prop :=
  exists l1s l2s indices, transactions = l1s ++ l2s
    /\ Forall (fun t => is_l1_message t = true) l1s
    /\ Forall (fun t => is_l1_message t = false) l2s
    /\ map queue_index l1s = map Some indices
    /\ forall k i j, indices !! k = Some i -> indices !! S k = Some j -> j = wrap_u64 (i + 1).

(** ** Lemmas *)

Section L1Lemmas.
Context {T : Type} {valid : T -> Prop} `{ScrollTransactionLaws T valid}.

Lemma l1_has_index t : is_l1_message t = true -> exists i, queue_index t = Some i.
Proof. intros Ht. apply l1_message_has_index in Ht. destruct Ht as [i ?]. by exists i. Qed.

Lemma check_after_l2 expected l :
  check_l1_messages true expected l =
  Returns (if forallb (fun t => negb (is_l1_message t)) l then Ok tt else Err InvalidL1MessageOrder).
Proof.
  induction l as [|t l IH]; simpl; [done|]. destruct (is_l1_message t); simpl; [done|exact IH].
Qed.

(** The run from an expected index accepts exactly a consecutive L1 prefix. *)
Lemma check_prefix expected l :
  check_l1_messages false expected l = Returns (Ok tt) <->
  exists l1s l2s indices, l = l1s ++ l2s
    /\ Forall (fun t => is_l1_message t = true) l1s
    /\ Forall (fun t => is_l1_message t = false) l2s
    /\ map queue_index l1s = map Some indices
    /\ (forall i, head indices = Some i -> match expected with Some e => i = e | None => True end)
    /\ forall k i j, indices !! k = Some i -> indices !! S k = Some j -> j = wrap_u64 (i + 1).
Proof.
  revert expected. induction l as [|t l IH]; intros expected; simpl.
  { split; [|done]. intros _. exists [], [], []. repeat split; constructor || done. }
  destruct (is_l1_message t) eqn:Et.
  - destruct (l1_has_index t Et) as [i Hi]. rewrite Hi.
    assert (Hstep : (exists l1s l2s indices, t :: l = l1s ++ l2s
      /\ Forall (fun t => is_l1_message t = true) l1s
      /\ Forall (fun t => is_l1_message t = false) l2s
      /\ map queue_index l1s = map Some indices
      /\ (forall i, head indices = Some i -> match expected with Some e => i = e | None => True end)
      /\ forall k i j, indices !! k = Some i -> indices !! S k = Some j -> j = wrap_u64 (i + 1))
      <-> match expected with Some e => i = e | None => True end
          /\ check_l1_messages false (Some (wrap_u64 (i + 1))) l = Returns (Ok tt)).
    { rewrite IH. split.
      - intros (l1s & l2s & idx & El & H1 & H2 & Hm & Hh & Hc).
        destruct l1s as [|t' l1s]; simpl in *; [subst l2s; apply Forall_cons in H2; naive_solver congruence|].
        destruct idx as [|i' idx]; [done|]. simpl in *. injection El as <- ->.
        rewrite Hi in Hm. injection Hm as -> Hm. split; [by apply Hh|].
        apply Forall_cons in H1 as [_ H1]. exists l1s, l2s, idx. repeat split; try done.
        + intros j Hj. destruct idx as [|j' idx]; [done|]. simpl in Hj. injection Hj as ->.
          by apply (Hc 0%nat).
        + intros k. apply (Hc (S k)).
      - intros (He & l1s & l2s & idx & -> & H1 & H2 & Hm & Hh & Hc).
        exists (t :: l1s), l2s, (i :: idx). repeat split; try done.
        + by constructor.
        + simpl. by rewrite Hi, Hm.
        + intros j [= <-]. exact He.
        + intros [|k] a b Ha Hb; simpl in *; [|by eapply Hc].
          injection Ha as ->. apply Hh. by destruct idx. }
    rewrite Hstep. destruct expected as [e|]; [|tauto].
    destruct (Z.eqb_spec i e) as [->|Hne]; simpl; [tauto|].
    split; [discriminate|intros [Hie _]; congruence].
  - rewrite check_after_l2. split.
    + intros E. destruct (forallb _ l) eqn:Ef; [|done].
      exists [], (t :: l), []. repeat split; try done.
      constructor; [done|]. rewrite forallb_forall in Ef. apply Forall_forall. intros x Hx.
      apply negb_true_iff, Ef. by apply list_elem_of_In.
    + intros (l1s & l2s & idx & El & H1 & H2 & _).
      destruct l1s as [|t' l1s]; simpl in *;
        [|injection El as <- _; apply Forall_cons in H1; naive_solver congruence].
      subst l2s. apply Forall_cons in H2 as [_ H2].
      rewrite (proj2 (forallb_forall _ _)); [done|].
      intros x Hx. apply negb_true_iff. rewrite Forall_forall in H2. apply H2.
      by apply list_elem_of_In.
Qed.

Lemma check_total saw expected l : exists r, check_l1_messages saw expected l = Returns r.
Proof.
  revert saw expected. induction l as [|t l IH]; intros saw expected; simpl; [by eexists|].
  destruct (is_l1_message t) eqn:Et; [|apply IH].
  destruct saw; [by eexists|]. destruct (l1_has_index t Et) as [i ->].
  destruct expected as [e|]; [destruct (negb (i =? e)); [by eexists|]|]; apply IH.
Qed.
End L1Lemmas.

Lemma validate_l1_messages_Ok {T} {valid : T -> Prop} `{ScrollTransactionLaws T valid}
    (l : list T) :
  validate_l1_messages l = Returns (Ok tt) <-> l1_ordered l.
Proof.
  unfold validate_l1_messages, l1_ordered. rewrite check_prefix. split.
  - intros (l1s & l2s & idx & ? & ? & ? & ? & _ & ?). by exists l1s, l2s, idx.
  - intros (l1s & l2s & idx & ? & ? & ? & ? & ?). by exists l1s, l2s, idx.
Qed.

Lemma check_error {T} `{ScrollTransaction T} saw expected (l : list T) e :
  check_l1_messages saw expected l = Returns (Err e) -> e = InvalidL1MessageOrder.
Proof.
  revert saw expected. induction l as [|t l IH]; intros saw expected; simpl; [done|].
  intros E. repeat case_match; simplify_eq; eauto.
Qed.

(** Turns a chain of rejecting guards into the facts they leave. *)
Ltac guards :=
  repeat match goal with
  | H : context [if negb (?a =? ?b) then _ else _] |- _ =>
      destruct (Z.eqb_spec a b); simpl in H; [|discriminate H]
  | H : context [if ?a <? ?b then _ else _] |- _ =>
      destruct (Z.ltb_spec a b); simpl in H; [discriminate H|]
  end.

Lemma is_ok_true {A E} (r : result A E) : is_ok r = true <-> exists a, r = Ok a.
Proof. destruct r; naive_solver. Qed.

Lemma gas_limit_accepted `{RethConsensus} (limit parent : Z) :
  let bound := parent / GAS_LIMIT_BOUND_DIVISOR in
  parent - bound <= limit <= parent + bound -> MINIMUM_GAS_LIMIT <= limit ->
  validate_gas_limit_against_parent limit parent = Ok tt.
Proof.
  intros bound Hb Hm. unfold validate_gas_limit_against_parent, abs_diff. fold bound.
  by rewrite (proj2 (Z.ltb_ge _ _)), (proj2 (Z.ltb_ge _ _)) by lia.
Qed.

Lemma header_valid_accepted `{RethConsensusLaws} (now : option Z) (h : Header) :
  header_valid now h -> validate_header now h = Ok tt.
Proof.
  intros [Ho Hm Hc Hn Hd Hx (fee & Hf & Hcap) Hw [Hb1 Hb2] Hbr Hr Ht Hg].
  unfold validate_header, validate_header_timestamp.
  rewrite Ho, Hm, Hc, Hn, Hd, Hx, Hf, !Z.eqb_refl. simpl.
  rewrite (proj2 (Z.ltb_ge _ _)) by (unfold DOGEOS_MAXIMUM_BASE_FEE; lia).
  rewrite bool_decide_false.
  2:{ rewrite Hw, Hb1, Hb2, Hbr, Hr. intros [[]|[[]|[[]|[[]|[]]]]]; discriminate. }
  assert (is_ok (validate_header_gas h) = true) as Eg.
  { rewrite validate_header_gas_Ok. by apply Z.leb_le. }
  apply is_ok_true in Eg as [[] Eg]. destruct now as [t|]; simpl; [|done].
  rewrite (proj2 (Z.ltb_ge _ _)) by (by apply Ht). simpl. done.
Qed.

Lemma validate_header_valid `{RethConsensusLaws} (now : option Z) (h : Header) :
  validate_header now h = Ok tt -> header_valid now h.
Proof.
  unfold validate_header. intros E. guards.
  destruct (extra_data h) eqn:Ex; [|done].
  destruct (base_fee_per_gas h) as [fee|] eqn:Ef; [|done].
  unfold DOGEOS_MAXIMUM_BASE_FEE in *. guards.
  case_bool_decide as Hnone; [done|].
  apply rbind_Ok in E as ([] & Et & Eg).
  assert (is_ok (validate_header_gas h) = true) as Hg by (rewrite Eg; done).
  rewrite validate_header_gas_Ok in Hg. bool_to_prop.
  assert (Habs : forall {A} (o : option A), ~ is_Some o -> o = None)
    by (intros A [?|] Hs; [exfalso; by apply Hs; eexists|done]).
  split; try done; try (apply Habs; tauto).
  + by exists fee.
  + split; apply Habs; tauto.
  + intros t ->. unfold validate_header_timestamp in Et. by guards.
Qed.

(** ** Properties *)

(** C21: A body's L1 messages are accepted exactly when they form a prefix of the
    transactions with consecutive queue indices modulo [2^64]; the check never
    panics and its only error is [InvalidL1MessageOrder]. *)
Theorem validate_l1_messages_spec {T} {valid : T -> Prop} `{ScrollTransactionLaws T valid}
    (l : list T) :
  (validate_l1_messages l = Returns (Ok tt) <-> l1_ordered l)
  /\ (~ l1_ordered l -> validate_l1_messages l = Returns (Err InvalidL1MessageOrder)).
Proof.
  split; [apply validate_l1_messages_Ok|]. intros Hn.
  rewrite <- validate_l1_messages_Ok in Hn. unfold validate_l1_messages in *.
  destruct (check_total false None l) as [[[]|e] E]; rewrite E in *; [done|].
  by apply check_error in E as ->.
Qed.

(** A transaction reduced to its queue index. *)
#[export] Instance index_transaction : ScrollTransaction (option Z) := {
  is_l1_message t := match t with Some _ => true | None => false end;
  queue_index t := t;
}.

#[export] Instance index_laws : ScrollTransactionLaws (option Z)
  (fun t => match t with Some i => in_u64 i | None => True end).
Proof.
  split.
  - intros [i|]; simpl; split; done.
  - intros t i Hv E. simpl in E. by subst t.
Qed.

Lemma validate_l1_messages_spec_witness :
  l1_ordered [Some 6; Some 7; None; None]
  /\ l1_ordered [Some u64_max; Some 0]
  /\ validate_l1_messages [Some 6; None; Some 7] = Returns (Err InvalidL1MessageOrder).
Proof.
  split; [|split].
  - apply (validate_l1_messages_spec [Some 6; Some 7; None; None]). reflexivity.
  - apply (validate_l1_messages_spec [Some u64_max; Some 0]). reflexivity.
  - apply (validate_l1_messages_spec [Some 6; None; Some 7]).
    intros Ho. apply (validate_l1_messages_spec [Some 6; None; Some 7]) in Ho. discriminate Ho.
Defined.

(** C20: The header check accepts exactly the headers the rules describe: no
    uncles, proof-of-work fields zeroed (difficulty one), empty extra data, a
    base fee within the limit, no withdrawals, blob or request fields, gas used
    within the limit, and on a host with a clock no timestamp in the future. *)
Theorem validate_header_spec `{RethConsensusLaws} (now : option Z) (h : Header) :
  validate_header now h = Ok tt <-> header_valid now h.
Proof.
  split; [apply validate_header_valid|apply header_valid_accepted].
Qed.

Definition plain_header : Header :=
  {| parent_hash := 1; ommers_hash := EMPTY_OMMER_ROOT_HASH; beneficiary := 0; state_root := 0;
     transactions_root := 0; receipts_root := 0; logs_bloom := 0; difficulty := 1; number := 5;
     gas_limit := 20000000; gas_used := 10000000; timestamp := 50; extra_data := [];
     mix_hash := 0; nonce := 0; base_fee_per_gas := Some 15680000; withdrawals_root := None;
     blob_gas_used := None; excess_blob_gas := None; parent_beacon_block_root := None;
     requests_hash := None |}.

Lemma validate_header_spec_witness :
  header_valid (Some 50) plain_header /\ ~ header_valid (Some 49) plain_header.
Proof.
  split.
  - apply validate_header_spec. vm_compute. reflexivity.
  - intros Hv. apply validate_header_spec in Hv. vm_compute in Hv. discriminate Hv.
Defined.

(** A gas limit is accepted exactly when it moved by at most a 1024th of the
    parent's (the library's bound divisor) and is not below the minimum. *)
Theorem gas_limit_against_parent_spec `{RethConsensusLaws} (limit parent : Z) :
  0 <= parent ->
  let bound := parent / GAS_LIMIT_BOUND_DIVISOR in
  (validate_gas_limit_against_parent limit parent = Ok tt <->
   parent - bound <= limit <= parent + bound /\ MINIMUM_GAS_LIMIT <= limit)
  /\ (parent + bound < limit ->
      validate_gas_limit_against_parent limit parent = Err (GasLimitInvalidIncrease parent limit))
  /\ (limit < parent - bound ->
      validate_gas_limit_against_parent limit parent = Err (GasLimitInvalidDecrease parent limit)).
Proof.
  intros Hp bound. unfold validate_gas_limit_against_parent, abs_diff. fold bound.
  assert (0 <= bound) by (apply Z.div_pos; [done|apply bound_divisor_positive]).
  clearbody bound.
  destruct (Z.ltb_spec bound (Z.abs (limit - parent))), (Z.ltb_spec parent limit),
    (Z.ltb_spec limit MINIMUM_GAS_LIMIT); (split; [split; intros; try done; lia|]);
    split; intros; try done; lia.
Qed.

Lemma gas_limit_against_parent_spec_witness :
  validate_gas_limit_against_parent 20019531 20000000 = Ok tt
  /\ validate_gas_limit_against_parent 20019532 20000000
     = Err (GasLimitInvalidIncrease 20000000 20019532).
Proof.
  split.
  - apply (gas_limit_against_parent_spec 20019531 20000000); [lia|].
    vm_compute. repeat split; discriminate.
  - apply (gas_limit_against_parent_spec 20019532 20000000); [lia|]. vm_compute. reflexivity.
Defined.

(** A block passes the checks before execution exactly when it has no
    uncles, the empty uncle hash, the transaction root of its body, no
    withdrawals and ordered L1 messages; it passes those after execution exactly
    when its header repeats the gas, the receipt root and the bloom of the
    receipts. *)
Theorem block_checks_spec `{RethConsensusLaws} {T} {valid : T -> Prop}
    `{ScrollTransactionLaws T valid} `{TxReceipt R} transaction_root calculate_receipt_root
    (block : SealedBlock T) (receipts : list R) :
  (validate_block_pre_execution transaction_root block = Returns (Ok tt) <->
     (ommers block = None \/ ommers block = Some [])
     /\ ommers_hash (block_header block) = EMPTY_OMMER_ROOT_HASH
     /\ transactions_root (block_header block) = transaction_root (transactions block)
     /\ withdrawals block = None
     /\ l1_ordered (transactions block))
  /\ (validate_block_post_execution calculate_receipt_root (block_header block) receipts None = Ok tt <->
     gas_used (block_header block)
       = match last receipts with Some r => rv_cumulative_gas_used r | None => 0 end
     /\ receipts_root (block_header block) = calculate_receipt_root receipts
     /\ logs_bloom (block_header block)
       = fold_left (fun bloom r => Z.lor bloom (rv_bloom r)) receipts 0).
Proof.
  split.
  - unfold validate_block_pre_execution. rewrite <- validate_l1_messages_Ok. split.
    + intros E. destruct (ommers block) as [[|]|] eqn:Eo; simpl in E; try done; guards;
        destruct (withdrawals block); try done;
        destruct (validate_l1_messages (transactions block)) as [[[]|]|]; try done; auto 10.
    + intros (Ho & -> & -> & -> & ->). rewrite !Z.eqb_refl. simpl.
      destruct Ho as [-> | ->]; done.
  - unfold validate_block_post_execution. split.
    + intros E. guards. by repeat split.
    + intros (-> & -> & ->). by rewrite !Z.eqb_refl.
Qed.

Definition sample_block : SealedBlock (option Z) :=
  {| block_header := plain_header; transactions := [Some 3; None]; ommers := Some [];
     withdrawals := None |}.

(** A receipt as its cumulative gas and bloom. *)
#[export] Instance pair_receipt : TxReceipt (Z * Z) := {
  rv_cumulative_gas_used r := r.1;
  rv_bloom r := r.2;
}.

Lemma block_checks_spec_witness :
  validate_block_pre_execution (fun _ => 0) sample_block = Returns (Ok tt)
  /\ validate_block_post_execution (fun _ => 0) (block_header sample_block)
       [(10000000, 0)] None = Ok tt.
Proof.
  destruct (block_checks_spec (fun _ => 0) (fun _ => 0) sample_block
    [(10000000, 0)]) as [Hpre Hpost].
  split; [|apply Hpost; by repeat split].
  apply Hpre. split; [by right|]. split; [done|]. split; [done|]. split; [done|].
  exists [Some 3], [None], [3]. split; [done|].
  split; [by repeat constructor|]. split; [by repeat constructor|]. split; [done|].
  intros [|k] i j Hi Hj; done.
Defined.
