(* ===== verification/CodeWitness.v ===== *)
(** * Code-witness metering (crates/dogeos-reth-evm/src/code_witness.rs)

    The block-level meter of distinct contract bytecode, its transaction
    checkpoint, and the EVM inspector that feeds it. The meter is one shared
    state behind a mutex: every operation takes it and returns it. The EVM is
    seen through what the hooks read of it: the journal (an association list in
    the unspecified iteration order of its hash map) and the interpreter. *)

From stdpp Require Import prelude gmap list strings.
From Stdlib Require Import ZArith Lia.
From S2P Require Import Prelude.

Definition DEFAULT_MAX_CODE_WITNESS_BYTES : Z := 32 * 1024 * 1024.

Inductive CodeWitnessLimit : Type := CodeBytes | ExecutionSteps.

#[export] Instance CodeWitnessLimit_eq_dec : EqDecision CodeWitnessLimit.
Proof. solve_decision. Defined.

Record Meter := {
  max_code_bytes : Z;
  max_steps : Z;
  accepted : gmap Z Z;
  pending : gmap Z Z;
  accepted_bytes : Z;
  pending_bytes : Z;
  transaction_bytes : Z;
  steps : Z;
  exceeded : option CodeWitnessLimit;
  initialized : bool;
}.

(** [Option::get_or_insert]. *)
Definition get_or_insert (o : option CodeWitnessLimit) (l : CodeWitnessLimit) :
    option CodeWitnessLimit :=
  match o with Some l' => Some l' | None => Some l end.

(** The check both [reserve] and [record] end with. *)
Definition check_code_bytes (m : Meter) : Meter :=
  if max_code_bytes m <? saturating_add u64_max (accepted_bytes m) (pending_bytes m) then
    {| max_code_bytes := max_code_bytes m; max_steps := max_steps m; accepted := accepted m;
       pending := pending m; accepted_bytes := accepted_bytes m;
       pending_bytes := pending_bytes m; transaction_bytes := transaction_bytes m;
       steps := steps m; exceeded := get_or_insert (exceeded m) CodeBytes;
       initialized := initialized m |}
  else m.

Definition reserve (m : Meter) (bytes : Z) : Meter :=
  check_code_bytes
    {| max_code_bytes := max_code_bytes m; max_steps := max_steps m; accepted := accepted m;
       pending := pending m; accepted_bytes := accepted_bytes m;
       pending_bytes := saturating_add u64_max (pending_bytes m) bytes;
       transaction_bytes := saturating_add u64_max (transaction_bytes m) bytes;
       steps := steps m; exceeded := exceeded m; initialized := initialized m |}.

Definition record (m : Meter) (hash : B256) (bytes : Z) : Meter :=
  if (bytes =? 0) || bool_decide (is_Some (pending m !! hash)) then m
  else
    check_code_bytes
      {| max_code_bytes := max_code_bytes m; max_steps := max_steps m; accepted := accepted m;
         pending := <[hash := bytes]> (pending m); accepted_bytes := accepted_bytes m;
         pending_bytes :=
           if bool_decide (is_Some (accepted m !! hash)) then pending_bytes m
           else saturating_add u64_max (pending_bytes m) bytes;
         transaction_bytes := saturating_add u64_max (transaction_bytes m) bytes;
         steps := steps m; exceeded := exceeded m; initialized := initialized m |}.

Definition reset_transaction (m : Meter) : Meter :=
  {| max_code_bytes := max_code_bytes m; max_steps := max_steps m; accepted := accepted m;
     pending := ∅; accepted_bytes := accepted_bytes m; pending_bytes := 0;
     transaction_bytes := 0; steps := 0; exceeded := None; initialized := false |}.

(** ** [CodeWitnessHandle] *)

Definition new_meter (max_code_bytes max_steps : Z) : Meter :=
  {| max_code_bytes := max_code_bytes; max_steps := max_steps; accepted := ∅; pending := ∅;
     accepted_bytes := 0; pending_bytes := 0; transaction_bytes := 0; steps := 0;
     exceeded := None; initialized := false |}.

Definition begin_transaction (m : Meter) : Meter := reset_transaction m.

Definition accept_transaction (m : Meter) : bool * Meter :=
  match exceeded m with
  | Some _ => (false, m)
  | None =>
      (true,
       {| max_code_bytes := max_code_bytes m; max_steps := max_steps m;
          accepted := pending m ∪ accepted m; pending := ∅;
          accepted_bytes := saturating_add u64_max (accepted_bytes m) (pending_bytes m);
          pending_bytes := 0; transaction_bytes := transaction_bytes m; steps := steps m;
          exceeded := exceeded m; initialized := initialized m |})
  end.

Definition reject_transaction (m : Meter) : Meter := reset_transaction m.

Definition transaction_code_bytes (m : Meter) : Z := transaction_bytes m.
Definition block_code_bytes (m : Meter) : Z := accepted_bytes m.
Definition candidate_code_bytes (m : Meter) : Z :=
  saturating_add u64_max (accepted_bytes m) (pending_bytes m).

(** ** The inspector *)

(** Loaded code: its bytes and, for a delegation marker, its target. *)
Record Bytecode := {
  original_bytes : bytes;
  eip7702_address : option Address;
}.

Record JournalAccount := {
  code_hash : B256;
  code : option Bytecode;
}.

Record Context := {
  authorization_list_len : Z;
  evm_state : list (Address * JournalAccount);
}.

Inductive Action : Type := NoAction | Queued | HaltOutOfGas.

Record Interpreter := {
  bytecode_address : option Address;
  own_hash : B256;
  own_bytes : bytes;
  opcode : Z;
  stack : list U256;
  action : Action;
}.

(** The inspector: the shared meter and the access an opcode has announced. *)
Record Inspector := {
  meter : Meter;
  pending_access : option (Address * bool);
}.

Definition code_len (c : Bytecode) : Z := Z.of_nat (length (original_bytes c)).

Fixpoint state_get (s : list (Address * JournalAccount)) (a : Address) : option JournalAccount :=
  match s with
  | [] => None
  | (b, account) :: s => if b =? a then Some account else state_get s a
  end.

Definition record_account (m : Meter) (account : JournalAccount) : Meter :=
  match code account with
  | Some c => record m (code_hash account) (code_len c)
  | None => m
  end.

(** [meter.initialized = true]. *)
Definition set_initialized (m : Meter) : Meter :=
  {| max_code_bytes := max_code_bytes m; max_steps := max_steps m; accepted := accepted m;
     pending := pending m; accepted_bytes := accepted_bytes m;
     pending_bytes := pending_bytes m; transaction_bytes := transaction_bytes m;
     steps := steps m; exceeded := exceeded m; initialized := true |}.

Definition initial_codes (m : Meter) (context : Context) : Meter :=
  if initialized m then m
  else
    let m := reserve (set_initialized m) (saturating_mul u64_max (authorization_list_len context) 23) in
    fold_left (fun m e => record_account m e.2) (evm_state context) m.

Definition account_code (m : Meter) (context : Context) (address : Address) (delegated : bool) :
    Meter :=
  match state_get (evm_state context) address with
  | None => m
  | Some account =>
      match code account with
      | None => m
      | Some c =>
          let m := record m (code_hash account) (code_len c) in
          if delegated then
            match eip7702_address c with
            | None => m
            | Some target =>
                match state_get (evm_state context) target with
                | None => m
                | Some account => record_account m account
                end
            end
          else m
      end
  end.

Definition stop (interp : Interpreter) : Interpreter :=
  {| bytecode_address := bytecode_address interp; own_hash := own_hash interp;
     own_bytes := own_bytes interp; opcode := opcode interp; stack := stack interp;
     action := HaltOutOfGas |}.

Definition stop_if_exceeded (m : Meter) (interp : Interpreter) : Interpreter :=
  match exceeded m with Some _ => stop interp | None => interp end.

Definition initialize_interp (self : Inspector) (interp : Interpreter) (context : Context) :
    Inspector * Interpreter :=
  let m := initial_codes (meter self) context in
  let m :=
    match bytecode_address interp with
    | Some address =>
        record (account_code m context address true) (own_hash interp)
          (Z.of_nat (length (own_bytes interp)))
    | None => m
    end in
  ({| meter := m; pending_access := pending_access self |}, stop_if_exceeded m interp).

(** [Address::from_word]: the low 20 bytes. *)
Definition from_word (v : U256) : Address := v mod 2 ^ 160.

Definition EXTCODESIZE : Z := 0x3b.
Definition EXTCODECOPY : Z := 0x3c.
Definition CALL : Z := 0xf1.
Definition CALLCODE : Z := 0xf2.
Definition DELEGATECALL : Z := 0xf4.
Definition STATICCALL : Z := 0xfa.

Definition announced_access (interp : Interpreter) : option (Address * bool) :=
  if bool_decide (opcode interp ∈ [EXTCODESIZE; EXTCODECOPY]) then
    (fun v => (from_word v, false)) <$> stack interp !! 0%nat
  else if bool_decide (opcode interp ∈ [CALL; CALLCODE; DELEGATECALL; STATICCALL]) then
    (fun v => (from_word v, true)) <$> stack interp !! 1%nat
  else None.

(** The step allowance: the check, and the count when execution goes on. *)
Definition check_steps (m : Meter) : Meter :=
  {| max_code_bytes := max_code_bytes m; max_steps := max_steps m; accepted := accepted m;
     pending := pending m; accepted_bytes := accepted_bytes m;
     pending_bytes := pending_bytes m; transaction_bytes := transaction_bytes m;
     steps := steps m;
     exceeded := if max_steps m <=? steps m then get_or_insert (exceeded m) ExecutionSteps
                 else exceeded m;
     initialized := initialized m |}.

Definition count_step (m : Meter) : Meter :=
  {| max_code_bytes := max_code_bytes m; max_steps := max_steps m; accepted := accepted m;
     pending := pending m; accepted_bytes := accepted_bytes m;
     pending_bytes := pending_bytes m; transaction_bytes := transaction_bytes m;
     steps := saturating_add u64_max (steps m) 1; exceeded := exceeded m;
     initialized := initialized m |}.

Definition step (self : Inspector) (interp : Interpreter) : Inspector * Interpreter :=
  let m := check_steps (meter self) in
  match exceeded m with
  | Some _ => ({| meter := m; pending_access := pending_access self |}, stop interp)
  | None => ({| meter := count_step m; pending_access := announced_access interp |}, interp)
  end.

Definition step_end (self : Inspector) (interp : Interpreter) (context : Context) :
    Inspector * Interpreter :=
  let m :=
    match pending_access self with
    | Some (address, delegated) => account_code (meter self) context address delegated
    | None => meter self
    end in
  ({| meter := m; pending_access := None |}, stop_if_exceeded m interp).

Definition call (self : Inspector) (context : Context) (bytecode_address : Address) : Inspector :=
  {| meter := account_code (initial_codes (meter self) context) context bytecode_address true;
     pending_access := pending_access self |}.

Definition call_end (self : Inspector) (context : Context) (bytecode_address : Address) : Inspector :=
  {| meter := account_code (meter self) context bytecode_address true;
     pending_access := pending_access self |}.

Definition create (self : Inspector) (context : Context) : Inspector :=
  {| meter := initial_codes (meter self) context; pending_access := pending_access self |}.

Definition create_end (self : Inspector) (context : Context) (is_ok : bool)
    (address : option Address) : Inspector :=
  match address with
  | Some address =>
      if is_ok then
        {| meter := account_code (meter self) context address false;
           pending_access := pending_access self |}
      else self
  | None => self
  end.

(** ** Runs: any interleaving of hooks and transaction boundaries *)

Inductive event : Type :=
| Begin
| Accept
| Reject
| InitializeInterp (interp : Interpreter) (context : Context)
| Step (interp : Interpreter)
| StepEnd (interp : Interpreter) (context : Context)
| CallHook (context : Context) (address : Address)
| CallEnd (context : Context) (address : Address)
| CreateHook (context : Context)
| CreateEnd (context : Context) (is_ok : bool) (address : option Address).

Definition with_meter (self : Inspector) (m : Meter) : Inspector :=
  {| meter := m; pending_access := pending_access self |}.

Definition apply (self : Inspector) (e : event) : Inspector :=
  match e with
  | Begin => with_meter self (begin_transaction (meter self))
  | Accept => with_meter self (accept_transaction (meter self)).2
  | Reject => with_meter self (reject_transaction (meter self))
  | InitializeInterp interp context => (initialize_interp self interp context).1
  | Step interp => (step self interp).1
  | StepEnd interp context => (step_end self interp context).1
  | CallHook context address => call self context address
  | CallEnd context address => call_end self context address
  | CreateHook context => create self context
  | CreateEnd context is_ok address => create_end self context is_ok address
  end.

Definition run (self : Inspector) (events : list event) : Inspector := fold_left apply events self.

Definition new_inspector (max_code_bytes max_steps : Z) : Inspector :=
  {| meter := new_meter max_code_bytes max_steps; pending_access := None |}.

(** ** The accounting invariant

    [size_of] is the length of the code with a given hash: every code the run
    meets is consistent with it. [23] bytes are reserved per authorization. *)

Definition total (m : gmap Z Z) : Z := map_fold (fun _ n acc => n + acc) 0 m.

Definition code_ok (size_of : B256 -> Z) (hash : B256) (bytes : Z) : Prop :=
  bytes = size_of hash /\ 0 <= bytes <= u64_max.

Definition account_ok (size_of : B256 -> Z) (a : JournalAccount) : Prop :=
  forall c, code a = Some c -> code_ok size_of (code_hash a) (code_len c).

Definition context_ok (size_of : B256 -> Z) (c : Context) : Prop :=
  0 <= authorization_list_len c /\ Forall (fun e => account_ok size_of e.2) (evm_state c).

Definition interp_ok (size_of : B256 -> Z) (i : Interpreter) : Prop :=
  code_ok size_of (own_hash i) (Z.of_nat (length (own_bytes i))).

Definition event_ok (size_of : B256 -> Z) (e : event) : Prop :=
  match e with
  | InitializeInterp i c => interp_ok size_of i /\ context_ok size_of c
  | StepEnd _ c | CallHook c _ | CallEnd c _ | CreateHook c | CreateEnd c _ _ => context_ok size_of c
  | Begin | Accept | Reject | Step _ => True
  end.

Record meter_inv (size_of : B256 -> Z) (accepted_auths pending_auths : Z) (m : Meter) : Prop := {
  mi_max : 0 <= max_code_bytes m < u64_max;
  mi_max_steps : 0 <= max_steps m <= u64_max;
  mi_accepted : 0 <= accepted_bytes m <= max_code_bytes m;
  mi_pending : 0 <= pending_bytes m <= u64_max;
  mi_steps : 0 <= steps m <= max_steps m;
  mi_limit : exceeded m = None ->
    saturating_add u64_max (accepted_bytes m) (pending_bytes m) <= max_code_bytes m;
  mi_sizes : forall h n, accepted m !! h = Some n \/ pending m !! h = Some n ->
    code_ok size_of h n;
  mi_accepted_exact : accepted_bytes m = total (accepted m) + 23 * accepted_auths;
  mi_pending_exact : exceeded m = None ->
    pending_bytes m = total (pending m ∖ accepted m) + 23 * pending_auths;
}.

(** ** Lemmas *)

Lemma total_insert h n m : m !! h = None -> total (<[h := n]> m) = n + total m.
Proof. intros Hm. unfold total. apply map_fold_insert_L; [intros; lia|done]. Qed.

Lemma total_acc a m : map_fold (fun _ n acc => n + acc) a m = a + total m.
Proof.
  unfold total. induction m as [|i x m Hi Hf IH] using map_first_key_ind; [by rewrite !map_fold_empty, Z.add_0_r|].
  rewrite !map_fold_insert_L by (done || intros; lia). lia.
Qed.

Lemma total_union m1 m2 : m1 ##ₘ m2 -> total (m1 ∪ m2) = total m1 + total m2.
Proof.
  intros Hd. unfold total at 1. rewrite map_fold_disj_union by (done || intros; lia).
  rewrite total_acc. fold (total m2). lia.
Qed.

Lemma total_accept size_of (p a : gmap Z Z) :
  (forall h n, a !! h = Some n \/ p !! h = Some n -> code_ok size_of h n) ->
  total (p ∪ a) = total a + total (p ∖ a).
Proof.
  intros Hs. rewrite <- total_union by (by apply map_disjoint_difference_r1).
  f_equal. apply map_eq. intros h. apply option_eq. intros n.
  rewrite !lookup_union_Some_raw, lookup_difference_Some.
  destruct (p !! h) as [x|] eqn:Ep, (a !! h) as [y|] eqn:Ea; split; intros; try naive_solver.
  all: destruct (Hs h x) as [-> _]; [naive_solver|];
    destruct (Hs h y) as [-> _]; [naive_solver|]; naive_solver.
Qed.

Section Invariant.
Context (size_of : B256 -> Z).

Lemma check_code_bytes_inv ka kp m :
  0 <= max_code_bytes m < u64_max -> 0 <= max_steps m <= u64_max ->
  0 <= accepted_bytes m <= max_code_bytes m -> 0 <= pending_bytes m <= u64_max ->
  0 <= steps m <= max_steps m ->
  (forall h n, accepted m !! h = Some n \/ pending m !! h = Some n -> code_ok size_of h n) ->
  accepted_bytes m = total (accepted m) + 23 * ka ->
  (exceeded m = None -> accepted_bytes m + pending_bytes m <= max_code_bytes m ->
   pending_bytes m = total (pending m ∖ accepted m) + 23 * kp) ->
  meter_inv size_of ka kp (check_code_bytes m).
Proof.
  intros H1 H2 H3 H4 H5 H6 H7 H8. unfold check_code_bytes.
  destruct (Z.ltb_spec (max_code_bytes m)
    (saturating_add u64_max (accepted_bytes m) (pending_bytes m))); split; simpl; try done.
  - by destruct (exceeded m).
  - by destruct (exceeded m).
  - intros He. apply H8; [done|]. solve_ints.
Qed.

Lemma record_inv ka kp m h n :
  code_ok size_of h n -> meter_inv size_of ka kp m -> meter_inv size_of ka kp (record m h n).
Proof.
  intros [Hn Hr] Hm. unfold record.
  destruct (Z.eqb_spec n 0); [done|]. case_bool_decide as Hp; [done|]. simpl.
  destruct Hm as [H1 H2 H3 H4 H5 H6 H7 H8 H9].
  assert (pending m !! h = None) as Hnone by (apply eq_None_not_Some, Hp).
  apply check_code_bytes_inv; simpl; try done.
  - case_bool_decide; [done|]. apply saturating_add_range; [solve_ints|lia|lia].
  - intros h' n'. rewrite lookup_insert_Some. intros [Ha|[[<- <-]|[? Hq]]]; eauto. by split.
  - intros He Hle. case_bool_decide as Ha.
    + destruct Ha as [y Ha].
      replace (<[h := n]> (pending m) ∖ accepted m) with (pending m ∖ accepted m); [auto|].
      apply map_eq. intros i. rewrite !lookup_difference.
      destruct (decide (i = h)) as [->|]; [by rewrite Ha|]. by rewrite lookup_insert_ne.
    + assert (accepted m !! h = None) as Hna by (apply eq_None_not_Some, Ha).
      rewrite <- insert_difference' by done. rewrite total_insert.
      * specialize (H9 He). unfold saturating_add in *. solve_ints.
      * rewrite lookup_difference, Hna. done.
Qed.

Lemma reserve_inv ka kp m n :
  0 <= n -> meter_inv size_of ka kp m ->
  meter_inv size_of ka (kp + n) (reserve m (saturating_mul u64_max n 23)).
Proof.
  intros Hn [H1 H2 H3 H4 H5 H6 H7 H8 H9]. unfold reserve.
  apply check_code_bytes_inv; simpl; try done.
  - apply saturating_add_range; solve_ints.
  - intros He Hle. specialize (H9 He). solve_ints.
Qed.

Lemma set_initialized_inv ka kp m :
  meter_inv size_of ka kp m -> meter_inv size_of ka kp (set_initialized m).
Proof. by intros []. Qed.

Lemma record_account_inv ka kp m a :
  account_ok size_of a -> meter_inv size_of ka kp m -> meter_inv size_of ka kp (record_account m a).
Proof.
  unfold record_account. intros Ha Hm. destruct (code a) as [c|] eqn:E; [|done].
  apply record_inv; [by apply Ha|done].
Qed.

Lemma state_get_ok c a acc :
  context_ok size_of c -> state_get (evm_state c) a = Some acc -> account_ok size_of acc.
Proof.
  intros [_ Hc]. induction Hc as [|[b x] l Hx _ IH]; simpl; [done|].
  destruct (b =? a); [by intros [= <-]|done].
Qed.

Lemma account_code_inv ka kp m c a d :
  context_ok size_of c -> meter_inv size_of ka kp m ->
  meter_inv size_of ka kp (account_code m c a d).
Proof.
  intros Hc Hm. unfold account_code.
  destruct (state_get _ a) as [acc|] eqn:Ea; [|done]. apply (state_get_ok c) in Ea; [|done].
  destruct (code acc) as [b|] eqn:Eb; [|done].
  assert (meter_inv size_of ka kp (record m (code_hash acc) (code_len b))) as Hr
    by (apply record_inv; [by apply Ea|done]).
  destruct d; [|done]. destruct (eip7702_address b) as [t|]; [|done].
  destruct (state_get _ t) as [acc'|] eqn:Et; [|done]. apply (state_get_ok c) in Et; [|done].
  by apply record_account_inv.
Qed.

Lemma initial_codes_inv ka kp m c :
  context_ok size_of c -> meter_inv size_of ka kp m ->
  meter_inv size_of ka (if initialized m then kp else kp + authorization_list_len c)
    (initial_codes m c).
Proof.
  intros [Hn Hc] Hm. unfold initial_codes. destruct (initialized m); [done|].
  set (m0 := reserve _ _).
  assert (meter_inv size_of ka (kp + authorization_list_len c) m0) as H0
    by (apply reserve_inv, set_initialized_inv; done).
  clearbody m0. revert m0 H0. induction Hc as [|e l He _ IH]; intros m0 H0; simpl; [done|].
  by apply IH, record_account_inv.
Qed.

Lemma check_steps_inv ka kp m : meter_inv size_of ka kp m -> meter_inv size_of ka kp (check_steps m).
Proof.
  intros []. split; simpl; try done.
  - destruct (Z.leb_spec (max_steps m) (steps m)); [|done]. by destruct (exceeded m).
  - destruct (Z.leb_spec (max_steps m) (steps m)); [|done]. by destruct (exceeded m).
Qed.

Lemma count_step_inv ka kp m :
  meter_inv size_of ka kp m -> steps m < max_steps m -> meter_inv size_of ka kp (count_step m).
Proof. intros [] Hlt. split; simpl; try done. solve_ints. Qed.

Lemma reset_inv ka kp m : meter_inv size_of ka kp m -> meter_inv size_of ka 0 (reset_transaction m).
Proof.
  intros [H1 H2 H3 H4 H5 H6 H7 H8 H9]. split; simpl; try done; try solve_ints.
  - intros h n [Ha|Ha]; [eauto|]. by rewrite lookup_empty in Ha.
  - intros _. by rewrite map_empty_difference.
Qed.

Lemma accept_inv ka kp m :
  meter_inv size_of ka kp m ->
  meter_inv size_of (if decide (exceeded m = None) then ka + kp else ka)
    (if decide (exceeded m = None) then 0 else kp) (accept_transaction m).2.
Proof.
  intros Hm. unfold accept_transaction. destruct (exceeded m) eqn:Ee; simpl; [done|].
  destruct Hm as [H1 H2 H3 H4 H5 H6 H7 H8 H9]. specialize (H6 Ee). specialize (H9 Ee).
  split; simpl; try done; try solve_ints.
  - intros h n. rewrite lookup_union_Some_raw, lookup_empty. naive_solver.
  - rewrite (total_accept size_of) by done. solve_ints.
  - intros _. by rewrite map_empty_difference.
Qed.
End Invariant.

(** ** The authorizations a run has reserved for: pending and accepted *)

Definition count_auths (self : Inspector) (k : Z * Z) (e : event) : Z * Z :=
  match e with
  | Begin | Reject => (0, k.2)
  | Accept => match exceeded (meter self) with None => (0, k.2 + k.1) | Some _ => k end
  | InitializeInterp _ c | CallHook c _ | CreateHook c =>
      if initialized (meter self) then k else (k.1 + authorization_list_len c, k.2)
  | _ => k
  end.

Fixpoint run_auths (self : Inspector) (k : Z * Z) (events : list event) : Z * Z :=
  match events with
  | [] => k
  | e :: events => run_auths (apply self e) (count_auths self k e) events
  end.

Lemma apply_inv size_of self k e :
  event_ok size_of e -> meter_inv size_of k.2 k.1 (meter self) ->
  meter_inv size_of (count_auths self k e).2 (count_auths self k e).1 (meter (apply self e)).
Proof.
  destruct k as [kp ka]. simpl. intros He Hm. destruct e; simpl in *.
  - by eapply reset_inv.
  - pose proof (accept_inv size_of ka kp _ Hm) as Ha.
    destruct (exceeded (meter self)) eqn:Ee; [by rewrite !decide_False in Ha|].
    by rewrite !decide_True in Ha.
  - by eapply reset_inv.
  - destruct He as [Hi Hc]. pose proof (initial_codes_inv size_of ka kp _ _ Hc Hm) as H0.
    destruct (initialized (meter self)); simpl in *;
      (destruct (bytecode_address interp); [|done]);
      apply record_inv; try done; by apply account_code_inv.
  - unfold step. pose proof (check_steps_inv size_of ka kp _ Hm) as Hs.
    destruct (exceeded (check_steps (meter self))) eqn:Ee; simpl; [done|].
    apply count_step_inv; [done|]. simpl in Ee. simpl.
    destruct (Z.leb_spec (max_steps (meter self)) (steps (meter self))); [|done].
    by destruct (exceeded (meter self)).
  - destruct (pending_access self) as [[a d]|]; [by apply account_code_inv|done].
  - pose proof (initial_codes_inv size_of ka kp _ _ He Hm) as H0.
    destruct (initialized (meter self)); simpl in *; by apply account_code_inv.
  - by apply account_code_inv.
  - pose proof (initial_codes_inv size_of ka kp _ _ He Hm) as H0.
    by destruct (initialized (meter self)).
  - unfold create_end. destruct address as [a|]; [|done]. destruct is_ok; [|done].
    by apply account_code_inv.
Qed.

Lemma run_inv size_of events self k :
  Forall (event_ok size_of) events -> meter_inv size_of k.2 k.1 (meter self) ->
  meter_inv size_of (run_auths self k events).2 (run_auths self k events).1
    (meter (run self events)).
Proof.
  intros He. revert self k. induction He as [|e events Hok _ IH]; intros self k Hm; [done|].
  simpl. apply IH. by apply apply_inv.
Qed.

(** ** What a transaction's hooks leave alone *)

Definition same_block (m m' : Meter) : Prop :=
  max_code_bytes m' = max_code_bytes m /\ max_steps m' = max_steps m
  /\ accepted m' = accepted m /\ accepted_bytes m' = accepted_bytes m
  /\ (exceeded m <> None -> exceeded m' = exceeded m).

#[local] Instance same_block_preorder : PreOrder same_block.
Proof.
  split; [by repeat split|]. intros a b c (?&?&?&?&Hab) (?&?&?&?&Hbc).
  unfold same_block. repeat split; try congruence. intros Ha. rewrite Hbc; [by apply Hab|].
  by rewrite Hab.
Qed.

Lemma check_code_bytes_same m : same_block m (check_code_bytes m).
Proof.
  unfold check_code_bytes. case_match; [|reflexivity].
  repeat split; simpl. intros He. by destruct (exceeded m).
Qed.

Lemma reserve_same m n : same_block m (reserve m n).
Proof.
  unfold reserve.
  match goal with |- same_block _ (check_code_bytes ?x) =>
    transitivity x; [by repeat split|apply check_code_bytes_same] end.
Qed.

Lemma record_same m h n : same_block m (record m h n).
Proof.
  unfold record. destruct (_ || _); [reflexivity|].
  match goal with |- same_block _ (check_code_bytes ?x) =>
    transitivity x; [by repeat split|apply check_code_bytes_same] end.
Qed.

Lemma record_account_same m a : same_block m (record_account m a).
Proof. unfold record_account. case_match; [apply record_same|reflexivity]. Qed.

Lemma initial_codes_same m c : same_block m (initial_codes m c).
Proof.
  unfold initial_codes. case_match; [reflexivity|].
  transitivity (set_initialized m); [by repeat split|].
  set (m0 := reserve _ _). transitivity m0; [apply reserve_same|]. clearbody m0. clear.
  revert m0. induction (evm_state c) as [|e l IH]; intros m0; simpl; [reflexivity|].
  transitivity (record_account m0 e.2); [apply record_account_same|apply IH].
Qed.

Lemma account_code_same m c a d : same_block m (account_code m c a d).
Proof.
  unfold account_code. repeat case_match; try reflexivity; try apply record_same.
  etransitivity; [apply record_same|apply record_account_same].
Qed.

Definition is_hook (e : event) : bool :=
  match e with Begin | Accept | Reject => false | _ => true end.

Lemma hook_same self e : is_hook e = true -> same_block (meter self) (meter (apply self e)).
Proof.
  destruct e; simpl; try done; intros _.
  - destruct (bytecode_address interp); [|apply initial_codes_same].
    etransitivity; [apply initial_codes_same|].
    etransitivity; [apply account_code_same|apply record_same].
  - unfold step. assert (same_block (meter self) (check_steps (meter self))) as Hc.
    { repeat split; simpl. intros He. case_match; [|done]. by destruct (exceeded (meter self)). }
    destruct (exceeded (check_steps (meter self))); [done|].
    etransitivity; [exact Hc|by repeat split].
  - destruct (pending_access self) as [[]|]; [apply account_code_same|reflexivity].
  - etransitivity; [apply initial_codes_same|apply account_code_same].
  - apply account_code_same.
  - apply initial_codes_same.
  - unfold create_end. repeat case_match; try reflexivity. apply account_code_same.
Qed.

Lemma hooks_same self hooks :
  Forall (fun e => is_hook e = true) hooks -> same_block (meter self) (meter (run self hooks)).
Proof.
  intros Hh. revert self. induction Hh as [|e l He _ IH]; intros self; simpl; [reflexivity|].
  etransitivity; [by apply hook_same|apply IH].
Qed.

Lemma run_app self a b : run self (a ++ b) = run (run self a) b.
Proof. apply fold_left_app. Qed.

(** ** A meter that serves one transaction

    With nothing accepted before, what the transaction is charged is what is
    pending, and a limit that was hit is really exceeded. *)

Record single (m : Meter) : Prop := {
  si_accepted : accepted m = ∅;
  si_accepted_bytes : accepted_bytes m = 0;
  si_same : transaction_bytes m = pending_bytes m;
  si_range : 0 <= pending_bytes m <= u64_max;
  si_code : exceeded m = Some CodeBytes -> max_code_bytes m < pending_bytes m;
  si_steps : exceeded m = Some ExecutionSteps -> max_steps m <= steps m;
}.

Section Single.
Context (size_of : B256 -> Z).

Lemma check_code_bytes_single m : single m -> single (check_code_bytes m).
Proof.
  intros [Ha Hb Hs Hr Hc Ht]. unfold check_code_bytes. rewrite Hb.
  destruct (Z.ltb_spec (max_code_bytes m) (saturating_add u64_max 0 (pending_bytes m))); [|done].
  split; simpl; try done; destruct (exceeded m) as [[]|]; try done; simpl; auto; intros _; solve_ints.
Qed.

(** A charge of [n] bytes. *)
Lemma charge_single m n pending' :
  0 <= n -> single m ->
  single
    {| max_code_bytes := max_code_bytes m; max_steps := max_steps m; accepted := accepted m;
       pending := pending'; accepted_bytes := accepted_bytes m;
       pending_bytes := saturating_add u64_max (pending_bytes m) n;
       transaction_bytes := saturating_add u64_max (transaction_bytes m) n;
       steps := steps m; exceeded := exceeded m; initialized := initialized m |}.
Proof.
  intros Hn [Ha Hb Hs Hr Hc Ht]. split; simpl; try done; [by rewrite Hs|solve_ints|].
  intros He. specialize (Hc He). solve_ints.
Qed.

Lemma record_single m h n : 0 <= n -> single m -> single (record m h n).
Proof.
  intros Hn Hm. unfold record. destruct (_ || _); [done|]. apply check_code_bytes_single.
  rewrite (si_accepted m Hm), lookup_empty, bool_decide_false by (by intros [? ?]).
  pose proof (charge_single m n (<[h:=n]> (pending m)) Hn Hm) as Hc. by rewrite (si_accepted m Hm) in Hc.
Qed.

Lemma record_account_single m a : account_ok size_of a -> single m -> single (record_account m a).
Proof.
  unfold record_account. intros Ha Hm. destruct (code a) as [c|]; [|done]. apply record_single; [|done].
  unfold code_len. lia.
Qed.

Lemma account_code_single m c a d : context_ok size_of c -> single m -> single (account_code m c a d).
Proof.
  intros Hc Hm. unfold account_code. destruct (state_get _ a) as [acc|]; [|done].
  destruct (code acc) as [b|]; [|done].
  assert (single (record m (code_hash acc) (code_len b))) as Hr
    by (apply record_single; [unfold code_len; lia|done]).
  destruct d; [|done]. destruct (eip7702_address b) as [t|]; [|done].
  destruct (state_get _ t) as [acc'|] eqn:Et; [|done].
  apply record_account_single; [by eapply state_get_ok|done].
Qed.

Lemma initial_codes_single m c : context_ok size_of c -> single m -> single (initial_codes m c).
Proof.
  intros [Hn Hc] Hm. unfold initial_codes. destruct (initialized m); [done|].
  set (m0 := reserve _ _). assert (single m0) as Hm0.
  { apply check_code_bytes_single. apply (charge_single (set_initialized m)); [solve_ints|by destruct Hm]. }
  clearbody m0. revert m0 Hm0. induction Hc as [|e l He _ IH]; intros m0 Hm0; simpl; [done|].
  by apply IH, record_account_single.
Qed.

Lemma step_single self interp : single (meter self) -> single (meter (step self interp).1).
Proof.
  intros [Ha Hb Hs Hr Hc Ht]. unfold step, check_steps.
  destruct (Z.leb_spec (max_steps (meter self)) (steps (meter self))) as [Hle|Hle]; simpl;
    destruct (exceeded (meter self)) as [l|] eqn:Ee; simpl; split; simpl; try done; by rewrite Ee.
Qed.

Lemma hook_single self e :
  is_hook e = true -> event_ok size_of e -> single (meter self) -> single (meter (apply self e)).
Proof.
  intros Hh He Hm. destruct e; try done; simpl in *.
  - destruct He as [Hi Hc]. destruct (bytecode_address interp).
    + apply record_single; [lia|]. by apply account_code_single, initial_codes_single.
    + by apply initial_codes_single.
  - by apply step_single.
  - destruct (pending_access self) as [[a d]|]; [by apply account_code_single|done].
  - by apply account_code_single, initial_codes_single.
  - by apply account_code_single.
  - by apply initial_codes_single.
  - destruct address as [a|], is_ok; try done. by apply account_code_single.
Qed.

Lemma hooks_single self hooks :
  Forall (fun e => is_hook e = true) hooks -> Forall (event_ok size_of) hooks ->
  single (meter self) -> single (meter (run self hooks)).
Proof.
  intros Hh. revert self. induction Hh as [|e l He _ IH]; intros self Hok Hm; simpl; [done|].
  inversion Hok as [|? ? Ho Hol]; subst. by apply IH, hook_single.
Qed.
End Single.

Lemma begin_single max_code_bytes max_steps : single (begin_transaction (new_meter max_code_bytes max_steps)).
Proof. split; simpl; try done. Qed.

Lemma begin_inv size_of max_code_bytes max_steps :
  0 <= max_code_bytes < u64_max -> 0 <= max_steps <= u64_max ->
  meter_inv size_of 0 0 (begin_transaction (new_meter max_code_bytes max_steps)).
Proof.
  intros Hb Hs. split; simpl; try done; try solve_ints. intros h n. rewrite lookup_empty. naive_solver.
Qed.

(** ** Properties *)

(** C22: Over any interleaving of inspector hooks and transaction boundaries the
    block meter stays exact and bounded: the accepted bytes are the sizes of
    the distinct accepted codes plus 23 bytes per authorization of an accepted
    transaction, never above the limit; the steps of a transaction never exceed
    its allowance; and a candidate within its limits fits the block limit. *)
Theorem code_witness_accounting (size_of : B256 -> Z) (max_bytes allowance : Z)
    (events : list event) :
  0 <= max_bytes < u64_max -> 0 <= allowance <= u64_max -> Forall (event_ok size_of) events ->
  let start := new_inspector max_bytes allowance in
  let m := meter (run start events) in
  block_code_bytes m = total (accepted m) + 23 * (run_auths start (0, 0) events).2
  /\ 0 <= block_code_bytes m <= max_bytes
  /\ steps m <= allowance
  /\ (exceeded m = None -> candidate_code_bytes m <= max_bytes)
  /\ (forall h n, accepted m !! h = Some n -> n = size_of h).
Proof.
  intros Hb Ha He start m.
  assert (meter_inv size_of 0 0 (meter start)) as H0.
  { split; simpl; try done; try solve_ints. intros h n. rewrite lookup_empty. naive_solver. }
  pose proof (run_inv size_of events start (0, 0) He H0) as Hm. fold m in Hm.
  assert (same : max_code_bytes m = max_bytes /\ max_steps m = allowance).
  { clear -m. subst m. assert (forall self, max_code_bytes (meter (run self events)) = max_code_bytes (meter self)
      /\ max_steps (meter (run self events)) = max_steps (meter self)) as Hs; [|by apply Hs].
    induction events as [|e l IH]; intros self; simpl; [done|]. destruct (IH (apply self e)) as [-> ->].
    destruct (is_hook e) eqn:E; [by destruct (hook_same self e E) as (-> & -> & _)|].
    destruct e; try done; simpl. unfold accept_transaction. by destruct (exceeded (meter self)). }
  destruct same as [Hb' Ha'], Hm. rewrite Hb', Ha' in *.
  unfold block_code_bytes, candidate_code_bytes. repeat split; try done; try lia.
  intros h n Hn. by destruct (mi_sizes0 h n (or_introl Hn)).
Qed.

(** A rejected transaction leaves no trace: after any hooks between
    [begin_transaction] and [reject_transaction] the meter is the one
    [begin_transaction] gives, so nothing it loaded counts against later ones. *)
Theorem rejected_transaction_leaves_no_trace (self : Inspector) (hooks : list event) :
  Forall (fun e => is_hook e = true) hooks ->
  meter (run self (Begin :: hooks ++ [Reject])) = begin_transaction (meter self).
Proof.
  intros Hh. simpl. rewrite run_app. simpl.
  destruct (hooks_same (with_meter self (begin_transaction (meter self))) hooks Hh)
    as (H1 & H2 & H3 & H4 & _).
  unfold reject_transaction, reset_transaction. by rewrite H1, H2, H3, H4.
Qed.

(** A limit, once hit, sticks: until the transaction ends every further hook
    keeps the reason, every interpreter hook returns a halted interpreter and
    counts no step, and accepting is refused without changing the meter. *)
Theorem exceeded_is_final (self : Inspector) (l : CodeWitnessLimit) (hooks : list event)
    (interp : Interpreter) (context : Context) :
  exceeded (meter self) = Some l -> Forall (fun e => is_hook e = true) hooks ->
  let self' := run self hooks in
  exceeded (meter self') = Some l
  /\ action (step self' interp).2 = HaltOutOfGas
  /\ steps (meter (step self' interp).1) = steps (meter self')
  /\ action (step_end self' interp context).2 = HaltOutOfGas
  /\ action (initialize_interp self' interp context).2 = HaltOutOfGas
  /\ accept_transaction (meter self') = (false, meter self').
Proof.
  intros Hl Hh self'. assert (exceeded (meter self') = Some l) as Hl'.
  { destruct (hooks_same self hooks Hh) as (_ & _ & _ & _ & E). fold self' in E.
    rewrite E; congruence. }
  clearbody self'.
  assert (Hstop : forall m, same_block (meter self') m ->
    action (stop_if_exceeded m interp) = HaltOutOfGas).
  { intros m (_ & _ & _ & _ & E). unfold stop_if_exceeded. by rewrite E, Hl' by congruence. }
  split; [done|]. split; [|split; [|split; [|split]]].
  - unfold step. assert (exceeded (check_steps (meter self')) = Some l) as ->; [|done].
    simpl. rewrite Hl'. by case_match.
  - unfold step. assert (exceeded (check_steps (meter self')) = Some l) as ->; [|done].
    simpl. rewrite Hl'. by case_match.
  - apply Hstop. pose proof (hook_same self' (StepEnd interp context) eq_refl) as Hs.
    simpl in Hs. by destruct (pending_access self') as [[]|].
  - apply Hstop. apply (hook_same self' (InitializeInterp interp context)). done.
  - unfold accept_transaction. by rewrite Hl'.
Qed.

(** ** Witnesses *)

Definition sample_interp (op : Z) : Interpreter :=
  {| bytecode_address := Some 5; own_hash := 50; own_bytes := replicate 50 0; opcode := op;
     stack := [0; 6]; action := NoAction |}.

Definition sample_context : Context :=
  {| authorization_list_len := 2;
     evm_state :=
       [ (5, {| code_hash := 50;
                code := Some {| original_bytes := replicate 50 0; eip7702_address := None |} |});
         (6, {| code_hash := 60;
                code := Some {| original_bytes := replicate 60 0; eip7702_address := Some 5 |} |}) ] |}.

Definition sample_events : list event :=
  [ Begin; InitializeInterp (sample_interp 0) sample_context; Step (sample_interp CALL);
    StepEnd (sample_interp CALL) sample_context; Accept ].

Lemma sample_interp_ok op : interp_ok (fun h => h) (sample_interp op).
Proof. split; [reflexivity|vm_compute; split; discriminate]. Qed.

Lemma sample_context_ok : context_ok (fun h => h) sample_context.
Proof.
  split; [simpl; lia|].
  apply Forall_cons; split; [|apply Forall_cons; split; [|constructor]];
    intros c [= <-]; (split; [reflexivity|vm_compute; split; discriminate]).
Qed.

Lemma sample_events_ok : Forall (event_ok (fun h => h)) sample_events.
Proof.
  unfold sample_events. repeat (apply Forall_cons; split); try exact I; try constructor;
    apply sample_interp_ok || apply sample_context_ok.
Qed.

Lemma code_witness_accounting_witness :
  block_code_bytes (meter (run (new_inspector 1000 10) sample_events)) = 50 + 60 + 23 * 2.
Proof.
  destruct (code_witness_accounting (fun h => h) 1000 10 sample_events) as (H & _).
  - vm_compute; split; [discriminate|reflexivity].
  - vm_compute; split; discriminate.
  - exact sample_events_ok.
  - rewrite H. vm_compute. reflexivity.
Defined.

Lemma rejected_transaction_leaves_no_trace_witness :
  meter (run (new_inspector 1000 10)
    [Begin; InitializeInterp (sample_interp 0) sample_context; Step (sample_interp CALL); Reject])
  = new_meter 1000 10.
Proof.
  apply (rejected_transaction_leaves_no_trace (new_inspector 1000 10)
    [InitializeInterp (sample_interp 0) sample_context; Step (sample_interp CALL)]).
  repeat constructor.
Defined.

Lemma exceeded_is_final_witness :
  accept_transaction (meter (run (run (new_inspector 100 10)
    [Begin; InitializeInterp (sample_interp 0) sample_context]) [Step (sample_interp CALL)]))
  = (false, meter (run (new_inspector 100 10)
    [Begin; InitializeInterp (sample_interp 0) sample_context])).
Proof.
  destruct (exceeded_is_final (run (new_inspector 100 10)
    [Begin; InitializeInterp (sample_interp 0) sample_context]) CodeBytes
    [Step (sample_interp CALL)] (sample_interp 0) sample_context) as (_ & _ & _ & _ & _ & H);
    [vm_compute; reflexivity|by repeat constructor|].
  rewrite H. f_equal.
Defined.
