(* ===== verification/Transitions.v ===== *)
(** * Fork transitions (crates/dogeos-reth-evm/src/transitions)

    The idempotent state updates of the Feynman, GalileoV2 and Tsuki blocks:
    the gas-oracle predeploy upgrades and the NativeDogeToken predeploy. The
    database and account constructors of [revm] are interfaces. *)

From stdpp Require Import prelude gmap list strings.
From Stdlib Require Import ZArith Lia Ascii.
From Stdlib Require String.
From S2P Require Import Prelude.
From S2P Require Import Chain.

(** ** Bytecodes, as the hexadecimal text of the source *)

Definition hex_digit (c : ascii) : Z :=
  let n := Z.of_nat (nat_of_ascii c) in if n <? 58 then n - 48 else n - 87.

Fixpoint hex_bytes (l : list ascii) : bytes :=
  match l with
  | a :: b :: l => 16 * hex_digit a + hex_digit b :: hex_bytes l
  | _ => []
  end.

Definition FEYNMAN_L1_GAS_PRICE_ORACLE_HEX : string :=
  "608060405234801561000f575f80fd5b50600436106101a1575f3560e01c806384189161116100f3578063c63b9e2d11610093578063e88a60ad1161006e578063e88a60ad1461032e578063f2fde38b14610341578063f45e65d814610354578063fe5b04151461035d575f80fd5b8063c63b9e2d146102ff578063c91e514914610312578063de26c4a11461031b575f80fd5b8063944b247f116100ce578063944b247f146102be578063a911d77f146102d1578063aa5e9334146102d9578063bede39b5146102ec575f80fd5b806384189161146102785780638da5cb5b1461028157806393e59dc1146102ab575f80fd5b80633d0f963e1161015e5780636112d6db116101395780636112d6db1461024b5780636a5e67e514610254578063704655971461025d578063715018a614610270575f80fd5b80633d0f963e1461021c57806349948e0e1461022f578063519b4bd314610242575f80fd5b80630c18c162146101a557806313dad5be146101c157806323e524ac146101de5780633577afc5146101e757806339455d3a146101fc5780633b7656bb1461020f575b5f80fd5b6101ae60025481565b6040519081526020015b60405180910390f35b6008546101ce9060ff1681565b60405190151581526020016101b8565b6101ae60065481565b6101fa6101f5366004610c73565b610365565b005b6101fa61020a366004610c8a565b6103f7565b600b546101ce9060ff1681565b6101fa61022a366004610caa565b6104f4565b6101ae61023d366004610ceb565b610577565b6101ae60015481565b6101ae600a5481565b6101ae60075481565b6101fa61026b366004610c73565b6105b0565b6101fa61063e565b6101ae60055481565b5f54610293906001600160a01b031681565b6040516001600160a01b0390911681526020016101b8565b600454610293906001600160a01b031681565b6101fa6102cc366004610c73565b610672565b6101fa6106fe565b6101fa6102e7366004610c73565b61075a565b6101fa6102fa366004610c73565b6107f4565b6101fa61030d366004610c73565b6108b1565b6101ae60095481565b6101ae610329366004610ceb565b61094a565b6101fa61033c366004610c73565b610974565b6101fa61034f366004610caa565b610a00565b6101ae60035481565b6101fa610a8b565b5f546001600160a01b031633146103975760405162461bcd60e51b815260040161038e90610d96565b60405180910390fd5b621c9c388111156103bb57604051635742c80560e11b815260040160405180910390fd5b60028190556040518181527f32740b35c0ea213650f60d44366b4fb211c9033b50714e4a1d34e65d5beb9bb4906020015b60405180910390a150565b6004805460405163efc7840160e01b815233928101929092526001600160a01b03169063efc7840190602401602060405180830381865afa15801561043e573d5f803e3d5ffd5b505050506040513d601f19601f820116820180604052508101906104629190610dcd565b61047f576040516326b3506d60e11b815260040160405180910390fd5b600182905560058190556040518281527f351fb23757bb5ea0546c85b7996ddd7155f96b939ebaa5ff7bc49c75f27f2c449060200160405180910390a16040518181527f9a14bfb5d18c4c3cf14cae19c23d7cf1bcede357ea40ca1f75cd49542c71c214906020015b60405180910390a15050565b5f546001600160a01b0316331461051d5760405162461bcd60e51b815260040161038e90610d96565b600480546001600160a01b038381166001600160a01b031983168117909355604080519190921680825260208201939093527f22d1c35fe072d2e42c3c8f9bd4a0d34aa84a0101d020a62517b33fdb3174e5f791016104e8565b600b545f9060ff16156105935761058d82610ae7565b92915050565b60085460ff16156105a75761058d82610b45565b61058d82610b81565b5f546001600160a01b031633146105d95760405162461bcd60e51b815260040161038e90610d96565b6105e9633b9aca006103e8610e00565b81111561060957604051631e44fdeb60e11b815260040160405180910390fd5b60038190556040518181527f3336cd9708eaf2769a0f0dc0679f30e80f15dcd88d1921b5a16858e8b85c591a906020016103ec565b5f546001600160a01b031633146106675760405162461bcd60e51b815260040161038e90610d96565b6106705f610bc4565b565b5f546001600160a01b0316331461069b5760405162461bcd60e51b815260040161038e90610d96565b6106a9633b9aca0080610e00565b8111156106c95760405163874f603160e01b815260040160405180910390fd5b60068190556040518181527f2ab3f5a4ebbcbf3c24f62f5454f52f10e1a8c9dcc5acac8f19199ce881a6a108906020016103ec565b5f546001600160a01b031633146107275760405162461bcd60e51b815260040161038e90610d96565b60085460ff161561074b576040516379f9c57560e01b815260040160405180910390fd5b6008805460ff19166001179055565b5f546001600160a01b031633146107835760405162461bcd60e51b815260040161038e90610d96565b633b9aca008110806107a1575061079e633b9aca0080610e00565b81115b156107bf5760405163d9b5dcdf60e01b815260040160405180910390fd5b60098190556040518181527fd50d3079c77df569cd58d55d4e5614bfe7066449009425d22bde8e75242f50bb906020016103ec565b6004805460405163efc7840160e01b815233928101929092526001600160a01b03169063efc7840190602401602060405180830381865afa15801561083b573d5f803e3d5ffd5b505050506040513d601f19601f8201168201806040525081019061085f9190610dcd565b61087c576040516326b3506d60e11b815260040160405180910390fd5b60018190556040518181527f351fb23757bb5ea0546c85b7996ddd7155f96b939ebaa5ff7bc49c75f27f2c44906020016103ec565b5f546001600160a01b031633146108da5760405162461bcd60e51b815260040161038e90610d96565b633b9aca008110806108f857506108f5633b9aca0080610e00565b81115b156109155760405162ae184360e01b815260040160405180910390fd5b600a8190556040518181527f8647cebb7e57360673a28415c0bed2f68c42a86c5035f1c9b2eda2b09509288a906020016103ec565b600b545f9060ff168061095f575060085460ff165b1561096b57505f919050565b61058d82610c13565b5f546001600160a01b0316331461099d5760405162461bcd60e51b815260040161038e90610d96565b6109ab633b9aca0080610e00565b8111156109cb5760405163f37ec21560e01b815260040160405180910390fd5b60078190556040518181527f6b332a036d8c3ead57dcb06c87243bd7a2aed015ddf2d0528c2501dae56331aa906020016103ec565b5f546001600160a01b03163314610a295760405162461bcd60e51b815260040161038e90610d96565b6001600160a01b038116610a7f5760405162461bcd60e51b815260206004820152601d60248201527f6e6577206f776e657220697320746865207a65726f2061646472657373000000604482015260640161038e565b610a8881610bc4565b50565b5f546001600160a01b03163314610ab45760405162461bcd60e51b815260040161038e90610d96565b600b5460ff1615610ad857604051631a7c228b60e21b815260040160405180910390fd5b600b805460ff19166001179055565b5f633b9aca0080600a548451600554600754610b039190610e00565b600154600654610b139190610e00565b610b1d9190610e17565b610b279190610e00565b610b319190610e00565b610b3b9190610e2a565b61058d9190610e2a565b5f633b9aca006005548351600754610b5d9190610e00565b610b679190610e00565b600154600654610b779190610e00565b610b3b9190610e17565b5f80610b8c83610c13565b90505f60015482610b9d9190610e00565b9050633b9aca0060035482610bb29190610e00565b610bbc9190610e2a565b949350505050565b5f80546001600160a01b038381166001600160a01b0319831681178455604051919092169283917f8be0079c531659141344cd1fd0a4f28419497f9722a3daafe3b4186f6b6457e09190a35050565b80515f908190815b81811015610c6457848181518110610c3557610c35610e49565b01602001516001600160f81b0319165f03610c5557600483019250610c5c565b6010830192505b600101610c1b565b50506002540160400192915050565b5f60208284031215610c83575f80fd5b5035919050565b5f8060408385031215610c9b575f80fd5b50508035926020909101359150565b5f60208284031215610cba575f80fd5b81356001600160a01b0381168114610cd0575f80fd5b9392505050565b634e487b7160e01b5f52604160045260245ffd5b5f60208284031215610cfb575f80fd5b813567ffffffffffffffff80821115610d12575f80fd5b818401915084601f830112610d25575f80fd5b813581811115610d3757610d37610cd7565b604051601f8201601f19908116603f01168101908382118183101715610d5f57610d5f610cd7565b81604052828152876020848701011115610d77575f80fd5b826020860160208301375f928101602001929092525095945050505050565b60208082526017908201527f63616c6c6572206973206e6f7420746865206f776e6572000000000000000000604082015260600190565b5f60208284031215610ddd575f80fd5b81518015158114610cd0575f80fd5b634e487b7160e01b5f52601160045260245ffd5b808202811582820484141761058d5761058d610dec565b8082018082111561058d5761058d610dec565b5f82610e4457634e487b7160e01b5f52601260045260245ffd5b500490565b634e487b7160e01b5f52603260045260245ffdfea164736f6c6343000818000a".

Definition GALILEO_V2_L1_GAS_PRICE_ORACLE_HEX : string :=
  "608060405234801561000f575f80fd5b50600436106101c6575f3560e01c8063715018a6116100fe578063bede39b51161009e578063e88a60ad1161006e578063e88a60ad1461035d578063f2fde38b14610370578063f45e65d814610383578063fe5b04151461038c575f80fd5b8063bede39b51461031c578063c63b9e2d1461032f578063c91e514914610342578063de26c4a11461034a575f80fd5b80638da5cb5b116100d95780638da5cb5b146102c457806393e59dc1146102ee578063944b247f14610301578063a911d77f14610314575f80fd5b8063715018a6146102ab5780637f977cbf146102b357806384189161146102bb575f80fd5b80633d0f963e116101695780635471db39116101445780635471db391461027d5780636112d6db146102865780636a5e67e51461028f5780637046559714610298575f80fd5b80633d0f963e1461024e57806349948e0e14610261578063519b4bd314610274575f80fd5b806323e524ac116101a457806323e524ac146102105780633577afc51461021957806339455d3a1461022e5780633b7656bb14610241575f80fd5b80630c18c162146101ca5780630f337f6d146101e657806313dad5be14610203575b5f80fd5b6101d360025481565b6040519081526020015b60405180910390f35b600c546101f39060ff1681565b60405190151581526020016101dd565b6008546101f39060ff1681565b6101d360065481565b61022c610227366004610ccf565b610394565b005b61022c61023c366004610ce6565b610426565b600b546101f39060ff1681565b61022c61025c366004610d06565b610523565b6101d361026f366004610d47565b6105a6565b6101d360015481565b6101d360095481565b6101d3600a5481565b6101d360075481565b61022c6102a6366004610ccf565b6105f3565b61022c610681565b61022c6106b5565b6101d360055481565b5f546102d6906001600160a01b031681565b6040516001600160a01b0390911681526020016101dd565b6004546102d6906001600160a01b031681565b61022c61030f366004610ccf565b610711565b61022c61079d565b61022c61032a366004610ccf565b6107f9565b61022c61033d366004610ccf565b6108b6565b6009546101d3565b6101d3610358366004610d47565b610933565b61022c61036b366004610ccf565b61096a565b61022c61037e366004610d06565b6109f6565b6101d360035481565b61022c610a81565b5f546001600160a01b031633146103c65760405162461bcd60e51b81526004016103bd90610df2565b60405180910390fd5b621c9c388111156103ea57604051635742c80560e11b815260040160405180910390fd5b60028190556040518181527f32740b35c0ea213650f60d44366b4fb211c9033b50714e4a1d34e65d5beb9bb4906020015b60405180910390a150565b6004805460405163efc7840160e01b815233928101929092526001600160a01b03169063efc7840190602401602060405180830381865afa15801561046d573d5f803e3d5ffd5b505050506040513d601f19601f820116820180604052508101906104919190610e29565b6104ae576040516326b3506d60e11b815260040160405180910390fd5b600182905560058190556040518281527f351fb23757bb5ea0546c85b7996ddd7155f96b939ebaa5ff7bc49c75f27f2c449060200160405180910390a16040518181527f9a14bfb5d18c4c3cf14cae19c23d7cf1bcede357ea40ca1f75cd49542c71c214906020015b60405180910390a15050565b5f546001600160a01b0316331461054c5760405162461bcd60e51b81526004016103bd90610df2565b600480546001600160a01b038381166001600160a01b031983168117909355604080519190921680825260208201939093527f22d1c35fe072d2e42c3c8f9bd4a0d34aa84a0101d020a62517b33fdb3174e5f79101610517565b600c545f9060ff16156105c2576105bc82610add565b92915050565b600b5460ff16156105d6576105bc82610b55565b60085460ff16156105ea576105bc82610bb3565b6105bc82610bef565b5f546001600160a01b0316331461061c5760405162461bcd60e51b81526004016103bd90610df2565b61062c633b9aca006103e8610e5c565b81111561064c57604051631e44fdeb60e11b815260040160405180910390fd5b60038190556040518181527f3336cd9708eaf2769a0f0dc0679f30e80f15dcd88d1921b5a16858e8b85c591a9060200161041b565b5f546001600160a01b031633146106aa5760405162461bcd60e51b81526004016103bd90610df2565b6106b35f610c20565b565b5f546001600160a01b031633146106de5760405162461bcd60e51b81526004016103bd90610df2565b600c5460ff16156107025760405163182389a760e01b815260040160405180910390fd5b600c805460ff19166001179055565b5f546001600160a01b0316331461073a5760405162461bcd60e51b81526004016103bd90610df2565b610748633b9aca0080610e5c565b8111156107685760405163874f603160e01b815260040160405180910390fd5b60068190556040518181527f2ab3f5a4ebbcbf3c24f62f5454f52f10e1a8c9dcc5acac8f19199ce881a6a1089060200161041b565b5f546001600160a01b031633146107c65760405162461bcd60e51b81526004016103bd90610df2565b60085460ff16156107ea576040516379f9c57560e01b815260040160405180910390fd5b6008805460ff19166001179055565b6004805460405163efc7840160e01b815233928101929092526001600160a01b03169063efc7840190602401602060405180830381865afa158015610840573d5f803e3d5ffd5b505050506040513d601f19601f820116820180604052508101906108649190610e29565b610881576040516326b3506d60e11b815260040160405180910390fd5b60018190556040518181527f351fb23757bb5ea0546c85b7996ddd7155f96b939ebaa5ff7bc49c75f27f2c449060200161041b565b5f546001600160a01b031633146108df5760405162461bcd60e51b81526004016103bd90610df2565b805f036108fe5760405162ae184360e01b815260040160405180910390fd5b600a8190556040518181527f8647cebb7e57360673a28415c0bed2f68c42a86c5035f1c9b2eda2b09509288a9060200161041b565b600c545f9060ff16806109485750600b5460ff165b80610955575060085460ff165b1561096157505f919050565b6105bc82610c6f565b5f546001600160a01b031633146109935760405162461bcd60e51b81526004016103bd90610df2565b6109a1633b9aca0080610e5c565b8111156109c15760405163f37ec21560e01b815260040160405180910390fd5b60078190556040518181527f6b332a036d8c3ead57dcb06c87243bd7a2aed015ddf2d0528c2501dae56331aa9060200161041b565b5f546001600160a01b03163314610a1f5760405162461bcd60e51b81526004016103bd90610df2565b6001600160a01b038116610a755760405162461bcd60e51b815260206004820152601d60248201527f6e6577206f776e657220697320746865207a65726f206164647265737300000060448201526064016103bd565b610a7e81610c20565b50565b5f546001600160a01b03163314610aaa5760405162461bcd60e51b81526004016103bd90610df2565b600b5460ff1615610ace57604051631a7c228b60e21b815260040160405180910390fd5b600b805460ff19166001179055565b5f808251600554600754610af19190610e5c565b600154600654610b019190610e5c565b610b0b9190610e73565b610b159190610e5c565b90505f600a54845183610b289190610e5c565b610b329190610e86565b9050633b9aca00610b438284610e73565b610b4d9190610e86565b949350505050565b5f633b9aca0080600a548451600554600754610b719190610e5c565b600154600654610b819190610e5c565b610b8b9190610e73565b610b959190610e5c565b610b9f9190610e5c565b610ba99190610e86565b6105bc9190610e86565b5f633b9aca006005548351600754610bcb9190610e5c565b610bd59190610e5c565b600154600654610be59190610e5c565b610ba99190610e73565b5f80610bfa83610c6f565b90505f60015482610c0b9190610e5c565b9050633b9aca0060035482610b439190610e5c565b5f80546001600160a01b038381166001600160a01b0319831681178455604051919092169283917f8be0079c531659141344cd1fd0a4f28419497f9722a3daafe3b4186f6b6457e09190a35050565b80515f908190815b81811015610cc057848181518110610c9157610c91610ea5565b01602001516001600160f81b0319165f03610cb157600483019250610cb8565b6010830192505b600101610c77565b50506002540160400192915050565b5f60208284031215610cdf575f80fd5b5035919050565b5f8060408385031215610cf7575f80fd5b50508035926020909101359150565b5f60208284031215610d16575f80fd5b81356001600160a01b0381168114610d2c575f80fd5b9392505050565b634e487b7160e01b5f52604160045260245ffd5b5f60208284031215610d57575f80fd5b813567ffffffffffffffff80821115610d6e575f80fd5b818401915084601f830112610d81575f80fd5b813581811115610d9357610d93610d33565b604051601f8201601f19908116603f01168101908382118183101715610dbb57610dbb610d33565b81604052828152876020848701011115610dd3575f80fd5b826020860160208301375f928101602001929092525095945050505050565b60208082526017908201527f63616c6c6572206973206e6f7420746865206f776e6572000000000000000000604082015260600190565b5f60208284031215610e39575f80fd5b81518015158114610d2c575f80fd5b634e487b7160e01b5f52601160045260245ffd5b80820281158282048414176105bc576105bc610e48565b808201808211156105bc576105bc610e48565b5f82610ea057634e487b7160e01b5f52601260045260245ffd5b500490565b634e487b7160e01b5f52603260045260245ffdfea164736f6c6343000818000a".

Definition TSUKI_NATIVE_DOGE_TOKEN_HEX : string :=
  "608060405234801561000f575f80fd5b5060043610610090575f3560e01c8063313ce56711610063578063313ce5671461011657806370a082311461012557806395d89b4114610140578063a9059cbb14610160578063dd62ed3e14610173575f80fd5b806306fdde0314610094578063095ea7b3146100ca57806318160ddd146100ed57806323b872dd14610103575b5f80fd5b6040805180820190915260088152672237b3b2b1b7b4b760c11b60208201525b6040516100c1919061054e565b60405180910390f35b6100dd6100d8366004610596565b6101ab565b60405190151581526020016100c1565b6100f5610238565b6040519081526020016100c1565b6100dd6101113660046105be565b610260565b604051601281526020016100c1565b6100f56101333660046105f7565b6001600160a01b03163190565b604080518082019091526004815263444f474560e01b60208201526100b4565b6100dd61016e366004610596565b6103b0565b6100f5610181366004610617565b6001600160a01b039182165f90815260016020908152604080832093909416825291909152205490565b5f6001600160a01b0383166101d357604051630571f51760e01b815260040160405180910390fd5b335f8181526001602090815260408083206001600160a01b03881680855290835292819020869055518581529192917f8c5be1e5ebec7d5bd14f71427d1e84f3dd0314c0f7b2291e5b200ac8c7c3b92591015b60405180910390a35060015b92915050565b5f805480820361025b5760405163405641a960e01b815260040160405180910390fd5b919050565b5f6001600160a01b0384166102885760405163105fb90f60e31b815260040160405180910390fd5b6001600160a01b0383166102af57604051637a31731760e01b815260040160405180910390fd5b6001600160a01b0384165f9081526001602090815260408083203384529091529020545f19811461034d578281101561031f5760405163ba805b7560e01b81526001600160a01b038616600482015233602482015260448101829052606481018490526084015b60405180910390fd5b6103298382610648565b6001600160a01b0386165f9081526001602090815260408083203384529091529020555b610358858585610420565b836001600160a01b0316856001600160a01b03167fddf252ad1be2c89b69c2b068fc378daa952ba7f163c4a11628f55a4df523b3ef8560405161039d91815260200190565b60405180910390a3506001949350505050565b5f6001600160a01b0383166103d857604051637a31731760e01b815260040160405180910390fd5b6103e3338484610420565b6040518281526001600160a01b0384169033907fddf252ad1be2c89b69c2b068fc378daa952ba7f163c4a11628f55a4df523b3ef90602001610226565b6001600160a01b038316318181101561046557604051630c898ac560e21b81526001600160a01b03851660048201526024810182905260448101839052606401610316565b604080516001600160a01b038681166020830152851691810191909152606081018390525f9060fd9060800160408051601f19818403018152908290526104ab91610667565b5f604051808303815f865af19150503d805f81146104e4576040519150601f19603f3d011682016040523d82523d5f602084013e6104e9565b606091505b50509050806105255760405163238b556560e21b81526001600160a01b0380871660048301528516602482015260448101849052606401610316565b5050505050565b5f5b8381101561054657818101518382015260200161052e565b50505f910152565b602081525f825180602084015261056c81604085016020870161052c565b601f01601f19169190910160400192915050565b80356001600160a01b038116811461025b575f80fd5b5f80604083850312156105a7575f80fd5b6105b083610580565b946020939093013593505050565b5f805f606084860312156105d0575f80fd5b6105d984610580565b92506105e760208501610580565b9150604084013590509250925092565b5f60208284031215610607575f80fd5b61061082610580565b9392505050565b5f8060408385031215610628575f80fd5b61063183610580565b915061063f60208401610580565b90509250929050565b8181038181111561023257634e487b7160e01b5f52601160045260245ffd5b5f825161067881846020870161052c565b919091019291505056fea164736f6c6343000818000a".

Definition FEYNMAN_L1_GAS_PRICE_ORACLE_BYTECODE : bytes :=
  hex_bytes (String.list_ascii_of_string FEYNMAN_L1_GAS_PRICE_ORACLE_HEX).
Definition GALILEO_V2_L1_GAS_PRICE_ORACLE_BYTECODE : bytes :=
  hex_bytes (String.list_ascii_of_string GALILEO_V2_L1_GAS_PRICE_ORACLE_HEX).
Definition TSUKI_NATIVE_DOGE_TOKEN_BYTECODE : bytes :=
  hex_bytes (String.list_ascii_of_string TSUKI_NATIVE_DOGE_TOKEN_HEX).

Definition TSUKI_NATIVE_DOGE_TOKEN_BYTECODE_HASH : B256 :=
  0x90a64eee730d7b76311162eaac2977d5a2f0608dc01641e365c4173aa8da1384.

(** ** The oracle contract (gas_price_oracle.rs) *)

Definition L1_GAS_PRICE_ORACLE_ADDRESS : Address := 0x5300000000000000000000000000000000000002.
Definition GPO_PENALTY_THRESHOLD_SLOT : U256 := 9.
Definition GPO_PENALTY_FACTOR_SLOT : U256 := 10.
Definition GPO_IS_FEYNMAN_SLOT : U256 := 11.
Definition GPO_IS_GALILEO_SLOT : U256 := 12.

Definition INITIAL_PENALTY_THRESHOLD : U256 := 1000000000.
Definition INITIAL_PENALTY_FACTOR : U256 := 1000000000.
Definition IS_FEYNMAN : U256 := 1.
Definition IS_GALILEO : U256 := 1.

Definition FEYNMAN_L1_GAS_PRICE_ORACLE_STORAGE : list (U256 * U256) :=
  [ (GPO_PENALTY_THRESHOLD_SLOT, INITIAL_PENALTY_THRESHOLD);
    (GPO_PENALTY_FACTOR_SLOT, INITIAL_PENALTY_FACTOR);
    (GPO_IS_FEYNMAN_SLOT, IS_FEYNMAN) ].

Definition GALILEO_V2_L1_GAS_PRICE_ORACLE_STORAGE : list (U256 * U256) :=
  [ (GPO_IS_GALILEO_SLOT, IS_GALILEO) ].

Definition TSUKI_NATIVE_DOGE_TOKEN_TOTAL_SUPPLY : U256 := 0x0080000000000000 * 2 ^ 192.

Definition TSUKI_NATIVE_DOGE_TOKEN_STORAGE : list (U256 * U256) :=
  [ (0, TSUKI_NATIVE_DOGE_TOKEN_TOTAL_SUPPLY) ].

(** ** The external account constructors *)

Class RevmAccounts := {
  KECCAK_EMPTY : B256;
  (** [Bytecode::hash_slow] of raw code. *)
  hash_slow : bytes -> B256;
  (** [AccountInfo::default()]. *)
  default_info : AccountInfo;
  NATIVE_DOGE_TOKEN_ADDRESS : Address;
}.

Class RevmAccountsLaws `{RevmAccounts} : Prop := {
  default_info_empty :
    acc_nonce default_info = 0 /\ acc_balance default_info = 0
    /\ acc_code_hash default_info = KECCAK_EMPTY;
  token_is_not_oracle : NATIVE_DOGE_TOKEN_ADDRESS <> L1_GAS_PRICE_ORACLE_ADDRESS;
}.

Abbreviation EvmState := (gmap Address Account).

Section Transitions.
Context `{RevmAccounts} {DB E : Type} `{Database DB E}.

Definition read_storage (a : Address) (k : U256) : sresult DB E U256 := fun db => storage db a k.
Definition read_basic (a : Address) : sresult DB E (option AccountInfo) := fun db => basic db a.
Definition write (state : EvmState) : sresult DB E unit := fun db => (Ok tt, commit db state).

(** The loop over the storage entries: each original value is read, the last
    value given for a slot stays. *)
Fixpoint read_originals (address : Address) (entries : list (U256 * U256))
    (slots : gmap Z StorageSlot) : sresult DB E (gmap Z StorageSlot) :=
  match entries with
  | [] => mret slots
  | (slot, present) :: entries =>
      original ← read_storage address slot;
      read_originals address entries
        (<[slot := {| original_value := original; present_value := present |}]> slots)
  end.

Definition commit_account_update (address : Address) (original_info new_info : AccountInfo)
    (entries : list (U256 * U256)) : sresult DB E EvmState :=
  slots ← read_originals address entries ∅;
  let state := {[ address := {| account_info := new_info; account_storage := slots |} ]} in
  _ ← write state;
  mret state.

Definition apply_feynman_hard_fork : sresult DB E EvmState :=
  flag ← read_storage L1_GAS_PRICE_ORACLE_ADDRESS GPO_IS_FEYNMAN_SLOT;
  if flag =? IS_FEYNMAN then mret ∅
  else
    let bytecode := FEYNMAN_L1_GAS_PRICE_ORACLE_BYTECODE in
    let code_hash := hash_slow bytecode in
    info ← read_basic L1_GAS_PRICE_ORACLE_ADDRESS;
    let old_oracle_info := default default_info info in
    let new_oracle_info :=
      {| acc_balance := acc_balance old_oracle_info; acc_nonce := acc_nonce old_oracle_info;
         acc_code_hash := code_hash; acc_code := Some bytecode |} in
    commit_account_update L1_GAS_PRICE_ORACLE_ADDRESS old_oracle_info new_oracle_info
      FEYNMAN_L1_GAS_PRICE_ORACLE_STORAGE.

Definition apply_galileo_v2_hard_fork : sresult DB E EvmState :=
  flag ← read_storage L1_GAS_PRICE_ORACLE_ADDRESS GPO_IS_GALILEO_SLOT;
  if flag =? IS_GALILEO then mret ∅
  else
    let bytecode := GALILEO_V2_L1_GAS_PRICE_ORACLE_BYTECODE in
    let code_hash := hash_slow bytecode in
    info ← read_basic L1_GAS_PRICE_ORACLE_ADDRESS;
    let old_oracle_info := default default_info info in
    let new_oracle_info :=
      {| acc_balance := acc_balance old_oracle_info; acc_nonce := acc_nonce old_oracle_info;
         acc_code_hash := code_hash; acc_code := Some bytecode |} in
    commit_account_update L1_GAS_PRICE_ORACLE_ADDRESS old_oracle_info new_oracle_info
      GALILEO_V2_L1_GAS_PRICE_ORACLE_STORAGE.

Definition apply_tsuki_hard_fork : sresult DB E EvmState :=
  info ← read_basic NATIVE_DOGE_TOKEN_ADDRESS;
  let old_info := default default_info info in
  if negb (acc_nonce old_info =? 0) || negb (acc_code_hash old_info =? KECCAK_EMPTY) then mret ∅
  else
    let bytecode := TSUKI_NATIVE_DOGE_TOKEN_BYTECODE in
    let code_hash := TSUKI_NATIVE_DOGE_TOKEN_BYTECODE_HASH in
    let new_info :=
      {| acc_balance := acc_balance old_info; acc_nonce := 1;
         acc_code_hash := code_hash; acc_code := Some bytecode |} in
    commit_account_update NATIVE_DOGE_TOKEN_ADDRESS old_info new_info
      TSUKI_NATIVE_DOGE_TOKEN_STORAGE.
End Transitions.

(** ** What an update does to the contents of the database *)

Section Views.
Context {DB : Type} `{DatabaseView DB}.

Definition same_contents (db db' : DB) : Prop :=
  (forall a, info_of db' a = info_of db a) /\ (forall a k, slot_of db' a k = slot_of db a k).

(** The account has the new code, keeps its balance, has its listed slots set;
    everything else is as before. *)
Record predeploy_installed (db db' : DB) (address : Address) (new_info : AccountInfo)
    (entries : list (U256 * U256)) : Prop := {
  pi_info : info_of db' address = Some new_info;
  pi_slots : forall k v, (k, v) ∈ entries -> slot_of db' address k = v;
  pi_other_slots : forall k, k ∉ entries.*1 -> slot_of db' address k = slot_of db address k;
  pi_other_accounts : forall a, a <> address ->
    info_of db' a = info_of db a /\ forall k, slot_of db' a k = slot_of db a k;
}.
End Views.

(** ** Lemmas *)

Section Lemmas.
Context `{RevmAccounts} {DB E : Type} `{Database DB E} `{DatabaseView DB} `{!DatabaseLaws DB E}.

#[local] Instance same_contents_preorder : PreOrder (@same_contents DB _).
Proof.
  split; [by split|]. intros a b c [Hi Hs] [Hi' Hs']. split; intros; congruence.
Qed.

Lemma read_storage_Ok a k db v db' :
  read_storage a k db = (Ok v, db') -> v = slot_of db a k /\ same_contents db db'.
Proof.
  unfold read_storage. intros E'. split; [by eapply storage_reads|].
  split; intros; [rewrite <- (storage_info db a k)|rewrite <- (storage_slot db a k)]; by rewrite E'.
Qed.

Lemma read_basic_Ok a db v db' :
  read_basic a db = (Ok v, db') -> v = info_of db a /\ same_contents db db'.
Proof.
  unfold read_basic. intros E'. split; [by eapply basic_reads|].
  split; intros; [rewrite <- (basic_info db a)|rewrite <- (basic_slot db a)]; by rewrite E'.
Qed.

Lemma read_originals_Ok a entries slots db r db' :
  NoDup entries.*1 -> (forall k, k ∈ entries.*1 -> slots !! k = None) ->
  read_originals a entries slots db = (Ok r, db') ->
  same_contents db db'
  /\ forall k s, r !! k = Some s <->
       slots !! k = Some s \/ (k, present_value s) ∈ entries /\ original_value s = slot_of db a k.
Proof.
  revert slots db. induction entries as [|[k v] l IH]; intros slots db Hnd Hn E'; simpl in E'.
  - apply sret_Ok in E' as [-> ->]. split; [reflexivity|]. intros k s. set_solver.
  - apply sbind_Ok in E' as (o & db1 & Eo & E'). apply read_storage_Ok in Eo as [-> Hs].
    rewrite fmap_cons in Hnd, Hn. apply NoDup_cons in Hnd as [Hk Hnd].
    simpl in Hk, Hn.
    apply IH in E' as [Hs' Hr]; [|done|intros k' Hk'; rewrite lookup_insert_ne;
      [apply Hn; set_solver|intros ->; done]].
    split; [by etransitivity|]. intros k' s. rewrite Hr, lookup_insert_Some.
    destruct Hs as [_ Hslot]. rewrite Hslot.
    assert (slots !! k = None) as Hnone by (apply Hn; set_solver).
    destruct (decide (k = k')) as [<-|Hne].
    + rewrite Hnone. split.
      * intros [[[_ <-]|[? _]]|[Hin Ho]]; [|done|].
        -- right. simpl. split; [left|done].
        -- right. split; [by right|done].
      * intros [?|[Hin Ho]]; [done|]. apply elem_of_cons in Hin as [[= <-]|Hin].
        -- left. left. split; [done|]. destruct s; simpl in *. by subst.
        -- right. by split.
    + split.
      * intros [[[? _]|[_ ?]]|[Hin Ho]]; [done|by left|right; split; [by right|done]].
      * intros [?|[Hin Ho]]; [left; by right|]. apply elem_of_cons in Hin as [[= ? _]|Hin]; [by subst|].
        right. by split.
Qed.

Lemma commit_account_update_Ok a old new entries db st db' :
  NoDup entries.*1 ->
  commit_account_update a old new entries db = (Ok st, db') ->
  predeploy_installed db db' a new entries
  /\ exists slots, st = {[ a := {| account_info := new; account_storage := slots |} ]}
     /\ forall k s, slots !! k = Some s <->
        (k, present_value s) ∈ entries /\ original_value s = slot_of db a k.
Proof.
  intros Hnd. unfold commit_account_update.
  intros (v & db1 & Ho & Ew)%sbind_Ok. apply sbind_Ok in Ew as (u & db2 & Hw & Er).
  apply sret_Ok in Er as [<- <-]. injection Hw as <- <-.
  apply read_originals_Ok in Ho as [[Hi Hs] Hr]; [|done|intros k _; apply lookup_empty].
  assert (Hslot : forall k s, v !! k = Some s <->
    (k, present_value s) ∈ entries /\ original_value s = slot_of db a k).
  { intros k s. rewrite Hr, lookup_empty. naive_solver. }
  split; [|by exists v]. split.
  - by rewrite commit_info, lookup_singleton_eq.
  - intros k x Hin. rewrite commit_slot, lookup_singleton_eq. simpl.
    destruct (v !! k) as [s|] eqn:Ev.
    + apply Hslot in Ev as [Hin' _].
      apply list_elem_of_lookup in Hin as [i Hi']. apply list_elem_of_lookup in Hin' as [j Hj].
      assert (i = j) as ->; [|naive_solver].
      eapply (NoDup_lookup entries.*1); [done| |]; rewrite list_lookup_fmap;
        [rewrite Hi'|rewrite Hj]; done.
    + exfalso. assert (v !! k = Some {| original_value := slot_of db a k; present_value := x |})
        as Hc by (by apply Hslot). by rewrite Ev in Hc.
  - intros k Hk. rewrite commit_slot, lookup_singleton_eq. simpl.
    destruct (v !! k) as [s|] eqn:Ev; [|apply Hs].
    apply Hslot in Ev as [Hin _]. exfalso. apply Hk.
    apply list_elem_of_fmap. by exists (k, present_value s).
  - intros b Hb. split; [|intros k]; [rewrite commit_info|rewrite commit_slot];
      rewrite lookup_singleton_ne by done; auto.
Qed.
End Lemmas.

(** The shape the two oracle upgrades share. *)
Definition oracle_fork `{RevmAccounts} {DB E} `{Database DB E} (flag_slot : U256) (code : bytes)
    (entries : list (U256 * U256)) : sresult DB E EvmState :=
  flag ← read_storage L1_GAS_PRICE_ORACLE_ADDRESS flag_slot;
  if flag =? 1 then mret ∅
  else
    info ← read_basic L1_GAS_PRICE_ORACLE_ADDRESS;
    let old := default default_info info in
    commit_account_update L1_GAS_PRICE_ORACLE_ADDRESS old
      {| acc_balance := acc_balance old; acc_nonce := acc_nonce old;
         acc_code_hash := hash_slow code; acc_code := Some code |} entries.

(** The upgraded account: the code replaced, balance and nonce kept. *)
Definition upgraded `{RevmAccounts} (old : option AccountInfo) (code_hash : B256) (code : bytes) :
    AccountInfo :=
  {| acc_balance := acc_balance (default default_info old);
     acc_nonce := acc_nonce (default default_info old);
     acc_code_hash := code_hash; acc_code := Some code |}.

Section ForkLemmas.
Context `{RevmAccountsLaws} {DB E : Type} `{Database DB E} `{DatabaseView DB}
  `{!DatabaseLaws DB E}.

Lemma same_then_installed db db1 db2 a new entries :
  same_contents db db1 -> predeploy_installed db1 db2 a new entries ->
  predeploy_installed db db2 a new entries.
Proof.
  intros [Hi Hs] [H1' H2' H3' H4']. split; [done|done| |].
  - intros k Hk. by rewrite H3', Hs.
  - intros b Hb. destruct (H4' b Hb) as [E1 E2]. split; [by rewrite E1|].
    intros k. by rewrite E2.
Qed.

Lemma oracle_fork_Ok flag_slot code entries db st db' :
  NoDup entries.*1 ->
  oracle_fork flag_slot code entries db = (Ok st, db') ->
  (slot_of db L1_GAS_PRICE_ORACLE_ADDRESS flag_slot = 1 -> st = ∅ /\ same_contents db db')
  /\ (slot_of db L1_GAS_PRICE_ORACLE_ADDRESS flag_slot <> 1 ->
      predeploy_installed db db' L1_GAS_PRICE_ORACLE_ADDRESS
        (upgraded (info_of db L1_GAS_PRICE_ORACLE_ADDRESS) (hash_slow code) code) entries
      /\ st <> ∅).
Proof.
  intros Hnd (flag & db1 & Hf & Eo)%sbind_Ok.
  apply read_storage_Ok in Hf as [-> Hs1].
  destruct (Z.eqb_spec (slot_of db L1_GAS_PRICE_ORACLE_ADDRESS flag_slot) 1) as [He|Hne].
  - apply sret_Ok in Eo as [<- <-]. by split.
  - split; [done|]. intros _. apply sbind_Ok in Eo as (info & db2 & Hb & Ec).
    apply read_basic_Ok in Hb as [-> Hs2].
    apply commit_account_update_Ok in Ec as [Hp (slots & -> & _)]; [|done]. split.
    + eapply same_then_installed; [exact Hs1|]. eapply same_then_installed; [exact Hs2|].
      destruct Hs1 as [Hi _]. unfold upgraded. by rewrite <- Hi.
    + apply insert_non_empty.
Qed.

Lemma oracle_fork_again flag_slot code entries db st db' st' db'' :
  NoDup entries.*1 -> (flag_slot, 1) ∈ entries ->
  oracle_fork flag_slot code entries db = (Ok st, db') ->
  oracle_fork flag_slot code entries db' = (Ok st', db'') ->
  st' = ∅ /\ same_contents db' db''.
Proof.
  intros Hnd Hin H1' H2'.
  apply oracle_fork_Ok in H1' as [Hy Hn]; [|done]. apply oracle_fork_Ok in H2' as [Hy' _]; [|done].
  apply Hy'. destruct (decide (slot_of db L1_GAS_PRICE_ORACLE_ADDRESS flag_slot = 1)) as [He|Hne].
  - destruct (Hy He) as [_ [_ Hs]]. by rewrite Hs.
  - destruct (Hn Hne) as [[_ Hslots _ _] _]. by apply Hslots.
Qed.

Lemma tsuki_Ok db st db' :
  apply_tsuki_hard_fork db = (Ok st, db') ->
  let old := info_of db NATIVE_DOGE_TOKEN_ADDRESS in
  let empty := acc_nonce (default default_info old) = 0
               /\ acc_code_hash (default default_info old) = KECCAK_EMPTY in
  (~ empty -> st = ∅ /\ same_contents db db')
  /\ (empty ->
      predeploy_installed db db' NATIVE_DOGE_TOKEN_ADDRESS
        {| acc_balance := acc_balance (default default_info old); acc_nonce := 1;
           acc_code_hash := TSUKI_NATIVE_DOGE_TOKEN_BYTECODE_HASH;
           acc_code := Some TSUKI_NATIVE_DOGE_TOKEN_BYTECODE |}
        TSUKI_NATIVE_DOGE_TOKEN_STORAGE
      /\ st <> ∅).
Proof.
  intros (info & db1 & Hb & Et)%sbind_Ok old empty. apply read_basic_Ok in Hb as [-> Hs].
  fold old in Et. subst empty. clearbody old. cbv zeta in Et.
  destruct (negb _ || negb _) eqn:Eb in Et.
  - apply sret_Ok in Et as [<- <-]. split; [done|]. intros [Hn Hc].
    rewrite Hn, Hc, !Z.eqb_refl in Eb. discriminate Eb.
  - apply orb_false_elim in Eb as [Hn%negb_false_iff%Z.eqb_eq Hc%negb_false_iff%Z.eqb_eq].
    split; [naive_solver|]. intros _.
    apply commit_account_update_Ok in Et as [Hp (slots & -> & _)];
      [|apply (bool_decide_unpack _); vm_compute; exact I].
    split; [by eapply same_then_installed|apply insert_non_empty].
Qed.
End ForkLemmas.

(** ** Properties *)

(** A transition that succeeds either finds its fork already applied, and then
    changes nothing and reports no update, or installs exactly its predeploy:
    new code, its listed slots, the account's balance (and for the oracle its
    nonce) kept, every other slot and account untouched. *)
Theorem transitions_install_predeploys `{RevmAccountsLaws} {DB E} `{Database DB E}
    `{DatabaseView DB} `{!DatabaseLaws DB E} (db db' : DB) (st : EvmState) :
  let oracle := L1_GAS_PRICE_ORACLE_ADDRESS in
  let token := default default_info (info_of db NATIVE_DOGE_TOKEN_ADDRESS) in
  (apply_feynman_hard_fork db = (Ok st, db') ->
     if decide (slot_of db oracle GPO_IS_FEYNMAN_SLOT = 1) then st = ∅ /\ same_contents db db'
     else predeploy_installed db db' oracle
            (upgraded (info_of db oracle) (hash_slow FEYNMAN_L1_GAS_PRICE_ORACLE_BYTECODE)
               FEYNMAN_L1_GAS_PRICE_ORACLE_BYTECODE)
            [(9, 1000000000); (10, 1000000000); (11, 1)])
  /\ (apply_galileo_v2_hard_fork db = (Ok st, db') ->
     if decide (slot_of db oracle GPO_IS_GALILEO_SLOT = 1) then st = ∅ /\ same_contents db db'
     else predeploy_installed db db' oracle
            (upgraded (info_of db oracle) (hash_slow GALILEO_V2_L1_GAS_PRICE_ORACLE_BYTECODE)
               GALILEO_V2_L1_GAS_PRICE_ORACLE_BYTECODE) [(12, 1)])
  /\ (apply_tsuki_hard_fork db = (Ok st, db') ->
     if decide (acc_nonce token = 0 /\ acc_code_hash token = KECCAK_EMPTY) then
       predeploy_installed db db' NATIVE_DOGE_TOKEN_ADDRESS
         {| acc_balance := acc_balance token; acc_nonce := 1;
            acc_code_hash := TSUKI_NATIVE_DOGE_TOKEN_BYTECODE_HASH;
            acc_code := Some TSUKI_NATIVE_DOGE_TOKEN_BYTECODE |}
         [(0, 2 ^ 247)]
     else st = ∅ /\ same_contents db db').
Proof.
  intros oracle token. split; [|split].
  - intros Ef.
    apply (oracle_fork_Ok GPO_IS_FEYNMAN_SLOT FEYNMAN_L1_GAS_PRICE_ORACLE_BYTECODE
      FEYNMAN_L1_GAS_PRICE_ORACLE_STORAGE) in Ef as [Hy Hn];
      [|apply (bool_decide_unpack _); vm_compute; exact I].
    case_decide; [by apply Hy|by apply Hn].
  - intros Ef.
    apply (oracle_fork_Ok GPO_IS_GALILEO_SLOT GALILEO_V2_L1_GAS_PRICE_ORACLE_BYTECODE
      GALILEO_V2_L1_GAS_PRICE_ORACLE_STORAGE) in Ef as [Hy Hn];
      [|apply (bool_decide_unpack _); vm_compute; exact I].
    case_decide; [by apply Hy|by apply Hn].
  - intros Ef. apply tsuki_Ok in Ef as [Hn Hy]. case_decide; [by apply Hy|by apply Hn].
Qed.

(** The transitions are idempotent: run again on the state a successful run
    left, each reports no update and changes nothing. *)
Theorem transitions_idempotent `{RevmAccountsLaws} {DB E} `{Database DB E}
    `{DatabaseView DB} `{!DatabaseLaws DB E} (fork : sresult DB E EvmState)
    (db db' db'' : DB) (st st' : EvmState) :
  fork ∈ [apply_feynman_hard_fork; apply_galileo_v2_hard_fork; apply_tsuki_hard_fork] ->
  fork db = (Ok st, db') -> fork db' = (Ok st', db'') ->
  st' = ∅ /\ same_contents db' db''.
Proof.
  rewrite !elem_of_cons, elem_of_nil. intros [->|[->|[->|[]]]] E1 E2.
  - eapply (oracle_fork_again GPO_IS_FEYNMAN_SLOT FEYNMAN_L1_GAS_PRICE_ORACLE_BYTECODE
      FEYNMAN_L1_GAS_PRICE_ORACLE_STORAGE); [|right; right; left|exact E1|exact E2].
    apply (bool_decide_unpack _); vm_compute; exact I.
  - eapply (oracle_fork_again GPO_IS_GALILEO_SLOT GALILEO_V2_L1_GAS_PRICE_ORACLE_BYTECODE
      GALILEO_V2_L1_GAS_PRICE_ORACLE_STORAGE); [|left|exact E1|exact E2].
    apply (bool_decide_unpack _); vm_compute; exact I.
  - apply tsuki_Ok in E1 as [Hn Hy], E2 as [Hn' _]. apply Hn'.
    destruct (decide (acc_nonce (default default_info (info_of db NATIVE_DOGE_TOKEN_ADDRESS)) = 0
      /\ acc_code_hash (default default_info (info_of db NATIVE_DOGE_TOKEN_ADDRESS)) = KECCAK_EMPTY))
      as [He|Hne].
    + destruct (Hy He) as [[Hi _ _ _] _]. rewrite Hi. simpl. lia.
    + destruct (Hn Hne) as [_ [Hi _]]. by rewrite Hi.
Qed.

(** ** Witnesses *)

#[export] Instance ref_accounts : RevmAccounts := {
  KECCAK_EMPTY := 0xc5d2460186f7233c927e7db2dcc703c0e500b653ca82273b7bfad8045d85a470;
  hash_slow b := foldr (fun x acc => (acc * 257 + x + 1) mod (2 ^ 61 - 1)) 0 b;
  default_info :=
    {| acc_balance := 0; acc_nonce := 0;
       acc_code_hash := 0xc5d2460186f7233c927e7db2dcc703c0e500b653ca82273b7bfad8045d85a470;
       acc_code := None |};
  NATIVE_DOGE_TOKEN_ADDRESS := 0x530000000000000000000000000000000000d09e;
}.

#[export] Instance ref_accounts_laws : RevmAccountsLaws.
Proof. split; [done|discriminate]. Qed.

Definition fresh_db : MemDb := {| mem_accounts := ∅; mem_storage := ∅ |}.

(** The database a transition leaves, started from the empty one. *)
Definition after (fork : sresult MemDb unit EvmState) : MemDb := (fork fresh_db).2.

(** On a database that cannot fail, a transition always succeeds. *)
Lemma commit_total a old new entries (db : MemDb) :
  exists st db', commit_account_update (E := unit) a old new entries db = (Ok st, db').
Proof.
  assert (forall slots db, exists r db', read_originals (E := unit) a entries slots db = (Ok r, db'))
    as Hr.
  { induction entries as [|[k v] l IH]; intros slots d; [by eexists _, _|].
    unfold read_originals, mbind, sresult_bind, read_storage; simpl. apply IH. }
  unfold commit_account_update, mbind, sresult_bind. destruct (Hr ∅ db) as (r & db' & ->).
  by eexists _, _.
Qed.

Lemma oracle_total flag_slot code entries (db : MemDb) :
  exists st db', oracle_fork (E := unit) flag_slot code entries db = (Ok st, db').
Proof.
  unfold oracle_fork, mbind, sresult_bind, read_storage, read_basic; simpl.
  destruct (_ =? _); [by eexists _, _|apply commit_total].
Qed.

Lemma tsuki_total (db : MemDb) :
  exists st db', apply_tsuki_hard_fork (E := unit) db = (Ok st, db').
Proof.
  unfold apply_tsuki_hard_fork, mbind, sresult_bind, read_basic; simpl.
  destruct (_ || _); [by eexists _, _|apply commit_total].
Qed.

Lemma transitions_install_predeploys_witness :
  slot_of (after apply_feynman_hard_fork) L1_GAS_PRICE_ORACLE_ADDRESS 9 = 1000000000
  /\ slot_of (after apply_tsuki_hard_fork) NATIVE_DOGE_TOKEN_ADDRESS 0 = 2 ^ 247.
Proof.
  unfold after. split.
  - assert (exists st db', apply_feynman_hard_fork fresh_db = (@Ok _ unit st, db'))
      as (st & db' & E) by apply oracle_total. rewrite E.
    destruct (transitions_install_predeploys fresh_db db' st) as (Hf & _ & _).
    specialize (Hf E). rewrite decide_False in Hf by discriminate.
    apply (pi_slots _ _ _ _ _ Hf). left.
  - destruct (tsuki_total fresh_db) as (st & db' & E). rewrite E.
    destruct (transitions_install_predeploys fresh_db db' st) as (_ & _ & Ht).
    specialize (Ht E). rewrite decide_True in Ht by (by split).
    apply (pi_slots _ _ _ _ _ Ht). left.
Defined.

Lemma transitions_idempotent_witness :
  (apply_tsuki_hard_fork (after apply_tsuki_hard_fork)).1 = Ok ∅.
Proof.
  unfold after. destruct (tsuki_total fresh_db) as (st & db' & E1). rewrite E1. simpl.
  destruct (tsuki_total db') as (st' & db'' & E2).
  destruct (transitions_idempotent apply_tsuki_hard_fork fresh_db db' db'' st st'
    ltac:(right; right; left) E1 E2) as [-> _].
  by rewrite E2.
Defined.
