(* ===== verification/Receipt.v ===== *)
(** * Receipts

    [ScrollReceipt] (dogeos-reth-primitives/src/receipt.rs), the receipt with an
    L1 fee (dogeos-protocol-types/src/receipt/receipt.rs) and the receipt
    envelope of the network (dogeos-protocol-types/src/receipt/envelope.rs):
    wire forms with and without the bloom, storage form, accessors. *)

From stdpp Require Import prelude gmap list strings.
From Stdlib Require Import ZArith Lia.
From S2P Require Import Prelude.
From S2P Require Import Alloy.
From S2P Require Import AlloyRef.
From S2P Require Import TxType.

(** ** The receipts of [alloy_consensus] *)

(** A log, the status word and the bloom filter with their codecs; [coerce_status]
    reads a status as success or failure, and a boolean is a status. *)
Class ReceiptTypes := {
  Log : Type;
  Eip658Value : Type;
  Bloom : Type;
  status_of_bool : bool -> Eip658Value;
  coerce_status : Eip658Value -> bool;
  logs_bloom : list Log -> Bloom;
  rlp_status : codec Eip658Value;
  rlp_logs : codec (list Log);
  (** The length of the header of a string of that many bytes, when more than one. *)
  length_of_length : Z -> Z;
  (** [Encodable2718::type_flag] and [network_len] where they are not overridden. *)
  default_type_flag : Z -> option Z;
  network_len : option Z -> Z -> Z;
  (** [From<Eip2718Error> for alloy_rlp::Error]. *)
  rlp_error_of : Eip2718Error -> RlpError;
}.

Record Receipt `{ReceiptTypes} := {
  r_status : Eip658Value;
  r_cumulative_gas_used : Z;
  r_logs : list Log;
}.

Record ReceiptWithBloom `{ReceiptTypes} (R : Type) := {
  wb_receipt : R;
  wb_logs_bloom : Bloom;
}.
Arguments Build_ReceiptWithBloom {_ R} _ _.
Arguments wb_receipt {_ R} _.
Arguments wb_logs_bloom {_ R} _.

(** The bloom-carrying forms of a bare receipt: its fields, and as a list. *)
Class ReceiptRlp `{ReceiptTypes} := {
  fields_with_bloom : Receipt -> Bloom -> bytes;
  fields_with_bloom_length : Receipt -> Bloom -> Z;
  decode_fields_with_bloom : bytes -> result (ReceiptWithBloom Receipt * bytes) RlpError;
  list_with_bloom : codec (ReceiptWithBloom Receipt);
}.

(** A receipt whose fields have codecs that read them back. *)
Definition receipt_ok `{ReceiptTypes} (valid_logs : list Log -> Prop) (r : Receipt) : Prop :=
  in_u64 (r_cumulative_gas_used r) /\ valid_logs (r_logs r).

Class ReceiptLaws `{ReceiptRlp} `{Eip2718} `{Rlp} (valid_logs : list Log -> Prop) : Prop := {
  coerce_status_of_bool b : coerce_status (status_of_bool b) = b;
  rlp_status_ok : codec_ok (fun _ => True) rlp_status;
  rlp_logs_ok : codec_ok valid_logs rlp_logs;
  fields_length_exact r bloom :
    receipt_ok valid_logs r -> fields_with_bloom_length r bloom = blen (fields_with_bloom r bloom);
  decode_fields_exact r bloom :
    receipt_ok valid_logs r ->
    decode_fields_with_bloom (fields_with_bloom r bloom)
    = Ok ({| wb_receipt := r; wb_logs_bloom := bloom |}, []);
  list_with_bloom_enc r :
    enc list_with_bloom r =
      enc rlp_header {| header_list := true;
        payload_length := blen (fields_with_bloom (wb_receipt r) (wb_logs_bloom r)) |}
      ++ fields_with_bloom (wb_receipt r) (wb_logs_bloom r);
  list_with_bloom_ok :
    codec_ok (fun r => receipt_ok valid_logs (wb_receipt r)
      /\ blen (fields_with_bloom (wb_receipt r) (wb_logs_bloom r)) <= u64_max) list_with_bloom;
  (** A string header of more than one byte is read back; a byte below [0x80]
      is its own RLP form. *)
  rlp_string_header n rest :
    1 < n <= blen rest -> n <= u64_max ->
    dec rlp_header (enc rlp_header {| header_list := false; payload_length := n |} ++ rest)
    = Ok ({| header_list := false; payload_length := n |}, rest);
  rlp_string_header_len n :
    1 < n <= u64_max ->
    len rlp_header {| header_list := false; payload_length := n |}
    = blen (enc rlp_header {| header_list := false; payload_length := n |});
  rlp_u8_small x : 0 < x < 0x80 -> enc rlp_u8 x = [x];
  default_type_flag_spec ty : default_type_flag ty = if ty =? 0 then None else Some ty;
  network_len_exact flag b :
    (flag = None \/ 1 < blen b) -> network_len flag (blen b) = blen (network_encode flag b);
  length_of_length_exact ty b :
    1 < blen b -> length_of_length (blen b) + blen b = blen (network_encode (Some ty) b);
}.

(** ** Receipts with an L1 fee (receipt/receipt.rs) *)

Module L2Receipt.
Section L2Receipt.
Context `{ReceiptRlp} `{Rlp}.

Record ScrollTransactionReceipt := {
  inner : Receipt;
  l1_fee : U256;
}.

Definition new (inner : Receipt) (l1_fee : U256) : ScrollTransactionReceipt :=
  {| inner := inner; l1_fee := l1_fee |}.

Definition bloom_slow (self : ScrollTransactionReceipt) : Bloom := logs_bloom (r_logs (inner self)).

Definition with_bloom (self : ScrollTransactionReceipt) : ReceiptWithBloom ScrollTransactionReceipt :=
  {| wb_receipt := self; wb_logs_bloom := bloom_slow self |}.

Definition rlp_encoded_fields_length_with_bloom (self : ScrollTransactionReceipt) (bloom : Bloom) : Z :=
  fields_with_bloom_length (inner self) bloom.

Definition rlp_encode_fields_with_bloom (self : ScrollTransactionReceipt) (bloom : Bloom) : bytes :=
  fields_with_bloom (inner self) bloom.

Definition rlp_header_with_bloom (self : ScrollTransactionReceipt) (bloom : Bloom) : RlpHeader :=
  {| header_list := true; payload_length := rlp_encoded_fields_length_with_bloom self bloom |}.

Definition rlp_decode_fields_with_bloom (buf : bytes) :
    result (ReceiptWithBloom ScrollTransactionReceipt * bytes) RlpError :=
  let? r := decode_fields_with_bloom buf in
  let '(r, buf) := r in
  Ok ({| wb_receipt := {| inner := wb_receipt r; l1_fee := 0 |};
         wb_logs_bloom := wb_logs_bloom r |}, buf).

Definition status_or_post_state (self : ScrollTransactionReceipt) : Eip658Value :=
  r_status (inner self).
Definition status (self : ScrollTransactionReceipt) : bool := coerce_status (r_status (inner self)).
Definition bloom (self : ScrollTransactionReceipt) : Bloom := logs_bloom (r_logs (inner self)).
Definition cumulative_gas_used (self : ScrollTransactionReceipt) : Z :=
  r_cumulative_gas_used (inner self).
Definition logs (self : ScrollTransactionReceipt) : list Log := r_logs (inner self).

Definition rlp_encoded_length_with_bloom (self : ScrollTransactionReceipt) (bloom : Bloom) : Z :=
  length_with_payload (rlp_header_with_bloom self bloom).

Definition rlp_encode_with_bloom (self : ScrollTransactionReceipt) (bloom : Bloom) : bytes :=
  enc rlp_header (rlp_header_with_bloom self bloom) ++ rlp_encode_fields_with_bloom self bloom.

(** The fields are decoded from a buffer of exactly the announced length. *)
Definition rlp_decode_with_bloom (buf : bytes) :
    result (ReceiptWithBloom ScrollTransactionReceipt * bytes) RlpError :=
  let? header := dec rlp_header buf in
  let '(header, buf) := header in
  if negb (header_list header) then Err UnexpectedString
  else if blen buf <? payload_length header then Err InputTooShort
  else
    let n := Z.to_nat (payload_length header) in
    let? this := rlp_decode_fields_with_bloom (take n buf) in
    let '(this, fields_buf) := this in
    match fields_buf with
    | _ :: _ => Err UnexpectedLength
    | [] => Ok (this, drop n buf)
    end.
End L2Receipt.
End L2Receipt.
Import L2Receipt(ScrollTransactionReceipt).

(** ** The node's receipts (receipt.rs) *)

Module NodeReceipt.

Inductive ScrollReceipt `{ReceiptTypes} : Type :=
| Legacy (receipt : ScrollTransactionReceipt)
| Eip2930 (receipt : ScrollTransactionReceipt)
| Eip1559 (receipt : ScrollTransactionReceipt)
| Eip7702 (receipt : ScrollTransactionReceipt)
| L1Message (receipt : Receipt).

Section NodeReceipt.
Context `{ReceiptRlp} `{Rlp} `{Eip2718}.

Definition tx_type (self : ScrollReceipt) : ScrollTxType.t :=
  match self with
  | Legacy _ => ScrollTxType.Legacy
  | Eip2930 _ => ScrollTxType.Eip2930
  | Eip1559 _ => ScrollTxType.Eip1559
  | Eip7702 _ => ScrollTxType.Eip7702
  | L1Message _ => ScrollTxType.L1Message
  end.

Definition is_legacy (self : ScrollReceipt) : bool :=
  ScrollTxType.eq_u8 (tx_type self) 0.

Definition as_receipt (self : ScrollReceipt) : Receipt :=
  match self with
  | Legacy r | Eip2930 r | Eip1559 r | Eip7702 r => L2Receipt.inner r
  | L1Message r => r
  end.

Definition rlp_encoded_fields_length (self : ScrollReceipt) (bloom : Bloom) : Z :=
  match self with
  | Legacy r | Eip2930 r | Eip1559 r | Eip7702 r =>
      L2Receipt.rlp_encoded_fields_length_with_bloom r bloom
  | L1Message r => fields_with_bloom_length r bloom
  end.

Definition rlp_encode_fields (self : ScrollReceipt) (bloom : Bloom) : bytes :=
  match self with
  | Legacy r | Eip2930 r | Eip1559 r | Eip7702 r => L2Receipt.rlp_encode_fields_with_bloom r bloom
  | L1Message r => fields_with_bloom r bloom
  end.

Definition rlp_header_inner (self : ScrollReceipt) (bloom : Bloom) : RlpHeader :=
  {| header_list := true; payload_length := rlp_encoded_fields_length self bloom |}.

Definition rewrap {A} (make : A -> ScrollReceipt)
    (r : result (ReceiptWithBloom A * bytes) RlpError) :
    result (ReceiptWithBloom ScrollReceipt * bytes) RlpError :=
  let? r := r in
  let '(r, buf) := r in
  Ok ({| wb_receipt := make (wb_receipt r); wb_logs_bloom := wb_logs_bloom r |}, buf).

Definition rlp_decode_inner (buf : bytes) (tx_type : ScrollTxType.t) :
    result (ReceiptWithBloom ScrollReceipt * bytes) RlpError :=
  match tx_type with
  | ScrollTxType.Legacy => rewrap Legacy (L2Receipt.rlp_decode_with_bloom buf)
  | ScrollTxType.Eip2930 => rewrap Eip2930 (L2Receipt.rlp_decode_with_bloom buf)
  | ScrollTxType.Eip1559 => rewrap Eip1559 (L2Receipt.rlp_decode_with_bloom buf)
  | ScrollTxType.Eip7702 => rewrap Eip7702 (L2Receipt.rlp_decode_with_bloom buf)
  | ScrollTxType.L1Message => rewrap L1Message (dec list_with_bloom buf)
  end.

Definition fields_without_bloom (r : Receipt) : bytes :=
  enc rlp_status (r_status r) ++ enc rlp_u64 (r_cumulative_gas_used r) ++ enc rlp_logs (r_logs r).

Definition fields_without_bloom_length (r : Receipt) : Z :=
  len rlp_status (r_status r) + len rlp_u64 (r_cumulative_gas_used r) + len rlp_logs (r_logs r).

Definition rlp_encode_fields_without_bloom (self : ScrollReceipt) : bytes :=
  match self with
  | Legacy r | Eip2930 r | Eip1559 r | Eip7702 r => fields_without_bloom (L2Receipt.inner r)
  | L1Message r => fields_without_bloom r
  end.

Definition rlp_encoded_fields_length_without_bloom (self : ScrollReceipt) : Z :=
  match self with
  | Legacy r | Eip2930 r | Eip1559 r | Eip7702 r => fields_without_bloom_length (L2Receipt.inner r)
  | L1Message r => fields_without_bloom_length r
  end.

Definition rlp_header_inner_without_bloom (self : ScrollReceipt) : RlpHeader :=
  {| header_list := true; payload_length := rlp_encoded_fields_length_without_bloom self |}.

Definition rlp_decode_inner_without_bloom (buf : bytes) (tx_type : ScrollTxType.t) :
    result (ScrollReceipt * bytes) RlpError :=
  let? header := dec rlp_header buf in
  let '(header, buf) := header in
  if negb (header_list header) then Err UnexpectedString
  else
    let remaining := blen buf in
    let? status := dec rlp_status buf in
    let? cumulative_gas_used := dec rlp_u64 status.2 in
    let? logs := dec rlp_logs cumulative_gas_used.2 in
    let buf := logs.2 in
    if negb (blen buf + payload_length header =? remaining) then Err UnexpectedLength
    else
      let inner := {| r_status := status.1; r_cumulative_gas_used := cumulative_gas_used.1;
                      r_logs := logs.1 |} in
      let l2 := {| L2Receipt.inner := inner; L2Receipt.l1_fee := 0 |} in
      Ok (match tx_type with
          | ScrollTxType.Legacy => Legacy l2
          | ScrollTxType.Eip2930 => Eip2930 l2
          | ScrollTxType.Eip1559 => Eip1559 l2
          | ScrollTxType.Eip7702 => Eip7702 l2
          | ScrollTxType.L1Message => L1Message inner
          end, buf).

Definition l1_fee (self : ScrollReceipt) : U256 :=
  match self with
  | Legacy r | Eip2930 r | Eip1559 r | Eip7702 r => L2Receipt.l1_fee r
  | L1Message _ => 0
  end.

Definition eip2718_encoded_length_with_bloom (self : ScrollReceipt) (bloom : Bloom) : Z :=
  Z.b2z (negb (is_legacy self)) + length_with_payload (rlp_header_inner self bloom).

Definition eip2718_encode_with_bloom (self : ScrollReceipt) (bloom : Bloom) : bytes :=
  (if negb (is_legacy self) then [ScrollTxType.to_u8 (tx_type self)] else [])
  ++ enc rlp_header (rlp_header_inner self bloom) ++ rlp_encode_fields self bloom.

Definition rlp_encoded_length_with_bloom (self : ScrollReceipt) (bloom : Bloom) : Z :=
  let length := eip2718_encoded_length_with_bloom self bloom in
  if negb (is_legacy self) then
    length + len rlp_header {| header_list := false;
                               payload_length := eip2718_encoded_length_with_bloom self bloom |}
  else length.

Definition rlp_encode_with_bloom (self : ScrollReceipt) (bloom : Bloom) : bytes :=
  (if negb (is_legacy self) then
     enc rlp_header {| header_list := false;
                       payload_length := eip2718_encoded_length_with_bloom self bloom |}
   else [])
  ++ eip2718_encode_with_bloom self bloom.

Definition rlp_decode_with_bloom (buf : bytes) :
    result (ReceiptWithBloom ScrollReceipt * bytes) RlpError :=
  let? header := dec rlp_header buf in
  let '(header, header_buf) := header in
  if header_list header then rlp_decode_inner buf ScrollTxType.Legacy
  else
    let buf := header_buf in
    let remaining := blen buf in
    let? tx_type := ScrollTxType.decode buf in
    let '(tx_type, buf) := tx_type in
    let? this := rlp_decode_inner buf tx_type in
    let '(this, buf) := this in
    if negb (blen buf + payload_length header =? remaining) then Err UnexpectedLength
    else Ok (this, buf).

Definition encode_2718_len (self : ScrollReceipt) : Z :=
  Z.b2z (negb (is_legacy self)) + length_with_payload (rlp_header_inner_without_bloom self).

Definition encode_2718 (self : ScrollReceipt) : bytes :=
  (if negb (is_legacy self) then [ScrollTxType.to_u8 (tx_type self)] else [])
  ++ enc rlp_header (rlp_header_inner_without_bloom self) ++ rlp_encode_fields_without_bloom self.

Definition typed_decode (ty : Z) (buf : bytes) : result (ScrollReceipt * bytes) Eip2718Error :=
  let? tx_type := ScrollTxType.try_from_u8 ty in
  map_err RlpErr (rlp_decode_inner_without_bloom buf tx_type).

Definition fallback_decode (buf : bytes) : result (ScrollReceipt * bytes) Eip2718Error :=
  map_err RlpErr (rlp_decode_inner_without_bloom buf ScrollTxType.Legacy).

Definition ty (self : ScrollReceipt) : Z := ScrollTxType.to_u8 (tx_type self).

Definition type_flag (self : ScrollReceipt) : option Z := default_type_flag (ty self).

Definition encode (self : ScrollReceipt) : bytes :=
  network_encode (type_flag self) (encode_2718 self).

Definition length_rlp (self : ScrollReceipt) : Z :=
  network_len (type_flag self) (encode_2718_len self).

Definition decode (buf : bytes) : result (ScrollReceipt * bytes) RlpError :=
  map_err rlp_error_of (network_decode typed_decode fallback_decode buf).

Definition status_or_post_state (self : ScrollReceipt) : Eip658Value := r_status (as_receipt self).
Definition status (self : ScrollReceipt) : bool := coerce_status (r_status (as_receipt self)).
Definition bloom (self : ScrollReceipt) : Bloom := logs_bloom (r_logs (as_receipt self)).
Definition cumulative_gas_used (self : ScrollReceipt) : Z := r_cumulative_gas_used (as_receipt self).
Definition logs (self : ScrollReceipt) : list Log := r_logs (as_receipt self).

(** The trie builder is an argument: the root of the encoded items in order. *)
Definition calculate_receipt_root_no_memo (ordered_trie_root : list bytes -> B256)
    (receipts : list ScrollReceipt) : B256 :=
  ordered_trie_root (map (fun r => eip2718_encode_with_bloom r (bloom r)) receipts).

(** *** The storage form *)

(** [OpTxType] only forwards to the transaction type. *)
Definition OpTxType_to_compact `{CompactIds} (self : ScrollTxType.t) : bytes * Z :=
  ScrollTxType.to_compact self.
Definition OpTxType_from_compact `{CompactIds} (buf : bytes) (len : Z) :
    outcome (ScrollTxType.t * bytes) := ScrollTxType.from_compact buf len.

Record CompactScrollReceipt := {
  c_tx_type : ScrollTxType.t;
  c_success : bool;
  c_cumulative_gas_used : Z;
  c_logs : list Log;
  c_l1_fee : option U256;
}.

Definition to_compact_receipt (receipt : ScrollReceipt) : CompactScrollReceipt :=
  {| c_tx_type := tx_type receipt;
     c_success := status receipt;
     c_cumulative_gas_used := cumulative_gas_used receipt;
     c_logs := r_logs (as_receipt receipt);
     c_l1_fee := if negb (l1_fee receipt =? 0) then Some (l1_fee receipt) else None |}.

Definition of_compact_receipt (receipt : CompactScrollReceipt) : ScrollReceipt :=
  let inner := {| r_status := status_of_bool (c_success receipt);
                  r_cumulative_gas_used := c_cumulative_gas_used receipt;
                  r_logs := c_logs receipt |} in
  let l2 := L2Receipt.new inner (default 0 (c_l1_fee receipt)) in
  match c_tx_type receipt with
  | ScrollTxType.Legacy => Legacy l2
  | ScrollTxType.Eip2930 => Eip2930 l2
  | ScrollTxType.Eip1559 => Eip1559 l2
  | ScrollTxType.Eip7702 => Eip7702 l2
  | ScrollTxType.L1Message => L1Message inner
  end.

(** The derived codec of [CompactScrollReceipt] is an interface. *)
Context `{!Compact CompactScrollReceipt}.

Definition to_compact (self : ScrollReceipt) : bytes := to_compact (to_compact_receipt self).

Definition from_compact (buf : bytes) (len : Z) : ScrollReceipt * bytes :=
  let '(receipt, buf) := from_compact buf len in (of_compact_receipt receipt, buf).
End NodeReceipt.
End NodeReceipt.
Import NodeReceipt(ScrollReceipt).

(** ** The receipt envelope (receipt/envelope.rs) *)

Module ReceiptEnvelope.

Inductive ScrollReceiptEnvelope `{ReceiptTypes} : Type :=
| Legacy (t : ReceiptWithBloom Receipt)
| Eip2930 (t : ReceiptWithBloom Receipt)
| Eip1559 (t : ReceiptWithBloom Receipt)
| Eip7702 (t : ReceiptWithBloom Receipt)
| L1Message (t : ReceiptWithBloom Receipt).

Section ReceiptEnvelope.
Context `{ReceiptRlp} `{Rlp} `{Eip2718}.

Definition from_parts (status : bool) (cumulative_gas_used : Z) (logs : list Log)
    (tx_type : ScrollTxType.t) : ScrollReceiptEnvelope :=
  let receipt := {| wb_receipt := {| r_status := status_of_bool status;
                                     r_cumulative_gas_used := cumulative_gas_used;
                                     r_logs := logs |};
                    wb_logs_bloom := logs_bloom logs |} in
  match tx_type with
  | ScrollTxType.Legacy => Legacy receipt
  | ScrollTxType.Eip2930 => Eip2930 receipt
  | ScrollTxType.Eip1559 => Eip1559 receipt
  | ScrollTxType.Eip7702 => Eip7702 receipt
  | ScrollTxType.L1Message => L1Message receipt
  end.

Definition tx_type (self : ScrollReceiptEnvelope) : ScrollTxType.t :=
  match self with
  | Legacy _ => ScrollTxType.Legacy
  | Eip2930 _ => ScrollTxType.Eip2930
  | Eip1559 _ => ScrollTxType.Eip1559
  | Eip7702 _ => ScrollTxType.Eip7702
  | L1Message _ => ScrollTxType.L1Message
  end.

Definition as_receipt (self : ScrollReceiptEnvelope) : option Receipt :=
  match self with
  | Legacy t | Eip2930 t | Eip1559 t | Eip7702 t | L1Message t => Some (wb_receipt t)
  end.

(** [Option::unwrap]. *)
Definition unwrap {A} (o : option A) : outcome A :=
  match o with
  | Some a => Returns a
  | None => Panics "called `Option::unwrap()` on a `None` value"
  end.

Definition map_receipt {A} (f : Receipt -> A) (self : ScrollReceiptEnvelope) : outcome A :=
  match unwrap (as_receipt self) with Returns r => Returns (f r) | Panics msg => Panics msg end.

Definition status (self : ScrollReceiptEnvelope) : outcome bool :=
  map_receipt (fun r => coerce_status (r_status r)) self.

Definition is_success (self : ScrollReceiptEnvelope) : outcome bool := status self.

Definition cumulative_gas_used (self : ScrollReceiptEnvelope) : outcome Z :=
  map_receipt r_cumulative_gas_used self.

Definition logs (self : ScrollReceiptEnvelope) : outcome (list Log) := map_receipt r_logs self.

Definition status_or_post_state (self : ScrollReceiptEnvelope) : outcome Eip658Value :=
  map_receipt r_status self.

Definition logs_bloom (self : ScrollReceiptEnvelope) : Bloom :=
  match self with
  | Legacy t | Eip2930 t | Eip1559 t | Eip7702 t | L1Message t => wb_logs_bloom t
  end.

Definition bloom (self : ScrollReceiptEnvelope) : Bloom := logs_bloom self.
Definition bloom_cheap (self : ScrollReceiptEnvelope) : option Bloom := Some (bloom self).

Definition as_l1_message_receipt_with_bloom (self : ScrollReceiptEnvelope) :
    option (ReceiptWithBloom Receipt) :=
  match self with L1Message t => Some t | _ => None end.

Definition as_l1_message_receipt (self : ScrollReceiptEnvelope) : option Receipt :=
  match self with L1Message t => Some (wb_receipt t) | _ => None end.

Definition inner_length (self : ScrollReceiptEnvelope) : Z :=
  match self with
  | Legacy t | Eip2930 t | Eip1559 t | Eip7702 t | L1Message t => len list_with_bloom t
  end.

Definition rlp_payload_length (self : ScrollReceiptEnvelope) : Z :=
  let length := inner_length self in
  match self with Legacy _ => length | _ => length + 1 end.

Definition ty (self : ScrollReceiptEnvelope) : Z :=
  ScrollTxType.to_u8
    match self with
    | Legacy _ => ScrollTxType.Legacy
    | Eip2930 _ => ScrollTxType.Eip2930
    | Eip1559 _ => ScrollTxType.Eip1559
    | Eip7702 _ => ScrollTxType.Eip7702
    | L1Message _ => ScrollTxType.L1Message
    end.

(** [Typed2718::is_legacy]: the type identifier is zero. *)
Definition is_legacy (self : ScrollReceiptEnvelope) : bool := ty self =? 0.

Definition type_flag (self : ScrollReceiptEnvelope) : option Z :=
  match self with
  | Legacy _ => None
  | Eip2930 _ => Some (ScrollTxType.to_u8 ScrollTxType.Eip2930)
  | Eip1559 _ => Some (ScrollTxType.to_u8 ScrollTxType.Eip1559)
  | Eip7702 _ => Some (ScrollTxType.to_u8 ScrollTxType.Eip7702)
  | L1Message _ => Some (ScrollTxType.to_u8 ScrollTxType.L1Message)
  end.

Definition encode_2718_len (self : ScrollReceiptEnvelope) : Z :=
  inner_length self + Z.b2z (negb (is_legacy self)).

Definition encode_2718 (self : ScrollReceiptEnvelope) : bytes :=
  match type_flag self with None => [] | Some ty => [ty] end
  ++ match self with
     | Legacy t | Eip2930 t | Eip1559 t | Eip7702 t | L1Message t => enc list_with_bloom t
     end.

Definition encode (self : ScrollReceiptEnvelope) : bytes :=
  network_encode (type_flag self) (encode_2718 self).

Definition length_rlp (self : ScrollReceiptEnvelope) : Z :=
  let payload_length := rlp_payload_length self in
  if negb (is_legacy self) then payload_length + length_of_length payload_length
  else payload_length.

Definition wrap_decoded (make : ReceiptWithBloom Receipt -> ScrollReceiptEnvelope) (buf : bytes) :
    result (ScrollReceiptEnvelope * bytes) Eip2718Error :=
  map_err RlpErr (rmap (fun '(t, buf) => (make t, buf)) (dec list_with_bloom buf)).

Definition typed_decode (ty : Z) (buf : bytes) :
    result (ScrollReceiptEnvelope * bytes) Eip2718Error :=
  let? v := map_err (fun _ => UnexpectedType ty) (ScrollTxType.try_from_u8 ty) in
  match v with
  | ScrollTxType.Legacy => Err (RlpErr (RlpCustom "type-0 eip2718 transactions are not supported"))
  | ScrollTxType.Eip2930 => wrap_decoded Eip2930 buf
  | ScrollTxType.Eip1559 => wrap_decoded Eip1559 buf
  | ScrollTxType.Eip7702 => wrap_decoded Eip7702 buf
  | ScrollTxType.L1Message => wrap_decoded L1Message buf
  end.

Definition fallback_decode (buf : bytes) : result (ScrollReceiptEnvelope * bytes) Eip2718Error :=
  wrap_decoded Legacy buf.

Definition decode (buf : bytes) : result (ScrollReceiptEnvelope * bytes) RlpError :=
  match network_decode typed_decode fallback_decode buf with
  | Err _ => Err (RlpCustom "Unexpected type")
  | Ok v => Ok v
  end.
End ReceiptEnvelope.
End ReceiptEnvelope.
Import ReceiptEnvelope(ScrollReceiptEnvelope).

(** ** What the encodings keep *)

(** The wire forms drop the L1 fee: they are read back with the fee zero. *)
Definition without_fee `{ReceiptTypes} (r : ScrollReceipt) : ScrollReceipt :=
  let strip l2 := L2Receipt.new (L2Receipt.inner l2) 0 in
  match r with
  | NodeReceipt.Legacy l2 => NodeReceipt.Legacy (strip l2)
  | NodeReceipt.Eip2930 l2 => NodeReceipt.Eip2930 (strip l2)
  | NodeReceipt.Eip1559 l2 => NodeReceipt.Eip1559 (strip l2)
  | NodeReceipt.Eip7702 l2 => NodeReceipt.Eip7702 (strip l2)
  | NodeReceipt.L1Message r => NodeReceipt.L1Message r
  end.

(** The envelope of a receipt with a bloom. *)
Definition envelope_of `{ReceiptTypes} (r : ScrollReceipt) (bloom : Bloom) : ScrollReceiptEnvelope :=
  let t := Build_ReceiptWithBloom (NodeReceipt.as_receipt r) bloom in
  match r with
  | NodeReceipt.Legacy _ => ReceiptEnvelope.Legacy t
  | NodeReceipt.Eip2930 _ => ReceiptEnvelope.Eip2930 t
  | NodeReceipt.Eip1559 _ => ReceiptEnvelope.Eip1559 t
  | NodeReceipt.Eip7702 _ => ReceiptEnvelope.Eip7702 t
  | NodeReceipt.L1Message _ => ReceiptEnvelope.L1Message t
  end.

(** A receipt with fields at their widths and an encoding that fits a [usize]
    even behind a type byte. *)
Definition encodable `{ReceiptRlp} `{Rlp} (valid_logs : list Log -> Prop) (r : ScrollReceipt)
    (bloom : Bloom) : Prop :=
  let inner := NodeReceipt.as_receipt r in
  receipt_ok valid_logs inner
  /\ blen (NodeReceipt.eip2718_encode_with_bloom r bloom) <= u64_max
  /\ blen (NodeReceipt.encode_2718 r) <= u64_max.

(** The derived storage codec reads a prefix back, given fields at their widths. *)
Class CompactReceiptLaws `{ReceiptTypes} `{!Compact NodeReceipt.CompactScrollReceipt}
    (valid_logs : list Log -> Prop) : Prop := {
  compact_receipt_roundtrip c rest :
    in_u64 (NodeReceipt.c_cumulative_gas_used c) -> valid_logs (NodeReceipt.c_logs c) ->
    in_u256 (default 0 (NodeReceipt.c_l1_fee c)) ->
    from_compact (to_compact c ++ rest) (blen (to_compact c ++ rest)) = (c, rest);
}.

(** ** Lemmas *)

Section Lemmas.
Context `{ReceiptRlp} `{Rlp} `{!RlpLaws} `{Eip2718} `{!Eip2718Laws}.
Context {valid_logs : list Log -> Prop} `{!ReceiptLaws valid_logs}.

Lemma without_bloom_length r :
  receipt_ok valid_logs r ->
  NodeReceipt.fields_without_bloom_length r = blen (NodeReceipt.fields_without_bloom r).
Proof.
  intros [? ?]. unfold NodeReceipt.fields_without_bloom_length, NodeReceipt.fields_without_bloom.
  rewrite (len_enc rlp_status_ok), (len_enc rlp_u64_ok), (len_enc rlp_logs_ok) by done.
  autorewrite with bytes. lia.
Qed.

(** The list of the three fields is read back under every type. *)
Lemma decode_without_bloom r ty rest :
  receipt_ok valid_logs r -> blen (NodeReceipt.fields_without_bloom r) <= u64_max ->
  NodeReceipt.rlp_decode_inner_without_bloom
    (enc rlp_header {| header_list := true;
       payload_length := NodeReceipt.fields_without_bloom_length r |}
     ++ NodeReceipt.fields_without_bloom r ++ rest) ty
  = let l2 := L2Receipt.new r 0 in
    Ok (match ty with
        | ScrollTxType.Legacy => NodeReceipt.Legacy l2
        | ScrollTxType.Eip2930 => NodeReceipt.Eip2930 l2
        | ScrollTxType.Eip1559 => NodeReceipt.Eip1559 l2
        | ScrollTxType.Eip7702 => NodeReceipt.Eip7702 l2
        | ScrollTxType.L1Message => NodeReceipt.L1Message r
        end, rest).
Proof.
  intros Hr Hlen. rewrite without_bloom_length by done.
  pose proof (blen_nonneg (NodeReceipt.fields_without_bloom r)).
  pose proof (blen_nonneg rest).
  unfold NodeReceipt.rlp_decode_inner_without_bloom.
  rewrite rlp_list_header by (rewrite ?blen_app; lia). cbn [rbind header_list negb payload_length].
  destruct Hr as [? ?].
  replace (NodeReceipt.fields_without_bloom r ++ rest) with
    (enc rlp_status (r_status r) ++ enc rlp_u64 (r_cumulative_gas_used r)
     ++ enc rlp_logs (r_logs r) ++ rest)
    by (unfold NodeReceipt.fields_without_bloom; by rewrite <- !app_assoc).
  rewrite (dec_enc rlp_status_ok) by done. cbn [rbind fst snd].
  rewrite (dec_enc rlp_u64_ok) by done. cbn [rbind fst snd].
  rewrite (dec_enc rlp_logs_ok) by done. cbn [rbind fst snd].
  rewrite (proj2 (Z.eqb_eq _ _))
    by (unfold NodeReceipt.fields_without_bloom; rewrite !blen_app; lia).
  by destruct r, ty.
Qed.

(** A receipt with an L1 fee is read back from its bloom form without the fee. *)
Lemma l2_decode_with_bloom r bloom rest :
  receipt_ok valid_logs (L2Receipt.inner r) ->
  blen (fields_with_bloom (L2Receipt.inner r) bloom) <= u64_max ->
  L2Receipt.rlp_decode_with_bloom (L2Receipt.rlp_encode_with_bloom r bloom ++ rest)
  = Ok ({| wb_receipt := L2Receipt.new (L2Receipt.inner r) 0; wb_logs_bloom := bloom |}, rest).
Proof.
  intros Hr Hlen. destruct r as [r fee]. simpl in *.
  unfold L2Receipt.rlp_decode_with_bloom, L2Receipt.rlp_encode_with_bloom,
    L2Receipt.rlp_header_with_bloom, L2Receipt.rlp_encoded_fields_length_with_bloom,
    L2Receipt.rlp_encode_fields_with_bloom. simpl.
  rewrite fields_length_exact by done.
  set (fields := fields_with_bloom r bloom) in *.
  pose proof (blen_nonneg fields). pose proof (blen_nonneg rest).
  rewrite <- app_assoc, rlp_list_header by (rewrite ?blen_app; lia).
  cbn [rbind header_list negb payload_length].
  rewrite (proj2 (Z.ltb_ge _ _)) by (rewrite blen_app; lia).
  replace (Z.to_nat (blen fields)) with (length fields) by (unfold blen; lia).
  rewrite take_app_length, drop_app_length.
  unfold L2Receipt.rlp_decode_fields_with_bloom. unfold fields.
  by rewrite decode_fields_exact.
Qed.

(** Behind the type byte, the node's bloom form is the list of the bare receipt. *)
Lemma encode_with_bloom_list r bloom :
  receipt_ok valid_logs (NodeReceipt.as_receipt r) ->
  enc rlp_header (NodeReceipt.rlp_header_inner r bloom) ++ NodeReceipt.rlp_encode_fields r bloom
  = enc list_with_bloom (Build_ReceiptWithBloom (NodeReceipt.as_receipt r) bloom).
Proof.
  intros Hr. rewrite list_with_bloom_enc. simpl. rewrite <- fields_length_exact by done.
  by destruct r.
Qed.

Lemma header_inner_length r bloom :
  receipt_ok valid_logs (NodeReceipt.as_receipt r) ->
  blen (fields_with_bloom (NodeReceipt.as_receipt r) bloom) <= u64_max ->
  length_with_payload (NodeReceipt.rlp_header_inner r bloom)
  = blen (enc rlp_header (NodeReceipt.rlp_header_inner r bloom)
          ++ NodeReceipt.rlp_encode_fields r bloom).
Proof.
  intros Hr Hlen. unfold length_with_payload, NodeReceipt.rlp_header_inner.
  assert (NodeReceipt.rlp_encoded_fields_length r bloom
    = blen (fields_with_bloom (NodeReceipt.as_receipt r) bloom)) as ->.
  { rewrite <- fields_length_exact by done. by destruct r. }
  rewrite rlp_list_header_len, blen_app by (split; [apply blen_nonneg|done]).
  simpl. f_equal. by destruct r.
Qed.

(** Every list form starts with a byte of at least [0xc0], so is not empty. *)
Lemma list_head payload :
  blen payload <= u64_max ->
  exists b l, enc rlp_header {| header_list := true; payload_length := blen payload |} ++ payload
              = b :: l /\ 0xc0 <= b.
Proof.
  intros Hlen. destruct (rlp_list_header_first (blen payload)) as (b & l & E & Hb).
  { split; [apply blen_nonneg|done]. }
  exists b, (l ++ payload). rewrite E. simpl. split; [done|lia].
Qed.

(** The length of a list is bounded by the length of anything that holds it. *)
Lemma payload_bound (flag : bytes) payload :
  blen (flag ++ enc rlp_header {| header_list := true; payload_length := blen payload |} ++ payload)
    <= u64_max ->
  blen payload <= u64_max.
Proof.
  rewrite !blen_app. pose proof (blen_nonneg flag).
  pose proof (blen_nonneg (enc rlp_header {| header_list := true; payload_length := blen payload |})).
  lia.
Qed.

(** A type byte, absent for type zero, and a list: both EIP-2718 readers give back
    what [typed_decode] or [fallback_decode] reads from the list. *)
Lemma wire_2718_roundtrip {T} (typed : Z -> decoder2718 T) (fallback : decoder2718 T) ty payload rest t :
  let list := enc rlp_header {| header_list := true; payload_length := blen payload |} ++ payload in
  let wire := (if ty =? 0 then [] else [ty]) ++ list in
  0 <= ty <= 0x7f -> blen wire <= u64_max ->
  (if ty =? 0 then fallback (list ++ rest) else typed ty (list ++ rest)) = Ok (t, rest) ->
  decode_2718 typed fallback (wire ++ rest) = Ok (t, rest)
  /\ network_decode typed fallback (network_encode (default_type_flag ty) wire ++ rest) = Ok (t, rest)
  /\ (default_type_flag ty = None \/ 1 < blen wire).
Proof.
  intros l wire Hty Hlen Ht. pose proof (payload_bound _ _ Hlen) as Hp.
  destruct (list_head payload Hp) as (b & l' & E & Hb). fold l in E.
  rewrite default_type_flag_spec. unfold wire in *. destruct (Z.eqb_spec ty 0) as [->|Hne]; simpl in *.
  - split; [|split; [|by left]].
    + rewrite <- Ht, E. simpl. rewrite decode_2718_fallback by lia. done.
    + rewrite network_encode_untyped. subst l. rewrite <- app_assoc in *.
      by rewrite network_decode_list.
  - split; [|split].
    + by rewrite decode_2718_typed by lia.
    + apply network_decode_typed; [lia|by rewrite E|done..].
    + right. rewrite E, !blen_cons. pose proof (blen_nonneg l'). lia.
Qed.
End Lemmas.

Section NodeLemmas.
Context `{ReceiptRlp} `{Rlp} `{!RlpLaws} `{Eip2718} `{!Eip2718Laws}.
Context {valid_logs : list Log -> Prop} `{!ReceiptLaws valid_logs}.

(** The bloomless form: an optional type byte and the list of the fields. *)
Lemma encode_2718_list r :
  receipt_ok valid_logs (NodeReceipt.as_receipt r) ->
  let payload := NodeReceipt.fields_without_bloom (NodeReceipt.as_receipt r) in
  NodeReceipt.encode_2718 r
  = (if NodeReceipt.is_legacy r then [] else [NodeReceipt.ty r])
    ++ enc rlp_header {| header_list := true; payload_length := blen payload |} ++ payload.
Proof.
  intros Hr payload. subst payload. rewrite <- without_bloom_length by done.
  by destruct r.
Qed.

Lemma encode_2718_len_exact r :
  receipt_ok valid_logs (NodeReceipt.as_receipt r) -> blen (NodeReceipt.encode_2718 r) <= u64_max ->
  NodeReceipt.encode_2718_len r = blen (NodeReceipt.encode_2718 r).
Proof.
  intros Hr Hlen. rewrite encode_2718_list in * by done. cbn zeta in *.
  set (payload := NodeReceipt.fields_without_bloom _) in *.
  unfold NodeReceipt.encode_2718_len, length_with_payload, NodeReceipt.rlp_header_inner_without_bloom.
  assert (NodeReceipt.rlp_encoded_fields_length_without_bloom r = blen payload) as ->.
  { unfold payload. rewrite <- without_bloom_length by done. by destruct r. }
  rewrite !blen_app in *. simpl payload_length.
  pose proof (blen_nonneg payload).
  pose proof (blen_nonneg (if NodeReceipt.is_legacy r then [] else [NodeReceipt.ty r])).
  pose proof (blen_nonneg (enc rlp_header {| header_list := true; payload_length := blen payload |})).
  rewrite rlp_list_header_len by lia. destruct (NodeReceipt.is_legacy r); simpl; unfold blen; simpl; lia.
Qed.

Lemma bloom_length_exact r bloom :
  encodable valid_logs r bloom ->
  NodeReceipt.eip2718_encoded_length_with_bloom r bloom
  = blen (NodeReceipt.eip2718_encode_with_bloom r bloom)
  /\ blen (fields_with_bloom (NodeReceipt.as_receipt r) bloom) <= u64_max.
Proof.
  intros (Hr & Hlen & _).
  unfold NodeReceipt.eip2718_encoded_length_with_bloom, NodeReceipt.eip2718_encode_with_bloom in *.
  assert (blen (fields_with_bloom (NodeReceipt.as_receipt r) bloom) <= u64_max).
  { rewrite encode_with_bloom_list, list_with_bloom_enc in Hlen by done. rewrite !blen_app in Hlen.
    simpl in Hlen. repeat match type of Hlen with context [blen ?b] =>
      lazymatch goal with H : 0 <= blen b |- _ => fail | _ => pose proof (blen_nonneg b) end end. lia. }
  rewrite header_inner_length, (blen_app (if negb _ then _ else _)) by done.
  split; [|done]. by destruct r.
Qed.

(** The bloom form as an optional type byte and the list of the bare receipt. *)
Lemma bloom_wire r bloom :
  receipt_ok valid_logs (NodeReceipt.as_receipt r) ->
  NodeReceipt.eip2718_encode_with_bloom r bloom
  = (if NodeReceipt.is_legacy r then [] else [NodeReceipt.ty r])
    ++ enc list_with_bloom (Build_ReceiptWithBloom (NodeReceipt.as_receipt r) bloom).
Proof.
  intros Hr. unfold NodeReceipt.eip2718_encode_with_bloom.
  rewrite encode_with_bloom_list by done. by destruct r.
Qed.

Lemma decode_inner_bloom r bloom rest :
  encodable valid_logs r bloom ->
  NodeReceipt.rlp_decode_inner
    (enc list_with_bloom (Build_ReceiptWithBloom (NodeReceipt.as_receipt r) bloom) ++ rest)
    (NodeReceipt.tx_type r)
  = Ok ({| wb_receipt := without_fee r; wb_logs_bloom := bloom |}, rest).
Proof.
  intros He. pose proof He as (Hr & _). destruct (bloom_length_exact r bloom He) as [_ Hp].
  destruct r as [r|r|r|r|r]; simpl in *; cycle 4.
  { by rewrite (dec_enc list_with_bloom_ok). }
  all: rewrite <- (encode_with_bloom_list (NodeReceipt.Legacy r)) by done;
    pose proof (l2_decode_with_bloom r bloom rest Hr Hp) as Hd;
    unfold L2Receipt.rlp_encode_with_bloom, L2Receipt.rlp_header_with_bloom in Hd;
    unfold NodeReceipt.rlp_header_inner; simpl; by rewrite Hd.
Qed.

Lemma bloom_wire_long r bloom :
  encodable valid_logs r bloom -> NodeReceipt.is_legacy r = false ->
  1 < blen (NodeReceipt.eip2718_encode_with_bloom r bloom) /\ 0 < NodeReceipt.ty r < 0x80.
Proof.
  intros He Hl. destruct (bloom_length_exact r bloom He) as [_ Hp].
  destruct (list_head (fields_with_bloom (NodeReceipt.as_receipt r) bloom) Hp) as (b & l & E & _).
  rewrite bloom_wire, Hl, list_with_bloom_enc by apply He. simpl. rewrite E, !blen_cons.
  split; [pose proof (blen_nonneg l); lia|].
  destruct r; try discriminate Hl; unfold NodeReceipt.ty; simpl; unfold L1_MESSAGE_TX_TYPE_ID; lia.
Qed.

Lemma envelope_len_exact r bloom :
  encodable valid_logs r bloom ->
  ReceiptEnvelope.encode_2718_len (envelope_of r bloom)
  = blen (NodeReceipt.eip2718_encode_with_bloom r bloom).
Proof.
  intros He. destruct (bloom_length_exact r bloom He) as [_ Hp]. pose proof He as (Hr & _).
  rewrite bloom_wire, blen_app, <- (len_enc list_with_bloom_ok) by done.
  unfold ReceiptEnvelope.encode_2718_len.
  destruct r; cbn; rewrite ?blen_cons, ?blen_nil; lia.
Qed.
End NodeLemmas.

(** ** Properties *)

(** The bloomless wire form of a receipt, plain EIP-2718 or inside the network
    string, is read back from any buffer that starts with it, with every field
    but the L1 fee, which is not part of it; the declared lengths are exact. *)
Theorem receipt_2718_roundtrip `{ReceiptRlp} `{Rlp} `{!RlpLaws} `{Eip2718} `{!Eip2718Laws}
    {valid_logs : list Log -> Prop} `{!ReceiptLaws valid_logs}
    (r : ScrollReceipt) (bloom : Bloom) (rest : bytes) :
  encodable valid_logs r bloom ->
  decode_2718 NodeReceipt.typed_decode NodeReceipt.fallback_decode
    (NodeReceipt.encode_2718 r ++ rest) = Ok (without_fee r, rest)
  /\ NodeReceipt.decode (NodeReceipt.encode r ++ rest) = Ok (without_fee r, rest)
  /\ NodeReceipt.encode_2718_len r = blen (NodeReceipt.encode_2718 r)
  /\ NodeReceipt.length_rlp r = blen (NodeReceipt.encode r).
Proof.
  intros (Hr & _ & Hlen).
  pose proof (encode_2718_len_exact r Hr Hlen) as Hexact.
  assert (decode_2718 NodeReceipt.typed_decode NodeReceipt.fallback_decode
    (NodeReceipt.encode_2718 r ++ rest) = Ok (without_fee r, rest)
    /\ network_decode NodeReceipt.typed_decode NodeReceipt.fallback_decode
      (NodeReceipt.encode r ++ rest) = Ok (without_fee r, rest)
    /\ (NodeReceipt.type_flag r = None \/ 1 < blen (NodeReceipt.encode_2718 r)))
    as (Hd & Hn & Hlong).
  { unfold NodeReceipt.encode, NodeReceipt.type_flag.
    rewrite encode_2718_list in * by done. cbn zeta in *.
    pose proof (payload_bound _ _ Hlen) as Hp.
    apply wire_2718_roundtrip; [apply to_u8_range|done|].
    pose proof (fun ty => decode_without_bloom (NodeReceipt.as_receipt r) ty rest Hr Hp) as Hdec.
    rewrite without_bloom_length in Hdec by done. rewrite <- app_assoc.
    unfold NodeReceipt.fallback_decode, NodeReceipt.typed_decode, NodeReceipt.ty.
    rewrite try_from_to_u8. cbn [rbind]. rewrite !Hdec. by destruct r. }
  split; [done|]. split; [unfold NodeReceipt.decode; by rewrite Hn|]. split; [done|].
  unfold NodeReceipt.length_rlp, NodeReceipt.encode. rewrite Hexact. by apply network_len_exact.
Qed.


(** The network form with a bloom is read back from any buffer that starts with
    it, with the bloom and every field but the L1 fee, and both declared
    lengths are the number of bytes written. *)
Theorem receipt_bloom_roundtrip `{ReceiptRlp} `{Rlp} `{!RlpLaws} `{Eip2718} `{!Eip2718Laws}
    {valid_logs : list Log -> Prop} `{!ReceiptLaws valid_logs}
    (r : ScrollReceipt) (bloom : Bloom) (rest : bytes) :
  encodable valid_logs r bloom ->
  NodeReceipt.rlp_decode_with_bloom (NodeReceipt.rlp_encode_with_bloom r bloom ++ rest)
    = Ok ({| wb_receipt := without_fee r; wb_logs_bloom := bloom |}, rest)
  /\ NodeReceipt.rlp_encoded_length_with_bloom r bloom = blen (NodeReceipt.rlp_encode_with_bloom r bloom)
  /\ NodeReceipt.eip2718_encoded_length_with_bloom r bloom
     = blen (NodeReceipt.eip2718_encode_with_bloom r bloom).
Proof.
  intros He. pose proof He as (Hr & Hlen & _).
  destruct (bloom_length_exact r bloom He) as [Hexact Hp].
  pose proof (bloom_wire_long r bloom He) as Hlong.
  pose proof (decode_inner_bloom r bloom rest He) as Hinner.
  split; [|split; [|done]].
  - unfold NodeReceipt.rlp_decode_with_bloom, NodeReceipt.rlp_encode_with_bloom. rewrite Hexact.
    destruct (NodeReceipt.is_legacy r) eqn:Hl; cbn [negb app].
    + rewrite bloom_wire, Hl by done. cbn [app].
      assert (NodeReceipt.tx_type r = ScrollTxType.Legacy) as <- by by destruct r.
      rewrite Hinner. rewrite list_with_bloom_enc, <- app_assoc. simpl.
      by rewrite rlp_list_header by (rewrite ?blen_app; pose proof (blen_nonneg rest);
        pose proof (blen_nonneg (fields_with_bloom (NodeReceipt.as_receipt r) bloom)); lia).
    + destruct (Hlong eq_refl) as [Hlong' Hty]. rewrite <- app_assoc.
      rewrite rlp_string_header by (rewrite ?blen_app; pose proof (blen_nonneg rest); lia).
      cbn [rbind header_list payload_length]. rewrite bloom_wire, Hl by done.
      unfold ScrollTxType.decode. rewrite <- (rlp_u8_small (NodeReceipt.ty r)), <- app_assoc by done.
      rewrite (dec_enc rlp_u8_ok) by (unfold_ints; lia).
      unfold NodeReceipt.ty at 1. rewrite try_from_to_u8. cbn [map_err rmap rbind]. rewrite Hinner.
      cbn [rbind]. rewrite (proj2 (Z.eqb_eq _ _)) by (rewrite !blen_app; lia). done.
  - unfold NodeReceipt.rlp_encoded_length_with_bloom, NodeReceipt.rlp_encode_with_bloom. rewrite Hexact.
    destruct (NodeReceipt.is_legacy r) eqn:Hl; cbn [negb app]; [done|].
    destruct (Hlong eq_refl). rewrite blen_app, rlp_string_header_len by lia. lia.
Qed.

(** The network's receipt envelope and the node's receipt are one wire format:
    the envelope of a receipt writes the bytes of the node's bloom form, it is
    read back by its own decoders, its lengths are exact and its accessors
    never panic and agree with the receipt's. The envelope refuses the type
    byte zero, which the node's bloomless decoder takes for a legacy receipt. *)
Theorem receipt_envelope_agrees `{ReceiptRlp} `{Rlp} `{!RlpLaws} `{Eip2718} `{!Eip2718Laws}
    {valid_logs : list Log -> Prop} `{!ReceiptLaws valid_logs}
    (r : ScrollReceipt) (bloom : Bloom) (rest : bytes) :
  encodable valid_logs r bloom ->
  let e := envelope_of r bloom in
  ReceiptEnvelope.encode_2718 e = NodeReceipt.eip2718_encode_with_bloom r bloom
  /\ decode_2718 ReceiptEnvelope.typed_decode ReceiptEnvelope.fallback_decode
       (ReceiptEnvelope.encode_2718 e ++ rest) = Ok (e, rest)
  /\ ReceiptEnvelope.decode (ReceiptEnvelope.encode e ++ rest) = Ok (e, rest)
  /\ ReceiptEnvelope.encode_2718_len e = blen (ReceiptEnvelope.encode_2718 e)
  /\ ReceiptEnvelope.length_rlp e = blen (ReceiptEnvelope.encode e)
  /\ ReceiptEnvelope.status e = Returns (NodeReceipt.status r)
  /\ ReceiptEnvelope.cumulative_gas_used e = Returns (NodeReceipt.cumulative_gas_used r)
  /\ ReceiptEnvelope.logs e = Returns (NodeReceipt.logs r)
  /\ ReceiptEnvelope.typed_decode 0 rest
     = Err (RlpErr (RlpCustom "type-0 eip2718 transactions are not supported"))
  /\ NodeReceipt.typed_decode 0 rest = NodeReceipt.fallback_decode rest.
Proof.
  intros He e. pose proof He as (Hr & Hlen & _).
  destruct (bloom_length_exact r bloom He) as [_ Hp].
  pose proof (bloom_wire_long r bloom He) as Hlong.
  set (t := Build_ReceiptWithBloom (NodeReceipt.as_receipt r) bloom).
  assert (Hwire : ReceiptEnvelope.encode_2718 e = NodeReceipt.eip2718_encode_with_bloom r bloom)
    by (rewrite bloom_wire by done; by destruct r).
  assert (Hflag : ReceiptEnvelope.type_flag e = default_type_flag (NodeReceipt.ty r))
    by (rewrite default_type_flag_spec; by destruct r).
  assert (Ht : dec list_with_bloom (enc list_with_bloom t ++ rest) = Ok (t, rest))
    by (by apply (dec_enc list_with_bloom_ok)).
  assert (Hread : (if NodeReceipt.ty r =? 0
    then ReceiptEnvelope.fallback_decode (enc list_with_bloom t ++ rest)
    else ReceiptEnvelope.typed_decode (NodeReceipt.ty r) (enc list_with_bloom t ++ rest)) = Ok (e, rest)).
  { destruct r; unfold ReceiptEnvelope.typed_decode, ReceiptEnvelope.fallback_decode,
      ReceiptEnvelope.wrap_decoded; simpl; by rewrite Ht. }
  assert (Hround : decode_2718 ReceiptEnvelope.typed_decode ReceiptEnvelope.fallback_decode
      (ReceiptEnvelope.encode_2718 e ++ rest) = Ok (e, rest)
    /\ network_decode ReceiptEnvelope.typed_decode ReceiptEnvelope.fallback_decode
      (ReceiptEnvelope.encode e ++ rest) = Ok (e, rest)
    /\ (default_type_flag (NodeReceipt.ty r) = None \/ 1 < blen (ReceiptEnvelope.encode_2718 e))).
  { unfold ReceiptEnvelope.encode. rewrite Hflag, Hwire in *. rewrite bloom_wire in Hlen |- * by done.
    fold t in Hlen |- *. rewrite list_with_bloom_enc in *.
    by apply (wire_2718_roundtrip _ _ (NodeReceipt.ty r)); [apply to_u8_range|done|]. }
  destruct Hround as (Hd & Hn & Hshort).
  pose proof (envelope_len_exact r bloom He) as Hexact. fold e in Hexact. rewrite <- Hwire in Hexact.
  split; [done|]. split; [done|]. split; [unfold ReceiptEnvelope.decode; by rewrite Hn|].
  split; [done|]. split.
  - unfold ReceiptEnvelope.length_rlp, ReceiptEnvelope.encode. rewrite Hflag, default_type_flag_spec.
    assert (ReceiptEnvelope.rlp_payload_length e = blen (ReceiptEnvelope.encode_2718 e)) as ->
      by (rewrite <- Hexact; destruct r; simpl; unfold ReceiptEnvelope.encode_2718_len; simpl; lia).
    destruct (NodeReceipt.is_legacy r) eqn:El.
    + destruct r; try discriminate El. simpl. by rewrite network_encode_untyped.
    + destruct (Hlong eq_refl). rewrite (proj2 (Z.eqb_neq (NodeReceipt.ty r) 0)) by lia.
      rewrite <- (length_of_length_exact (NodeReceipt.ty r)) by (by rewrite Hwire).
      destruct r; try discriminate El; simpl; lia.
  - by destruct r.
Qed.

(** The storage form keeps the whole receipt, the L1 fee included: a receipt
    whose status is a success flag is read back from any buffer that starts
    with its compact form (a pre-Byzantium state root becomes a flag). *)
Theorem receipt_compact_roundtrip `{ReceiptRlp} `{Rlp} `{Eip2718} {valid_logs : list Log -> Prop}
    `{!ReceiptLaws valid_logs} `{!Compact NodeReceipt.CompactScrollReceipt}
    `{!CompactReceiptLaws valid_logs} (r : ScrollReceipt) (rest : bytes) :
  receipt_ok valid_logs (NodeReceipt.as_receipt r) -> in_u256 (NodeReceipt.l1_fee r) ->
  let buf := NodeReceipt.to_compact r ++ rest in
  exists r', NodeReceipt.from_compact buf (blen buf) = (r', rest)
  /\ NodeReceipt.tx_type r' = NodeReceipt.tx_type r
  /\ NodeReceipt.l1_fee r' = NodeReceipt.l1_fee r
  /\ NodeReceipt.status r' = NodeReceipt.status r
  /\ NodeReceipt.cumulative_gas_used r' = NodeReceipt.cumulative_gas_used r
  /\ NodeReceipt.logs r' = NodeReceipt.logs r
  /\ (NodeReceipt.status_or_post_state r = status_of_bool (NodeReceipt.status r) -> r' = r).
Proof.
  intros [Hgas Hlogs] Hfee buf. exists (NodeReceipt.of_compact_receipt (NodeReceipt.to_compact_receipt r)).
  assert (Hdefault : default 0 (NodeReceipt.c_l1_fee (NodeReceipt.to_compact_receipt r))
    = NodeReceipt.l1_fee r).
  { simpl. by destruct (Z.eqb_spec (NodeReceipt.l1_fee r) 0) as [->|]. }
  split.
  { unfold NodeReceipt.from_compact, buf, NodeReceipt.to_compact.
    by rewrite compact_receipt_roundtrip by (rewrite ?Hdefault; done). }
  assert (Hrebuild : forall inner : Receipt,
    r_status inner = status_of_bool (coerce_status (r_status inner)) ->
    {| r_status := status_of_bool (coerce_status (r_status inner));
       r_cumulative_gas_used := r_cumulative_gas_used inner; r_logs := r_logs inner |} = inner).
  { intros [st gas lg]. simpl. by intros <-. }
  unfold NodeReceipt.of_compact_receipt. rewrite Hdefault. destruct r as [[i fee]|[i fee]|[i fee]|[i fee]|i]; simpl;
    unfold NodeReceipt.status, NodeReceipt.cumulative_gas_used, NodeReceipt.logs,
      NodeReceipt.status_or_post_state; simpl; rewrite coerce_status_of_bool;
    repeat split; intros Hs; unfold L2Receipt.new; by rewrite Hrebuild.
Qed.

(** ** A concrete instance: one-byte logs, boolean status and bloom *)

Definition ref_bool : codec bool :=
  {| enc b := [Z.b2z b];
     dec b := match b with x :: b => Ok (x =? 1, b) | [] => Err InputTooShort end;
     len _ := 1 |}.

Lemma ref_bool_ok : codec_ok (fun _ => True) ref_bool.
Proof. by split; [intros []|]. Qed.

#[export] Instance ref_receipt_types : ReceiptTypes := {
  Log := Z;
  Eip658Value := bool;
  Bloom := bool;
  status_of_bool b := b;
  coerce_status b := b;
  logs_bloom l := match l with [] => false | _ => true end;
  rlp_status := ref_bool;
  rlp_logs := ref_bytes;
  length_of_length n := blen (enc_header {| header_list := false; payload_length := n |});
  default_type_flag ty := if ty =? 0 then None else Some ty;
  network_len flag n :=
    match flag with
    | None => n
    | Some _ => blen (enc_header {| header_list := false; payload_length := n |}) + n
    end;
  rlp_error_of e := match e with RlpErr e => e | UnexpectedType _ => RlpCustom "Unexpected type" end;
}.

Definition ref_fields (r : Receipt) (bloom : bool) : bytes :=
  [Z.b2z (r_status r)] ++ enc_uint (r_cumulative_gas_used r) ++ [Z.b2z bloom] ++ enc_string (r_logs r).

Definition ref_decode_fields (b : bytes) : result (ReceiptWithBloom Receipt * bytes) RlpError :=
  let? status := dec ref_bool b in
  let? gas := dec_uint status.2 in
  let? bloom := dec ref_bool gas.2 in
  let? logs := dec_string bloom.2 in
  Ok (Build_ReceiptWithBloom (R := Receipt)
        {| r_status := status.1; r_cumulative_gas_used := gas.1; r_logs := logs.1 |} bloom.1, logs.2).

Definition ref_list_fields (r : ReceiptWithBloom Receipt) : bytes :=
  let fields := ref_fields (wb_receipt r) (wb_logs_bloom r) in
  enc_header {| header_list := true; payload_length := blen fields |} ++ fields.

#[export] Instance ref_receipt_rlp : ReceiptRlp := {
  fields_with_bloom := ref_fields;
  fields_with_bloom_length r b := blen (ref_fields r b);
  decode_fields_with_bloom := ref_decode_fields;
  list_with_bloom :=
    {| enc := ref_list_fields;
       dec b := let? h := dec_header b in ref_decode_fields h.2;
       len r := blen (ref_list_fields r) |};
}.

Lemma ref_decode_fields_ok r bloom rest :
  receipt_ok (Forall in_u8) r ->
  ref_decode_fields (ref_fields r bloom ++ rest) = Ok (Build_ReceiptWithBloom r bloom, rest).
Proof.
  intros [Hg Hl]. destruct r as [st g l]. unfold ref_fields, ref_decode_fields. simpl in *.
  replace (Z.b2z st =? 1) with st by by destruct st.
  change dec_uint with (dec ref_uint). change dec_string with (dec ref_bytes).
  change (enc_uint g) with (enc ref_uint g). change (enc_string l) with (enc ref_bytes l).
  rewrite <- app_assoc, (dec_enc (ref_uint_ok in_u64 ltac:(solve_ints))) by done.
  cbn [rbind fst snd app dec ref_bool]. replace (Z.b2z bloom =? 1) with bloom by by destruct bloom.
  cbn [rbind fst snd]. by rewrite (dec_enc ref_bytes_ok).
Qed.

#[export] Instance ref_receipt_laws : ReceiptLaws (Forall in_u8).
Proof.
  split; try done.
  - apply ref_bool_ok.
  - apply ref_bytes_ok.
  - intros r bloom Hr. simpl. rewrite <- (app_nil_r (ref_fields r bloom)). by apply ref_decode_fields_ok.
  - split; [|done]. intros r rest [Hr Hl]. simpl in *. unfold ref_list_fields.
    pose proof (blen_nonneg (ref_fields (wb_receipt r) (wb_logs_bloom r))).
    pose proof (blen_nonneg rest).
    rewrite <- app_assoc, dec_header_list by (rewrite ?blen_app; lia). cbn [rbind snd].
    rewrite ref_decode_fields_ok by done. by destruct r.
  - intros n rest Hn Hmax. by apply dec_header_string.
  - intros x Hx. simpl. unfold enc_uint. by rewrite (proj2 (Z.ltb_lt 0 x)), (proj2 (Z.ltb_lt x 0x80)) by lia.
  - intros [ty|] b Hb; simpl; [|done]. by rewrite blen_app.
  - intros ty b Hb. simpl. by rewrite blen_app.
Qed.

#[export] Instance ref_compact_receipt : Compact NodeReceipt.CompactScrollReceipt := {
  to_compact c :=
    [ScrollTxType.to_u8 (NodeReceipt.c_tx_type c); Z.b2z (NodeReceipt.c_success c)]
    ++ enc_uint (NodeReceipt.c_cumulative_gas_used c)
    ++ [Z.b2z (bool_decide (is_Some (NodeReceipt.c_l1_fee c)))]
    ++ enc_uint (default 0 (NodeReceipt.c_l1_fee c)) ++ enc_string (NodeReceipt.c_logs c);
  from_compact b _ :=
    let read := match b with
      | ty :: success :: b =>
          let? gas := dec_uint b in
          match gas.2 with
          | present :: b =>
              let? fee := dec_uint b in
              let? logs := dec_string fee.2 in
              Ok ({| NodeReceipt.c_tx_type :=
                       match ScrollTxType.try_from_u8 ty with Ok v => v | Err _ => ScrollTxType.Legacy end;
                     NodeReceipt.c_success := success =? 1;
                     NodeReceipt.c_cumulative_gas_used := gas.1;
                     NodeReceipt.c_logs := logs.1;
                     NodeReceipt.c_l1_fee := if present =? 1 then Some fee.1 else None |}, logs.2)
          | [] => Err InputTooShort
          end
      | _ => Err InputTooShort
      end in
    match read with
    | Ok v => v
    | Err _ => ({| NodeReceipt.c_tx_type := ScrollTxType.Legacy; NodeReceipt.c_success := false;
                   NodeReceipt.c_cumulative_gas_used := 0; NodeReceipt.c_logs := [];
                   NodeReceipt.c_l1_fee := None |}, [])
    end;
}.

#[export] Instance ref_compact_receipt_laws : CompactReceiptLaws (Forall in_u8).
Proof.
  split. intros [ty st gas logs fee] rest Hg Hl Hf. simpl in *.
  change dec_uint with (dec ref_uint). change dec_string with (dec ref_bytes).
  change enc_uint with (enc ref_uint). change enc_string with (enc ref_bytes).
  rewrite <- !app_assoc, (dec_enc (ref_uint_ok in_u64 ltac:(solve_ints))) by done.
  cbn [rbind fst snd app]. rewrite <- app_assoc.
  rewrite (dec_enc (ref_uint_ok in_u256 ltac:(solve_ints))) by done. cbn [rbind fst snd].
  rewrite (dec_enc ref_bytes_ok) by done. cbn [rbind fst snd]. rewrite try_from_to_u8.
  replace (Z.b2z st =? 1) with st by by destruct st. by destruct fee.
Qed.

Definition sample_receipt : Receipt :=
  {| r_status := true; r_cumulative_gas_used := 300000; r_logs := [1; 200] |}.
Definition sample_l2_receipt : ScrollReceipt := NodeReceipt.Eip1559 (L2Receipt.new sample_receipt 77).

Lemma sample_receipt_ok : receipt_ok (Forall in_u8) sample_receipt.
Proof. split; [simpl; solve_ints|]. repeat constructor; solve_ints. Qed.

Lemma sample_encodable : encodable (Forall in_u8) sample_l2_receipt true.
Proof. split; [apply sample_receipt_ok|]. split; vm_compute; discriminate. Qed.

Lemma receipt_2718_roundtrip_witness :
  NodeReceipt.decode (NodeReceipt.encode sample_l2_receipt ++ [5])
  = Ok (NodeReceipt.Eip1559 (L2Receipt.new sample_receipt 0), [5]).
Proof.
  destruct (receipt_2718_roundtrip sample_l2_receipt true [5]) as (_ & E & _);
    [exact sample_encodable|exact E].
Defined.

Lemma receipt_bloom_roundtrip_witness :
  NodeReceipt.rlp_encoded_length_with_bloom sample_l2_receipt true = 12
  /\ NodeReceipt.rlp_decode_with_bloom (NodeReceipt.rlp_encode_with_bloom sample_l2_receipt true)
     = Ok ({| wb_receipt := without_fee sample_l2_receipt; wb_logs_bloom := true |}, []).
Proof.
  destruct (receipt_bloom_roundtrip sample_l2_receipt true []) as (E & El & _);
    [exact sample_encodable|]. split; [rewrite El; reflexivity|exact E].
Defined.

Lemma receipt_envelope_agrees_witness :
  ReceiptEnvelope.status (envelope_of sample_l2_receipt true) = Returns true
  /\ ReceiptEnvelope.length_rlp (envelope_of sample_l2_receipt true) = 12.
Proof.
  destruct (receipt_envelope_agrees sample_l2_receipt true []) as (_ & _ & _ & _ & El & Es & _);
    [exact sample_encodable|]. split; [exact Es|rewrite El; reflexivity].
Defined.

Lemma receipt_compact_roundtrip_witness :
  exists r', NodeReceipt.from_compact (NodeReceipt.to_compact sample_l2_receipt ++ [])
    (blen (NodeReceipt.to_compact sample_l2_receipt ++ [])) = (r', [])
  /\ r' = sample_l2_receipt.
Proof.
  destruct (receipt_compact_roundtrip sample_l2_receipt []) as (r' & E & _ & _ & _ & _ & _ & Hr);
    [exact sample_receipt_ok|vm_compute; split; discriminate|]. exists r'. split; [exact E|apply Hr; reflexivity].
Defined.
