(* ===== verification/TxEnv.v ===== *)
(** * Transaction environments (dogeos-reth-evm/src/tx)

    From an envelope to the environment the EVM executes: the three
    constructions (from encoded bytes, from a recovered transaction, and from a
    cached compression result) and the compression measures the L1 fee uses. *)

From stdpp Require Import prelude gmap list strings.
From Stdlib Require Import ZArith Lia.
From Stdlib Require Ascii.
From S2P Require Import Prelude.
From S2P Require Import Alloy.
From S2P Require Import AlloyRef.
From S2P Require Import TxType.
From S2P Require Import L1Message.
From S2P Require Import Envelope.

(** ** The fields of the Ethereum transactions ([alloy_consensus]) *)

Record LegacyTx := {
  lg_chain_id : option Z;
  lg_nonce : Z;
  lg_gas_price : Z;
  lg_gas_limit : Z;
  lg_to : TxKind;
  lg_value : U256;
  lg_input : bytes;
}.

Record Eip2930Tx `{AlloyTypes} := {
  al_chain_id : Z;
  al_nonce : Z;
  al_gas_price : Z;
  al_gas_limit : Z;
  al_to : TxKind;
  al_value : U256;
  al_access_list : AccessList;
  al_input : bytes;
}.

Record Eip1559Tx `{AlloyTypes} := {
  df_chain_id : Z;
  df_nonce : Z;
  df_gas_limit : Z;
  df_max_fee_per_gas : Z;
  df_max_priority_fee_per_gas : Z;
  df_to : TxKind;
  df_value : U256;
  df_access_list : AccessList;
  df_input : bytes;
}.

Record Eip7702Tx `{AlloyTypes} := {
  sc_chain_id : Z;
  sc_nonce : Z;
  sc_gas_limit : Z;
  sc_max_fee_per_gas : Z;
  sc_max_priority_fee_per_gas : Z;
  sc_to : Address;
  sc_value : U256;
  sc_access_list : AccessList;
  sc_authorization_list : list SignedAuthorization;
  sc_input : bytes;
}.

(** ** The environment of [revm] *)

Inductive RecoveredAuthority : Type := Valid (a : Address) | Invalid.

(** [Either<SignedAuthorization, RecoveredAuthorization>]. *)
Inductive AuthorizationItem `{AlloyTypes} (Authorization : Type) : Type :=
| SignedItem (auth : SignedAuthorization)
| RecoveredItem (auth : Authorization) (authority : RecoveredAuthority).
Arguments SignedItem {_ Authorization} auth.
Arguments RecoveredItem {_ Authorization} auth authority.

Record TxEnv `{AlloyTypes} (Authorization : Type) := {
  tx_type : Z;
  caller : Address;
  gas_limit : Z;
  gas_price : Z;
  kind : TxKind;
  value : U256;
  data : bytes;
  nonce : Z;
  chain_id : option Z;
  access_list : AccessList;
  gas_priority_fee : option Z;
  blob_hashes : list B256;
  max_fee_per_blob_gas : Z;
  authorization_list : list (AuthorizationItem Authorization);
}.
Arguments tx_type {_ Authorization} _.
Arguments caller {_ Authorization} _.
Arguments gas_limit {_ Authorization} _.
Arguments gas_price {_ Authorization} _.
Arguments kind {_ Authorization} _.
Arguments value {_ Authorization} _.
Arguments data {_ Authorization} _.
Arguments nonce {_ Authorization} _.
Arguments chain_id {_ Authorization} _.
Arguments access_list {_ Authorization} _.
Arguments gas_priority_fee {_ Authorization} _.
Arguments blob_hashes {_ Authorization} _.
Arguments max_fee_per_blob_gas {_ Authorization} _.
Arguments authorization_list {_ Authorization} _.

(** [revm_scroll::ScrollTransaction]. *)
Record ScrollTx `{AlloyTypes} (Authorization : Type) := {
  base : TxEnv Authorization;
  rlp_bytes : option bytes;
  compression_ratio : option U256;
  compressed_size : option Z;
}.
Arguments Build_ScrollTx {_ Authorization} _ _ _ _.
Arguments base {_ Authorization} _.
Arguments rlp_bytes {_ Authorization} _.
Arguments compression_ratio {_ Authorization} _.
Arguments compressed_size {_ Authorization} _.

(** The field access, the authorizations, the environments [alloy_evm] builds
    from the Ethereum types, and the zstd encoder. *)
Class EvmTypes `{EthTxs} := {
  legacy_fields : TxLegacy -> LegacyTx;
  eip2930_fields : TxEip2930 -> Eip2930Tx;
  eip1559_fields : TxEip1559 -> Eip1559Tx;
  eip7702_fields : TxEip7702 -> Eip7702Tx;
  default_access_list : AccessList;
  Authorization : Type;
  auth_inner : SignedAuthorization -> Authorization;
  auth_signature : SignedAuthorization -> option Signature;
  auth_signature_hash : SignedAuthorization -> B256;
  recover_authority : Signature -> B256 -> option Address;
  legacy_env : TxLegacy -> Address -> TxEnv Authorization;
  eip2930_env : TxEip2930 -> Address -> TxEnv Authorization;
  eip1559_env : TxEip1559 -> Address -> TxEnv Authorization;
  eip7702_env : TxEip7702 -> Address -> TxEnv Authorization;
}.

Class Zstd := {
  Encoder : Type;
  init_zstd_encoder : Encoder;
  set_pledged_src_size : Encoder -> Z -> option Encoder;
  write_all : Encoder -> bytes -> option Encoder;
  finish : Encoder -> option bytes;
  TX_L1_FEE_PRECISION : U256;
}.

(** ** Compression (tx/compression.rs) *)

Section Compression.
Context `{Zstd}.

(** [Result::expect]. *)
Definition expect {A} (o : option A) (msg : string) : outcome A :=
  match o with Some a => Returns a | None => Panics msg end.

Definition compute_compressed_size (b : bytes) : outcome Z :=
  match b with
  | [] => Returns 0
  | _ =>
      let original_bytes_len := blen b in
      match set_pledged_src_size init_zstd_encoder original_bytes_len with
      | None => Panics "failed to set pledged source size"
      | Some compressor =>
          match write_all compressor b with
          | None => Panics "failed to write bytes to compressor"
          | Some compressor =>
              match finish compressor with
              | None => Panics "failed to finish compression"
              | Some r =>
                  let encoded_bytes_len := blen r in
                  Returns (if original_bytes_len <? encoded_bytes_len then original_bytes_len
                           else encoded_bytes_len)
              end
          end
      end
  end.

(** [wrapping_div] panics on a zero divisor. *)
Definition compute_compression_ratio (b : bytes) : outcome U256 :=
  match b with
  | [] => Returns u256_max
  | _ =>
      let original_bytes_len := blen b in
      match compute_compressed_size b with
      | Panics msg => Panics msg
      | Returns encoded_bytes_len =>
          if encoded_bytes_len =? original_bytes_len then Returns TX_L1_FEE_PRECISION
          else if encoded_bytes_len =? 0 then Panics "division by zero"
          else Returns (saturating_mul u256_max original_bytes_len TX_L1_FEE_PRECISION
                        / encoded_bytes_len)
      end
  end.
End Compression.

(** ** The constructions (tx/mod.rs) *)

Section TxEnv.
Context `{EvmTypes} `{Rlp} `{Zstd}.

(** [ScrollTransactionIntoTxEnv] wraps a [ScrollTransaction]; [new] builds it. *)
Definition ScrollTransactionIntoTxEnv : Type := ScrollTx Authorization.

Definition new (base : TxEnv Authorization) (rlp_bytes : option bytes)
    (compression_ratio : option U256) (compressed_size : option Z) : ScrollTransactionIntoTxEnv :=
  Build_ScrollTx base rlp_bytes compression_ratio compressed_size.

Definition set_gas_limit (self : ScrollTransactionIntoTxEnv) (limit : Z) : ScrollTransactionIntoTxEnv :=
  let b := base self in
  new {| tx_type := tx_type b; caller := caller b; gas_limit := limit; gas_price := gas_price b;
         kind := kind b; value := value b; data := data b; nonce := nonce b;
         chain_id := chain_id b; access_list := access_list b;
         gas_priority_fee := gas_priority_fee b; blob_hashes := blob_hashes b;
         max_fee_per_blob_gas := max_fee_per_blob_gas b;
         authorization_list := authorization_list b |}
    (rlp_bytes self) (compression_ratio self) (compressed_size self).

Definition set_nonce (self : ScrollTransactionIntoTxEnv) (n : Z) : ScrollTransactionIntoTxEnv :=
  let b := base self in
  new {| tx_type := tx_type b; caller := caller b; gas_limit := gas_limit b; gas_price := gas_price b;
         kind := kind b; value := value b; data := data b; nonce := n;
         chain_id := chain_id b; access_list := access_list b;
         gas_priority_fee := gas_priority_fee b; blob_hashes := blob_hashes b;
         max_fee_per_blob_gas := max_fee_per_blob_gas b;
         authorization_list := authorization_list b |}
    (rlp_bytes self) (compression_ratio self) (compressed_size self).

(** The environment of an L1 message: no fee, no nonce, no chain id. *)
Definition l1_message_env (ty : Z) (tx : TxL1Message) (caller : Address) : TxEnv Authorization :=
  {| tx_type := ty; caller := caller; gas_limit := l1_gas_limit tx; gas_price := 0;
     kind := Call (l1_to tx); value := l1_value tx; data := l1_input tx; nonce := 0;
     chain_id := None; access_list := default_access_list; gas_priority_fee := None;
     blob_hashes := []; max_fee_per_blob_gas := 0; authorization_list := [] |}.

(** The base of [from_encoded_tx] and [from_tx_with_compression_info]. *)
Definition encoded_base (tx : TxEnvelope.ScrollTxEnvelope) (caller : Address) : TxEnv Authorization :=
  match tx with
  | TxEnvelope.Legacy tx => legacy_env (stx tx) caller
  | TxEnvelope.Eip2930 tx => eip2930_env (stx tx) caller
  | TxEnvelope.Eip1559 tx => eip1559_env (stx tx) caller
  | TxEnvelope.Eip7702 tx => eip7702_env (stx tx) caller
  | TxEnvelope.L1Message tx => l1_message_env (L1Msg.ty (inner tx)) (inner tx) caller
  end.

(** The compression results attached to everything but an L1 message; the ratio
    is of the call data, the size of the whole encoded transaction. *)
Definition with_compression (tx : TxEnvelope.ScrollTxEnvelope) (base : TxEnv Authorization)
    (encoded : bytes) : outcome ScrollTransactionIntoTxEnv :=
  match tx with
  | TxEnvelope.L1Message _ => Returns (new base None None None)
  | _ =>
      match compute_compression_ratio (data base) with
      | Panics msg => Panics msg
      | Returns ratio =>
          match compute_compressed_size encoded with
          | Panics msg => Panics msg
          | Returns size => Returns (new base (Some encoded) (Some ratio) (Some size))
          end
      end
  end.

Definition from_encoded_tx (tx : TxEnvelope.ScrollTxEnvelope) (caller : Address) (encoded : bytes) :
    outcome ScrollTransactionIntoTxEnv :=
  with_compression tx (encoded_base tx caller) encoded.

Definition recovered_authorization (auth : SignedAuthorization) : AuthorizationItem Authorization :=
  RecoveredItem (auth_inner auth)
    match auth_signature auth with
    | None => Invalid
    | Some signature =>
        match recover_authority signature (auth_signature_hash auth) with
        | None => Invalid
        | Some a => Valid a
        end
    end.

Definition recovered_base (tx : TxEnvelope.ScrollTxEnvelope) (sender : Address) :
    TxEnv Authorization :=
  match tx with
  | TxEnvelope.Legacy tx =>
      let tx := legacy_fields (stx tx) in
      {| gas_limit := lg_gas_limit tx; gas_price := lg_gas_price tx; gas_priority_fee := None;
         kind := lg_to tx; value := lg_value tx; data := lg_input tx; chain_id := lg_chain_id tx;
         nonce := lg_nonce tx; access_list := default_access_list; blob_hashes := [];
         max_fee_per_blob_gas := 0; authorization_list := []; tx_type := 0; caller := sender |}
  | TxEnvelope.Eip2930 tx =>
      let tx := eip2930_fields (stx tx) in
      {| gas_limit := al_gas_limit tx; gas_price := al_gas_price tx; gas_priority_fee := None;
         kind := al_to tx; value := al_value tx; data := al_input tx;
         chain_id := Some (al_chain_id tx); nonce := al_nonce tx; access_list := al_access_list tx;
         blob_hashes := []; max_fee_per_blob_gas := 0; authorization_list := []; tx_type := 1;
         caller := sender |}
  | TxEnvelope.Eip1559 tx =>
      let tx := eip1559_fields (stx tx) in
      {| gas_limit := df_gas_limit tx; gas_price := df_max_fee_per_gas tx;
         gas_priority_fee := Some (df_max_priority_fee_per_gas tx);
         kind := df_to tx; value := df_value tx; data := df_input tx;
         chain_id := Some (df_chain_id tx); nonce := df_nonce tx; access_list := df_access_list tx;
         blob_hashes := []; max_fee_per_blob_gas := 0; authorization_list := []; tx_type := 2;
         caller := sender |}
  | TxEnvelope.Eip7702 tx =>
      let tx := eip7702_fields (stx tx) in
      {| gas_limit := sc_gas_limit tx; gas_price := sc_max_fee_per_gas tx;
         gas_priority_fee := Some (sc_max_priority_fee_per_gas tx);
         kind := Call (sc_to tx); value := sc_value tx; data := sc_input tx;
         chain_id := Some (sc_chain_id tx); nonce := sc_nonce tx; access_list := sc_access_list tx;
         blob_hashes := []; max_fee_per_blob_gas := 0;
         authorization_list := map recovered_authorization (sc_authorization_list tx);
         tx_type := 4; caller := sender |}
  | TxEnvelope.L1Message tx => l1_message_env L1_MESSAGE_TRANSACTION_TYPE (inner tx) sender
  end.

Definition from_recovered_tx (tx : TxEnvelope.ScrollTxEnvelope) (sender : Address) :
    outcome ScrollTransactionIntoTxEnv :=
  let envelope := TxEnvelope.encode_2718 tx in
  with_compression tx (recovered_base tx sender) envelope.

Definition from_tx_with_compression_info (tx : TxEnvelope.ScrollTxEnvelope) (caller : Address)
    (encoded : bytes) (ratio : option U256) (size : option Z) : ScrollTransactionIntoTxEnv :=
  new (encoded_base tx caller) (Some encoded) ratio size.

(** [Recovered<&Tx>] with its compression results. *)
Record WithCompressionInfo := {
  wc_value : TxEnvelope.ScrollTxEnvelope;
  wc_signer : Address;
  wc_compression_ratio : U256;
  wc_compressed_size : Z;
  wc_encoded_bytes : bytes;
}.

Definition with_compression_info (tx : TxEnvelope.ScrollTxEnvelope) (signer : Address)
    (compression_ratio : U256) (compressed_size : Z) : WithCompressionInfo :=
  {| wc_value := tx; wc_signer := signer; wc_compression_ratio := compression_ratio;
     wc_compressed_size := compressed_size; wc_encoded_bytes := TxEnvelope.encode_2718 tx |}.

Definition to_tx_env (self : WithCompressionInfo) : ScrollTransactionIntoTxEnv :=
  from_tx_with_compression_info (wc_value self) (wc_signer self) (wc_encoded_bytes self)
    (Some (wc_compression_ratio self)) (Some (wc_compressed_size self)).
End TxEnv.

(** The wrapper is a [Transaction]: it answers with the environment it wraps. *)
Module View.
Section View.
Context `{EvmTypes}.

Definition tx_type (self : ScrollTransactionIntoTxEnv) : Z := tx_type (base self).
Definition caller (self : ScrollTransactionIntoTxEnv) : Address := caller (base self).
Definition gas_limit (self : ScrollTransactionIntoTxEnv) : Z := gas_limit (base self).
Definition value (self : ScrollTransactionIntoTxEnv) : U256 := value (base self).
Definition input (self : ScrollTransactionIntoTxEnv) : bytes := data (base self).
Definition nonce (self : ScrollTransactionIntoTxEnv) : Z := nonce (base self).
Definition kind (self : ScrollTransactionIntoTxEnv) : TxKind := kind (base self).
Definition chain_id (self : ScrollTransactionIntoTxEnv) : option Z := chain_id (base self).
Definition gas_price (self : ScrollTransactionIntoTxEnv) : Z := gas_price (base self).
Definition access_list (self : ScrollTransactionIntoTxEnv) :
    option AccessList := Some (access_list (base self)).
Definition blob_versioned_hashes (self : ScrollTransactionIntoTxEnv) :
    list B256 := blob_hashes (base self).
Definition max_fee_per_blob_gas (self : ScrollTransactionIntoTxEnv) :
    Z := max_fee_per_blob_gas (base self).
Definition authorization_list_len (self : ScrollTransactionIntoTxEnv) :
    Z := Z.of_nat (length (authorization_list (base self))).
Definition authorization_list (self : ScrollTransactionIntoTxEnv) :
    list (AuthorizationItem Authorization) := authorization_list (base self).
Definition max_priority_fee_per_gas (self : ScrollTransactionIntoTxEnv) :
    option Z := gas_priority_fee (base self).
End View.
End View.

(** What [alloy_evm] documents of its environments: the fields of the
    transaction, defaults for the rest; the authorizations of a type-4
    transaction are kept signed. The gas limit and input methods read their
    fields. *)
Class EvmTypesLaws `{EvmTypes} : Prop := {
  legacy_env_fields t a :
    let f := legacy_fields t in
    legacy_env t a =
    {| tx_type := 0; caller := a; gas_limit := lg_gas_limit f; gas_price := lg_gas_price f;
       kind := lg_to f; value := lg_value f; data := lg_input f; nonce := lg_nonce f;
       chain_id := lg_chain_id f; access_list := default_access_list; gas_priority_fee := None;
       blob_hashes := []; max_fee_per_blob_gas := 0; authorization_list := [] |};
  eip2930_env_fields t a :
    let f := eip2930_fields t in
    eip2930_env t a =
    {| tx_type := 1; caller := a; gas_limit := al_gas_limit f; gas_price := al_gas_price f;
       kind := al_to f; value := al_value f; data := al_input f; nonce := al_nonce f;
       chain_id := Some (al_chain_id f); access_list := al_access_list f; gas_priority_fee := None;
       blob_hashes := []; max_fee_per_blob_gas := 0; authorization_list := [] |};
  eip1559_env_fields t a :
    let f := eip1559_fields t in
    eip1559_env t a =
    {| tx_type := 2; caller := a; gas_limit := df_gas_limit f; gas_price := df_max_fee_per_gas f;
       kind := df_to f; value := df_value f; data := df_input f; nonce := df_nonce f;
       chain_id := Some (df_chain_id f); access_list := df_access_list f;
       gas_priority_fee := Some (df_max_priority_fee_per_gas f);
       blob_hashes := []; max_fee_per_blob_gas := 0; authorization_list := [] |};
  eip7702_env_fields t a :
    let f := eip7702_fields t in
    eip7702_env t a =
    {| tx_type := 4; caller := a; gas_limit := sc_gas_limit f; gas_price := sc_max_fee_per_gas f;
       kind := Call (sc_to f); value := sc_value f; data := sc_input f; nonce := sc_nonce f;
       chain_id := Some (sc_chain_id f); access_list := sc_access_list f;
       gas_priority_fee := Some (sc_max_priority_fee_per_gas f);
       blob_hashes := []; max_fee_per_blob_gas := 0;
       authorization_list := map SignedItem (sc_authorization_list f) |};
  legacy_gas t : tx_gas_limit t = lg_gas_limit (legacy_fields t);
  eip2930_gas t : tx_gas_limit t = al_gas_limit (eip2930_fields t);
  eip1559_gas t : tx_gas_limit t = df_gas_limit (eip1559_fields t);
  eip7702_gas t : tx_gas_limit t = sc_gas_limit (eip7702_fields t);
  legacy_input t : tx_input t = lg_input (legacy_fields t);
  eip2930_input t : tx_input t = al_input (eip2930_fields t);
  eip1559_input t : tx_input t = df_input (eip1559_fields t);
  eip7702_input t : tx_input t = sc_input (eip7702_fields t);
}.

(** An encoder that accepts any input and never writes an empty frame. *)
Class ZstdLaws `{Zstd} : Prop := {
  precision_one : TX_L1_FEE_PRECISION = 10 ^ 9;
  encoder_works b :
    0 < blen b <= u64_max ->
    exists e e' r, set_pledged_src_size init_zstd_encoder (blen b) = Some e
                   /\ write_all e b = Some e' /\ finish e' = Some r /\ r <> [];
}.

(** ** Lemmas *)

Section Lemmas.
Context `{ZstdLaws}.

Lemma compressed_size_returns b :
  blen b <= u64_max -> exists n, compute_compressed_size b = Returns n /\ 0 <= n <= blen b
                                 /\ (b <> [] -> 0 < n).
Proof.
  intros Hb. destruct b as [|x b]; [by exists 0|].
  assert (0 < blen (x :: b)) as Hpos by (rewrite blen_cons; pose proof (blen_nonneg b); lia).
  destruct (encoder_works (x :: b)) as (e & e' & r & E1 & E2 & E3 & Hr); [lia|].
  assert (0 < blen r) by (destruct r; [done|]; rewrite blen_cons; pose proof (blen_nonneg r); lia).
  unfold compute_compressed_size. rewrite E1, E2, E3. eexists. split; [reflexivity|].
  destruct (Z.ltb_spec (blen (x :: b)) (blen r)); lia.
Qed.
End Lemmas.

(** The gas limit, caller and type byte of the bases. *)
Lemma encoded_base_spec `{EvmTypesLaws} `{Rlp} `{!EthTxsLaws} (e : TxEnvelope.ScrollTxEnvelope) a :
  gas_limit (encoded_base e a) = tx_gas_limit e /\ caller (encoded_base e a) = a
  /\ tx_type (encoded_base e a) = tx_ty e.
Proof.
  destruct e as [t|t|t|t|t]; simpl.
  - rewrite legacy_env_fields. simpl. by rewrite legacy_gas, legacy_ty.
  - rewrite eip2930_env_fields. simpl. by rewrite eip2930_gas, (typed_ty (id := 1)).
  - rewrite eip1559_env_fields. simpl. by rewrite eip1559_gas, (typed_ty (id := 2)).
  - rewrite eip7702_env_fields. simpl. by rewrite eip7702_gas, (typed_ty (id := 4)).
  - done.
Qed.

(** Equal up to the form of the authorizations. *)
Definition same_but_authorizations `{EvmTypes} (a b : TxEnv Authorization) : Prop :=
  tx_type a = tx_type b /\ caller a = caller b /\ gas_limit a = gas_limit b
  /\ gas_price a = gas_price b /\ kind a = kind b /\ value a = value b /\ data a = data b
  /\ nonce a = nonce b /\ chain_id a = chain_id b /\ access_list a = access_list b
  /\ gas_priority_fee a = gas_priority_fee b /\ blob_hashes a = blob_hashes b
  /\ max_fee_per_blob_gas a = max_fee_per_blob_gas b.

Lemma bases_agree `{EvmTypesLaws} (e : TxEnvelope.ScrollTxEnvelope) a :
  same_but_authorizations (encoded_base e a) (recovered_base e a)
  /\ (TxEnvelope.is_eip7702 e = false -> encoded_base e a = recovered_base e a).
Proof.
  unfold same_but_authorizations. destruct e as [t|t|t|t|t]; simpl.
  - by rewrite legacy_env_fields.
  - by rewrite eip2930_env_fields.
  - by rewrite eip1559_env_fields.
  - by rewrite eip7702_env_fields.
  - done.
Qed.

(** ** Properties *)

(** The compression measures are total on any buffer and bounded: a compressed
    size is at most the input and positive unless the input is empty; the ratio
    of empty data is the largest word, otherwise it is at least one (10^9) and
    is the quotient of the scaled input length by the compressed size. *)
Theorem compression_bounds `{ZstdLaws} (b : bytes) :
  blen b <= u64_max ->
  exists size ratio,
    compute_compressed_size b = Returns size /\ compute_compression_ratio b = Returns ratio
    /\ 0 <= size <= blen b /\ 10 ^ 9 <= ratio
    /\ (b = [] -> size = 0 /\ ratio = 2 ^ 256 - 1)
    /\ (b <> [] -> 0 < size /\ ratio * size <= blen b * 10 ^ 9 < (ratio + 1) * size).
Proof.
  intros Hb. destruct (compressed_size_returns b Hb) as (n & E & Hn & Hpos).
  exists n. unfold compute_compression_ratio. destruct b as [|x b].
  { exists u256_max. simpl in E. simplify_eq. repeat split; try done; solve_ints. }
  specialize (Hpos ltac:(done)). rewrite E.
  assert (Hbig : (10 ^ 9) * n <= blen (x :: b) * 10 ^ 9) by lia.
  destruct (Z.eqb_spec n (blen (x :: b))) as [->|Hne].
  - exists TX_L1_FEE_PRECISION. rewrite precision_one. repeat split; try done; lia.
  - rewrite (proj2 (Z.eqb_neq n 0)) by lia. eexists. split; [done|]. split; [done|].
    rewrite precision_one. unfold saturating_mul. rewrite Z.min_l by solve_ints.
    pose proof (Z.div_mod (blen (x :: b) * 10 ^ 9) n ltac:(lia)).
    pose proof (Z.mod_pos_bound (blen (x :: b) * 10 ^ 9) n ltac:(lia)).
    assert (10 ^ 9 <= blen (x :: b) * 10 ^ 9 / n) by (apply Z.div_le_lower_bound; lia).
    repeat split; try done; lia.
Qed.

(** The three ways to build the environment of a transaction agree. From the
    encoded bytes and from the recovered transaction they give the same
    environment (the authorizations of a type-4 transaction are kept signed in
    one and recovered in the other, everything else is equal); a cached
    compression result changes nothing when it is the computed one. The gas
    limit, type and caller are the transaction's, and an L1 message pays no fee
    and carries no compression data when built directly. *)
Theorem tx_env_constructions_agree `{EvmTypesLaws} `{!Rlp} `{!EthTxsLaws} `{!Zstd} `{!ZstdLaws}
    (e : TxEnvelope.ScrollTxEnvelope) (caller : Address) :
  let encoded := TxEnvelope.encode_2718 e in
  blen encoded <= u64_max -> blen (data (recovered_base e caller)) <= u64_max ->
  exists a b, from_encoded_tx e caller encoded = Returns a /\ from_recovered_tx e caller = Returns b
  /\ same_but_authorizations (base a) (base b)
  /\ (TxEnvelope.is_eip7702 e = false -> a = b)
  /\ (rlp_bytes a, compression_ratio a, compressed_size a)
     = (rlp_bytes b, compression_ratio b, compressed_size b)
  /\ gas_limit (base a) = tx_gas_limit e /\ tx_type (base a) = tx_ty e
  /\ TxEnv.caller (base a) = caller
  /\ (TxEnvelope.is_l1_message e = false ->
      forall ratio size, compute_compression_ratio (data (base a)) = Returns ratio ->
        compute_compressed_size encoded = Returns size ->
        to_tx_env (with_compression_info e caller ratio size) = a)
  /\ (TxEnvelope.is_l1_message e = true ->
      gas_price (base a) = 0 /\ (rlp_bytes a, compression_ratio a, compressed_size a) = (None, None, None)).
Proof.
  intros encoded He Hd. destruct (bases_agree e caller) as [Hsame Heq].
  destruct (encoded_base_spec e caller) as (Hgas & Hcaller & Hty).
  assert (Hdata : data (encoded_base e caller) = data (recovered_base e caller)) by apply Hsame.
  assert (exists n, compute_compressed_size encoded = Returns n) as [size Es]
    by (destruct (compressed_size_returns encoded He) as (n & ? & _); by exists n).
  assert (exists r, compute_compression_ratio (data (recovered_base e caller)) = Returns r) as [ratio Er].
  { destruct (compressed_size_returns _ Hd) as (n & En & _ & Hn). unfold compute_compression_ratio.
    destruct (data (recovered_base e caller)); [by eexists|]. rewrite En.
    case_match; [by eexists|]. rewrite (proj2 (Z.eqb_neq n 0)) by (pose proof (Hn ltac:(done)); lia).
    by eexists. }
  unfold from_encoded_tx, from_recovered_tx, with_compression. fold encoded.
  rewrite Hdata, Er, Es.
  destruct e as [t|t|t|t|t]; (eexists _, _; split; [reflexivity|]; split; [reflexivity|]);
    (split; [exact Hsame|]); (split; [intros E7; by rewrite (Heq E7)|]); (split; [done|]);
    (split; [exact Hgas|]); (split; [exact Hty|]); (split; [exact Hcaller|]); try done.
  all: split; [|done]; intros _ ratio' size'; cbn [base new]; rewrite Hdata, Er;
    by intros [= <-] [= <-].
Qed.

(** ** A concrete instance *)

#[export] Instance ref_evm_types : EvmTypes :=
  let legacy (b : Z) : LegacyTx :=
    {| lg_chain_id := Some 1; lg_nonce := b; lg_gas_price := 7; lg_gas_limit := 21000;
       lg_to := Call 5; lg_value := 0; lg_input := [b] |} in
  let al (b : Z) : Eip2930Tx :=
    {| al_chain_id := 1; al_nonce := b; al_gas_price := 7; al_gas_limit := 21000; al_to := Call 5;
       al_value := 0; al_access_list := tt; al_input := [b] |} in
  let df (b : Z) : Eip1559Tx :=
    {| df_chain_id := 1; df_nonce := b; df_gas_limit := 21000; df_max_fee_per_gas := 7;
       df_max_priority_fee_per_gas := 1; df_to := Call 5; df_value := 0; df_access_list := tt;
       df_input := [b] |} in
  let sc (b : Z) : Eip7702Tx :=
    {| sc_chain_id := 1; sc_nonce := b; sc_gas_limit := 21000; sc_max_fee_per_gas := 7;
       sc_max_priority_fee_per_gas := 1; sc_to := 5; sc_value := 0; sc_access_list := tt;
       sc_authorization_list := [tt]; sc_input := [b] |} in
  let env ty b a priority auths : TxEnv unit :=
    {| tx_type := ty; caller := a; gas_limit := 21000; gas_price := 7; kind := Call 5; value := 0;
       data := [b]; nonce := b; chain_id := Some 1; access_list := tt;
       gas_priority_fee := priority; blob_hashes := []; max_fee_per_blob_gas := 0;
       authorization_list := auths |} in
  {|
    legacy_fields t := legacy (byte_of (ref_byte t));
    eip2930_fields t := al (byte_of (ref_byte t));
    eip1559_fields t := df (byte_of (ref_byte t));
    eip7702_fields t := sc (byte_of (ref_byte t));
    default_access_list := tt;
    Authorization := unit;
    auth_inner _ := tt;
    auth_signature _ := Some true;
    auth_signature_hash _ := 9;
    recover_authority _ _ := Some 44;
    legacy_env t a := env 0 (byte_of (ref_byte t)) a None [];
    eip2930_env t a := env 1 (byte_of (ref_byte t)) a None [];
    eip1559_env t a := env 2 (byte_of (ref_byte t)) a (Some 1) [];
    eip7702_env t a := env 4 (byte_of (ref_byte t)) a (Some 1) [SignedItem tt];
  |}.

#[export] Instance ref_evm_types_laws : EvmTypesLaws.
Proof. by split. Qed.

(** An encoder that keeps the first eight bytes of its input. *)
#[export] Instance ref_zstd : Zstd := {
  Encoder := bytes;
  init_zstd_encoder := [];
  set_pledged_src_size e _ := Some e;
  write_all e b := Some (e ++ b);
  finish e := Some (match take 8 e with [] => [0] | r => r end);
  TX_L1_FEE_PRECISION := 10 ^ 9;
}.

#[export] Instance ref_zstd_laws : ZstdLaws.
Proof.
  split; [done|]. intros b Hb. do 3 eexists. do 3 (split; [reflexivity|]). by destruct (take 8 _).
Qed.

Lemma compression_bounds_witness :
  compute_compression_ratio (repeat 7 20) = Returns 2500000000
  /\ exists size, compute_compressed_size (repeat 7 20) = Returns size /\ 0 < size <= 20.
Proof.
  destruct (compression_bounds (repeat 7 20)) as (size & ratio & Es & Er & Hs & _ & _ & Hp);
    [vm_compute; discriminate|].
  destruct (Hp ltac:(done)) as [Hpos _]. split; [reflexivity|].
  exists size. split; [exact Es|]. change (blen (repeat 7 20)) with 20 in Hs. lia.
Defined.

Definition sample_signed : Signed TxEip1559 :=
  new_unhashed {| ref_byte := Ascii.zero |} true.

Lemma tx_env_constructions_agree_witness :
  exists a, from_recovered_tx (TxEnvelope.Eip1559 sample_signed) 99 = Returns a
    /\ to_tx_env (with_compression_info (TxEnvelope.Eip1559 sample_signed) 99 1000000000 4) = a.
Proof.
  destruct (tx_env_constructions_agree (TxEnvelope.Eip1559 sample_signed) 99)
    as (a & b & Ea & Eb & _ & Hab & _ & _ & _ & _ & Hc & _); [vm_compute; discriminate..|].
  exists b. split; [exact Eb|]. rewrite <- (Hab eq_refl). apply Hc; [reflexivity| |reflexivity].
  injection Ea as <-. reflexivity.
Defined.
