(* ===== verification/Executor.v ===== *)
(** * Block execution (dogeos-reth-evm/src: block, receipt.rs, spec.rs,
    system_caller.rs, l1.rs, witness_state.rs, lib.rs)

    The executor of a block as a state machine over the EVM, its database, the
    receipts and the gas counter. The EVM itself ([revm], [revm_scroll]) is an
    interface. A computation that fails keeps the state it reached; a panic is
    a failure of its own. *)

From stdpp Require Import prelude gmap list strings.
From Stdlib Require Import ZArith Lia Sorting.Sorted.
From S2P Require Import Prelude.
From S2P Require Import Hardforks.
From S2P Require Import GenesisConfig.
From S2P Require Import ChainSpec.
From S2P Require Import Chain.
From S2P Require Import BaseFee.
From S2P Require Import Alloy.
From S2P Require Import AlloyRef.
From S2P Require Import TxType.
From S2P Require Import L1Message.
From S2P Require Import Envelope.
From S2P Require Import Transitions.
From S2P Require Import Receipt.
From S2P Require CodeWitness.
From S2P Require TxEnv.

Import (hints) TxEnv.
Import NodeReceipt(ScrollReceipt).

(** ** The specification identifier (spec.rs) *)

Inductive ScrollSpecId : Type := FEYNMAN | GALILEO | TSUKI | TSUKI_V2.

#[export] Instance ScrollSpecId_eq_dec : EqDecision ScrollSpecId.
Proof. solve_decision. Defined.

Definition spec_id_at_timestamp_and_number `{AlloyForks} {S} `{DogeosHardforks S}
    (timestamp number : Z) (chain_spec : S) : ScrollSpecId :=
  let active fork :=
    active_at_timestamp_or_number (dogeos_fork_activation chain_spec fork) timestamp number in
  if active TsukiV2 then TSUKI_V2
  else if active Tsuki then TSUKI
  else if active GalileoV2 || active Galileo then GALILEO
  else FEYNMAN.

(** ** The EVM *)

Record BlockEnv := {
  block_number : U256;
  block_beneficiary : Address;
  block_timestamp : U256;
  block_gas_limit : Z;
  block_basefee : Z;
  block_difficulty : U256;
  block_prevrandao : option B256;
}.

(** The results of a transaction: outcome, gas and logs, and the state changes. *)
Record ExecutionResult `{ReceiptTypes} := {
  is_success : bool;
  result_gas_used : Z;
  into_logs : list Log;
}.

Record ResultAndState `{ReceiptTypes} := {
  result_of : ExecutionResult;
  state_of : EvmState;
}.

Section EvmTypes.
Context `{TxEnv.EvmTypes}.

(** [ScrollEvm]: the parts of its context the executor reads and writes, and its
    inspector. The inspector is the code-witness one; an EVM that does not inspect
    never runs it. *)
Record ScrollEvm (L1BlockInfo DB : Type) := {
  evm_db : DB;
  evm_block : BlockEnv;
  evm_spec : ScrollSpecId;
  evm_chain_id : Z;
  disable_base_fee : bool;
  disable_nonce_check : bool;
  evm_tx : TxEnv.ScrollTx TxEnv.Authorization;
  l1_block_info : L1BlockInfo;
  inspect : bool;
  evm_inspector : CodeWitness.Inspector;
}.
End EvmTypes.
Arguments evm_db {_ _ _ _ _} _.
Arguments evm_block {_ _ _ _ _} _.
Arguments evm_spec {_ _ _ _ _} _.
Arguments evm_chain_id {_ _ _ _ _} _.
Arguments disable_base_fee {_ _ _ _ _} _.
Arguments disable_nonce_check {_ _ _ _ _} _.
Arguments evm_tx {_ _ _ _ _} _.
Arguments l1_block_info {_ _ _ _ _} _.
Arguments inspect {_ _ _ _ _} _.
Arguments evm_inspector {_ _ _ _ _} _.

Section SetDb.
Context `{TxEnv.EvmTypes} {L1 DB : Type}.

Definition with_db (evm : ScrollEvm L1 DB) (db : DB) : ScrollEvm L1 DB :=
  {| evm_db := db; evm_block := evm_block evm; evm_spec := evm_spec evm;
     evm_chain_id := evm_chain_id evm; disable_base_fee := disable_base_fee evm;
     disable_nonce_check := disable_nonce_check evm; evm_tx := evm_tx evm;
     l1_block_info := l1_block_info evm; inspect := inspect evm;
     evm_inspector := evm_inspector evm |}.

Definition with_tx (evm : ScrollEvm L1 DB) (tx : TxEnv.ScrollTx TxEnv.Authorization) :
    ScrollEvm L1 DB :=
  {| evm_db := evm_db evm; evm_block := evm_block evm; evm_spec := evm_spec evm;
     evm_chain_id := evm_chain_id evm; disable_base_fee := disable_base_fee evm;
     disable_nonce_check := disable_nonce_check evm; evm_tx := tx;
     l1_block_info := l1_block_info evm; inspect := inspect evm;
     evm_inspector := evm_inspector evm |}.
End SetDb.

(** [revm] and [revm_scroll] over a database: running a transaction or a system
    call, with or without the inspector, and the L1 data fee. *)
Class Revm `{TxEnv.EvmTypes} `{ReceiptTypes} (DB : Type) := {
  L1BlockInfo : Type;
  EVMError : Type;
  show_evm_error : EVMError -> string;
  revm_transact : ScrollEvm L1BlockInfo DB -> TxEnv.ScrollTx TxEnv.Authorization ->
    result ResultAndState EVMError * ScrollEvm L1BlockInfo DB;
  revm_inspect_tx : ScrollEvm L1BlockInfo DB -> TxEnv.ScrollTx TxEnv.Authorization ->
    result ResultAndState EVMError * ScrollEvm L1BlockInfo DB;
  new_system_tx_with_caller : Address -> Address -> bytes -> TxEnv.ScrollTx TxEnv.Authorization;
  inspect_run_system_call : ScrollEvm L1BlockInfo DB ->
    result ExecutionResult EVMError * ScrollEvm L1BlockInfo DB;
  finalize : ScrollEvm L1BlockInfo DB -> EvmState * ScrollEvm L1BlockInfo DB;
  system_call_with_caller : ScrollEvm L1BlockInfo DB -> Address -> Address -> bytes ->
    result ResultAndState EVMError * ScrollEvm L1BlockInfo DB;
  calculate_tx_l1_cost : L1BlockInfo -> bytes -> ScrollSpecId -> option U256 -> option Z -> U256;
  (** The length of the code with a given hash. *)
  code_size : B256 -> Z;
}.

(** The addresses of EIP-4788 and EIP-2935 ([alloy_eips]). *)
Class SystemAddresses := {
  SYSTEM_ADDRESS : Address;
  HISTORY_STORAGE_ADDRESS : Address;
  (** The 32 bytes of a hash. *)
  hash_bytes : B256 -> bytes;
}.

(** ** Errors *)

Inductive BlockExecutionError (Err : Type) : Type :=
| ErrorMsg (msg : string)
| GasLimitMoreThanAvailable (transaction_gas_limit block_available_gas : Z)
| Eip4844NotSupported (hash : B256)
| EvmFailed (error : Err) (hash : B256)
| BlockHashContractCall (message : string)
| ValidationMsg (msg : string).
Arguments ErrorMsg {Err} msg.
Arguments GasLimitMoreThanAvailable {Err} _ _.
Arguments Eip4844NotSupported {Err} hash.
Arguments EvmFailed {Err} error hash.
Arguments BlockHashContractCall {Err} message.
Arguments ValidationMsg {Err} msg.

(** An error returned, or a panic. *)
Inductive Failure (Err : Type) : Type :=
| Error (e : BlockExecutionError Err)
| Panic (msg : string).
Arguments Error {Err} e.
Arguments Panic {Err} msg.

(** ** State hooks (system_caller.rs) *)

Inductive StateChangeSource : Type :=
| SourceTransaction (index : nat)
| SourceBlockHashesContract.

(** An installed hook, as the calls it has received. *)
Record StateHook := { hook_calls : list (StateChangeSource * EvmState) }.

(** ** The executor (block/mod.rs) *)

Section ExecutorState.
Context `{TxEnv.EvmTypes} `{ReceiptTypes}.

Record ScrollBlockExecutor (S L1 DB : Type) := {
  spec : S;
  evm : ScrollEvm L1 DB;
  ctx_parent_hash : B256;
  receipts : list ScrollReceipt;
  gas_used : Z;
  hook : option StateHook;
}.
End ExecutorState.
Arguments spec {_ _ _ _ _ _ _} _.
Arguments evm {_ _ _ _ _ _ _} _.
Arguments ctx_parent_hash {_ _ _ _ _ _ _} _.
Arguments receipts {_ _ _ _ _ _ _} _.
Arguments gas_used {_ _ _ _ _ _ _} _.
Arguments hook {_ _ _ _ _ _ _} _.

(** A transaction result waiting for its commit ([ScrollTxResult]). *)
Record ScrollTxResult `{ReceiptTypes} := {
  tx_result : ResultAndState;
  tx_l1_fee : U256;
  tx_type_byte : Z;
}.

(** [ReceiptBuilderCtx]. *)
Record ReceiptBuilderCtx `{ReceiptTypes} := {
  rb_tx_type : Z;
  rb_result : ExecutionResult;
  rb_cumulative_gas_used : Z;
  rb_l1_fee : U256;
}.

(** [ScrollRethReceiptBuilder::build_receipt]. *)
Definition build_receipt `{ReceiptTypes} (ctx : ReceiptBuilderCtx) : outcome ScrollReceipt :=
  let inner := {| r_status := status_of_bool (is_success (rb_result ctx));
                  r_cumulative_gas_used := rb_cumulative_gas_used ctx;
                  r_logs := into_logs (rb_result ctx) |} in
  let with_l1_fee inner := L2Receipt.new inner (rb_l1_fee ctx) in
  match ScrollTxType.try_from_u8 (rb_tx_type ctx) with
  | Err _ => Panics "unexpected Scroll transaction type"
  | Ok ScrollTxType.Legacy => Returns (NodeReceipt.Legacy (with_l1_fee inner))
  | Ok ScrollTxType.Eip2930 => Returns (NodeReceipt.Eip2930 (with_l1_fee inner))
  | Ok ScrollTxType.Eip1559 => Returns (NodeReceipt.Eip1559 (with_l1_fee inner))
  | Ok ScrollTxType.Eip7702 => Returns (NodeReceipt.Eip7702 (with_l1_fee inner))
  | Ok ScrollTxType.L1Message => Returns (NodeReceipt.L1Message inner)
  end.

Record BlockExecutionResult `{ReceiptTypes} := {
  br_receipts : list ScrollReceipt;
  br_requests : list bytes;
  br_gas_used : Z;
  br_blob_gas_used : Z;
}.

(** The factory of executors; the receipt builder and the EVM factory it also
    holds have no state. *)
Record ScrollBlockExecutorFactory (S : Type) := { factory_spec : S }.
Arguments factory_spec {S} _.

Definition new_executor_factory {S} (spec : S) : ScrollBlockExecutorFactory S := {| factory_spec := spec |}.

Section Executor.
Context `{AlloyForks} `{TxEnv.EvmTypes} `{ReceiptTypes} `{RevmAccounts} `{SystemAddresses}
  {S : Type} `{DogeosHardforks S} `{ChainConfig S} {DB E : Type} `{Database DB E} `{!Revm DB}.
(** Formatting of database errors, plain and debug. *)
Context (show show_debug : E -> string).

Abbreviation Evm := (ScrollEvm L1BlockInfo DB).
Abbreviation Exec := (ScrollBlockExecutor S L1BlockInfo DB).
Abbreviation M := (sresult Exec (Failure EVMError)).

Definition new_executor (evm : Evm) (parent_hash : B256) (spec : S) : Exec :=
  {| spec := spec; evm := evm; ctx_parent_hash := parent_hash; receipts := []; gas_used := 0;
     hook := None |}.

Definition create_executor (self : ScrollBlockExecutorFactory S) (evm : Evm) (parent_hash : B256) : Exec :=
  new_executor evm parent_hash (factory_spec self).

Definition set_evm (self : Exec) (evm : Evm) : Exec :=
  {| spec := spec self; evm := evm; ctx_parent_hash := ctx_parent_hash self;
     receipts := receipts self; gas_used := gas_used self; hook := hook self |}.

Definition set_state_hook (h : option StateHook) : M unit := fun self =>
  (Ok tt, {| spec := spec self; evm := evm self; ctx_parent_hash := ctx_parent_hash self;
             receipts := receipts self; gas_used := gas_used self; hook := h |}).

Definition fail {A} (e : BlockExecutionError EVMError) : M A := fun self => (Err (Error e), self).
Definition panic {A} (msg : string) : M A := fun self => (Err (Panic msg), self).
(** Reads the executor. *)
Definition with_self {A} (k : Exec -> M A) : M A := fun self => k self self.

(** [U256::to::<u64>]. *)
Definition to_u64 (x : U256) : M Z := fun self =>
  if x <=? u64_max then (Ok x, self) else (Err (Panic "u64 overflow"), self).

(** Code over the database of the executor's EVM. *)
Definition on_db {A} (m : sresult DB E A) (to_error : E -> string) : M A := fun self =>
  let '(r, db) := m (evm_db (evm self)) in
  (map_err (fun e => Error (ErrorMsg (to_error e))) r, set_evm self (with_db (evm self) db)).

Definition commit_state (state : EvmState) : M unit := fun self =>
  (Ok tt, set_evm self (with_db (evm self) (commit (evm_db (evm self)) state))).

(** *** The EVM extension (lib.rs, [EvmExt]) *)

Definition transact_raw (evm : Evm) (tx : TxEnv.ScrollTx TxEnv.Authorization) :
    result ResultAndState EVMError * Evm :=
  if inspect evm then revm_inspect_tx evm tx else revm_transact evm tx.

Definition transact_system_call (evm : Evm) (caller contract : Address) (data : bytes) :
    result ResultAndState EVMError * Evm :=
  if inspect evm then
    let evm := with_tx evm (new_system_tx_with_caller caller contract data) in
    match inspect_run_system_call evm with
    | (Err e, evm) => (Err e, evm)
    | (Ok result, evm) =>
        let '(state, evm) := finalize evm in
        (Ok {| result_of := result; state_of := state |}, evm)
    end
  else system_call_with_caller evm caller contract data.

Definition with_base_fee_check (evm : Evm) (enabled : bool) : Evm :=
  {| evm_db := evm_db evm; evm_block := evm_block evm; evm_spec := evm_spec evm;
     evm_chain_id := evm_chain_id evm; disable_base_fee := negb enabled;
     disable_nonce_check := disable_nonce_check evm; evm_tx := evm_tx evm;
     l1_block_info := l1_block_info evm; inspect := inspect evm;
     evm_inspector := evm_inspector evm |}.

Definition with_nonce_check (evm : Evm) (enabled : bool) : Evm :=
  {| evm_db := evm_db evm; evm_block := evm_block evm; evm_spec := evm_spec evm;
     evm_chain_id := evm_chain_id evm; disable_base_fee := disable_base_fee evm;
     disable_nonce_check := negb enabled; evm_tx := evm_tx evm;
     l1_block_info := l1_block_info evm; inspect := inspect evm;
     evm_inspector := evm_inspector evm |}.

(** A change of the executor's EVM ([evm_mut]). *)
Definition on_evm (f : Evm -> Evm) : M unit := fun self => (Ok tt, set_evm self (f (evm self))).

Definition l1_fee (evm : Evm) : option U256 :=
  match TxEnv.rlp_bytes (evm_tx evm) with
  | None => None
  | Some transaction_rlp_bytes =>
      Some (calculate_tx_l1_cost (l1_block_info evm) transaction_rlp_bytes (evm_spec evm)
              (TxEnv.compression_ratio (evm_tx evm)) (TxEnv.compressed_size (evm_tx evm)))
  end.

(** [RethL1BlockInfo::l1_tx_data_fee] (l1.rs). *)
Definition l1_tx_data_fee (self : L1BlockInfo) (chain_spec : S) (timestamp block_number : Z)
    (input : bytes) (compression_info : option (U256 * Z)) (is_l1_message : bool) :
    result U256 (BlockExecutionError EVMError) :=
  if is_l1_message then Ok 0
  else
    let '(compression_ratio, compressed_size) :=
      match compression_info with
      | Some (ratio, size) => (Some ratio, Some size)
      | None => (None, None)
      end in
    let spec := spec_id_at_timestamp_and_number timestamp block_number chain_spec in
    Ok (calculate_tx_l1_cost self input spec compression_ratio compressed_size).

(** *** The system caller *)

Definition on_state (source : StateChangeSource) (state : EvmState) : M unit := fun self =>
  match hook self with
  | None => (Ok tt, self)
  | Some h => set_state_hook (Some {| hook_calls := hook_calls h ++ [(source, state)] |}) self
  end.

Definition on_pre_block_state (state : EvmState) : M unit :=
  if decide (state = ∅) then mret tt else on_state SourceBlockHashesContract state.

Definition transact_blockhashes_contract_call (parent_block_hash : B256) : M (option ResultAndState) :=
  with_self (fun self =>
  timestamp ← to_u64 (block_timestamp (evm_block (evm self)));
  if negb (is_feynman_active_at_timestamp (spec self) timestamp) then mret None
  else
    number ← to_u64 (block_number (evm_block (evm self)));
    if number =? 0 then mret None
    else fun self =>
      match transact_system_call (evm self) SYSTEM_ADDRESS HISTORY_STORAGE_ADDRESS
              (hash_bytes parent_block_hash) with
      | (Ok r, e) => (Ok (Some r), set_evm self e)
      | (Err err, e) => (Err (Error (BlockHashContractCall (show_evm_error err))), set_evm self e)
      end).

Definition apply_blockhashes_contract_call (parent_block_hash : B256) : M unit :=
  r ← transact_blockhashes_contract_call parent_block_hash;
  match r with
  | None => mret tt
  | Some result =>
      _ ← on_state SourceBlockHashesContract (state_of result);
      commit_state (state_of result)
  end.

(** *** Execution *)

(** One fork transition before the transactions, when its fork is active. *)
Definition apply_transition (fork : DogeosHardfork) (transition : sresult DB E EvmState)
    (error_prefix : string) : M unit :=
  with_self (fun self =>
  timestamp ← to_u64 (block_timestamp (evm_block (evm self)));
  if active_at_timestamp (dogeos_fork_activation (spec self) fork) timestamp then
    state ← on_db transition (fun e => String.append error_prefix (show_debug e));
    on_pre_block_state state
  else mret tt).

Definition apply_pre_execution_changes : M unit :=
  with_self (fun self =>
  _ ← on_db (base_fee_overhead (spec self))
        (fun e => String.append "failed to read the base-fee overhead: " (show e));
  _ ← apply_transition Feynman apply_feynman_hard_fork "error occurred at Feynman fork: ";
  _ ← apply_transition GalileoV2 apply_galileo_v2_hard_fork "error occurred at GalileoV2 fork: ";
  _ ← apply_transition Tsuki apply_tsuki_hard_fork "error occurred at Tsuki fork: ";
  apply_blockhashes_contract_call (ctx_parent_hash self)).

(** A transaction ready for execution: its environment, and the transaction with
    its type, gas limit and hash. *)
Record Executable := {
  tx_env : TxEnv.ScrollTx TxEnv.Authorization;
  ex_ty : Z;
  ex_gas_limit : Z;
  ex_trie_hash : B256;
}.

(** [Evm::transact] with its error wrapped for the transaction. *)
Definition transact (tx : TxEnv.ScrollTx TxEnv.Authorization) (hash : B256) : M ResultAndState :=
  fun self =>
    match transact_raw (evm self) tx with
    | (Ok r, e) => (Ok r, set_evm self e)
    | (Err err, e) => (Err (Error (EvmFailed err hash)), set_evm self e)
    end.

Definition loaded_l1_fee : M U256 := fun self =>
  match l1_fee (evm self) with
  | Some fee => (Ok fee, self)
  | None => (Err (Panic "l1 fee loaded"), self)
  end.

Definition execute_transaction_without_commit (tx : Executable) : M ScrollTxResult :=
  with_self (fun self =>
  let is_l1_message := ex_ty tx =? L1_MESSAGE_TRANSACTION_TYPE in
  let block_available_gas := wrap_u64 (block_gas_limit (evm_block (evm self)) - gas_used self) in
  if block_available_gas <? ex_gas_limit tx then
    fail (GasLimitMoreThanAvailable (ex_gas_limit tx) block_available_gas)
  else
    let hash := ex_trie_hash tx in
    let tx_type := ex_ty tx in
    if ex_ty tx =? 3 then fail (Eip4844NotSupported hash)
    else
      _ ← on_evm (fun evm => with_base_fee_check evm (negb is_l1_message));
      _ ← on_evm (fun evm => with_nonce_check evm (negb is_l1_message));
      r ← transact (tx_env tx) hash;
      fee ← (if is_l1_message then mret 0 else loaded_l1_fee);
      mret {| tx_result := r; tx_l1_fee := fee; tx_type_byte := tx_type |}).

(** The gas counter wraps like any [u64] addition. *)
Definition add_gas (g : Z) : M unit := fun self =>
  (Ok tt, {| spec := spec self; evm := evm self; ctx_parent_hash := ctx_parent_hash self;
             receipts := receipts self; gas_used := wrap_u64 (gas_used self + g);
             hook := hook self |}).

Definition push_receipt (r : ScrollReceipt) : M unit := fun self =>
  (Ok tt, {| spec := spec self; evm := evm self; ctx_parent_hash := ctx_parent_hash self;
             receipts := receipts self ++ [r]; gas_used := gas_used self; hook := hook self |}).

Definition commit_transaction (output : ScrollTxResult) : M Z :=
  let result := result_of (tx_result output) in
  let state := state_of (tx_result output) in
  _ ← with_self (fun self => on_state (SourceTransaction (length (receipts self))) state);
  let used := result_gas_used result in
  _ ← add_gas used;
  with_self (fun self =>
  match build_receipt {| rb_tx_type := tx_type_byte output; rb_result := result;
                         rb_cumulative_gas_used := gas_used self;
                         rb_l1_fee := tx_l1_fee output |} with
  | Panics msg => panic msg
  | Returns receipt =>
      _ ← push_receipt receipt;
      _ ← commit_state state;
      mret used
  end).

Definition finish (self : Exec) : Evm * BlockExecutionResult :=
  (evm self, {| br_receipts := receipts self; br_requests := []; br_gas_used := gas_used self;
                br_blob_gas_used := 0 |}).

(** The provided methods of [BlockExecutor]: execute then commit, and the result
    of [finish]. *)
Definition execute_transaction (tx : Executable) : M Z :=
  output ← execute_transaction_without_commit tx; commit_transaction output.

Definition apply_post_execution_changes : M BlockExecutionResult :=
  fun self => (Ok (finish self).2, self).

(** [execute_block_with_compression_cache]: [with_info] is the conversion of a
    transaction with its compression result. *)
Section Cache.
Context {T : Type} (with_info : T -> U256 * Z -> Executable).

Fixpoint execute_cached (transactions : list T) (infos : list (U256 * Z)) : M (list (U256 * Z)) :=
  match transactions with
  | [] => mret infos
  | tx :: transactions =>
      match infos with
      | [] => fail (ErrorMsg "fewer compression infos than transactions")
      | info :: infos =>
          _ ← execute_transaction (with_info tx info);
          execute_cached transactions infos
      end
  end.

Definition execute_block_with_compression_cache (transactions : list T) (infos : list (U256 * Z)) :
    M BlockExecutionResult :=
  _ ← apply_pre_execution_changes;
  rest ← execute_cached transactions infos;
  match rest with
  | _ :: _ => fail (ErrorMsg "more compression infos than transactions")
  | [] => apply_post_execution_changes
  end.
End Cache.
End Executor.

(** ** Laws of the EVM *)

(** The inspector has seen some hooks, on code that agrees with its hash. *)
Definition hooked (size_of : B256 -> Z) (i j : CodeWitness.Inspector) : Prop :=
  exists events, Forall (fun e => CodeWitness.is_hook e = true) events
    /\ Forall (CodeWitness.event_ok size_of) events /\ j = CodeWitness.run i events.

#[export] Instance hooked_preorder size_of : PreOrder (hooked size_of).
Proof.
  split; [intros i; by exists []|]. intros i j k (l1 & H1 & H2 & ->) (l2 & H3 & H4 & ->).
  exists (l1 ++ l2). by rewrite !Forall_app, CodeWitness.run_app.
Qed.

(** Two EVMs with the same block, configuration and inspection mode; the inspector
    of the second may have seen more hooks. *)
Definition same_env `{TxEnv.EvmTypes} `{ReceiptTypes} {DB} `{!Revm DB}
    (a b : ScrollEvm L1BlockInfo DB) : Prop :=
  evm_block b = evm_block a /\ evm_spec b = evm_spec a /\ evm_chain_id b = evm_chain_id a
  /\ disable_base_fee b = disable_base_fee a /\ disable_nonce_check b = disable_nonce_check a
  /\ inspect b = inspect a /\ hooked code_size (evm_inspector a) (evm_inspector b).

(** Running code never changes the block or the configuration; a transaction that
    ran is the current one and used at most its gas limit. *)
Class RevmLaws `{TxEnv.EvmTypes} `{ReceiptTypes} (DB : Type) `{!Revm DB} : Prop := {
  transact_env evm tx r evm' : revm_transact evm tx = (r, evm') -> same_env evm evm';
  inspect_env evm tx r evm' : revm_inspect_tx evm tx = (r, evm') -> same_env evm evm';
  inspect_system_env evm r evm' : inspect_run_system_call evm = (r, evm') -> same_env evm evm';
  finalize_env evm st evm' : finalize evm = (st, evm') -> same_env evm evm';
  system_call_env evm a b d r evm' : system_call_with_caller evm a b d = (r, evm') -> same_env evm evm';
  transact_ran evm tx r evm' :
    revm_transact evm tx = (Ok r, evm') ->
    evm_tx evm' = tx /\ 0 <= result_gas_used (result_of r) <= TxEnv.gas_limit (TxEnv.base tx);
  inspect_ran evm tx r evm' :
    revm_inspect_tx evm tx = (Ok r, evm') ->
    evm_tx evm' = tx /\ 0 <= result_gas_used (result_of r) <= TxEnv.gas_limit (TxEnv.base tx);
  l1_cost_nonneg info rlp spec ratio size : 0 <= calculate_tx_l1_cost info rlp spec ratio size;
}.

(** The environment of an executable transaction is that transaction's: same gas
    limit, and encoded bytes for everything but an L1 message. *)
Definition executable_ok `{TxEnv.EvmTypes} (tx : Executable) : Prop :=
  TxEnv.gas_limit (TxEnv.base (tx_env tx)) = ex_gas_limit tx
  /\ (ex_ty tx <> L1_MESSAGE_TRANSACTION_TYPE -> is_Some (TxEnv.rlp_bytes (tx_env tx))).

(** ** What steps leave alone *)

Definition tx_index (call : StateChangeSource * EvmState) : option nat :=
  match call.1 with SourceTransaction i => Some i | SourceBlockHashesContract => None end.

(** The transaction indices an installed hook has seen. *)
Definition seen_indices `{TxEnv.EvmTypes} `{ReceiptTypes} {S L1 DB}
    (self : ScrollBlockExecutor S L1 DB) : option (list nat) :=
  match hook self with Some h => Some (omap tx_index (hook_calls h)) | None => None end.

Record frame `{TxEnv.EvmTypes} `{ReceiptTypes} {S DB} `{!Revm DB}
    (a b : ScrollBlockExecutor S L1BlockInfo DB) : Prop := {
  frame_block : evm_block (evm b) = evm_block (evm a);
  frame_spec : spec b = spec a;
  frame_parent : ctx_parent_hash b = ctx_parent_hash a;
  frame_receipts : receipts b = receipts a;
  frame_gas : gas_used b = gas_used a;
  frame_seen : seen_indices b = seen_indices a;
  frame_hooks : hooked code_size (evm_inspector (evm a)) (evm_inspector (evm b));
}.

Section Frames.
Context `{AlloyForks} `{TxEnv.EvmTypes} `{ReceiptTypes} `{RevmAccounts} `{SystemAddresses}
  {S : Type} `{DogeosHardforks S} `{ChainConfig S} {DB E : Type} `{Database DB E} `{!Revm DB}
  `{!RevmLaws DB}.
Context (show show_debug : E -> string).

Abbreviation Exec := (ScrollBlockExecutor S L1BlockInfo DB).
Abbreviation M := (sresult Exec (Failure EVMError)).

#[local] Instance frame_preorder : PreOrder (@frame _ _ _ _ S DB Revm0).
Proof.
  split; [by split|]. intros a b c [] []. split; try congruence. by etransitivity.
Qed.

Definition preserves {A} (m : M A) : Prop :=
  forall self r self', m self = (r, self') -> frame self self'.

Lemma preserves_ret {A} (a : A) : preserves (mret a).
Proof. intros self r self' [= _ <-]. reflexivity. Qed.

Lemma preserves_bind {A B} (m : M A) (f : A -> M B) :
  preserves m -> (forall a, preserves (f a)) -> preserves (m ≫= f).
Proof.
  intros Hm Hf self r self'. unfold mbind, sresult_bind.
  destruct (m self) as [[a|e] s] eqn:Em; intros Er.
  - etransitivity; [by eapply Hm|by eapply Hf].
  - injection Er as _ <-. by eapply Hm.
Qed.

Lemma preserves_with_self {A} (k : Exec -> M A) : (forall s, preserves (k s)) -> preserves (with_self k).
Proof. intros Hk self r self' Er. by eapply Hk. Qed.

Lemma preserves_fail {A} e : preserves (fail e : M A).
Proof. intros self r self' [= _ <-]. reflexivity. Qed.

Lemma preserves_to_u64 x : preserves (to_u64 x).
Proof. intros self r self'. unfold to_u64. case_match; intros [= _ <-]; reflexivity. Qed.

Lemma preserves_on_db {A} (m : sresult DB E A) f : preserves (on_db m f).
Proof.
  intros self r self'. unfold on_db. destruct (m _) as [x db]. by intros [= _ <-].
Qed.

Lemma preserves_commit st : preserves (commit_state st).
Proof. intros self r self' [= _ <-]. by split. Qed.

Lemma preserves_flags b :
  preserves (on_evm (fun evm => with_base_fee_check evm b))
  /\ preserves (on_evm (fun evm => with_nonce_check evm b)).
Proof. split; intros self r self' [= _ <-]; by split. Qed.

Lemma preserves_l1_fee : preserves loaded_l1_fee.
Proof. intros self r self'. unfold loaded_l1_fee. case_match; intros [= _ <-]; reflexivity. Qed.

Lemma set_evm_frame (self : Exec) e :
  evm_block e = evm_block (evm self) -> hooked code_size (evm_inspector (evm self)) (evm_inspector e) ->
  frame self (set_evm self e).
Proof. by split. Qed.

Lemma transact_raw_env evm tx r evm' :
  transact_raw evm tx = (r, evm') -> same_env evm evm'.
Proof. unfold transact_raw. case_match; [apply inspect_env|apply transact_env]. Qed.

Lemma preserves_transact tx h : preserves (transact tx h).
Proof.
  intros self r self'. unfold transact. destruct (transact_raw _ _) as [x e] eqn:Et.
  apply transact_raw_env in Et as (Eb & _ & _ & _ & _ & _ & Eh).
  destruct x; intros [= _ <-]; by apply set_evm_frame.
Qed.

Lemma transact_system_env evm a b d r evm' :
  transact_system_call evm a b d = (r, evm') ->
  evm_block evm' = evm_block evm /\ hooked code_size (evm_inspector evm) (evm_inspector evm').
Proof.
  unfold transact_system_call. case_match.
  - destruct (inspect_run_system_call _) as [[x|x] e] eqn:E1;
      apply inspect_system_env in E1 as (E1 & _ & _ & _ & _ & _ & Hh1).
    + destruct (finalize e) as [st e'] eqn:E2.
      apply finalize_env in E2 as (E2 & _ & _ & _ & _ & _ & Hh2).
      intros [= _ <-]. rewrite E2, E1. split; [done|]. by etransitivity.
    + by intros [= _ <-].
  - intros Es. apply system_call_env in Es as (E1 & _ & _ & _ & _ & _ & Hh1). by split.
Qed.

Lemma preserves_pre_hook st : preserves (on_state SourceBlockHashesContract st).
Proof.
  intros self r self'. unfold on_state. destruct (hook self) as [h|] eqn:Eh; intros [= _ <-];
    [|reflexivity]. split; try done. unfold seen_indices. simpl. rewrite Eh.
  by rewrite omap_app, app_nil_r.
Qed.

Lemma preserves_pre_state st : preserves (on_pre_block_state st).
Proof. unfold on_pre_block_state. case_decide; [apply preserves_ret|apply preserves_pre_hook]. Qed.

Lemma preserves_system_call caller contract data :
  preserves (fun self : Exec =>
    match transact_system_call (evm self) caller contract data with
    | (Ok r, e) => (Ok (Some r), set_evm self e)
    | (Err err, e) => (Err (Error (BlockHashContractCall (show_evm_error err))), set_evm self e)
    end).
Proof.
  intros self r self'. destruct (transact_system_call _ _ _ _) as [x e] eqn:Et.
  apply transact_system_env in Et as [Eb Eh]. destruct x; intros [= _ <-]; by apply set_evm_frame.
Qed.

Lemma preserves_blockhashes h : preserves (apply_blockhashes_contract_call h).
Proof.
  apply preserves_bind.
  - apply preserves_with_self. intros s. apply preserves_bind; [apply preserves_to_u64|].
    intros t. case_match; [apply preserves_ret|].
    apply preserves_bind; [apply preserves_to_u64|]. intros n. case_match; [apply preserves_ret|].
    apply preserves_system_call.
  - intros [r|]; [|apply preserves_ret].
    apply preserves_bind; [apply preserves_pre_hook|]. intros _. apply preserves_commit.
Qed.

Lemma preserves_transition f t p : preserves (apply_transition show_debug f t p).
Proof.
  apply preserves_with_self. intros s. apply preserves_bind; [apply preserves_to_u64|].
  intros n. case_match; [|apply preserves_ret].
  apply preserves_bind; [apply preserves_on_db|apply preserves_pre_state].
Qed.

Lemma preserves_pre_execution : preserves (apply_pre_execution_changes show show_debug).
Proof.
  apply preserves_with_self. intros s. apply preserves_bind; [apply preserves_on_db|intros _].
  do 3 (apply preserves_bind; [apply preserves_transition|intros _]). apply preserves_blockhashes.
Qed.

Lemma preserves_execute tx : preserves (execute_transaction_without_commit tx).
Proof.
  apply preserves_with_self. intros s. cbv zeta. destruct (_ <? _); [apply preserves_fail|].
  destruct (ex_ty tx =? 3); [apply preserves_fail|].
  apply preserves_bind; [apply preserves_flags|intros _].
  apply preserves_bind; [apply preserves_flags|intros _].
  apply preserves_bind; [apply preserves_transact|intros r].
  apply preserves_bind; [destruct (_ =? _); [apply preserves_ret|apply preserves_l1_fee]|intros fee].
  apply preserves_ret.
Qed.
End Frames.

(** ** Execution and commit of one transaction *)

Section Steps.
Context `{AlloyForks} `{TxEnv.EvmTypes} `{ReceiptTypes} `{RevmAccounts} `{SystemAddresses}
  {S : Type} `{DogeosHardforks S} `{ChainConfig S} {DB E : Type} `{Database DB E} `{!Revm DB}
  `{!RevmLaws DB}.

Abbreviation Exec := (ScrollBlockExecutor S L1BlockInfo DB).
Abbreviation M := (sresult Exec (Failure EVMError)).

(** The executor with the base-fee and nonce checks set for a transaction. *)
Definition with_checks (enabled : bool) (self : Exec) : Exec :=
  set_evm self (with_nonce_check (with_base_fee_check (evm self) enabled) enabled).

Lemma execute_eq tx self :
  execute_transaction_without_commit tx self =
  let l1 := ex_ty tx =? L1_MESSAGE_TRANSACTION_TYPE in
  let available := wrap_u64 (block_gas_limit (evm_block (evm self)) - gas_used self) in
  if available <? ex_gas_limit tx then
    (Err (Error (GasLimitMoreThanAvailable (ex_gas_limit tx) available)), self)
  else if ex_ty tx =? 3 then (Err (Error (Eip4844NotSupported (ex_trie_hash tx))), self)
  else
    let self := with_checks (negb l1) self in
    match transact_raw (evm self) (tx_env tx) with
    | (Err e, v) => (Err (Error (EvmFailed e (ex_trie_hash tx))), set_evm self v)
    | (Ok r, v) =>
        let out fee := {| tx_result := r; tx_l1_fee := fee; tx_type_byte := ex_ty tx |} in
        if l1 then (Ok (out 0), set_evm self v)
        else match l1_fee v with
             | Some fee => (Ok (out fee), set_evm self v)
             | None => (Err (Panic "l1 fee loaded"), set_evm self v)
             end
    end.
Proof.
  unfold execute_transaction_without_commit, with_self. cbv zeta.
  destruct (_ <? ex_gas_limit tx); [done|]. destruct (ex_ty tx =? 3); [done|].
  unfold mbind, sresult_bind at 1 2 3. cbn -[transact_raw L1_MESSAGE_TRANSACTION_TYPE].
  unfold sresult_bind, transact, with_checks. cbn -[transact_raw L1_MESSAGE_TRANSACTION_TYPE].
  destruct (transact_raw _ _) as [[r|e] v]; [|done].
  destruct (ex_ty tx =? L1_MESSAGE_TRANSACTION_TYPE); [done|].
  unfold loaded_l1_fee. cbn. by destruct (l1_fee v).
Qed.

Lemma transact_raw_ran v tx r v' :
  transact_raw v tx = (Ok r, v') ->
  evm_tx v' = tx /\ 0 <= result_gas_used (result_of r) <= TxEnv.gas_limit (TxEnv.base tx).
Proof. unfold transact_raw. case_match; [apply inspect_ran|apply transact_ran]. Qed.

(** A commit appends one receipt and moves the counter by the gas used. *)
Lemma commit_Ok out (self : Exec) g self' :
  commit_transaction out self = (Ok g, self') ->
  exists r, receipts self' = receipts self ++ [r]
    /\ g = result_gas_used (result_of (tx_result out))
    /\ gas_used self' = wrap_u64 (gas_used self + g)
    /\ NodeReceipt.cumulative_gas_used r = gas_used self'
    /\ ScrollTxType.to_u8 (NodeReceipt.tx_type r) = tx_type_byte out
    /\ NodeReceipt.l1_fee r
       = (if tx_type_byte out =? L1_MESSAGE_TX_TYPE_ID then 0 else tx_l1_fee out)
    /\ NodeReceipt.logs r = into_logs (result_of (tx_result out))
    /\ evm_block (evm self') = evm_block (evm self) /\ spec self' = spec self
    /\ seen_indices self' = (fun l => l ++ [length (receipts self)]) <$> seen_indices self.
Proof.
  unfold commit_transaction, mbind, with_self. unfold sresult_bind, on_state.
  assert (Hh : exists h', (match hook self with
      | Some h => set_state_hook (Some {| hook_calls := hook_calls h ++
          [(SourceTransaction (length (receipts self)), state_of (tx_result out))] |}) self
      | None => (Ok tt, self) end)
    = (Ok tt, {| spec := spec self; evm := evm self; ctx_parent_hash := ctx_parent_hash self;
                 receipts := receipts self; gas_used := gas_used self; hook := h' |})
    /\ match h' with Some h => Some (omap tx_index (hook_calls h)) | None => None end
       = (fun l => l ++ [length (receipts self)]) <$> seen_indices self).
  { unfold seen_indices. destruct (hook self) as [h|] eqn:Eh.
    - eexists. split; [reflexivity|]. simpl. by rewrite omap_app.
    - exists None. split; [|done]. by destruct self; simpl in *; subst. }
  destruct Hh as (h' & -> & Hseen). cbn. unfold build_receipt. cbn.
  destruct (ScrollTxType.try_from_u8 (tx_type_byte out)) as [v|] eqn:Ety; [|done].
  apply try_from_u8_Ok in Ety. rewrite Ety.
  destruct v; intros [= <- <-]; eexists; (split; [reflexivity|]); repeat split; try done; exact Hseen.
Qed.

(** A commit runs no code, and can only fail by the panic on an unknown type. *)
Lemma commit_inspector out (self : Exec) r self' :
  commit_transaction out self = (r, self') ->
  evm_inspector (evm self') = evm_inspector (evm self)
  /\ match r with Ok _ => True | Err f => exists msg, f = Panic msg end.
Proof.
  unfold commit_transaction, mbind, with_self, sresult_bind, on_state.
  destruct (hook self); cbn; destruct (build_receipt _); intros [= <- <-]; eauto.
Qed.

Lemma execute_commit_Ok tx (self : Exec) g self' :
  executable_ok tx -> 0 <= gas_used self <= block_gas_limit (evm_block (evm self)) ->
  block_gas_limit (evm_block (evm self)) <= u64_max ->
  execute_transaction tx self = (Ok g, self') ->
  exists r, receipts self' = receipts self ++ [r]
    /\ gas_used self' = gas_used self + g /\ 0 <= g
    /\ gas_used self' <= block_gas_limit (evm_block (evm self))
    /\ NodeReceipt.cumulative_gas_used r = gas_used self'
    /\ ScrollTxType.to_u8 (NodeReceipt.tx_type r) = ex_ty tx
    /\ evm_block (evm self') = evm_block (evm self) /\ spec self' = spec self
    /\ seen_indices self' = (fun l => l ++ [length (receipts self)]) <$> seen_indices self.
Proof.
  intros [Hgl Hrlp] Hgas Hmax (out & self1 & Ex & Ec)%sbind_Ok.
  pose proof (preserves_execute tx _ _ _ Ex) as [Hb Hsp Hpar Hr Hg Hseen].
  apply commit_Ok in Ec as (r & Er & Eg & Egas & Ecum & Ety & _ & _ & Eb & Esp & Es).
  rewrite execute_eq in Ex. cbv zeta in Ex.
  rewrite wrap_u64_small in Ex by solve_ints.
  destruct (Z.ltb_spec (block_gas_limit (evm_block (evm self)) - gas_used self) (ex_gas_limit tx)) as [|Hroom];
    [done|]. destruct (ex_ty tx =? 3); [done|].
  assert (Hout : 0 <= result_gas_used (result_of (tx_result out)) <= ex_gas_limit tx
    /\ tx_type_byte out = ex_ty tx).
  { destruct (transact_raw _ _) as [[x|e] v] eqn:Et; [|done]. apply transact_raw_ran in Et as [_ Ht].
    rewrite Hgl in Ht. destruct (_ =? L1_MESSAGE_TRANSACTION_TYPE); [by injection Ex as <- _|].
    destruct (l1_fee v); [by injection Ex as <- _|done]. }
  destruct Hout as [Hout Hty]. rewrite Hg, wrap_u64_small in Egas by solve_ints.
  exists r. rewrite <- Hr, <- Hb, Er, Es, Hseen, Hsp in *. repeat split; try done; try lia; congruence.
Qed.
End Steps.

(** ** Runs of the executor *)

Section Runs.
Context `{AlloyForks} `{TxEnv.EvmTypes} `{ReceiptTypes} `{RevmAccounts} `{SystemAddresses}
  {S : Type} `{DogeosHardforks S} `{ChainConfig S} {DB E : Type} `{Database DB E} `{!Revm DB}.
Context (show show_debug : E -> string).

Abbreviation Exec := (ScrollBlockExecutor S L1BlockInfo DB).

(** What a caller does with an executor, in any order: the pre-execution changes,
    an execution whose result is dropped or fails, an execution and its commit. *)
Inductive exec_step : Exec -> Exec -> Prop :=
| StepPre self r self' :
    apply_pre_execution_changes show show_debug self = (r, self') -> exec_step self self'
| StepTry tx self r self' :
    executable_ok tx -> execute_transaction_without_commit tx self = (r, self') ->
    exec_step self self'
| StepCommit tx self g self' :
    executable_ok tx -> execute_transaction tx self = (Ok g, self') -> exec_step self self'.

(** The cumulative gas of the receipts never falls, never exceeds the counter, and
    ends at it. *)
Definition receipts_ok (rs : list ScrollReceipt) (gas : Z) : Prop :=
  let cumulative := map NodeReceipt.cumulative_gas_used rs in
  StronglySorted Z.le cumulative /\ Forall (fun c => 0 <= c <= gas) cumulative
  /\ default 0 (last cumulative) = gas.

Record exec_inv (limit : Z) (self : Exec) : Prop := {
  inv_block : block_gas_limit (evm_block (evm self)) = limit;
  inv_gas : 0 <= gas_used self <= limit;
  inv_receipts : receipts_ok (receipts self) (gas_used self);
  inv_seen : seen_indices self = (fun _ => seq 0 (length (receipts self))) <$> seen_indices self;
}.

Lemma strongly_sorted_snoc l x :
  StronglySorted Z.le l -> Forall (fun y => y <= x) l -> StronglySorted Z.le (l ++ [x]).
Proof.
  induction 1 as [|y l Hl IH Hy]; simpl; intros Hf; [repeat constructor|].
  inversion Hf; subst. constructor; [by apply IH|]. apply Forall_app. by repeat constructor.
Qed.

Lemma receipts_ok_snoc rs gas r :
  receipts_ok rs gas -> 0 <= gas <= NodeReceipt.cumulative_gas_used r ->
  receipts_ok (rs ++ [r]) (NodeReceipt.cumulative_gas_used r).
Proof.
  intros (Hs & Hf & _) Hg. unfold receipts_ok. rewrite map_app. simpl. split; [|split].
  - apply strongly_sorted_snoc; [done|]. eapply Forall_impl; [done|]. simpl. lia.
  - apply Forall_app. split; [|repeat constructor; lia]. eapply Forall_impl; [done|]. simpl. lia.
  - by rewrite last_snoc.
Qed.

Context `{!RevmLaws DB}.

Lemma frame_inv limit self self' : frame self self' -> exec_inv limit self -> exec_inv limit self'.
Proof. intros [Hb _ _ Hr Hg Hs] [Ib Ig Ir Is]. split; [congruence|by rewrite Hg|by rewrite Hr, Hg|by rewrite Hs, Hr]. Qed.

Lemma step_inv limit self self' :
  limit <= u64_max -> exec_step self self' -> exec_inv limit self -> exec_inv limit self'.
Proof.
  intros Hl Hstep Hi. destruct Hstep as [self r self' E1|tx self r self' Hok E1|tx self g self' Hok E1].
  - eapply frame_inv; [|done]. by eapply preserves_pre_execution.
  - eapply frame_inv; [|done]. by eapply preserves_execute.
  - destruct Hi as [Ib Ig Ir Is].
    apply execute_commit_Ok in E1 as (r & Er & Eg & Hg & Hmax & Ec & _ & Eb & _ & Es);
      [|done|lia|lia].
    split.
    + congruence.
    + lia.
    + rewrite Er, <- Ec. eapply receipts_ok_snoc; [done|]. lia.
    + rewrite Es, Is, Er. destruct (seen_indices self); [|done]. simpl.
      by rewrite length_app, seq_app.
Qed.

Lemma steps_inv limit self self' :
  limit <= u64_max -> rtc exec_step self self' -> exec_inv limit self -> exec_inv limit self'.
Proof. intros Hl. induction 1; [done|]. eauto using step_inv. Qed.

Lemma inv_last_gas limit self :
  exec_inv limit self ->
  gas_used self = match last (receipts self) with
                  | Some r => NodeReceipt.cumulative_gas_used r
                  | None => 0
                  end.
Proof.
  intros [_ _ (_ & _ & <-) _]. rewrite fmap_last. by destruct (last (receipts self)).
Qed.
End Runs.

(** ** Properties *)

(** C4: Over any run of an executor, gas accounting is exact: the counter never
    exceeds the block gas limit (so the subtraction of the gas check never
    wraps), it is the cumulative gas of the last receipt, the cumulative gas of
    the receipts never falls, and an installed state hook has seen the
    transactions numbered 0, 1, 2, ... as many as there are receipts. *)
Theorem block_gas_accounting `{AlloyForks} `{TxEnv.EvmTypes} `{ReceiptTypes} `{RevmAccounts}
    `{SystemAddresses} {S : Type} `{DogeosHardforks S} `{ChainConfig S} {DB E : Type}
    `{Database DB E} `{!Revm DB} `{!RevmLaws DB} (show show_debug : E -> string)
    (v : ScrollEvm L1BlockInfo DB) (parent : B256) (s : S) (self : ScrollBlockExecutor S L1BlockInfo DB) :
  let limit := block_gas_limit (evm_block v) in
  in_u64 limit ->
  let start := (set_state_hook (Some {| hook_calls := [] |}) (new_executor v parent s)).2 in
  rtc (exec_step show show_debug) start self ->
  0 <= gas_used self <= limit
  /\ wrap_u64 (limit - gas_used self) = limit - gas_used self
  /\ br_gas_used (finish self).2 = default 0 (last (map NodeReceipt.cumulative_gas_used (receipts self)))
  /\ StronglySorted Z.le (map NodeReceipt.cumulative_gas_used (receipts self))
  /\ seen_indices self = Some (seq 0 (length (receipts self))).
Proof.
  intros limit Hl start Hrun.
  assert (exec_inv limit start) as Hstart.
  { subst start limit. split; simpl; try done; [solve_ints|by repeat constructor]. }
  assert (Hseen : is_Some (seen_indices start)) by (by eexists).
  clearbody start. induction Hrun as [self|start mid self Hstep _ IH].
  - destruct Hstart as [Ib Ig (Hs & _ & Hlast) Is]. destruct Hseen as [l Hs'].
    split; [done|]. split; [apply wrap_u64_small; solve_ints|]. split; [by rewrite Hlast|].
    split; [done|]. by rewrite Is, Hs'.
  - apply IH; [refine (step_inv _ _ limit _ _ _ Hstep Hstart); solve_ints|].
    destruct Hstep as [a r b E1|tx a r b Hok E1|tx a g b Hok E1].
    + apply preserves_pre_execution in E1 as [_ _ _ _ _ ->]. done.
    + apply preserves_execute in E1 as [_ _ _ _ _ ->]. done.
    + destruct Hstart. apply execute_commit_Ok in E1 as (r & _ & _ & _ & _ & _ & _ & _ & _ & ->);
        [|done|lia|solve_ints]. by destruct (seen_indices a); [eexists|destruct Hseen].
Qed.

(** C33: What executing a transaction does, by its gas limit and its type, which of the
    results there is included. A gas limit above what the block has left is
    refused, whatever the type; one that fits, of a blob transaction, is refused;
    both before anything changes. Every other transaction runs, the base-fee and
    nonce checks off for an L1 message and on for the rest: the EVM's error is
    passed on with the transaction's hash, and its result is the output, with gas
    within the limit, the transaction's type, no L1 fee for an L1 message and the
    L1 fee of the encoded bytes for the rest. Apart from the EVM the executor
    stays as it was, and nothing panics. *)
Theorem execute_transaction_spec `{AlloyForks} `{TxEnv.EvmTypes} `{ReceiptTypes} `{RevmAccounts}
    `{SystemAddresses} {S : Type} `{DogeosHardforks S} `{ChainConfig S} {DB E : Type}
    `{Database DB E} `{!Revm DB} `{!RevmLaws DB} (tx : Executable)
    (self : ScrollBlockExecutor S L1BlockInfo DB) :
  let limit := block_gas_limit (evm_block (evm self)) in
  executable_ok tx -> 0 <= gas_used self <= limit -> limit <= u64_max ->
  let l1 := ex_ty tx =? 126 in
  let run := execute_transaction_without_commit tx self in
  (limit < gas_used self + ex_gas_limit tx ->
     run = (Err (Error (GasLimitMoreThanAvailable (ex_gas_limit tx) (limit - gas_used self))), self))
  /\ (gas_used self + ex_gas_limit tx <= limit -> ex_ty tx = 3 ->
     run = (Err (Error (Eip4844NotSupported (ex_trie_hash tx))), self))
  /\ (gas_used self + ex_gas_limit tx <= limit -> ex_ty tx <> 3 ->
     let ready := with_nonce_check (with_base_fee_check (evm self) (negb l1)) (negb l1) in
     disable_base_fee ready = l1 /\ disable_nonce_check ready = l1
     /\ match transact_raw ready (tx_env tx) with
        | (Err e, v) => run = (Err (Error (EvmFailed e (ex_trie_hash tx))), set_evm self v)
        | (Ok r, v) =>
            exists fee,
              run = (Ok {| tx_result := r; tx_l1_fee := fee; tx_type_byte := ex_ty tx |}, set_evm self v)
              /\ 0 <= result_gas_used (result_of r) <= limit - gas_used self
              /\ (if l1 then fee = 0
                  else exists rlp, TxEnv.rlp_bytes (tx_env tx) = Some rlp
                       /\ fee = calculate_tx_l1_cost (l1_block_info v) rlp (evm_spec (evm self))
                                  (TxEnv.compression_ratio (tx_env tx))
                                  (TxEnv.compressed_size (tx_env tx)))
        end).
Proof.
  intros limit [Hgl Hrlp] Hgas Hmax l1 run. unfold run. rewrite execute_eq. cbv zeta.
  fold limit. rewrite wrap_u64_small by solve_ints. change (ex_ty tx =? L1_MESSAGE_TRANSACTION_TYPE) with l1.
  destruct (Z.ltb_spec (limit - gas_used self) (ex_gas_limit tx)) as [Hroom|Hroom];
    [split; [done|split; intros; lia]|].
  split; [intros; lia|]. destruct (Z.eqb_spec (ex_ty tx) 3) as [Hblob|Hty]; [by split|].
  split; [done|]. intros _ _. set (ready := with_nonce_check _ _).
  split; [by destruct l1|]. split; [by destruct l1|].
  change (evm (with_checks (negb l1) self)) with ready.
  destruct (transact_raw ready _) as [[r|e] v] eqn:Et; [|done].
  pose proof (transact_raw_env _ _ _ _ Et) as (_ & Espec & _).
  apply transact_raw_ran in Et as [Etx Hran]. destruct l1 eqn:El.
  - exists 0. split; [done|]. split; [lia|done].
  - unfold l1_fee. rewrite Etx, Espec.
    destruct Hrlp as [rlp Hr]; [intros Ht; unfold l1 in El; by rewrite Ht in El|].
    rewrite Hr. eexists. split; [done|]. split; [lia|]. by exists rlp.
Qed.

(** Executing a list of transactions one after the other. *)
Fixpoint execute_all `{AlloyForks} `{TxEnv.EvmTypes} `{ReceiptTypes} `{RevmAccounts}
    `{SystemAddresses} {S : Type} `{DogeosHardforks S} `{ChainConfig S} {DB E : Type}
    `{Database DB E} `{!Revm DB} (txs : list Executable) :
    sresult (ScrollBlockExecutor S L1BlockInfo DB) (Failure EVMError) unit :=
  match txs with
  | [] => mret tt
  | tx :: txs => _ ← execute_transaction tx; execute_all txs
  end.

Section CacheLemmas.
Context `{AlloyForks} `{TxEnv.EvmTypes} `{ReceiptTypes} `{RevmAccounts} `{SystemAddresses}
  {S : Type} `{DogeosHardforks S} `{ChainConfig S} {DB E : Type} `{Database DB E} `{!Revm DB}.
Context {T : Type} (with_info : T -> U256 * Z -> Executable).

Lemma execute_cached_all txs infos (self : ScrollBlockExecutor S L1BlockInfo DB) :
  execute_cached with_info txs infos self =
  match execute_all (zip_with with_info txs infos) self with
  | (Err e, s) => (Err e, s)
  | (Ok _, s) =>
      if (length infos <? length txs)%nat then
        (Err (Error (ErrorMsg "fewer compression infos than transactions")), s)
      else (Ok (drop (length txs) infos), s)
  end.
Proof.
  revert infos self. induction txs as [|tx txs IH]; intros infos self; [done|].
  destruct infos as [|info infos]; [done|]. simpl. unfold mbind, sresult_bind.
  destruct (execute_transaction _ self) as [[g|e] s]; [|done]. rewrite IH.
  change (Datatypes.S (length infos) <? Datatypes.S (length txs))%nat
    with (length infos <? length txs)%nat. done.
Qed.

Lemma execute_all_steps (show show_debug : E -> string) txs (self self' : ScrollBlockExecutor S L1BlockInfo DB) :
  Forall executable_ok txs -> execute_all txs self = (Ok tt, self') ->
  rtc (exec_step show show_debug) self self'.
Proof.
  intros Hok. revert self. induction Hok as [|tx txs Htx _ IH]; intros self; simpl.
  - by intros [= <-].
  - intros (g & s & E1 & E2)%sbind_Ok. eapply rtc_l; [by eapply StepCommit|by apply IH].
Qed.

Lemma execute_all_receipts `{!RevmLaws DB} txs (self self' : ScrollBlockExecutor S L1BlockInfo DB) :
  execute_all txs self = (Ok tt, self') ->
  length (receipts self') = (length (receipts self) + length txs)%nat.
Proof.
  revert self. induction txs as [|tx txs IH]; intros self; simpl.
  - intros [= <-]. lia.
  - intros (g & s & E1 & E2)%sbind_Ok. apply IH in E2. rewrite E2.
    apply sbind_Ok in E1 as (out & s1 & Ex & Ec).
    apply preserves_execute in Ex as [_ _ _ Hr _ _].
    apply commit_Ok in Ec as (r & Er & _). rewrite Er, length_app, Hr. simpl. lia.
Qed.
End CacheLemmas.

(** Executing a block with cached compression results is executing its
    transactions, each with its own result, after the pre-execution changes: it
    succeeds exactly when that does and the two counts agree, with one receipt
    per transaction; a mismatch is the error that names it, and an earlier
    failure is passed on. *)
Theorem compression_cache_spec `{AlloyForks} `{TxEnv.EvmTypes} `{ReceiptTypes} `{RevmAccounts}
    `{SystemAddresses} {S : Type} `{DogeosHardforks S} `{ChainConfig S} {DB E : Type}
    `{Database DB E} `{!Revm DB} `{!RevmLaws DB} (show show_debug : E -> string) {T : Type}
    (with_info : T -> U256 * Z -> Executable) (txs : list T) (infos : list (U256 * Z))
    (self : ScrollBlockExecutor S L1BlockInfo DB) :
  let reference :=
    (_ ← apply_pre_execution_changes show show_debug;
     execute_all (zip_with with_info txs infos)) self in
  let cached := execute_block_with_compression_cache show show_debug with_info txs infos self in
  cached =
    match reference with
    | (Err e, s) => (Err e, s)
    | (Ok _, s) =>
        if (length infos <? length txs)%nat then
          (Err (Error (ErrorMsg "fewer compression infos than transactions")), s)
        else if (length txs <? length infos)%nat then
          (Err (Error (ErrorMsg "more compression infos than transactions")), s)
        else (Ok (finish s).2, s)
    end
  /\ forall result, cached.1 = Ok result ->
     length (br_receipts result) = (length (receipts self) + length txs)%nat.
Proof.
  intros reference cached.
  assert (Heq : cached = match reference with
    | (Err e, s) => (Err e, s)
    | (Ok _, s) =>
        if (length infos <? length txs)%nat then
          (Err (Error (ErrorMsg "fewer compression infos than transactions")), s)
        else if (length txs <? length infos)%nat then
          (Err (Error (ErrorMsg "more compression infos than transactions")), s)
        else (Ok (finish s).2, s)
    end).
  { subst cached reference. unfold execute_block_with_compression_cache, mbind, sresult_bind.
    destruct (apply_pre_execution_changes show show_debug self) as [[u|e] s]; [|done].
    rewrite execute_cached_all. destruct (execute_all _ s) as [[u'|e] s']; [|done].
    destruct (Nat.ltb_spec (length infos) (length txs)); [done|].
    destruct (Nat.ltb_spec (length txs) (length infos)) as [Hlt|Hge].
    - destruct (drop (length txs) infos) eqn:Ed; [|done].
      apply (f_equal length) in Ed. rewrite length_drop in Ed. simpl in Ed. lia.
    - rewrite drop_ge by lia. done. }
  split; [exact Heq|]. rewrite Heq. intros result. unfold reference, mbind, sresult_bind.
  destruct (apply_pre_execution_changes show show_debug self) as [[u|e] s] eqn:Ep; [|done].
  destruct (execute_all _ s) as [[[]|e] s'] eqn:Ea; [|done].
  destruct (Nat.ltb_spec (length infos) (length txs)); [done|].
  destruct (Nat.ltb_spec (length txs) (length infos)); [done|]. intros [= <-]. simpl.
  apply execute_all_receipts in Ea. rewrite Ea, length_zip_with.
  apply preserves_pre_execution in Ep as [_ _ _ -> _ _]. lia.
Qed.

(** ** The pre-execution changes *)

(** The marks the transitions leave: both oracle flags set, the token account used. *)
Record forks_applied `{RevmAccounts} {DB} `{DatabaseView DB} (db : DB) : Prop := {
  fa_feynman : slot_of db L1_GAS_PRICE_ORACLE_ADDRESS GPO_IS_FEYNMAN_SLOT = 1;
  fa_galileo : slot_of db L1_GAS_PRICE_ORACLE_ADDRESS GPO_IS_GALILEO_SLOT = 1;
  fa_tsuki : let token := default default_info (info_of db NATIVE_DOGE_TOKEN_ADDRESS) in
             ~ (acc_nonce token = 0 /\ acc_code_hash token = KECCAK_EMPTY);
}.

(** The calls an executor's hook has received. *)
Definition calls `{TxEnv.EvmTypes} `{ReceiptTypes} {S L1 DB} (self : ScrollBlockExecutor S L1 DB) :
    list (StateChangeSource * EvmState) :=
  match hook self with Some h => hook_calls h | None => [] end.

Section PreExecution.
Context `{RevmAccountsLaws} {DB E : Type} `{Database DB E} `{DatabaseView DB} `{!DatabaseLaws DB E}.

Lemma same_forks_applied (db db' : DB) : same_contents db db' -> forks_applied db -> forks_applied db'.
Proof. intros [Hi Hs] [? ? ?]. split; rewrite ?Hi, ?Hs; done. Qed.

(** What an oracle upgrade does to the marks, from the general lemma. *)
Lemma oracle_fork_marks flag code entries db st db' :
  NoDup entries.*1 -> (flag, 1) ∈ entries ->
  oracle_fork flag code entries db = (Ok st, db') ->
  slot_of db' L1_GAS_PRICE_ORACLE_ADDRESS flag = 1
  /\ (forall k, k ∉ entries.*1 ->
      slot_of db' L1_GAS_PRICE_ORACLE_ADDRESS k = slot_of db L1_GAS_PRICE_ORACLE_ADDRESS k)
  /\ info_of db' NATIVE_DOGE_TOKEN_ADDRESS = info_of db NATIVE_DOGE_TOKEN_ADDRESS
  /\ (slot_of db L1_GAS_PRICE_ORACLE_ADDRESS flag = 1 -> st = ∅ /\ same_contents db db').
Proof.
  intros Hnd Hin Ef. apply oracle_fork_Ok in Ef as [Hy Hn]; [|done].
  destruct (decide (slot_of db L1_GAS_PRICE_ORACLE_ADDRESS flag = 1)) as [He|Hne].
  - destruct (Hy He) as [-> [Hi Hs]]. split; [by rewrite Hs|]. split; [by intros k _|].
    split; [done|by intros _].
  - destruct (Hn Hne) as [[_ Hslots Hother Hacc] _]. split; [by apply Hslots|]. split; [done|].
    split; [|done]. apply Hacc, token_is_not_oracle.
Qed.

Lemma tsuki_marks (db : DB) st db' :
  apply_tsuki_hard_fork db = (Ok st, db') ->
  let empty d := acc_nonce (default default_info (info_of d NATIVE_DOGE_TOKEN_ADDRESS)) = 0
    /\ acc_code_hash (default default_info (info_of d NATIVE_DOGE_TOKEN_ADDRESS)) = KECCAK_EMPTY in
  ~ empty db' /\ (forall k, slot_of db' L1_GAS_PRICE_ORACLE_ADDRESS k = slot_of db L1_GAS_PRICE_ORACLE_ADDRESS k)
  /\ (~ empty db -> st = ∅ /\ same_contents db db').
Proof.
  intros Ef empty. apply tsuki_Ok in Ef as [Hn Hy]. fold (empty db) in Hn, Hy.
  assert (Hdec : empty db \/ ~ empty db).
  { unfold empty. destruct (decide (acc_nonce (default default_info (info_of db NATIVE_DOGE_TOKEN_ADDRESS)) = 0)),
      (decide (acc_code_hash (default default_info (info_of db NATIVE_DOGE_TOKEN_ADDRESS)) = KECCAK_EMPTY)); naive_solver. }
  destruct Hdec as [He|Hne].
  - destruct (Hy He) as [[Hi _ _ Hacc] _]. split; [|split; [|done]].
    + unfold empty. rewrite Hi. simpl. lia.
    + intros k. apply Hacc. intros Ec. by apply token_is_not_oracle.
  - destruct (Hn Hne) as [-> [Hi Hs]]. split; [|split; [done|by intros _]].
    unfold empty. by rewrite Hi.
Qed.

Context `{AlloyForks} `{TxEnv.EvmTypes} `{ReceiptTypes} `{SystemAddresses} {S : Type}
  `{DogeosHardforks S} `{ChainConfig S} `{!Revm DB}.
Context (show show_debug : E -> string).

Abbreviation Exec := (ScrollBlockExecutor S L1BlockInfo DB).
Abbreviation db_of self := (evm_db (evm self)).

Definition active_now (f : DogeosHardfork) (self : Exec) : bool :=
  active_at_timestamp (dogeos_fork_activation (spec self) f) (block_timestamp (evm_block (evm self))).

(** An active transition runs on the executor's database; one that reports nothing
    leaves the hook alone. An inactive one does nothing. *)
Lemma transition_Ok f t p (self : Exec) u self' :
  apply_transition show_debug f t p self = (Ok u, self') ->
  frame self self'
  /\ if active_now f self then exists st, t (db_of self) = (Ok st, db_of self')
                               /\ (st = ∅ -> hook self' = hook self)
     else self' = self.
Proof.
  intros Et. split; [by eapply preserves_transition|]. revert Et.
  unfold apply_transition, with_self, active_now, to_u64, mbind, sresult_bind.
  destruct (_ <=? u64_max); [|done]. destruct (active_at_timestamp _ _); [|by intros [= _ <-]].
  unfold on_db. destruct (t (evm_db (evm self))) as [[st|e] db]; [|done]. simpl.
  unfold on_pre_block_state. case_decide as Hst.
  - intros [= _ <-]. exists st. by split.
  - unfold on_state. simpl. destruct (hook self) as [h|]; intros [= _ <-]; by exists st.
Qed.

Lemma overhead_Ok f (self : Exec) v self' :
  on_db (base_fee_overhead (spec self)) f self = (Ok v, self') ->
  frame self self' /\ same_contents (db_of self) (db_of self') /\ hook self' = hook self.
Proof.
  unfold on_db. pose proof (base_fee_overhead_views (spec self) (db_of self)) as Hv.
  destruct (base_fee_overhead _ _) as [[o|e] db]; [|done]. intros [= _ <-]. by split.
Qed.

(** The documented effect of the EIP-2935 system call: it reads the database and
    changes neither the oracle nor the token account. *)
Definition blockhash_call_quiet : Prop :=
  forall (v : ScrollEvm L1BlockInfo DB) data r v',
    transact_system_call v SYSTEM_ADDRESS HISTORY_STORAGE_ADDRESS data = (Ok r, v') ->
    same_contents (evm_db v) (evm_db v')
    /\ state_of r !! L1_GAS_PRICE_ORACLE_ADDRESS = None /\ state_of r !! NATIVE_DOGE_TOKEN_ADDRESS = None.

Lemma blockhashes_Ok h (self : Exec) u self' :
  blockhash_call_quiet ->
  apply_blockhashes_contract_call h self = (Ok u, self') ->
  (forks_applied (db_of self) -> forks_applied (db_of self'))
  /\ (block_number (evm_block (evm self)) = 0 -> self' = self)
  /\ exists reported, (length reported <= 1)%nat
     /\ (is_Some (hook self) -> calls self' = calls self ++ reported).
Proof.
  intros Hq. unfold apply_blockhashes_contract_call, transact_blockhashes_contract_call,
    with_self, to_u64, mbind, sresult_bind.
  destruct (block_timestamp _ <=? u64_max); [|done].
  destruct (negb _).
  { intros [= _ <-]. split; [done|]. split; [done|]. exists []. split; [simpl; lia|]. by rewrite app_nil_r. }
  destruct (_ <=? u64_max); [|done]. destruct (Z.eqb_spec (block_number (evm_block (evm self))) 0).
  { intros [= _ <-]. split; [done|]. split; [done|]. exists []. split; [simpl; lia|]. by rewrite app_nil_r. }
  destruct (transact_system_call _ _ _ _) as [[r|e] v] eqn:Es; [|done].
  apply Hq in Es as (Hsame & Ho & Ht). unfold on_state.
  assert (Hdb : forks_applied (db_of self) -> forks_applied (commit (evm_db v) (state_of r))).
  { intros Hf. apply (same_forks_applied _ _ Hsame) in Hf as [F1 F2 F3].
    split; rewrite ?commit_slot, ?commit_info, ?Ho, ?Ht; done. }
  cbn [hook set_evm]. destruct (hook self) as [hk|] eqn:Eh; intros [= _ <-].
  - split; [exact Hdb|]. split; [done|].
    exists [(SourceBlockHashesContract, state_of r)]. split; [done|]. unfold calls. simpl. by rewrite Eh.
  - split; [exact Hdb|]. split; [done|]. exists []. split; [simpl; lia|]. by intros [? ?].
Qed.
End PreExecution.

Section PreExecutionRuns.
Context `{RevmAccountsLaws} {DB E : Type} `{Database DB E} `{DatabaseView DB} `{!DatabaseLaws DB E}.
Context `{AlloyForks} `{TxEnv.EvmTypes} `{ReceiptTypes} `{SystemAddresses} {S : Type}
  `{DogeosHardforks S} `{ChainConfig S} `{!Revm DB}.
Context (show show_debug : E -> string).

Abbreviation Exec := (ScrollBlockExecutor S L1BlockInfo DB).
Abbreviation db_of self := (evm_db (evm self)).

Lemma feynman_marks (db : DB) st db' :
  apply_feynman_hard_fork db = (Ok st, db') ->
  slot_of db' L1_GAS_PRICE_ORACLE_ADDRESS GPO_IS_FEYNMAN_SLOT = 1
  /\ info_of db' NATIVE_DOGE_TOKEN_ADDRESS = info_of db NATIVE_DOGE_TOKEN_ADDRESS
  /\ (slot_of db L1_GAS_PRICE_ORACLE_ADDRESS GPO_IS_FEYNMAN_SLOT = 1 -> st = ∅ /\ same_contents db db').
Proof.
  intros Ef. destruct (oracle_fork_marks GPO_IS_FEYNMAN_SLOT FEYNMAN_L1_GAS_PRICE_ORACLE_BYTECODE
    FEYNMAN_L1_GAS_PRICE_ORACLE_STORAGE db st db') as (? & _ & ? & ?); [|right; right; left|exact Ef|done].
  apply (bool_decide_unpack _); vm_compute; exact I.
Qed.

Lemma galileo_marks (db : DB) st db' :
  apply_galileo_v2_hard_fork db = (Ok st, db') ->
  slot_of db' L1_GAS_PRICE_ORACLE_ADDRESS GPO_IS_GALILEO_SLOT = 1
  /\ slot_of db' L1_GAS_PRICE_ORACLE_ADDRESS GPO_IS_FEYNMAN_SLOT
     = slot_of db L1_GAS_PRICE_ORACLE_ADDRESS GPO_IS_FEYNMAN_SLOT
  /\ info_of db' NATIVE_DOGE_TOKEN_ADDRESS = info_of db NATIVE_DOGE_TOKEN_ADDRESS
  /\ (slot_of db L1_GAS_PRICE_ORACLE_ADDRESS GPO_IS_GALILEO_SLOT = 1 -> st = ∅ /\ same_contents db db').
Proof.
  intros Ef. destruct (oracle_fork_marks GPO_IS_GALILEO_SLOT GALILEO_V2_L1_GAS_PRICE_ORACLE_BYTECODE
    GALILEO_V2_L1_GAS_PRICE_ORACLE_STORAGE db st db') as (? & Hk & ? & ?); [|left|exact Ef|].
  { apply (bool_decide_unpack _); vm_compute; exact I. }
  split; [done|]. split; [|done]. apply Hk. apply (bool_decide_unpack _); vm_compute; exact I.
Qed.

(** An applied fork's transition leaves the database and the hook alone. *)
Lemma quiet_transition f (t : sresult DB E EvmState) p (self : Exec) u self' :
  (forall st db', t (db_of self) = (Ok st, db') -> st = ∅ /\ same_contents (db_of self) db') ->
  apply_transition show_debug f t p self = (Ok u, self') ->
  frame self self' /\ same_contents (db_of self) (db_of self') /\ hook self' = hook self.
Proof.
  intros Hq Et. apply transition_Ok in Et as [Hf Hs]. split; [done|].
  destruct (active_now f self); [|subst; by split].
  destruct Hs as (st & Est & Hh). apply Hq in Est as [-> Hsame]. split; [done|by apply Hh].
Qed.

(** The state before the EIP-2935 call, split into the four runs before it. *)
Lemma pre_execution_split (self self' : Exec) :
  apply_pre_execution_changes show show_debug self = (Ok tt, self') ->
  exists v f s0 u1 s1 u2 s2 u3 s3,
    on_db (base_fee_overhead (spec self)) f self = (Ok v, s0)
    /\ apply_transition show_debug Feynman apply_feynman_hard_fork
         "error occurred at Feynman fork: " s0 = (Ok u1, s1)
    /\ apply_transition show_debug GalileoV2 apply_galileo_v2_hard_fork
         "error occurred at GalileoV2 fork: " s1 = (Ok u2, s2)
    /\ apply_transition show_debug Tsuki apply_tsuki_hard_fork
         "error occurred at Tsuki fork: " s2 = (Ok u3, s3)
    /\ apply_blockhashes_contract_call (ctx_parent_hash self) s3 = (Ok tt, self').
Proof.
  intros Ep. unfold apply_pre_execution_changes, with_self in Ep.
  apply sbind_Ok in Ep as (v & s0 & E0 & Ep). apply sbind_Ok in Ep as (u1 & s1 & E1 & Ep).
  apply sbind_Ok in Ep as (u2 & s2 & E2 & Ep). apply sbind_Ok in Ep as (u3 & s3 & E3 & Ep).
  eexists _, _, s0, u1, s1, u2, s2, u3, s3. split; [exact E0|]. by repeat split.
Qed.

Lemma frame_active f (a b : Exec) : frame a b -> active_now f b = active_now f a.
Proof. intros [Hb Hs _ _ _ _]. unfold active_now. by rewrite Hb, Hs. Qed.
End PreExecutionRuns.

(** C34: The fork transitions of the pre-execution changes run once. On a block with
    the three forks active a successful run leaves their marks; and on a state
    with the marks a run changes nothing but through the EIP-2935 call and
    reports to the state hook at most that call, nothing at all for block zero. *)
Theorem fork_transitions_run_once `{RevmAccountsLaws} {DB E : Type} `{Database DB E}
    `{DatabaseView DB} `{!DatabaseLaws DB E} `{AlloyForks} `{TxEnv.EvmTypes} `{ReceiptTypes}
    `{SystemAddresses} {S : Type} `{DogeosHardforks S} `{ChainConfig S} `{!Revm DB}
    (show show_debug : E -> string) (self self' : ScrollBlockExecutor S L1BlockInfo DB) :
  blockhash_call_quiet -> is_Some (hook self) ->
  apply_pre_execution_changes show show_debug self = (Ok tt, self') ->
  let db := evm_db (evm self) in let db' := evm_db (evm self') in
  ((forall f, f ∈ [Feynman; GalileoV2; Tsuki] -> active_now f self = true) -> forks_applied db')
  /\ (forks_applied db ->
      forks_applied db'
      /\ (block_number (evm_block (evm self)) = 0 -> same_contents db db' /\ hook self' = hook self)
      /\ exists reported, (length reported <= 1)%nat /\ calls self' = calls self ++ reported).
Proof.
  intros Hq Hhook Ep db db'.
  destruct (pre_execution_split show show_debug self self' Ep)
    as (v & f & s0 & u1 & s1 & u2 & s2 & u3 & s3 & E0 & E1 & E2 & E3 & E4).
  apply overhead_Ok in E0 as (F0 & S0 & K0).
  destruct (blockhashes_Ok (E := E) _ _ _ _ Hq E4) as (Hmarks & Hzero & reported & Hlen & Hcalls).
  split.
  - intros Ha.
    apply transition_Ok in E1 as [F1 E1]. rewrite (frame_active _ _ _ F0), Ha in E1 by set_solver.
    destruct E1 as (st1 & E1 & _). apply feynman_marks in E1 as (M1 & T1 & _).
    apply transition_Ok in E2 as [F2 E2].
    rewrite (frame_active _ _ _ F1), (frame_active _ _ _ F0), Ha in E2 by set_solver.
    destruct E2 as (st2 & E2 & _). apply galileo_marks in E2 as (M2 & O2 & T2 & _).
    apply transition_Ok in E3 as [F3 E3].
    rewrite (frame_active _ _ _ F2), (frame_active _ _ _ F1), (frame_active _ _ _ F0), Ha in E3 by set_solver.
    destruct E3 as (st3 & E3 & _). apply tsuki_marks in E3 as (M3 & O3 & _).
    apply Hmarks. split; [by rewrite O3, O2|by rewrite O3|done].
  - intros Hf. pose proof (same_forks_applied _ _ S0 Hf) as Hf0.
    apply quiet_transition in E1 as (F1 & S1 & K1);
      [|intros st d Ed; apply feynman_marks in Ed as (_ & _ & Hy); apply Hy, Hf0].
    pose proof (same_forks_applied _ _ S1 Hf0) as Hf1.
    apply quiet_transition in E2 as (F2 & S2 & K2);
      [|intros st d Ed; apply galileo_marks in Ed as (_ & _ & _ & Hy); apply Hy, Hf1].
    pose proof (same_forks_applied _ _ S2 Hf1) as Hf2.
    apply quiet_transition in E3 as (F3 & S3 & K3);
      [|intros st d Ed; apply tsuki_marks in Ed as (_ & _ & Hy); apply Hy, Hf2].
    pose proof (same_forks_applied _ _ S3 Hf2) as Hf3.
    assert (Hk : hook s3 = hook self) by congruence.
    assert (Hb : evm_block (evm s3) = evm_block (evm self))
      by (destruct F0, F1, F2, F3; congruence).
    split; [by apply Hmarks|]. split.
    + intros Hn. rewrite <- Hb in Hn. unfold db'. rewrite (Hzero Hn). split; [|done].
      destruct S0 as [I0 L0], S1 as [I1 L1], S2 as [I2 L2], S3 as [I3 L3].
      split; intros; [rewrite I3, I2, I1, I0|rewrite L3, L2, L1, L0]; done.
    + exists reported. split; [done|]. rewrite Hcalls by (by rewrite Hk). unfold calls. by rewrite Hk.
Qed.

(** ** A concrete EVM: every transaction that affords it uses 21,000 gas *)

Definition ref_result : ExecutionResult := {| is_success := true; result_gas_used := 21000; into_logs := [] |}.

Definition ref_env (limit : Z) (rlp : option bytes) : TxEnv.ScrollTx TxEnv.Authorization :=
  TxEnv.Build_ScrollTx
    {| TxEnv.tx_type := 2; TxEnv.caller := 7; TxEnv.gas_limit := limit; TxEnv.gas_price := 7;
       TxEnv.kind := Call 5; TxEnv.value := 0; TxEnv.data := []; TxEnv.nonce := 0;
       TxEnv.chain_id := None; TxEnv.access_list := tt; TxEnv.gas_priority_fee := None;
       TxEnv.blob_hashes := []; TxEnv.max_fee_per_blob_gas := 0; TxEnv.authorization_list := [] |}
    rlp (Some (10 ^ 9)) (Some 3).

#[export] Instance ref_system : SystemAddresses := {
  SYSTEM_ADDRESS := 0xfffffffffffffffffffffffffffffffffffffffe;
  HISTORY_STORAGE_ADDRESS := 0x0000F90827F1C53a10cb7A02335B175320002935;
  hash_bytes h := be_bytes 32 h;
}.

Definition history_update : EvmState :=
  {[ HISTORY_STORAGE_ADDRESS :=
       {| account_info := default_info; account_storage := ∅ |} ]}.

#[export] Instance ref_revm : Revm MemDb := {
  L1BlockInfo := unit;
  EVMError := unit;
  show_evm_error _ := ""%string;
  revm_transact v tx :=
    if TxEnv.gas_limit (TxEnv.base tx) <? 21000 then (Err tt, v)
    else (Ok {| result_of := ref_result; state_of := ∅ |}, with_tx v tx);
  revm_inspect_tx v tx :=
    if TxEnv.gas_limit (TxEnv.base tx) <? 21000 then (Err tt, v)
    else (Ok {| result_of := ref_result; state_of := ∅ |}, with_tx v tx);
  new_system_tx_with_caller _ _ _ := ref_env 30000000 None;
  inspect_run_system_call v := (Ok ref_result, v);
  finalize v := (history_update, v);
  system_call_with_caller v _ _ _ := (Ok {| result_of := ref_result; state_of := history_update |}, v);
  calculate_tx_l1_cost _ rlp _ _ _ := blen rlp * 16;
  code_size _ := 0;
}.

#[export] Instance ref_revm_laws : RevmLaws MemDb.
Proof.
  assert (Hrefl : forall v : ScrollEvm unit MemDb, same_env v v)
    by (intros v; repeat split; by exists []).
  assert (Htx : forall (v : ScrollEvm unit MemDb) tx, same_env v (with_tx v tx))
    by (intros v tx; repeat split; by exists []).
  split; simpl; intros v tx; intros; try (by simplify_eq); try (pose proof (blen_nonneg tx); lia);
    destruct (Z.ltb_spec (TxEnv.gas_limit (TxEnv.base tx)) 21000); simplify_eq; try done;
    (split; [done|simpl; lia]).
Qed.

Lemma ref_blockhash_quiet : blockhash_call_quiet (DB := MemDb).
Proof.
  intros v data r v'. unfold transact_system_call. destruct (inspect v); simpl; intros [= <- <-];
    (split; [done|]); simpl; unfold history_update; split; by apply lookup_singleton_ne.
Qed.

Definition sample_evm (db : MemDb) (number timestamp limit : Z) : ScrollEvm L1BlockInfo MemDb :=
  {| evm_db := db;
     evm_block := {| block_number := number; block_beneficiary := 0; block_timestamp := timestamp;
                     block_gas_limit := limit; block_basefee := 1; block_difficulty := 1;
                     block_prevrandao := Some 0 |};
     evm_spec := TSUKI_V2; evm_chain_id := 1; disable_base_fee := false;
     disable_nonce_check := false; evm_tx := ref_env 0 None; l1_block_info := tt; inspect := false;
     evm_inspector := CodeWitness.new_inspector 0 0 |}.

Definition sample_executable (limit : Z) : Executable :=
  {| tx_env := ref_env limit (Some [1; 2; 3]); ex_ty := 2; ex_gas_limit := limit; ex_trie_hash := 99 |}.

Lemma sample_executable_ok limit : executable_ok (sample_executable limit).
Proof. split; [done|]. intros _. by eexists. Qed.

Definition sample_executor (schedule : DogeosChainHardforks) (db : MemDb) :
    ScrollBlockExecutor DogeosChainHardforks L1BlockInfo MemDb :=
  (set_state_hook (Some {| hook_calls := [] |})
     (new_executor (sample_evm db 0 10 60000) 42 schedule)).2.

Definition show_unit (_ : unit) : string := ""%string.

Definition one_transaction : ScrollBlockExecutor DogeosChainHardforks L1BlockInfo MemDb :=
  (execute_transaction (sample_executable 30000)
     (sample_executor (new_schedule mainnet) fresh_db)).2.

Lemma block_gas_accounting_witness :
  br_gas_used (finish one_transaction).2 = 21000 /\ seen_indices one_transaction = Some [0%nat].
Proof.
  destruct (sresult_run (execute_transaction (sample_executable 30000))
    (sample_executor (new_schedule mainnet) fresh_db)) as [g E]; [vm_compute; reflexivity|].
  destruct (block_gas_accounting (DB := MemDb) (E := unit) (Revm0 := ref_revm) show_unit show_unit
    (sample_evm fresh_db 0 10 60000) 42 (new_schedule mainnet) one_transaction) as (_ & _ & Hg & _ & Hs).
  - vm_compute. split; discriminate.
  - apply rtc_once. exact (StepCommit _ _ (sample_executable 30000) _ g _ (sample_executable_ok 30000) E).
  - split; [rewrite Hg; vm_compute; reflexivity|rewrite Hs; vm_compute; reflexivity].
Defined.

Lemma execute_transaction_spec_witness :
  let self := sample_executor (new_schedule mainnet) fresh_db in
  let run ty limit := (execute_transaction_without_commit
    {| tx_env := ref_env limit (Some [1; 2; 3]); ex_ty := ty; ex_gas_limit := limit; ex_trie_hash := 99 |} self).1 in
  run 3 70000 = Err (Error (GasLimitMoreThanAvailable 70000 60000))
  /\ run 3 30000 = Err (Error (Eip4844NotSupported 99))
  /\ exists out, run 2 30000 = Ok out /\ tx_l1_fee out = 48.
Proof.
  intros self run.
  assert (Hspec := fun ty limit Hok => execute_transaction_spec (DB := MemDb) (E := unit) (Revm0 := ref_revm)
    {| tx_env := ref_env limit (Some [1; 2; 3]); ex_ty := ty; ex_gas_limit := limit; ex_trie_hash := 99 |} self
    Hok ltac:(vm_compute; split; discriminate) ltac:(vm_compute; discriminate)).
  assert (Hok : forall ty limit, executable_ok
    {| tx_env := ref_env limit (Some [1; 2; 3]); ex_ty := ty; ex_gas_limit := limit; ex_trie_hash := 99 |})
    by (split; [done|by eexists]).
  split; [|split].
  - destruct (Hspec 3 70000 (Hok _ _)) as (Hgas & _). unfold run.
    rewrite Hgas by (vm_compute; reflexivity). reflexivity.
  - destruct (Hspec 3 30000 (Hok _ _)) as (_ & Hblob & _). unfold run.
    rewrite Hblob by (reflexivity || (vm_compute; discriminate)). reflexivity.
  - destruct (Hspec 2 30000 (Hok _ _)) as (_ & _ & Hrun).
    destruct Hrun as (_ & _ & Hrun); [vm_compute; discriminate|done|].
    destruct (sresult_run (execute_transaction_without_commit (sample_executable 30000)) self) as [out Eo];
      [vm_compute; reflexivity|].
    destruct (transact_raw _ _) as [[r|e] v]; [|unfold sample_executable in Eo; by rewrite Hrun in Eo].
    destruct Hrun as (fee & Er & _ & rlp & [= <-] & ->). unfold run. rewrite Er.
    eexists. split; reflexivity.
Defined.

Definition error_message {Err} (f : Failure Err) : string :=
  match f with Error (ErrorMsg m) => m | _ => ""%string end.

Lemma compression_cache_spec_witness :
  let with_info := fun limit (_ : U256 * Z) => sample_executable limit in
  let run := execute_block_with_compression_cache show_unit show_unit with_info in
  let self := sample_executor (new_schedule []) fresh_db in
  match (run [30000; 25000] [(1, 1)] self).1 with
  | Err e => error_message e = "fewer compression infos than transactions"%string
  | Ok _ => False
  end
  /\ exists result, run [30000] [(1, 1)] self = (Ok result, (run [30000] [(1, 1)] self).2)
     /\ length (br_receipts result) = 1%nat.
Proof.
  intros with_info run self. split.
  - destruct (compression_cache_spec (DB := MemDb) (E := unit) (Revm0 := ref_revm) show_unit show_unit
      with_info [30000; 25000] [(1, 1)] self) as [E _]. unfold run. rewrite E. vm_compute. reflexivity.
  - destruct (compression_cache_spec (DB := MemDb) (E := unit) (Revm0 := ref_revm) show_unit show_unit
      with_info [30000] [(1, 1)] self) as [_ Hn].
    destruct (sresult_run (run [30000] [(1, 1)]) self) as [result E]; [vm_compute; reflexivity|].
    exists result. split; [exact E|]. apply (Hn result). unfold run in E. by rewrite E.
Defined.

(** A database with the marks of the three transitions. *)
Definition applied_db : MemDb :=
  {| mem_accounts := {[ NATIVE_DOGE_TOKEN_ADDRESS :=
       {| acc_balance := 0; acc_nonce := 1; acc_code_hash := 5; acc_code := None |} ]};
     mem_storage := {[ L1_GAS_PRICE_ORACLE_ADDRESS := {[ 11 := 1; 12 := 1 ]} ]} |}.

Lemma fork_transitions_run_once_witness :
  calls (apply_pre_execution_changes show_unit show_unit
           (sample_executor (new_schedule mainnet) applied_db)).2 = [].
Proof.
  destruct (sresult_run (apply_pre_execution_changes show_unit show_unit)
    (sample_executor (new_schedule mainnet) applied_db)) as [[] E]; [vm_compute; reflexivity|].
  destruct (fork_transitions_run_once (DB := MemDb) (E := unit) (Revm0 := ref_revm) show_unit show_unit
    (sample_executor (new_schedule mainnet) applied_db) _ ref_blockhash_quiet ltac:(by eexists) E)
    as [_ H].
  destruct H as (_ & Hz & _).
  - split; [vm_compute; reflexivity|vm_compute; reflexivity|vm_compute; intros [? _]; discriminate].
  - destruct (Hz eq_refl) as [_ Hh]. unfold calls. by rewrite Hh.
Defined.
