(* ===== verification/Build.v ===== *)
(** * EVM environments and block assembly (dogeos-reth-evm/src: lib.rs, config.rs, build.rs)

    The factory of EVMs, the environment a block is built in, the one it is imported in, the base-fee
    check of the import, and the header assembled from an execution. *)

From stdpp Require Import prelude gmap list strings.
From Stdlib Require Import ZArith Lia.
From S2P Require Import Prelude.
From S2P Require Import Hardforks.
From S2P Require Import GenesisConfig.
From S2P Require Import ChainSpec.
From S2P Require Import Chain.
From S2P Require Import BaseFee.
From S2P Require Import Alloy.
From S2P Require Import AlloyRef.
From S2P Require Import TxType.
From S2P Require Import Consensus.
From S2P Require Import Transitions.
From S2P Require Import Receipt.
From S2P Require CodeWitness.
From S2P Require TxEnv.
From S2P Require Import Executor.

Import (hints) TxEnv.
Import NodeReceipt(ScrollReceipt).

(** [EthChainSpec::chain().id()]. *)
Class ChainId (S : Type) := { chain_id : S -> Z }.

(** [CfgEnv::new_scroll(spec)] with the chain id, and the block. *)
Record EvmEnv := {
  cfg_spec : ScrollSpecId;
  cfg_chain_id : Z;
  block_env : BlockEnv;
}.

(** ** The EVM factory (lib.rs)

    The transaction and the L1 block information of a fresh [Context::scroll()]. *)

Class ScrollContext `{TxEnv.EvmTypes} `{ReceiptTypes} (DB : Type) `{!Revm DB} := {
  context_tx : TxEnv.ScrollTx TxEnv.Authorization;
  context_l1_block_info : L1BlockInfo;
}.

Section Factory.
Context `{TxEnv.EvmTypes} `{ReceiptTypes} {DB : Type} `{!Revm DB} `{!ScrollContext DB}.

Definition create_evm_with_inspector (db : DB) (input : EvmEnv) (inspector : CodeWitness.Inspector) :
    ScrollEvm L1BlockInfo DB :=
  {| evm_db := db; evm_block := block_env input; evm_spec := cfg_spec input;
     evm_chain_id := cfg_chain_id input; disable_base_fee := false; disable_nonce_check := false;
     evm_tx := context_tx; l1_block_info := context_l1_block_info; inspect := true;
     evm_inspector := inspector |}.

(** [create_evm]: the inspector is never run. *)
Definition create_evm (db : DB) (input : EvmEnv) (no_op_inspector : CodeWitness.Inspector) :
    ScrollEvm L1BlockInfo DB :=
  {| evm_db := db; evm_block := block_env input; evm_spec := cfg_spec input;
     evm_chain_id := cfg_chain_id input; disable_base_fee := false; disable_nonce_check := false;
     evm_tx := context_tx; l1_block_info := context_l1_block_info; inspect := false;
     evm_inspector := no_op_inspector |}.

(** [Evm::finish]: the database and the environment. *)
Definition evm_finish (self : ScrollEvm L1BlockInfo DB) : DB * EvmEnv :=
  (evm_db self,
   {| cfg_spec := evm_spec self; cfg_chain_id := evm_chain_id self; block_env := evm_block self |}).

Definition set_inspector_enabled (self : ScrollEvm L1BlockInfo DB) (enabled : bool) :
    ScrollEvm L1BlockInfo DB :=
  {| evm_db := evm_db self; evm_block := evm_block self; evm_spec := evm_spec self;
     evm_chain_id := evm_chain_id self; disable_base_fee := disable_base_fee self;
     disable_nonce_check := disable_nonce_check self; evm_tx := evm_tx self;
     l1_block_info := l1_block_info self; inspect := enabled; evm_inspector := evm_inspector self |}.
End Factory.

(** [ScrollNextBlockEnvAttributes]. *)
Record ScrollNextBlockEnvAttributes := {
  attr_timestamp : Z;
  attr_suggested_fee_recipient : Address;
  attr_gas_limit : Z;
  attr_base_fee : Z;
}.

(** The fields of an engine payload ([ExecutionData]) the configuration reads. *)
Record ExecutionData := {
  ed_timestamp : Z;
  ed_block_number : Z;
  ed_fee_recipient : Address;
  ed_gas_limit : Z;
  ed_base_fee : Z;
  ed_parent_hash : B256;
  ed_transactions : list bytes;
}.

(** [ScrollEvmConfig]: the factory of executors and the assembler of one chain. *)
Record ScrollBlockAssembler (S : Type) := { assembler_spec : S }.
Arguments assembler_spec {S} _.

Record ScrollEvmConfig (S : Type) := {
  executor_factory : ScrollBlockExecutorFactory S;
  block_assembler : ScrollBlockAssembler S;
}.
Arguments executor_factory {S} _.
Arguments block_assembler {S} _.

Definition new_evm_config {S} (chain_spec : S) : ScrollEvmConfig S :=
  {| executor_factory := new_executor_factory chain_spec;
     block_assembler := {| assembler_spec := chain_spec |} |}.

Definition dogeos {S} (chain_spec : S) : ScrollEvmConfig S := new_evm_config chain_spec.

Definition config_chain_spec {S} (self : ScrollEvmConfig S) : S := factory_spec (executor_factory self).

(** The errors by the contents of their messages. *)
Inductive PreExecutionError (E : Type) : Type :=
| InvalidParentHeader
| OverheadReadFailed (e : E)
| InvalidBaseFee (got expected : Z).
Arguments InvalidParentHeader {E}.
Arguments OverheadReadFailed {E} e.
Arguments InvalidBaseFee {E} got expected.

Inductive AssembleError : Type :=
| InvalidPrevrandao (got : option B256)
| InvalidDifficulty (got : U256).

(** ** Environments (config.rs) *)

Section Config.
Context `{AlloyForks} {S : Type} `{DogeosHardforks S} `{EthChainSpec S} `{ChainConfig S} `{ChainId S}.

Definition evm_env_for_payload (s : S) (payload : ExecutionData) : EvmEnv :=
  let timestamp := ed_timestamp payload in
  let block_number := ed_block_number payload in
  {| cfg_spec := spec_id_at_timestamp_and_number timestamp block_number s;
     cfg_chain_id := chain_id s;
     block_env :=
       {| block_number := block_number;
          block_beneficiary :=
            default (ed_fee_recipient payload) (fee_vault_address (chain_config s));
          block_timestamp := timestamp;
          block_difficulty := 1;
          block_prevrandao := Some 0;
          block_gas_limit := ed_gas_limit payload;
          block_basefee := ed_base_fee payload |} |}.

Definition context_for_payload (payload : ExecutionData) : B256 := ed_parent_hash payload.

(** [tx_iterator_for_payload]: each transaction decoded from its bytes, exactly, and
    its signer recovered. *)
Definition convert_payload_transaction {T A DecodeError RecoverError}
    (decode_2718_exact : bytes -> result T DecodeError)
    (try_recover : T -> outcome (result A RecoverError)) (encoded : bytes) :
    outcome (result (T * A) (DecodeError + RecoverError)) :=
  match decode_2718_exact encoded with
  | Err e => Returns (Err (inl e))
  | Ok transaction =>
      match try_recover transaction with
      | Panics msg => Panics msg
      | Returns (Err e) => Returns (Err (inr e))
      | Returns (Ok signer) => Returns (Ok (transaction, signer))
      end
  end.

Definition evm_env (s : S) (header : Header) : EvmEnv :=
  {| cfg_spec := spec_id_at_timestamp_and_number (timestamp header) (number header) s;
     cfg_chain_id := chain_id s;
     block_env :=
       {| block_number := number header;
          block_beneficiary := default (beneficiary header) (fee_vault_address (chain_config s));
          block_timestamp := timestamp header;
          block_gas_limit := gas_limit header;
          block_basefee := default 0 (base_fee_per_gas header);
          block_difficulty := difficulty header;
          block_prevrandao := Some (mix_hash header) |} |}.

Definition next_evm_env (s : S) (parent : Header) (attributes : ScrollNextBlockEnvAttributes) : EvmEnv :=
  let number := wrap_u64 (number parent + 1) in
  {| cfg_spec := spec_id_at_timestamp_and_number (attr_timestamp attributes) number s;
     cfg_chain_id := chain_id s;
     block_env :=
       {| block_number := number;
          block_beneficiary :=
            default (attr_suggested_fee_recipient attributes) (fee_vault_address (chain_config s));
          block_timestamp := attr_timestamp attributes;
          block_gas_limit := attr_gas_limit attributes;
          block_basefee := attr_base_fee attributes;
          block_difficulty := 1;
          block_prevrandao := Some 0 |} |}.

(** [ScrollBlockExecutionCtx] holds the parent hash only. *)
Definition context_for_block (header : Header) : B256 := parent_hash header.
Definition context_for_next_block (parent_seal : B256) : B256 := parent_seal.

(** The import hook; [parent_seal] is the hash of the sealed parent. The values of the
    environment are converted by [U256::to::<u64>]. *)
Definition validate_block_pre_execution `{AlloyEips} {DB E} `{Database DB E} (s : S) (db : DB)
    (env : EvmEnv) (parent_hash : B256) (parent : Header) (parent_seal : B256) :
    outcome (result unit (PreExecutionError E)) * DB :=
  let timestamp := block_timestamp (block_env env) in
  let number := block_number (block_env env) in
  if negb ((timestamp <=? u64_max) && (number <=? u64_max)) then (Panics "u64 overflow", db)
  else if negb (active_at_timestamp_or_number (dogeos_fork_activation s Feynman) timestamp number) then
    (Returns (Ok tt), db)
  else
    match from_header parent with
    | None => (Returns (Err InvalidParentHeader), db)
    | Some parent_inputs =>
        if negb (parent_seal =? parent_hash) then (Returns (Err InvalidParentHeader), db)
        else
          let '(expected, db) := next_block_base_fee_for_parent s db parent_inputs timestamp in
          match expected with
          | Err e => (Returns (Err (OverheadReadFailed e)), db)
          | Ok expected =>
              let got := block_basefee (block_env env) in
              if negb (got =? expected) then (Returns (Err (InvalidBaseFee got expected)), db)
              else (Returns (Ok tt), db)
          end
    end.
End Config.

(** ** Assembly (build.rs) *)

(** The roots of [alloy_consensus::proofs] and [alloy_trie], the bloom of a list of
    logs as the header stores it, and the nonce constant of [alloy_eips]. *)
Class AssemblyTypes `{ReceiptTypes} := {
  calculate_transaction_root : forall {T : Type}, list T -> B256;
  ordered_trie_root : list bytes -> B256;
  logs_bloom_bits : list Log -> Z;
  BEACON_NONCE : Z;
}.

Record AssembledBlock (T : Type) := { ab_header : Header; ab_transactions : list T }.
Arguments ab_header {T} _.
Arguments ab_transactions {T} _.

Definition assemble_block `{ReceiptRlp} `{Rlp} `{!AssemblyTypes} `{RethConsensus} {T : Type}
    (env : EvmEnv) (ctx_parent_hash : B256) (transactions : list T) (receipts : list ScrollReceipt)
    (gas_used : Z) (state_root : B256) : result (AssembledBlock T) AssembleError :=
  let b := block_env env in
  if negb (bool_decide (block_prevrandao b = Some 0)) then
    Err (InvalidPrevrandao (block_prevrandao b))
  else if negb (block_difficulty b =? 1) then Err (InvalidDifficulty (block_difficulty b))
  else
    let transactions_root := calculate_transaction_root transactions in
    let receipts_root := NodeReceipt.calculate_receipt_root_no_memo ordered_trie_root receipts in
    let logs_bloom := logs_bloom_bits (concat (map NodeReceipt.logs receipts)) in
    Ok {| ab_header :=
            {| parent_hash := ctx_parent_hash; ommers_hash := EMPTY_OMMER_ROOT_HASH; beneficiary := 0;
               state_root := state_root; transactions_root := transactions_root;
               receipts_root := receipts_root; withdrawals_root := None; Chain.logs_bloom := logs_bloom;
               timestamp := saturating_to u64_max (block_timestamp b); mix_hash := 0;
               nonce := BEACON_NONCE; base_fee_per_gas := Some (block_basefee b);
               number := saturating_to u64_max (block_number b); gas_limit := block_gas_limit b;
               difficulty := block_difficulty b; Chain.gas_used := gas_used; extra_data := [];
               parent_beacon_block_root := None; blob_gas_used := None; excess_blob_gas := None;
               requests_hash := None |};
          ab_transactions := transactions |}.

(** ** Lemmas *)

(** The blooms of lists of logs accumulate by bitwise or. *)
Class AssemblyLaws `{AssemblyTypes} : Prop := {
  bloom_nil : logs_bloom_bits [] = 0;
  bloom_app l l' : logs_bloom_bits (l ++ l') = Z.lor (logs_bloom_bits l) (logs_bloom_bits l');
}.

Lemma bloom_concat `{AssemblyLaws} {R} (logs_of : R -> list Log) (rs : list R) :
  logs_bloom_bits (concat (map logs_of rs))
  = fold_left (fun bloom r => Z.lor bloom (logs_bloom_bits (logs_of r))) rs 0.
Proof.
  rewrite <- (Z.lor_0_l (logs_bloom_bits _)). generalize 0 as acc.
  induction rs as [|r rs IH]; intros acc; simpl; [by rewrite bloom_nil, Z.lor_0_r|].
  by rewrite bloom_app, Z.lor_assoc, IH.
Qed.

(** The payload an engine carries for a header. *)
Definition payload_of (h : Header) (transactions : list bytes) : ExecutionData :=
  {| ed_timestamp := timestamp h; ed_block_number := number h; ed_fee_recipient := beneficiary h;
     ed_gas_limit := gas_limit h; ed_base_fee := default 0 (base_fee_per_gas h);
     ed_parent_hash := parent_hash h; ed_transactions := transactions |}.

Section Assembled.
Context `{AlloyForks} {S} `{DogeosHardforks S} `{ChainConfig S} `{ChainId S} `{ReceiptRlp} `{Rlp}
  `{!AssemblyTypes} `{RethConsensus} {T : Type}.

(** An engine payload is executed in the environment of its header. *)
Lemma payload_env (s : S) env ctx (transactions : list T) receipts used root block raw :
  assemble_block env ctx transactions receipts used root = Ok block ->
  let h := ab_header block in
  evm_env_for_payload s (payload_of h raw) = evm_env s h
  /\ context_for_payload (payload_of h raw) = context_for_block h.
Proof.
  unfold assemble_block. destruct (negb _); [done|].
  destruct (Z.eqb_spec (block_difficulty (block_env env)) 1) as [Hd|]; [|done]. cbn [negb].
  intros [= <-]. unfold evm_env. cbn. by rewrite Hd.
Qed.

Lemma assemble_Ok env ctx (transactions : list T) receipts used root block :
  assemble_block env ctx transactions receipts used root = Ok block ->
  let h := ab_header block in
  ab_transactions block = transactions /\ parent_hash h = ctx /\ Chain.gas_used h = used
  /\ receipts_root h = NodeReceipt.calculate_receipt_root_no_memo ordered_trie_root receipts
  /\ Chain.logs_bloom h = logs_bloom_bits (concat (map NodeReceipt.logs receipts)).
Proof.
  unfold assemble_block. destruct (negb _); [done|]. destruct (negb _); [done|]. by intros [= <-].
Qed.

Lemma assemble_root env ctx (transactions : list T) receipts used root block :
  assemble_block env ctx transactions receipts used root = Ok block ->
  transactions_root (ab_header block) = calculate_transaction_root (ab_transactions block).
Proof.
  unfold assemble_block. destruct (negb _); [done|]. destruct (negb _); [done|]. by intros [= <-].
Qed.

(** Assembly reads the block of the environment only. *)
Lemma assemble_block_env env env' ctx (transactions : list T) receipts used root :
  block_env env = block_env env' ->
  assemble_block env ctx transactions receipts used root
  = assemble_block env' ctx transactions receipts used root.
Proof. unfold assemble_block. by intros ->. Qed.

(** The import, by header, executes a block in the environment it was built in. *)
Lemma assembled_env (s : S) parent attributes ctx (transactions : list T) receipts used root block :
  0 <= number parent < u64_max -> in_u64 (attr_timestamp attributes) ->
  is_Some (fee_vault_address (chain_config s)) \/ attr_suggested_fee_recipient attributes = 0 ->
  assemble_block (next_evm_env s parent attributes) ctx transactions receipts used root = Ok block ->
  evm_env s (ab_header block) = next_evm_env s parent attributes.
Proof.
  intros Hn Hts Hv. unfold assemble_block. cbn. intros [= <-]. unfold evm_env, next_evm_env, saturating_to.
  cbn. assert (wrap_u64 (number parent + 1) = number parent + 1) as -> by (apply wrap_u64_small; solve_ints).
  rewrite !Z.min_l by solve_ints. f_equal. f_equal.
  destruct (fee_vault_address (chain_config s)); [done|]. simpl. destruct Hv as [[? ?]|Hz]; done.
Qed.
End Assembled.

(** The attributes of a block the header checks accept on a parent, at a time. *)
Record timely_attributes `{RethConsensus} (now : option Z) (parent : Header)
    (attributes : ScrollNextBlockEnvAttributes) : Prop := {
  ta_number : 0 <= number parent < u64_max;
  ta_timestamp : in_u64 (attr_timestamp attributes);
  ta_base_fee : attr_base_fee attributes <= 420000000000000;
  ta_after_parent : timestamp parent <= attr_timestamp attributes;
  ta_before_now : forall t, now = Some t -> attr_timestamp attributes <= t;
  ta_gas_limit : let bound := gas_limit parent / GAS_LIMIT_BOUND_DIVISOR in
    gas_limit parent - bound <= attr_gas_limit attributes <= gas_limit parent + bound;
  ta_minimum : MINIMUM_GAS_LIMIT <= attr_gas_limit attributes;
}.

(** Assembly never refuses in such an environment, and the header checks accept
    the header it writes. *)
Lemma assembled_headers `{AlloyForks} {S} `{DogeosHardforks S} `{ChainConfig S} `{ChainId S}
    `{ReceiptRlp} `{Rlp} `{!AssemblyTypes} `{RethConsensusLaws} {T} (s : S) parent seal attributes
    (transactions : list T) receipts used root now :
  BEACON_NONCE = 0 -> timely_attributes now parent attributes -> used <= attr_gas_limit attributes ->
  exists block, let h := ab_header block in
    assemble_block (next_evm_env s parent attributes) (context_for_next_block seal) transactions
      receipts used root = Ok block
    /\ validate_header now h = Ok tt
    /\ validate_header_against_parent h parent seal = Ok tt
    /\ parent_hash h = seal /\ number h = number parent + 1
    /\ timestamp h = attr_timestamp attributes /\ gas_limit h = attr_gas_limit attributes.
Proof.
  intros Hnonce [Hn Hts Hfee Hpts Hnow Hgl Hmin] Hused.
  assert (Hnum : wrap_u64 (number parent + 1) = number parent + 1) by (apply wrap_u64_small; solve_ints).
  eexists. cbv zeta. split; [unfold assemble_block; simpl; reflexivity|].
  unfold saturating_to. cbn [ab_header]. cbn [block_env block_number block_timestamp next_evm_env].
  rewrite Hnum, !Z.min_l by solve_ints.
  split; [|split].
  - apply header_valid_accepted. split; try done.
    eexists. by split.
  - unfold validate_header_against_parent. cbn.
    match goal with |- context [validate_against_parent_hash_number ?h ?p ?x] =>
      assert (is_ok (validate_against_parent_hash_number h p x) = true) as Hok end.
    { rewrite validate_against_parent_Ok. cbn. by rewrite !Z.eqb_refl. }
    apply is_ok_true in Hok as [[] ->]. cbn [rbind].
    rewrite (proj2 (Z.ltb_ge _ _)) by done. by apply gas_limit_accepted.
  - done.
Qed.

(** ** Properties *)

(** C7: A block built on a parent is one the node imports: in the environment of the
    next block assembly never refuses, and the header it writes passes the
    header check and the check against the parent (base fee and gas within
    their limits, a timestamp not before the parent's nor in the future, a gas
    limit that moved within bounds). The import, by header or by payload,
    executes it in the environment it was built in, except that a chain without
    a fee vault credits address zero on import, not the suggested recipient. *)
Theorem assembled_block_is_importable `{AlloyForks} {S} `{DogeosHardforks S} `{ChainConfig S}
    `{ChainId S} `{ReceiptRlp} `{Rlp} `{!AssemblyTypes} `{RethConsensusLaws} {T} (s : S)
    (parent : Header) (seal : B256) (attributes : ScrollNextBlockEnvAttributes) (transactions : list T)
    (receipts : list ScrollReceipt) (used root : Z) (now : option Z) (raw : list bytes) :
  BEACON_NONCE = 0 ->
  0 <= number parent < u64_max -> in_u64 (attr_timestamp attributes) ->
  attr_base_fee attributes <= 420000000000000 -> used <= attr_gas_limit attributes ->
  timestamp parent <= attr_timestamp attributes ->
  (forall t, now = Some t -> attr_timestamp attributes <= t) ->
  (let bound := gas_limit parent / GAS_LIMIT_BOUND_DIVISOR in
   gas_limit parent - bound <= attr_gas_limit attributes <= gas_limit parent + bound) ->
  MINIMUM_GAS_LIMIT <= attr_gas_limit attributes ->
  let env := next_evm_env s parent attributes in
  exists block, let h := ab_header block in
    assemble_block env (context_for_next_block seal) transactions receipts used root = Ok block
    /\ validate_header now h = Ok tt
    /\ validate_header_against_parent h parent seal = Ok tt
    /\ context_for_block h = seal /\ ab_transactions block = transactions
    /\ number h = number parent + 1 /\ Chain.gas_used h = used
    /\ (is_Some (fee_vault_address (chain_config s)) \/ attr_suggested_fee_recipient attributes = 0 ->
        evm_env s h = env)
    /\ (fee_vault_address (chain_config s) = None -> block_beneficiary (block_env (evm_env s h)) = 0)
    /\ evm_env_for_payload s (payload_of h raw) = evm_env s h.
Proof.
  intros Hnonce Hn Hts Hfee Hused Hpts Hnow Hgl Hmin env.
  destruct (assembled_headers s parent seal attributes transactions receipts used root now Hnonce)
    as (block & Hb & Hv & Hp & Hph & Hnum & _ & _); [by split|done|].
  exists block. pose proof (assemble_Ok _ _ _ _ _ _ _ Hb) as (Htxs & _ & Hgu & _).
  do 3 (split; [done|]). do 4 (split; [done|]). split; [|split].
  - intros Hvault. by eapply assembled_env.
  - intros Hvault. unfold assemble_block in Hb. cbn in Hb. injection Hb as <-. cbn. by rewrite Hvault.
  - by eapply payload_env.
Qed.

(** C8: The import hook enforces the base-fee rule and nothing more. It accepts a
    block after Feynman exactly when the sealed parent is the named one and
    carries a base fee and the block's fee is the expected one for the stored
    overhead; the fee the builder computes on the same database is accepted,
    and every other fee is refused with both values. Before Feynman it accepts
    everything. It panics exactly when the time or the number of the block is no
    64-bit value. The database contents stay as they were. *)
Theorem base_fee_hook_spec `{AlloyForks} `{AlloyEips} {S} `{DogeosHardforks S} `{EthChainSpec S}
    `{ChainConfig S} {DB E} `{Database DB E} `{DatabaseView DB} `{!DatabaseLaws DB E}
    (s : S) (db : DB) (env : EvmEnv) (hash : B256) (parent : Header) (seal : B256) :
  let t := block_timestamp (block_env env) in
  let fee := block_basefee (block_env env) in
  let number := block_number (block_env env) in
  let active := active_at_timestamp_or_number (dogeos_fork_activation s Feynman) t number in
  let slot := slot_of db (l2_system_config_address (l1_config (chain_config s))) 101 in
  let '(out, db') := validate_block_pre_execution s db env hash parent seal in
  same_contents db db'
  /\ ((exists msg, out = Panics msg) <-> u64_max < t \/ u64_max < number)
  /\ forall verdict, out = Returns verdict ->
    (active = false -> verdict = Ok tt)
  /\ (active = true ->
      (verdict = Ok tt -> seal = hash /\ exists p, from_header parent = Some p
                          /\ fee = expected_base_fee s slot p t)
      /\ (forall got expected, verdict = Err (InvalidBaseFee got expected) ->
          got = fee /\ got <> expected /\ exists p, from_header parent = Some p
                                         /\ expected = expected_base_fee s slot p t)
      /\ (forall built db1, next_block_base_fee s db parent t = Returns (Ok built, db1) ->
          seal = hash ->
          verdict = if fee =? built then Ok tt else Err (InvalidBaseFee fee built))).
Proof.
  cbv zeta. unfold validate_block_pre_execution, next_block_base_fee.
  destruct (_ && _) eqn:Erange; cbn [negb].
  2:{ split; [done|]. split; [|done]. split; [intros _|by eexists].
      apply andb_false_iff in Erange as [?%Z.leb_gt|?%Z.leb_gt]; [by left|by right]. }
  apply andb_true_iff in Erange as [Ht%Z.leb_le Hn%Z.leb_le].
  assert (Hnone : forall verdict, (exists msg, Returns verdict = Panics (A := result unit (PreExecutionError E)) msg)
    <-> u64_max < block_timestamp (block_env env) \/ u64_max < block_number (block_env env))
    by (intros v; split; [by intros [msg ?]|lia]).
  destruct (active_at_timestamp_or_number _ _ _); cbn [negb];
    [|split; [done|split; [apply Hnone|intros v [= <-]; by split]]].
  destruct (from_header parent) as [p|] eqn:Ep;
    [|split; [done|split; [apply Hnone|intros v [= <-]; split; [done|intros _; split; [done|split; [done|]]]]]; naive_solver].
  destruct (Z.eqb_spec seal hash) as [Hs|Hs]; cbn [negb];
    [|split; [done|split; [apply Hnone|intros v [= <-]; split; [done|intros _; split; [done|split; [done|]]]]]; naive_solver].
  pose proof (base_fee_overhead_views s db) as Hviews.
  pose proof (for_parent_reads s db p (block_timestamp (block_env env))) as Hreads.
  assert (Hsame : same_contents db (next_block_base_fee_for_parent s db p
    (block_timestamp (block_env env))).2).
  { unfold next_block_base_fee_for_parent. by destruct (base_fee_overhead s db). }
  destruct (next_block_base_fee_for_parent s db p _) as [[expected|e] db1]; simpl in Hsame.
  - specialize (Hreads expected db1 eq_refl).
    destruct (Z.eqb_spec (block_basefee (block_env env)) expected) as [He|Hne]; cbn [negb];
      (split; [exact Hsame|split; [apply Hnone|]]); intros v [= <-]; (split; [done|]); intros _; (split; [|split]).
    + intros _. split; [done|]. exists p. split; [done|]. by rewrite He.
    + done.
    + intros built db2 [= <- _] _. by rewrite (proj2 (Z.eqb_eq _ _)).
    + done.
    + intros got exp [= <- <-]. split; [done|]. split; [done|]. by exists p.
    + intros built db2 [= <- _] _. by rewrite (proj2 (Z.eqb_neq _ _)).
  - split; [exact Hsame|]. split; [apply Hnone|]. intros v [= <-]. split; [done|]. intros _. split; [done|].
    split; [done|]. by intros built db2 [=].
Qed.

(** ** Witnesses *)

#[export] Instance schedule_chain_id : ChainId DogeosChainHardforks := { chain_id _ := 42 }.

#[export] Instance ref_assembly : AssemblyTypes := {
  calculate_transaction_root T l := Z.of_nat (length l);
  ordered_trie_root l := Z.of_nat (length l);
  logs_bloom_bits l := match l with [] => 0 | _ => 1 end;
  BEACON_NONCE := 0;
}.

#[export] Instance ref_assembly_laws : AssemblyLaws.
Proof. split; [done|]. by intros [|x l] [|y l']. Qed.

#[export] Instance ref_context : ScrollContext MemDb := {
  context_tx := ref_env 0 None;
  context_l1_block_info := tt;
}.

Definition sample_attributes : ScrollNextBlockEnvAttributes :=
  {| attr_timestamp := 51; attr_suggested_fee_recipient := 0; attr_gas_limit := 20000000;
     attr_base_fee := 1082026666 |}.

Definition sample_parent_header : Header := sample_header (Some 1000000000).

Lemma assembled_block_is_importable_witness :
  exists block, assemble_block (next_evm_env (new_schedule mainnet) sample_parent_header sample_attributes)
      777 [1; 2] [] 0 9 = Ok block
    /\ validate_header (Some 51) (ab_header block) = Ok tt
    /\ evm_env (new_schedule mainnet) (ab_header block)
       = next_evm_env (new_schedule mainnet) sample_parent_header sample_attributes.
Proof.
  destruct (assembled_block_is_importable (new_schedule mainnet) sample_parent_header 777
    sample_attributes [1; 2] [] 0 9 (Some 51) []) as (block & Ea & Ev & _ & _ & _ & _ & _ & Ee & _);
    try (vm_compute; repeat split; discriminate); try reflexivity.
  - intros t [= <-]. vm_compute. discriminate.
  - exists block. split; [exact Ea|]. split; [exact Ev|]. apply Ee. by right.
Defined.

Lemma base_fee_hook_spec_witness :
  let env := next_evm_env (new_schedule mainnet) sample_parent_header sample_attributes in
  (validate_block_pre_execution (new_schedule mainnet) empty_db env 777 sample_parent_header 777).1 = Returns (Ok tt).
Proof.
  intros env.
  pose proof (base_fee_hook_spec (new_schedule mainnet) empty_db env 777 sample_parent_header 777) as H.
  cbv zeta in H. destruct (validate_block_pre_execution _ _ _ _ _ _) as [out db'].
  destruct H as (_ & Hpanic & H). destruct out as [verdict|msg].
  - destruct (H verdict eq_refl) as (_ & Hactive). destruct (Hactive eq_refl) as (_ & _ & Hb). simpl. f_equal.
    rewrite (Hb 1082026666 empty_db); [reflexivity|vm_compute; reflexivity|reflexivity].
  - destruct (proj1 Hpanic (ex_intro _ msg eq_refl)) as [Hbig|Hbig]; by vm_compute in Hbig.
Defined.
