(* ===== verification/Engine.v ===== *)
(** * Engine API types and validator (dogeos-reth-engine/src)

    Payload attributes and the bytes their identifier is the hash of
    (attributes.rs), the Engine validator (validator.rs), the payload of a block
    (lib.rs) and built payloads (built.rs). The conversion between an execution
    payload and a block is [alloy_rpc_types_engine]'s and an interface; SHA-256
    and Keccak are arguments. *)

From stdpp Require Import prelude gmap list strings.
From Stdlib Require Import ZArith Lia.
From S2P Require Import Prelude.
From S2P Require Import Chain.
From S2P Require Import Alloy.
From S2P Require Import AlloyRef.
From S2P Require Import TxType.
From S2P Require Import Consensus.

(** ** Attributes (attributes.rs) *)

(** [alloy_rpc_types_engine::PayloadAttributes]. *)
Record PayloadAttributes (Withdrawal : Type) := {
  pa_timestamp : Z;
  pa_prev_randao : B256;
  pa_suggested_fee_recipient : Address;
  pa_withdrawals : option (list Withdrawal);
  pa_parent_beacon_block_root : option B256;
}.
Arguments pa_timestamp {_} _.
Arguments pa_prev_randao {_} _.
Arguments pa_suggested_fee_recipient {_} _.
Arguments pa_withdrawals {_} _.
Arguments pa_parent_beacon_block_root {_} _.

Record BlockDataHint := {
  hint_extra_data : option bytes;
  hint_state_root : option B256;
  hint_coinbase : option Address;
  hint_nonce : option Z;
  hint_difficulty : option U256;
}.

Record ScrollPayloadAttributes (Withdrawal : Type) := {
  payload_attributes : PayloadAttributes Withdrawal;
  spa_transactions : option (list bytes);
  no_tx_pool : bool;
  block_data_hint : BlockDataHint;
  spa_gas_limit : option Z;
}.
Arguments payload_attributes {_} _.
Arguments spa_transactions {_} _.
Arguments no_tx_pool {_} _.
Arguments block_data_hint {_} _.
Arguments spa_gas_limit {_} _.

Definition is_none {A} (o : option A) : bool := match o with None => true | Some _ => false end.

Definition is_empty (h : BlockDataHint) : bool :=
  is_none (hint_extra_data h) && is_none (hint_state_root h) && is_none (hint_coinbase h)
  && is_none (hint_nonce h) && is_none (hint_difficulty h).

Definition DOGEOS_PAYLOAD_VERSION : Z := 1.

(** What [if let Some(value)] feeds the hasher. *)
Definition update_some {A} (f : A -> bytes) (o : option A) : bytes :=
  match o with Some a => f a | None => [] end.

Section PayloadId.
Context {Withdrawal : Type} (encode_withdrawals : list Withdrawal -> bytes)
  (sha256 : bytes -> bytes) (keccak256 : bytes -> bytes).

Abbreviation Attributes := (ScrollPayloadAttributes Withdrawal).

(** The forced-transaction part of the hashed bytes. *)
Definition hashed_transactions (a : Attributes) : bytes :=
  if no_tx_pool a || match spa_transactions a with Some (_ :: _) => true | _ => false end then
    [if no_tx_pool a then 1 else 0]
    ++ be_bytes 8 (match spa_transactions a with Some txs => Z.of_nat (length txs) | None => 0 end)
    ++ match spa_transactions a with Some txs => concat (map keccak256 txs) | None => [] end
  else [].

(** Everything [payload_id_scroll] feeds the hasher, in its order. *)
Definition hashed_input (parent : B256) (a : Attributes) : bytes :=
  let p := payload_attributes a in
  let h := block_data_hint a in
  be_bytes 32 parent ++ be_bytes 8 (pa_timestamp p) ++ be_bytes 32 (pa_prev_randao p)
  ++ be_bytes 20 (pa_suggested_fee_recipient p)
  ++ update_some encode_withdrawals (pa_withdrawals p)
  ++ update_some (be_bytes 32) (pa_parent_beacon_block_root p)
  ++ hashed_transactions a
  ++ update_some id (hint_extra_data h)
  ++ update_some (be_bytes 32) (hint_state_root h)
  ++ update_some (be_bytes 20) (hint_coinbase h)
  ++ update_some (be_bytes 8) (hint_nonce h)
  ++ update_some (be_bytes 32) (hint_difficulty h)
  ++ update_some (be_bytes 8) (spa_gas_limit a).

Definition payload_id_scroll (parent : B256) (a : Attributes) : bytes :=
  take 8 (<[0%nat := DOGEOS_PAYLOAD_VERSION]> (sha256 (hashed_input parent a))).

Definition payload_id (a : Attributes) (parent_hash : B256) : bytes := payload_id_scroll parent_hash a.
End PayloadId.

Definition attributes_timestamp {W} (a : ScrollPayloadAttributes W) : Z :=
  pa_timestamp (payload_attributes a).

(** ** The validator (validator.rs) *)

Inductive VersionSpecificValidationError : Type :=
| ParentBeaconBlockRootNotSupportedBeforeV3
| HasWithdrawalsPreShanghai.

Inductive MessageValidationKind : Type := KindPayloadAttributes | KindPayload.

(** [MessageValidationKind::to_error]. *)
Inductive EngineObjectValidationError : Type :=
| ObjectError (kind : MessageValidationKind) (e : VersionSpecificValidationError).

Inductive InvalidPayloadAttributesError : Type := InvalidTimestamp.

Inductive PayloadError (Err : Type) : Type :=
| ConversionFailed (e : Err)
| BlockHash (execution consensus : B256).
Arguments ConversionFailed {Err} e.
Arguments BlockHash {Err} execution consensus.

(** Payloads with their sidecars, and blocks, of [alloy_rpc_types_engine]. *)
Class EnginePayloads (T : Type) := {
  ExecutionPayload : Type;
  Sidecar : Type;
  Withdrawal : Type;
  EngineError : Type;
  payload_block_hash : ExecutionPayload -> B256;
  payload_withdrawals : ExecutionPayload -> option (list Withdrawal);
  sidecar_parent_beacon_block_root : Sidecar -> option B256;
  try_into_block_with_sidecar : ExecutionPayload -> Sidecar -> result (SealedBlock T) EngineError;
  from_block_unchecked : B256 -> SealedBlock T -> ExecutionPayload * Sidecar;
  hash_slow : Header -> B256;
}.

Record DogeosEngineValidator (S : Type) := { validator_chain_spec : S }.
Arguments validator_chain_spec {S} _.

Definition new_validator {S} (chain_spec : S) : DogeosEngineValidator S := {| validator_chain_spec := chain_spec |}.

Section Validator.
Context {T : Type} `{EnginePayloads T}.

Record ExecutionData := { payload : ExecutionPayload; sidecar : Sidecar }.

(** [PayloadOrAttributes]. *)
Inductive PayloadOrAttributes : Type :=
| OfPayload (d : ExecutionData)
| OfAttributes (a : ScrollPayloadAttributes Withdrawal).

Definition poa_parent_beacon_block_root (x : PayloadOrAttributes) : option B256 :=
  match x with
  | OfPayload d => sidecar_parent_beacon_block_root (sidecar d)
  | OfAttributes a => pa_parent_beacon_block_root (payload_attributes a)
  end.

Definition poa_withdrawals (x : PayloadOrAttributes) : option (list Withdrawal) :=
  match x with
  | OfPayload d => payload_withdrawals (payload d)
  | OfAttributes a => pa_withdrawals (payload_attributes a)
  end.

Definition message_validation_kind (x : PayloadOrAttributes) : MessageValidationKind :=
  match x with OfPayload _ => KindPayload | OfAttributes _ => KindPayloadAttributes end.

Definition validate_dogeos_fields (x : PayloadOrAttributes) (kind : MessageValidationKind) :
    result unit EngineObjectValidationError :=
  if negb (is_none (poa_parent_beacon_block_root x)) then
    Err (ObjectError kind ParentBeaconBlockRootNotSupportedBeforeV3)
  else if negb (is_none (poa_withdrawals x)) then Err (ObjectError kind HasWithdrawalsPreShanghai)
  else Ok tt.

Definition validate_version_specific_fields (x : PayloadOrAttributes) :
    result unit EngineObjectValidationError :=
  validate_dogeos_fields x (message_validation_kind x).

Definition ensure_well_formed_attributes (a : ScrollPayloadAttributes Withdrawal) :
    result unit EngineObjectValidationError :=
  validate_dogeos_fields (OfAttributes a) KindPayloadAttributes.

(** [block.header.difficulty = U256::ONE]. *)
Definition with_difficulty (h : Header) (d : U256) : Header :=
  {| parent_hash := parent_hash h; ommers_hash := ommers_hash h; beneficiary := beneficiary h;
     state_root := state_root h; transactions_root := transactions_root h;
     receipts_root := receipts_root h; logs_bloom := logs_bloom h; difficulty := d;
     number := number h; gas_limit := gas_limit h; gas_used := gas_used h;
     timestamp := timestamp h; extra_data := extra_data h; mix_hash := mix_hash h;
     nonce := nonce h; base_fee_per_gas := base_fee_per_gas h;
     withdrawals_root := withdrawals_root h; blob_gas_used := blob_gas_used h;
     excess_blob_gas := excess_blob_gas h; parent_beacon_block_root := parent_beacon_block_root h;
     requests_hash := requests_hash h |}.

Definition with_header (b : SealedBlock T) (h : Header) : SealedBlock T :=
  {| block_header := h; transactions := transactions b; ommers := ommers b;
     withdrawals := withdrawals b |}.

(** The sealed block is the block with its hash. *)
Definition convert_payload_to_block (d : ExecutionData) :
    result (SealedBlock T * B256) (PayloadError EngineError) :=
  let expected_hash := payload_block_hash (payload d) in
  let? block := map_err ConversionFailed (try_into_block_with_sidecar (payload d) (sidecar d)) in
  let block := with_header block (with_difficulty (block_header block) 1) in
  let block_hash := hash_slow (block_header block) in
  if block_hash =? expected_hash then Ok (block, block_hash)
  else Err (BlockHash block_hash expected_hash).

Definition validate_payload_attributes_against_header (a : ScrollPayloadAttributes Withdrawal)
    (header : Header) : result unit InvalidPayloadAttributesError :=
  if attributes_timestamp a <? timestamp header then Err InvalidTimestamp else Ok tt.

(** [block_to_payload] (lib.rs). *)
Definition block_to_payload (block : SealedBlock T * B256) : ExecutionData :=
  let '(payload, sidecar) := from_block_unchecked block.2 block.1 in
  {| payload := payload; sidecar := sidecar |}.

(** ** Built payloads (built.rs) *)

Record ScrollBuiltPayload (Executed : Type) := {
  built_block : SealedBlock T * B256;
  executed_block : option Executed;
  fees : U256;
}.
End Validator.
Arguments Build_ScrollBuiltPayload {T Executed} _ _ _.
Arguments built_block {T Executed} _.
Arguments executed_block {T Executed} _.
Arguments fees {T Executed} _.

(** The payloads of the versions of the Engine API, which [alloy_rpc_types_engine]
    computes from a block, and the payload of a version as [ExecutionPayload]. *)
Class PayloadVersions (T : Type) `{EnginePayloads T} := {
  ExecutionPayloadV1 : Type;
  ExecutionPayloadFieldV2 : Type;
  ExecutionPayloadV3 : Type;
  BlobsBundleV1 : Type;
  Requests : Type;
  v1_from_block_unchecked : B256 -> SealedBlock T -> ExecutionPayloadV1;
  v2_from_block_unchecked : B256 -> SealedBlock T -> ExecutionPayloadFieldV2;
  v3_from_block_unchecked : B256 -> SealedBlock T -> ExecutionPayloadV3;
  empty_blobs_bundle : BlobsBundleV1;
  empty_requests : Requests;
  payload_of_v1 : ExecutionPayloadV1 -> ExecutionPayload;
  payload_of_v2 : ExecutionPayloadFieldV2 -> ExecutionPayload;
  payload_inner_v3 : ExecutionPayloadV3 -> ExecutionPayloadV1;
}.

Module Built.
Section Built.
Context {T : Type} `{PayloadVersions T} {Executed : Type}.
Abbreviation Payload := (ScrollBuiltPayload (T := T) Executed).

Definition new (block : SealedBlock T * B256) (executed : option Executed) (fees : U256) : Payload :=
  Build_ScrollBuiltPayload block executed fees.

Definition into_sealed_block (self : Payload) : SealedBlock T * B256 := built_block self.

(** The methods of [BuiltPayload]. *)
Definition payload_block (self : Payload) : SealedBlock T * B256 := built_block self.
Definition payload_fees (self : Payload) : U256 := fees self.
Definition payload_executed_block (self : Payload) : option Executed := executed_block self.
Definition requests (self : Payload) : option Requests := None.

Record ExecutionPayloadEnvelopeV2 := {
  v2_execution_payload : ExecutionPayloadFieldV2;
  v2_block_value : U256;
}.

Record ExecutionPayloadEnvelopeV3 := {
  v3_execution_payload : ExecutionPayloadV3;
  v3_block_value : U256;
  v3_blobs_bundle : BlobsBundleV1;
  v3_should_override_builder : bool;
}.

Record ExecutionPayloadEnvelopeV4 := {
  envelope_inner : ExecutionPayloadEnvelopeV3;
  execution_requests : Requests;
}.

Definition into_v1 (value : Payload) : ExecutionPayloadV1 :=
  v1_from_block_unchecked (built_block value).2 (built_block value).1.

Definition into_v2 (value : Payload) : ExecutionPayloadEnvelopeV2 :=
  {| v2_block_value := fees value;
     v2_execution_payload := v2_from_block_unchecked (built_block value).2 (built_block value).1 |}.

Definition into_v3 (value : Payload) : ExecutionPayloadEnvelopeV3 :=
  {| v3_execution_payload := v3_from_block_unchecked (built_block value).2 (built_block value).1;
     v3_block_value := fees value;
     v3_should_override_builder := false;
     v3_blobs_bundle := empty_blobs_bundle |}.

Definition into_v4 (value : Payload) : ExecutionPayloadEnvelopeV4 :=
  {| envelope_inner := into_v3 value; execution_requests := empty_requests |}.
End Built.
End Built.

(** ** Specification *)

(** The inputs of a payload: what two attributes with one identifier share. *)
Definition payload_inputs {W} (keccak256 : bytes -> bytes) (parent : B256)
    (a : ScrollPayloadAttributes W) : B256 * Z * B256 * Address * bool * list bytes * option Z :=
  let p := payload_attributes a in
  (parent, pa_timestamp p, pa_prev_randao p, pa_suggested_fee_recipient p, no_tx_pool a,
   map keccak256 (default [] (spa_transactions a)), spa_gas_limit a).

Definition in_b256 (x : Z) : Prop := 0 <= x < 2 ^ 256.

Record attributes_in_range {W} (parent : B256) (a : ScrollPayloadAttributes W) : Prop := {
  ar_parent : in_b256 parent;
  ar_timestamp : in_u64 (attributes_timestamp a);
  ar_prev_randao : in_b256 (pa_prev_randao (payload_attributes a));
  ar_recipient : in_address (pa_suggested_fee_recipient (payload_attributes a));
  ar_transactions : Z.of_nat (length (default [] (spa_transactions a))) <= u64_max;
  ar_gas_limit : forall g, spa_gas_limit a = Some g -> in_u64 g;
}.

(** The part of a digest an identifier keeps after its version byte. *)
Definition digest_part (d : bytes) : bytes := take 7 (drop 1 d).

(** Blocks an execution payload can carry: what the conversion does not restore
    has its fixed value. *)
Record engine_expressible `{RethConsensus} {T} (transaction_root : list T -> B256)
    (valid_tx : T -> Prop) (b : SealedBlock T) : Prop := {
  ee_nonce : nonce (block_header b) = 0;
  ee_ommers_hash : ommers_hash (block_header b) = EMPTY_OMMER_ROOT_HASH;
  ee_ommers : ommers b = Some [];
  ee_root : transactions_root (block_header b) = transaction_root (transactions b);
  ee_extra_data : blen (extra_data (block_header b)) <= 32;
  ee_base_fee : is_Some (base_fee_per_gas (block_header b));
  ee_withdrawals : withdrawals b = None /\ withdrawals_root (block_header b) = None;
  ee_blobs : blob_gas_used (block_header b) = None /\ excess_blob_gas (block_header b) = None;
  ee_beacon_root : parent_beacon_block_root (block_header b) = None;
  ee_requests : requests_hash (block_header b) = None;
  ee_transactions : Forall valid_tx (transactions b);
}.

(** A payload carries its block's hash and restores the block, difficulty aside. *)
Class EnginePayloadsLaws `{RethConsensus} (T : Type) `{EnginePayloads T}
    (transaction_root : list T -> B256) (valid_tx : T -> Prop) : Prop := {
  payload_hash h b : payload_block_hash (from_block_unchecked h b).1 = h;
  payload_restores h b :
    engine_expressible transaction_root valid_tx b ->
    try_into_block_with_sidecar (from_block_unchecked h b).1 (from_block_unchecked h b).2
    = Ok (with_header b (with_difficulty (block_header b) 0));
}.

(** Without withdrawals a block's payload is its version 1, which is also the
    version 2 of the field and the core of version 3. *)
Class PayloadVersionsLaws (T : Type) `{PayloadVersions T} : Prop := {
  version_1 h b : withdrawals b = None ->
    (from_block_unchecked h b).1 = payload_of_v1 (v1_from_block_unchecked h b);
  version_2 h b : withdrawals b = None ->
    payload_of_v2 (v2_from_block_unchecked h b) = payload_of_v1 (v1_from_block_unchecked h b);
  version_3 h b : payload_inner_v3 (v3_from_block_unchecked h b) = v1_from_block_unchecked h b;
}.

(** The payloads a built payload is answered with, by version. *)
Definition answered {T Executed} `{PayloadVersions T} (p : ScrollBuiltPayload (T := T) Executed) :
    list ExecutionPayload :=
  [ payload_of_v1 (Built.into_v1 p); payload_of_v2 (Built.v2_execution_payload (Built.into_v2 p));
    payload_of_v1 (payload_inner_v3 (Built.v3_execution_payload (Built.into_v3 p)));
    payload_of_v1 (payload_inner_v3 (Built.v3_execution_payload (Built.envelope_inner (Built.into_v4 p)))) ].

Lemma answered_payload {T Executed} `{PayloadVersionsLaws T} (p : ScrollBuiltPayload (T := T) Executed) :
  withdrawals (built_block p).1 = None ->
  Forall (fun x => x = payload (block_to_payload (built_block p))) (answered p).
Proof.
  intros Hw. unfold block_to_payload, answered. destruct (built_block p) as [b h] eqn:Eb.
  pose proof (version_1 h b Hw) as E1. pose proof (version_2 h b Hw) as E2. pose proof (version_3 h b) as E3.
  unfold Built.into_v4, Built.into_v1, Built.into_v2, Built.into_v3. rewrite Eb. cbn in *.
  destruct (from_block_unchecked h b). cbn in *. subst. rewrite E2, E3. by repeat constructor.
Qed.

(** ** Lemmas *)

Lemma be_bytes_inj k a b :
  0 <= a < 256 ^ Z.of_nat k -> 0 <= b < 256 ^ Z.of_nat k -> be_bytes k a = be_bytes k b -> a = b.
Proof. intros Ha Hb E. by rewrite <- (be_value_bytes k a), <- (be_value_bytes k b), E. Qed.

Lemma concat_fixed_inj n (l k : list bytes) :
  Forall (fun b => length b = n) l -> Forall (fun b => length b = n) k ->
  length l = length k -> concat l = concat k -> l = k.
Proof.
  intros Hl. revert k. induction Hl as [|x l Hx _ IH]; intros [|y k] Hk Hlen E; try done.
  apply Forall_cons in Hk as [Hy Hk']. simpl in E.
  apply app_inj_1 in E as [-> E]; [|by rewrite Hx, Hy].
  f_equal. apply IH; [done| |done]. simpl in Hlen. lia.
Qed.

Lemma length_concat_fixed n (l : list bytes) :
  Forall (fun b => length b = n) l -> length (concat l) = (n * length l)%nat.
Proof.
  induction 1 as [|x l Hx _ IH]; simpl; [lia|]. rewrite length_app, IH, Hx. lia.
Qed.

Section PayloadIdLemmas.
Context {W : Type} (encode_withdrawals : list W -> bytes) (keccak256 : bytes -> bytes).
Context (keccak_length : forall b, length (keccak256 b) = 32%nat).

Abbreviation hashes a := (map keccak256 (default [] (spa_transactions a))).

Lemma hashes_length (l : list bytes) :
  Forall (fun b : bytes => length b = 32%nat) (map keccak256 l).
Proof. apply Forall_forall. intros b. rewrite list_elem_of_fmap. intros (x & -> & _). done. Qed.

(** The forced-transaction part depends on the flag and the hashes. *)
Lemma hashed_transactions_eq (a : ScrollPayloadAttributes W) :
  hashed_transactions keccak256 a =
  if no_tx_pool a || match hashes a with [] => false | _ => true end then
    [if no_tx_pool a then 1 else 0] ++ be_bytes 8 (Z.of_nat (length (hashes a)))
    ++ concat (hashes a)
  else [].
Proof.
  unfold hashed_transactions. destruct (spa_transactions a) as [[|x l]|]; simpl; try done.
  by rewrite length_map.
Qed.

(** Without a hint and for a well-formed request only the inputs are hashed. *)
Lemma hashed_input_plain parent (a : ScrollPayloadAttributes W) :
  pa_withdrawals (payload_attributes a) = None ->
  pa_parent_beacon_block_root (payload_attributes a) = None ->
  is_empty (block_data_hint a) = true ->
  hashed_input encode_withdrawals keccak256 parent a =
  be_bytes 32 parent ++ be_bytes 8 (attributes_timestamp a)
  ++ be_bytes 32 (pa_prev_randao (payload_attributes a))
  ++ be_bytes 20 (pa_suggested_fee_recipient (payload_attributes a))
  ++ hashed_transactions keccak256 a ++ update_some (be_bytes 8) (spa_gas_limit a).
Proof.
  intros Hw Hb He. unfold hashed_input. rewrite Hw, Hb.
  unfold is_empty in He. destruct (block_data_hint a) as [e s c n d]; simpl in *.
  by destruct e, s, c, n, d.
Qed.

Lemma section_length (present : bool) (flag : Z) (h : list bytes) :
  Forall (fun b => length b = 32%nat) h ->
  length (if present then [flag] ++ be_bytes 8 (Z.of_nat (length h)) ++ concat h else [])
  = if present then (9 + 32 * length h)%nat else 0%nat.
Proof.
  intros Fh. destruct present; [|done].
  rewrite !length_app, be_bytes_length, (length_concat_fixed 32) by done. simpl. lia.
Qed.

(** The sections of two requests end alike only when they agree: their lengths
    are 0, 8, [9 + 32 n] or [17 + 32 n]. *)
Lemma sections_inj (a b : ScrollPayloadAttributes W) :
  Z.of_nat (length (default [] (spa_transactions a))) <= u64_max ->
  Z.of_nat (length (default [] (spa_transactions b))) <= u64_max ->
  (forall g, spa_gas_limit a = Some g -> in_u64 g) ->
  (forall g, spa_gas_limit b = Some g -> in_u64 g) ->
  hashed_transactions keccak256 a ++ update_some (be_bytes 8) (spa_gas_limit a)
  = hashed_transactions keccak256 b ++ update_some (be_bytes 8) (spa_gas_limit b) ->
  no_tx_pool a = no_tx_pool b /\ hashes a = hashes b /\ spa_gas_limit a = spa_gas_limit b.
Proof.
  intros Hla Hlb Hga Hgb E. rewrite !hashed_transactions_eq in E.
  pose proof (hashes_length (default [] (spa_transactions a))) as Fa.
  pose proof (hashes_length (default [] (spa_transactions b))) as Fb.
  rewrite <- (length_map keccak256) in Hla, Hlb.
  set (ha := hashes a) in *. set (hb := hashes b) in *. clearbody ha hb.
  pose proof (f_equal length E) as El. rewrite !length_app in El.
  rewrite !section_length in El by done.
  assert (Hu : forall o, length (update_some (be_bytes 8) o)
    = match o with Some _ => 8%nat | None => 0%nat end).
  { intros [g|]; [apply be_bytes_length|done]. }
  rewrite !Hu in El. clear Hu.
  assert (Hgas : update_some (be_bytes 8) (spa_gas_limit a) = update_some (be_bytes 8) (spa_gas_limit b) ->
    is_none (spa_gas_limit a) = is_none (spa_gas_limit b) -> spa_gas_limit a = spa_gas_limit b).
  { destruct (spa_gas_limit a) as [g|], (spa_gas_limit b) as [g'|]; simpl; intros Eg; try done.
    intros _. f_equal. specialize (Hga _ eq_refl). specialize (Hgb _ eq_refl).
    apply (be_bytes_inj 8) in Eg; [done|..]; change (256 ^ Z.of_nat 8) with (2 ^ 64); solve_ints. }
  destruct (no_tx_pool a || _) eqn:Sa, (no_tx_pool b || _) eqn:Sb.
  - assert (length ha = length hb) as Hn by (destruct (spa_gas_limit a), (spa_gas_limit b); lia).
    apply app_inj_1 in E as [E Eg];
      [|rewrite !length_app, !be_bytes_length, !(length_concat_fixed 32) by done; simpl; lia].
    apply app_inj_1 in E as [Ef E]; [|done]. apply app_inj_1 in E as [_ Ec]; [|by rewrite !be_bytes_length].
    split; [by destruct (no_tx_pool a), (no_tx_pool b)|].
    split; [by apply (concat_fixed_inj 32)|]. apply Hgas; [done|].
    destruct (spa_gas_limit a), (spa_gas_limit b); done || lia.
  - destruct (spa_gas_limit a), (spa_gas_limit b); lia.
  - destruct (spa_gas_limit a), (spa_gas_limit b); lia.
  - apply orb_false_elim in Sa as [-> Sa], Sb as [-> Sb]. split; [done|].
    split; [by destruct ha, hb|]. apply Hgas; [done|].
    destruct (spa_gas_limit a), (spa_gas_limit b); done || lia.
Qed.

Lemma plain_input_inj parent parent' (a b : ScrollPayloadAttributes W) :
  attributes_in_range parent a -> attributes_in_range parent' b ->
  be_bytes 32 parent ++ be_bytes 8 (attributes_timestamp a)
  ++ be_bytes 32 (pa_prev_randao (payload_attributes a))
  ++ be_bytes 20 (pa_suggested_fee_recipient (payload_attributes a))
  ++ hashed_transactions keccak256 a ++ update_some (be_bytes 8) (spa_gas_limit a)
  = be_bytes 32 parent' ++ be_bytes 8 (attributes_timestamp b)
  ++ be_bytes 32 (pa_prev_randao (payload_attributes b))
  ++ be_bytes 20 (pa_suggested_fee_recipient (payload_attributes b))
  ++ hashed_transactions keccak256 b ++ update_some (be_bytes 8) (spa_gas_limit b)
  <-> payload_inputs keccak256 parent a = payload_inputs keccak256 parent' b.
Proof.
  intros [P1 P2 P3 P4 P5 P6] [Q1 Q2 Q3 Q4 Q5 Q6]. split; intros E.
  - apply app_inj_1 in E as [E1 E]; [|by rewrite !be_bytes_length].
    apply app_inj_1 in E as [E2 E]; [|by rewrite !be_bytes_length].
    apply app_inj_1 in E as [E3 E]; [|by rewrite !be_bytes_length].
    apply app_inj_1 in E as [E4 E]; [|by rewrite !be_bytes_length].
    apply be_bytes_inj in E1; [|exact P1|exact Q1].
    apply be_bytes_inj in E2; [|change (256 ^ Z.of_nat 8) with (2 ^ 64); solve_ints..].
    apply be_bytes_inj in E3; [|exact P3|exact Q3].
    apply be_bytes_inj in E4; [|exact P4|exact Q4].
    apply sections_inj in E as (E5 & E6 & E7); try done.
    unfold payload_inputs. unfold attributes_timestamp in E2. by rewrite E1, E2, E3, E4, E5, E6, E7.
  - unfold payload_inputs in E. injection E as E1 E2 E3 E4 E5 E6 E7.
    unfold attributes_timestamp. rewrite !hashed_transactions_eq.
    by rewrite E1, E2, E3, E4, E5, E6, E7.
Qed.
End PayloadIdLemmas.

Lemma with_difficulty_same h : difficulty h = 1 -> with_difficulty h 1 = h.
Proof. destruct h. simpl. by intros ->. Qed.

Section Conversion.
Context `{RethConsensusLaws} {T : Type} `{ScrollTransaction T} (transaction_root : list T -> B256)
  (valid_tx : T -> Prop) `{!EnginePayloads T} `{!EnginePayloadsLaws T transaction_root valid_tx}.

Lemma convert_payload_Ok d (block : SealedBlock T) hash :
  convert_payload_to_block d = Ok (block, hash) ->
  hash = payload_block_hash (payload d) /\ hash = hash_slow (block_header block)
  /\ difficulty (block_header block) = 1.
Proof.
  unfold convert_payload_to_block.
  destruct (try_into_block_with_sidecar _ _) as [b|e]; [|done]. simpl.
  destruct (Z.eqb_spec (hash_slow (with_difficulty (block_header b) 1))
    (payload_block_hash (payload d))); [|done]. by intros [= <- <-].
Qed.

(** The consensus checks leave only what a payload carries. *)
Lemma consensus_expressible (b : SealedBlock T) now :
  Forall valid_tx (transactions b) -> ommers b = Some [] ->
  validate_block_pre_execution transaction_root b = Returns (Ok tt) ->
  header_valid now (with_difficulty (block_header b) 1) ->
  engine_expressible transaction_root valid_tx b.
Proof.
  intros Hv Ho Hpre [h1 h2 h3 h4 h5 h6 (fee & h7 & _) h8 h9 h10 h11 _ _]. simpl in *.
  unfold validate_block_pre_execution in Hpre. rewrite Ho, h1, Z.eqb_refl in Hpre. simpl in Hpre.
  destruct (Z.eqb_spec (transactions_root (block_header b)) (transaction_root (transactions b)));
    [|done]. simpl in Hpre.
  destruct (withdrawals b) eqn:Ew; [done|].
  split; try done. rewrite h6. unfold blen. simpl. lia.
Qed.

Lemma convert_expressible (b : SealedBlock T) x :
  engine_expressible transaction_root valid_tx b ->
  let h := with_difficulty (block_header b) 1 in
  convert_payload_to_block (block_to_payload (b, x))
  = if hash_slow h =? x then Ok (with_header b h, hash_slow h) else Err (BlockHash (hash_slow h) x).
Proof.
  intros He h. pose proof (payload_hash x b) as Hx. pose proof (payload_restores x b He) as Hb.
  unfold convert_payload_to_block, block_to_payload. cbn [fst snd].
  destruct (from_block_unchecked x b) as [p s]. simpl in *. rewrite Hx, Hb. simpl.
  by destruct (block_header b).
Qed.

(** The payload of a block consensus accepts converts back to it. *)
Lemma consensus_converts (b : SealedBlock T) now :
  Forall valid_tx (transactions b) -> ommers b = Some [] ->
  validate_block_pre_execution transaction_root b = Returns (Ok tt) ->
  validate_header now (block_header b) = Ok tt ->
  convert_payload_to_block (block_to_payload (b, hash_slow (block_header b)))
  = Ok (b, hash_slow (block_header b)).
Proof.
  intros Hv Ho Hpre Hh%validate_header_valid.
  pose proof (with_difficulty_same (block_header b) (hv_difficulty _ _ Hh)) as Ed.
  rewrite convert_expressible by (apply (consensus_expressible _ now); congruence).
  rewrite Ed, Z.eqb_refl. by destruct b.
Qed.
End Conversion.

(** ** Properties *)

(** C32: A payload identifier is eight bytes that start with the version, and for
    requests the validator accepts that carry no legacy hint it is a function
    of the inputs of the payload: parent, timestamp, randomness, recipient, pool
    flag, hashes of the forced transactions and gas limit. Requests with one
    identifier agree on all of them, unless the seven bytes kept of SHA-256
    collide on different hashed bytes. *)
Theorem payload_id_identifies_inputs {T} `{EnginePayloads T}
    (encode_withdrawals : list Withdrawal -> bytes) (sha256 keccak256 : bytes -> bytes)
    (parent parent' : B256) (a a' : ScrollPayloadAttributes Withdrawal) :
  (forall b, length (sha256 b) = 32%nat) -> (forall b, length (keccak256 b) = 32%nat) ->
  attributes_in_range parent a -> attributes_in_range parent' a' ->
  ensure_well_formed_attributes a = Ok tt -> ensure_well_formed_attributes a' = Ok tt ->
  is_empty (block_data_hint a) = true -> is_empty (block_data_hint a') = true ->
  let id := payload_id_scroll encode_withdrawals sha256 keccak256 in
  let input := hashed_input encode_withdrawals keccak256 in
  id parent a = DOGEOS_PAYLOAD_VERSION :: digest_part (sha256 (input parent a))
  /\ length (id parent a) = 8%nat
  /\ (id parent a = id parent' a' <->
      payload_inputs keccak256 parent a = payload_inputs keccak256 parent' a'
      \/ (input parent a <> input parent' a'
          /\ digest_part (sha256 (input parent a)) = digest_part (sha256 (input parent' a')))).
Proof.
  intros Hsha Hkec Ra Ra' Wa Wa' Ea Ea' id input.
  assert (Hid : forall p (x : ScrollPayloadAttributes Withdrawal),
    id p x = DOGEOS_PAYLOAD_VERSION :: digest_part (sha256 (input p x))).
  { intros p x. unfold id, payload_id_scroll, digest_part, input.
    pose proof (Hsha (hashed_input encode_withdrawals keccak256 p x)) as Hl.
    by destruct (sha256 _) as [|b d]. }
  assert (Hplain : forall x, ensure_well_formed_attributes x = Ok tt ->
    pa_withdrawals (payload_attributes x) = None
    /\ pa_parent_beacon_block_root (payload_attributes x) = None).
  { intros x. unfold ensure_well_formed_attributes, validate_dogeos_fields. simpl.
    by destruct (pa_parent_beacon_block_root _), (pa_withdrawals _). }
  destruct (Hplain a Wa) as [Hw Hb], (Hplain a' Wa') as [Hw' Hb'].
  pose proof (hashed_input_plain encode_withdrawals keccak256 parent a Hw Hb Ea) as Ei.
  pose proof (hashed_input_plain encode_withdrawals keccak256 parent' a' Hw' Hb' Ea') as Ei'.
  assert (Hinj : input parent a = input parent' a' <->
    payload_inputs keccak256 parent a = payload_inputs keccak256 parent' a').
  { unfold input. rewrite Ei, Ei'. by apply plain_input_inj. }
  split; [apply Hid|]. split.
  { rewrite Hid. simpl. unfold digest_part. by rewrite length_take, length_drop, Hsha. }
  rewrite !Hid. split.
  - intros [= E]. destruct (decide (input parent a = input parent' a')) as [Hi|Hi];
      [left; by apply Hinj|by right].
  - intros [Hp|[_ Hd]]; [apply Hinj in Hp; by rewrite Hp|by rewrite Hd].
Qed.

(** The fields of a hint and the gas limit are hashed without a tag or a length:
    a nonce hint and a gas limit of the same value give one identifier. *)
Lemma payload_id_hint_collision {W} (encode_withdrawals : list W -> bytes)
    (sha256 keccak256 : bytes -> bytes) parent p txs flag x :
  let nonce_hint := {| hint_extra_data := None; hint_state_root := None; hint_coinbase := None;
                       hint_nonce := Some x; hint_difficulty := None |} in
  let no_hint := {| hint_extra_data := None; hint_state_root := None; hint_coinbase := None;
                    hint_nonce := None; hint_difficulty := None |} in
  payload_id_scroll encode_withdrawals sha256 keccak256 parent
    {| payload_attributes := p; spa_transactions := txs; no_tx_pool := flag;
       block_data_hint := nonce_hint; spa_gas_limit := None |}
  = payload_id_scroll encode_withdrawals sha256 keccak256 parent
    {| payload_attributes := p; spa_transactions := txs; no_tx_pool := flag;
       block_data_hint := no_hint; spa_gas_limit := Some x |}.
Proof. reflexivity. Qed.

(** C37: Blocks survive the Engine API exactly when consensus accepts their
    difficulty. A payload converts to a block only with difficulty one and the
    announced hash, which is that of the block's header. The payload of a block
    the consensus checks accept converts back to the block itself, and so does
    the payload a built payload is answered with, in each of the four versions
    of the API; a block that breaks no rule but the difficulty is refused with
    both hashes, unless the header hash collides. *)
Theorem engine_block_roundtrip `{RethConsensusLaws} {T} `{ScrollTransaction T}
    (transaction_root : list T -> B256) (valid_tx : T -> Prop)
    `{!EnginePayloads T} `{!EnginePayloadsLaws T transaction_root valid_tx}
    `{!PayloadVersions T} `{!PayloadVersionsLaws T} {Executed}
    (b : SealedBlock T) (now : option Z) (executed : option Executed) (value : U256) :
  let h := block_header b in
  let data := block_to_payload (b, hash_slow h) in
  (forall d block hash, convert_payload_to_block d = Ok (block, hash) ->
     hash = payload_block_hash (payload d) /\ hash = hash_slow (block_header block)
     /\ difficulty (block_header block) = 1)
  /\ (Forall valid_tx (transactions b) -> ommers b = Some [] ->
      validate_block_pre_execution transaction_root b = Returns (Ok tt) ->
      (validate_header now h = Ok tt ->
       convert_payload_to_block data = Ok (b, hash_slow h)
       /\ Forall (fun x => convert_payload_to_block {| payload := x; sidecar := sidecar data |}
                           = Ok (b, hash_slow h))
            (answered (Built.new (b, hash_slow h) executed value)))
      /\ (validate_header now (with_difficulty h 1) = Ok tt -> difficulty h <> 1 ->
          hash_slow (with_difficulty h 1) <> hash_slow h ->
          convert_payload_to_block data
          = Err (BlockHash (hash_slow (with_difficulty h 1)) (hash_slow h)))).
Proof.
  cbv zeta. split; [apply convert_payload_Ok|].
  intros Hv Ho Hpre. split.
  - intros Hh. pose proof (consensus_converts transaction_root valid_tx b now Hv Ho Hpre Hh) as Hc.
    split; [exact Hc|]. eapply Forall_impl; [apply answered_payload|intros x ->; exact Hc].
    apply validate_header_valid in Hh. pose proof (with_difficulty_same _ (hv_difficulty _ _ Hh)) as Ed.
    apply (consensus_expressible transaction_root valid_tx b now); congruence.
  - intros Hh Hd Hne. apply validate_header_valid in Hh.
    rewrite (convert_expressible transaction_root valid_tx) by (by apply (consensus_expressible transaction_root valid_tx _ now)).
    by rewrite (proj2 (Z.eqb_neq _ _)).
Qed.

(** ** Witnesses *)

(** A payload that is its block with the hash it announces; a header hashes to a
    number that tells the difficulty. *)
#[export] Instance ref_engine (T : Type) : EnginePayloads T := {
  ExecutionPayload := B256 * SealedBlock T;
  Sidecar := option B256;
  Withdrawal := Z;
  EngineError := unit;
  payload_block_hash p := p.1;
  payload_withdrawals p := withdrawals p.2;
  sidecar_parent_beacon_block_root s := s;
  try_into_block_with_sidecar p _ := Ok (with_header p.2 (with_difficulty (block_header p.2) 0));
  from_block_unchecked h b := ((h, b), parent_beacon_block_root (block_header b));
  hash_slow h := 1000 + difficulty h;
}.

#[export] Instance ref_engine_laws `{RethConsensus} {T} (transaction_root : list T -> B256)
    (valid_tx : T -> Prop) :
  EnginePayloadsLaws T transaction_root valid_tx.
Proof. by split. Qed.

#[export] Instance ref_versions (T : Type) : PayloadVersions T := {
  ExecutionPayloadV1 := B256 * SealedBlock T;
  ExecutionPayloadFieldV2 := B256 * SealedBlock T;
  ExecutionPayloadV3 := (B256 * SealedBlock T) * Z;
  BlobsBundleV1 := list bytes;
  Requests := list bytes;
  v1_from_block_unchecked h b := (h, b);
  v2_from_block_unchecked h b := (h, b);
  v3_from_block_unchecked h b := ((h, b), default 0 (excess_blob_gas (block_header b)));
  empty_blobs_bundle := [];
  empty_requests := [];
  payload_of_v1 p := p;
  payload_of_v2 p := p;
  payload_inner_v3 := fst;
}.

#[export] Instance ref_versions_laws (T : Type) : PayloadVersionsLaws T.
Proof. by split. Qed.

Definition sample_request (txs : list bytes) (gas : option Z) : ScrollPayloadAttributes Z :=
  {| payload_attributes :=
       {| pa_timestamp := 42; pa_prev_randao := 7; pa_suggested_fee_recipient := 9;
          pa_withdrawals := None; pa_parent_beacon_block_root := None |};
     spa_transactions := Some txs; no_tx_pool := true;
     block_data_hint := {| hint_extra_data := None; hint_state_root := None;
                           hint_coinbase := None; hint_nonce := None; hint_difficulty := None |};
     spa_gas_limit := gas |}.

Lemma sample_request_in_range txs gas :
  Z.of_nat (length txs) <= u64_max -> (forall g, gas = Some g -> in_u64 g) ->
  attributes_in_range 1 (sample_request txs gas).
Proof. intros. split; try done; unfold in_b256, in_address; simpl; solve_ints. Qed.

Definition sample_digest (b : bytes) : bytes := be_bytes 32 (fold_left (fun a x => (a * 257 + x) mod 2 ^ 255) b 1).

Lemma payload_id_identifies_inputs_witness :
  let id := payload_id_scroll (fun _ : list Z => []) sample_digest sample_digest in
  id 1 (sample_request [[5]] (Some 10)) <> id 1 (sample_request [[5]; [6]] None).
Proof.
  intros id.
  destruct (payload_id_identifies_inputs (H := ref_engine (option Z)) (fun _ => []) sample_digest sample_digest 1 1
    (sample_request [[5]] (Some 10)) (sample_request [[5]; [6]] None)) as (_ & _ & [Hid _]);
    try reflexivity; try (intros b; apply be_bytes_length).
  1,2: apply sample_request_in_range; [simpl; solve_ints|intros g [= <-] || done; solve_ints].
  intros E. apply Hid in E as [E|[_ E]].
  - apply (f_equal snd) in E. discriminate E.
  - vm_compute in E. discriminate E.
Defined.

Definition sample_engine_block (d : U256) : SealedBlock (option Z) :=
  {| block_header := with_difficulty plain_header d; transactions := [Some 4; None];
     ommers := Some []; withdrawals := None |}.

Lemma engine_block_roundtrip_witness :
  convert_payload_to_block (block_to_payload (sample_engine_block 1, 1001))
  = Ok (sample_engine_block 1, 1001)
  /\ Forall (fun x => convert_payload_to_block {| payload := x; sidecar := None |}
                      = Ok (sample_engine_block 1, 1001))
       (answered (Built.new (Executed := unit) (sample_engine_block 1, 1001) None 5))
  /\ convert_payload_to_block (block_to_payload (sample_engine_block 2, 1002))
  = Err (BlockHash 1001 1002).
Proof.
  destruct (engine_block_roundtrip (Executed := unit) (fun _ => 0) (fun _ => True) (sample_engine_block 1)
    None None 5) as [_ [Hok _]]; [by repeat constructor|done|done|].
  destruct (engine_block_roundtrip (Executed := unit) (fun _ => 0) (fun _ => True) (sample_engine_block 2)
    None None 5) as [_ [_ Hno]]; [by repeat constructor|done|done|].
  destruct (Hok eq_refl) as [Hc Ha]. split; [exact Hc|]. split; [exact Ha|]. by apply Hno.
Defined.
