(* ===== verification/Payload.v ===== *)
(** * Payload building (dogeos-reth-payload/src)

    The builder's configuration and breaker (config.rs), the resources a payload
    uses (lib.rs), forced transactions (forced.rs) and the build itself
    (builder.rs) over the executor of Executor.v with its shared code meter.
    Reth's block builder, the pool iterator, the clock and the cancellation flag
    are interfaces. *)

From stdpp Require Import prelude gmap list strings.
From Stdlib Require Import ZArith Lia.
From S2P Require Import Prelude.
From S2P Require Import Hardforks.
From S2P Require Import GenesisConfig.
From S2P Require Import ChainSpec.
From S2P Require Import Chain.
From S2P Require Import BaseFee.
From S2P Require Import Alloy.
From S2P Require Import AlloyRef.
From S2P Require Import TxType.
From S2P Require Import L1Message.
From S2P Require Import Envelope.
From S2P Require Import TxTheorems.
From S2P Require Import Consensus.
From S2P Require CodeWitness.
From S2P Require Import Transitions.
From S2P Require Import Receipt.
From S2P Require TxEnv.
From S2P Require Import Executor.
From S2P Require Import Build.
From S2P Require Import Engine.

Import (hints) TxEnv.
Import TxEnvelope(ScrollTxEnvelope).

(** ** Configuration (config.rs) *)

Definition MIN_TRANSACTION_DATA_SIZE : Z := 115.

(** Durations are in nanoseconds. *)
Record ScrollBuilderConfig := {
  bc_gas_limit : option Z;
  bc_time_limit : Z;
  bc_max_da_block_size : option Z;
  bc_max_code_witness_bytes : Z;
}.

Definition new_config (gas_limit : option Z) (time_limit : Z) (max_da_block_size : option Z) :
    ScrollBuilderConfig :=
  {| bc_gas_limit := gas_limit; bc_time_limit := time_limit;
     bc_max_da_block_size := max_da_block_size;
     bc_max_code_witness_bytes := CodeWitness.DEFAULT_MAX_CODE_WITNESS_BYTES |}.

Definition with_max_code_witness_bytes (self : ScrollBuilderConfig) (limit : Z) : ScrollBuilderConfig :=
  {| bc_gas_limit := bc_gas_limit self; bc_time_limit := bc_time_limit self;
     bc_max_da_block_size := bc_max_da_block_size self; bc_max_code_witness_bytes := limit |}.

(** The breaker; its start is where the clock [elapsed] counts from. *)
Record PayloadBuildingBreaker := {
  pb_time_limit : Z;
  pb_gas_limit : option Z;
  pb_max_da_block_size : option Z;
}.

Definition new_breaker (time_limit : Z) (gas_limit max_da_block_size : option Z) :
    PayloadBuildingBreaker :=
  {| pb_time_limit := time_limit; pb_gas_limit := gas_limit;
     pb_max_da_block_size := max_da_block_size |}.

Definition breaker (self : ScrollBuilderConfig) : PayloadBuildingBreaker :=
  new_breaker (bc_time_limit self) (bc_gas_limit self) (bc_max_da_block_size self).

(** [Option::is_some_and]. *)
Definition is_some_and {A} (o : option A) (p : A -> bool) : bool :=
  match o with Some a => p a | None => false end.

(** [reth_chainspec::MIN_TRANSACTION_GAS]. *)
Class ChainConstants := { MIN_TRANSACTION_GAS : Z }.

Definition should_break `{ChainConstants} (self : PayloadBuildingBreaker) (elapsed : Z)
    (cumulative_gas_used cumulative_da_size_used : Z) : bool :=
  (pb_time_limit self <=? elapsed)
  || is_some_and (pb_gas_limit self) (fun limit =>
       saturating_sub limit MIN_TRANSACTION_GAS <? cumulative_gas_used)
  || is_some_and (pb_max_da_block_size self) (fun limit =>
       saturating_sub limit MIN_TRANSACTION_DATA_SIZE <? cumulative_da_size_used).

(** ** Resources (lib.rs) *)

Record ExecutionInfo := {
  cumulative_gas_used : Z;
  cumulative_da_bytes_used : Z;
  total_fees : U256;
}.

Definition new_info : ExecutionInfo :=
  {| cumulative_gas_used := 0; cumulative_da_bytes_used := 0; total_fees := 0 |}.

(** The counters are [u64] additions. *)
Definition add_resources (self : ExecutionInfo) (gas_used da_bytes : Z) : ExecutionInfo :=
  {| cumulative_gas_used := wrap_u64 (cumulative_gas_used self + gas_used);
     cumulative_da_bytes_used := wrap_u64 (cumulative_da_bytes_used self + da_bytes);
     total_fees := total_fees self |}.

Section Resources.
Context `{EthTxs} `{Rlp}.

Definition record_tx (self : ExecutionInfo) (tx : ScrollTxEnvelope) (gas_used : Z) : ExecutionInfo :=
  add_resources self gas_used (TxEnvelope.encode_2718_len tx).

Definition is_tx_over_limits (self : ExecutionInfo) (tx : ScrollTxEnvelope) (block_gas_limit : Z)
    (block_data_limit : option Z) : bool :=
  is_some_and block_data_limit (fun limit =>
    limit <? saturating_add u64_max (cumulative_da_bytes_used self) (TxEnvelope.encode_2718_len tx))
  || (block_gas_limit <? saturating_add u64_max (cumulative_gas_used self) (tx_gas_limit tx)).
End Resources.

(** [info.total_fees += U256::from(miner_fee) * U256::from(gas_used)]; [U256]
    arithmetic wraps. *)
Definition add_fees (self : ExecutionInfo) (miner_fee gas_used : Z) : ExecutionInfo :=
  {| cumulative_gas_used := cumulative_gas_used self;
     cumulative_da_bytes_used := cumulative_da_bytes_used self;
     total_fees := wrap u256_max (total_fees self + wrap u256_max (miner_fee * gas_used)) |}.

(** ** Forced transactions (forced.rs) *)

(** [WithEncoded]. *)
Record WithEncoded (T : Type) := { encoded_bytes : bytes; we_value : T }.
Arguments encoded_bytes {T} _.
Arguments we_value {T} _.

Section Forced.
Context `{EthTxs} `{Rlp} `{!Eip2718} (keccak256 : bytes -> B256)
  (rlp_error_from : Eip2718Error -> RlpError).

Definition decode_forced_transaction (encoded : bytes) : result (WithEncoded ScrollTxEnvelope) RlpError :=
  let? p := map_err rlp_error_from
    (decode_2718 (TxEnvelope.typed_decode keccak256) TxEnvelope.fallback_decode encoded) in
  match p.2 with
  | _ :: _ => Err UnexpectedLength
  | [] => Ok {| encoded_bytes := encoded; we_value := p.1 |}
  end.

Definition decode_forced_transactions {W} (attributes : ScrollPayloadAttributes W) :
    result (list (WithEncoded ScrollTxEnvelope)) RlpError :=
  try_map decode_forced_transaction (default [] (spa_transactions attributes)).
End Forced.

Definition forced_transactions_da_bytes {T} (transactions : list (WithEncoded T)) : Z :=
  fold_left (fun total t => saturating_add u64_max total (blen (encoded_bytes t))) transactions 0.

(** ** The gas limit of the next block (builder.rs) *)

Definition next_block_gas_limit `{RethConsensus} (attributes target : option Z) (parent : Z) : Z :=
  match attributes with
  | Some gas_limit => gas_limit
  | None =>
      match target with
      | None => parent
      | Some target =>
          let step := parent / GAS_LIMIT_BOUND_DIVISOR in
          clamp target (saturating_sub parent step) (saturating_add u64_max parent step)
      end
  end.

(** ** Interfaces of the build *)

(** Reth's block builder over an executor: [X] is the executor's state and the
    list the transactions committed so far. *)
Class BlockBuilderLib := {
  execute_transaction_with_commit_condition : forall {X F Out T : Type},
    sresult X F Out -> (Out -> sresult X F Z) -> (X -> bool) -> T ->
    sresult (X * list T) F (option Z);
}.

(** Documented: execute, ask the condition, then commit and keep the transaction,
    or leave the block as it was. *)
Class BlockBuilderLaws `{BlockBuilderLib} : Prop := {
  commit_condition_spec {X F Out T} (run : sresult X F Out) (commit : Out -> sresult X F Z)
      (condition : X -> bool) (tx : T) (x : X) (txs : list T) :
    execute_transaction_with_commit_condition run commit condition tx (x, txs) =
    match run x with
    | (Err e, x) => (Err e, (x, txs))
    | (Ok out, x) =>
        if condition x then
          match commit out x with
          | (Ok gas, x) => (Ok (Some gas), (x, txs ++ [tx]))
          | (Err e, x) => (Err e, (x, txs))
          end
        else (Ok None, (x, txs))
    end;
}.

Inductive InvalidPoolTransactionError : Type :=
| ExceedsGasLimit (gas_limit block_gas_limit : Z)
| CodeWitnessBudgetExceeded (limit : Z)
| TxTypeNotSupported.

(** [PoolTransactionError::is_bad_transaction] of the builder's own error. *)
Definition is_bad_transaction (e : InvalidPoolTransactionError) : bool :=
  match e with CodeWitnessBudgetExceeded _ => false | _ => true end.

(** The pool's iterator. *)
Class BestTransactions `{EthTxs} (P : Type) := {
  PoolTx : Type;
  to_consensus : PoolTx -> ScrollTxEnvelope * Address;
  next : P -> option PoolTx * P;
  mark_invalid : P -> PoolTx -> InvalidPoolTransactionError -> P;
}.

(** Which EVM errors reject the transaction, and which of them a nonce too low. *)
Class InvalidTxErrors (Err : Type) := {
  is_invalid_tx_err : Err -> bool;
  is_nonce_too_low_err : Err -> bool;
}.

Definition is_invalid_tx `{InvalidTxErrors Er} (e : BlockExecutionError Er) : bool :=
  match e with
  | EvmFailed e _ => is_invalid_tx_err e
  | Eip4844NotSupported _ => true
  | _ => false
  end.

Definition is_nonce_too_low `{InvalidTxErrors Er} (e : BlockExecutionError Er) : bool :=
  match e with EvmFailed e _ => is_nonce_too_low_err e | _ => false end.

Inductive PayloadBuilderError (E Err : Type) : Type :=
| TransactionEcRecoverFailed
| BlobTransactionRejected
| BlockGasLimitExceededByForcedTransactions (gas_spent_by_tx : list Z) (gas : Z)
| BlockDaLimitExceededByForcedTransactions (bytes limit : Z)
| BlockCodeLimitExceededByForcedTransactions (limit : Z)
| BlockCodeLimitExceededBySystemExecution (limit : Z)
| BaseFeeError (e : E)
| Internal (e : BlockExecutionError Err)
| DecodeError (e : RlpError)
| EvmError (e : BlockExecutionError Err)
| FinishError.
Arguments TransactionEcRecoverFailed {E Err}.
Arguments BlobTransactionRejected {E Err}.
Arguments BlockGasLimitExceededByForcedTransactions {E Err} _ _.
Arguments BlockDaLimitExceededByForcedTransactions {E Err} _ _.
Arguments BlockCodeLimitExceededByForcedTransactions {E Err} _.
Arguments BlockCodeLimitExceededBySystemExecution {E Err} _.
Arguments BaseFeeError {E Err} e.
Arguments Internal {E Err} e.
Arguments DecodeError {E Err} e.
Arguments EvmError {E Err} e.
Arguments FinishError {E Err}.

(** A build that failed, or a panic. *)
Inductive BuildFailure (E Err : Type) : Type :=
| Failed (e : PayloadBuilderError E Err)
| BuildPanic (msg : string).
Arguments Failed {E Err} e.
Arguments BuildPanic {E Err} msg.

(** ** The build (builder.rs) *)

Section Build.
Context `{AlloyForks} `{TxEnv.EvmTypes} `{Rlp} `{!TxEnv.Zstd} `{!Eip2718} `{ReceiptTypes}
  `{RevmAccounts} `{SystemAddresses} {S : Type} `{DogeosHardforks S} `{ChainConfig S}
  {DB E : Type} `{Database DB E} `{!Revm DB} `{!InvalidTxErrors EVMError} `{!BlockBuilderLib}
  `{!ChainConstants}.
Context (show show_debug : E -> string) (keccak256 : bytes -> B256)
  (rlp_error_from : Eip2718Error -> RlpError).
(** Signer recovery, and [Transaction::effective_tip_per_gas]. *)
Context {SigError : Type} (recover : Signature -> B256 -> result Address SigError)
  (effective_tip_per_gas : ScrollTxEnvelope -> Z -> option Z).

Abbreviation Exec := (ScrollBlockExecutor S L1BlockInfo DB).
Abbreviation Recovered := (ScrollTxEnvelope * Address)%type.
(** The block builder: the executor, whose inspector is the other end of the
    code-witness handle, and the committed transactions. *)
Abbreviation Builder := (Exec * list Recovered)%type.
Abbreviation B := (sresult Builder (BuildFailure E EVMError)).

Definition failed {A} (e : PayloadBuilderError E EVMError) : B A := fun b => (Err (Failed e), b).
Definition build_panic {A} (msg : string) : B A := fun b => (Err (BuildPanic msg), b).

(** Reads the builder. *)
Definition with_builder {A} (k : Builder -> B A) : B A := fun b => k b b.

(** A run of the executor with its error named. *)
Definition on_executor {A} (m : sresult Exec (Failure EVMError) A)
    (name : BlockExecutionError EVMError -> PayloadBuilderError E EVMError) : B A := fun b =>
  let '(r, x) := m b.1 in
  (map_err (fun f => match f with Error e => Failed (name e) | Panic msg => BuildPanic msg end) r,
   (x, b.2)).

(** *** The code-witness handle *)

Definition meter_of (self : Exec) : CodeWitness.Meter :=
  CodeWitness.meter (evm_inspector (evm self)).

Definition set_meter (self : Exec) (m : CodeWitness.Meter) : Exec :=
  let e := evm self in
  set_evm self
    {| evm_db := evm_db e; evm_block := evm_block e; evm_spec := evm_spec e;
       evm_chain_id := evm_chain_id e; disable_base_fee := disable_base_fee e;
       disable_nonce_check := disable_nonce_check e; evm_tx := evm_tx e;
       l1_block_info := l1_block_info e; inspect := inspect e;
       evm_inspector := CodeWitness.with_meter (evm_inspector e) m |}.

Definition begin_meter (self : Exec) : Exec :=
  set_meter self (CodeWitness.begin_transaction (meter_of self)).
Definition accept_meter (self : Exec) : Exec :=
  set_meter self (CodeWitness.accept_transaction (meter_of self)).2.
Definition reject_meter (self : Exec) : Exec :=
  set_meter self (CodeWitness.reject_transaction (meter_of self)).

Definition begin_transaction : B unit := fun b => (Ok tt, (begin_meter b.1, b.2)).

Definition accept_system_code_budget (limit : Z) : B unit := fun b =>
  let '(accepted, m) := CodeWitness.accept_transaction (meter_of b.1) in
  let b := (set_meter b.1 m, b.2) in
  if negb accepted then (Err (Failed (BlockCodeLimitExceededBySystemExecution limit)), b)
  else (Ok tt, b).

Definition forced_code_budget_result (gas_used : option Z) (limit : Z) :
    result Z (PayloadBuilderError E EVMError) :=
  ok_or gas_used (BlockCodeLimitExceededByForcedTransactions limit).

(** [CommitChanges::Yes] as [true]. *)
Definition code_witness_commit (m : CodeWitness.Meter) : bool :=
  match CodeWitness.exceeded m with Some _ => false | None => true end.

(** A recovered transaction as the executor takes it. *)
Definition executable_of (tx : Recovered) : outcome Executable :=
  match TxEnv.from_recovered_tx tx.1 tx.2 with
  | Panics msg => Panics msg
  | Returns env =>
      Returns {| tx_env := env; ex_ty := tx_ty tx.1; ex_gas_limit := tx_gas_limit tx.1;
                 ex_trie_hash := TxEnvelope.trie_hash tx.1 |}
  end.

Definition execute_recovered (tx : Recovered) : sresult Exec (Failure EVMError) ScrollTxResult :=
  match executable_of tx with
  | Panics msg => panic msg
  | Returns executable => execute_transaction_without_commit executable
  end.

Definition execute_with_code_budget (tx : Recovered) : sresult Builder (Failure EVMError) (option Z) :=
  fun b =>
  let '(outcome, b) :=
    execute_transaction_with_commit_condition (execute_recovered tx) commit_transaction
      (fun x => code_witness_commit (meter_of x)) tx (begin_meter b.1, b.2) in
  match outcome with
  | Ok (Some _) => (outcome, (accept_meter b.1, b.2))
  | _ => (outcome, (reject_meter b.1, b.2))
  end.

(** The outcome of a run as a value. *)
Definition observe {A F} (m : sresult Builder F A) : B (result A F) := fun b =>
  let '(r, b) := m b in (Ok r, b).

(** *** The forced transactions *)

Fixpoint forced_loop (config : ScrollBuilderConfig) (block_gas_limit : Z)
    (forced : list (WithEncoded ScrollTxEnvelope)) (info : ExecutionInfo) (forced_gas : list Z) :
    B (ExecutionInfo * list Z) :=
  match forced with
  | [] => mret (info, forced_gas)
  | f :: forced =>
      let encoded_len := blen (encoded_bytes f) in
      if tx_ty (we_value f) =? 3 then failed BlobTransactionRejected
      else
        match TxEnvelope.recover_signer recover (we_value f) with
        | Panics msg => build_panic msg
        | Returns (Err _) => failed TransactionEcRecoverFailed
        | Returns (Ok signer) =>
            let tx := (we_value f, signer) in
            let tx_gas := tx_gas_limit (we_value f) in
            if block_gas_limit <? saturating_add u64_max (cumulative_gas_used info) tx_gas then
              failed (BlockGasLimitExceededByForcedTransactions (forced_gas ++ [tx_gas]) block_gas_limit)
            else
              outcome ← observe (execute_with_code_budget tx);
              match outcome with
              | Ok gas_used =>
                  match forced_code_budget_result gas_used (bc_max_code_witness_bytes config) with
                  | Err e => failed e
                  | Ok gas_used =>
                      forced_loop config block_gas_limit forced
                        (add_resources info gas_used encoded_len) (forced_gas ++ [gas_used])
                  end
              | Err (Error e) =>
                  if is_invalid_tx e then forced_loop config block_gas_limit forced info forced_gas
                  else failed (EvmError e)
              | Err (Panic msg) => build_panic msg
              end
        end
  end.

(** *** The pool *)

Inductive PoolEnd : Type :=
| PoolCancelled
| PoolDone (info : ExecutionInfo).

Section Pool.
Context {P : Type} `{!BestTransactions P}.
(** The cancellation flag and the clock, as the i-th round of the loop reads them. *)
Context (is_cancelled : nat -> bool) (elapsed : nat -> Z).

(** [None] when the fuel ran out. *)
Fixpoint pool_loop (fuel : nat) (config : ScrollBuilderConfig) (block_gas_limit base_fee : Z)
    (round : nat) (best : P) (info : ExecutionInfo) : B (option PoolEnd) :=
  match fuel with
  | O => mret None
  | Datatypes.S fuel =>
      match next best with
      | (None, _) => mret (Some (PoolDone info))
      | (Some pool_tx, best) =>
          let tx := to_consensus pool_tx in
          let continue := pool_loop fuel config block_gas_limit base_fee (Datatypes.S round) in
          if is_tx_over_limits info tx.1 block_gas_limit (bc_max_da_block_size config)
             || (tx_ty tx.1 =? 3) || is_l1_message tx.1 then
            continue (mark_invalid best pool_tx
                        (ExceedsGasLimit (tx_gas_limit tx.1) block_gas_limit)) info
          else if is_cancelled round then mret (Some PoolCancelled)
          else if should_break (breaker config) (elapsed round) (cumulative_gas_used info)
                    (cumulative_da_bytes_used info) then mret (Some (PoolDone info))
          else
            let miner_fee := effective_tip_per_gas tx.1 base_fee in
            outcome ← observe (execute_with_code_budget tx);
            match outcome with
            | Ok (Some gas_used) =>
                let info := record_tx info tx.1 gas_used in
                match miner_fee with
                | None => build_panic "valid fee after execution"
                | Some miner_fee => continue best (add_fees info miner_fee gas_used)
                end
            | Ok None =>
                continue (mark_invalid best pool_tx
                            (CodeWitnessBudgetExceeded (bc_max_code_witness_bytes config))) info
            | Err (Error e) =>
                if is_invalid_tx e then
                  continue (if negb (is_nonce_too_low e)
                            then mark_invalid best pool_tx TxTypeNotSupported else best) info
                else failed (EvmError e)
            | Err (Panic msg) => build_panic msg
            end
      end
  end.
End Pool.

(** *** The whole candidate *)

Section Candidate.
Context {P : Type} `{!BestTransactions P}.
Context (is_cancelled : nat -> bool) (elapsed : nat -> Z) (best_txs : Z -> P).
(** [is_better_payload] on the fees of the best payload so far, if any. *)
Context (is_better_payload : option U256 -> U256 -> bool).

Inductive FillEnd : Type :=
| FillCancelled
| FillAborted (fees : U256)
| Filled (info : ExecutionInfo).

Definition check_forced_da (config : ScrollBuilderConfig) (forced : list (WithEncoded ScrollTxEnvelope)) :
    B unit :=
  let forced_da_bytes := forced_transactions_da_bytes forced in
  match bc_max_da_block_size config with
  | Some limit =>
      if limit <? forced_da_bytes then
        failed (BlockDaLimitExceededByForcedTransactions forced_da_bytes limit)
      else mret tt
  | None => mret tt
  end.

Definition block_env_of (b : Builder) : BlockEnv := evm_block (evm b.1).

(** From the pre-execution changes to the last transaction; [None] when the
    fuel of the pool loop ran out. *)
Definition fill {W} (fuel : nat) (config : ScrollBuilderConfig)
    (attributes : ScrollPayloadAttributes W) (best_payload : option U256) : B (option FillEnd) :=
  _ ← begin_transaction;
  _ ← on_executor (apply_pre_execution_changes show show_debug) Internal;
  _ ← accept_system_code_budget (bc_max_code_witness_bytes config);
  with_builder (fun b =>
  let block_gas_limit := block_gas_limit (block_env_of b) in
  let base_fee := block_basefee (block_env_of b) in
  match decode_forced_transactions keccak256 rlp_error_from attributes with
  | Err e => failed (DecodeError e)
  | Ok forced =>
      _ ← check_forced_da config forced;
      r ← forced_loop config block_gas_limit forced new_info [];
      let info := r.1 in
      if no_tx_pool attributes then mret (Some (Filled info))
      else
        e ← pool_loop is_cancelled elapsed fuel config block_gas_limit base_fee 0 (best_txs base_fee) info;
        match e with
        | None => mret None
        | Some PoolCancelled => mret (Some FillCancelled)
        | Some (PoolDone info) =>
            if negb (is_better_payload best_payload (total_fees info)) then
              mret (Some (FillAborted (total_fees info)))
            else mret (Some (Filled info))
        end
  end).

(** Reth's [BlockBuilder::finish], given the state root when the sparse trie has
    computed one, and the trie task's answer when there is one. *)
Context {Block StateRoot : Type} (builder_finish : option StateRoot -> sresult Builder unit Block)
  (trie_state_root : option (result StateRoot unit)).

Inductive BuildOutcome : Type :=
| Cancelled
| Aborted (fees : U256)
| Freeze (block : Block) (fees : U256)
| Better (block : Block) (fees : U256).

Definition finish_candidate {W} (config : ScrollBuilderConfig) (attributes : ScrollPayloadAttributes W)
    (info : ExecutionInfo) : B BuildOutcome :=
  _ ← begin_transaction;
  _ ← match trie_state_root with
      | Some _ => on_executor (set_state_hook None) Internal
      | None => mret tt
      end;
  r ← observe (builder_finish match trie_state_root with Some (Ok root) => Some root | _ => None end);
  match r with
  | Err _ => failed FinishError
  | Ok block =>
      _ ← accept_system_code_budget (bc_max_code_witness_bytes config);
      mret (if no_tx_pool attributes then Freeze block (total_fees info)
            else Better block (total_fees info))
  end.

Definition build_candidate {W} (fuel : nat) (config : ScrollBuilderConfig)
    (attributes : ScrollPayloadAttributes W) (best_payload : option U256) : B (option BuildOutcome) :=
  e ← fill fuel config attributes best_payload;
  match e with
  | None => mret None
  | Some FillCancelled => mret (Some Cancelled)
  | Some (FillAborted fees) => mret (Some (Aborted fees))
  | Some (Filled info) => o ← finish_candidate config attributes info; mret (Some o)
  end.

(** [build_payload] from the parent's state: the environment of the block, the
    executor and its code meter, and the candidate. *)
Context `{!AlloyEips} `{!EthChainSpec S} `{!ChainId S} `{!RethConsensus} `{!ScrollContext DB}.

Definition next_attributes {W} (config : ScrollBuilderConfig) (attributes : ScrollPayloadAttributes W)
    (parent : Header) (base_fee : Z) : ScrollNextBlockEnvAttributes :=
  {| attr_timestamp := attributes_timestamp attributes;
     attr_suggested_fee_recipient := pa_suggested_fee_recipient (payload_attributes attributes);
     attr_gas_limit := next_block_gas_limit (spa_gas_limit attributes) (bc_gas_limit config)
                         (Chain.gas_limit parent);
     attr_base_fee := base_fee |}.

Definition start_builder {W} (s : S) (db : DB) (config : ScrollBuilderConfig)
    (attributes : ScrollPayloadAttributes W) (parent : Header) (seal : B256) (base_fee : Z) : Builder :=
  let env := next_evm_env s parent (next_attributes config attributes parent base_fee) in
  let inspector := CodeWitness.new_inspector (bc_max_code_witness_bytes config) u64_max in
  (new_executor (create_evm_with_inspector db env inspector) (context_for_next_block seal) s, []).

Definition build_payload {W} (fuel : nat) (s : S) (db : DB) (config : ScrollBuilderConfig)
    (attributes : ScrollPayloadAttributes W) (parent : Header) (seal : B256)
    (best_payload : option U256) :
    result (option BuildOutcome) (BuildFailure E EVMError) * option Builder :=
  match next_block_base_fee s db parent (attributes_timestamp attributes) with
  | Panics msg => (Err (BuildPanic msg), None)
  | Returns (Err e, _) => (Err (Failed (BaseFeeError e)), None)
  | Returns (Ok base_fee, db) =>
      let b := start_builder s db config attributes parent seal base_fee in
      let b := match trie_state_root with
               | Some _ => ((set_state_hook (Some {| hook_calls := [] |}) b.1).2, b.2)
               | None => b
               end in
      let '(r, b) := build_candidate fuel config attributes best_payload b in (r, Some b)
  end.
End Candidate.
End Build.

(** ** Lemmas *)

(** A meter within a limit of [max] bytes. *)
Definition meter_ok (size_of : B256 -> Z) (max : Z) (m : CodeWitness.Meter) : Prop :=
  CodeWitness.max_code_bytes m = max /\ exists ka kp, CodeWitness.meter_inv size_of ka kp m.

Section Meter.
Context (size_of : B256 -> Z) (max : Z).

Lemma hooked_meter_ok i j :
  hooked size_of i j -> meter_ok size_of max (CodeWitness.meter i) ->
  meter_ok size_of max (CodeWitness.meter j).
Proof.
  intros (l & Hh & Hok & ->) [Hm (ka & kp & Hinv)]. split.
  - by destruct (CodeWitness.hooks_same i l Hh) as [-> _].
  - eexists _, _. exact (CodeWitness.run_inv size_of l i (kp, ka) Hok Hinv).
Qed.

Lemma reset_meter_ok m :
  meter_ok size_of max m -> meter_ok size_of max (CodeWitness.reset_transaction m).
Proof.
  intros [Hm (ka & kp & Hinv)]. split; [done|]. exists ka, 0. by eapply CodeWitness.reset_inv.
Qed.

Lemma accept_meter_ok m :
  meter_ok size_of max m -> meter_ok size_of max (CodeWitness.accept_transaction m).2.
Proof.
  intros [Hm (ka & kp & Hinv)]. split.
  - unfold CodeWitness.accept_transaction. by destruct (CodeWitness.exceeded m).
  - eexists _, _. by apply CodeWitness.accept_inv.
Qed.

Lemma meter_ok_bound m : meter_ok size_of max m -> 0 <= CodeWitness.block_code_bytes m <= max.
Proof. intros [<- (ka & kp & [])]. done. Qed.

Lemma new_meter_ok :
  0 <= max < u64_max -> meter_ok size_of max (CodeWitness.new_meter max u64_max).
Proof.
  intros Hm. split; [done|]. exists 0, 0. split; simpl; try done; try solve_ints.
  intros h n. rewrite lookup_empty. naive_solver.
Qed.
End Meter.

Section BuildLemmas.
Context `{AlloyForks} `{TxEnv.EvmTypesLaws} `{Rlp} `{!TxEnv.Zstd} `{!Eip2718} `{ReceiptTypes}
  `{RevmAccounts} `{SystemAddresses} {S : Type} `{DogeosHardforks S} `{ChainConfig S}
  {DB E : Type} `{Database DB E} `{!Revm DB} `{!RevmLaws DB} `{!InvalidTxErrors EVMError}
  `{BlockBuilderLaws} `{!ChainConstants}.
Context (show show_debug : E -> string) (keccak256 : bytes -> B256)
  (rlp_error_from : Eip2718Error -> RlpError).
Context {SigError : Type} (recover : Signature -> B256 -> result Address SigError)
  (effective_tip_per_gas : ScrollTxEnvelope -> Z -> option Z).

Abbreviation Exec := (ScrollBlockExecutor S L1BlockInfo DB).
Abbreviation Recovered := (ScrollTxEnvelope * Address)%type.
Abbreviation Builder := (Exec * list Recovered)%type.

Lemma executable_of_ok (tx : Recovered) x :
  executable_of tx = Returns x ->
  executable_ok x /\ ex_ty x = tx_ty tx.1 /\ ex_gas_limit x = tx_gas_limit tx.1.
Proof.
  unfold executable_of. destruct (TxEnv.from_recovered_tx tx.1 tx.2) as [env|] eqn:E1; [|done].
  intros [= <-]. split; [|done]. unfold TxEnv.from_recovered_tx, TxEnv.with_compression in E1.
  destruct tx as [e a]. cbn [fst snd] in *. unfold executable_ok. cbn [ex_ty ex_gas_limit tx_env].
  destruct e as [t|t|t|t|t];
    try (destruct (TxEnv.compute_compression_ratio _); [|done];
         destruct (TxEnv.compute_compressed_size _); [|done]);
    injection E1 as <-; (split; [|try (intros _; by eexists)]); simpl.
  - by rewrite TxEnv.legacy_gas.
  - by rewrite TxEnv.eip2930_gas.
  - by rewrite TxEnv.eip1559_gas.
  - by rewrite TxEnv.eip7702_gas.
  - done.
  - intros Hne. by destruct Hne.
Qed.

(** What a candidate keeps true: the executor's gas is the given one, the receipts
    are those of the transactions, and the meter is within its limit. *)
Record candidate_inv (limit max gas : Z) (b : Builder) : Prop := {
  ci_block : block_gas_limit (block_env_of b) = limit;
  ci_gas : gas_used b.1 = gas;
  ci_range : 0 <= gas <= limit;
  ci_receipts : map (fun r => ScrollTxType.to_u8 (NodeReceipt.tx_type r)) (receipts b.1)
                = map (fun tx => tx_ty tx.1) b.2;
  ci_meter : meter_ok code_size max (meter_of b.1);
}.

(** No code limit has been hit since the last transaction boundary. *)
Definition clean (b : Builder) : Prop := CodeWitness.exceeded (meter_of b.1) = None.

Lemma set_meter_inv limit max gas (x : Exec) txs m :
  candidate_inv limit max gas (x, txs) -> meter_ok code_size max m ->
  candidate_inv limit max gas (set_meter x m, txs).
Proof. intros [] Hm. by split. Qed.

Lemma frame_candidate limit max gas (x x' : Exec) (txs : list Recovered) :
  frame x x' -> candidate_inv limit max gas (x, txs) -> candidate_inv limit max gas (x', txs).
Proof.
  intros [Hb _ _ Hr Hg _ Hh] [I1 I2 I3 I4 I5]. unfold block_env_of in *. cbn [fst snd] in *.
  split; unfold block_env_of; cbn [fst snd]; try congruence. by eapply hooked_meter_ok.
Qed.

(** One execution within the code budget: the transaction ran, the meter allowed
    it and it was committed; or nothing was committed. *)
Lemma budget_run tx (b b' : Builder) r :
  execute_with_code_budget tx b = (r, b') ->
  match r with
  | Ok (Some g) => exists ex out z w,
      executable_of tx = Returns ex
      /\ execute_transaction_without_commit ex (begin_meter b.1) = (Ok out, z)
      /\ CodeWitness.exceeded (meter_of z) = None /\ commit_transaction out z = (Ok g, w)
      /\ b' = (accept_meter w, b.2 ++ [tx])
  | Ok None | Err (Error _) => exists ex r z,
      executable_of tx = Returns ex
      /\ execute_transaction_without_commit ex (begin_meter b.1) = (r, z)
      /\ b' = (reject_meter z, b.2)
  | Err (Panic _) => True
  end.
Proof.
  destruct b as [x txs]. unfold execute_with_code_budget. cbn [fst snd]. rewrite commit_condition_spec.
  unfold execute_recovered. destruct (executable_of tx) as [ex|msg] eqn:Ex; [|by intros [= <- _]].
  destruct (execute_transaction_without_commit ex (begin_meter x)) as [[out|[e|msg]] z] eqn:Er;
    [| |by intros [= <- _]].
  - unfold code_witness_commit. destruct (CodeWitness.exceeded (meter_of z)) eqn:Ec.
    { intros [= <- <-]. by exists ex, (Ok out), z. }
    destruct (commit_transaction out z) as [[g|f] w] eqn:Ew.
    + intros [= <- <-]. by exists ex, out, z, w.
    + apply commit_inspector in Ew as [_ [msg ->]]. by intros [= <- _].
  - intros [= <- <-]. by exists ex, (Err (Error e)), z.
Qed.

Lemma budget_inv limit max gas tx (b b' : Builder) r :
  limit <= u64_max -> candidate_inv limit max gas b ->
  execute_with_code_budget tx b = (r, b') ->
  match r with
  | Ok (Some g) => 0 <= g /\ candidate_inv limit max (gas + g) b' /\ clean b' /\ b'.2 = b.2 ++ [tx]
  | Ok None | Err (Error _) => candidate_inv limit max gas b' /\ clean b' /\ b'.2 = b.2
  | Err (Panic _) => True
  end.
Proof.
  intros Hl Hi Eb%budget_run. destruct b as [x txs]. cbn [fst snd] in Eb.
  assert (candidate_inv limit max gas (begin_meter x, txs)) as Hc0.
  { apply set_meter_inv; [done|]. apply reset_meter_ok, Hi. }
  set (y := begin_meter x) in *. clearbody y.
  assert (Hreject : (exists ex r z, executable_of tx = Returns ex
      /\ execute_transaction_without_commit ex y = (r, z) /\ b' = (reject_meter z, txs)) ->
    candidate_inv limit max gas b' /\ clean b' /\ b'.2 = txs).
  { intros (ex & r' & z & _ & Hz%preserves_execute & ->).
    pose proof (frame_candidate _ _ _ _ _ _ Hz Hc0) as Hc. split; [|by split].
    apply set_meter_inv; [done|]. apply reset_meter_ok, Hc. }
  destruct r as [[g|]|[e|msg]]; [|by apply Hreject|by apply Hreject|done].
  destruct Eb as (ex & out & z & w & Ex & Er & Ec & Ew & ->).
  apply executable_of_ok in Ex as (Hok & Hty & _).
  pose proof (preserves_execute ex _ _ _ Er) as Hf. pose proof (commit_inspector _ _ _ _ Ew) as [Ei _].
  destruct Hc0 as [I1 I2 I3 I4 I5]. unfold block_env_of in *. cbn [fst snd] in *.
  destruct (execute_commit_Ok ex y g w Hok) as (rc & Hr & Hg & Hpos & Hmax & _ & Hrt & Hb & _);
    [rewrite I2, I1; done|by rewrite I1|apply sbind_Ok; eauto|].
  assert (meter_ok code_size max (meter_of w)) as Hm.
  { unfold meter_of. rewrite Ei. eapply hooked_meter_ok; [apply Hf|exact I5]. }
  split; [done|]. split; [|split; [|done]].
  - apply set_meter_inv; [|by apply accept_meter_ok].
    split; unfold block_env_of; cbn [fst snd]; try done; try congruence; [lia|].
    rewrite Hr, !map_app, I4. simpl. by rewrite Hrt, Hty.
  - unfold meter_of in Ec. rewrite <- Ei in Ec. unfold clean, meter_of. cbn.
    unfold CodeWitness.accept_transaction, meter_of.
    by destruct (CodeWitness.exceeded (CodeWitness.meter (evm_inspector (evm w)))).
Qed.

(** A run of transactions within the code budget, and those it included: the others
    were over the budget or the EVM refused them. *)
Definition not_included (r : result (option Z) (Failure EVMError)) : Prop :=
  match r with Ok None | Err (Error _) => True | _ => False end.

Lemma budget_left_out tx (b b' : Builder) r :
  execute_with_code_budget tx b = (r, b') -> not_included r ->
  exists ex r z, executable_of tx = Returns ex
    /\ execute_transaction_without_commit ex (begin_meter b.1) = (r, z)
    /\ b' = (reject_meter z, b.2).
Proof. intros Eb%budget_run Hr. by destruct r as [[]|[]]. Qed.

Inductive candidate_run : Builder -> list Recovered -> Builder -> Prop :=
| run_done b : candidate_run b [] b
| run_included tx g txs b b1 b2 :
    execute_with_code_budget tx b = (Ok (Some g), b1) -> candidate_run b1 txs b2 ->
    candidate_run b (tx :: txs) b2
| run_left_out tx r txs b b1 b2 :
    execute_with_code_budget tx b = (r, b1) -> not_included r -> candidate_run b1 txs b2 ->
    candidate_run b txs b2.

Lemma candidate_run_trans b txs b1 txs' b2 :
  candidate_run b txs b1 -> candidate_run b1 txs' b2 -> candidate_run b (txs ++ txs') b2.
Proof. induction 1; intros; [done|by eapply run_included; eauto|by eapply run_left_out; eauto]. Qed.

(** *** The forced loop *)

(** The run of the forced transactions from a builder to another, in order: each is
    included with its signer and the gas it used, or left out because the EVM
    found it invalid on the state it reached; [n] is the bytes included. *)
Inductive forced_run : Builder -> list (WithEncoded ScrollTxEnvelope) -> Builder ->
    list Recovered -> Z -> Prop :=
| forced_none b : forced_run b [] b [] 0
| forced_included f signer fs txs n b b1 b2 g :
    TxEnvelope.recover_signer recover (we_value f) = Returns (Ok signer) ->
    tx_ty (we_value f) <> 3 ->
    execute_with_code_budget (we_value f, signer) b = (Ok (Some g), b1) ->
    forced_run b1 fs b2 txs n ->
    forced_run b (f :: fs) b2 ((we_value f, signer) :: txs) (blen (encoded_bytes f) + n)
| forced_invalid f signer fs txs n b b1 b2 e :
    TxEnvelope.recover_signer recover (we_value f) = Returns (Ok signer) ->
    execute_with_code_budget (we_value f, signer) b = (Err (Error e), b1) ->
    is_invalid_tx e = true -> forced_run b1 fs b2 txs n ->
    forced_run b (f :: fs) b2 txs n.

Definition forced_bytes {T} (fs : list (WithEncoded T)) : Z :=
  fold_right (fun f n => blen (encoded_bytes f) + n) 0 fs.

Lemma forced_bytes_nonneg {T} (fs : list (WithEncoded T)) : 0 <= forced_bytes fs.
Proof. induction fs as [|f fs IH]; simpl; [lia|]. pose proof (blen_nonneg (encoded_bytes f)). lia. Qed.

Lemma forced_run_bytes b fs b' txs n : forced_run b fs b' txs n -> 0 <= n <= forced_bytes fs.
Proof.
  induction 1; simpl; [lia|..]; pose proof (blen_nonneg (encoded_bytes f)); lia.
Qed.

Lemma forced_run_candidate b fs b' txs n : forced_run b fs b' txs n -> candidate_run b txs b'.
Proof. induction 1; [constructor|by eapply run_included|by eapply run_left_out]. Qed.

Lemma forced_run_signers b fs b' txs n :
  forced_run b fs b' txs n ->
  Forall (fun tx => TxEnvelope.recover_signer recover tx.1 = Returns (Ok tx.2)) txs.
Proof. induction 1; [constructor|by constructor|done]. Qed.

Lemma forced_run_values (Q : ScrollTxEnvelope -> Prop) b fs b' txs n :
  forced_run b fs b' txs n -> Forall (fun f => Q (we_value f)) fs -> Forall (fun tx => Q tx.1) txs.
Proof. induction 1; intros Hq; [constructor|inversion Hq; subst; constructor; auto|inversion Hq; auto]. Qed.

Lemma da_bytes_exact_from {T} (fs : list (WithEncoded T)) k :
  0 <= k -> k + forced_bytes fs <= u64_max ->
  fold_left (fun total t => saturating_add u64_max total (blen (encoded_bytes t))) fs k
  = k + forced_bytes fs.
Proof.
  revert k. induction fs as [|f fs IH]; intros k Hk Hb; simpl in *; [lia|].
  pose proof (forced_bytes_nonneg fs). pose proof (blen_nonneg (encoded_bytes f)).
  rewrite saturating_add_exact by lia. rewrite IH by lia. lia.
Qed.

Lemma forced_loop_inv config limit max fs info gases (b b' : Builder) info' gases' :
  limit <= u64_max -> candidate_inv limit max (cumulative_gas_used info) b ->
  0 <= cumulative_da_bytes_used info -> cumulative_da_bytes_used info + forced_bytes fs <= u64_max ->
  clean b -> forced_loop recover config limit fs info gases b = (Ok (info', gases'), b') ->
  exists txs n, forced_run b fs b' txs n /\ clean b' /\ b'.2 = b.2 ++ txs
    /\ candidate_inv limit max (cumulative_gas_used info') b'
    /\ cumulative_da_bytes_used info' = cumulative_da_bytes_used info + n
    /\ length gases' = (length gases + length txs)%nat.
Proof.
  intros Hl. revert info gases b. induction fs as [|f fs IH]; intros info gases b Hi Hda Hsum Hclean.
  - intros [= <- <- <-]. exists [], 0. split; [constructor|].
    rewrite app_nil_r, Z.add_0_r, Nat.add_0_r. done.
  - cbn [forced_loop]. destruct (Z.eqb_spec (tx_ty (we_value f)) 3) as [|Hty]; [done|].
    destruct (TxEnvelope.recover_signer recover (we_value f)) as [[signer|e]|msg] eqn:Es; [|done..].
    destruct (_ <? _); [done|]. unfold mbind, sresult_bind, observe.
    destruct (execute_with_code_budget (we_value f, signer) b) as [r b1] eqn:Er.
    pose proof (budget_inv _ _ _ _ _ _ _ Hl Hi Er) as Hb.
    simpl in Hsum. pose proof (blen_nonneg (encoded_bytes f)). pose proof (forced_bytes_nonneg fs).
    destruct r as [[g|]|[e|msg]]; simpl; [|done| |done].
    + destruct Hb as (Hg & Hi1 & Hc1 & Htx). intros Erun.
      assert (wrap_u64 (cumulative_gas_used info + g) = cumulative_gas_used info + g) as Hwg.
      { apply wrap_u64_small. destruct Hi1. solve_ints. }
      assert (wrap_u64 (cumulative_da_bytes_used info + blen (encoded_bytes f))
              = cumulative_da_bytes_used info + blen (encoded_bytes f)) as Hwd.
      { apply wrap_u64_small. solve_ints. }
      apply IH in Erun as (txs & n & Hrun & Hc2 & Hbt & Hi2 & Hda2 & Hlen); simpl;
        rewrite ?Hwg, ?Hwd; try done; try lia.
      simpl in Hda2. rewrite Hwd in Hda2. rewrite length_app in Hlen. simpl in Hlen.
      exists ((we_value f, signer) :: txs), (blen (encoded_bytes f) + n).
      split; [by econstructor|]. split; [done|]. split; [by rewrite Hbt, Htx, <- app_assoc|].
      split; [done|]. simpl. split; lia.
    + destruct Hb as (Hi1 & Hc1 & Htx). destruct (is_invalid_tx e) eqn:Ei; [|done]. intros Erun.
      apply IH in Erun as (txs & n & Hrun & Hc2 & Hbt & Hi2 & Hda2 & Hlen); try done; try lia.
      exists txs, n. split; [by eapply forced_invalid|]. by rewrite Hbt, Htx.
Qed.

(** *** The pool loop *)

Section PoolLemmas.
Context `{!EthTxsLaws} `{!RlpLaws} {P : Type} `{!BestTransactions P}.
Context (is_cancelled : nat -> bool) (elapsed : nat -> Z).

Definition pool_bytes (txs : list Recovered) : Z :=
  fold_right (fun tx n => blen (TxEnvelope.encode_2718 tx.1) + n) 0 txs.

Lemma pool_bytes_app txs txs' : pool_bytes (txs ++ txs') = pool_bytes txs + pool_bytes txs'.
Proof. induction txs as [|t txs IH]; simpl; [done|]. rewrite IH. lia. Qed.

Definition pool_tx (tx : Recovered) : Prop :=
  tx_ty tx.1 <> 3 /\ is_l1_message tx.1 = false /\ exists p, tx = to_consensus p.

Lemma pool_loop_inv fuel config limit max base_fee round best info (b b' : Builder) info' :
  limit <= u64_max -> (forall p : PoolTx, envelope_ok keccak256 (to_consensus p).1) ->
  candidate_inv limit max (cumulative_gas_used info) b -> clean b ->
  pool_loop effective_tip_per_gas is_cancelled elapsed fuel config limit base_fee round best info b
  = (Ok (Some (PoolDone info')), b') ->
  exists txs, Forall pool_tx txs /\ candidate_run b txs b' /\ clean b' /\ b'.2 = b.2 ++ txs
    /\ candidate_inv limit max (cumulative_gas_used info') b'
    /\ forall da, bc_max_da_block_size config = Some da -> da < u64_max ->
       0 <= cumulative_da_bytes_used info <= da ->
       cumulative_da_bytes_used info' = cumulative_da_bytes_used info + pool_bytes txs
       /\ cumulative_da_bytes_used info' <= da.
Proof.
  intros Hl Hok. revert round best info b.
  induction fuel as [|fuel IH]; intros round best info b Hi Hclean; [done|]. cbn [pool_loop].
  destruct (next best) as [[p|] best']; [|].
  2:{ intros [= <- <-]. exists []. rewrite app_nil_r. do 2 (split; [constructor|]). do 3 (split; [done|]).
      intros da _ _ Hda. simpl. lia. }
  destruct (is_tx_over_limits _ _ _ _) eqn:Eover; [by apply IH|].
  destruct (Z.eqb_spec (tx_ty (to_consensus p).1) 3) as [|Hty]; [by apply IH|].
  destruct (is_l1_message (to_consensus p).1) eqn:El1; [by apply IH|]. cbn [orb].
  destruct (is_cancelled round); [done|].
  destruct (should_break _ _ _ _).
  { intros [= <- <-]. exists []. rewrite app_nil_r. do 2 (split; [constructor|]). do 3 (split; [done|]).
    intros da _ _ Hda. simpl. lia. }
  unfold mbind, sresult_bind, observe.
  destruct (execute_with_code_budget (to_consensus p) b) as [r b1] eqn:Er.
  pose proof (budget_inv _ _ _ _ _ _ _ Hl Hi Er) as Hb.
  destruct r as [[g|]|[e|msg]]; [| | |done].
  - destruct Hb as (Hg & Hi1 & Hc1 & Htx).
    destruct (effective_tip_per_gas _ _) as [fee|]; [|done]. intros Erun.
    assert (wrap_u64 (cumulative_gas_used info + g) = cumulative_gas_used info + g) as Hwg.
    { apply wrap_u64_small. destruct Hi1. solve_ints. }
    apply IH in Erun as (txs & Htxs & Hrun & Hc2 & Hbt & Hi2 & Hda2); [|simpl; by rewrite Hwg|done].
    exists (to_consensus p :: txs). split.
    { constructor; [|done]. split; [done|]. split; [done|]. by exists p. }
    split; [by eapply run_included|]. split; [done|]. split; [by rewrite Hbt, Htx, <- app_assoc|]. split; [done|].
    intros da Hcfg Hmax Hda. specialize (Hda2 da Hcfg Hmax).
    cbn [cumulative_da_bytes_used add_fees record_tx add_resources] in Hda2. unfold is_tx_over_limits in Eover. rewrite Hcfg in Eover. cbn [is_some_and] in Eover.
    bool_to_prop. pose proof (envelope_encode_length keccak256 _ (Hok p)) as Elen.
    rewrite Elen in *.
    pose proof (blen_nonneg (TxEnvelope.encode_2718 (to_consensus p).1)).
    rewrite wrap_u64_small in Hda2 by solve_ints. simpl.
    destruct Hda2 as [E1 E2]; [solve_ints|]. split; lia.
  - destruct Hb as (Hi1 & Hc1 & Htx). intros Erun.
    apply IH in Erun as (txs & Htxs & Hrun & Erun); [|done..]. exists txs. rewrite <- Htx.
    split; [done|]. split; [by eapply run_left_out|done].
  - destruct Hb as (Hi1 & Hc1 & Htx). destruct (is_invalid_tx e); [|done]. intros Erun.
    apply IH in Erun as (txs & Htxs & Hrun & Erun); [|done..]. exists txs. rewrite <- Htx.
    split; [done|]. split; [by eapply run_left_out|done].
Qed.






Section PoolClock.
Context (config : ScrollBuilderConfig) (limit base_fee : Z).
Abbreviation loop := (pool_loop effective_tip_per_gas (S := S) (DB := DB) (E := E) is_cancelled elapsed).







End PoolClock.

(** *** The candidate *)

Context (best_txs : Z -> P) (is_better_payload : option U256 -> U256 -> bool).

Lemma system_step_inv limit max gas (x : Exec) txs (b' : Builder) u n :
  candidate_inv limit max gas (x, txs) ->
  accept_system_code_budget (E := E) n (x, txs) = (Ok u, b') ->
  candidate_inv limit max gas b' /\ clean b' /\ b'.2 = txs.
Proof.
  intros Hi. unfold accept_system_code_budget. cbn [fst snd].
  pose proof (accept_meter_ok code_size max _ (ci_meter _ _ _ _ Hi)) as Hm. cbn [fst] in Hm.
  assert (Hex : let '(ok, m) := CodeWitness.accept_transaction (meter_of x) in
                ok = true -> CodeWitness.exceeded m = None).
  { unfold CodeWitness.accept_transaction. by destruct (CodeWitness.exceeded (meter_of x)) eqn:Ee. }
  destruct (CodeWitness.accept_transaction (meter_of x)) as [[] m]; [|done].
  intros [= _ <-]. split; [by apply set_meter_inv|]. split; [by apply Hex|done].
Qed.

(** The pre-execution changes of a candidate, within the code budget. *)
Definition prepared (b b0 : Builder) : Prop :=
  exists x m, apply_pre_execution_changes show show_debug (begin_meter b.1) = (Ok tt, x)
    /\ CodeWitness.exceeded (meter_of x) = None /\ b0 = (set_meter x m, []).

Lemma fill_split {W} fuel config (attributes : ScrollPayloadAttributes W) best max (b b' : Builder) info :
  block_gas_limit (block_env_of b) <= u64_max ->
  candidate_inv (block_gas_limit (block_env_of b)) max 0 b -> b.2 = [] ->
  fill show show_debug keccak256 rlp_error_from recover effective_tip_per_gas is_cancelled elapsed
    best_txs is_better_payload fuel config attributes best b = (Ok (Some (Filled info)), b') ->
  let limit := block_gas_limit (block_env_of b) in
  exists b0 b1 fs mid gases base_fee,
    prepared b b0 /\ candidate_inv limit max 0 b0 /\ clean b0 /\ b0.2 = []
    /\ decode_forced_transactions keccak256 rlp_error_from attributes = Ok fs
    /\ (forall da, bc_max_da_block_size config = Some da -> forced_transactions_da_bytes fs <= da)
    /\ forced_loop recover config limit fs new_info [] b0 = (Ok (mid, gases), b1)
    /\ if no_tx_pool attributes then info = mid /\ b' = b1
       else pool_loop effective_tip_per_gas is_cancelled elapsed fuel config limit base_fee 0
              (best_txs base_fee) mid b1 = (Ok (Some (PoolDone info)), b').
Proof.
  intros Hl Hi Hb Ef. cbv zeta. unfold fill in Ef.
  apply sbind_Ok in Ef as ([] & b1 & E1 & Ef). injection E1 as <-.
  apply sbind_Ok in Ef as ([] & b2 & E2 & Ef). apply sbind_Ok in Ef as ([] & b3 & E3 & Ef).
  destruct b as [x txs]. cbn [fst snd] in *. subst txs.
  unfold on_executor in E2. cbn [fst snd] in E2.
  destruct (apply_pre_execution_changes show show_debug (begin_meter x)) as [[[]|f] y] eqn:Ep; [|done].
  injection E2 as <-. pose proof (preserves_pre_execution _ _ _ _ _ Ep) as Hf.
  assert (candidate_inv (block_gas_limit (block_env_of (x, []))) max 0 (y, [])) as Hi2.
  { eapply frame_candidate; [exact Hf|]. apply set_meter_inv; [done|]. apply reset_meter_ok, Hi. }
  destruct (system_step_inv _ max 0 y [] b3 tt _ Hi2 E3) as (Hi3 & Hc3 & Hb3).
  assert (prepared (x, []) b3) as Hprep.
  { unfold accept_system_code_budget, CodeWitness.accept_transaction in E3. cbn [fst snd] in E3.
    destruct (CodeWitness.exceeded (meter_of y)) eqn:Ee; [done|]. injection E3 as <-.
    by exists y, (CodeWitness.accept_transaction (meter_of y)).2; unfold CodeWitness.accept_transaction; rewrite Ee. }
  pose proof (ci_block _ _ _ _ Hi3) as Hlim. unfold with_builder in Ef. rewrite Hlim in Ef.
  destruct (decode_forced_transactions keccak256 rlp_error_from attributes) as [fs|] eqn:Ed; [|done].
  apply sbind_Ok in Ef as ([] & b4 & E4 & Ef).
  assert (b4 = b3 /\ forall da, bc_max_da_block_size config = Some da ->
            forced_transactions_da_bytes fs <= da) as [-> Hda].
  { unfold check_forced_da in E4. destruct (bc_max_da_block_size config) as [da|].
    - destruct (Z.ltb_spec da (forced_transactions_da_bytes fs)); [done|].
      injection E4 as <-. split; [done|]. by intros da' [= <-].
    - injection E4 as <-. done. }
  apply sbind_Ok in Ef as ([mid gases] & b5 & E5 & Ef). cbn [fst] in Ef.
  exists b3, b5, fs, mid, gases, (block_basefee (block_env_of b3)).
  do 7 (split; [done|]). destruct (no_tx_pool attributes); [by injection Ef as <- <-|].
  apply sbind_Ok in Ef as (e & b6 & E6 & Ef). destruct e as [[|i]|]; [done| |done].
  destruct (negb _); [done|]. injection Ef as <- <-. exact E6.
Qed.
End PoolLemmas.
End BuildLemmas.

(** *** Decoding *)

Definition total_bytes (l : list bytes) : Z := fold_right (fun b n => blen b + n) 0 l.

Lemma forced_bytes_total {T} (fs : list (WithEncoded T)) :
  forced_bytes fs = total_bytes (map encoded_bytes fs).
Proof. induction fs as [|f fs IH]; simpl; [done|]. by rewrite IH. Qed.

Lemma decode_forced_Ok `{EthTxs} `{Rlp} `{!Eip2718} keccak256 rlp_error_from {W}
    (attributes : ScrollPayloadAttributes W) fs :
  decode_forced_transactions keccak256 rlp_error_from attributes = Ok fs ->
  map encoded_bytes fs = default [] (spa_transactions attributes)
  /\ Forall (fun f => decode_2718 (TxEnvelope.typed_decode keccak256) TxEnvelope.fallback_decode
                        (encoded_bytes f) = Ok (we_value f, [])) fs.
Proof.
  intros Hd. apply try_map_Ok in Hd. induction Hd as [|b f l fs Hf _ [IH1 IH2]]; [done|].
  unfold decode_forced_transaction in Hf.
  destruct (decode_2718 _ _ b) as [[tx rest]|e] eqn:Ed; [|done]. simpl in Hf.
  destruct rest; [|done]. injection Hf as <-. simpl. split; [by rewrite IH1|]. by constructor.
Qed.

(** *** The gas limit *)

Section GasLimit.
Context `{RethConsensusLaws}.

Lemma gas_limit_step target parent :
  in_u64 target -> in_u64 parent ->
  let next := next_block_gas_limit None (Some target) parent in
  let step := parent / GAS_LIMIT_BOUND_DIVISOR in
  0 <= step <= parent
  /\ parent - step <= next <= parent + step
  /\ (parent <= target -> next = Z.min target (parent + step))
  /\ (target <= parent -> next = Z.max target (parent - step)).
Proof.
  intros Ht Hp next step. pose proof bound_divisor_positive.
  assert (0 <= step <= parent) as Hs.
  { unfold step. split; [apply Z.div_pos; solve_ints|].
    apply Z.div_le_upper_bound; [lia|]. unfold_ints. nia. }
  subst next. cbn [next_block_gas_limit]. fold step. clearbody step. solve_ints.
Qed.

(** The distance to the target falls with every block, so the target is reached. *)
Lemma gas_limit_ramp target parent :
  in_u64 target -> in_u64 parent ->
  GAS_LIMIT_BOUND_DIVISOR <= target -> GAS_LIMIT_BOUND_DIVISOR <= parent ->
  exists n, Z.of_nat n <= abs_diff target parent
    /\ Nat.iter n (next_block_gas_limit None (Some target)) parent = target.
Proof.
  intros Ht. remember (Z.to_nat (abs_diff target parent)) as d eqn:Ed.
  revert parent Ed. induction d as [d IH] using lt_wf_ind. intros parent Ed Hp Hdt Hdp.
  destruct (decide (parent = target)) as [->|Hne]; [exists 0%nat; split; [solve_ints|done]|].
  destruct (gas_limit_step target parent Ht Hp) as (Hs & _ & Hup & Hdown).
  pose proof bound_divisor_positive.
  assert (1 <= parent / GAS_LIMIT_BOUND_DIVISOR) as Hone by (apply Z.div_le_lower_bound; lia).
  set (g := next_block_gas_limit None (Some target) parent) in *.
  assert (in_u64 g /\ GAS_LIMIT_BOUND_DIVISOR <= g /\ abs_diff target g < abs_diff target parent)
    as (Hg & Hdg & Hlt) by (destruct (Z.le_ge_cases parent target); solve_ints).
  destruct (IH (Z.to_nat (abs_diff target g))) with (parent := g) as (n & Hn & En); try done.
  { unfold abs_diff in *. lia. }
  exists (Datatypes.S n). split; [lia|]. by rewrite Nat.iter_succ_r.
Qed.
End GasLimit.

(** ** Properties *)

(** C38: The gas limit of the next block: an explicit limit is taken verbatim and
    without a target the parent's is kept; with a target the limit moves toward
    it by at most the consensus bound, so consensus accepts every step, and
    block after block it reaches the target. *)
Theorem next_block_gas_limit_spec `{RethConsensusLaws} (target parent : Z) :
  in_u64 target -> in_u64 parent ->
  let next := next_block_gas_limit None (Some target) in
  (forall g t, next_block_gas_limit (Some g) t parent = g)
  /\ next_block_gas_limit None None parent = parent
  /\ (parent <= target -> parent <= next parent <= target)
  /\ (target <= parent -> target <= next parent <= parent)
  /\ (abs_diff target parent <= parent / GAS_LIMIT_BOUND_DIVISOR -> next parent = target)
  /\ (MINIMUM_GAS_LIMIT <= target -> MINIMUM_GAS_LIMIT <= parent ->
      validate_gas_limit_against_parent (next parent) parent = Ok tt)
  /\ (GAS_LIMIT_BOUND_DIVISOR <= target -> GAS_LIMIT_BOUND_DIVISOR <= parent ->
      exists n, Z.of_nat n <= abs_diff target parent /\ Nat.iter n next parent = target).
Proof.
  intros Ht Hp next. destruct (gas_limit_step target parent Ht Hp) as (Hs & Hb & Hup & Hdown).
  fold next in Hb, Hup, Hdown. split; [done|]. split; [done|].
  split; [lia|]. split; [lia|]. split; [unfold abs_diff; lia|]. split.
  - intros Hmt Hmp. apply gas_limit_accepted; [done|]. lia.
  - intros Hdt Hdp. by apply gas_limit_ramp.
Qed.

Section Filled.
Context `{AlloyForks} `{TxEnv.EvmTypesLaws} `{Rlp} `{!EthTxsLaws} `{!RlpLaws} `{!TxEnv.Zstd}
  `{!Eip2718} `{ReceiptTypes} `{RevmAccounts} `{SystemAddresses} {S : Type} `{DogeosHardforks S}
  `{ChainConfig S} `{!ChainId S} {DB E : Type} `{Database DB E} `{!Revm DB} `{!RevmLaws DB}
  `{!InvalidTxErrors EVMError} `{BlockBuilderLaws} `{!ChainConstants} `{RethConsensus}
  `{!ScrollContext DB}.
Context (show show_debug : E -> string) (keccak256 : bytes -> B256)
  (rlp_error_from : Eip2718Error -> RlpError) {SigError : Type}
  (recover : Signature -> B256 -> result Address SigError)
  (effective_tip_per_gas : ScrollTxEnvelope -> Z -> option Z)
  {P : Type} `{!BestTransactions P} (is_cancelled : nat -> bool) (elapsed : nat -> Z)
  (best_txs : Z -> P) (is_better_payload : option U256 -> U256 -> bool).
Context {W : Type} (fuel : nat) (s : S) (db : DB) (config : ScrollBuilderConfig)
  (attributes : ScrollPayloadAttributes W) (parent : Header) (seal : B256) (base_fee : Z)
  (best_payload : option U256) (h : option StateHook).

Abbreviation Builder := (ScrollBlockExecutor S L1BlockInfo DB * list (ScrollTxEnvelope * Address))%type.
Abbreviation limit :=
  (next_block_gas_limit (spa_gas_limit attributes) (bc_gas_limit config) (Chain.gas_limit parent)).

(** The builder [build_payload] fills, with or without a state hook. *)
Definition filled_from : Builder :=
  let b := start_builder s db config attributes parent seal base_fee in
  ((set_state_hook h b.1).2, b.2).

(** A candidate filled to its last transaction. *)
Definition filled (info : ExecutionInfo) (b : Builder) : Prop :=
  fill show show_debug keccak256 rlp_error_from recover effective_tip_per_gas is_cancelled elapsed
    best_txs is_better_payload fuel config attributes best_payload filled_from
  = (Ok (Some (Filled info)), b).

Record fill_assumptions : Prop := {
  fa_limit : in_u64 limit;
  fa_code : 0 <= bc_max_code_witness_bytes config < u64_max;
  fa_pool : forall p : PoolTx, envelope_ok keccak256 (to_consensus p).1;
  fa_bytes : total_bytes (default [] (spa_transactions attributes)) <= u64_max;
}.

Lemma filled_parts info b :
  fill_assumptions -> filled info b ->
  exists fs (b0 b1 : Builder) forced pool n,
    decode_forced_transactions keccak256 rlp_error_from attributes = Ok fs
    /\ (prepared show show_debug filled_from b0 /\ candidate_run b1 pool b)
    /\ b0.2 = [] /\ forced_run recover b0 fs b1 forced n /\ b.2 = forced ++ pool /\ Forall pool_tx pool
    /\ (no_tx_pool attributes = true -> pool = [])
    /\ candidate_inv limit (bc_max_code_witness_bytes config) (cumulative_gas_used info) b /\ clean b
    /\ forall da, bc_max_da_block_size config = Some da -> da < u64_max ->
       cumulative_da_bytes_used info = n + pool_bytes pool /\ cumulative_da_bytes_used info <= da.
Proof.
  intros [Hlim Hcode Hpool Hbytes] Hfill.
  assert (Hblock : block_gas_limit (block_env_of filled_from) = limit) by reflexivity.
  assert (Hstart : candidate_inv limit (bc_max_code_witness_bytes config) 0 filled_from).
  { split; [exact Hblock|done|split; [lia|apply Hlim]|done|by apply new_meter_ok]. }
  rewrite <- Hblock in Hstart. unfold filled in Hfill.
  eapply fill_split in Hfill as (b0 & b1 & fs & mid & gases & fee & Hprep & Hi0 & Hc0 & Hb0 & Hd & Hda & Hf & Hp);
    [|rewrite Hblock; apply Hlim|exact Hstart|done].
  rewrite Hblock in *. destruct (decode_forced_Ok _ _ _ _ Hd) as [Henc _].
  assert (Htot : forced_bytes fs <= u64_max) by (rewrite forced_bytes_total, Henc; done).
  assert (Hexact : forced_transactions_da_bytes fs = forced_bytes fs).
  { unfold forced_transactions_da_bytes. rewrite da_bytes_exact_from; [done|lia|lia]. }
  apply (forced_loop_inv recover config limit (bc_max_code_witness_bytes config)) in Hf
    as (txs & n & Hrun & Hc1 & Hb1 & Hi1 & Hn & _); [|apply Hlim|done..].
  rewrite Hb0 in Hb1. cbn [app] in Hb1. pose proof (forced_run_bytes _ _ _ _ _ _ Hrun) as Hnb.
  simpl in Hn. assert (Hn' : cumulative_da_bytes_used mid = n) by lia. destruct (no_tx_pool attributes).
  - destruct Hp as [-> ->]. exists fs, b0, b1, txs, [], n. rewrite app_nil_r. split; [done|].
    split; [split; [done|constructor]|]. do 7 (split; [done|]). intros da Hcfg Hmax. specialize (Hda da Hcfg). simpl. lia.
  - eapply (pool_loop_inv keccak256 effective_tip_per_gas is_cancelled elapsed) in Hp
      as (pool & Hpool' & Hcr & Hc2 & Hb2 & Hi2 & Hda2); [|apply Hlim|exact Hpool|exact Hi1|exact Hc1].
    exists fs, b0, b1, txs, pool, n. rewrite Hb1 in Hb2. do 9 (split; [done|]).
    intros da Hcfg Hmax. specialize (Hda da Hcfg). rewrite <- Hn'.
    apply (Hda2 da Hcfg Hmax). lia.
Qed.

(** C5: A filled candidate keeps every budget. The gas the builder counted is the
    executor's, at most the block's gas limit, which is the one chosen for the
    block; there is one receipt per transaction, of its type; the distinct code
    accepted into the block fits the code budget and no transaction was
    committed past it; and under a DA limit the bytes counted are those of the
    transactions and within it. *)
Theorem payload_within_limits (info : ExecutionInfo) (b : Builder) :
  fill_assumptions -> filled info b ->
  gas_used b.1 = cumulative_gas_used info
  /\ 0 <= cumulative_gas_used info <= limit
  /\ block_gas_limit (evm_block (evm b.1)) = limit
  /\ map (fun r => ScrollTxType.to_u8 (NodeReceipt.tx_type r)) (receipts b.1)
     = map (fun tx => tx_ty tx.1) b.2
  /\ 0 <= CodeWitness.block_code_bytes (meter_of b.1) <= bc_max_code_witness_bytes config
  /\ CodeWitness.exceeded (meter_of b.1) = None
  /\ forall da, bc_max_da_block_size config = Some da -> da < u64_max ->
     cumulative_da_bytes_used info <= da
     /\ exists forced_bytes pool, cumulative_da_bytes_used info = forced_bytes + pool_bytes pool
        /\ 0 <= forced_bytes <= total_bytes (default [] (spa_transactions attributes))
        /\ exists forced, b.2 = forced ++ pool.
Proof.
  intros Ha Hf. destruct (filled_parts info b Ha Hf)
    as (fs & b0 & b1 & forced & pool & n & Hd & _ & _ & Hrun & Hb & _ & _ & [I1 I2 I3 I4 I5] & Hclean & Hda).
  split; [done|]. split; [done|]. split; [done|]. split; [done|].
  split; [by eapply meter_ok_bound|]. split; [done|].
  intros da Hcfg Hmax. destruct (Hda da Hcfg Hmax) as [Hn Hle]. split; [done|].
  exists n, pool. split; [done|]. split; [|by exists forced].
  destruct (decode_forced_Ok _ _ _ _ Hd) as [<- _]. rewrite <- forced_bytes_total.
  by eapply forced_run_bytes.
Qed.

(** C6: Forced transactions come first, in the order of the attributes, decoded from
    exactly the bytes given and with their recovered signer. None is dropped
    for want of gas, bytes or code: the only ones left out of a filled
    candidate are those the EVM found invalid. What follows comes from the
    pool, is neither a blob transaction nor an L1 message, and is absent when
    the attributes rule the pool out. *)
Theorem forced_transactions_kept (info : ExecutionInfo) (b : Builder) :
  fill_assumptions -> filled info b ->
  exists fs (b0 b1 : Builder) forced pool n,
    map encoded_bytes fs = default [] (spa_transactions attributes)
    /\ Forall (fun f => decode_2718 (TxEnvelope.typed_decode keccak256) TxEnvelope.fallback_decode
                          (encoded_bytes f) = Ok (we_value f, [])) fs
    /\ b0.2 = [] /\ forced_run recover b0 fs b1 forced n
    /\ b.2 = forced ++ pool
    /\ Forall pool_tx pool
    /\ (no_tx_pool attributes = true -> pool = []).
Proof.
  intros Ha Hf. destruct (filled_parts info b Ha Hf)
    as (fs & b0 & b1 & forced & pool & n & Hd & _ & Hb0 & Hrun & Hb & Hp & Hnp & _).
  destruct (decode_forced_Ok _ _ _ _ Hd). by exists fs, b0, b1, forced, pool, n.
Qed.

End Filled.

(** ** Witnesses *)

#[export] Instance ref_constants : ChainConstants := { MIN_TRANSACTION_GAS := 21000 }.

#[export] Instance ref_invalid_errors : InvalidTxErrors unit := {
  is_invalid_tx_err _ := true;
  is_nonce_too_low_err _ := false;
}.

#[export] Instance ref_block_builder : BlockBuilderLib := {
  execute_transaction_with_commit_condition X F Out T run commit condition tx b :=
    match run b.1 with
    | (Err e, x) => (Err e, (x, b.2))
    | (Ok out, x) =>
        if condition x then
          match commit out x with
          | (Ok gas, x) => (Ok (Some gas), (x, b.2 ++ [tx]))
          | (Err e, x) => (Err e, (x, b.2))
          end
        else (Ok None, (x, b.2))
    end;
}.

#[export] Instance ref_block_builder_laws : BlockBuilderLaws.
Proof. by split. Qed.

(** A pool of copies of two transactions, told apart by a flag. *)
#[export] Instance ref_pool : BestTransactions (list bool) := {
  PoolTx := bool;
  to_consensus legacy := (if legacy then sample_legacy else sample_envelope, 7);
  next p := match p with [] => (None, []) | tx :: p => (Some tx, p) end;
  mark_invalid p _ _ := p;
}.

Definition sample_build_attributes (forced : list bytes) (no_pool : bool) : ScrollPayloadAttributes Z :=
  {| payload_attributes := payload_attributes (sample_request [] None);
     spa_transactions := Some forced; no_tx_pool := no_pool;
     block_data_hint := block_data_hint (sample_request [] None); spa_gas_limit := Some 210000 |}.

Definition sample_forced : list bytes :=
  [TxEnvelope.encode_2718 sample_l1_envelope; TxEnvelope.encode_2718 sample_envelope].

Definition sample_config : ScrollBuilderConfig := new_config None 1000 (Some 1000).

Definition sample_error (e : Eip2718Error) : RlpError :=
  match e with RlpErr e => e | UnexpectedType _ => RlpCustom "unexpected type" end.

Definition sample_recover (_ : bool) (_ : B256) : result Address unit := Ok 7.
Definition sample_attributes_210k : ScrollPayloadAttributes Z :=
  sample_build_attributes sample_forced false.

Lemma filled_run {F X} (r : result (option FillEnd) F * X) :
  match r.1 with Ok (Some (Filled _)) => true | _ => false end = true ->
  exists info, r = (Ok (Some (Filled info)), r.2).
Proof. destruct r as [[[[| |info]|]|] x]; try done. intros _. by exists info. Qed.

Lemma sample_assumptions :
  fill_assumptions (P := list bool) sample_hash
    sample_config sample_attributes_210k sample_parent_header.
Proof.
  split; [vm_compute; split; discriminate|vm_compute; split; done|by intros []|].
  vm_compute. discriminate.
Qed.

(** Two forced transactions and a pool of three. *)
Definition sample_filled (info : ExecutionInfo)
    (b : ScrollBlockExecutor DogeosChainHardforks L1BlockInfo MemDb * list (ScrollTxEnvelope * Address)) :
    Prop :=
  filled (E := unit) (Revm0 := ref_revm) show_unit show_unit sample_hash sample_error sample_recover
    (fun _ _ => Some 3) (fun _ => false) (fun _ => 5) (fun _ => [true; false; true])
    (fun _ _ => true) 4 (new_schedule []) fresh_db sample_config
    sample_attributes_210k sample_parent_header 777 1000000000 None None info b.

Lemma sample_filled_run : exists info b, sample_filled info b /\ length b.2 = 5%nat.
Proof.
  unfold sample_filled, filled.
  match goal with |- exists info b, ?t = _ /\ _ =>
    destruct (filled_run t) as [info Ei]; [vm_compute; reflexivity|];
    exists info, t.2; split; [exact Ei|vm_compute; reflexivity] end.
Qed.

Lemma payload_within_limits_witness :
  exists info b, sample_filled info b
    /\ cumulative_gas_used info <= 210000 /\ cumulative_da_bytes_used info <= 1000.
Proof.
  destruct sample_filled_run as (info & b & Hf & _). exists info, b. split; [exact Hf|].
  destruct (payload_within_limits _ _ _ _ _ _ _ _ _ _ _ _ _ _ _ _ _ _ _ _ info b
    sample_assumptions Hf) as (_ & [_ Hg] & _ & _ & _ & _ & Hda).
  split; [exact Hg|]. destruct (Hda 1000 eq_refl) as [Hle _]; [reflexivity|exact Hle].
Defined.

Lemma forced_transactions_kept_witness :
  exists info b forced pool, sample_filled info b /\ b.2 = forced ++ pool /\ length b.2 = 5%nat.
Proof.
  destruct sample_filled_run as (info & b & Hf & Hl).
  destruct (forced_transactions_kept _ _ _ _ _ _ _ _ _ _ _ _ _ _ _ _ _ _ _ _ info b
    sample_assumptions Hf) as (fs & b0 & b1 & forced & pool & n & _ & _ & _ & _ & Hb & _).
  exists info, b, forced, pool. split; [exact Hf|]. split; [exact Hb|exact Hl].
Defined.


(** A pool that yields the same transaction for ever, until it is marked. *)
#[local] Instance endless_pool : BestTransactions bool := {
  PoolTx := unit;
  to_consensus _ := (sample_envelope, 7);
  next p := (if p then Some tt else None, p);
  mark_invalid _ _ _ := false;
}.



Lemma next_block_gas_limit_spec_witness :
  next_block_gas_limit None (Some 30000000) 29999000 = 30000000
  /\ validate_gas_limit_against_parent (next_block_gas_limit None (Some 30000000) 10000000) 10000000
     = Ok tt.
Proof.
  split.
  - destruct (next_block_gas_limit_spec 30000000 29999000) as (_ & _ & _ & _ & H & _);
      [solve_ints..|]. apply H. vm_compute. discriminate.
  - destruct (next_block_gas_limit_spec 30000000 10000000) as (_ & _ & _ & _ & _ & H & _);
      [solve_ints..|]. apply H; vm_compute; discriminate.
Defined.
