(* ===== verification/PayloadEntry.v ===== *)
(** * Entry points of the payload builder (dogeos-reth-payload/src/builder.rs)

    The [PayloadBuilder] methods of [ScrollPayloadBuilder] over the build of
    Payload.v: a build on the pool, the behaviour when a payload is asked for
    before it is ready, and the payload without pool transactions. The client is
    what it returns for a block hash. *)

From stdpp Require Import prelude gmap list strings.
From Stdlib Require Import ZArith Lia.
From S2P Require Import Prelude.
From S2P Require Import Hardforks.
From S2P Require Import GenesisConfig.
From S2P Require Import ChainSpec.
From S2P Require Import Chain.
From S2P Require Import BaseFee.
From S2P Require Import Alloy.
From S2P Require Import AlloyRef.
From S2P Require Import TxType.
From S2P Require Import L1Message.
From S2P Require Import Envelope.
From S2P Require Import TxTheorems.
From S2P Require Import Consensus.
From S2P Require CodeWitness.
From S2P Require Import Transitions.
From S2P Require Import Receipt.
From S2P Require TxEnv.
From S2P Require Import Executor.
From S2P Require Import Build.
From S2P Require Import Engine.
From S2P Require Import Payload.

Import (hints) TxEnv.
Import TxEnvelope(ScrollTxEnvelope).

(** ** Arguments *)

(** A provider: the chain spec, and the state after a block. *)
Record Client (S DB Pr : Type) := {
  client_chain_spec : S;
  state_by_block_hash : B256 -> result DB Pr;
}.
Arguments client_chain_spec {S DB Pr} _.
Arguments state_by_block_hash {S DB Pr} _ _.

(** reth's [PayloadConfig]; the payload identifier only labels log lines. *)
Record PayloadConfig (W : Type) := {
  parent_header : Header;
  parent_block_hash : B256;
  attributes : ScrollPayloadAttributes W;
}.
Arguments parent_header {W} _.
Arguments parent_block_hash {W} _.
Arguments attributes {W} _.

(** reth's [BuildArguments], without the caches: the cancellation flag as each
    round reads it, the fees of the best payload so far, and the answer of the
    sparse-trie task when there is one. *)
Record BuildArguments (W StateRoot : Type) := {
  trie_handle : option (result StateRoot unit);
  args_config : PayloadConfig W;
  cancel : nat -> bool;
  best_payload : option U256;
}.
Arguments trie_handle {W StateRoot} _.
Arguments args_config {W StateRoot} _.
Arguments cancel {W StateRoot} _ _.
Arguments best_payload {W StateRoot} _.

Inductive MissingPayloadBehaviour : Type := AwaitInProgress | RaceEmptyPayload.

Inductive EntryFailure (Pr E Err : Type) : Type :=
| StateUnavailable (e : Pr)
| BuildError (e : BuildFailure E Err)
| MissingPayload.
Arguments StateUnavailable {Pr E Err} e.
Arguments BuildError {Pr E Err} e.
Arguments MissingPayload {Pr E Err}.

(** [std::iter::empty] as a pool iterator. *)
#[export] Instance empty_iterator `{EthTxs} : BestTransactions unit := {
  PoolTx := Empty_set;
  to_consensus tx := match tx with end;
  next p := (None, p);
  mark_invalid p _ _ := p;
}.

(** ** [impl PayloadBuilder for ScrollPayloadBuilder] *)

Section Entry.
Context `{AlloyForks} `{TxEnv.EvmTypes} `{Rlp} `{!TxEnv.Zstd} `{!Eip2718} `{ReceiptTypes}
  `{RevmAccounts} `{SystemAddresses} {S : Type} `{DogeosHardforks S} `{ChainConfig S}
  {DB E : Type} `{Database DB E} `{!Revm DB} `{!InvalidTxErrors EVMError} `{!BlockBuilderLib}
  `{!ChainConstants} `{!AlloyEips} `{!EthChainSpec S} `{!ChainId S} `{!RethConsensus}
  `{!ScrollContext DB}.
Context (show show_debug : E -> string) (keccak256 : bytes -> B256)
  (rlp_error_from : Eip2718Error -> RlpError) {SigError : Type}
  (recover : Signature -> B256 -> result Address SigError)
  (effective_tip_per_gas : ScrollTxEnvelope -> Z -> option Z) (elapsed : nat -> Z)
  (is_better_payload : option U256 -> U256 -> bool).
Context {Pr Block StateRoot : Type}.

Abbreviation Builder := (ScrollBlockExecutor S L1BlockInfo DB * list (ScrollTxEnvelope * Address))%type.
(** Reth's [BlockBuilder::finish] on the state of the parent. *)
Context (builder_finish : option StateRoot -> sresult Builder unit Block).

(** The pool is the iterator it answers with for a base fee. *)
Record ScrollPayloadBuilder (P : Type) := {
  client : Client S DB Pr;
  pool_best_transactions : Z -> P;
  builder_config : ScrollBuilderConfig;
}.
Arguments client {P} _.
Arguments pool_best_transactions {P} _ _.
Arguments builder_config {P} _.

(** [build_payload] from the arguments; [None] when the fuel ran out. *)
Definition build_with {W P} `{!BestTransactions P} (fuel : nat) (c : Client S DB Pr)
    (config : ScrollBuilderConfig) (args : BuildArguments W StateRoot) (best_txs : Z -> P) :
    result (option (BuildOutcome (Block := Block))) (EntryFailure Pr E EVMError) * option Builder :=
  let cfg := args_config args in
  match state_by_block_hash c (parent_block_hash cfg) with
  | Err e => (Err (StateUnavailable e), None)
  | Ok db =>
      let '(r, b) :=
        build_payload show show_debug keccak256 rlp_error_from recover effective_tip_per_gas
          (cancel args) elapsed best_txs is_better_payload builder_finish (trie_handle args) fuel
          (client_chain_spec c) db config (attributes cfg) (parent_header cfg) (parent_block_hash cfg)
          (best_payload args) in
      (map_err BuildError r, b)
  end.

Definition try_build {W P} `{!BestTransactions P} (fuel : nat) (self : ScrollPayloadBuilder P)
    (args : BuildArguments W StateRoot) :=
  build_with fuel (client self) (builder_config self) args (pool_best_transactions self).

Definition on_missing_payload {W P} (self : ScrollPayloadBuilder P) (_ : BuildArguments W StateRoot) :
    MissingPayloadBehaviour := AwaitInProgress.

(** [BuildOutcome::into_payload]. *)
Definition into_payload (o : BuildOutcome (Block := Block)) : option (Block * U256) :=
  match o with
  | Freeze block fees | Better block fees => Some (block, fees)
  | Cancelled | Aborted _ => None
  end.

(** [BuildArguments::new] with the defaults the method passes. *)
Definition empty_arguments {W} (config : PayloadConfig W) : BuildArguments W StateRoot :=
  {| trie_handle := None; args_config := config; cancel := fun _ => false; best_payload := None |}.

(** One unit of fuel: the iterator is empty. *)
Definition build_empty_payload {W P} (self : ScrollPayloadBuilder P) (config : PayloadConfig W) :
    result (option (Block * U256)) (EntryFailure Pr E EVMError) * option Builder :=
  let '(r, b) := build_with 1 (client self) (builder_config self) (empty_arguments config) (fun _ => tt) in
  (let? o := r in
   match o with
   | Some o => rmap Some (ok_or (into_payload o) MissingPayload)
   | None => Ok None
   end, b).
End Entry.
Arguments client {_ _ _ _} _.
Arguments pool_best_transactions {_ _ _ _} _ _.
Arguments builder_config {_ _ _ _} _.

(** ** Lemmas *)

(** The attributes with the pool ruled out. *)
Definition without_pool {W} (a : ScrollPayloadAttributes W) : ScrollPayloadAttributes W :=
  {| payload_attributes := payload_attributes a; spa_transactions := spa_transactions a;
     no_tx_pool := true; block_data_hint := block_data_hint a; spa_gas_limit := spa_gas_limit a |}.

Lemma sbind_ext {X F A B} (m : sresult X F A) (f g : A -> sresult X F B) s :
  (forall a s', f a s' = g a s') -> (m ≫= f) s = (m ≫= g) s.
Proof. intros Hfg. unfold mbind, sresult_bind. destruct (m s) as [[a|e] s']; [apply Hfg|done]. Qed.

Section EntryLemmas.
Context `{AlloyForks} `{TxEnv.EvmTypes} `{Rlp} `{!TxEnv.Zstd} `{!Eip2718} `{ReceiptTypes}
  `{RevmAccounts} `{SystemAddresses} {S : Type} `{DogeosHardforks S} `{ChainConfig S}
  {DB E : Type} `{Database DB E} `{!Revm DB} `{!InvalidTxErrors EVMError} `{!BlockBuilderLib}
  `{!ChainConstants} `{!AlloyEips} `{!EthChainSpec S} `{!ChainId S} `{!RethConsensus}
  `{!ScrollContext DB}.
Context (show show_debug : E -> string) (keccak256 : bytes -> B256)
  (rlp_error_from : Eip2718Error -> RlpError) {SigError : Type}
  (recover : Signature -> B256 -> result Address SigError)
  (effective_tip_per_gas : ScrollTxEnvelope -> Z -> option Z) (elapsed : nat -> Z)
  (is_better_payload : option U256 -> U256 -> bool).
Context {Pr Block StateRoot : Type}.
Abbreviation Builder := (ScrollBlockExecutor S L1BlockInfo DB * list (ScrollTxEnvelope * Address))%type.
Context (builder_finish : option StateRoot -> sresult Builder unit Block).


(** Filling from an empty iterator is filling without a pool. *)
Lemma fill_empty {W P} `{!BestTransactions P} fuel config (a : ScrollPayloadAttributes W)
    cancel (best_txs : Z -> P) best b :
  (forall fees, is_better_payload None fees = true) ->
  fill show show_debug keccak256 rlp_error_from recover effective_tip_per_gas (E := E)
    (fun _ => false) elapsed (fun _ => tt) is_better_payload 1 config a None b
  = fill show show_debug keccak256 rlp_error_from recover effective_tip_per_gas (E := E)
    cancel elapsed best_txs is_better_payload fuel config (without_pool a) best b.
Proof.
  intros Hbetter. unfold fill. do 3 (apply sbind_ext; intros [] ?). unfold with_builder.
  change (decode_forced_transactions keccak256 rlp_error_from (without_pool a))
    with (decode_forced_transactions keccak256 rlp_error_from a).
  destruct (decode_forced_transactions _ _ a) as [forced|e]; [|done].
  apply sbind_ext. intros [] ?. apply sbind_ext. intros [info gases] ?. simpl.
  destruct (no_tx_pool a); [done|]. unfold mbind, sresult_bind, mret, sresult_ret. simpl.
  by rewrite Hbetter.
Qed.

(** Without a pool a fill that succeeds is neither cancelled nor abandoned. *)
Lemma fill_without_pool {W P} `{!BestTransactions P} fuel config (a : ScrollPayloadAttributes W)
    cancel (best_txs : Z -> P) best b e b' :
  fill show show_debug keccak256 rlp_error_from recover effective_tip_per_gas (E := E)
    cancel elapsed best_txs is_better_payload fuel config (without_pool a) best b = (Ok e, b') ->
  exists info, e = Some (Filled info).
Proof.
  unfold fill. intros Hf. do 3 apply sbind_Ok in Hf as (? & ? & _ & Hf). unfold with_builder in Hf.
  destruct (decode_forced_transactions _ _ _); [|done].
  do 2 apply sbind_Ok in Hf as (? & ? & _ & Hf). apply sret_Ok in Hf as [<- _]. by eexists.
Qed.

(** A finished candidate, with and without a pool. *)
Lemma finish_without_pool {W} config (a : ScrollPayloadAttributes W) info b :
  let finish a := finish_candidate (E := E) (DB := DB) (S := S) builder_finish None config a info b in
  (exists e b', finish a = (Err e, b') /\ finish (without_pool a) = (Err e, b'))
  \/ exists block b', finish (without_pool a) = (Ok (Freeze block (total_fees info)), b')
     /\ finish a = (Ok (if no_tx_pool a then Freeze block (total_fees info)
                       else Better block (total_fees info)), b').
Proof.
  simpl. unfold finish_candidate, mbind, sresult_bind. simpl.
  destruct (observe _ _) as [[[block|[]]|e] b1]; simpl; try by left; do 2 eexists.
  destruct (accept_system_code_budget _ b1) as [[[]|e] b2]; [|by left; do 2 eexists].
  right. by exists block, b2.
Qed.
Lemma candidate_without_pool {W P} `{!BestTransactions P} fuel config
    (a : ScrollPayloadAttributes W) cancel (best_txs : Z -> P) best b :
  (forall fees, is_better_payload None fees = true) ->
  let empty := build_candidate show show_debug keccak256 rlp_error_from recover effective_tip_per_gas
    (E := E) (fun _ => false) elapsed (fun _ => tt) is_better_payload builder_finish None 1 config a None b in
  let forced := build_candidate show show_debug keccak256 rlp_error_from recover effective_tip_per_gas
    (E := E) cancel elapsed best_txs is_better_payload builder_finish None fuel config (without_pool a) best b in
  (exists e b', empty = (Err e, b') /\ forced = (Err e, b'))
  \/ exists o block fees b', empty = (Ok (Some o), b') /\ forced = (Ok (Some (Freeze block fees)), b')
     /\ into_payload o = Some (block, fees).
Proof.
  intros Hbetter. simpl. unfold build_candidate.
  pose proof (fill_empty fuel config a cancel best_txs best b Hbetter) as Hfill.
  pose proof (fill_without_pool fuel config a cancel best_txs best b) as Hfilled.
  unfold mbind, sresult_bind. rewrite Hfill.
  destruct (fill _ _ _ _ _ _ cancel _ _ _ _ _ _ _ b) as [[e|e] b1]; [|by left; do 2 eexists].
  destruct (Hfilled e b1 eq_refl) as [info ->].
  destruct (finish_without_pool config a info b1) as [(e & b2 & E1 & E2)|(block & b2 & E1 & E2)];
    unfold sresult_bind in E1, E2 |- *; rewrite E1, E2; [by left; do 2 eexists|right].
  do 4 eexists. split; [reflexivity|]. split; [reflexivity|]. by destruct (no_tx_pool a).
Qed.

(** C26: The payload that is built when nothing else is ready is the one a build with
    the same attributes but no pool freezes: the same block, fees and state of
    the builder, whatever the pool holds, whether or not that build was
    cancelled, and whatever was built before. It fails exactly when that build fails,
    with its error; it never reports a missing payload and never runs out of
    fuel. *)
Theorem empty_payload_is_forced_payload {W P} `{!BestTransactions P} (fuel : nat)
    (self : ScrollPayloadBuilder (S := S) (DB := DB) (Pr := Pr) P) (config : PayloadConfig W)
    (cancel : nat -> bool) (best : option U256) (best_txs : Z -> P) :
  (forall fees, is_better_payload None fees = true) ->
  let args := {| trie_handle := None; cancel := cancel; best_payload := best;
                 args_config := {| parent_header := parent_header config;
                                   parent_block_hash := parent_block_hash config;
                                   attributes := without_pool (attributes config) |} |} in
  let empty := build_empty_payload show show_debug keccak256 rlp_error_from recover
    effective_tip_per_gas elapsed is_better_payload builder_finish self config in
  let forced := build_with show show_debug keccak256 rlp_error_from recover effective_tip_per_gas
    elapsed is_better_payload builder_finish fuel (client self) (builder_config self) args best_txs in
  (exists e b, empty = (Err e, b) /\ forced = (Err e, b) /\ e <> MissingPayload)
  \/ exists block fees b,
       empty = (Ok (Some (block, fees)), b) /\ forced = (Ok (Some (Freeze block fees)), b).
Proof.
  intros Hbetter. simpl. unfold build_empty_payload, build_with. simpl.
  destruct (state_by_block_hash (client self) (parent_block_hash config)) as [db|e];
    [|left; do 2 eexists; by repeat split].
  unfold build_payload. change (attributes_timestamp (without_pool ?a)) with (attributes_timestamp a).
  destruct (next_block_base_fee _ db _ _) as [[[base_fee|e] db1]|msg]; simpl;
    try (left; do 2 eexists; by repeat split).
  change (start_builder ?s ?d ?c (without_pool ?a) ?p ?h ?f) with (start_builder s d c a p h f).
  destruct (candidate_without_pool fuel (builder_config self) (attributes config) cancel best_txs best
    (start_builder (client_chain_spec (client self)) db1 (builder_config self) (attributes config)
       (parent_header config) (parent_block_hash config) base_fee) Hbetter)
    as [(e & b & -> & ->)|(o & block & fees & b & -> & -> & Ho)]; simpl.
  - left. do 2 eexists. by repeat split.
  - right. exists block, fees, (Some b). by rewrite Ho.
Qed.
End EntryLemmas.

(** ** Witness *)

Abbreviation SampleBuilder :=
  (ScrollBlockExecutor DogeosChainHardforks L1BlockInfo MemDb * list (ScrollTxEnvelope * Address))%type.

Definition sample_entry : ScrollPayloadBuilder (S := DogeosChainHardforks) (DB := MemDb) (Pr := unit) (list bool) :=
  {| client := {| client_chain_spec := new_schedule [];
                  state_by_block_hash h := if h =? 777 then Ok fresh_db else Err tt |};
     pool_best_transactions _ := [true; false; true]; builder_config := sample_config |}.

Definition sample_payload_config : PayloadConfig Z :=
  {| parent_header := sample_parent_header; parent_block_hash := 777; attributes := sample_attributes_210k |}.

(** The block is the number of its transactions. *)
Definition sample_finish (_ : option unit) : sresult SampleBuilder unit nat := fun b => (Ok (length b.2), b).

Definition sample_empty :=
  build_empty_payload (Revm0 := ref_revm) show_unit show_unit sample_hash sample_error sample_recover
    (fun _ _ => Some 3) (fun _ => 5) (fun _ _ => true) sample_finish sample_entry sample_payload_config.

(** The block of a run that built one. *)
Definition built {F X N} (x : result (option (N * U256)) F * X) : option N :=
  match x.1 with Ok (Some p) => Some p.1 | _ => None end.

Lemma built_Ok {F X N} (x : result (option (N * U256)) F * X) n block fees b :
  built x = Some n -> x = (Ok (Some (block, fees)), b) -> block = n.
Proof. intros Hx ->. by injection Hx. Qed.

Lemma built_not_Err {F X N} (x : result (option (N * U256)) F * X) n e b :
  built x = Some n -> x <> (Err e, b).
Proof. by intros Hx ->. Qed.

Lemma sample_empty_run : built sample_empty = Some 2%nat.
Proof. vm_compute. reflexivity. Qed.

(** Two forced transactions are kept, the three of the pool are not looked at. *)
Lemma empty_payload_is_forced_payload_witness :
  exists fees b, sample_empty = (Ok (Some (2%nat, fees)), b).
Proof.
  destruct (empty_payload_is_forced_payload (Revm0 := ref_revm) show_unit show_unit sample_hash sample_error
    sample_recover (fun _ _ => Some 3) (fun _ => 5) (fun _ _ => true) sample_finish 4 sample_entry
    sample_payload_config (fun _ => true) (Some 9) (fun _ => [true; false; true]) (fun _ => eq_refl))
    as [(e & b & He & _ & _)|(block & fees & b & He & _)].
  - destruct (built_not_Err sample_empty _ e b sample_empty_run He).
  - exists fees, b. rewrite <- (built_Ok sample_empty _ block fees b sample_empty_run He). exact He.
Defined.
