(* ===== verification/Replay.v ===== *)
(** * Building and importing (dogeos-reth-evm, dogeos-reth-payload, dogeos-reth-consensus)

    The node that imports a block executes what the node that built it
    committed. The two run the same executor from states with the same contents,
    but not the same run: the builder meters code with an inspector, keeps
    running after transactions it leaves out, and its caches differ. This file
    relates the two runs step by step, up to the contents of the database, and
    composes the builder (Payload.v), the assembler (Build.v), the executor
    (Executor.v) and the post-execution check (Consensus.v). *)

From stdpp Require Import prelude gmap list strings.
From Stdlib Require Import ZArith Lia.
From S2P Require Import Prelude.
From S2P Require Import Hardforks.
From S2P Require Import GenesisConfig.
From S2P Require Import ChainSpec.
From S2P Require Import Chain.
From S2P Require Import BaseFee.
From S2P Require Import Alloy.
From S2P Require Import AlloyRef.
From S2P Require Import TxType.
From S2P Require Import L1Message.
From S2P Require Import Envelope.
From S2P Require Import TxTheorems.
From S2P Require Import Consensus.
From S2P Require CodeWitness.
From S2P Require Import Transitions.
From S2P Require Import Receipt.
From S2P Require TxEnv.
From S2P Require Import Executor.
From S2P Require Import Build.
From S2P Require Import Engine.
From S2P Require Import Payload.

Import (hints) TxEnv.
Import NodeReceipt(ScrollReceipt).
Import TxEnvelope(ScrollTxEnvelope).

(** ** Databases with the same contents *)

#[export] Instance same_contents_equivalence {DB} `{DatabaseView DB} : Equivalence same_contents.
Proof.
  split.
  - by split.
  - by intros a b [Hi Hs]; split; intros; [rewrite Hi|rewrite Hs].
  - intros a b c [Hi Hs] [Hi' Hs']. split; intros; congruence.
Qed.

Create HintDb contents.

Section Reads.
Context `{RevmAccounts} {DB E : Type} `{Database DB E} `{DatabaseView DB} `{!DatabaseLaws DB E}.

#[export] Instance commit_proper : Proper (same_contents ==> (=) ==> same_contents) (commit (DB := DB)).
Proof.
  intros d1 d2 [Hi Hs] m ? <-. split.
  - intros a. rewrite !commit_info. by destruct (m !! a).
  - intros a k. rewrite !commit_slot. destruct (m !! a) as [acc|]; [|done].
    by destruct (account_storage acc !! k).
Qed.

(** A computation that depends on the contents only: on two databases with the
    same contents it gives the same answer, unless a read of the second fails. *)
Definition contents_only {A} (m : sresult DB E A) : Prop :=
  forall d1 d2 a d1', same_contents d1 d2 -> m d1 = (Ok a, d1') ->
  match m d2 with
  | (Ok a', d2') => a' = a /\ same_contents d1' d2'
  | (Err _, _) => True
  end.

Lemma contents_ret {A} (a : A) : contents_only (mret a).
Proof. intros d1 d2 b d1' Hd [= <- <-]. by split. Qed.

Lemma contents_bind {A B} (m : sresult DB E A) (f : A -> sresult DB E B) :
  contents_only m -> (forall a, contents_only (f a)) -> contents_only (m ≫= f).
Proof.
  intros Hm Hf d1 d2 b d1' Hd (a & e1 & E1 & E2)%sbind_Ok. specialize (Hm d1 d2 a e1 Hd E1).
  unfold mbind, sresult_bind. destruct (m d2) as [[a'|?] e2]; [|done]. destruct Hm as [-> He].
  by apply (Hf a e1 e2 b d1').
Qed.

Lemma contents_storage a k : contents_only (read_storage a k).
Proof.
  intros d1 d2 v d1' Hd E1. apply read_storage_Ok in E1 as [-> Hs1].
  destruct (read_storage a k d2) as [[v|?] d2'] eqn:E2; [|done].
  apply read_storage_Ok in E2 as [-> Hs2]. split; [apply Hd|]. by rewrite <- Hs1, <- Hs2.
Qed.

Lemma contents_basic a : contents_only (read_basic a).
Proof.
  intros d1 d2 v d1' Hd E1. apply read_basic_Ok in E1 as [-> Hs1].
  destruct (read_basic a d2) as [[v|?] d2'] eqn:E2; [|done].
  apply read_basic_Ok in E2 as [-> Hs2]. split; [apply Hd|]. by rewrite <- Hs1, <- Hs2.
Qed.

Lemma contents_write st : contents_only (write (E := E) st).
Proof. intros d1 d2 u d1' Hd [= <- <-]. split; [done|]. by rewrite Hd. Qed.

#[local] Hint Resolve contents_ret contents_storage contents_basic contents_write : contents.
Ltac contents :=
  repeat first
    [ apply contents_bind; [|intros ?]
    | match goal with |- contents_only (if ?b then _ else _) => destruct b end
    | solve [auto with contents] ].

Lemma contents_originals a entries slots : contents_only (read_originals a entries slots).
Proof. revert slots. induction entries as [|[k v] l IH]; intros slots; simpl; contents; apply IH. Qed.
#[local] Hint Resolve contents_originals : contents.

Lemma contents_update a old new entries : contents_only (commit_account_update a old new entries).
Proof. unfold commit_account_update. contents. Qed.
#[local] Hint Resolve contents_update : contents.

Lemma contents_transitions :
  contents_only apply_feynman_hard_fork /\ contents_only apply_galileo_v2_hard_fork
  /\ contents_only apply_tsuki_hard_fork.
Proof.
  unfold apply_feynman_hard_fork, apply_galileo_v2_hard_fork, apply_tsuki_hard_fork.
  repeat split; contents.
Qed.

Lemma contents_overhead {S} `{ChainConfig S} (s : S) : contents_only (base_fee_overhead s).
Proof.
  set (a := l2_system_config_address (l1_config (chain_config s))).
  intros d1 d2 v d1' Hd. unfold base_fee_overhead. fold a.
  pose proof (contents_storage a L2_BASE_FEE_OVERHEAD_SLOT d1 d2) as Hc. unfold read_storage in Hc.
  destruct (storage d1 a _) as [[x|] e1]; intros [= <- <-]. specialize (Hc x e1 Hd eq_refl).
  destruct (storage d2 a _) as [[x'|] e2]; [|done]. by destruct Hc as [-> Hc].
Qed.
End Reads.

(** ** EVMs that run the same *)

(** Two EVMs with the same environment over databases with the same contents;
    their inspectors and what a transaction leaves behind may differ. *)
Record evm_sim `{TxEnv.EvmTypes} {L1 DB} `{DatabaseView DB} (a b : ScrollEvm L1 DB) : Prop := {
  es_block : evm_block b = evm_block a;
  es_spec : evm_spec b = evm_spec a;
  es_chain : evm_chain_id b = evm_chain_id a;
  es_base : disable_base_fee b = disable_base_fee a;
  es_nonce : disable_nonce_check b = disable_nonce_check a;
  es_contents : same_contents (evm_db a) (evm_db b);
}.

(** No limit of the code meter was hit. *)
Definition unstopped `{TxEnv.EvmTypes} {L1 DB} (v : ScrollEvm L1 DB) : Prop :=
  CodeWitness.exceeded (CodeWitness.meter (evm_inspector v)) = None.

(** Which EVM errors are a failed read of the database. *)
Class ReadErrors (Err : Type) := { failed_db_read : Err -> bool }.

(** What the documentation of revm says of running code: nothing is committed;
    and the outcome depends on the environment, the transaction and the contents
    of the database, not on an inspector that never stopped the run. A run on
    another database may fail instead, because a read of it fails. The L1 block
    information is read afresh for each transaction that pays an L1 fee. *)
Class ReplayLaws `{TxEnv.EvmTypes} `{ReceiptTypes} (DB : Type) `{!Revm DB} `{DatabaseView DB}
    `{!ReadErrors EVMError} : Prop := {
  transact_contents v tx r v' :
    revm_transact v tx = (r, v') -> same_contents (evm_db v) (evm_db v');
  inspect_contents v tx r v' :
    revm_inspect_tx v tx = (r, v') -> same_contents (evm_db v) (evm_db v');
  system_contents v caller contract data r v' :
    system_call_with_caller v caller contract data = (r, v') -> same_contents (evm_db v) (evm_db v');
  inspect_system_contents v r v' :
    inspect_run_system_call v = (r, v') -> same_contents (evm_db v) (evm_db v');
  finalize_contents v st v' : finalize v = (st, v') -> same_contents (evm_db v) (evm_db v');
  transact_agrees a b tx r a' :
    evm_sim a b -> revm_transact a tx = (Ok r, a') ->
    match revm_transact b tx with
    | (Ok r', b') =>
        r' = r /\ (is_Some (TxEnv.rlp_bytes tx) -> l1_block_info b' = l1_block_info a')
    | (Err e, _) => failed_db_read e = true
    end;
  inspect_agrees a b tx r a' :
    evm_sim a b -> revm_inspect_tx a tx = (Ok r, a') -> unstopped a' ->
    match revm_transact b tx with
    | (Ok r', b') =>
        r' = r /\ (is_Some (TxEnv.rlp_bytes tx) -> l1_block_info b' = l1_block_info a')
    | (Err e, _) => failed_db_read e = true
    end;
  system_agrees a b caller contract data r a' :
    evm_sim a b -> system_call_with_caller a caller contract data = (Ok r, a') ->
    match system_call_with_caller b caller contract data with
    | (Ok r', _) => r' = r
    | (Err e, _) => failed_db_read e = true
    end;
  inspect_system_agrees a b caller contract data r st a1 a2 :
    evm_sim a b ->
    inspect_run_system_call (with_tx a (new_system_tx_with_caller caller contract data)) = (Ok r, a1) ->
    finalize a1 = (st, a2) -> unstopped a2 ->
    match system_call_with_caller b caller contract data with
    | (Ok r', _) => r' = {| result_of := r; state_of := st |}
    | (Err e, _) => failed_db_read e = true
    end;
}.

Section Evm.
Context `{TxEnv.EvmTypes} `{ReceiptTypes} {DB : Type} `{!Revm DB} `{DatabaseView DB}
  `{!ReadErrors EVMError} `{!RevmLaws DB} `{!ReplayLaws DB}.

Lemma transact_raw_contents v tx r v' :
  transact_raw v tx = (r, v') -> same_contents (evm_db v) (evm_db v').
Proof. unfold transact_raw. destruct (inspect v); [apply inspect_contents|apply transact_contents]. Qed.

Lemma transact_system_contents v caller contract data r v' :
  transact_system_call v caller contract data = (r, v') -> same_contents (evm_db v) (evm_db v').
Proof.
  unfold transact_system_call. destruct (inspect v); [|apply system_contents].
  destruct (inspect_run_system_call _) as [[x|x] e] eqn:E1; apply inspect_system_contents in E1;
    simpl in E1; [|by intros [= _ <-]].
  destruct (finalize e) as [st e'] eqn:E2. apply finalize_contents in E2. intros [= _ <-].
  by rewrite E1.
Qed.

(** The relation after a run on each side. *)
Lemma sim_after a b a' b' :
  evm_sim a b -> same_env a a' -> same_env b b' -> same_contents (evm_db a) (evm_db a') ->
  same_contents (evm_db b) (evm_db b') -> evm_sim a' b'.
Proof.
  intros [] (?&?&?&?&?&_) (?&?&?&?&?&_) Ha Hb. split; try congruence. by rewrite <- Ha, <- Hb.
Qed.

Lemma transact_raw_agrees a b tx r a' :
  evm_sim a b -> inspect b = false -> transact_raw a tx = (Ok r, a') -> unstopped a' ->
  match transact_raw b tx with
  | (Ok r', b') =>
      r' = r /\ evm_sim a' b' /\ inspect b' = false
      /\ (is_Some (TxEnv.rlp_bytes tx) -> l1_block_info b' = l1_block_info a')
  | (Err e, _) => failed_db_read e = true
  end.
Proof.
  intros Hs Hb Ha Hu. pose proof (transact_raw_env _ _ _ _ Ha) as Hea.
  pose proof (transact_raw_contents _ _ _ _ Ha) as Hca.
  destruct (transact_raw b tx) as [rb b'] eqn:Eb. pose proof (transact_raw_env _ _ _ _ Eb) as Heb.
  pose proof (transact_raw_contents _ _ _ _ Eb) as Hcb.
  assert (Hout : match rb with
                 | Ok r' => r' = r /\ (is_Some (TxEnv.rlp_bytes tx) -> l1_block_info b' = l1_block_info a')
                 | Err e => failed_db_read e = true
                 end).
  { unfold transact_raw in Ha, Eb. rewrite Hb in Eb. destruct (inspect a).
    - pose proof (inspect_agrees _ _ _ _ _ Hs Ha Hu) as Hg. rewrite Eb in Hg. by destruct rb.
    - pose proof (transact_agrees _ _ _ _ _ Hs Ha) as Hg. rewrite Eb in Hg. by destruct rb. }
  destruct rb; [|done]. destruct Hout as [-> Hl1]. split; [done|]. split; [by eapply sim_after|].
  split; [|done]. by destruct Heb as (_ & _ & _ & _ & _ & -> & _).
Qed.

Lemma transact_system_same_env v caller contract data r v' :
  transact_system_call v caller contract data = (r, v') -> same_env v v'.
Proof.
  unfold transact_system_call. destruct (inspect v) eqn:Ei; [|apply system_call_env].
  destruct (inspect_run_system_call _) as [[x|x] e] eqn:E1; apply inspect_system_env in E1;
    [|by intros [= _ <-]].
  destruct (finalize e) as [st e'] eqn:E2. apply finalize_env in E2. intros [= _ <-].
  destruct E1 as (?&?&?&?&?&?&?), E2 as (?&?&?&?&?&?&?). unfold same_env; simpl in *.
  repeat split; try congruence. by etransitivity.
Qed.

Lemma transact_system_agrees a b caller contract data r a' :
  evm_sim a b -> inspect b = false -> transact_system_call a caller contract data = (Ok r, a') ->
  unstopped a' ->
  match transact_system_call b caller contract data with
  | (Ok r', b') => r' = r /\ evm_sim a' b' /\ inspect b' = false
  | (Err e, _) => failed_db_read e = true
  end.
Proof.
  intros Hs Hb Ha Hu. pose proof (transact_system_same_env _ _ _ _ _ _ Ha) as Hea.
  pose proof (transact_system_contents _ _ _ _ _ _ Ha) as Hca.
  destruct (transact_system_call b _ _ _) as [rb b'] eqn:Eb.
  pose proof (transact_system_same_env _ _ _ _ _ _ Eb) as Heb.
  pose proof (transact_system_contents _ _ _ _ _ _ Eb) as Hcb.
  assert (Hout : match rb with Ok r' => r' = r | Err e => failed_db_read e = true end).
  { unfold transact_system_call in Ha, Eb. rewrite Hb in Eb. destruct (inspect a).
    - destruct (inspect_run_system_call _) as [[x|x] a1] eqn:E1; [|done].
      destruct (finalize a1) as [st a2] eqn:E2. injection Ha as <- <-.
      pose proof (inspect_system_agrees _ _ _ _ _ _ _ _ _ Hs E1 E2 Hu) as Hg. rewrite Eb in Hg. by destruct rb.
    - pose proof (system_agrees _ _ _ _ _ _ _ Hs Ha) as Hg. rewrite Eb in Hg. by destruct rb. }
  destruct rb; [|done]. split; [done|]. split; [by eapply sim_after|].
  by destruct Heb as (_ & _ & _ & _ & _ & -> & _).
Qed.
End Evm.

(** ** Executors that run the same *)

Record exec_sim `{TxEnv.EvmTypes} `{ReceiptTypes} {S L1 DB} `{DatabaseView DB}
    (x y : ScrollBlockExecutor S L1 DB) : Prop := {
  xs_spec : spec y = spec x;
  xs_parent : ctx_parent_hash y = ctx_parent_hash x;
  xs_receipts : receipts y = receipts x;
  xs_gas : gas_used y = gas_used x;
  xs_evm : evm_sim (evm x) (evm y);
  xs_inspect : inspect (evm y) = false;
}.

Section Executors.
Context `{AlloyForks} `{TxEnv.EvmTypes} `{ReceiptTypes} `{RevmAccounts} `{SystemAddresses}
  {S : Type} `{DogeosHardforks S} `{ChainConfig S} {DB E : Type} `{Database DB E} `{DatabaseView DB}
  `{!DatabaseLaws DB E} `{!Revm DB} `{!ReadErrors EVMError} `{!RevmLaws DB}
  `{!ReplayLaws DB}.
Context (show show_debug : E -> string).

Abbreviation Exec := (ScrollBlockExecutor S L1BlockInfo DB).
Abbreviation M := (sresult Exec (Failure EVMError)).

(** A failure that only a failed read of the database explains: the message of a
    pre-execution read, or an EVM error that says so. *)
Definition failed_read (f : Failure EVMError) : Prop :=
  match f with
  | Error (ErrorMsg _) => True
  | Error (BlockHashContractCall message) =>
      exists e, failed_db_read e = true /\ message = show_evm_error e
  | Error (EvmFailed e _) => failed_db_read e = true
  | _ => False
  end.

(** The second executor does what the first did, or a read fails. *)
Definition reproduces {A} (a : A) (x' : Exec) (out : result A (Failure EVMError) * Exec) : Prop :=
  match out with
  | (Ok a', y') => a' = a /\ exec_sim x' y'
  | (Err f, _) => failed_read f
  end.

Definition follows {A} (m : M A) : Prop :=
  forall x y a x', exec_sim x y -> m x = (Ok a, x') -> unstopped (evm x') -> reproduces a x' (m y).

Lemma unstopped_before i j :
  hooked code_size i j -> CodeWitness.exceeded (CodeWitness.meter j) = None ->
  CodeWitness.exceeded (CodeWitness.meter i) = None.
Proof.
  intros (l & Hl & _ & ->) Hj. destruct (CodeWitness.hooks_same i l Hl) as (_ & _ & _ & _ & He).
  destruct (CodeWitness.exceeded (CodeWitness.meter i)); [|done]. by rewrite He in Hj.
Qed.

Lemma follows_ret {A} (a : A) : follows (mret a).
Proof. intros x y b x' Hs [= <- <-] _. by split. Qed.

Lemma follows_bind {A B} (m : M A) (f : A -> M B) :
  follows m -> (forall a, follows (f a)) -> (forall a, preserves (f a)) -> follows (m ≫= f).
Proof.
  intros Hm Hf Hp x y b x' Hs (a & x1 & E1 & E2)%sbind_Ok Hu.
  assert (Hu1 : unstopped (evm x1)) by (eapply unstopped_before; [apply (frame_hooks _ _ (Hp a _ _ _ E2))|done]).
  specialize (Hm x y a x1 Hs E1 Hu1). unfold mbind, sresult_bind.
  destruct (m y) as [[a'|f'] y1]; [|done]. destruct Hm as [-> Hs1]. by eapply Hf.
Qed.

(** Code that reads the executor reads only what the two share. *)
Lemma follows_with_self {A} (k : Exec -> M A) :
  (forall x y, exec_sim x y -> k y = k x) -> (forall x, follows (k x)) -> follows (with_self k).
Proof. intros Hk Hf x y a x' Hs E1 Hu. unfold with_self in *. rewrite (Hk x y Hs). by eapply Hf. Qed.

Lemma follows_to_u64 v : follows (to_u64 v).
Proof.
  intros x y n x' Hs. unfold to_u64. destruct (v <=? u64_max); [|done]. intros [= <- <-] _. by split.
Qed.

Lemma follows_on_db {A} (m : sresult DB E A) to_error : contents_only m -> follows (on_db m to_error).
Proof.
  intros Hm x y a x' Hs. unfold on_db. destruct (m (evm_db (evm x))) as [[v|e] d] eqn:E1; [|done].
  intros [= <- <-] _. specialize (Hm _ _ _ _ (es_contents _ _ (xs_evm _ _ Hs)) E1).
  destruct (m (evm_db (evm y))) as [[v'|e] d']; [|done]. destruct Hm as [-> Hd].
  split; [done|]. destruct Hs as [? ? ? ? [] ?]. by split.
Qed.

Lemma sim_hook (x y x' y' : Exec) source st :
  exec_sim x y -> on_state source st x = (Ok tt, x') -> on_state source st y = (Ok tt, y') ->
  exec_sim x' y'.
Proof.
  unfold on_state. intros [? ? ? ? [] ?] Hx Hy.
  destruct (hook x), (hook y); injection Hx as <-; injection Hy as <-; by split.
Qed.

Lemma on_state_total source st (x : Exec) : exists x', on_state (S := S) source st x = (Ok tt, x').
Proof. unfold on_state. destruct (hook x); by eexists. Qed.

Lemma follows_on_state source st : follows (on_state source st).
Proof.
  intros x y [] x' Hs E1 _. destruct (on_state_total source st y) as [y' E2]. rewrite E2.
  split; [done|]. by eapply sim_hook.
Qed.

Lemma follows_pre_state st : follows (on_pre_block_state st).
Proof. unfold on_pre_block_state. case_decide; [apply follows_ret|apply follows_on_state]. Qed.

Lemma follows_commit_state st : follows (commit_state st).
Proof.
  intros x y [] x' [? ? ? ? [] ?] [= <-] _. split; [done|].
  split; [done..| |done]. split; simpl; try done. by apply commit_proper.
Qed.

Lemma follows_transition f t p :
  contents_only t -> follows (apply_transition show_debug f t p).
Proof.
  intros Ht. apply follows_with_self.
  - intros x y [-> _ _ _ [-> _ _ _ _ _] _]. done.
  - intros s. apply follows_bind; [apply follows_to_u64| |].
    + intros n. destruct (active_at_timestamp _ _); [|apply follows_ret].
      apply follows_bind; [by apply follows_on_db|apply follows_pre_state|apply preserves_pre_state].
    + intros n. case_match; [|apply preserves_ret].
      apply preserves_bind; [apply preserves_on_db|apply preserves_pre_state].
Qed.

Lemma follows_system_call caller contract data :
  follows (fun self =>
    match transact_system_call (evm self) caller contract data with
    | (Ok r, e) => (Ok (Some r), set_evm self e)
    | (Err err, e) => (Err (Error (BlockHashContractCall (show_evm_error err))), set_evm self e)
    end).
Proof.
  intros x y r x' Hs. destruct (transact_system_call (evm x) _ _ _) as [[s|s] v] eqn:Ea; [|done].
  intros [= <- <-] Hu. pose proof (transact_system_agrees _ _ _ _ _ _ _ (xs_evm _ _ Hs) (xs_inspect _ _ Hs) Ea Hu) as Hb.
  destruct (transact_system_call (evm y) _ _ _) as [[s'|e] w]; [|by exists e].
  destruct Hb as (-> & Hw & Hi). split; [done|]. destruct Hs. by split.
Qed.

Lemma follows_blockhashes h : follows (apply_blockhashes_contract_call h).
Proof.
  apply follows_bind.
  - apply follows_with_self.
    + intros x y [-> _ _ _ [-> _ _ _ _ _] _]. done.
    + intros s. apply follows_bind; [apply follows_to_u64| |].
      * intros t. destruct (negb _); [apply follows_ret|].
        apply follows_bind; [apply follows_to_u64| |].
        -- intros n. destruct (n =? 0); [apply follows_ret|apply follows_system_call].
        -- intros n. case_match; [apply preserves_ret|]. apply preserves_system_call.
      * intros t. case_match; [apply preserves_ret|].
        apply preserves_bind; [apply preserves_to_u64|]. intros n.
        case_match; [apply preserves_ret|apply preserves_system_call].
  - intros [r|]; [|apply follows_ret].
    apply follows_bind; [apply follows_on_state|intros _; apply follows_commit_state|intros _; apply preserves_commit].
  - intros [r|]; [|apply preserves_ret].
    apply preserves_bind; [apply preserves_pre_hook|intros _; apply preserves_commit].
Qed.

Lemma follows_pre_execution : follows (apply_pre_execution_changes show show_debug).
Proof.
  destruct contents_transitions as (Hf & Hg & Ht).
  apply follows_with_self; [by intros x y [-> -> _ _ _ _]|]. intros s.
  apply follows_bind; [apply follows_on_db, contents_overhead|intros _|intros _].
  - apply follows_bind; [by apply follows_transition|intros _|intros _].
    + apply follows_bind; [by apply follows_transition|intros _|intros _].
      * apply follows_bind; [by apply follows_transition|intros _; apply follows_blockhashes|intros _; apply preserves_blockhashes].
      * apply preserves_bind; [apply preserves_transition|intros _; apply preserves_blockhashes].
    + do 2 (apply preserves_bind; [apply preserves_transition|intros _]). apply preserves_blockhashes.
  - do 3 (apply preserves_bind; [apply preserves_transition|intros _]). apply preserves_blockhashes.
Qed.

(** *** Transactions

    Every execution sets the base-fee and nonce checks first: between
    transactions the two executors may differ in them. *)
Definition alike (x y : Exec) : Prop := forall enabled, exec_sim (with_checks enabled x) (with_checks enabled y).

Lemma sim_alike x y : exec_sim x y -> alike x y.
Proof. intros [? ? ? ? [] ?] enabled. by split. Qed.

Lemma alike_meter x y m : alike x y -> alike (set_meter x m) y.
Proof. intros Ha enabled. destruct (Ha enabled) as [? ? ? ? [] ?]. by split. Qed.

Lemma alike_evm x y v w :
  alike x y -> evm_sim v w -> inspect w = false -> alike (set_evm x v) (set_evm y w).
Proof. intros Ha [] Hi enabled. destruct (Ha enabled) as [? ? ? ? _ _]. by split. Qed.

(** A run that commits nothing leaves the first executor alike the second. *)
Lemma execute_alike ex x y r x' :
  alike x y -> execute_transaction_without_commit ex x = (r, x') -> alike x' y.
Proof.
  intros Ha. rewrite execute_eq. cbv zeta. destruct (_ <? _); [by intros [= _ <-]|].
  destruct (ex_ty ex =? 3); [by intros [= _ <-]|]. set (e := negb _).
  destruct (transact_raw _ _) as [r' v] eqn:Et.
  assert (alike (set_evm (with_checks e x) v) y) as Hv.
  { pose proof (transact_raw_env _ _ _ _ Et) as (Eb&Es&Ec&_). pose proof (transact_raw_contents _ _ _ _ Et) as Hc.
    intros enabled. destruct (Ha enabled) as [? ? ? ? [] ?]. split; try done. split; simpl in *; try congruence.
    by rewrite <- Hc. }
  destruct r'; [|by intros [= _ <-]]. destruct (ex_ty ex =? L1_MESSAGE_TRANSACTION_TYPE); [by intros [= _ <-]|].
  destruct (l1_fee v); by intros [= _ <-].
Qed.

Lemma execute_follows ex x y out x' :
  alike x y -> execute_transaction_without_commit ex x = (Ok out, x') -> unstopped (evm x') ->
  match execute_transaction_without_commit ex y with
  | (Ok out', y') => out' = out /\ alike x' y'
  | (Err f, _) => failed_read f
  end.
Proof.
  intros Ha. rewrite !execute_eq. cbv zeta.
  replace (evm_block (evm y)) with (evm_block (evm x)) by (by symmetry; apply (xs_evm _ _ (Ha true))).
  replace (gas_used y) with (gas_used x) by (by symmetry; apply (Ha true)).
  destruct (_ <? _); [done|]. destruct (ex_ty ex =? 3); [done|]. set (e := negb _).
  destruct (transact_raw (evm (with_checks e x)) _) as [[r|?] v] eqn:Et; [|done]. intros Hx Hu.
  assert (x' = set_evm (with_checks e x) v) as Ex'.
  { destruct (ex_ty ex =? L1_MESSAGE_TRANSACTION_TYPE); [by injection Hx|].
    destruct (l1_fee v); [by injection Hx|done]. }
  subst x'. pose proof (transact_raw_agrees _ _ _ _ _ (xs_evm _ _ (Ha e)) (xs_inspect _ _ (Ha e)) Et Hu) as Hb.
  destruct (transact_raw (evm (with_checks e y)) _) as [[r'|?] w] eqn:Ew; [|exact Hb].
  destruct Hb as (-> & Hw & Hi & Hl1).
  assert (alike (set_evm (with_checks e x) v) (set_evm (with_checks e y) w)) as Hvw by (by apply alike_evm).
  destruct (ex_ty ex =? L1_MESSAGE_TRANSACTION_TYPE); [by injection Hx as <-|].
  apply transact_raw_ran in Et as [Etx _], Ew as [Ewx _]. unfold l1_fee in *. rewrite Etx in Hx. rewrite Ewx.
  destruct (TxEnv.rlp_bytes (tx_env ex)) as [rlp|]; [|done]. injection Hx as <-.
  rewrite Hl1 by done. by rewrite (es_spec _ _ Hw).
Qed.

Lemma commit_follows out x y g x' :
  alike x y -> commit_transaction out x = (Ok g, x') ->
  exists y', commit_transaction out y = (Ok g, y') /\ alike x' y'.
Proof.
  intros Ha. unfold commit_transaction, mbind, with_self, sresult_bind.
  assert (receipts y = receipts x /\ gas_used y = gas_used x) as [Hr Hg] by (by destruct (Ha true)).
  rewrite Hr. set (st := state_of _).
  destruct (on_state_total (SourceTransaction (length (receipts x))) st x) as [x1 E1].
  destruct (on_state_total (SourceTransaction (length (receipts x))) st y) as [y1 E2].
  rewrite E1, E2.
  assert (alike x1 y1 /\ gas_used x1 = gas_used x /\ receipts x1 = receipts x) as (Ha1 & Hg1 & Hr1).
  { unfold on_state in E1, E2. destruct (hook x), (hook y); injection E1 as <-; injection E2 as <-;
      (split; [|done]); intros enabled; destruct (Ha enabled) as [? ? ? ? [] ?]; by split. }
  clear E1 E2. assert (gas_used y1 = gas_used x1) as Hg2 by (by destruct (Ha1 true)). cbn. rewrite Hg2.
  destruct (build_receipt _) as [rc|]; [|done]. intros [= <- <-]. eexists. split; [reflexivity|].
  intros enabled. destruct (Ha1 enabled) as [Hs Hp Hrs Hgs [? ? ? ? ? Hc] ?]. simpl in *.
  split; simpl; try done; try congruence. split; simpl; try done. by apply commit_proper.
Qed.
End Executors.

(** ** Candidates *)

Section Candidates.
Context `{AlloyForks} `{TxEnv.EvmTypesLaws} `{Rlp} `{!TxEnv.Zstd} `{ReceiptTypes} `{RevmAccounts}
  `{SystemAddresses} {S : Type} `{DogeosHardforks S} `{ChainConfig S} {DB E : Type} `{Database DB E}
  `{DatabaseView DB} `{!DatabaseLaws DB E} `{!Revm DB} `{!ReadErrors EVMError}
  `{!RevmLaws DB} `{!ReplayLaws DB} `{BlockBuilderLaws}.
Context (show show_debug : E -> string).

Abbreviation Exec := (ScrollBlockExecutor S L1BlockInfo DB).
Abbreviation Recovered := (ScrollTxEnvelope * Address)%type.
Abbreviation Builder := (Exec * list Recovered)%type.
Abbreviation executables := (Forall2 (fun (tx : Recovered) ex => executable_of tx = Returns ex)).

Lemma candidate_executables (b b' : Builder) txs :
  candidate_run b txs b' -> exists exs, executables txs exs.
Proof.
  induction 1 as [b|tx g txs b b1 b2 Eb _ [exs IH]|]; [by exists []| |done].
  apply budget_run in Eb as (ex & _ & _ & _ & Ex & _). exists (ex :: exs). by constructor.
Qed.

Lemma candidate_block (b b' : Builder) txs :
  candidate_run b txs b' -> evm_block (evm b'.1) = evm_block (evm b.1).
Proof.
  induction 1 as [b|tx g txs b b1 b2 Eb _ IH|tx r txs b b1 b2 Eb Hr _ IH]; [done|..]; rewrite IH.
  - apply budget_run in Eb as (ex & out & z & w & _ & Hz%preserves_execute & _ & Ew & ->).
    apply commit_Ok in Ew as (?&_&_&_&_&_&_&_&Eb&_). cbn. by rewrite Eb, (frame_block _ _ Hz).
  - apply budget_left_out in Eb as (ex & r' & z & _ & Hz%preserves_execute & ->); [apply Hz|done].
Qed.

(** Executing what a run included, and nothing else, is doing what the run did. *)
Lemma candidate_replay (b b' : Builder) txs :
  candidate_run b txs b' -> forall exs (y : Exec), executables txs exs -> alike b.1 y ->
  match execute_all exs y with
  | (Ok _, y') => alike b'.1 y'
  | (Err f, _) => failed_read f
  end.
Proof.
  induction 1 as [b|tx g txs b b1 b2 Eb _ IH|tx r txs b b1 b2 Eb Hr _ IH]; intros exs y Hexs Ha.
  - by inversion Hexs; subst.
  - inversion Hexs as [|? ex ? exs' Hex Hexs']; subst. simpl. apply budget_run in Eb.
    destruct Eb as (ex' & out & z & w & Ex & Er & Hc & Ew & ->). rewrite Hex in Ex. injection Ex as <-.
    unfold execute_transaction, mbind, sresult_bind.
    pose proof (execute_follows ex _ y _ _ (alike_meter _ _ _ Ha) Er Hc) as Hy.
    destruct (execute_transaction_without_commit ex y) as [[out'|f] y1]; [|exact Hy].
    destruct Hy as [-> Hy]. destruct (commit_follows _ _ _ _ _ Hy Ew) as (y2 & -> & Hw).
    apply IH; [done|]. by apply alike_meter.
  - apply (IH exs y Hexs). apply budget_left_out in Eb as (ex & r' & z & _ & Hz & ->); [|done].
    apply alike_meter. eapply execute_alike; [|exact Hz]. by apply alike_meter.
Qed.
End Candidates.

(** ** The base-fee hook *)

Section Hook.
Context `{AlloyForks} `{AlloyEips} {S : Type} `{DogeosHardforks S} `{EthChainSpec S} `{ChainConfig S}
  `{RevmAccounts} {DB E : Type} `{Database DB E} `{DatabaseView DB} `{!DatabaseLaws DB E}.

Lemma contents_fee (s : S) p t :
  contents_only (fun db : DB => next_block_base_fee_for_parent s db p t).
Proof.
  intros d1 d2 v d1' Hd. unfold next_block_base_fee_for_parent.
  destruct (base_fee_overhead s d1) as [[o|] e1] eqn:E1; [|done]. intros [= <- <-].
  pose proof (contents_overhead s d1 d2 o e1 Hd E1) as Hc.
  destruct (base_fee_overhead s d2) as [[o'|] e2]; [|done]. by destruct Hc as [-> Hc].
Qed.

(** The hook accepts the fee the builder computed, on a database with the same
    contents, unless it cannot read the overhead. *)
Lemma hook_accepts (s : S) (db db1 dbi : DB) env parent seal fee :
  next_block_base_fee s db parent (block_timestamp (block_env env)) = Returns (Ok fee, db1) ->
  block_basefee (block_env env) = fee -> same_contents db dbi ->
  in_u64 (block_timestamp (block_env env)) -> in_u64 (block_number (block_env env)) ->
  match validate_block_pre_execution s dbi env seal parent seal with
  | (Returns (Ok _), dbi') => same_contents db1 dbi'
  | (Returns (Err (OverheadReadFailed _)), _) => True
  | (Returns (Err _), _) | (Panics _, _) => False
  end.
Proof.
  unfold next_block_base_fee, validate_block_pre_execution. set (t := block_timestamp _).
  destruct (from_header parent) as [p|]; [|done]. intros [= Eb] Hfee Hd Ht Hn.
  rewrite !(proj2 (Z.leb_le _ _)) by solve_ints. cbn [andb negb].
  assert (same_contents db db1) as Hd1.
  { unfold next_block_base_fee_for_parent in Eb. pose proof (base_fee_overhead_views s db) as Hv.
    destruct (base_fee_overhead s db). by injection Eb as _ <-. }
  pose proof (contents_fee s p t db dbi fee db1 Hd Eb) as Hc. cbv beta in Hc.
  destruct (negb _); [by rewrite <- Hd1|]. rewrite Z.eqb_refl. cbn [negb].
  destruct (next_block_base_fee_for_parent s dbi p t) as [[fee'|e] dbi']; [|done].
  destruct Hc as [-> Hc]. by rewrite Hfee, Z.eqb_refl.
Qed.
End Hook.

(** ** The imported block *)

(** A receipt, as the consensus reads it. *)
#[export] Instance scroll_receipt_view `{AssemblyTypes} : TxReceipt ScrollReceipt := {
  rv_cumulative_gas_used := NodeReceipt.cumulative_gas_used;
  rv_bloom r := logs_bloom_bits (NodeReceipt.logs r);
}.

Section Imported.
Context `{AlloyForks} `{AlloyEips} `{TxEnv.EvmTypesLaws} `{Rlp} `{!EthTxsLaws} `{!RlpLaws} `{!TxEnv.Zstd}
  `{!Eip2718} `{ReceiptRlp} `{!AssemblyTypes} `{!AssemblyLaws} `{RevmAccounts} `{SystemAddresses} {S : Type}
  `{DogeosHardforks S} `{EthChainSpec S} `{ChainConfig S} `{!ChainId S} {DB E : Type} `{Database DB E}
  `{DatabaseView DB} `{!DatabaseLaws DB E} `{!Revm DB} `{!ReadErrors EVMError} `{!RevmLaws DB}
  `{!ReplayLaws DB} `{!InvalidTxErrors EVMError} `{BlockBuilderLaws} `{!ChainConstants} `{RethConsensus}
  `{!ScrollContext DB}.
Context (show show_debug : E -> string) (keccak256 : bytes -> B256)
  (rlp_error_from : Eip2718Error -> RlpError) {SigError : Type}
  (recover : Signature -> B256 -> result Address SigError)
  (effective_tip_per_gas : ScrollTxEnvelope -> Z -> option Z)
  {P : Type} `{!BestTransactions P} (is_cancelled : nat -> bool) (elapsed : nat -> Z)
  (best_txs : Z -> P) (is_better_payload : option U256 -> U256 -> bool).
Context {W : Type} (fuel : nat) (s : S) (db : DB) (config : ScrollBuilderConfig)
  (attributes : ScrollPayloadAttributes W) (parent : Header) (seal : B256) (base_fee : Z)
  (best_payload : option U256) (h : option StateHook).

Abbreviation Exec := (ScrollBlockExecutor S L1BlockInfo DB).
Abbreviation Builder := (Exec * list (ScrollTxEnvelope * Address))%type.
Abbreviation start := (filled_from s db config attributes parent seal base_fee h).
Abbreviation is_filled := (filled show show_debug keccak256 rlp_error_from recover effective_tip_per_gas
  is_cancelled elapsed best_txs is_better_payload fuel s db config attributes parent seal base_fee
  best_payload h).
Abbreviation build_env := (next_evm_env s parent (next_attributes config attributes parent base_fee)).

(** A transaction of a block as the executor takes it, its signer recovered. *)
Definition import_executable (tx : ScrollTxEnvelope) : option Executable :=
  match TxEnvelope.recover_signer recover tx with
  | Returns (Ok signer) =>
      match executable_of (tx, signer) with Returns ex => Some ex | Panics _ => None end
  | _ => None
  end.

(** The pool keeps the signer it recovered. *)
Definition pool_signed : Prop :=
  forall p : PoolTx, TxEnvelope.recover_signer recover (to_consensus p).1 = Returns (Ok (to_consensus p).2).

Definition gas_limit_of_block (b : Builder) : Z := block_gas_limit (evm_block (evm b.1)).

(** [BlockExecutor::execute_block]. *)
Definition execute_block (exs : list Executable) : sresult Exec (Failure EVMError) BlockExecutionResult :=
  _ ← apply_pre_execution_changes show show_debug; _ ← execute_all exs; apply_post_execution_changes.

(** What a filled candidate did: the pre-execution changes, then one run of its
    transactions, whose signers recover. *)
Lemma filled_replay info (b : Builder) :
  fill_assumptions keccak256 config attributes parent -> pool_signed -> is_filled info b ->
  exists b0, prepared show show_debug start b0 /\ candidate_run b0 b.2 b
    /\ Forall (fun tx => TxEnvelope.recover_signer recover tx.1 = Returns (Ok tx.2)) b.2.
Proof.
  intros Ha Hs Hf. destruct (filled_parts _ _ _ _ _ _ _ _ _ _ _ _ _ _ _ _ _ _ _ _ info b Ha Hf)
    as (fs & b0 & b1 & forced & pool & n & _ & [Hp Hr] & _ & Hrun & -> & Hpool & _).
  exists b0. split; [done|]. split.
  - eapply candidate_run_trans; [by eapply forced_run_candidate|done].
  - apply Forall_app. split; [by eapply forced_run_signers|].
    eapply Forall_impl; [exact Hpool|]. by intros tx (_ & _ & p & ->).
Qed.

Lemma prepared_block (b b0 : Builder) :
  prepared show show_debug b b0 -> evm_block (evm b0.1) = evm_block (evm b.1).
Proof. intros (x & m & Ep & _ & ->). apply preserves_pre_execution in Ep. apply Ep. Qed.

(** The environment of a filled candidate is the one its build started in. *)
Lemma filled_env info (b : Builder) :
  fill_assumptions keccak256 config attributes parent -> pool_signed -> is_filled info b ->
  block_env (evm_finish (evm b.1)).2 = block_env build_env.
Proof.
  intros Ha Hsig Hf. destruct (filled_replay info b Ha Hsig Hf) as (b0 & Hp & Hr & _).
  cbn. by rewrite (candidate_block _ _ _ Hr), (prepared_block _ _ Hp).
Qed.

(** The pre-execution changes of the import reach what those of the builder did. *)
Lemma prepared_replay (b b0 : Builder) (y : Exec) :
  prepared show show_debug b b0 -> exec_sim b.1 y ->
  match apply_pre_execution_changes show show_debug y with
  | (Ok _, y') => alike b0.1 y'
  | (Err f, _) => failed_read f
  end.
Proof.
  intros (x & m & Ep & Hx & ->) Hs.
  assert (exec_sim (begin_meter b.1) y) as Hb by (destruct Hs as [? ? ? ? [] ?]; by split).
  pose proof (follows_pre_execution show show_debug _ y tt x Hb Ep Hx) as Hy.
  destruct (apply_pre_execution_changes _ _ y) as [[[]|f] y']; [|exact Hy].
  destruct Hy as [_ Hy]. by apply alike_meter, sim_alike.
Qed.

Lemma recovered_executables txs exs :
  Forall (fun tx => TxEnvelope.recover_signer recover tx.1 = Returns (Ok tx.2)) txs ->
  Forall2 (fun tx ex => executable_of tx = Returns ex) txs exs ->
  mapM import_executable (map fst txs) = Some exs /\ Forall executable_ok exs.
Proof.
  intros Hs. rewrite mapM_Some. induction 1 as [|[tx a] ex txs exs Hex _ IH]; [done|].
  inversion Hs as [|? ? Ha]; subst. destruct IH as [IH1 IH2]; [done|]. split; constructor; try done.
  - unfold import_executable. simpl in *. by rewrite Ha, Hex.
  - by destruct (executable_of_ok _ _ Hex).
Qed.

(** Executing the transactions of a candidate, on a database with the same
    contents, gives its receipts, its gas and its state. *)
Lemma execution_replay info (b : Builder) (dbi : DB) (no_op : CodeWitness.Inspector) :
  fill_assumptions keccak256 config attributes parent -> pool_signed -> is_filled info b ->
  same_contents db dbi ->
  exists exs, mapM import_executable (map fst b.2) = Some exs
    /\ match execute_block exs (new_executor (create_evm dbi build_env no_op) seal s) with
       | (Ok result, y) => exec_inv (gas_limit_of_block b) y /\ alike b.1 y /\ result = (finish y).2
       | (Err f, _) => failed_read f
       end.
Proof.
  intros Ha Hs Hf Hd. destruct (filled_replay info b Ha Hs Hf) as (b0 & Hp & Hr & Hsig).
  destruct (candidate_executables _ _ _ Hr) as [exs Hexs].
  destruct (recovered_executables _ _ Hsig Hexs) as [Hrec Hok]. exists exs. split; [done|].
  set (y := new_executor _ _ _).
  assert (exec_sim start.1 y) as Hy by (by split).
  unfold execute_block, mbind, sresult_bind.
  pose proof (prepared_replay _ _ _ Hp Hy) as Hpre.
  destruct (apply_pre_execution_changes _ _ y) as [[[]|f] y1] eqn:Ep; [|exact Hpre].
  pose proof (candidate_replay _ _ _ Hr _ _ Hexs Hpre) as Hall.
  destruct (execute_all exs y1) as [[[]|f] y2] eqn:Eall; [|exact Hall]. cbn.
  split; [|done]. unfold gas_limit_of_block.
  assert (evm_block (evm b.1) = evm_block (evm y)) as ->.
  { rewrite (candidate_block _ _ _ Hr). by rewrite (prepared_block _ _ Hp). }
  eapply (steps_inv show show_debug); [apply Ha| |].
  - eapply rtc_l; [by eapply StepPre|]. by eapply execute_all_steps.
  - split; try done; [|by repeat constructor]. split; [done|]. apply Ha.
Qed.

(** ** Importing a block *)

(** Why an import ends early. *)
Inductive ImportFailure : Type :=
| HookPanics (msg : string)
| HookRefused (e : PreExecutionError E)
| SignerNotRecovered
| ExecutionFailed (f : Failure EVMError)
| ReceiptsRefused (e : ConsensusError).

(** Only a failed read of the database explains the failure. *)
Definition read_failure (f : ImportFailure) : Prop :=
  match f with
  | HookRefused (OverheadReadFailed _) => True
  | ExecutionFailed f => failed_read f
  | _ => False
  end.

(** What the node does with a block on a state: the base-fee hook, the recovery
    of the signers, the execution, the check of its outcome. *)
Definition import_block (no_op : CodeWitness.Inspector) (dbi : DB) (block : AssembledBlock ScrollTxEnvelope) :
    result (BlockExecutionResult * Exec) ImportFailure :=
  let header := ab_header block in
  let env := evm_env s header in
  match validate_block_pre_execution s dbi env (parent_hash header) parent seal with
  | (Panics msg, _) => Err (HookPanics msg)
  | (Returns (Err e), _) => Err (HookRefused e)
  | (Returns (Ok _), dbi) =>
      match mapM import_executable (ab_transactions block) with
      | None => Err SignerNotRecovered
      | Some exs =>
          match execute_block exs (new_executor (create_evm dbi env no_op) (context_for_block header) s) with
          | (Err f, _) => Err (ExecutionFailed f)
          | (Ok result, y) =>
              let? _ := map_err ReceiptsRefused
                (Consensus.validate_block_post_execution
                   (NodeReceipt.calculate_receipt_root_no_memo ordered_trie_root) header
                   (br_receipts result) None) in
              Ok (result, y)
          end
      end
  end.

(** The import of an assembled block runs to its end, on an executor alike to the
    builder's. *)
Lemma import_replay (db0 dbi : DB) (no_op : CodeWitness.Inspector) (info : ExecutionInfo)
    (b : Builder) (root : B256) (block : AssembledBlock ScrollTxEnvelope) :
  0 <= number parent < u64_max -> in_u64 (attributes_timestamp attributes) ->
  is_Some (fee_vault_address (chain_config s))
    \/ pa_suggested_fee_recipient (payload_attributes attributes) = 0 ->
  fill_assumptions keccak256 config attributes parent -> pool_signed ->
  next_block_base_fee s db0 parent (attributes_timestamp attributes) = Returns (Ok base_fee, db) ->
  is_filled info b ->
  assemble_block (evm_finish (evm b.1)).2 (context_for_next_block seal) (map fst b.2) (receipts b.1)
    (gas_used b.1) root = Ok block ->
  same_contents db0 dbi ->
  match import_block no_op dbi block with
  | Err f => read_failure f
  | Ok (result, y) => alike b.1 y /\ result = (finish y).2
  end.
Proof.
  intros Hn Hts Hv Ha Hsig Hfee Hf Hb Hd.
  rewrite (assemble_block_env _ build_env) in Hb by (by eapply filled_env).
  unfold import_block.
  assert (evm_env s (ab_header block) = build_env) as -> by (by eapply assembled_env).
  apply assemble_Ok in Hb as (-> & Hph & Hgu & Hrr & Hlb). unfold context_for_block. rewrite Hph.
  pose proof (hook_accepts s db0 db dbi build_env parent seal base_fee Hfee eq_refl Hd
    Hts ltac:(simpl; rewrite wrap_u64_small; solve_ints)) as Hhook.
  unfold context_for_next_block in *.
  destruct (validate_block_pre_execution s dbi build_env seal parent seal) as [[[[]|e]|msg] dbi']; [|by destruct e|done].
  destruct (execution_replay info b dbi' no_op Ha Hsig Hf Hhook) as (exs & -> & Hout).
  destruct (execute_block exs _) as [[result|f] y]; [|exact Hout].
  destruct Hout as (Hinv & Halike & ->).
  destruct (Halike true) as [_ _ Hrs Hgs _ _]. cbn in Hrs, Hgs.
  enough (Consensus.validate_block_post_execution
      (NodeReceipt.calculate_receipt_root_no_memo ordered_trie_root) (ab_header block)
      (br_receipts (finish y).2) None = Ok tt) as -> by (by split).
  unfold Consensus.validate_block_post_execution. cbn [finish snd br_receipts].
  rewrite Hrs, Hgu, Hrr, Hlb, bloom_concat, <- Hgs, (inv_last_gas _ _ Hinv), Hrs. cbn.
  by rewrite !Z.eqb_refl.
Qed.

(** From their bytes the transactions are read back with their signers. *)
Lemma convert_encoded `{!Eip2718Laws} (txs : list (ScrollTxEnvelope * Address)) :
  Forall (fun tx => TxEnvelope.recover_signer recover tx.1 = Returns (Ok tx.2)) txs ->
  Forall (fun tx => envelope_ok keccak256 tx.1) txs ->
  map (convert_payload_transaction
         (decode_2718_exact (TxEnvelope.typed_decode keccak256) TxEnvelope.fallback_decode)
         (TxEnvelope.recover_signer recover)) (map TxEnvelope.encode_2718 (map fst txs))
  = map (fun tx => Returns (Ok tx)) txs.
Proof.
  intros Hrec Hok. induction Hrec as [|[tx a] txs Hs _ IH]; [done|].
  inversion Hok as [|? ? Ht Hok']; subst. cbn. rewrite IH by done. f_equal.
  unfold convert_payload_transaction, decode_2718_exact.
  rewrite <- (app_nil_r (TxEnvelope.encode_2718 tx)), envelope_decode_encode by done. simpl in *. by rewrite Hs.
Qed.

(** ** Properties *)

(** C3: A node that imports a block does what the node that built it did. Take a
    filled candidate, whatever it left out, and the block assembled from it,
    and a database with the contents the builder started from. The import, which
    meters no code, ends with the receipts, the gas and the contents the builder
    had, its checks of the base fee before and of the receipts after included.
    The only other outcome is an import that fails because its database did. *)
Theorem import_reproduces_build (db0 dbi : DB) (no_op : CodeWitness.Inspector) (info : ExecutionInfo)
    (b : Builder) (root : B256) (block : AssembledBlock ScrollTxEnvelope) :
  0 <= number parent < u64_max -> in_u64 (attributes_timestamp attributes) ->
  is_Some (fee_vault_address (chain_config s))
    \/ pa_suggested_fee_recipient (payload_attributes attributes) = 0 ->
  fill_assumptions keccak256 config attributes parent -> pool_signed ->
  next_block_base_fee s db0 parent (attributes_timestamp attributes) = Returns (Ok base_fee, db) ->
  is_filled info b ->
  let '(v, built) := finish b.1 in
  assemble_block (evm_finish v).2 (context_for_next_block seal) (map fst b.2) (br_receipts built)
    (br_gas_used built) root = Ok block ->
  same_contents db0 dbi ->
  match import_block no_op dbi block with
  | Err f => read_failure f
  | Ok (result, y) =>
      br_receipts result = br_receipts built /\ br_gas_used result = br_gas_used built
      /\ same_contents (evm_db (evm b.1)) (evm_db (evm y))
  end.
Proof.
  intros Hn Hts Hv Ha Hsig Hfee Hf. cbn [finish]. intros Hb Hd.
  pose proof (import_replay db0 dbi no_op info b root block Hn Hts Hv Ha Hsig Hfee Hf Hb Hd) as H'.
  destruct (import_block _ _ _) as [[result y]|f]; [|exact H'].
  destruct H' as [Halike ->]. destruct (Halike true) as [_ _ Hr Hg [_ _ _ _ _ Hc] _].
  split; [exact Hr|]. split; [exact Hg|exact Hc].
Qed.

(** C9: The engine payload of a built block carries the build. From the bytes of
    its transactions the import reads back each transaction with the signer the
    builder used, in order, and nothing is refused; the environment and the
    parent it executes them in are those of the block's header. *)
Theorem payload_carries_build `{!Eip2718Laws} (info : ExecutionInfo) (b : Builder) env root
    (block : AssembledBlock ScrollTxEnvelope) :
  fill_assumptions keccak256 config attributes parent -> pool_signed ->
  (forall fs, decode_forced_transactions keccak256 rlp_error_from attributes = Ok fs ->
     Forall (fun f => envelope_ok keccak256 (we_value f)) fs) ->
  is_filled info b ->
  assemble_block env (context_for_next_block seal) (map fst b.2) (receipts b.1) (gas_used b.1) root
    = Ok block ->
  let header := ab_header block in
  let payload := payload_of header (map TxEnvelope.encode_2718 (ab_transactions block)) in
  let decode := decode_2718_exact (TxEnvelope.typed_decode keccak256) TxEnvelope.fallback_decode in
  map (convert_payload_transaction decode (TxEnvelope.recover_signer recover)) (ed_transactions payload)
    = map (fun tx => Returns (Ok tx)) b.2
  /\ evm_env_for_payload s payload = evm_env s header
  /\ context_for_payload payload = seal.
Proof.
  intros Ha Hsig Hforced Hf Hb header payload decode.
  destruct (filled_replay info b Ha Hsig Hf) as (_ & _ & _ & Hrec).
  assert (Forall (fun tx => envelope_ok keccak256 tx.1) b.2) as Hok.
  { destruct (filled_parts _ _ _ _ _ _ _ _ _ _ _ _ _ _ _ _ _ _ _ _ info b Ha Hf)
      as (fs & b0 & b1 & forced & pool & n & Hd & _ & _ & Hrun & -> & Hpool & _).
    apply Forall_app. split.
    - exact (forced_run_values recover _ _ _ _ _ _ Hrun (Hforced fs Hd)).
    - eapply Forall_impl; [exact Hpool|]. intros tx (_ & _ & p & ->). apply Ha. }
  destruct (payload_env s _ _ _ _ _ _ _ (ed_transactions payload) Hb) as [Henv Hctx].
  pose proof (assemble_Ok _ _ _ _ _ _ _ Hb) as (Htxs & Hph & _).
  split; [|split; [exact Henv|etransitivity; [exact Hctx|exact Hph]]].
  subst payload. cbn [ed_transactions payload_of]. rewrite Htxs. by apply convert_encoded.
Qed.
End Imported.

(** ** Witness *)

#[export] Instance ref_read_errors : ReadErrors unit := { failed_db_read _ := false }.

#[export] Instance ref_replay_laws : ReplayLaws MemDb.
Proof.
  split; simpl.
  1,2: intros v tx r v'; destruct (_ <? _); by intros [= _ <-].
  1,2,3: by intros; simplify_eq.
  - intros a b tx r a' _. destruct (_ <? _); [done|]. intros [= <- <-]. split; [done|]. by destruct (l1_block_info _), (l1_block_info _).
  - intros a b tx r a' _. destruct (_ <? _); [done|]. intros [= <- <-] _. split; [done|]. by destruct (l1_block_info _), (l1_block_info _).
  - by intros a b _ _ _ r a' _ [= <- _].
  - by intros a b _ _ _ r st a1 a2 _ [= <- <-] [= <- _] _.
Qed.

Abbreviation SampleBuilder := (ScrollBlockExecutor DogeosChainHardforks L1BlockInfo MemDb
  * list (ScrollTxEnvelope * Address))%type.

(** The block assembled from a builder of the sample. *)
Definition sample_assembled (b : SampleBuilder) : result (AssembledBlock ScrollTxEnvelope) AssembleError :=
  let '(v, built) := finish b.1 in
  assemble_block (evm_finish v).2 (context_for_next_block 777) (map fst b.2) (br_receipts built)
    (br_gas_used built) 9.

Definition sample_import (dbi : MemDb) (block : AssembledBlock ScrollTxEnvelope) :=
  import_block show_unit show_unit sample_recover (new_schedule []) sample_parent_header 777
    (CodeWitness.new_inspector 0 0) dbi block.

(** Whether the import of a block succeeds. *)
Definition sample_import_ok (b : SampleBuilder) : bool :=
  match sample_assembled b with
  | Err _ => false
  | Ok block => is_ok (sample_import fresh_db block)
  end.

Lemma sample_imported : exists info b, sample_filled info b /\ sample_import_ok b = true.
Proof.
  unfold sample_filled, filled.
  match goal with |- exists info b, ?t = _ /\ _ =>
    destruct (filled_run t) as [info Ei]; [vm_compute; reflexivity|];
    exists info, t.2; split; [exact Ei|vm_compute; reflexivity] end.
Qed.

Lemma sample_base_fee :
  next_block_base_fee (new_schedule []) fresh_db sample_parent_header
    (attributes_timestamp sample_attributes_210k) = Returns (Ok 1000000000, fresh_db).
Proof. vm_compute. reflexivity. Qed.

Lemma sample_pool_signed : pool_signed (P := list bool) sample_recover.
Proof. intros []; vm_compute; reflexivity. Qed.

Lemma sample_vault : is_Some (fee_vault_address (chain_config (new_schedule []))).
Proof. by eexists. Qed.

Lemma import_reproduces_build_witness :
  exists info b block result y,
    sample_filled info b /\ sample_assembled b = Ok block
    /\ sample_import fresh_db block = Ok (result, y)
    /\ br_receipts result = receipts b.1 /\ br_gas_used result = gas_used b.1.
Proof.
  destruct sample_imported as (info & b & Hf & Hok).
  unfold sample_import_ok in Hok. destruct (sample_assembled b) as [block|] eqn:Eb; [|discriminate].
  pose proof (import_reproduces_build show_unit show_unit sample_hash sample_error sample_recover
    (fun _ _ => Some 3) (fun _ => false) (fun _ => 5) (fun _ => [true; false; true]) (fun _ _ => true)
    4 (new_schedule []) fresh_db sample_config sample_attributes_210k sample_parent_header 777
    1000000000 None None fresh_db fresh_db (CodeWitness.new_inspector 0 0) info b 9 block
    ltac:(vm_compute; split; done) ltac:(vm_compute; split; done) (or_introl sample_vault)
    sample_assumptions sample_pool_signed sample_base_fee Hf Eb ltac:(by split)) as H.
  unfold sample_import in *. destruct (import_block _ _ _ _ _ _ _ _ _) as [[result y]|f] eqn:Ei; [|discriminate].
  exists info, b, block, result, y. destruct H as (Hr & Hg & _). auto 10.
Defined.

(** Bytes an envelope was encoded to decode to that envelope only. *)
Lemma encoded_value_ok e v :
  envelope_ok sample_hash e ->
  decode_2718 (TxEnvelope.typed_decode sample_hash) TxEnvelope.fallback_decode (TxEnvelope.encode_2718 e)
    = Ok (v, []) ->
  envelope_ok sample_hash v.
Proof.
  intros He. pose proof (envelope_decode_encode sample_hash e [] He) as Hd. rewrite app_nil_r in Hd.
  rewrite Hd. by intros [= <-].
Qed.

Lemma sample_forced_ok fs :
  decode_forced_transactions sample_hash sample_error sample_attributes_210k = Ok fs ->
  Forall (fun f => envelope_ok sample_hash (we_value f)) fs.
Proof.
  intros [Henc Hdec]%decode_forced_Ok.
  assert (Forall (fun b => exists e, envelope_ok sample_hash e /\ b = TxEnvelope.encode_2718 e)
    (map encoded_bytes fs)) as Hex.
  { rewrite Henc. apply Forall_cons. split; [exists sample_l1_envelope; split; [exact sample_l1_envelope_ok|reflexivity]|].
    apply Forall_cons. split; [|constructor]. by exists sample_envelope. }
  clear Henc. induction fs as [|f fs IH]; [constructor|]. inversion Hdec; subst. inversion Hex as [|? ? (e & He & Eb)]; subst.
  constructor; [|by apply IH]. rewrite Eb in *. by eapply encoded_value_ok.
Qed.

Lemma sample_import_assembled b : sample_import_ok b = true -> exists block, sample_assembled b = Ok block.
Proof. unfold sample_import_ok. destruct (sample_assembled b) as [block|]; [by exists block|done]. Qed.

Lemma sample_assembled_eq b :
  sample_assembled b = assemble_block (evm_finish (evm b.1)).2 (context_for_next_block 777) (map fst b.2)
    (receipts b.1) (gas_used b.1) 9.
Proof. reflexivity. Qed.

Lemma payload_carries_build_witness :
  exists info b block, sample_filled info b /\ sample_assembled b = Ok block
    /\ map (convert_payload_transaction
              (decode_2718_exact (TxEnvelope.typed_decode sample_hash) TxEnvelope.fallback_decode)
              (TxEnvelope.recover_signer sample_recover))
         (map TxEnvelope.encode_2718 (ab_transactions block))
       = map (fun tx => Returns (Ok tx)) b.2.
Proof.
  destruct sample_imported as (info & b & Hf & Hok). destruct (sample_import_assembled b Hok) as [block Eb].
  exists info, b, block. split; [exact Hf|]. split; [exact Eb|]. rewrite sample_assembled_eq in Eb.
  destruct (payload_carries_build (E := unit) (Revm0 := ref_revm) show_unit show_unit sample_hash sample_error sample_recover
    (fun _ _ => Some 3) (fun _ => false) (fun _ => 5) (fun _ => [true; false; true]) (fun _ _ => true)
    4 (new_schedule []) fresh_db sample_config sample_attributes_210k sample_parent_header 777
    1000000000 None None info b (evm_finish (evm b.1)).2 9 block sample_assumptions sample_pool_signed sample_forced_ok Hf Eb)
    as [H _]. exact H.
Defined.
