(* ===== verification/Sync.v ===== *)
(** * A node that follows another (dogeos-reth-evm, -payload, -consensus)

    Blocks built one on the other by one node, and what a node that only learns
    of them does: the header checks of Consensus.v, then the import of Replay.v,
    block after block, from the state of the block before. The composition of
    the checks is what reth's engine calls; the node's own parts in it are the
    definitions of the other files. *)

From stdpp Require Import prelude gmap list strings.
From Stdlib Require Import ZArith Lia.
From S2P Require Import Prelude.
From S2P Require Import Hardforks.
From S2P Require Import GenesisConfig.
From S2P Require Import ChainSpec.
From S2P Require Import Chain.
From S2P Require Import BaseFee.
From S2P Require Import Alloy.
From S2P Require Import AlloyRef.
From S2P Require Import TxType.
From S2P Require Import L1Message.
From S2P Require Import Envelope.
From S2P Require Import TxTheorems.
From S2P Require Import Consensus.
From S2P Require CodeWitness.
From S2P Require Import Transitions.
From S2P Require Import Receipt.
From S2P Require TxEnv.
From S2P Require Import Executor.
From S2P Require Import Build.
From S2P Require Import Engine.
From S2P Require Import Payload.
From S2P Require Import Replay.

Import (hints) TxEnv.
Import NodeReceipt(ScrollReceipt).
Import TxEnvelope(ScrollTxEnvelope).

Section Sync.
Context `{AlloyForks} `{AlloyEips} `{TxEnv.EvmTypesLaws} `{Rlp} `{!EthTxsLaws} `{!RlpLaws} `{!TxEnv.Zstd}
  `{!Eip2718} `{ReceiptRlp} `{!AssemblyTypes} `{!AssemblyLaws} `{RevmAccounts} `{SystemAddresses} {S : Type}
  `{DogeosHardforks S} `{EthChainSpec S} `{ChainConfig S} `{!ChainId S} {DB E : Type} `{Database DB E}
  `{DatabaseView DB} `{!DatabaseLaws DB E} `{!Revm DB} `{!ReadErrors EVMError} `{!RevmLaws DB}
  `{!ReplayLaws DB} `{!InvalidTxErrors EVMError} `{BlockBuilderLaws} `{!ChainConstants} `{RethConsensusLaws}
  `{!ScrollContext DB}.
Context (show show_debug : E -> string) (keccak256 : bytes -> B256)
  (rlp_error_from : Eip2718Error -> RlpError) {SigError : Type}
  (recover : Signature -> B256 -> result Address SigError)
  (effective_tip_per_gas : ScrollTxEnvelope -> Z -> option Z) {P : Type} `{!BestTransactions P}.
Context (W : Type) (s : S) (config : ScrollBuilderConfig) (seal_of : Header -> B256) (now : option Z)
  (no_op : CodeWitness.Inspector).

Abbreviation Exec := (ScrollBlockExecutor S L1BlockInfo DB).
Abbreviation ScrollBlock := (AssembledBlock ScrollTxEnvelope).

(** ** The node that follows *)

Inductive SyncFailure : Type :=
| HeaderRefused (e : ConsensusError)
| ImportFailed (f : ImportFailure (E := E)).

Definition unread (f : SyncFailure) : Prop :=
  match f with HeaderRefused _ => False | ImportFailed f => read_failure f end.

(** One block: the header alone, the header on its parent, the import. *)
Definition sync_block (dbi : DB) (parent : Header) (seal : B256) (block : ScrollBlock) :
    result (BlockExecutionResult * Exec) SyncFailure :=
  let? _ := map_err HeaderRefused (validate_header now (ab_header block)) in
  let? _ := map_err HeaderRefused (validate_header_against_parent (ab_header block) parent seal) in
  map_err ImportFailed (import_block show show_debug recover s parent seal no_op dbi block).

Fixpoint sync (dbi : DB) (parent : Header) (seal : B256) (blocks : list ScrollBlock) :
    result DB SyncFailure :=
  match blocks with
  | [] => Ok dbi
  | block :: blocks =>
      let? '(_, y) := sync_block dbi parent seal block in
      sync (evm_db (evm y)) (ab_header block) (seal_of (ab_header block)) blocks
  end.

(** ** The node that builds *)

(** A block built on a parent and a state, whatever pool, clock and cancellation it
    was built with, and the state the build left. Its attributes are arbitrary but
    for what consensus asks: a time between the parent's and now, a gas limit,
    where they set one, within the bound of the parent's, and, where the chain has
    no fee vault, no fee recipient. *)
Inductive built_on (db0 : DB) (parent : Header) (seal : B256) (block : ScrollBlock) : DB -> Prop :=
| Built (attributes : ScrollPayloadAttributes W) (best_txs : Z -> P) (is_cancelled : nat -> bool)
    (elapsed : nat -> Z) (is_better_payload : option U256 -> U256 -> bool) (fuel : nat)
    (best_payload : option U256) (h : option StateHook) (base_fee : Z) (db : DB)
    (info : ExecutionInfo) (b : Exec * list (ScrollTxEnvelope * Address)) (root : B256) :
    0 <= number parent < u64_max ->
    in_u64 (attributes_timestamp attributes) ->
    timestamp parent <= attributes_timestamp attributes ->
    (forall t, now = Some t -> attributes_timestamp attributes <= t) ->
    (forall g, spa_gas_limit attributes = Some g ->
       let bound := gas_limit parent / GAS_LIMIT_BOUND_DIVISOR in
       gas_limit parent - bound <= g <= gas_limit parent + bound /\ MINIMUM_GAS_LIMIT <= g) ->
    is_Some (fee_vault_address (chain_config s))
      \/ pa_suggested_fee_recipient (payload_attributes attributes) = 0 ->
    fill_assumptions (P := P) keccak256 config attributes parent ->
    next_block_base_fee s db0 parent (attributes_timestamp attributes) = Returns (Ok base_fee, db) ->
    filled show show_debug keccak256 rlp_error_from recover effective_tip_per_gas is_cancelled elapsed
      best_txs is_better_payload fuel s db config attributes parent seal base_fee best_payload h info b ->
    assemble_block (evm_finish (evm b.1)).2 (context_for_next_block seal) (map fst b.2)
      (receipts b.1) (gas_used b.1) root = Ok block ->
    built_on db0 parent seal block (evm_db (evm b.1)).

(** Blocks built one on the other, each on a state with the contents the one
    before left. *)
Inductive built_chain : DB -> Header -> B256 -> list ScrollBlock -> DB -> Prop :=
| ChainEnd db parent seal : built_chain db parent seal [] db
| ChainBlock db parent seal block left db' blocks final :
    built_on db parent seal block left -> same_contents left db' ->
    built_chain db' (ab_header block) (seal_of (ab_header block)) blocks final ->
    built_chain db parent seal (block :: blocks) final.

(** ** Lemmas *)

(** The gas limit stays within the bound and above the minimum. *)
Lemma chosen_gas_limit (attributes : option Z) (parent : Z) :
  (forall g, bc_gas_limit config = Some g -> in_u64 g /\ MINIMUM_GAS_LIMIT <= g) ->
  in_u64 parent -> MINIMUM_GAS_LIMIT <= parent ->
  let bound := parent / GAS_LIMIT_BOUND_DIVISOR in
  (forall g, attributes = Some g -> parent - bound <= g <= parent + bound /\ MINIMUM_GAS_LIMIT <= g) ->
  let limit := next_block_gas_limit attributes (bc_gas_limit config) parent in
  parent - bound <= limit <= parent + bound /\ MINIMUM_GAS_LIMIT <= limit.
Proof.
  intros Ht Hp Hm bound Ha limit. unfold limit. destruct attributes as [g|]; [by apply Ha|].
  pose proof bound_divisor_positive. destruct (bc_gas_limit config) as [t|].
  - destruct (Ht t eq_refl) as [Htr Htm].
    destruct (gas_limit_step t parent Htr Hp) as (Hs & Hb & Hup & Hdown). fold bound in Hs, Hb, Hup, Hdown. lia.
  - simpl. assert (0 <= bound) by (apply Z.div_pos; solve_ints). lia.
Qed.

(** The base fee of a next block is within the limit of consensus. *)
Lemma next_fee_capped (db : DB) parent t fee db' :
  next_block_base_fee s db parent t = Returns (Ok fee, db') -> fee <= 420000000000000.
Proof.
  unfold next_block_base_fee. destruct (from_header parent) as [p|]; [|done]. intros [= E'].
  apply for_parent_reads in E' as ->.
  pose proof (max_l2_base_fee_le s t) as Hm. unfold MAX_L2_BASE_FEE in Hm.
  unfold expected_base_fee. etransitivity; [apply with_overhead_le|exact Hm].
Qed.

(** What the chosen gas limit needs of the configuration and of the parent. *)
Definition ramp_target_ok : Prop :=
  forall g, bc_gas_limit config = Some g -> in_u64 g /\ MINIMUM_GAS_LIMIT <= g.

Definition parent_limit_ok (parent : Header) : Prop :=
  in_u64 (gas_limit parent) /\ MINIMUM_GAS_LIMIT <= gas_limit parent.

(** A block another node built is accepted, and the state it leaves has the
    contents of the build; its gas limit is one the next build can start from. *)
Lemma sync_block_replays (db0 dbi : DB) parent seal block left :
  BEACON_NONCE = 0 -> pool_signed (P := P) recover -> ramp_target_ok -> parent_limit_ok parent ->
  built_on db0 parent seal block left -> same_contents db0 dbi ->
  parent_limit_ok (ab_header block)
  /\ match sync_block dbi parent seal block with
     | Ok (_, y) => same_contents left (evm_db (evm y))
     | Err f => unread f
     end.
Proof.
  intros Hnonce Hsig Htarget [Hpl Hpm] Hb Hd.
  destruct Hb as [attributes best_txs is_cancelled elapsed is_better_payload fuel best_payload h base_fee
    db info b root Hn Hts Hpts Hnow Hgl Hv Ha Hfee Hf Hb].
  destruct (chosen_gas_limit (spa_gas_limit attributes) (gas_limit parent) Htarget Hpl Hpm Hgl) as [Hbound Hmin].
  destruct (filled_parts _ _ _ _ _ _ _ _ _ _ _ _ _ _ _ _ _ _ _ _ info b Ha Hf)
    as (_ & _ & _ & _ & _ & _ & _ & _ & _ & _ & _ & _ & _ & [_ Hgas Hrange _ _] & _).
  destruct (assembled_headers s parent seal (next_attributes config attributes parent base_fee)
    (map fst b.2) (receipts b.1) (gas_used b.1) root now Hnonce) as (block' & Hb' & Hh & Hp & _ & _ & _ & Hl).
  { split; try done. exact (next_fee_capped _ _ _ _ _ Hfee). }
  { rewrite Hgas. apply Hrange. }
  pose proof Hb as Hb2.
  erewrite assemble_block_env in Hb2 by (by eapply filled_env).
  rewrite Hb' in Hb2. injection Hb2 as ->. split.
  { unfold parent_limit_ok. rewrite Hl. split; [apply Ha|exact Hmin]. }
  unfold sync_block. rewrite Hh, Hp. cbn [map_err rbind].
  pose proof (import_replay show show_debug keccak256 rlp_error_from recover effective_tip_per_gas
    is_cancelled elapsed best_txs is_better_payload fuel s db config attributes parent seal base_fee
    best_payload h db0 dbi no_op info b root block Hn Hts Hv Ha Hsig Hfee Hf Hb Hd) as Hr.
  destruct (import_block _ _ _ _ _ _ _ _ _) as [[result y]|f]; [|exact Hr].
  destruct Hr as [Halike _]. by destruct (Halike true) as [_ _ _ _ [_ _ _ _ _ Hc] _].
Qed.

(** ** Properties *)

(** C2: A node that follows another accepts all it builds. Take blocks one node
    built one on the other, each with its own pool, clock and attributes, from
    some state and parent. A node that starts on a state with the same contents
    refuses none of them: every header passes the header checks and those
    against its parent, every block its import, and the last state has the
    contents of the builder's last. The only other outcome is that a read of
    its database fails on the way. *)
Theorem follower_accepts_chain (db0 final dbi : DB) (parent : Header) (seal : B256)
    (blocks : list ScrollBlock) :
  BEACON_NONCE = 0 -> pool_signed (P := P) recover -> ramp_target_ok -> parent_limit_ok parent ->
  built_chain db0 parent seal blocks final -> same_contents db0 dbi ->
  match sync dbi parent seal blocks with
  | Ok dbi' => same_contents final dbi'
  | Err f => unread f
  end.
Proof.
  intros Hnonce Hsig Htarget Hl Hc. revert dbi Hl.
  induction Hc as [db parent seal|db parent seal block left db' blocks final Hb Hleft _ IH];
    intros dbi Hl Hd; [exact Hd|].
  destruct (sync_block_replays db dbi parent seal block left Hnonce Hsig Htarget Hl Hb Hd) as [Hl' Hs].
  cbn [sync]. destruct (sync_block dbi parent seal block) as [[result y]|f]; [|exact Hs].
  apply IH; [exact Hl'|]. by rewrite <- Hleft.
Qed.
End Sync.

(** ** Witness *)

(** Attributes of a block at a time, with the gas limit left to the builder. *)
Definition sample_at (t : Z) (forced : list bytes) : ScrollPayloadAttributes Z :=
  {| payload_attributes :=
       {| pa_timestamp := t; pa_prev_randao := 7; pa_suggested_fee_recipient := 9;
          pa_withdrawals := None; pa_parent_beacon_block_root := None |};
     spa_transactions := Some forced; no_tx_pool := false;
     block_data_hint := block_data_hint (sample_request [] None); spa_gas_limit := None |}.

Abbreviation sample_seal := difficulty.

(** Two blocks: two forced transactions and a pool of three, then a pool of one. *)
Definition sample_fill (db : MemDb) (t : Z) (forced : list bytes) (pool : list bool) (parent : Header)
    (seal : B256) (fee : Z) :=
  fill (E := unit) (Revm0 := ref_revm) show_unit show_unit sample_hash sample_error sample_recover
    (fun _ _ => Some 3) (fun _ => false) (fun _ => 5) (fun _ => pool) (fun _ _ => true) 4
    sample_config (sample_at t forced) None
    (filled_from (new_schedule []) db sample_config (sample_at t forced) parent seal fee None).

Definition sample_block (db : MemDb) (t : Z) (forced : list bytes) (pool : list bool) (parent : Header)
    (seal : B256) : option (Z * SampleBuilder * AssembledBlock ScrollTxEnvelope) :=
  match next_block_base_fee (new_schedule []) db parent t with
  | Returns (Ok fee, db) =>
      match sample_fill db t forced pool parent seal fee with
      | (Ok (Some (Filled _)), b) =>
          match assemble_block (evm_finish (evm b.1)).2 (context_for_next_block seal) (map fst b.2)
                  (receipts b.1) (gas_used b.1) 9 with
          | Ok block => Some (fee, b, block)
          | Err _ => None
          end
      | _ => None
      end
  | _ => None
  end.

Abbreviation sample_built_on := (built_on (E := unit) (Revm0 := ref_revm) (P := list bool) show_unit show_unit
  sample_hash sample_error sample_recover (fun _ _ => Some 3) Z (new_schedule []) sample_config (Some 60)).

Lemma sample_at_assumptions t forced parent :
  in_u64 (gas_limit parent) -> total_bytes forced <= u64_max ->
  fill_assumptions (P := list bool) sample_hash sample_config (sample_at t forced) parent.
Proof. intros Hl Hb. split; [exact Hl|vm_compute; split; done|by intros []|exact Hb]. Qed.

Lemma sample_block_built db t forced pool parent seal fee b block :
  sample_block db t forced pool parent seal = Some (fee, b, block) ->
  0 <= number parent < u64_max -> timestamp parent <= t <= 60 -> 0 <= t ->
  in_u64 (gas_limit parent) -> total_bytes forced <= u64_max ->
  sample_built_on db parent seal block (evm_db (evm b.1)).
Proof.
  unfold sample_block. intros Hs Hn Ht Ht0 Hl Hf.
  destruct (next_block_base_fee _ db parent t) as [[[f|e] db1]|] eqn:Efee; [|done..].
  destruct (sample_fill _ _ _ _ _ _ _) as [[[[| |info]|]|e] b'] eqn:Efill; try done.
  destruct (assemble_block _ _ _ _ _ _) as [block'|] eqn:Eb; [|done]. injection Hs as -> -> ->.
  eapply Built with (attributes := sample_at t forced) (best_txs := fun _ => pool)
    (is_cancelled := fun _ => false) (elapsed := fun _ => 5) (is_better_payload := fun _ _ => true)
    (fuel := 4%nat) (best_payload := None) (h := None);
    [exact Hn|cbn; solve_ints|apply Ht|intros u [= <-]; apply Ht|discriminate|left; exact sample_vault
    |by apply sample_at_assumptions|exact Efee|exact Efill|exact Eb].
Qed.

Definition sample_sync (blocks : list (AssembledBlock ScrollTxEnvelope)) :=
  sync (E := unit) (Revm0 := ref_revm) show_unit show_unit sample_recover (new_schedule []) sample_seal (Some 60)
    (CodeWitness.new_inspector 0 0) fresh_db sample_parent_header 777 blocks.

(** An option that holds a value with a property, by evaluation. *)
Lemma holds_value {A} (o : option A) (f : A -> bool) :
  match o with Some x => f x | None => false end = true -> exists x, o = Some x /\ f x = true.
Proof. destruct o as [x|]; [|done]. intros Hx. by exists x. Qed.

Definition SampleBuilt : Type := Z * SampleBuilder * AssembledBlock ScrollTxEnvelope.

Abbreviation first_block :=
  (sample_block fresh_db 51 sample_forced [true; false; true] sample_parent_header 777).

Abbreviation second_block x :=
  (sample_block (evm_db (evm x.1.2.1)) 52 [] [true] (ab_header x.2) (sample_seal (ab_header x.2))).

(** The sample chain can be built and followed. *)
Lemma sample_chain_holds :
  exists x1 : SampleBuilt, first_block = Some x1
    /\ (number (ab_header x1.2) =? 6) && (timestamp (ab_header x1.2) =? 51)
       && (gas_limit (ab_header x1.2) =? 20000000)
       && match second_block x1 with Some x2 => is_ok (sample_sync [x1.2; x2.2]) | None => false end = true.
Proof.
  apply (holds_value _ (fun x1 : SampleBuilt =>
    (number (ab_header x1.2) =? 6) && (timestamp (ab_header x1.2) =? 51)
    && (gas_limit (ab_header x1.2) =? 20000000)
    && match second_block x1 with Some x2 => is_ok (sample_sync [x1.2; x2.2]) | None => false end)).
  vm_compute. reflexivity.
Qed.

Abbreviation sample_built_chain := (built_chain (E := unit) (Revm0 := ref_revm) (P := list bool) show_unit
  show_unit sample_hash sample_error sample_recover (fun _ _ => Some 3) Z (new_schedule []) sample_config
  sample_seal (Some 60)).

Lemma sample_chain_built :
  exists block1 block2 final,
    sample_built_chain fresh_db sample_parent_header 777 [block1; block2] final
    /\ is_ok (sample_sync [block1; block2]) = true.
Proof.
  destruct sample_chain_holds as ([[f1 b1] block1] & E1 & Hr).
  rewrite !andb_true_iff in Hr. destruct Hr as [[[Hn Ht] Hg] Hr].
  destruct (holds_value (second_block (f1, b1, block1)) (fun x2 => is_ok (sample_sync [block1; x2.2])) Hr)
    as ([[f2 b2] block2] & E2 & Hok). clear Hr. cbn in Hn, Ht, Hg.
  apply Z.eqb_eq in Hn, Ht, Hg.
  apply sample_block_built in E1; [|vm_compute; split; done|vm_compute; split; discriminate|done
    |vm_compute; split; discriminate|vm_compute; discriminate].
  apply sample_block_built in E2; cbn [snd];
    [|rewrite Hn; vm_compute; split; done|rewrite Ht; lia|done
    |rewrite Hg; vm_compute; split; discriminate|vm_compute; discriminate].
  exists block1, block2, (evm_db (evm b2.1)). split; [|exact Hok].
  eapply ChainBlock; [exact E1|by split|]. eapply ChainBlock; [exact E2|by split|]. apply ChainEnd.
Qed.

Lemma follower_accepts_chain_witness :
  exists block1 block2 final db,
    sample_built_chain fresh_db sample_parent_header 777 [block1; block2] final
    /\ sample_sync [block1; block2] = Ok db /\ same_contents final db.
Proof.
  destruct sample_chain_built as (block1 & block2 & final & Hc & Hok).
  assert (match sample_sync [block1; block2] with
          | Ok db => same_contents final db | Err f => unread f end) as H.
  { eapply follower_accepts_chain; [| | | |exact Hc|by split];
      [reflexivity|exact sample_pool_signed|done|vm_compute; repeat split; discriminate]. }
  destruct (sample_sync [block1; block2]) as [db|f] eqn:Es; [|discriminate].
  exists block1, block2, final, db. split; [exact Hc|]. split; [exact Es|exact H].
Defined.
