(* ===== verification/PoolTx.v ===== *)
(** * Pool transactions (dogeos-reth-txpool/src/transaction.rs)

    The transaction the pool holds: a recovered envelope with its cost and a
    cache of its encoding; and the data of reth's pool the other pool files
    build and take apart. *)

From stdpp Require Import prelude gmap list strings.
From Stdlib Require Import ZArith Lia.
From Stdlib Require Ascii.
From S2P Require Import Prelude.
From S2P Require Import Alloy.
From S2P Require Import AlloyRef.
From S2P Require Import TxType.
From S2P Require Import L1Message.
From S2P Require Import Envelope.
From S2P Require Import Pooled.

Import TxEnvelope(ScrollTxEnvelope).
Import PooledTx(ScrollPooledTransaction).

(** ** Data of [reth_transaction_pool] *)

Inductive TransactionOrigin : Type := Local | External | Private.

(** The blob sidecars of pool transactions. *)
Inductive EthBlobTransactionSidecar (Sidecar : Type) : Type :=
| SidecarNone
| SidecarMissing
| SidecarPresent (sidecar : Sidecar).
Arguments SidecarNone {Sidecar}.
Arguments SidecarMissing {Sidecar}.
Arguments SidecarPresent {Sidecar} sidecar.

(** A transaction that passed a validator, blob sidecar included when it has one. *)
Inductive ValidTransaction (Sidecar Tx : Type) : Type :=
| ValidPlain (transaction : Tx)
| ValidWithSidecar (transaction : Tx) (sidecar : Sidecar).
Arguments ValidPlain {Sidecar Tx} transaction.
Arguments ValidWithSidecar {Sidecar Tx} transaction sidecar.

Definition transaction_of {Sidecar Tx} (v : ValidTransaction Sidecar Tx) : Tx :=
  match v with ValidPlain tx => tx | ValidWithSidecar tx _ => tx end.

(** What the pool reports beside a valid transaction. *)
Record ValidFacts := {
  vf_balance : U256;
  vf_state_nonce : Z;
  vf_bytecode_hash : option B256;
  vf_propagate : bool;
  vf_authorities : option (list Address);
}.

Inductive TransactionValidationOutcome (Sidecar Tx Invalid Boxed : Type) : Type :=
| Valid (facts : ValidFacts) (transaction : ValidTransaction Sidecar Tx)
| Invalid (transaction : Tx) (error : Invalid)
| Error (hash : B256) (error : Boxed).
Arguments Valid {Sidecar Tx Invalid Boxed} facts transaction.
Arguments Invalid {Sidecar Tx Invalid Boxed} transaction error.
Arguments Error {Sidecar Tx Invalid Boxed} hash error.

(** [as_valid_transaction]. *)
Definition as_valid_transaction {Sidecar Tx I B} (o : TransactionValidationOutcome Sidecar Tx I B) :
    option (ValidTransaction Sidecar Tx) :=
  match o with Valid _ v => Some v | _ => None end.

(** ** The pool transaction *)

(** [Recovered<T>]: a value with its signer. *)
Abbreviation Recovered T := (T * Address)%type.

(** The cost [EthPooledTransaction::new] computes. *)
Class EthPool `{EthTxs} := { eth_pooled_cost : Recovered ScrollTxEnvelope -> U256 }.

(** Documented: the value plus the most the gas can cost, saturating. *)
Class EthPoolLaws `{EthPool} : Prop := {
  eth_pooled_cost_spec tx :
    eth_pooled_cost tx =
    saturating_add u256_max
      (saturating_mul u256_max (TxEnvelope.max_fee_per_gas tx.1) (TxEnvelope.gas_limit tx.1))
      (TxEnvelope.value tx.1);
}.

Section PoolTransaction.
Context `{EthPool} `{Rlp}.

(** [EthPooledTransaction] of reth: the recovered transaction, its cost and its
    encoded length. *)
Record EthPooledTransaction := {
  ep_transaction : Recovered ScrollTxEnvelope;
  ep_cost : U256;
  ep_encoded_length : Z;
}.

Definition eth_pooled (transaction : Recovered ScrollTxEnvelope) (encoded_length : Z) :
    EthPooledTransaction :=
  {| ep_transaction := transaction; ep_cost := eth_pooled_cost transaction;
     ep_encoded_length := encoded_length |}.

(** [encoded_2718] is the cell of the cache: empty, or set once. *)
Record DogeosPooledTransaction := {
  inner : EthPooledTransaction;
  encoded_2718_cell : option bytes;
}.

Definition new (transaction : Recovered ScrollTxEnvelope) (encoded_length : Z) : DogeosPooledTransaction :=
  {| inner := eth_pooled transaction encoded_length; encoded_2718_cell := None |}.

(** [get_or_init]: the cached bytes, and the cell with them. *)
Definition encoded_2718 (self : DogeosPooledTransaction) : bytes * DogeosPooledTransaction :=
  match encoded_2718_cell self with
  | Some encoded => (encoded, self)
  | None =>
      let encoded := TxEnvelope.encode_2718 (ep_transaction (inner self)).1 in
      (encoded, {| inner := inner self; encoded_2718_cell := Some encoded |})
  end.

Definition clone_into_consensus (self : DogeosPooledTransaction) : Recovered ScrollTxEnvelope :=
  ep_transaction (inner self).
Definition into_consensus (self : DogeosPooledTransaction) : Recovered ScrollTxEnvelope :=
  ep_transaction (inner self).
Definition consensus_ref (self : DogeosPooledTransaction) : Recovered ScrollTxEnvelope :=
  ep_transaction (inner self).

Definition from_pooled (transaction : Recovered ScrollPooledTransaction) : DogeosPooledTransaction :=
  let encoded_length := PooledTx.encode_2718_len transaction.1 in
  new (PooledTx.into_scroll_envelope transaction.1, transaction.2) encoded_length.

Definition hash (self : DogeosPooledTransaction) : B256 :=
  TxEnvelope.tx_hash (ep_transaction (inner self)).1.
Definition sender (self : DogeosPooledTransaction) : Address := (ep_transaction (inner self)).2.
Definition cost (self : DogeosPooledTransaction) : U256 := ep_cost (inner self).
Definition encoded_length (self : DogeosPooledTransaction) : Z := ep_encoded_length (inner self).

(** The [Transaction] methods are the envelope's. *)
#[export] Instance DogeosPooledTransaction_transaction : Transaction DogeosPooledTransaction := {
  tx_ty self := TxEnvelope.ty (consensus_ref self).1;
  tx_chain_id self := TxEnvelope.chain_id (consensus_ref self).1;
  tx_nonce self := TxEnvelope.nonce (consensus_ref self).1;
  tx_gas_limit self := TxEnvelope.gas_limit (consensus_ref self).1;
  tx_gas_price self := TxEnvelope.gas_price (consensus_ref self).1;
  tx_max_fee_per_gas self := TxEnvelope.max_fee_per_gas (consensus_ref self).1;
  tx_max_priority_fee_per_gas self := TxEnvelope.max_priority_fee_per_gas (consensus_ref self).1;
  tx_max_fee_per_blob_gas self := TxEnvelope.max_fee_per_blob_gas (consensus_ref self).1;
  tx_priority_fee_or_price self := TxEnvelope.priority_fee_or_price (consensus_ref self).1;
  tx_to self := match TxEnvelope.kind (consensus_ref self).1 with Call to => Some to | Create => None end;
  tx_kind self := TxEnvelope.kind (consensus_ref self).1;
  tx_value self := TxEnvelope.value (consensus_ref self).1;
  tx_input self := TxEnvelope.input (consensus_ref self).1;
  tx_access_list self := TxEnvelope.access_list (consensus_ref self).1;
  tx_blob_versioned_hashes self := TxEnvelope.blob_versioned_hashes (consensus_ref self).1;
  tx_authorization_list self := TxEnvelope.authorization_list (consensus_ref self).1;
  tx_is_dynamic_fee self := TxEnvelope.is_dynamic_fee (consensus_ref self).1;
  tx_effective_gas_price self := TxEnvelope.effective_gas_price (consensus_ref self).1;
  tx_is_create self := TxEnvelope.is_create (consensus_ref self).1;
}.

#[export] Instance DogeosPooledTransaction_scroll : ScrollTransaction DogeosPooledTransaction := {
  is_l1_message self := TxEnvelope.is_l1_message (ep_transaction (inner self)).1;
  queue_index self := TxEnvelope.queue_index (ep_transaction (inner self)).1;
}.

(** *** Blobs: none *)

Definition take_blob {Sidecar} (self : DogeosPooledTransaction) :
    EthBlobTransactionSidecar Sidecar * DogeosPooledTransaction := (SidecarNone, self).

Definition try_into_pooled_eip4844 {Sidecar} (self : DogeosPooledTransaction) (_sidecar : Sidecar) :
    option (Recovered ScrollPooledTransaction) := None.

Definition try_from_eip4844 {Sidecar} (_transaction : Recovered ScrollTxEnvelope) (_sidecar : Sidecar) :
    option DogeosPooledTransaction := None.

(** [NotBlobTransaction] with the type byte. *)
Definition validate_blob {Sidecar Settings} (self : DogeosPooledTransaction) (_sidecar : Sidecar)
    (_settings : Settings) : result unit Z := Err (tx_ty self).
End PoolTransaction.

(** ** A reference pool, for concrete runs *)

#[export] Instance ref_pool `{EthTxs} : EthPool := {
  eth_pooled_cost tx :=
    saturating_add u256_max
      (saturating_mul u256_max (TxEnvelope.max_fee_per_gas tx.1) (TxEnvelope.gas_limit tx.1))
      (TxEnvelope.value tx.1);
}.

#[export] Instance ref_pool_laws `{EthTxs} : EthPoolLaws.
Proof. by split. Qed.

(** ** Properties *)

(** Reading the encoding any number of times. *)
Definition read_encodings `{EthPool} `{Rlp} (n : nat) (self : DogeosPooledTransaction) :
    list bytes * DogeosPooledTransaction :=
  Nat.iter n (fun '(out, self) => let '(b, self) := encoded_2718 self in (out ++ [b], self)) ([], self).

(** A transaction from the network survives the pool: the pooled form goes
    to an envelope and back to itself with its signer, hash and type; it is
    never an L1 message; the length the pool records is the length of its
    encoding; and every read of the cached encoding, the first or a later one,
    gives that encoding and leaves the transaction as it was. *)
Theorem pool_transaction_roundtrip `{EthTxs} `{!EthPool} `{Rlp} `{!EthTxsLaws}
    (p : ScrollPooledTransaction) (signer : Address) (n : nat) :
  let t := from_pooled (p, signer) in
  let '(encodings, t') := read_encodings n t in
  PooledTx.try_into_pooled (into_consensus t').1 = Ok p
  /\ (into_consensus t').2 = signer /\ sender t' = signer
  /\ hash t' = PooledTx.hash p /\ tx_ty t' = PooledTx.ty p /\ is_l1_message t' = false
  /\ encodings = replicate n (PooledTx.encode_2718 p)
  /\ encoded_length t' = blen (PooledTx.encode_2718 p)
  /\ inner t' = inner t.
Proof.
  intros t.
  assert (Hread : forall k, let '(out, t') := read_encodings k t in
            out = replicate k (PooledTx.encode_2718 p) /\ inner t' = inner t
            /\ (encoded_2718_cell t' = None \/ encoded_2718_cell t' = Some (PooledTx.encode_2718 p))).
  { assert (He : TxEnvelope.encode_2718 (PooledTx.into_scroll_envelope p) = PooledTx.encode_2718 p)
      by (by destruct p).
    induction k as [|k IH]; [by split; [|split; [|left]]|].
    unfold read_encodings in *. simpl. destruct (Nat.iter k _ _) as [out u].
    destruct IH as (-> & Hi & Hc). unfold encoded_2718.
    destruct Hc as [Hc|Hc]; rewrite Hc, ?Hi; simpl; rewrite ?He;
      (split; [by rewrite replicate_cons_app|]); (split; [done|by right]). }
  specialize (Hread n). destruct (read_encodings n t) as [out t'].
  destruct Hread as (-> & Hi & _).
  unfold into_consensus, sender, hash, encoded_length, tx_ty, is_l1_message. simpl.
  unfold consensus_ref. rewrite Hi. simpl. repeat split; try (by destruct p).
  destruct p as [tx|tx|tx|tx]; simpl; [apply legacy_encode_len|apply typed_encode_len..].
Qed.

Definition sample_pooled : ScrollPooledTransaction :=
  PooledTx.Eip1559 (new_unhashed (T := RefTx 2) {| ref_byte := Ascii.ascii_of_nat 77 |} true).

Lemma pool_transaction_roundtrip_witness :
  (read_encodings 2 (from_pooled (sample_pooled, 9))).1
  = [PooledTx.encode_2718 sample_pooled; PooledTx.encode_2718 sample_pooled].
Proof.
  pose proof (pool_transaction_roundtrip sample_pooled 9 2) as H. cbv zeta in H.
  destruct (read_encodings 2 _) as [out t]. destruct H as (_ & _ & _ & _ & _ & _ & H & _). exact H.
Defined.
