(* ===== verification/PoolCapacity.v ===== *)
(** * Bounded admission (dogeos-reth-txpool/src/executor.rs)

    The executor that bounds waiting and running validations with two
    semaphores. A request is a future of its caller; the points where it can be
    suspended or cancelled, and the steps of the blocking job, are the labels
    of an executable step. It refines a bounded server that knows neither
    semaphores nor workers. *)

From stdpp Require Import prelude gmap list strings.
From Stdlib Require Import ZArith Lia.
From S2P Require Import Prelude.
From S2P Require Import PoolTx.

(** [Semaphore::MAX_PERMITS] of tokio; creating a larger semaphore panics. *)
Class Tokio := { MAX_PERMITS : Z }.

(** A semaphore by its available permits. *)
Record Semaphore := { available_permits : Z }.

Definition semaphore_new `{Tokio} (permits : Z) : outcome Semaphore :=
  if MAX_PERMITS <? permits then Panics "a semaphore may not have more than MAX_PERMITS permits"
  else Returns {| available_permits := permits |}.

(** [try_acquire_owned] fails when no permit is left; a waiting [acquire_owned]
    completes when one is. The semaphores are never closed. *)
Definition acquire (s : Semaphore) : option Semaphore :=
  if 0 <? available_permits s then Some {| available_permits := available_permits s - 1 |} else None.

Definition release (s : Semaphore) : Semaphore := {| available_permits := available_permits s + 1 |}.

Inductive ValidationCapacityError : Type :=
| Busy
| Worker (message : string).

(** ** The executor *)

Record DogeosValidationExecutor (V : Type) := {
  validator : V;
  inflight : Semaphore;
  workers : Semaphore;
}.
Arguments validator {V} _.
Arguments inflight {V} _.
Arguments workers {V} _.

Definition new `{Tokio} {V} (validator : V) (max_inflight additional_validation_tasks : Z) :
    outcome (DogeosValidationExecutor V) :=
  if negb (0 <? max_inflight) then Panics "admission capacity must be nonzero"
  else
    match semaphore_new max_inflight with
    | Panics msg => Panics msg
    | Returns inflight =>
        match semaphore_new (Z.min (saturating_add u64_max additional_validation_tasks 1) max_inflight) with
        | Panics msg => Panics msg
        | Returns workers => Returns {| validator := validator; inflight := inflight; workers := workers |}
        end
    end.

(** A request past its first semaphore: waiting for a worker; running on one, with
    its caller still there or cancelled; and with the worker already released. *)
Inductive Phase : Type :=
| Waiting
| Running (attached : bool)
| Finishing (attached panicked : bool).

Section Requests.
Context {V Tx Outcome : Type}.
(** The inner validator's answer, the hash of a transaction, the outcome that
    carries a capacity error, and the message of a worker that panicked. *)
Context (validate : V -> TransactionOrigin -> Tx -> Outcome) (tx_hash : Tx -> B256)
  (error_outcome : B256 -> ValidationCapacityError -> Outcome) (join_error : string).

Record Job := { job_origin : TransactionOrigin; job_tx : Tx; phase : Phase }.

Definition with_phase (j : Job) (p : Phase) : Job :=
  {| job_origin := job_origin j; job_tx := job_tx j; phase := p |}.

(** The shared executor with the requests that hold permits, and the answers
    callers have received, in order. *)
Record State := {
  executor : DogeosValidationExecutor V;
  jobs : gmap nat Job;
  answers : list (nat * Outcome);
}.

Definition set_inflight (e : DogeosValidationExecutor V) (s : Semaphore) : DogeosValidationExecutor V :=
  {| validator := validator e; inflight := s; workers := workers e |}.
Definition set_workers (e : DogeosValidationExecutor V) (s : Semaphore) : DogeosValidationExecutor V :=
  {| validator := validator e; inflight := inflight e; workers := s |}.

(** [validate_transaction] up to the wait for a worker. *)
Definition request (s : State) (id : nat) (origin : TransactionOrigin) (tx : Tx) : State :=
  match acquire (inflight (executor s)) with
  | None =>
      {| executor := executor s; jobs := jobs s;
         answers := answers s ++ [(id, error_outcome (tx_hash tx) Busy)] |}
  | Some inflight =>
      {| executor := set_inflight (executor s) inflight;
         jobs := <[id := {| job_origin := origin; job_tx := tx; phase := Waiting |}]> (jobs s);
         answers := answers s |}
  end.

(** The worker is acquired and the blocking job spawned: no suspension between. *)
Definition spawn (s : State) (id : nat) (j : Job) : option State :=
  match acquire (workers (executor s)) with
  | None => None
  | Some workers =>
      Some {| executor := set_workers (executor s) workers;
              jobs := <[id := with_phase j (Running true)]> (jobs s); answers := answers s |}
  end.

(** The caller drops its future: a waiting request gives its permit back, a
    running job goes on with both permits. *)
Definition cancel (s : State) (id : nat) (j : Job) : option State :=
  let detach p :=
    Some {| executor := executor s; jobs := <[id := with_phase j p]> (jobs s); answers := answers s |} in
  match phase j with
  | Waiting =>
      Some {| executor := set_inflight (executor s) (release (inflight (executor s)));
              jobs := delete id (jobs s); answers := answers s |}
  | Running true => detach (Running false)
  | Finishing true panicked => detach (Finishing false panicked)
  | Running false | Finishing false _ => None
  end.

(** The validation returns or panics; the permits are dropped, the worker's first. *)
Definition finish (s : State) (id : nat) (j : Job) (attached panicked : bool) : State :=
  {| executor := set_workers (executor s) (release (workers (executor s)));
     jobs := <[id := with_phase j (Finishing attached panicked)]> (jobs s); answers := answers s |}.

(** The job is over: the last permit is dropped, and a caller that is still there
    receives the outcome or the worker's error. *)
Definition complete (s : State) (id : nat) (j : Job) (attached panicked : bool) : State :=
  let outcome :=
    if panicked then error_outcome (tx_hash (job_tx j)) (Worker join_error)
    else validate (validator (executor s)) (job_origin j) (job_tx j) in
  {| executor := set_inflight (executor s) (release (inflight (executor s)));
     jobs := delete id (jobs s);
     answers := if attached then answers s ++ [(id, outcome)] else answers s |}.

Inductive Event : Type :=
| Request (id : nat) (origin : TransactionOrigin) (tx : Tx)
| Spawn (id : nat)
| Cancel (id : nat)
| Finish (id : nat) (panicked : bool)
| Complete (id : nat).

Definition step (s : State) (e : Event) : option State :=
  match e with
  | Request id origin tx =>
      match jobs s !! id with Some _ => None | None => Some (request s id origin tx) end
  | Spawn id =>
      match jobs s !! id with
      | Some j => match phase j with Waiting => spawn s id j | _ => None end
      | None => None
      end
  | Cancel id => match jobs s !! id with Some j => cancel s id j | None => None end
  | Finish id panicked =>
      match jobs s !! id with
      | Some j => match phase j with Running a => Some (finish s id j a panicked) | _ => None end
      | None => None
      end
  | Complete id =>
      match jobs s !! id with
      | Some j =>
          match phase j with Finishing a panicked => Some (complete s id j a panicked) | _ => None end
      | None => None
      end
  end.

Definition initial (e : DogeosValidationExecutor V) : State :=
  {| executor := e; jobs := ∅; answers := [] |}.

(** ** The promise: a bounded server

    It accepts a request when fewer than [capacity] are accepted and refuses it
    at once otherwise; an accepted request counts until it is answered, is
    withdrawn before it started, or ends unheard after its caller left. *)

Record Server := {
  capacity : Z;
  accepted : gmap nat (TransactionOrigin * Tx * bool);
  heard : list (nat * Outcome);
}.

Inductive ServerEvent : Type :=
| Ask (id : nat) (origin : TransactionOrigin) (tx : Tx)
| Withdraw (id : nat)
| Leave (id : nat)
| Answer (id : nat) (panicked : bool).

Definition server_step (v : V) (s : Server) (e : ServerEvent) : option Server :=
  match e with
  | Ask id origin tx =>
      match accepted s !! id with
      | Some _ => None
      | None =>
          Some
            (if Z.of_nat (size (accepted s)) <? capacity s then
               {| capacity := capacity s; accepted := <[id := (origin, tx, true)]> (accepted s);
                  heard := heard s |}
             else
               {| capacity := capacity s; accepted := accepted s;
                  heard := heard s ++ [(id, error_outcome (tx_hash tx) Busy)] |})
      end
  | Withdraw id =>
      match accepted s !! id with
      | Some (_, _, true) =>
          Some {| capacity := capacity s; accepted := delete id (accepted s); heard := heard s |}
      | _ => None
      end
  | Leave id =>
      match accepted s !! id with
      | Some (origin, tx, true) =>
          Some {| capacity := capacity s; accepted := <[id := (origin, tx, false)]> (accepted s);
                  heard := heard s |}
      | _ => None
      end
  | Answer id panicked =>
      match accepted s !! id with
      | Some (origin, tx, listening) =>
          let outcome :=
            if panicked then error_outcome (tx_hash tx) (Worker join_error)
            else validate v origin tx in
          Some {| capacity := capacity s; accepted := delete id (accepted s);
                  heard := if listening : bool then heard s ++ [(id, outcome)] else heard s |}
      | None => None
      end
  end.
End Requests.

Arguments Job Tx : clear implicits.
Arguments State V Tx Outcome : clear implicits.
Arguments Server Tx Outcome : clear implicits.
Arguments Event Tx : clear implicits.
Arguments ServerEvent Tx : clear implicits.

(** ** Weights of the jobs *)

Definition weigh {A} (w : A -> Z) (m : gmap nat A) : Z := map_fold (fun _ x n => w x + n) 0 m.

Section Weigh.
Context {A : Type} (w : A -> Z).

Lemma weigh_new i x m : m !! i = None -> weigh w (<[i := x]> m) = w x + weigh w m.
Proof. intros Hm. unfold weigh. apply (map_fold_insert_L (fun _ x n => w x + n)); [intros; lia|done]. Qed.

Lemma weigh_delete i x m : m !! i = Some x -> weigh w (delete i m) = weigh w m - w x.
Proof.
  intros Hm. rewrite <- (insert_delete_id m i x Hm) at 2.
  rewrite weigh_new by apply lookup_delete_eq. lia.
Qed.

Lemma weigh_update i x y m : m !! i = Some x -> weigh w (<[i := y]> m) = weigh w m - w x + w y.
Proof.
  intros Hm. rewrite <- insert_delete_eq, weigh_new by apply lookup_delete_eq.
  rewrite (weigh_delete i x) by done. lia.
Qed.

Lemma weigh_bounds lo hi m :
  (forall x, lo <= w x <= hi) -> lo * Z.of_nat (size m) <= weigh w m <= hi * Z.of_nat (size m).
Proof.
  intros Hw. induction m as [|i x m Hi IH] using map_ind.
  - unfold weigh. rewrite map_fold_empty, map_size_empty. lia.
  - rewrite weigh_new, map_size_insert_None by done. specialize (Hw x). lia.
Qed.

Lemma weigh_positive m : (forall x, 0 <= w x) -> 0 < weigh w m -> exists i x, m !! i = Some x /\ 0 < w x.
Proof.
  intros Hw. induction m as [|i x m Hi IH] using map_ind; [unfold weigh; rewrite map_fold_empty; lia|].
  rewrite weigh_new by done. intros Hp. destruct (decide (0 < w x)).
  - exists i, x. by rewrite lookup_insert_eq.
  - destruct IH as (j & y & Hj & Hy); [lia|]. exists j, y. split; [|done].
    rewrite lookup_insert_ne; [done|]. intros ->. congruence.
Qed.
End Weigh.

(** One for a job on a worker, and the steps a job still has to take. *)
Definition phase_load (p : Phase) : Z := match p with Running _ => 1 | _ => 0 end.
Definition phase_steps (p : Phase) : Z :=
  match p with Waiting => 3 | Running _ => 2 | Finishing _ _ => 1 end.
Definition on_worker {Tx} (j : Job Tx) : Z := phase_load (phase j).
Definition steps_left {Tx} (j : Job Tx) : Z := phase_steps (phase j).
Definition listening {Tx} (j : Job Tx) : bool :=
  match phase j with Waiting => true | Running a | Finishing a _ => a end.

(** Every permit is in the semaphore or with a job that holds it. *)
Record permits_ok {V Tx Outcome} (v : V) (max slots : Z) (s : State V Tx Outcome) : Prop := {
  po_validator : validator (executor s) = v;
  po_inflight : available_permits (inflight (executor s)) + Z.of_nat (size (jobs s)) = max;
  po_workers : available_permits (workers (executor s)) + weigh on_worker (jobs s) = slots;
  po_nonneg : 0 <= available_permits (inflight (executor s))
              /\ 0 <= available_permits (workers (executor s));
}.

(** The number of workers a configuration gives. *)
Definition worker_slots (max additional : Z) : Z := Z.min (saturating_add u64_max additional 1) max.

Section Lemmas.
Context {V Tx Outcome : Type} (validate : V -> TransactionOrigin -> Tx -> Outcome) (tx_hash : Tx -> B256)
  (error_outcome : B256 -> ValidationCapacityError -> Outcome) (join_error : string) (v : V) (max slots : Z).

Abbreviation step := (step validate tx_hash error_outcome join_error).
Abbreviation server_step := (server_step validate tx_hash error_outcome join_error v).

Definition server_of (s : State V Tx Outcome) : Server Tx Outcome :=
  {| capacity := max; accepted := (fun j => (job_origin j, job_tx j, listening j)) <$> jobs s;
     heard := answers s |}.

(** What a step of the executor is to the server. *)
Definition server_events (s : State V Tx Outcome) (e : Event Tx) : list (ServerEvent Tx) :=
  match e with
  | Request id origin tx => [Ask id origin tx]
  | Spawn _ | Finish _ _ => []
  | Cancel id =>
      match phase <$> jobs s !! id with
      | Some Waiting => [Withdraw id]
      | Some _ => [Leave id]
      | None => []
      end
  | Complete id =>
      match phase <$> jobs s !! id with
      | Some (Finishing _ panicked) => [Answer id panicked]
      | _ => []
      end
  end.

Lemma new_permits `{Tokio} e additional :
  new v max additional = Returns e -> 0 <= additional ->
  0 < max /\ permits_ok v max (worker_slots max additional) (initial (Tx := Tx) (Outcome := Outcome) e).
Proof.
  unfold new, semaphore_new. intros He Ha. destruct (Z.ltb_spec 0 max); [|done]. simpl in He.
  repeat (case_match; try done). simplify_eq. split; [done|].
  split; simpl; try done; rewrite ?map_size_empty; unfold worker_slots, weigh; rewrite ?map_fold_empty;
    try lia; solve_ints.
Qed.

Lemma acquire_spec s :
  match acquire s with
  | Some s' => 0 < available_permits s /\ available_permits s' = available_permits s - 1
  | None => available_permits s <= 0
  end.
Proof. unfold acquire. destruct (Z.ltb_spec 0 (available_permits s)); [by split|done]. Qed.

(** The counts after a job changes phase, and after it is gone. *)
Lemma jobs_update (m : gmap nat (Job Tx)) id j p :
  m !! id = Some j ->
  Z.of_nat (size (<[id := with_phase j p]> m)) = Z.of_nat (size m)
  /\ weigh on_worker (<[id := with_phase j p]> m)
     = weigh on_worker m - phase_load (phase j) + phase_load p.
Proof.
  intros Hm. rewrite map_size_insert_Some by (by eexists). split; [done|]. by rewrite (weigh_update _ _ j).
Qed.

Lemma jobs_delete (m : gmap nat (Job Tx)) id j :
  m !! id = Some j ->
  Z.of_nat (size (delete id m)) = Z.of_nat (size m) - 1
  /\ weigh on_worker (delete id m) = weigh on_worker m - phase_load (phase j).
Proof.
  intros Hm. split; [|by rewrite (weigh_delete _ _ j)]. rewrite <- (insert_delete_id m id j Hm) at 2.
  rewrite map_size_insert_None by apply lookup_delete_eq. lia.
Qed.

(** An entry of the server for a job. *)
Lemma server_lookup s id :
  accepted (server_of s) !! id
  = (fun j => (job_origin j, job_tx j, listening j)) <$> jobs s !! id.
Proof. apply lookup_fmap. Qed.

(** A change of phase that keeps the caller is invisible. *)
Lemma rephase_invisible s id j p :
  jobs s !! id = Some j -> listening (with_phase j p) = listening j ->
  (fun j => (job_origin j, job_tx j, listening j)) <$> (<[id := with_phase j p]> (jobs s))
  = accepted (server_of s).
Proof.
  intros Hj Hl. rewrite fmap_insert, Hl. apply insert_id. by rewrite server_lookup, Hj.
Qed.

(** Closes [permits_ok] from the counts after a step out of phase [Hp]. *)
Ltac permits Hp counts :=
  let Es := fresh "Es" in let Ew := fresh "Ew" in
  destruct counts as [Es Ew]; rewrite Hp in Ew; simpl in Ew; split; simpl; try done; lia.

Lemma request_server s id origin tx :
  permits_ok v max slots s -> jobs s !! id = None ->
  let s' := request tx_hash error_outcome s id origin tx in
  permits_ok v max slots s'
  /\ lsteps server_step (server_of s) [Ask id origin tx] = Some (server_of s').
Proof.
  intros [Hv Hi Hw [Hin Hwn]] Hj. cbn -[request server_of accepted]. rewrite server_lookup, Hj. cbn -[request].
  unfold request. pose proof (acquire_spec (inflight (executor s))) as Ha.
  cbn. rewrite map_size_fmap. destruct (acquire _) as [sem|].
  - destruct Ha as [Ha1 Ha2]. rewrite (proj2 (Z.ltb_lt _ _)) by lia. split.
    + split; simpl; rewrite ?map_size_insert_None, ?weigh_new by done; simpl; try done; lia.
    + unfold server_of. simpl. by rewrite fmap_insert.
  - rewrite (proj2 (Z.ltb_ge _ _)) by lia. by split.
Qed.

Lemma spawn_server s id j s' :
  permits_ok v max slots s -> jobs s !! id = Some j -> phase j = Waiting -> spawn s id j = Some s' ->
  permits_ok v max slots s' /\ server_of s' = server_of s.
Proof.
  intros [Hv Hi Hw [Hin Hwn]] Hj Hp. unfold spawn. pose proof (acquire_spec (workers (executor s))) as Ha.
  destruct (acquire _) as [sem|]; [|done]. intros [= <-]. destruct Ha as [Ha1 Ha2].
  split.
  - permits Hp (jobs_update (jobs s) id j (Running true) Hj).
  - unfold server_of. simpl. f_equal. apply rephase_invisible; [done|]. unfold listening. by rewrite Hp.
Qed.

Lemma finish_server s id j a panicked :
  permits_ok v max slots s -> jobs s !! id = Some j -> phase j = Running a ->
  let s' := finish s id j a panicked in
  permits_ok v max slots s' /\ server_of s' = server_of s.
Proof.
  intros [Hv Hi Hw [Hin Hwn]] Hj Hp. split.
  - permits Hp (jobs_update (jobs s) id j (Finishing a panicked) Hj).
  - unfold server_of. simpl. f_equal. apply rephase_invisible; [done|]. unfold listening. by rewrite Hp.
Qed.

Lemma complete_server s id j a panicked :
  permits_ok v max slots s -> jobs s !! id = Some j -> phase j = Finishing a panicked ->
  let s' := complete validate tx_hash error_outcome join_error s id j a panicked in
  permits_ok v max slots s'
  /\ lsteps server_step (server_of s) (server_events s (Complete id)) = Some (server_of s').
Proof.
  intros [Hv Hi Hw [Hin Hwn]] Hj Hp. split.
  - permits Hp (jobs_delete (jobs s) id j Hj).
  - cbn -[server_of accepted]. rewrite Hj. simpl fmap. rewrite Hp. cbn -[server_of accepted].
    rewrite server_lookup, Hj. simpl. replace (listening j) with a by (unfold listening; by rewrite Hp). rewrite <- Hv.
    unfold server_of. simpl. by rewrite fmap_delete.
Qed.

Lemma cancel_server s id j s' :
  permits_ok v max slots s -> jobs s !! id = Some j -> cancel s id j = Some s' ->
  permits_ok v max slots s'
  /\ lsteps server_step (server_of s) (server_events s (Cancel id)) = Some (server_of s').
Proof.
  intros [Hv Hi Hw [Hin Hwn]] Hj. unfold cancel. cbn -[server_of accepted lsteps]. rewrite Hj.
  simpl fmap. unfold lsteps. destruct (phase j) as [|[]|[] panicked] eqn:Hp; intros [= <-]; cbn -[server_of accepted];
    rewrite server_lookup, Hj; simpl; replace (listening j) with true by (unfold listening; by rewrite Hp);
    unfold server_of; simpl;
    rewrite ?fmap_insert, ?fmap_delete; (split; [|done]).
  - permits Hp (jobs_delete (jobs s) id j Hj).
  - 
    permits Hp (jobs_update (jobs s) id j (Running false) Hj).
  - 
    permits Hp (jobs_update (jobs s) id j (Finishing false panicked) Hj).
Qed.

(** The simulation of one step, with the invariant of the permits. *)
Lemma step_server s e s' :
  permits_ok v max slots s -> step s e = Some s' ->
  permits_ok v max slots s' /\ lsteps server_step (server_of s) (server_events s e) = Some (server_of s').
Proof.
  intros Hs E.
  destruct e as [id origin tx|id|id|id panicked|id]; cbn in E; destruct (jobs s !! id) as [j|] eqn:Hj; try done.
  - injection E as <-. by apply request_server.
  - destruct (phase j) eqn:Hp; try done. destruct (spawn_server s id j s' Hs Hj Hp E) as [? ->]. by split.
  - by eapply cancel_server.
  - destruct (phase j) eqn:Hp; try done. injection E as <-.
    destruct (finish_server s id j _ panicked Hs Hj Hp) as [? ->]. by split.
  - destruct (phase j) eqn:Hp; try done. injection E as <-. by apply complete_server.
Qed.
End Lemmas.

(** ** Progress *)

(** A step of the runtime: no new request, no cancellation. *)
Definition is_internal {Tx} (e : Event Tx) : bool :=
  match e with Spawn _ | Finish _ _ | Complete _ => true | Request _ _ _ | Cancel _ => false end.

Section Progress.
Context {V Tx Outcome : Type} (validate : V -> TransactionOrigin -> Tx -> Outcome) (tx_hash : Tx -> B256)
  (error_outcome : B256 -> ValidationCapacityError -> Outcome) (join_error : string) (v : V) (max slots : Z).

Abbreviation step := (step validate tx_hash error_outcome join_error).

Lemma internal_step_decreases s e s' :
  is_internal e = true -> step s e = Some s' ->
  weigh steps_left (jobs s') = weigh steps_left (jobs s) - 1.
Proof.
  intros Hi E. destruct e as [id origin tx|id|id|id panicked|id]; try done; cbn in E;
    destruct (jobs s !! id) as [j|] eqn:Hj; try done; destruct (phase j) eqn:Hp; try done.
  - unfold spawn in E. destruct (acquire _); [|done]. injection E as <-. simpl.
    rewrite (weigh_update _ _ j) by done. unfold steps_left. rewrite Hp. simpl. lia.
  - injection E as <-. simpl. rewrite (weigh_update _ _ j) by done. unfold steps_left. rewrite Hp. simpl. lia.
  - injection E as <-. simpl. rewrite (weigh_delete _ _ j) by done. unfold steps_left. rewrite Hp. simpl. lia.
Qed.

(** Three steps are enough for each job. *)
Lemma steps_left_bounds (m : gmap nat (Job Tx)) :
  Z.of_nat (size m) <= weigh steps_left m <= 3 * Z.of_nat (size m).
Proof.
  pose proof (weigh_bounds steps_left 1 3 m) as Hb. rewrite Z.mul_1_l in Hb. apply Hb.
  intros j. unfold steps_left. destruct (phase j); simpl; lia.
Qed.

Lemma internal_run_decreases s l s' :
  Forall (fun e => is_internal e = true) l -> lsteps step s l = Some s' ->
  weigh steps_left (jobs s') = weigh steps_left (jobs s) - Z.of_nat (length l).
Proof.
  intros Hl. revert s. induction Hl as [|e l He _ IH]; intros s; simpl; [intros [= <-]; lia|].
  destruct (step s e) as [s1|] eqn:E; [|done]. intros Hr. rewrite (IH s1 Hr).
  rewrite (internal_step_decreases _ _ _ He E). lia.
Qed.

(** While a job is left the runtime can take a step: a waiting job finds a free
    worker, or a running job can finish. *)
Lemma internal_progress s :
  permits_ok v max slots s -> 0 < slots -> jobs s <> ∅ ->
  exists e, is_internal e = true /\ is_Some (step s e).
Proof.
  intros [_ _ Hw [_ Hwn]] Hs Hne. apply map_choose in Hne as (id & j & Hj).
  assert (Hrun : forall i k a, jobs s !! i = Some k -> phase k = Running a ->
            exists e, is_internal e = true /\ is_Some (step s e)).
  { intros i k a Hi Hk. exists (Finish i false). cbn. rewrite Hi, Hk. by split; [|eexists]. }
  destruct (phase j) as [|a|a panicked] eqn:Hp.
  - destruct (Z.ltb_spec 0 (available_permits (workers (executor s)))) as [Ha|Ha].
    + exists (Spawn id). cbn. rewrite Hj, Hp. unfold spawn.
      pose proof (acquire_spec (workers (executor s))) as Hacq.
      destruct (acquire _); [by split; [|eexists]|lia].
    + destruct (weigh_positive on_worker (jobs s)) as (i & k & Hi & Hk); [|lia|].
      * intros x. unfold on_worker. destruct (phase x); simpl; lia.
      * unfold on_worker in Hk. destruct (phase k) eqn:Hpk; simpl in Hk; try lia. by eapply Hrun.
  - by eapply Hrun.
  - exists (Complete id). cbn. rewrite Hj, Hp. by split; [|eexists].
Qed.

(** Two idle executors with the same configuration are the same. *)
Lemma permits_idle (s1 s2 : State V Tx Outcome) :
  jobs s1 = ∅ -> jobs s2 = ∅ -> permits_ok v max slots s1 -> permits_ok v max slots s2 ->
  executor s1 = executor s2.
Proof.
  intros E1 E2 [Hv1 Hi1 Hw1 _] [Hv2 Hi2 Hw2 _]. rewrite E1 in *. rewrite E2 in *.
  unfold weigh in *. rewrite map_fold_empty, map_size_empty in *.
  destruct (executor s1) as [? [i1] [w1]], (executor s2) as [? [i2] [w2]]. simpl in *.
  f_equal; [congruence|f_equal; lia..].
Qed.

(** Permits after any run. *)
Lemma run_permits s l s' :
  permits_ok v max slots s -> lsteps step s l = Some s' -> permits_ok v max slots s'.
Proof.
  apply lsteps_invariant. intros s1 e s2 Hok E.
  by destruct (step_server validate tx_hash error_outcome join_error v max slots s1 e s2 Hok E).
Qed.
End Progress.

(** ** Properties *)

(** C11: The executor refines the bounded server: for every interleaving of
    requests, spawns, cancellations and completions, the answers the callers
    receive are those of a server of capacity [max_inflight] that accepts a
    request exactly when fewer are accepted, refuses it as busy at once
    otherwise, and answers an accepted one with the validator's outcome or its
    worker's panic; semaphores, workers and phases do not show. *)
Theorem executor_refines_server `{Tokio} {V Tx Outcome} (validate : V -> TransactionOrigin -> Tx -> Outcome)
    (tx_hash : Tx -> B256) (error_outcome : B256 -> ValidationCapacityError -> Outcome) (join_error : string)
    (v : V) (max additional : Z) (e : DogeosValidationExecutor V) (events : list (Event Tx))
    (s : State V Tx Outcome) :
  new v max additional = Returns e -> 0 <= additional ->
  lsteps (step validate tx_hash error_outcome join_error) (initial e) events = Some s ->
  exists server_run, lsteps (server_step validate tx_hash error_outcome join_error v)
      {| capacity := max; accepted := ∅; heard := [] |} server_run
    = Some {| capacity := max;
              accepted := (fun j => (job_origin j, job_tx j, listening j)) <$> jobs s;
              heard := answers s |}.
Proof.
  intros He Ha Hr. destruct (new_permits v max (Tx := Tx) (Outcome := Outcome) e additional He Ha) as [_ Hok].
  destruct (simulation_run (step validate tx_hash error_outcome join_error)
    (server_step validate tx_hash error_outcome join_error v) _ (server_of max) server_events
    (initial e) events s (step_server validate tx_hash error_outcome join_error v max _) Hok Hr) as [_ Hsim].
  eexists. unfold server_of in Hsim at 1. simpl in Hsim. rewrite fmap_empty in Hsim. exact Hsim.
Qed.

(** Capacity is conserved and never released early. After any run, the free
    permits and the requests that hold one add up to [max_inflight], and the
    free workers and the running validations to the configured workers, which
    are at least one; so neither bound is ever exceeded. A request is refused
    exactly when [max_inflight] are accepted, and a caller that leaves a running
    validation frees nothing. *)
Theorem capacity_conserved `{Tokio} {V Tx Outcome} (validate : V -> TransactionOrigin -> Tx -> Outcome)
    (tx_hash : Tx -> B256) (error_outcome : B256 -> ValidationCapacityError -> Outcome) (join_error : string)
    (v : V) (max additional : Z) (e : DogeosValidationExecutor V) (events : list (Event Tx))
    (s : State V Tx Outcome) :
  new v max additional = Returns e -> 0 <= additional ->
  lsteps (step validate tx_hash error_outcome join_error) (initial e) events = Some s ->
  let accepted := Z.of_nat (size (jobs s)) in
  let running := weigh on_worker (jobs s) in
  let slots := Z.min (Z.min (additional + 1) u64_max) max in
  1 <= slots /\ 0 <= running <= slots /\ running <= accepted <= max
  /\ available_permits (inflight (executor s)) = max - accepted
  /\ available_permits (workers (executor s)) = slots - running
  /\ (forall id origin tx s', step validate tx_hash error_outcome join_error s (Request id origin tx) = Some s' ->
      (accepted = max <-> answers s' = answers s ++ [(id, error_outcome (tx_hash tx) Busy)])
      /\ (accepted < max <-> size (jobs s') = S (size (jobs s))))
  /\ (forall id j s', jobs s !! id = Some j -> phase j = Running true ->
      step validate tx_hash error_outcome join_error s (Cancel id) = Some s' ->
      executor s' = executor s /\ size (jobs s') = size (jobs s)).
Proof.
  intros He Ha Hr accepted running slots.
  destruct (new_permits v max (Tx := Tx) (Outcome := Outcome) e additional He Ha) as [Hmax Hok].
  apply (run_permits _ _ _ _ v max _ _ _ _ Hok) in Hr. destruct Hr as [Hv Hi Hw [Hin Hwn]].
  assert (0 <= running <= accepted).
  { pose proof (weigh_bounds on_worker 0 1 (jobs s)) as Hb. unfold accepted, running.
    assert (forall x : Job Tx, 0 <= on_worker x <= 1) as Hx
      by (intros x; unfold on_worker; destruct (phase x); simpl; lia).
    specialize (Hb Hx). lia. }
  change (worker_slots max additional) with slots in Hw. unfold accepted, running in *.
  assert (1 <= slots) by (unfold slots; solve_ints).
  split; [done|]. split; [lia|]. split; [lia|]. split; [lia|]. split; [lia|]. split.
  - intros id origin tx s'. cbn. destruct (jobs s !! id) eqn:Hj; [done|]. intros [= <-].
    unfold request. pose proof (acquire_spec (inflight (executor s))) as Hacq.
    destruct (acquire _) as [sem|]; simpl.
    + rewrite map_size_insert_None by done. split; split; intros Hx; try lia.
      apply (f_equal length) in Hx. rewrite length_app in Hx. simpl in Hx. lia.
    + split; split; intros Hx; try lia; done.
  - intros id j s' Hj Hp. cbn. rewrite Hj. unfold cancel. rewrite Hp. intros [= <-]. simpl.
    split; [done|]. by rewrite map_size_insert_Some by (by eexists).
Qed.

(** C36: Admission always drains. From any reachable state, every run of the
    runtime alone takes at most three steps per accepted request, and where it
    cannot go on no request is left and all permits are back. *)
Theorem capacity_drains `{Tokio} {V Tx Outcome} (validate : V -> TransactionOrigin -> Tx -> Outcome)
    (tx_hash : Tx -> B256) (error_outcome : B256 -> ValidationCapacityError -> Outcome) (join_error : string)
    (v : V) (max additional : Z) (e : DogeosValidationExecutor V) (events internal : list (Event Tx))
    (s s' : State V Tx Outcome) :
  new v max additional = Returns e -> 0 <= additional ->
  let step := step validate tx_hash error_outcome join_error in
  lsteps step (initial e) events = Some s ->
  Forall (fun ev => is_internal ev = true) internal -> lsteps step s internal = Some s' ->
  (length internal <= 3 * size (jobs s))%nat
  /\ ((exists ev, is_internal ev = true /\ is_Some (step s' ev))
      \/ jobs s' = ∅ /\ executor s' = e).
Proof.
  intros He Ha step Hr Hint Hr'.
  destruct (new_permits v max (Tx := Tx) (Outcome := Outcome) e additional He Ha) as [Hmax Hok].
  pose proof (internal_run_decreases validate tx_hash error_outcome join_error s internal s' Hint Hr') as Hd.
  pose proof (steps_left_bounds (jobs s)). pose proof (steps_left_bounds (jobs s')).
  pose proof (run_permits _ _ _ _ v max _ _ _ _ (run_permits _ _ _ _ v max _ _ _ _ Hok Hr) Hr') as Hok'.
  split; [lia|]. destruct (decide (jobs s' = ∅)) as [Hz|Hz]; [right; split; [done|]|left].
  - by apply (permits_idle v max (worker_slots max additional) s' (initial e)).
  - apply (internal_progress _ _ _ _ v max (worker_slots max additional)); [done| |done].
    unfold worker_slots. solve_ints.
Qed.

(** ** Witnesses *)

#[local] Instance small_tokio : Tokio := { MAX_PERMITS := 2 ^ 61 - 1 }.

Definition sample_validate (v : Z) (_ : TransactionOrigin) (tx : Z) : Z * string := (v + tx, "validated"%string).
Definition sample_error (hash : B256) (e : ValidationCapacityError) : Z * string :=
  (hash, match e with Busy => "busy"%string | Worker m => m end).

Definition sample_executor : DogeosValidationExecutor Z :=
  {| validator := 100; inflight := {| available_permits := 2 |}; workers := {| available_permits := 1 |} |}.

(** Two requests run and wait, a third is refused, and the first caller leaves. *)
Definition sample_events : list (Event Z) :=
  [Request 0 External 7; Request 1 External 8; Request 2 Local 9; Spawn 0; Cancel 0].

Definition sample_run : option (State Z Z (Z * string)) :=
  lsteps (step sample_validate (fun tx => tx) sample_error "panicked") (initial sample_executor) sample_events.

Definition sample_state : State Z Z (Z * string) := default (initial sample_executor) sample_run.

Lemma executor_refines_server_witness :
  answers sample_state = [(2%nat, (9, "busy"%string))]
  /\ exists server_run, lsteps (server_step sample_validate (fun tx => tx) sample_error "panicked" 100)
       {| capacity := 2; accepted := ∅; heard := [] |} server_run
     = Some {| capacity := 2;
               accepted := (fun j => (job_origin j, job_tx j, listening j)) <$> jobs sample_state;
               heard := answers sample_state |}.
Proof.
  split; [vm_compute; reflexivity|].
  apply (executor_refines_server sample_validate (fun tx => tx) sample_error "panicked" 100 2 0
    sample_executor sample_events); [reflexivity|lia|vm_compute; reflexivity].
Defined.

Lemma capacity_conserved_witness :
  available_permits (inflight (executor sample_state)) = 0.
Proof.
  destruct (capacity_conserved sample_validate (fun tx => tx) sample_error "panicked" 100 2 0
    sample_executor sample_events sample_state) as (_ & _ & _ & H & _);
    [reflexivity|lia|vm_compute; reflexivity|].
  rewrite H. vm_compute. reflexivity.
Defined.

Lemma capacity_drains_witness :
  exists s', lsteps (step sample_validate (fun tx => tx) sample_error "panicked") sample_state
      [Finish 0 false; Spawn 1; Complete 0; Finish 1 true; Complete 1] = Some s'
    /\ answers s' = [(2%nat, (9, "busy"%string)); (1%nat, (8, "panicked"%string))]
    /\ ((exists ev, is_internal ev = true
          /\ is_Some (step sample_validate (fun tx => tx) sample_error "panicked" s' ev))
        \/ jobs s' = ∅ /\ executor s' = sample_executor).
Proof.
  eexists. split; [vm_compute; reflexivity|]. split; [reflexivity|].
  eapply (capacity_drains sample_validate (fun tx => tx) sample_error "panicked" 100 2 0
    sample_executor sample_events [Finish 0 false; Spawn 1; Complete 0; Finish 1 true; Complete 1] sample_state);
    [reflexivity|lia|vm_compute; reflexivity|repeat constructor|vm_compute; reflexivity].
Defined.
