(* ===== verification/PoolValidator.v ===== *)
(** * The pool's validator (dogeos-reth-txpool/src/validator.rs)

    Reth's validator with the DogeOS checks around it: transaction types, the L1
    data fee from a snapshot of the oracle, the node's admission check. The
    snapshot is kept in a cache that a task refreshes from the latest canonical
    head while that head moves; the cache fails closed. *)

From stdpp Require Import prelude gmap list strings.
From Stdlib Require Import ZArith Lia.
From S2P Require Import Prelude.
From S2P Require Import Hardforks.
From S2P Require Import Chain.
From S2P Require Import BaseFee.
From S2P Require Import Alloy.
From S2P Require Import AlloyRef.
From S2P Require Import TxType.
From S2P Require Import Envelope.
From S2P Require Import Transitions.
From S2P Require Import Receipt.
From S2P Require TxEnv.
From S2P Require Import Executor.
From S2P Require Import PoolTx.

Import (hints) TxEnv.

Definition MAX_ROLLUP_FEE_PRE_TSUKI : U256 := u64_max.
Definition MAX_ROLLUP_FEE_TSUKI : U256 := u64_max + u32_max * 2 ^ 64.
Definition MAX_L1_FEE_REFRESH_ATTEMPTS : nat := 3.

(** ** The node as the validator reads it

    A header with its hash; the client's reads. A read happens at some moment:
    it returns the node's state at that moment, and the head may have moved. *)

Record SealedHeader := { sealed_hash : B256; sealed_header : Header }.

Class Client (W DB E : Type) := {
  latest_header : W -> result (option SealedHeader) E * W;
  state_by_block_hash : W -> B256 -> result DB E * W;
}.

(** The head at a moment, and the order of moments. *)
Class ClientView (W E : Type) := {
  head : W -> result (option SealedHeader) E;
  moves : W -> W -> Prop;
}.

Class ClientLaws (W DB E : Type) `{Client W DB E} `{ClientView W E} : Prop := {
  moves_preorder :: PreOrder moves;
  latest_header_reads w r w' : latest_header w = (r, w') -> moves w w' /\ r = head w';
  state_by_hash_moves w h r w' : state_by_block_hash w h = (r, w') -> moves w w';
}.

(** ** Errors *)

Inductive DogeosL1FeeError (E : Type) : Type :=
| LatestHeaderRead (source : E)
| LatestHeaderNotFound
| ExactStateOpen (head_hash : B256) (number : Z) (source : E)
| OracleAccountRead (head_hash : B256) (number : Z) (source : E)
| OracleAccountNotFound (head_hash : B256) (number : Z)
| OracleStorageRead (head_hash : B256) (number : Z) (source : E)
| RefreshHeadMoved (attempts : nat) (target_head : B256) (target_number : Z)
    (latest_head : B256) (latest_number : Z)
| CacheUnavailable (source : DogeosL1FeeError E).
Arguments LatestHeaderRead {E} source.
Arguments LatestHeaderNotFound {E}.
Arguments ExactStateOpen {E} _ _ _.
Arguments OracleAccountRead {E} _ _ _.
Arguments OracleAccountNotFound {E} _ _.
Arguments OracleStorageRead {E} _ _ _.
Arguments RefreshHeadMoved {E} _ _ _ _ _.
Arguments CacheUnavailable {E} source.

Fixpoint head_context {E} (self : DogeosL1FeeError E) : option (B256 * Z) :=
  match self with
  | ExactStateOpen head_hash number _ | OracleAccountRead head_hash number _
  | OracleAccountNotFound head_hash number | OracleStorageRead head_hash number _ =>
      Some (head_hash, number)
  | RefreshHeadMoved _ _ _ latest_head latest_number => Some (latest_head, latest_number)
  | CacheUnavailable source => head_context source
  | LatestHeaderRead _ | LatestHeaderNotFound => None
  end.

(** The message, over the formatting of hashes and numbers. *)
Definition cache_unavailable_message {E} (show_hash : B256 -> string) (show_number : Z -> string)
    (source : DogeosL1FeeError E) : string :=
  match head_context source with
  | None => "DogeOS L1 fee state unavailable"
  | Some (head_hash, number) =>
      "DogeOS L1 fee state unavailable for canonical head " +:+ show_hash head_hash
      +:+ " (block #" +:+ show_number number +:+ ")"
  end.

(** The variants of [InvalidTransactionError] of reth the validator uses. *)
Inductive InvalidTransactionError : Type :=
| Eip4844Disabled
| TxTypeNotSupported
| GasUintOverflow
| InsufficientFunds (got expected : U256).

(** ** The snapshot and its cache *)

Record DogeosL1FeeSnapshot (L1 : Type) := {
  head_hash : B256;
  snapshot_timestamp : Z;
  snapshot_number : Z;
  snapshot_info : L1;
}.
Arguments head_hash {L1} _.
Arguments snapshot_timestamp {L1} _.
Arguments snapshot_number {L1} _.
Arguments snapshot_info {L1} _.

Inductive DogeosL1FeeCache (L1 E : Type) : Type :=
| Ready (snapshot : DogeosL1FeeSnapshot L1)
| Unavailable (error : DogeosL1FeeError E)
| Disabled.
Arguments Ready {L1 E} snapshot.
Arguments Unavailable {L1 E} error.
Arguments Disabled {L1 E}.

(** Reth's validator: a state with the fork tracker's Prague flag. *)
Class EthValidation (Tx Sidecar Inv Boxed : Type) := {
  EthTransactionValidator : Type;
  eth_validate_one : EthTransactionValidator -> TransactionOrigin -> Tx ->
    TransactionValidationOutcome Sidecar Tx Inv Boxed;
  prague : EthTransactionValidator -> bool;
  store_prague : EthTransactionValidator -> bool -> EthTransactionValidator;
  eth_on_new_head_block : EthTransactionValidator -> SealedHeader -> EthTransactionValidator;
}.

(** Documented: a valid outcome is about the transaction that was given, the
    flag is stored, and a new head never clears it. *)
Class EthValidationLaws (Tx Sidecar Inv Boxed : Type) `{EthValidation Tx Sidecar Inv Boxed} : Prop := {
  eth_valid_same v o tx facts valid : eth_validate_one v o tx = Valid facts valid -> transaction_of valid = tx;
  prague_stored v b : prague (store_prague v b) = b;
  prague_kept v h : prague v = true -> prague (eth_on_new_head_block v h) = true;
}.

Section Validator.
Context `{AlloyForks} `{TxEnv.EvmTypes} `{!EthPool} `{Rlp} `{!TxEnv.Zstd} `{ReceiptTypes}
  `{RevmAccounts} {S : Type} `{DogeosHardforks S} {DB E : Type} `{Database DB E} `{!Revm DB} {W : Type} `{!Client W DB E}
  {Sidecar Inv Boxed : Type} `{!EthValidation DogeosPooledTransaction Sidecar Inv Boxed}.
(** The fetch of the oracle's storage ([L1BlockInfo::try_fetch]), the pool's
    wrapping of an invalid transaction, and the boxing of errors. *)
Context (try_fetch : DB -> ScrollSpecId -> result L1BlockInfo E)
  (consensus_error : InvalidTransactionError -> Inv)
  (box_fee_error : DogeosL1FeeError E -> Boxed)
  (box_execution_error : BlockExecutionError EVMError -> Boxed).
Context (chain_spec : S).

Abbreviation Tx := DogeosPooledTransaction.
Abbreviation Outcome := (TransactionValidationOutcome Sidecar Tx Inv Boxed).
Abbreviation Snapshot := (DogeosL1FeeSnapshot L1BlockInfo).
Abbreviation FeeError := (DogeosL1FeeError E).
Abbreviation M := (sresult W FeeError).

(** *** Loading a snapshot *)

(** The checks and reads on the exact state of the head. *)
Definition load_from (provider : DB) (hash : B256) (timestamp number : Z) : result Snapshot FeeError :=
  match basic provider L1_GAS_PRICE_ORACLE_ADDRESS with
  | (Err source, _) => Err (OracleAccountRead hash number source)
  | (Ok None, _) => Err (OracleAccountNotFound hash number)
  | (Ok (Some _), database) =>
      let spec := spec_id_at_timestamp_and_number timestamp number chain_spec in
      match try_fetch database spec with
      | Err source => Err (OracleStorageRead hash number source)
      | Ok l1_block_info =>
          Ok {| head_hash := hash; snapshot_timestamp := timestamp; snapshot_number := number;
                snapshot_info := l1_block_info |}
      end
  end.

Definition load_for_head (hash : B256) (timestamp number : Z) : M Snapshot := fun w =>
  let '(provider, w) := state_by_block_hash w hash in
  match provider with
  | Err source => (Err (ExactStateOpen hash number source), w)
  | Ok provider => (load_from provider hash timestamp number, w)
  end.

(** The latest header, or why there is none. *)
Definition read_latest : M SealedHeader := fun w =>
  let '(header, w) := latest_header w in
  (rbind (map_err LatestHeaderRead header) (fun h => ok_or h LatestHeaderNotFound), w).

(** A header's snapshot. *)
Definition load_header (h : SealedHeader) : M Snapshot :=
  load_for_head (sealed_hash h) (timestamp (sealed_header h)) (number (sealed_header h)).

Definition load_latest : M Snapshot := header ← read_latest; load_header header.

(** *** The validator *)

Record DogeosTransactionValidator := {
  inner : EthTransactionValidator;
  l1_fee_cache : DogeosL1FeeCache L1BlockInfo E;
  admission_check : option (Tx -> result unit Boxed);
}.

Definition enable_prague_pool_rules (inner : EthTransactionValidator) : EthTransactionValidator :=
  store_prague inner true.

Definition new (inner : EthTransactionValidator) (snapshot : Snapshot) : DogeosTransactionValidator :=
  {| inner := enable_prague_pool_rules inner; l1_fee_cache := Ready snapshot; admission_check := None |}.

Definition disabled (inner : EthTransactionValidator) : DogeosTransactionValidator :=
  {| inner := enable_prague_pool_rules inner; l1_fee_cache := Disabled; admission_check := None |}.

Definition with_admission_check (self : DogeosTransactionValidator) (check : Tx -> result unit Boxed) :
    DogeosTransactionValidator :=
  {| inner := inner self; l1_fee_cache := l1_fee_cache self; admission_check := Some check |}.

Definition requires_l1_data_gas_fee (self : DogeosTransactionValidator) : bool :=
  match l1_fee_cache self with Disabled => false | _ => true end.

Definition set_cache (self : DogeosTransactionValidator) (cache : DogeosL1FeeCache L1BlockInfo E) :
    DogeosTransactionValidator :=
  {| inner := inner self; l1_fee_cache := cache; admission_check := admission_check self |}.

(** *** Validation *)

(** The L1 data fee of a transaction under a snapshot. *)
Definition snapshot_fee (snapshot : Snapshot) (tx : Tx) :
    outcome (result U256 (BlockExecutionError EVMError)) :=
  let encoded := TxEnvelope.encode_2718 (clone_into_consensus tx).1 in
  match TxEnv.compute_compression_ratio (tx_input tx), TxEnv.compute_compressed_size encoded with
  | Panics msg, _ | _, Panics msg => Panics msg
  | Returns ratio, Returns size =>
      Returns (l1_tx_data_fee (snapshot_info snapshot) chain_spec (snapshot_timestamp snapshot)
                 (snapshot_number snapshot) encoded (Some (ratio, size)) false)
  end.

Definition max_rollup_fee (timestamp : Z) : U256 :=
  if is_tsuki_active_at_timestamp chain_spec timestamp then MAX_ROLLUP_FEE_TSUKI
  else MAX_ROLLUP_FEE_PRE_TSUKI.

(** The fee and balance checks on a transaction reth's validator accepted. *)
Definition charge_l1_fee (snapshot : Snapshot) (facts : ValidFacts) (valid : ValidTransaction Sidecar Tx) :
    outcome Outcome :=
  let tx := transaction_of valid in
  match snapshot_fee snapshot tx with
  | Panics msg => Panics msg
  | Returns (Err error) => Returns (Error (hash tx) (box_execution_error error))
  | Returns (Ok l1_data_fee) =>
      Returns
        (let maximum := max_rollup_fee (snapshot_timestamp snapshot) in
         if maximum <=? l1_data_fee then Invalid tx (consensus_error GasUintOverflow)
         else
           let required := saturating_add u256_max (cost tx) l1_data_fee in
           if vf_balance facts <? required then
             Invalid tx (consensus_error (InsufficientFunds (vf_balance facts) required))
           else Valid facts valid)
  end.

Definition validate_basic (self : DogeosTransactionValidator) (origin : TransactionOrigin) (tx : Tx) :
    outcome Outcome :=
  if tx_ty tx =? 3 then Returns (Invalid tx (consensus_error Eip4844Disabled))
  else if is_l1_message tx then Returns (Invalid tx (consensus_error TxTypeNotSupported))
  else
    match l1_fee_cache self with
    | Unavailable source => Returns (Error (hash tx) (box_fee_error (CacheUnavailable source)))
    | Disabled => Returns (eth_validate_one (inner self) origin tx)
    | Ready snapshot =>
        match eth_validate_one (inner self) origin tx with
        | Valid facts valid => charge_l1_fee snapshot facts valid
        | outcome => Returns outcome
        end
    end.

Definition validate_one (self : DogeosTransactionValidator) (origin : TransactionOrigin) (tx : Tx) :
    outcome Outcome :=
  match validate_basic self origin tx with
  | Panics msg => Panics msg
  | Returns outcome =>
      Returns
        match admission_check self, as_valid_transaction outcome with
        | Some check, Some transaction =>
            match check (transaction_of transaction) with
            | Err error => Error (hash (transaction_of transaction)) error
            | Ok _ => outcome
            end
        | _, _ => outcome
        end
  end.

Definition on_new_head_block (self : DogeosTransactionValidator) (block : SealedHeader) :
    DogeosTransactionValidator :=
  {| inner := eth_on_new_head_block (inner self) block; l1_fee_cache := l1_fee_cache self;
     admission_check := admission_check self |}.

(** *** The refresh of the cache *)

Definition publish_l1_fee_refresh (self : DogeosTransactionValidator) (snapshot : result Snapshot FeeError) :
    bool * DogeosTransactionValidator :=
  match snapshot with
  | Ok snapshot => (true, set_cache self (Ready snapshot))
  | Err error => (false, set_cache self (Unavailable error))
  end.

(** The snapshot the cache holds, when it is of this head. *)
Definition ready_for (self : DogeosTransactionValidator) (hash : B256) : bool :=
  match l1_fee_cache self with Ready snapshot => head_hash snapshot =? hash | _ => false end.

Fixpoint refresh_attempts (self : DogeosTransactionValidator) (attempts : list nat) (w : W) :
    outcome (bool * DogeosTransactionValidator) * W :=
  match attempts with
  | [] => (Panics "bounded refresh attempts always return or continue", w)
  | attempt :: attempts =>
      match read_latest w with
      | (Err error, w) => (Returns (publish_l1_fee_refresh self (Err error)), w)
      | (Ok target, w) =>
          if ready_for self (sealed_hash target) then (Returns (true, self), w)
          else
            let '(snapshot, w) := load_header target w in
            match read_latest w with
            | (Err error, w) => (Returns (publish_l1_fee_refresh self (Err error)), w)
            | (Ok verified_head, w) =>
                if negb (sealed_hash verified_head =? sealed_hash target) then
                  if bool_decide (attempt = MAX_L1_FEE_REFRESH_ATTEMPTS) then
                    (Returns (publish_l1_fee_refresh self
                       (Err (RefreshHeadMoved MAX_L1_FEE_REFRESH_ATTEMPTS (sealed_hash target)
                               (number (sealed_header target)) (sealed_hash verified_head)
                               (number (sealed_header verified_head))))), w)
                  else refresh_attempts self attempts w
                else (Returns (publish_l1_fee_refresh self snapshot), w)
            end
      end
  end.

(** [true] when validation can use a current snapshot. The refresh lock makes
    refreshes sequential; the cache is written last, by the publication. *)
Definition refresh_l1_fee_cache_from_latest (self : DogeosTransactionValidator) (w : W) :
    outcome (bool * DogeosTransactionValidator) * W :=
  match l1_fee_cache self with
  | Disabled => (Returns (true, self), w)
  | _ => refresh_attempts self (seq 1 MAX_L1_FEE_REFRESH_ATTEMPTS) w
  end.
End Validator.
(** ** Specifications *)

Section Specs.
Context `{AlloyForks} `{TxEnv.EvmTypes} `{!EthPool} `{Rlp} `{!TxEnv.Zstd} `{ReceiptTypes}
  {S : Type} `{DogeosHardforks S} {DB E : Type} `{Database DB E} `{!Revm DB} {W : Type} `{!Client W DB E}
  `{!ClientView W E} {Sidecar Inv Boxed : Type} `{!EthValidation DogeosPooledTransaction Sidecar Inv Boxed}.
Context (try_fetch : DB -> ScrollSpecId -> result L1BlockInfo E) (chain_spec : S).

Abbreviation Validator :=
  (DogeosTransactionValidator (DB := DB) (E := E) (Sidecar := Sidecar) (Inv := Inv) (Boxed := Boxed)).

(** The snapshot (or failure) of a head's exact state, at some moment between two. *)
Definition loads (w w' : W) (h : SealedHeader) (r : result (DogeosL1FeeSnapshot L1BlockInfo) (DogeosL1FeeError E)) :
    Prop :=
  exists wl, moves w wl /\ moves wl w' /\ (load_header try_fetch chain_spec h wl).1 = r.

(** What a refresh from one moment to another may leave. The last moment is that
    of its last look at the head. *)
Inductive refreshed (w w' : W) (self : Validator) : bool -> Validator -> Prop :=
| AlreadyCurrent s h :
    l1_fee_cache self = Ready s -> head w' = Ok (Some h) -> head_hash s = sealed_hash h ->
    refreshed w w' self true self
| Current s target h :
    loads w w' target (Ok s) -> head_hash s = sealed_hash target ->
    head w' = Ok (Some h) -> sealed_hash h = sealed_hash target ->
    refreshed w w' self true (set_cache self (Ready s))
| HeadUnreadable e :
    head w' = Err e -> refreshed w w' self false (set_cache self (Unavailable (LatestHeaderRead e)))
| NoHead :
    head w' = Ok None -> refreshed w w' self false (set_cache self (Unavailable LatestHeaderNotFound))
| LoadFailed e target h :
    loads w w' target (Err e) -> head_context e = Some (sealed_hash target, number (sealed_header target)) ->
    head w' = Ok (Some h) -> sealed_hash h = sealed_hash target ->
    refreshed w w' self false (set_cache self (Unavailable e))
| HeadKeptMoving target h :
    head w' = Ok (Some h) -> sealed_hash h <> sealed_hash target ->
    refreshed w w' self false
      (set_cache self (Unavailable (RefreshHeadMoved 3 (sealed_hash target) (number (sealed_header target))
         (sealed_hash h) (number (sealed_header h))))).

(** A running node: heads arrive, the cache is refreshed. *)
Inductive node_step : W * Validator -> W * Validator -> Prop :=
| NodeMoves w w' v : moves w w' -> node_step (w, v) (w', v)
| NodeRefresh w w' v ok v' :
    refresh_l1_fee_cache_from_latest try_fetch chain_spec v w = (Returns (ok, v'), w') ->
    node_step (w, v) (w', v')
| NodeHead w v block : node_step (w, v) (w, on_new_head_block v block).

(** A snapshot of the exact state of a block that was the latest head after [w0]. *)
Definition was_head (w0 w : W) (s : DogeosL1FeeSnapshot L1BlockInfo) : Prop :=
  exists wh h target, moves w0 wh /\ moves wh w /\ head wh = Ok (Some h)
    /\ sealed_hash h = sealed_hash target /\ head_hash s = sealed_hash h /\ loads w0 w target (Ok s).

(** ** Lemmas *)

Context `{!ClientLaws W DB E}.

Lemma read_latest_spec w r w' :
  read_latest w = (r, w') ->
  moves w w' /\ match r with
               | Ok h => head w' = Ok (Some h)
               | Err e => (exists source, head w' = Err source /\ e = LatestHeaderRead source)
                          \/ (head w' = Ok None /\ e = LatestHeaderNotFound)
               end.
Proof.
  unfold read_latest. destruct (latest_header w) as [x w1] eqn:El.
  apply latest_header_reads in El as [Hm Hx]. intros [= <- <-]. split; [done|].
  rewrite <- Hx. destruct x as [[h|]|source]; simpl; eauto.
Qed.

Lemma load_header_spec h w r w' :
  load_header try_fetch chain_spec h w = (r, w') ->
  moves w w' /\ match r with
               | Ok s => head_hash s = sealed_hash h
               | Err e => head_context e = Some (sealed_hash h, number (sealed_header h))
               end.
Proof.
  unfold load_header, load_for_head. destruct (state_by_block_hash w _) as [p w1] eqn:Es.
  apply state_by_hash_moves in Es. destruct p as [p|source]; intros [= <- <-]; (split; [done|]); [|done].
  unfold load_from. destruct (basic p _) as [[[a|]|e] db]; try done. by destruct (try_fetch _ _).
Qed.

Lemma loads_mono w0 w1 w2 w3 h r : moves w0 w1 -> moves w2 w3 -> loads w1 w2 h r -> loads w0 w3 h r.
Proof. intros Ma Mb (wl & Ha & Hb & Hl). exists wl. split; [by etransitivity|split; [by etransitivity|done]]. Qed.

Lemma refreshed_earlier w0 w w' self ok self' :
  moves w0 w -> refreshed w w' self ok self' -> refreshed w0 w' self ok self'.
Proof.
  intros Hm Hr. destruct Hr; try (by econstructor).
  - eapply Current; [eapply loads_mono; [exact Hm|reflexivity|done]|done..].
  - eapply LoadFailed; [eapply loads_mono; [exact Hm|reflexivity|done]|done..].
Qed.

(** The attempts from the [k]-th to the last. *)
Lemma refresh_attempts_spec (self : Validator) n k w out w' :
  (k + n = 4)%nat -> (1 <= n)%nat ->
  refresh_attempts try_fetch chain_spec self (seq k n) w = (out, w') ->
  exists ok self', out = Returns (ok, self') /\ moves w w' /\ refreshed w w' self ok self'.
Proof.
  revert k w. induction n as [|n IH]; intros k w Hk Hn; [lia|]. simpl.
  destruct (read_latest w) as [[target|e] w1] eqn:E1; apply read_latest_spec in E1 as [M1 R1].
  2:{ intros [= <- <-]. eexists _, _. split; [reflexivity|]. split; [done|].
      destruct R1 as [(source & R1 & ->)|[R1 ->]]; by econstructor. }
  destruct (ready_for self (sealed_hash target)) eqn:Er.
  { intros [= <- <-]. eexists _, _. split; [reflexivity|]. split; [done|].
    unfold ready_for in Er. destruct (l1_fee_cache self) eqn:Ec; try done. apply Z.eqb_eq in Er.
    by eapply AlreadyCurrent. }
  destruct (load_header _ _ target w1) as [snapshot w2] eqn:E2.
  assert (Hl : loads w w2 target snapshot).
  { exists w1. rewrite E2. apply load_header_spec in E2 as [M2 _]. by split. }
  apply load_header_spec in E2 as [M2 R2].
  destruct (read_latest w2) as [[verified|e] w3] eqn:E3; apply read_latest_spec in E3 as [M3 R3].
  2:{ intros [= <- <-]. eexists _, _. split; [reflexivity|]. split; [by do 2 (etransitivity; [done|])|].
      destruct R3 as [(source & R3 & ->)|[R3 ->]]; by econstructor. }
  assert (M : moves w w3) by (by do 2 (etransitivity; [done|])).
  apply (loads_mono w w w2 w3) in Hl; [|reflexivity|done].
  destruct (Z.eqb_spec (sealed_hash verified) (sealed_hash target)) as [Hh|Hh]; simpl.
  - intros [= <- <-]. destruct snapshot as [s|e]; (eexists _, _; split; [reflexivity|]; split; [done|]).
    + by eapply Current.
    + by eapply LoadFailed.
  - case_bool_decide as Hlast; intros Eo.
    + injection Eo as <- <-. eexists _, _. split; [reflexivity|]. split; [done|]. by eapply HeadKeptMoving.
    + destruct n as [|n]; [unfold MAX_L1_FEE_REFRESH_ATTEMPTS in Hlast; lia|].
      apply IH in Eo as (ok & self' & -> & Hm & Hr); [|lia..]. eexists _, _. split; [reflexivity|].
      split; [by etransitivity|]. by eapply refreshed_earlier.
Qed.

Lemma refresh_cases (self : Validator) w out w' :
  refresh_l1_fee_cache_from_latest try_fetch chain_spec self w = (out, w') ->
  exists ok self', out = Returns (ok, self') /\ moves w w'
    /\ (l1_fee_cache self = Disabled -> ok = true /\ self' = self)
    /\ (l1_fee_cache self <> Disabled -> refreshed w w' self ok self').
Proof.
  unfold refresh_l1_fee_cache_from_latest. intros Er.
  destruct (l1_fee_cache self) eqn:Ec;
    [apply (refresh_attempts_spec _ 3 1) in Er as (ok & self' & -> & Hm & Hr); [exists ok, self'; by repeat split|lia..] .. |].
  injection Er as <- <-. exists true, self. split; [done|]. split; [reflexivity|]. by split.
Qed.

(** *** The invariant of a node *)

Lemma was_head_later w0 w w' s : moves w w' -> was_head w0 w s -> was_head w0 w' s.
Proof.
  intros Hm (wh & h & target & M1 & M2 & Hh & Ht & Hs & Hl). exists wh, h, target.
  repeat split; try done; [by etransitivity|]. by eapply loads_mono; [reflexivity|done|done].
Qed.

Definition cache_ok (w0 : W) (n : W * Validator) : Prop :=
  prague (inner n.2) = true /\
  match l1_fee_cache n.2 with
  | Ready s => was_head w0 n.1 s
  | Unavailable _ => True
  | Disabled => False
  end.

Lemma refreshed_cache_ok w0 w w' (self self' : Validator) ok :
  moves w0 w -> moves w w' -> cache_ok w0 (w, self) -> refreshed w w' self ok self' ->
  cache_ok w0 (w', self').
Proof.
  intros Hm Hm' [Hp Hc] Hr. simpl in *. destruct Hr as [s h Ec Hh Hs|s target h Hl Hs Hh Ht|e Hh| |e target h| ]; try done.
  - split; [done|]. simpl. rewrite Ec in *. by eapply was_head_later.
  - split; [done|]. simpl. exists w', h, target. split; [by etransitivity|]. split; [reflexivity|].
    repeat split; try done; [congruence|]. by eapply loads_mono; [exact Hm|reflexivity|].
Qed.

Context `{!EthValidationLaws DogeosPooledTransaction Sidecar Inv Boxed}.

Lemma node_step_cache_ok w0 n n' :
  node_step n n' -> moves w0 n.1 -> cache_ok w0 n -> moves w0 n'.1 /\ cache_ok w0 n'.
Proof.
  intros Hstep Hm Hok. destruct Hstep as [w w' v Hm'|w w' v ok v' Er|w v block]; simpl in *.
  - split; [by etransitivity|]. destruct Hok as [Hp Hc]. split; [done|]. simpl in *.
    destruct (l1_fee_cache v); [by eapply was_head_later|done..].
  - apply refresh_cases in Er as (ok' & self' & [= <- <-] & Hm' & _ & Hr).
    split; [by etransitivity|]. eapply refreshed_cache_ok; [exact Hm|done|done|]. apply Hr.
    destruct Hok as [_ Hc]. simpl in Hc. by destruct (l1_fee_cache v).
  - split; [done|]. destruct Hok as [Hp Hc]. split; [|done]. by apply prague_kept.
Qed.

Lemma node_run_cache_ok w0 n n' :
  rtc node_step n n' -> moves w0 n.1 -> cache_ok w0 n -> cache_ok w0 n'.
Proof.
  intros Hrun. induction Hrun as [|n1 n2 n3 Hs _ IH]; intros Hm Hok; [done|].
  destruct (node_step_cache_ok w0 n1 n2 Hs Hm Hok). by apply IH.
Qed.

Lemma load_latest_was_head w0 s w :
  load_latest try_fetch chain_spec w0 = (Ok s, w) -> moves w0 w /\ was_head w0 w s.
Proof.
  intros El. apply sbind_Ok in El as (h & w1 & E1 & E2).
  apply read_latest_spec in E1 as [M1 R1]. assert (Hl : (load_header try_fetch chain_spec h w1).1 = Ok s) by (by rewrite E2).
  apply load_header_spec in E2 as [M2 Hs]. split; [by etransitivity|].
  exists w1, h, h. repeat split; try done. by exists w1.
Qed.
End Specs.

Section ValidationLemmas.
Context `{AlloyForks} `{TxEnv.EvmTypes} `{!EthPool} `{Rlp} `{!TxEnv.Zstd} `{ReceiptTypes}
  {S : Type} `{DogeosHardforks S} {DB E : Type} `{!Revm DB}
  {Sidecar Inv Boxed : Type} `{!EthValidation DogeosPooledTransaction Sidecar Inv Boxed}
  `{!EthValidationLaws DogeosPooledTransaction Sidecar Inv Boxed}.
Context (consensus_error : InvalidTransactionError -> Inv) (box_fee_error : DogeosL1FeeError E -> Boxed)
  (box_execution_error : BlockExecutionError EVMError -> Boxed) (chain_spec : S).

Abbreviation Validator :=
  (DogeosTransactionValidator (DB := DB) (E := E) (Sidecar := Sidecar) (Inv := Inv) (Boxed := Boxed)).
Abbreviation validate_basic := (validate_basic consensus_error box_fee_error box_execution_error chain_spec).
Abbreviation validate_one := (validate_one consensus_error box_fee_error box_execution_error chain_spec).

(** The fee and balance conditions of a snapshot. *)
Definition affordable (s : DogeosL1FeeSnapshot L1BlockInfo) (tx : DogeosPooledTransaction) (balance : U256) : Prop :=
  exists fee, snapshot_fee chain_spec s tx = Returns (Ok fee)
    /\ fee < (if is_tsuki_active_at_timestamp chain_spec (snapshot_timestamp s) then 2 ^ 96 - 1 else 2 ^ 64 - 1)
    /\ Z.min (cost tx + fee) (2 ^ 256 - 1) <= balance.

Lemma charge_admits s facts (valid : ValidTransaction Sidecar DogeosPooledTransaction) facts' valid' :
  charge_l1_fee consensus_error box_execution_error chain_spec s facts valid = Returns (Valid facts' valid') <->
  facts' = facts /\ valid' = valid /\ affordable s (transaction_of valid) (vf_balance facts).
Proof.
  unfold charge_l1_fee, affordable, max_rollup_fee, saturating_add.
  change MAX_ROLLUP_FEE_TSUKI with (2 ^ 96 - 1). change MAX_ROLLUP_FEE_PRE_TSUKI with (2 ^ 64 - 1).
  change u256_max with (2 ^ 256 - 1).
  destruct (snapshot_fee _ _ _) as [[fee|e]|msg]; [|naive_solver..].
  destruct (Z.leb_spec (if is_tsuki_active_at_timestamp chain_spec (snapshot_timestamp s) then 2 ^ 96 - 1
                        else 2 ^ 64 - 1) fee).
  { split; [done|]. intros (_ & _ & fee' & [= ->] & Hlt & _). lia. }
  destruct (Z.ltb_spec (vf_balance facts) (Z.min (cost (transaction_of valid) + fee) (2 ^ 256 - 1))).
  { split; [done|]. intros (_ & _ & fee' & [= ->] & _ & Hle). lia. }
  split; [intros [= <- <-]; eauto 10|by intros (-> & -> & _)].
Qed.

(** What the checks before the admission check accept. *)
Definition passes_basic (self : Validator) (origin : TransactionOrigin) (tx : DogeosPooledTransaction)
    (facts : ValidFacts) (valid : ValidTransaction Sidecar DogeosPooledTransaction) : Prop :=
  tx_ty tx <> 3 /\ is_l1_message tx = false
  /\ eth_validate_one (inner self) origin tx = Valid facts valid
  /\ match l1_fee_cache self with
     | Ready s => affordable s tx (vf_balance facts)
     | Disabled => True
     | Unavailable _ => False
     end.

Lemma validate_basic_admits (self : Validator) origin tx facts valid :
  validate_basic self origin tx = Returns (Valid facts valid) <-> passes_basic self origin tx facts valid.
Proof.
  unfold PoolValidator.validate_basic, passes_basic.
  destruct (Z.eqb_spec (tx_ty tx) 3); [by split; [|intros (? & _)]|].
  destruct (is_l1_message tx); [by split; [|intros (_ & ? & _)]|].
  destruct (l1_fee_cache self) as [s|e|];
    [|by split; [|intros (_ & _ & _ & [])]|by split; [intros [= ->]|intros (_ & _ & -> & _)]].
  destruct (eth_validate_one (inner self) origin tx) as [f v|t i|h b] eqn:Ev; [|naive_solver..].
  rewrite charge_admits, (eth_valid_same _ _ _ _ _ Ev). naive_solver.
Qed.

Lemma validate_one_valid (self : Validator) origin tx facts valid :
  validate_one self origin tx = Returns (Valid facts valid) <->
  passes_basic self origin tx facts valid
  /\ forall check, admission_check self = Some check -> is_ok (check tx) = true.
Proof.
  unfold PoolValidator.validate_one. pose proof (validate_basic_admits self origin tx) as Hb.
  destruct (validate_basic self origin tx) as [o|msg].
  2:{ split; [done|]. intros [Hp _]. by apply Hb in Hp. }
  destruct o as [f v|t i|h b]; simpl.
  2,3: split; [by destruct (admission_check self)|]; intros [Hp _]; by apply Hb in Hp.
  destruct (proj1 (Hb f v) eq_refl) as (_ & _ & He & _). rewrite (eth_valid_same _ _ _ _ _ He).
  rewrite <- (Hb facts valid). destruct (admission_check self) as [check|].
  - destruct (check tx) as [[]|e] eqn:Ec.
    + split; [intros Hv; split; [done|]; intros c [= <-]; by rewrite Ec|by intros [? _]].
    + split; [done|]. intros [_ Hc]. specialize (Hc check eq_refl). by rewrite Ec in Hc.
  - naive_solver.
Qed.
End ValidationLemmas.

(** ** The fee of the pool and the fee of execution *)

Section FeeAgreement.
Context `{AlloyForks} `{TxEnv.EvmTypesLaws} `{!EthPool} `{Rlp} `{!TxEnv.Zstd} `{ReceiptTypes}
  {S : Type} `{DogeosHardforks S} {DB : Type} `{!Revm DB}.

Lemma recovered_base_input (t : TxEnvelope.ScrollTxEnvelope) sender :
  TxEnvelope.is_l1_message t = false -> TxEnv.data (TxEnv.recovered_base t sender) = TxEnvelope.input t.
Proof.
  destruct t; simpl; try done; intros _; symmetry;
    [apply TxEnv.legacy_input|apply TxEnv.eip2930_input|apply TxEnv.eip1559_input|apply TxEnv.eip7702_input].
Qed.

(** An EVM with a snapshot's L1 state, at the snapshot's point of the schedule, about
    to run a transaction. *)
Definition runs_at (chain_spec : S) (s : DogeosL1FeeSnapshot L1BlockInfo)
    (env : TxEnv.ScrollTx TxEnv.Authorization) (v : ScrollEvm L1BlockInfo DB) : Prop :=
  evm_tx v = env /\ l1_block_info v = snapshot_info s
  /\ evm_spec v = spec_id_at_timestamp_and_number (snapshot_timestamp s) (snapshot_number s) chain_spec.

Lemma snapshot_fee_executes (chain_spec : S) (s : DogeosL1FeeSnapshot L1BlockInfo)
    (tx : DogeosPooledTransaction) fee :
  is_l1_message tx = false -> snapshot_fee chain_spec s tx = Returns (Ok fee) ->
  exists env, TxEnv.from_recovered_tx (clone_into_consensus tx).1 (clone_into_consensus tx).2 = Returns env
    /\ forall v, runs_at chain_spec s env v -> l1_fee v = Some fee.
Proof.
  intros Hl. change (is_l1_message tx) with (TxEnvelope.is_l1_message (clone_into_consensus tx).1) in Hl.
  unfold snapshot_fee. change (tx_input tx) with (TxEnvelope.input (clone_into_consensus tx).1).
  destruct (clone_into_consensus tx) as [t sender]. simpl in *.
  destruct (TxEnv.compute_compression_ratio _) as [ratio|msg] eqn:Er; [|done].
  destruct (TxEnv.compute_compressed_size _) as [size|msg] eqn:Es; [|done]. intros [= <-].
  exists (TxEnv.new (TxEnv.recovered_base t sender) (Some (TxEnvelope.encode_2718 t)) (Some ratio) (Some size)).
  split.
  - unfold TxEnv.from_recovered_tx, TxEnv.with_compression. rewrite recovered_base_input by done.
    rewrite Er, Es. by destruct t.
  - intros v (Htx & Hinfo & Hspec). unfold l1_fee. by rewrite Htx, Hinfo, Hspec.
Qed.
End FeeAgreement.

(** ** Properties *)

(** C10: What the pool admits: exactly the transactions that are neither blobs
    nor L1 messages, that reth's validator accepts, that the installed admission
    check passes, and, when L1 fees apply, for which a usable snapshot is
    there, whose L1 data fee is below the rollup maximum of the snapshot's fork,
    and whose sender's balance covers cost plus fee. A cache that failed to
    refresh admits nothing. *)
Theorem pool_admits_exactly `{AlloyForks} `{TxEnv.EvmTypes} `{!EthPool} `{Rlp} `{!TxEnv.Zstd} `{ReceiptTypes}
    {S} `{DogeosHardforks S} {DB E} `{!Revm DB} {Sidecar Inv Boxed}
    `{!EthValidation DogeosPooledTransaction Sidecar Inv Boxed}
    `{!EthValidationLaws DogeosPooledTransaction Sidecar Inv Boxed}
    (consensus_error : InvalidTransactionError -> Inv) (box_fee_error : DogeosL1FeeError E -> Boxed)
    (box_execution_error : BlockExecutionError EVMError -> Boxed) (chain_spec : S)
    (self : DogeosTransactionValidator) (origin : TransactionOrigin) (tx : DogeosPooledTransaction)
    (facts : ValidFacts) (valid : ValidTransaction Sidecar DogeosPooledTransaction) :
  validate_one consensus_error box_fee_error box_execution_error chain_spec self origin tx
  = Returns (Valid facts valid) <->
  tx_ty tx <> 3 /\ is_l1_message tx = false
  /\ eth_validate_one (inner self) origin tx = Valid facts valid
  /\ (forall e, l1_fee_cache self <> Unavailable e)
  /\ (forall s, l1_fee_cache self = Ready s -> exists fee,
      snapshot_fee chain_spec s tx = Returns (Ok fee)
      /\ fee < (if is_tsuki_active_at_timestamp chain_spec (snapshot_timestamp s)
                then 2 ^ 96 - 1 else 2 ^ 64 - 1)
      /\ Z.min (cost tx + fee) (2 ^ 256 - 1) <= vf_balance facts)
  /\ (forall check, admission_check self = Some check -> is_ok (check tx) = true).
Proof.
  rewrite validate_one_valid. unfold passes_basic. split.
  - intros [(Hb & Hl & He & Hc) Ha]. repeat split; try done.
    + intros e Eq. by rewrite Eq in Hc.
    + intros s Eq. by rewrite Eq in Hc.
  - intros (Hb & Hl & He & Hu & Hr & Ha). repeat split; try done.
    destruct (l1_fee_cache self) as [s|e|]; [by apply Hr|by apply (Hu e)|done].
Qed.

(** C25: Admission covers execution. A transaction of the pool that was admitted
    against a snapshot has an execution environment, and on an EVM with the
    snapshot's L1 state and fork its L1 fee is the one the pool charged; the
    sender's balance covers the value, the most its gas can cost and that fee
    together. *)
Theorem admitted_sender_can_pay `{AlloyForks} `{TxEnv.EvmTypesLaws} `{!EthPool} `{!EthPoolLaws} `{Rlp}
    `{!TxEnv.Zstd} `{ReceiptTypes} {S} `{DogeosHardforks S} {DB E} `{!Revm DB} `{!RevmLaws DB}
    {Sidecar Inv Boxed} `{!EthValidation DogeosPooledTransaction Sidecar Inv Boxed}
    `{!EthValidationLaws DogeosPooledTransaction Sidecar Inv Boxed}
    (consensus_error : InvalidTransactionError -> Inv) (box_fee_error : DogeosL1FeeError E -> Boxed)
    (box_execution_error : BlockExecutionError EVMError -> Boxed) (chain_spec : S)
    (self : DogeosTransactionValidator) (origin : TransactionOrigin) (t : TxEnvelope.ScrollTxEnvelope)
    (sender : Address) (len : Z) (facts : ValidFacts) (valid : ValidTransaction Sidecar DogeosPooledTransaction)
    (s : DogeosL1FeeSnapshot L1BlockInfo) :
  let tx := PoolTx.new (t, sender) len in
  validate_one consensus_error box_fee_error box_execution_error chain_spec self origin tx
    = Returns (Valid facts valid) ->
  l1_fee_cache self = Ready s -> vf_balance facts < 2 ^ 256 - 1 ->
  in_u256 (TxEnvelope.value t) -> in_u128 (TxEnvelope.max_fee_per_gas t) -> in_u64 (TxEnvelope.gas_limit t) ->
  exists env fee, TxEnv.from_recovered_tx t sender = Returns env
    /\ (forall v : ScrollEvm L1BlockInfo DB, runs_at chain_spec s env v -> l1_fee v = Some fee)
    /\ TxEnvelope.value t + TxEnvelope.max_fee_per_gas t * TxEnvelope.gas_limit t + fee <= vf_balance facts.
Proof.
  intros tx Hv Hc Hbal Rv Rp Rg. apply validate_one_valid in Hv as [(_ & Hl & _ & Hs) _].
  rewrite Hc in Hs. destruct Hs as (fee & Hf & _ & Hle).
  destruct (snapshot_fee_executes chain_spec s tx fee Hl Hf) as (env & He & Hrun).
  exists env, fee. split; [exact He|]. split; [exact Hrun|].
  assert (0 <= fee).
  { revert Hf. unfold snapshot_fee, l1_tx_data_fee. repeat (case_match; try done).
    intros [= <-]. apply l1_cost_nonneg. }
  unfold cost in Hle. simpl in Hle. rewrite eth_pooled_cost_spec in Hle. simpl in Hle.
  assert (0 <= TxEnvelope.max_fee_per_gas t * TxEnvelope.gas_limit t)
    by (apply Z.mul_nonneg_nonneg; [apply Rp|apply Rg]).
  destruct Rv as [Rv _]. unfold saturating_add, saturating_mul, u256_max in Hle. lia.
Qed.

(** C14: A refresh refines its specification: whatever the head does meanwhile, it
    returns after at most three attempts and never reaches the unreachable end;
    it leaves a disabled cache alone, and otherwise it leaves the cache ready
    only with the exact snapshot of the head that was the latest when it last
    looked, after the load; in every other case (no readable head, a failed
    load, a head that moved during each attempt) the cache is unavailable with
    the cause, and the answer is false. *)
Theorem refresh_refines_spec `{AlloyForks} `{TxEnv.EvmTypes} `{ReceiptTypes} {S} `{DogeosHardforks S}
    {DB E} `{Database DB E} `{!Revm DB} {W} `{!Client W DB E} `{!ClientView W E} `{!ClientLaws W DB E}
    {Sidecar Inv Boxed} `{!EthValidation DogeosPooledTransaction Sidecar Inv Boxed}
    (try_fetch : DB -> ScrollSpecId -> result L1BlockInfo E) (chain_spec : S)
    (self : DogeosTransactionValidator) (w w' : W) out :
  refresh_l1_fee_cache_from_latest try_fetch chain_spec self w = (out, w') ->
  exists ok self', out = Returns (ok, self') /\ moves w w'
    /\ (l1_fee_cache self = Disabled -> ok = true /\ self' = self)
    /\ (l1_fee_cache self <> Disabled -> refreshed try_fetch chain_spec w w' self ok self').
Proof. intros Er. by eapply refresh_cases. Qed.

(** C24: The cache of a running node is never invented and never outlives its
    error. A node starts from the exact snapshot of a latest head; then heads
    arrive, the head moves at any moment and refreshes run. At every later
    moment the Prague rules are on, and the cache either holds the exact
    snapshot of a block that was the latest head since the start, or it is
    unavailable, and then every transaction of a supported type is answered
    with the retained cause. *)
Theorem fee_cache_invariant `{AlloyForks} `{TxEnv.EvmTypes} `{!EthPool} `{Rlp} `{!TxEnv.Zstd} `{ReceiptTypes}
    {S} `{DogeosHardforks S} {DB E} `{Database DB E} `{!Revm DB} {W} `{!Client W DB E} `{!ClientView W E}
    `{!ClientLaws W DB E} {Sidecar Inv Boxed}
    `{!EthValidation DogeosPooledTransaction Sidecar Inv Boxed}
    `{!EthValidationLaws DogeosPooledTransaction Sidecar Inv Boxed}
    (try_fetch : DB -> ScrollSpecId -> result L1BlockInfo E)
    (consensus_error : InvalidTransactionError -> Inv) (box_fee_error : DogeosL1FeeError E -> Boxed)
    (box_execution_error : BlockExecutionError EVMError -> Boxed) (chain_spec : S)
    (eth : EthTransactionValidator) (w0 w1 w : W) (s0 : DogeosL1FeeSnapshot L1BlockInfo) self :
  load_latest try_fetch chain_spec w0 = (Ok s0, w1) ->
  rtc (node_step try_fetch chain_spec) (w1, new eth s0) (w, self) ->
  prague (inner self) = true
  /\ match l1_fee_cache self with
     | Ready s => was_head try_fetch chain_spec w0 w s
     | Unavailable e => forall origin tx, tx_ty tx <> 3 -> is_l1_message tx = false ->
         validate_one consensus_error box_fee_error box_execution_error chain_spec self origin tx
         = Returns (Error (hash tx) (box_fee_error (CacheUnavailable e)))
     | Disabled => False
     end.
Proof.
  intros El Hrun. destruct (load_latest_was_head _ _ _ _ _ El) as [Hm Hs].
  destruct (node_run_cache_ok try_fetch chain_spec w0 _ _ Hrun Hm) as [Hp Hc];
    [by split; [apply prague_stored|]|].
  split; [done|]. simpl in Hc.
  destruct (l1_fee_cache self) as [s|e|] eqn:Ec; [done| |done].
  intros origin tx Hb Hl. unfold validate_one, validate_basic.
  rewrite (proj2 (Z.eqb_neq _ _)), Hl, Ec by done. simpl. by destruct (admission_check self).
Qed.

(** ** Witnesses

    Moments are integers, the head changes after the second one, and every state
    has the oracle's account. *)

Definition sample_head (m : Z) : result (option SealedHeader) unit :=
  Ok (Some {| sealed_hash := if m <=? 2 then 10 else 11; sealed_header := sample_header (Some 1000000000) |}).

Definition oracle_db : MemDb :=
  {| mem_accounts := {[ L1_GAS_PRICE_ORACLE_ADDRESS :=
       {| acc_balance := 0; acc_nonce := 1; acc_code_hash := 5; acc_code := None |} ]};
     mem_storage := ∅ |}.

#[export] Instance clock_client : Client Z MemDb unit := {
  latest_header m := (sample_head (m + 1), m + 1);
  state_by_block_hash m _ := (Ok oracle_db, m + 1);
}.

#[export] Instance clock_view : ClientView Z unit := { head := sample_head; moves := Z.le }.

#[export] Instance clock_laws : ClientLaws Z MemDb unit.
Proof.
  split; simpl; [split; [intros x; apply Z.le_refl|intros x y z; apply Z.le_trans]| |].
  - intros w r w' [= <- <-]. split; [lia|done].
  - intros w h r w' [= <- <-]. lia.
Qed.

(** A validator that knows a balance of [10^15] for everyone. *)
#[local] Instance rich_validation : EthValidation DogeosPooledTransaction unit InvalidTransactionError
    (option (DogeosL1FeeError unit)) := {
  EthTransactionValidator := bool;
  eth_validate_one _ _ tx :=
    Valid {| vf_balance := 10 ^ 15; vf_state_nonce := 0; vf_bytecode_hash := None; vf_propagate := true;
             vf_authorities := None |} (ValidPlain tx);
  prague v := v;
  store_prague _ b := b;
  eth_on_new_head_block v _ := v;
}.

#[local] Instance rich_validation_laws : EthValidationLaws DogeosPooledTransaction unit
    InvalidTransactionError (option (DogeosL1FeeError unit)).
Proof. split; simpl; [|done..]. intros v o tx facts valid [= <- <-]. done. Qed.

Definition sample_fetch (_ : MemDb) (_ : ScrollSpecId) : result (L1BlockInfo (Revm := ref_revm)) unit := Ok tt.

Definition snapshot_at (hash : B256) : DogeosL1FeeSnapshot (L1BlockInfo (Revm := ref_revm)) :=
  {| head_hash := hash; snapshot_timestamp := 50; snapshot_number := 5; snapshot_info := tt |}.
Definition sample_snapshot : DogeosL1FeeSnapshot (L1BlockInfo (Revm := ref_revm)) := snapshot_at 10.

Definition sample_validator : DogeosTransactionValidator (DB := MemDb) (E := unit) := new false sample_snapshot.

Definition sample_tx : DogeosPooledTransaction :=
  PoolTx.new (TxEnvelope.Eip1559 TxEnv.sample_signed, 99) 3.

Definition sample_validate :=
  validate_one (DB := MemDb) (E := unit) (fun e => e) Some (fun _ => None) (new_schedule mainnet).

Lemma pool_admits_exactly_witness :
  exists fee, snapshot_fee (DB := MemDb) (new_schedule mainnet) sample_snapshot sample_tx = Returns (Ok fee)
    /\ Z.min (cost sample_tx + fee) (2 ^ 256 - 1) <= 10 ^ 15.
Proof.
  destruct (pool_admits_exactly (DB := MemDb) (E := unit) (Revm0 := ref_revm) (fun e => e) Some (fun _ => None)
    (new_schedule mainnet) sample_validator External sample_tx
    {| vf_balance := 10 ^ 15; vf_state_nonce := 0; vf_bytecode_hash := None; vf_propagate := true;
       vf_authorities := None |} (ValidPlain sample_tx)) as [H _].
  destruct H as (_ & _ & _ & _ & H & _); [reflexivity|].
  destruct (H sample_snapshot eq_refl) as (fee & Hf & _ & Hle). exists fee. by split.
Defined.

Lemma admitted_sender_can_pay_witness :
  exists env fee, TxEnv.from_recovered_tx (TxEnvelope.Eip1559 TxEnv.sample_signed) 99 = Returns env
    /\ TxEnvelope.value (TxEnvelope.Eip1559 TxEnv.sample_signed)
       + TxEnvelope.max_fee_per_gas (TxEnvelope.Eip1559 TxEnv.sample_signed)
         * TxEnvelope.gas_limit (TxEnvelope.Eip1559 TxEnv.sample_signed) + fee <= 10 ^ 15.
Proof.
  destruct (admitted_sender_can_pay (DB := MemDb) (E := unit) (Revm0 := ref_revm) (fun e => e) Some
    (fun _ => None) (new_schedule mainnet) sample_validator External (TxEnvelope.Eip1559 TxEnv.sample_signed) 99 3
    {| vf_balance := 10 ^ 15; vf_state_nonce := 0; vf_bytecode_hash := None; vf_propagate := true;
       vf_authorities := None |} (ValidPlain sample_tx) sample_snapshot) as (env & fee & He & _ & Hle);
    [reflexivity|reflexivity|vm_compute; reflexivity|vm_compute; split; discriminate..|].
  exists env, fee. split; [exact He|exact Hle].
Defined.

(** The head moves during the first attempt of this refresh. *)
Definition sample_refresh : outcome (bool * DogeosTransactionValidator) * Z :=
  refresh_l1_fee_cache_from_latest sample_fetch (new_schedule mainnet)
    (set_cache sample_validator (Unavailable LatestHeaderNotFound)) 0.

Lemma refresh_refines_spec_witness :
  exists self', sample_refresh = (Returns (true, self'), 6)
    /\ l1_fee_cache self' = Ready (snapshot_at 11)
    /\ refreshed sample_fetch (new_schedule mainnet) 0 6
         (set_cache sample_validator (Unavailable LatestHeaderNotFound)) true self'.
Proof.
  assert (E : sample_refresh = (Returns (true, set_cache sample_validator (Ready (snapshot_at 11))), 6))
    by reflexivity.
  eexists. split; [exact E|]. split; [reflexivity|].
  destruct (refresh_refines_spec (DB := MemDb) (E := unit) (Revm0 := ref_revm) sample_fetch
    (new_schedule mainnet) (set_cache sample_validator (Unavailable LatestHeaderNotFound)) 0 6 _ E)
    as (ok & self' & [= <- <-] & _ & _ & Hr).
  apply Hr. discriminate.
Defined.

Lemma fee_cache_invariant_witness :
  was_head (DB := MemDb) sample_fetch (new_schedule mainnet) 0 8 (snapshot_at 11).
Proof.
  destruct (fee_cache_invariant (DB := MemDb) (E := unit) (Revm0 := ref_revm)
    (EthValidation0 := rich_validation) sample_fetch (fun e => e) Some
    (fun _ => None) (new_schedule mainnet) false 0 2 8 sample_snapshot
    (set_cache sample_validator (Ready (snapshot_at 11)))) as [_ H].
  - reflexivity.
  - eapply rtc_l; [apply (NodeRefresh _ _ 2 5 sample_validator true (set_cache sample_validator (Ready (snapshot_at 11)))); reflexivity|].
    apply rtc_once. apply NodeMoves. simpl. lia.
  - exact H.
Defined.
