(* ===== verification/PoolAdmission.v ===== *)
(** * Code-witness admission (dogeos-reth-txpool/src/code_witness.rs)

    The simulation a node runs before a transaction enters the pool: against the
    exact state of the latest head, in the environment of the next block, with a
    fresh code-witness meter and the sender's nonce overridden. *)

From stdpp Require Import prelude gmap list strings.
From Stdlib Require Import ZArith Lia.
From S2P Require Import Prelude.
From S2P Require Import Hardforks.
From S2P Require Import GenesisConfig.
From S2P Require Import ChainSpec.
From S2P Require Import Chain.
From S2P Require Import BaseFee.
From S2P Require Import Alloy.
From S2P Require Import AlloyRef.
From S2P Require Import TxType.
From S2P Require Import Envelope.
From S2P Require CodeWitness.
From S2P Require Import Transitions.
From S2P Require Import Receipt.
From S2P Require TxEnv.
From S2P Require Import Executor.
From S2P Require Import Build.
From S2P Require Import PoolTx.
From S2P Require Import PoolValidator.

Import (hints) TxEnv.

Record CodeWitnessValidationConfig := {
  cw_max_code_witness_bytes : Z;
  cw_max_steps : Z;
  cw_max_inflight : Z;
}.

Definition default_config : CodeWitnessValidationConfig :=
  {| cw_max_code_witness_bytes := CodeWitness.DEFAULT_MAX_CODE_WITNESS_BYTES;
     cw_max_steps := 1000000; cw_max_inflight := 64 |}.

Inductive CodeWitnessValidationError (E : Type) : Type :=
| CodeBytes (observed limit : Z)
| ExecutionSteps (limit : Z)
| Provider (error : E)
| MissingHead
| Indeterminate (message : string).
Arguments CodeBytes {E} observed limit.
Arguments ExecutionSteps {E} limit.
Arguments Provider {E} error.
Arguments MissingHead {E}.
Arguments Indeterminate {E} message.

(** ** Interfaces

    The disposable overlay ([CacheDB]): loading an account into it, and writing
    through the reference that loading returns. *)

Class CacheDB (DB E : Type) := {
  cache_new : DB -> DB;
  load_account : DB -> Address -> result AccountInfo E * DB;
  write_account : DB -> Address -> AccountInfo -> DB;
}.

(** Documented: an overlay starts with the contents of the state below; a missing
    account is loaded as the default one; a write changes that account only. *)
Class CacheDBLaws (DB E : Type) `{DatabaseView DB} `{RevmAccounts} `{!CacheDB DB E} : Prop := {
  cache_new_same db : same_contents db (cache_new db);
  load_account_reads db a r db' : load_account db a = (Ok r, db') -> r = default default_info (info_of db a);
  load_account_info db a b : b <> a -> info_of (load_account db a).2 b = info_of db b;
  load_account_slot db a b k : slot_of (load_account db a).2 b k = slot_of db b k;
  write_account_info db a i b : info_of (write_account db a i) b = if b =? a then Some i else info_of db b;
  write_account_slot db a i b k : slot_of (write_account db a i) b k = slot_of db b k;
}.

(** [EVMError::Database] carries the provider's error. *)
Class EvmDatabaseError (Err E : Type) := { database_error : Err -> option E }.

(** ** The simulation *)

Section Admission.
Context `{AlloyForks} `{TxEnv.EvmTypes} `{!EthPool} `{Rlp} `{!TxEnv.Zstd} `{ReceiptTypes} `{RevmAccounts}
  {S : Type} `{DogeosHardforks S} `{ChainConfig S} `{!EthChainSpec S} `{!ChainId S} `{AlloyEips}
  {DB E : Type} `{Database DB E} `{!CacheDB DB E} `{!Revm DB} `{!ScrollContext DB}
  `{!EvmDatabaseError EVMError E} {W : Type} `{!Client W DB E}.
Context (chain_spec : S) (config : CodeWitnessValidationConfig).

Abbreviation Evm := (ScrollEvm L1BlockInfo DB).
Abbreviation Failure := (CodeWitnessValidationError E).

Definition with_account_nonce (info : AccountInfo) (nonce : Z) : AccountInfo :=
  {| acc_balance := acc_balance info; acc_nonce := nonce; acc_code_hash := acc_code_hash info;
     acc_code := acc_code info |}.

(** [database.load_account(sender)?.info.nonce = nonce]. *)
Definition override_nonce (db : DB) (sender : Address) (nonce : Z) : result unit E * DB :=
  match load_account db sender with
  | (Err e, db) => (Err e, db)
  | (Ok info, db) => (Ok tt, write_account db sender (with_account_nonce info nonce))
  end.

(** The attributes of the simulated block. *)
Definition simulated_attributes (parent : Header) (timestamp base_fee : Z) : ScrollNextBlockEnvAttributes :=
  {| attr_timestamp := timestamp; attr_suggested_fee_recipient := beneficiary parent;
     attr_gas_limit := gas_limit parent; attr_base_fee := base_fee |}.

(** A fresh meter behind the inspector of the EVM, the base-fee check off. *)
Definition simulation_evm (db : DB) (env : EvmEnv) : Evm :=
  let meter := CodeWitness.begin_transaction
    (CodeWitness.new_meter (cw_max_code_witness_bytes config) (cw_max_steps config)) in
  with_base_fee_check
    (create_evm_with_inspector db env {| CodeWitness.meter := meter; CodeWitness.pending_access := None |})
    false.

(** The verdict on a finished run: the meter first, then the EVM's error. *)
Definition verdict (result : result ResultAndState EVMError) (meter : CodeWitness.Meter) :
    Prelude.result unit Failure :=
  match CodeWitness.exceeded meter with
  | Some CodeWitness.CodeBytes =>
      Err (CodeBytes (CodeWitness.transaction_code_bytes meter) (cw_max_code_witness_bytes config))
  | Some CodeWitness.ExecutionSteps => Err (ExecutionSteps (cw_max_steps config))
  | None =>
      match result with
      | Ok _ => Ok tt
      | Err error =>
          match database_error error with
          | Some error => Err (Provider error)
          | None => Err (Indeterminate (show_evm_error error))
          end
      end
  end.

(** The EVM and environment of the simulation, from the state of the parent. *)
Definition prepare (provider : DB) (parent : Header) (tx : DogeosPooledTransaction) :
    outcome (result (Evm * TxEnv.ScrollTx TxEnv.Authorization) Failure) :=
  match override_nonce (cache_new provider) (sender tx) (tx_nonce tx) with
  | (Err e, _) => Returns (Err (Provider e))
  | (Ok _, database) =>
      match checked_add u64_max (timestamp parent) 1 with
      | None => Returns (Err (Indeterminate "parent timestamp overflow"))
      | Some timestamp =>
          match base_fee_per_gas parent with
          | None => Returns (Err (Indeterminate "parent has no base fee"))
          | Some _ =>
              match next_block_base_fee chain_spec database parent timestamp with
              | Panics msg => Panics msg
              | Returns (Err e, _) => Returns (Err (Provider e))
              | Returns (Ok base_fee, database) =>
                  let env := next_evm_env chain_spec parent (simulated_attributes parent timestamp base_fee) in
                  match TxEnv.from_recovered_tx (consensus_ref tx).1 (consensus_ref tx).2 with
                  | Panics msg => Panics msg
                  | Returns tx_env => Returns (Ok (simulation_evm database env, tx_env))
                  end
              end
          end
      end
  end.

Definition simulate (provider : DB) (parent : Header) (tx : DogeosPooledTransaction) :
    outcome (result unit Failure) :=
  match prepare provider parent tx with
  | Panics msg => Panics msg
  | Returns (Err e) => Returns (Err e)
  | Returns (Ok (evm, tx_env)) =>
      let '(result, evm) := transact_raw evm tx_env in
      Returns (verdict result (CodeWitness.meter (evm_inspector evm)))
  end.

Definition validate_code_witness (tx : DogeosPooledTransaction) (w : W) : outcome (result unit Failure) * W :=
  match latest_header w with
  | (Err e, w) => (Returns (Err (Provider e)), w)
  | (Ok None, w) => (Returns (Err MissingHead), w)
  | (Ok (Some parent), w) =>
      if number (sealed_header parent) =? u64_max then
        (Returns (Err (Indeterminate "parent block number overflow")), w)
      else
        match state_by_block_hash w (sealed_hash parent) with
        | (Err e, w) => (Returns (Err (Provider e)), w)
        | (Ok provider, w) => (simulate provider (sealed_header parent) tx, w)
        end
  end.
End Admission.

(** ** Lemmas *)

Section Lemmas.
Context `{AlloyForks} `{TxEnv.EvmTypes} `{!EthPool} `{Rlp} `{!TxEnv.Zstd} `{ReceiptTypes} `{RevmAccounts}
  {S : Type} `{DogeosHardforks S} `{ChainConfig S} `{!EthChainSpec S} `{!ChainId S} `{AlloyEips}
  {DB E : Type} `{Database DB E} `{DatabaseView DB} `{!DatabaseLaws DB E} `{!CacheDB DB E}
  `{!CacheDBLaws DB E} `{!Revm DB} `{!ScrollContext DB} `{!EvmDatabaseError EVMError E}.
Context (chain_spec : S) (config : CodeWitnessValidationConfig).

(** The contents of a state with one account's nonce replaced. *)
Definition nonce_replaced (db db' : DB) (sender : Address) (nonce : Z) : Prop :=
  info_of db' sender = Some (with_account_nonce (default default_info (info_of db sender)) nonce)
  /\ (forall a, a <> sender -> info_of db' a = info_of db a)
  /\ (forall a k, slot_of db' a k = slot_of db a k).

Lemma override_nonce_spec (db db' : DB) sender nonce :
  override_nonce db sender nonce = (Ok tt, db') -> nonce_replaced db db' sender nonce.
Proof.
  unfold override_nonce. destruct (load_account db sender) as [[info|e] db1] eqn:El; [|done]. intros [= <-].
  pose proof (load_account_reads db sender info db1 El) as ->.
  split; [|split].
  - by rewrite write_account_info, Z.eqb_refl.
  - intros a Ha. rewrite write_account_info, (proj2 (Z.eqb_neq _ _)) by done.
    rewrite <- (load_account_info db sender a Ha). by rewrite El.
  - intros a k. rewrite write_account_slot, <- (load_account_slot db sender a k). by rewrite El.
Qed.

(** Reading the base fee leaves the contents alone. *)
Lemma next_base_fee_spec (db db' : DB) parent t fee :
  next_block_base_fee chain_spec db parent t = Returns (Ok fee, db') ->
  same_contents db db' /\ exists p, from_header parent = Some p
    /\ fee = expected_base_fee chain_spec
               (slot_of db (l2_system_config_address (l1_config (chain_config chain_spec))) 101) p t.
Proof.
  unfold next_block_base_fee. destruct (from_header parent) as [p|]; [|done]. intros [= Ef]. split.
  - pose proof (base_fee_overhead_views chain_spec db) as [Ha Hk].
    unfold next_block_base_fee_for_parent in Ef. destruct (base_fee_overhead chain_spec db) as [o db1].
    injection Ef as _ <-. by split.
  - exists p. split; [done|]. by eapply for_parent_reads.
Qed.
End Lemmas.

(** The meter of a simulated run. *)
Lemma simulated_meter `{TxEnv.EvmTypes} `{ReceiptTypes} {DB} `{!Revm DB} `{!RevmLaws DB} `{!ScrollContext DB}
    (config : CodeWitnessValidationConfig) (db : DB) env tx_env r evm :
  0 <= cw_max_code_witness_bytes config < u64_max -> 0 <= cw_max_steps config <= u64_max ->
  transact_raw (simulation_evm config db env) tx_env = (r, evm) ->
  let m := CodeWitness.meter (evm_inspector evm) in
  CodeWitness.single m /\ (exists auths, CodeWitness.meter_inv code_size 0 auths m)
  /\ CodeWitness.max_code_bytes m = cw_max_code_witness_bytes config
  /\ CodeWitness.max_steps m = cw_max_steps config.
Proof.
  intros Hb Hs Er m. apply transact_raw_env in Er as (_ & _ & _ & _ & _ & _ & events & Hh & Hok & Hi).
  unfold m. rewrite Hi. simpl.
  set (i := {| CodeWitness.meter := _; CodeWitness.pending_access := None |}).
  split; [apply (CodeWitness.hooks_single code_size); [done|done|apply CodeWitness.begin_single]|].
  split; [|by destruct (CodeWitness.hooks_same i events Hh) as (-> & -> & _)].
  pose proof (CodeWitness.run_inv code_size events i (0, 0) Hok
    (CodeWitness.begin_inv code_size _ _ Hb Hs)) as Hm.
  assert (Hk : forall l j k, Forall (fun e => CodeWitness.is_hook e = true) l -> (CodeWitness.run_auths j k l).2 = k.2).
  { induction l as [|e l IH]; intros j k Hl; [done|]. inversion Hl as [|? ? He Hl']; subst. simpl.
    rewrite IH by done. destruct e; try done; simpl; by case_match. }
  rewrite Hk in Hm by done. by eexists.
Qed.

(** ** Properties *)

(** C19: The admission verdict is the meter's, and the meter is exact. A simulated
    transaction is admitted exactly when its run succeeded and hit no limit, and
    then the distinct code it touched, with 23 bytes per authorization, is what
    the meter counted and fits the budget, and its steps fit the allowance. A
    rejection for code reports a count that is really above the limit; one for
    steps a run that used its whole allowance; every other rejection is an error
    of the EVM, the provider's when the EVM says so. *)
Theorem admission_verdict_exact `{AlloyForks} `{TxEnv.EvmTypes} `{!EthPool} `{Rlp} `{!TxEnv.Zstd}
    `{ReceiptTypes} {DB E} `{!Revm DB} `{!RevmLaws DB} `{!ScrollContext DB} `{!EvmDatabaseError EVMError E}
    (config : CodeWitnessValidationConfig) (db : DB) (env : EvmEnv)
    (tx_env : TxEnv.ScrollTx TxEnv.Authorization) r evm :
  0 <= cw_max_code_witness_bytes config < u64_max -> 0 <= cw_max_steps config <= u64_max ->
  transact_raw (simulation_evm config db env) tx_env = (r, evm) ->
  let m := CodeWitness.meter (evm_inspector evm) in
  let answer := verdict (E := E) config r m in
  (answer = Ok tt <-> is_ok r = true /\ CodeWitness.exceeded m = None)
  /\ (CodeWitness.exceeded m = None -> exists auths,
      CodeWitness.transaction_code_bytes m = CodeWitness.total (CodeWitness.pending m) + 23 * auths
      /\ CodeWitness.transaction_code_bytes m <= cw_max_code_witness_bytes config
      /\ (forall h n, CodeWitness.pending m !! h = Some n -> n = code_size h))
  /\ CodeWitness.steps m <= cw_max_steps config
  /\ (forall observed limit, answer = Err (CodeBytes observed limit) ->
      limit = cw_max_code_witness_bytes config /\ limit < observed
      /\ observed = CodeWitness.transaction_code_bytes m)
  /\ (forall limit, answer = Err (ExecutionSteps limit) ->
      limit = cw_max_steps config /\ CodeWitness.steps m = limit)
  /\ (forall e, answer = Err (Provider e) -> exists error, r = Err error /\ database_error error = Some e).
Proof.
  intros Hb Hs Er m answer.
  destruct (simulated_meter config db env tx_env r evm Hb Hs Er) as (Hone & (auths & Hm) & Em & Es).
  fold m in Hone, Hm, Em, Es. destruct Hone as [Ha Hab Hsame Hr Hc Ht], Hm as [? ? ? ? Hsteps Hlim Hsz _ Hpe].
  unfold CodeWitness.transaction_code_bytes. rewrite Em in *. rewrite Es in *.
  split; [|split; [|split; [lia|split; [|split]]]].
  - unfold answer, verdict. destruct (CodeWitness.exceeded m) as [[]|]; [by split; [|intros [_ ?]]..|].
    destruct r as [out|error]; simpl; [by split|]. destruct (database_error error); by split; [|intros [? _]].
  - intros He. exists auths. rewrite Hsame. specialize (Hpe He). specialize (Hlim He).
    rewrite Ha, map_difference_empty in Hpe. split; [done|]. split; [solve_ints|].
    intros h n Hn. by destruct (Hsz h n (or_intror Hn)).
  - intros observed limit. unfold answer, verdict. destruct (CodeWitness.exceeded m) as [[]|] eqn:Ee; [|done|].
    + intros [= <- <-]. split; [done|]. split; [|done]. unfold CodeWitness.transaction_code_bytes.
      rewrite Hsame. by apply Hc.
    + destruct r as [|error]; [done|]. by destruct (database_error error).
  - intros limit. unfold answer, verdict. destruct (CodeWitness.exceeded m) as [[]|] eqn:Ee; [done| |].
    + intros [= <-]. split; [done|]. specialize (Ht eq_refl). lia.
    + destruct r as [|error]; [done|]. by destruct (database_error error).
  - intros e. unfold answer, verdict. destruct (CodeWitness.exceeded m) as [[]|]; [done..|].
    destruct r as [|error]; [done|]. destruct (database_error error) eqn:Ed; [|done].
    intros [= <-]. by exists error.
Qed.

(** What the simulation runs. When its preparation succeeds, the transaction
    has the execution environment the builder gives it, in the block the builder
    would make next on that parent: its number and fork, the parent's timestamp
    plus one and gas limit, and the base fee of the rule for the stored
    overhead. The state is the parent's with one difference, the sender's nonce;
    the base-fee check is off, the nonce check on, and the inspector is a fresh
    meter with the configured limits. *)
Theorem simulation_environment `{AlloyForks} `{TxEnv.EvmTypes} `{!EthPool} `{Rlp} `{!TxEnv.Zstd}
    `{ReceiptTypes} `{RevmAccounts} {S} `{DogeosHardforks S} `{ChainConfig S} `{!EthChainSpec S} `{!ChainId S}
    `{AlloyEips} {DB E} `{Database DB E} `{DatabaseView DB} `{!DatabaseLaws DB E} `{!CacheDB DB E}
    `{!CacheDBLaws DB E} `{!Revm DB} `{!ScrollContext DB}
    (chain_spec : S) (config : CodeWitnessValidationConfig) (provider : DB) (parent : Header)
    (tx : DogeosPooledTransaction) evm tx_env :
  number parent < u64_max -> 0 <= number parent ->
  prepare chain_spec config provider parent tx = Returns (Ok (evm, tx_env)) ->
  let t := timestamp parent + 1 in
  let slot := slot_of provider (l2_system_config_address (l1_config (chain_config chain_spec))) 101 in
  TxEnv.from_recovered_tx (consensus_ref tx).1 (consensus_ref tx).2 = Returns tx_env
  /\ nonce_replaced provider (evm_db evm) (sender tx) (tx_nonce tx)
  /\ t <= u64_max
  /\ (exists p, from_header parent = Some p
      /\ let env := next_evm_env chain_spec parent
                     (simulated_attributes parent t (expected_base_fee chain_spec slot p t)) in
         evm_block evm = block_env env /\ evm_spec evm = cfg_spec env /\ evm_chain_id evm = cfg_chain_id env)
  /\ block_number (evm_block evm) = number parent + 1
  /\ block_gas_limit (evm_block evm) = gas_limit parent
  /\ disable_base_fee evm = true /\ disable_nonce_check evm = false /\ inspect evm = true
  /\ CodeWitness.meter (evm_inspector evm)
     = CodeWitness.new_meter (cw_max_code_witness_bytes config) (cw_max_steps config).
Proof.
  intros Hn Hn0. unfold prepare.
  destruct (override_nonce (cache_new provider) (sender tx) (tx_nonce tx)) as [[[]|e] db1] eqn:Eo; [|done].
  unfold checked_add. destruct (Z.leb_spec (timestamp parent + 1) u64_max); [|done].
  destruct (base_fee_per_gas parent) eqn:Eb; [|done].
  destruct (next_block_base_fee chain_spec db1 parent _) as [[[fee|e] db2]|msg] eqn:Ef; [|done..].
  destruct (TxEnv.from_recovered_tx _ _) as [env|msg] eqn:Et; [|done]. intros [= <- <-].
  apply (override_nonce_spec (E := E)) in Eo as (Hs & Ho & Hk).
  destruct (cache_new_same (CacheDB0 := CacheDB0) provider) as [Hci Hck].
  destruct (next_base_fee_spec chain_spec db1 db2 parent _ fee Ef) as [[Hfi Hfk] (p & Hp & ->)].
  split; [done|]. split.
  { unfold nonce_replaced. simpl. rewrite Hfi, Hs, Hci. split; [done|]. split.
    - intros a Ha. by rewrite Hfi, Ho, Hci.
    - intros a k. by rewrite Hfk, Hk, Hck. }
  split; [done|]. split; [exists p; split; [done|]; by rewrite Hk, Hck|].
  simpl. rewrite wrap_u64_small by solve_ints. by repeat split.
Qed.

(** A transaction whose data and encoding have machine lengths has an environment. *)
Lemma from_recovered_returns `{TxEnv.EvmTypes} `{Rlp} `{!TxEnv.Zstd} `{!TxEnv.ZstdLaws}
    (t : TxEnvelope.ScrollTxEnvelope) (a : Address) :
  blen (TxEnv.data (TxEnv.recovered_base t a)) <= u64_max -> blen (TxEnvelope.encode_2718 t) <= u64_max ->
  exists env, TxEnv.from_recovered_tx t a = Returns env.
Proof.
  intros Hd He. unfold TxEnv.from_recovered_tx. set (b := TxEnv.recovered_base t a) in *.
  set (enc := TxEnvelope.encode_2718 t) in *.
  destruct (TxEnv.compressed_size_returns enc He) as (size & Es & _).
  destruct (TxEnv.compressed_size_returns (TxEnv.data b) Hd) as (n & En & Hn & Hpos).
  assert (Hr : exists ratio, TxEnv.compute_compression_ratio (TxEnv.data b) = Returns ratio).
  { unfold TxEnv.compute_compression_ratio. destruct (TxEnv.data b) as [|x l]; [by eexists|].
    rewrite En. destruct (n =? _); [by eexists|].
    rewrite (proj2 (Z.eqb_neq _ _)) by (specialize (Hpos ltac:(done)); lia). by eexists. }
  destruct Hr as [ratio Er]. unfold TxEnv.with_compression. rewrite Er, Es. destruct t; by eexists.
Qed.

(** Admission always answers, and each refusal before the run names its
    cause. Whatever the head, the state and the transaction (of machine length)
    are, validation returns: the header it reads is the head at a moment of the
    call, a failed read is the provider's error, no head is a missing head, and a
    head at the last number, with the last timestamp or without a base fee is
    inconclusive rather than a panic; an admission implies none of these. *)
Theorem code_witness_validation_total `{AlloyForks} `{TxEnv.EvmTypes} `{!EthPool} `{Rlp} `{!TxEnv.Zstd}
    `{!TxEnv.ZstdLaws} `{ReceiptTypes} {S} `{DogeosHardforks S} `{ChainConfig S} `{!EthChainSpec S}
    `{!ChainId S} `{AlloyEips} {DB E} `{Database DB E} `{!CacheDB DB E} `{!Revm DB} `{!ScrollContext DB}
    `{!EvmDatabaseError EVMError E} {W} `{!Client W DB E} `{!ClientView W E} `{!ClientLaws W DB E}
    (chain_spec : S) (config : CodeWitnessValidationConfig) (tx : DogeosPooledTransaction) (w : W) :
  let t := (consensus_ref tx).1 in
  blen (TxEnv.data (TxEnv.recovered_base t (consensus_ref tx).2)) <= u64_max ->
  blen (TxEnvelope.encode_2718 t) <= u64_max ->
  exists r w' wh, validate_code_witness chain_spec config tx w = (Returns r, w')
    /\ moves w wh /\ moves wh w'
    /\ match head wh with
       | Err e => r = Err (Provider e)
       | Ok None => r = Err MissingHead
       | Ok (Some h) =>
           let parent := sealed_header h in
           (number parent = u64_max -> r = Err (Indeterminate "parent block number overflow"))
           /\ (r = Ok tt -> number parent <> u64_max /\ timestamp parent + 1 <= u64_max
                            /\ is_Some (base_fee_per_gas parent))
       end.
Proof.
  intros t Hd He. destruct (from_recovered_returns t (consensus_ref tx).2 Hd He) as [env Eenv].
  unfold validate_code_witness. destruct (latest_header w) as [r0 wh] eqn:El.
  apply latest_header_reads in El as [Hm ->]. destruct (head wh) as [[h|]|e] eqn:Eh;
    [|eexists _, wh, wh; rewrite Eh; by repeat split..].
  destruct (Z.eqb_spec (number (sealed_header h)) u64_max) as [Hn|Hn].
  { eexists _, wh, wh. rewrite Eh. repeat split; try done. }
  destruct (state_by_block_hash wh (sealed_hash h)) as [[provider|e] w'] eqn:Es; apply state_by_hash_moves in Es.
  2:{ eexists _, w', wh. rewrite Eh. repeat split; try done. }
  assert (Hsim : exists r, simulate chain_spec config provider (sealed_header h) tx = Returns r
    /\ (r = Ok tt -> timestamp (sealed_header h) + 1 <= u64_max /\ is_Some (base_fee_per_gas (sealed_header h)))).
  { unfold simulate, prepare. fold t. rewrite Eenv.
    destruct (override_nonce _ _ _) as [[[]|e] db1]; [|by eexists].
    unfold checked_add. destruct (Z.leb_spec (timestamp (sealed_header h) + 1) u64_max); [|by eexists].
    unfold next_block_base_fee, from_header.
    destruct (base_fee_per_gas (sealed_header h)) as [fee|]; [|by eexists].
    destruct (next_block_base_fee_for_parent _ _ _ _) as [[bf|e] db2]; [|by eexists].
    destruct (transact_raw _ _) as [out evm]. eexists. split; [reflexivity|]. by eauto. }
  destruct Hsim as (r & -> & Hok). exists r, w', wh. rewrite Eh. repeat split; try done; by apply Hok.
Qed.

(** ** Witnesses *)

#[local] Instance overlay : CacheDB MemDb unit := {
  cache_new db := db;
  load_account db a := (Ok (default default_info (mem_accounts db !! a)), db);
  write_account db a i := {| mem_accounts := <[a := i]> (mem_accounts db); mem_storage := mem_storage db |};
}.

#[local] Instance overlay_laws : CacheDBLaws MemDb unit.
Proof.
  split; simpl; try done; [by intros db a r db' [= <- _]|].
  intros db a i b. destruct (Z.eqb_spec b a) as [->|]; [apply lookup_insert_eq|by apply lookup_insert_ne].
Qed.

#[local] Instance unit_errors : EvmDatabaseError unit unit := { database_error _ := None }.

Definition sample_admission : CodeWitnessValidationConfig :=
  {| cw_max_code_witness_bytes := 1000; cw_max_steps := 50; cw_max_inflight := 2 |}.

Definition sample_env : EvmEnv := next_evm_env (new_schedule mainnet) sample_parent_header sample_attributes.

Definition sample_simulation : result ResultAndState (EVMError (Revm := ref_revm)) * ScrollEvm L1BlockInfo MemDb :=
  transact_raw (simulation_evm sample_admission oracle_db sample_env) (ref_env 30000 (Some [1; 2; 3])).

Lemma admission_verdict_exact_witness :
  verdict (DB := MemDb) (E := unit) sample_admission sample_simulation.1
    (CodeWitness.meter (evm_inspector sample_simulation.2)) = Ok tt.
Proof.
  destruct (admission_verdict_exact (DB := MemDb) (E := unit) (Revm0 := ref_revm) sample_admission oracle_db
    sample_env (ref_env 30000 (Some [1; 2; 3])) sample_simulation.1 sample_simulation.2) as [[_ H] _];
    [vm_compute; split; done|vm_compute; split; discriminate|reflexivity|].
  apply H. split; reflexivity.
Defined.

Lemma simulation_environment_witness :
  match prepare (DB := MemDb) (E := unit) (Revm0 := ref_revm) (new_schedule mainnet) sample_admission oracle_db
          sample_parent_header sample_tx with
  | Returns (Ok (evm, _)) => block_number (evm_block evm) = 6 /\ disable_base_fee evm = true
  | _ => False
  end.
Proof.
  pose proof (simulation_environment (DB := MemDb) (E := unit) (Revm0 := ref_revm) (new_schedule mainnet)
    sample_admission oracle_db sample_parent_header sample_tx) as H.
  assert (Hp : match prepare (DB := MemDb) (E := unit) (Revm0 := ref_revm) (new_schedule mainnet)
    sample_admission oracle_db sample_parent_header sample_tx with Returns (Ok _) => true | _ => false end = true)
    by (vm_compute; reflexivity).
  destruct (prepare _ _ _ _ _) as [[[evm env]|e]|msg]; [|discriminate Hp..].
  destruct (H evm env) as (_ & _ & _ & _ & Hn & _ & Hb & _);
    [vm_compute; reflexivity|vm_compute; discriminate|reflexivity|].
  split; [exact Hn|exact Hb].
Defined.

Lemma code_witness_validation_total_witness :
  exists r w', validate_code_witness (DB := MemDb) (E := unit) (Revm0 := ref_revm) (new_schedule mainnet)
    sample_admission sample_tx 0 = (Returns r, w').
Proof.
  destruct (code_witness_validation_total (DB := MemDb) (E := unit) (Revm0 := ref_revm) (new_schedule mainnet)
    sample_admission sample_tx 0) as (r & w' & wh & H & _); [vm_compute; discriminate..|].
  exists r, w'. exact H.
Defined.
