(* ===== verification/PoolMaintenance.v ===== *)
(** * Pool maintenance (dogeos-reth-txpool/src/maintenance.rs)

    The view of the pool that reth's maintenance task drives: before an update
    reaches the inner pool its base fee is replaced by the state-aware one, or,
    when the head or its state cannot be read, by the fee the pool already
    enforces. Every other method is a call of the inner pool. *)

From stdpp Require Import prelude gmap list strings.
From Stdlib Require Import ZArith Lia.
From S2P Require Import Prelude.
From S2P Require Import Hardforks.
From S2P Require Import GenesisConfig.
From S2P Require Import ChainSpec.
From S2P Require Import Chain.
From S2P Require Import BaseFee.
From S2P Require Import Transitions.
From S2P Require Import PoolTx.
From S2P Require Import PoolValidator.

(** [BlockInfo] of reth's pool. *)
Record BlockInfo := {
  block_gas_limit : Z;
  last_seen_block_hash : B256;
  last_seen_block_number : Z;
  pending_basefee : Z;
  pending_blob_fee : option Z;
}.

(** [CanonicalStateUpdate]: the tip, the fees, and the rest of it (accounts, mined
    transactions, kind), which maintenance passes on as it is. *)
Record CanonicalStateUpdate (Rest : Type) := {
  new_tip : SealedHeader;
  pending_block_base_fee : Z;
  pending_block_blob_fee : option Z;
  update_rest : Rest;
}.
Arguments new_tip {Rest} _.
Arguments pending_block_base_fee {Rest} _.
Arguments pending_block_blob_fee {Rest} _.
Arguments update_rest {Rest} _.

(** The inner pool, and the lookup of a header by hash. *)
Class TransactionPoolExt (P Rest : Type) := {
  block_info : P -> BlockInfo;
  pool_set_block_info : P -> BlockInfo -> P;
  pool_on_canonical_state_change : P -> CanonicalStateUpdate Rest -> P;
}.

(** The methods whose call goes to the inner pool as it is: those of [delegate_pool!]
    and the six written out. *)
Inductive ForwardedMethod : Type :=
| UpdateAccounts | DeleteBlob | DeleteBlobs | CleanupBlobs | PoolSize | BlockInfoOf
| AddTransactionAndSubscribe | AddTransaction | AddTransactions | AddTransactionsWithOrigins
| TransactionEventListener | AllTransactionsEventListener | PendingTransactionsListenerFor
| BlobTransactionSidecarsListener | NewTransactionsListenerFor | PooledTransactionHashes
| PooledTransactionHashesMax | PooledTransactions | PooledTransactionsMax
| GetPooledTransactionElements | GetPooledTransactionElement | BestTransactions
| BestTransactionsWithAttributes | PendingTransactions | PendingTransactionsMax
| QueuedTransactions | PendingAndQueuedTxnCount | AllTransactions | AllTransactionHashes
| RemoveTransactions | RemoveTransactionsAndDescendants | RemoveTransactionsBySender
| PruneTransactions | Get | GetAll | OnPropagated | GetTransactionsBySender
| GetPendingTransactionsBySender | GetQueuedTransactionsBySender
| GetHighestTransactionBySender | GetHighestConsecutiveTransactionBySender
| GetTransactionBySenderAndNonce | GetTransactionsByOrigin | GetPendingTransactionsByOrigin
| UniqueSenders | GetBlob | GetAllBlobs | GetAllBlobsExact | GetBlobsForVersionedHashesV1
| GetBlobsForVersionedHashesV2 | GetBlobsForVersionedHashesV3 | RetainUnknown
| GetPendingTransactionsWithPredicate.

(** What each takes and answers, and what the inner pool does. *)
Class ForwardedPool (P : Type) := {
  Arguments_of : ForwardedMethod -> Type;
  Answer : ForwardedMethod -> Type;
  pool_call : forall m, P -> Arguments_of m -> Answer m * P;
}.

Class HeaderClient (W E : Type) := {
  header_by_hash : W -> B256 -> result (option Header) E * W;
  header_not_found : B256 -> E;
}.

(** Documented: the pool enforces the fee, and remembers the head, it was last told. *)
Class TransactionPoolExtLaws (P Rest : Type) `{TransactionPoolExt P Rest} : Prop := {
  block_info_set p i : block_info (pool_set_block_info p i) = i;
  block_info_changed p u :
    pending_basefee (block_info (pool_on_canonical_state_change p u)) = pending_block_base_fee u
    /\ last_seen_block_hash (block_info (pool_on_canonical_state_change p u)) = sealed_hash (new_tip u);
}.

Section Maintenance.
Context `{AlloyForks} `{AlloyEips} {S : Type} `{DogeosHardforks S} `{!EthChainSpec S} `{!ChainConfig S}
  {DB E : Type} `{Database DB E} {W : Type} `{!Client W DB E} `{!HeaderClient W E}
  {P Rest : Type} `{!TransactionPoolExt P Rest}.
Context (chain_spec : S).

(** [DogeosPoolMaintenance] holds the inner pool; the client is the world it reads. *)
Record DogeosPoolMaintenance := { inner : P }.

Definition new (inner : P) : DogeosPoolMaintenance := {| inner := inner |}.

Definition next_base_fee (hash : B256) (w : W) : outcome (result Z E) * W :=
  match header_by_hash w hash with
  | (Err e, w) => (Returns (Err e), w)
  | (Ok None, w) => (Returns (Err (header_not_found hash)), w)
  | (Ok (Some header), w) =>
      match base_fee_per_gas header with
      | None => (Returns (Ok 0), w)
      | Some _ =>
          match state_by_block_hash w hash with
          | (Err e, w) => (Returns (Err e), w)
          | (Ok state, w) =>
              (match predict_next_block_base_fee chain_spec state header with
               | Panics msg => Panics msg
               | Returns (fee, _) => Returns fee
               end, w)
          end
      end
  end.

(** The fee to keep when none can be computed. *)
Definition kept_base_fee (self : DogeosPoolMaintenance) : Z :=
  let previous := block_info (inner self) in
  if last_seen_block_hash previous =? 0 then MAX_L2_BASE_FEE else pending_basefee previous.

Definition pending_base_fee (self : DogeosPoolMaintenance) (hash : B256) (w : W) : outcome Z * W :=
  let '(fee, w) := next_base_fee hash w in
  (match fee with
   | Panics msg => Panics msg
   | Returns (Ok fee) => Returns fee
   | Returns (Err _) => Returns (kept_base_fee self)
   end, w).

Definition with_pending_basefee (info : BlockInfo) (fee : Z) : BlockInfo :=
  {| block_gas_limit := block_gas_limit info; last_seen_block_hash := last_seen_block_hash info;
     last_seen_block_number := last_seen_block_number info; pending_basefee := fee;
     pending_blob_fee := pending_blob_fee info |}.

Definition with_pending_block_base_fee (update : CanonicalStateUpdate Rest) (fee : Z) : CanonicalStateUpdate Rest :=
  {| new_tip := new_tip update; pending_block_base_fee := fee;
     pending_block_blob_fee := pending_block_blob_fee update; update_rest := update_rest update |}.

Definition set_block_info (self : DogeosPoolMaintenance) (info : BlockInfo) (w : W) :
    outcome DogeosPoolMaintenance * W :=
  match pending_base_fee self (last_seen_block_hash info) w with
  | (Panics msg, w) => (Panics msg, w)
  | (Returns fee, w) =>
      (Returns {| inner := pool_set_block_info (inner self) (with_pending_basefee info fee) |}, w)
  end.

Definition on_canonical_state_change (self : DogeosPoolMaintenance) (update : CanonicalStateUpdate Rest) (w : W) :
    outcome DogeosPoolMaintenance * W :=
  match pending_base_fee self (sealed_hash (new_tip update)) w with
  | (Panics msg, w) => (Panics msg, w)
  | (Returns fee, w) =>
      (Returns {| inner := pool_on_canonical_state_change (inner self) (with_pending_block_base_fee update fee) |},
       w)
  end.

(** The method of the inner pool with the same arguments. *)
Definition delegate_pool `{!ForwardedPool P} (m : ForwardedMethod) (self : DogeosPoolMaintenance)
    (args : Arguments_of m) : Answer m * DogeosPoolMaintenance :=
  let '(answer, p) := pool_call m (inner self) args in (answer, {| inner := p |}).
End Maintenance.

(** ** Specifications *)

Section Specs.
Context `{AlloyForks} `{AlloyEips} {S : Type} `{DogeosHardforks S} `{!EthChainSpec S} `{!ChainConfig S}
  {DB E : Type} `{Database DB E} `{DatabaseView DB} `{!DatabaseLaws DB E} {W : Type} `{!Client W DB E}
  `{!HeaderClient W E} {P Rest : Type} `{!TransactionPoolExt P Rest}.
Context (chain_spec : S).

Abbreviation Maintenance := (DogeosPoolMaintenance (P := P)).

(** The overhead of some state cannot be read. *)
Definition overhead_unreadable (state : DB) : Prop :=
  exists e db, storage state (l2_system_config_address (l1_config (chain_config chain_spec)))
                 L2_BASE_FEE_OVERHEAD_SLOT = (Err e, db).

(** Keeping the fee is a last resort. *)
Definition unreadable (hash : B256) (w : W) : Prop :=
  match header_by_hash w hash with
  | (Ok (Some h), w1) =>
      is_Some (base_fee_per_gas h) /\
      match state_by_block_hash w1 hash with
      | (Ok state, _) => overhead_unreadable state
      | (Err _, _) => True
      end
  | _ => True
  end.

(** What the pool falls back on: its own fee, or the protocol's maximum before it
    has seen a head. *)
Definition held_fee (i : BlockInfo) : Z :=
  if last_seen_block_hash i =? 0 then 420000000000000 else pending_basefee i.

(** The fee a pool must enforce after a head: the base-fee rule on the head's state
    one second later, zero for a head without a base fee, and the fee it keeps
    exactly when header, state or overhead cannot be read. *)
Inductive enforces (self : Maintenance) (hash : B256) (w : W) : Z -> Prop :=
| EnforcesRule h state w1 w2 p :
    header_by_hash w hash = (Ok (Some h), w1) -> state_by_block_hash w1 hash = (Ok state, w2) ->
    from_header h = Some p ->
    enforces self hash w
      (expected_base_fee chain_spec
         (slot_of state (l2_system_config_address (l1_config (chain_config chain_spec))) 101) p
         (Z.min (timestamp h + 1) u64_max))
| EnforcesNone h w1 :
    header_by_hash w hash = (Ok (Some h), w1) -> base_fee_per_gas h = None -> enforces self hash w 0
| EnforcesKept : unreadable hash w -> enforces self hash w (held_fee (block_info (inner self))).

Lemma next_fee_spec (self : Maintenance) hash w :
  exists r w', next_base_fee chain_spec hash w = (Returns r, w') /\
    match r with
    | Ok fee => enforces self hash w fee /\ ~ unreadable hash w
    | Err _ => unreadable hash w
    end.
Proof.
  unfold next_base_fee, unreadable.
  destruct (header_by_hash w hash) as [[[h|]|e] w1] eqn:Eh; [|by eexists _, _..].
  destruct (base_fee_per_gas h) as [fee|] eqn:Ef.
  2:{ eexists _, _. split; [reflexivity|]. split; [by eapply EnforcesNone|]. by intros [[? ?] _]. }
  destruct (state_by_block_hash w1 hash) as [[state|e] w2] eqn:Es.
  2:{ eexists _, _. split; [reflexivity|]. split; [by eexists|done]. }
  unfold predict_next_block_base_fee, next_block_base_fee.
  destruct (from_header h) as [p|] eqn:Ep; [|unfold from_header in Ep; by rewrite Ef in Ep].
  destruct (next_block_base_fee_for_parent _ _ _ _) as [[v|e] db] eqn:En.
  - eexists _, _. split; [reflexivity|]. split.
    + rewrite (for_parent_reads _ _ _ _ _ _ En). by eapply EnforcesRule.
    + intros [_ (e & db' & Er)]. unfold next_block_base_fee_for_parent, base_fee_overhead in En.
      by rewrite Er in En.
  - eexists _, _. split; [reflexivity|]. split; [by eexists|].
    unfold next_block_base_fee_for_parent, base_fee_overhead in En. unfold overhead_unreadable.
    destruct (storage state _ _) as [[v|e'] db']; [done|]. by eexists _, _.
Qed.

Lemma pending_base_fee_spec (self : Maintenance) hash w :
  exists fee w', pending_base_fee chain_spec self hash w = (Returns fee, w')
    /\ enforces self hash w fee /\ (unreadable hash w -> fee = held_fee (block_info (inner self))).
Proof.
  destruct (next_fee_spec self hash w) as (r & w' & E1 & Hr). unfold pending_base_fee. rewrite E1.
  destruct r as [fee|e]; (eexists _, _; split; [reflexivity|]).
  - destruct Hr as [He Hu]. split; [done|]. by intros Hx.
  - assert (kept_base_fee self = held_fee (block_info (inner self))) as -> by reflexivity.
    split; [by apply EnforcesKept|done].
Qed.

(** A header with machine-sized fields. *)
Definition header_in_range (h : Header) : Prop :=
  in_u64 (gas_used h) /\ in_u64 (gas_limit h) /\ forall fee, base_fee_per_gas h = Some fee -> in_u64 fee.

(** Fees in range: bounded by the protocol's maximum once a head was applied. *)
Definition fee_ok (i : BlockInfo) : Prop :=
  last_seen_block_hash i = 0 \/ 0 <= pending_basefee i <= 420000000000000.

Lemma kept_ok (self : Maintenance) :
  fee_ok (block_info (inner self)) -> 0 <= held_fee (block_info (inner self)) <= 420000000000000.
Proof.
  unfold fee_ok, held_fee.
  destruct (Z.eqb_spec (last_seen_block_hash (block_info (inner self))) 0); [lia|]. by intros [|].
Qed.

Lemma expected_base_fee_range `{!AlloyEipsLaws} slot p t :
  0 <= slot -> in_u64 (parent_base_fee_per_gas p) -> in_u64 (parent_gas_used p) -> in_u64 (parent_gas_limit p) ->
  0 <= expected_base_fee chain_spec slot p t <= 420000000000000.
Proof.
  intros Hs Hf Hu Hl. unfold expected_base_fee, effective_overhead.
  pose proof (fork_clamp_le chain_spec t).
  set (o := if slot =? 0 then 15680000 else Z.min slot u64_max).
  assert (0 <= o) by (unfold o; case_match; solve_ints).
  pose proof (calc_range (parent_gas_used p) (parent_gas_limit p) (Z.max (parent_base_fee_per_gas p - o) 0)
    (spec_base_fee_params chain_spec t) Hu Hl ltac:(solve_ints)) as Hc. solve_ints.
Qed.

Context `{!AlloyEipsLaws}.
(** The client's headers and states hold machine values. *)
Context (headers_in_range : forall w hash h w', header_by_hash w hash = (Ok (Some h), w') -> header_in_range h)
  (slots_in_range : forall w hash (state : DB) w' a k,
     state_by_block_hash w hash = (Ok state, w') -> 0 <= slot_of state a k).

Lemma enforces_range (self : Maintenance) hash w fee :
  fee_ok (block_info (inner self)) -> enforces self hash w fee -> 0 <= fee <= 420000000000000.
Proof.
  intros Hok [h state w1 w2 p Eh Es Ep|h w1 Eh Ef|_]; [|lia|by apply kept_ok].
  apply headers_in_range in Eh as (Hu & Hl & Hf). unfold from_header in Ep.
  destruct (base_fee_per_gas h) as [f|]; [|done]. injection Ep as <-.
  apply expected_base_fee_range; simpl; eauto.
Qed.

(** Documented: only an update of the head moves the pool's block. *)
Context `{!ForwardedPool P}
  (forwarded_block : forall m (p : P) args, block_info (pool_call m p args).2 = block_info p).

(** A run of updates by reth's maintenance task, with reads at any moment, and of
    calls that go to the inner pool. *)
Inductive maintained : Maintenance -> Maintenance -> Prop :=
| Forwarded self m args : maintained self (delegate_pool m self args).2
| SetInfo self info w self' w' :
    set_block_info chain_spec self info w = (Returns self', w') -> maintained self self'
| Changed self update w self' w' :
    on_canonical_state_change chain_spec self update w = (Returns self', w') -> maintained self self'.

Context `{!TransactionPoolExtLaws P Rest}.

Lemma maintained_fee_ok self self' :
  maintained self self' -> fee_ok (block_info (inner self)) -> fee_ok (block_info (inner self')).
Proof.
  intros [s m args|s info w s' w' Es|s update w s' w' Es] Hok.
  - unfold delegate_pool. pose proof (forwarded_block m (inner s) args) as Hb.
    destruct (pool_call m (inner s) args) as [answer p]. simpl in *. by rewrite Hb.
  - unfold set_block_info in Es.
    destruct (pending_base_fee_spec s (last_seen_block_hash info) w) as (fee & w1 & Efee & Hf & _).
    rewrite Efee in Es. injection Es as <- _. simpl. right. rewrite block_info_set. by eapply (enforces_range s _ w).
  - unfold on_canonical_state_change in Es.
    destruct (pending_base_fee_spec s (sealed_hash (new_tip update)) w) as (fee & w1 & Efee & Hf & _).
    rewrite Efee in Es. injection Es as <- _. simpl. right.
    destruct (block_info_changed (inner s) (with_pending_block_base_fee update fee)) as [-> _].
    by eapply (enforces_range s _ w).
Qed.
End Specs.

(** ** Properties *)

(** An update reaches the inner pool with the right fee and nothing else
    changed. Both entry points return; the fee is the rule's on the head's own
    state at the next second, zero for a head without a base fee, or the fee the
    pool already enforces; and the last is used whenever the header, the state
    or the overhead cannot be read, so that a failed read never lowers it. *)
Theorem maintenance_fee_spec `{AlloyForks} `{AlloyEips} {S} `{DogeosHardforks S} `{!EthChainSpec S}
    `{!ChainConfig S} {DB E} `{Database DB E} `{DatabaseView DB} `{!DatabaseLaws DB E} {W} `{!Client W DB E}
    `{!HeaderClient W E} {P Rest} `{!TransactionPoolExt P Rest} (chain_spec : S)
    (self : DogeosPoolMaintenance) (info : BlockInfo) (update : CanonicalStateUpdate Rest) (w : W) :
  (exists fee w', set_block_info chain_spec self info w
     = (Returns (new (pool_set_block_info (inner self) (with_pending_basefee info fee))), w')
   /\ enforces chain_spec self (last_seen_block_hash info) w fee
   /\ (unreadable chain_spec (last_seen_block_hash info) w -> fee = held_fee (block_info (inner self))))
  /\ (exists fee w', on_canonical_state_change chain_spec self update w
     = (Returns (new (pool_on_canonical_state_change (inner self) (with_pending_block_base_fee update fee))), w')
   /\ enforces chain_spec self (sealed_hash (new_tip update)) w fee
   /\ (unreadable chain_spec (sealed_hash (new_tip update)) w -> fee = held_fee (block_info (inner self)))).
Proof.
  split.
  - destruct (pending_base_fee_spec chain_spec self (last_seen_block_hash info) w) as (fee & w' & Efee & Hf).
    exists fee, w'. unfold set_block_info. by rewrite Efee.
  - destruct (pending_base_fee_spec chain_spec self (sealed_hash (new_tip update)) w) as (fee & w' & Efee & Hf).
    exists fee, w'. unfold on_canonical_state_change. by rewrite Efee.
Qed.

(** The fee the pool enforces stays within the protocol's bounds. From a pool
    that has seen no head, after any run of updates, whatever could be read, it
    is between zero and the maximum base fee of the protocol. *)
Theorem maintained_fee_bounded `{AlloyForks} `{AlloyEipsLaws} {S} `{DogeosHardforks S} `{!EthChainSpec S}
    `{!ChainConfig S} {DB E} `{Database DB E} `{DatabaseView DB} `{!DatabaseLaws DB E} {W} `{!Client W DB E}
    `{!HeaderClient W E} {P Rest} `{!TransactionPoolExt P Rest} `{!TransactionPoolExtLaws P Rest} `{!ForwardedPool P}
    (chain_spec : S) (p : P) (self : DogeosPoolMaintenance) :
  (forall (w : W) hash h w', header_by_hash w hash = (Ok (Some h), w') -> header_in_range h) ->
  (forall (w : W) hash (state : DB) w' a k, state_by_block_hash w hash = (Ok state, w') -> 0 <= slot_of state a k) ->
  (forall m (p : P) args, block_info (pool_call m p args).2 = block_info p) ->
  last_seen_block_hash (block_info p) = 0 ->
  rtc (maintained chain_spec (W := W)) (new p) self ->
  last_seen_block_hash (block_info (inner self)) = 0
  \/ 0 <= pending_basefee (block_info (inner self)) <= 420000000000000.
Proof.
  intros Hh Hs Hm H0p Hrun. change (fee_ok (block_info (inner self))).
  assert (Hok : fee_ok (block_info (inner (new p)))) by by left.
  induction Hrun as [|s1 s2 s3 Hstep _ IH]; [done|]. apply IH.
  by apply (maintained_fee_ok chain_spec Hh Hs Hm s1 s2).
Qed.

(** ** Witnesses *)

(** A client whose header lookups fail for hash 99. *)
#[local] Instance sample_headers : HeaderClient Z unit := {
  header_by_hash m hash :=
    if hash =? 99 then (Err tt, m + 1) else (Ok (Some (sample_header (Some 1000000000))), m + 1);
  header_not_found _ := tt;
}.

(** A pool that keeps its block info. *)
#[local] Instance info_pool : TransactionPoolExt BlockInfo unit := {
  block_info i := i;
  pool_set_block_info _ i := i;
  pool_on_canonical_state_change i u :=
    {| block_gas_limit := block_gas_limit i; last_seen_block_hash := sealed_hash (new_tip u);
       last_seen_block_number := number (sealed_header (new_tip u));
       pending_basefee := pending_block_base_fee u; pending_blob_fee := pending_blob_fee i |};
}.

#[local] Instance info_pool_laws : TransactionPoolExtLaws BlockInfo unit.
Proof. by split. Qed.

#[local] Instance info_methods : ForwardedPool BlockInfo := {
  Arguments_of _ := unit;
  Answer _ := Z;
  pool_call _ i _ := (0, i);
}.

Definition sample_info (hash fee : Z) : BlockInfo :=
  {| block_gas_limit := 20000000; last_seen_block_hash := hash; last_seen_block_number := 5;
     pending_basefee := fee; pending_blob_fee := None |}.

Definition sample_pool : DogeosPoolMaintenance (P := BlockInfo) := new (sample_info 0 0).

Lemma maintenance_fee_spec_witness :
  set_block_info (DB := MemDb) (E := unit) (Rest := unit) (new_schedule mainnet)
    (new (sample_info 10 1000)) (sample_info 99 7) 0
  = (Returns (new (sample_info 99 1000)), 1).
Proof.
  destruct (maintenance_fee_spec (DB := MemDb) (E := unit) (Rest := unit) (new_schedule mainnet)
    (new (sample_info 10 1000)) (sample_info 99 7)
    {| new_tip := {| sealed_hash := 99; sealed_header := sample_header None |}; pending_block_base_fee := 0;
       pending_block_blob_fee := None; update_rest := tt |} 0) as [(fee & w' & Es & _ & Hk) _].
  rewrite Es. rewrite Hk by exact I. vm_compute in Es |- *. by injection Es as _ <-.
Defined.

Lemma maintained_fee_bounded_witness :
  0 <= pending_basefee (block_info (Rest := unit) (inner (new (sample_info 10 1082026666)))) <= 420000000000000.
Proof.
  destruct (maintained_fee_bounded (DB := MemDb) (E := unit) (Rest := unit) (W := Z) (new_schedule mainnet)
    (sample_info 0 0) (new (sample_info 10 1082026666))) as [Hz|Hf]; [| |done|reflexivity| |discriminate Hz|exact Hf].
  - intros w hash h w'. simpl. destruct (hash =? 99); [discriminate|]. intros [= <- _].
    split; [split; discriminate|]. split; [split; discriminate|]. intros fee [= <-]. split; discriminate.
  - intros w hash state w' a k [= <- _]. reflexivity.
  - apply rtc_once. apply (SetInfo _ _ (sample_info 10 0) 0 _ 2). vm_compute. reflexivity.
Defined.
