(* ===== verification/PoolTask.v ===== *)
(** * The pool's assembly and its fee task (dogeos-reth-node/src/pool.rs)

    How the node builds the transaction pool, and the task that keeps the cache
    of L1 fees current: it drains the notifications of canonical heads,
    reconciles, reports that it is ready, and then refreshes on each
    notification, and on a timer with exponential backoff while the cache is
    unavailable. *)

From stdpp Require Import prelude gmap list strings.
From Stdlib Require Import ZArith Lia.
From S2P Require Import Prelude.
From S2P Require Import Hardforks.
From S2P Require Import Chain.
From S2P Require Import BaseFee.
From S2P Require Import Alloy.
From S2P Require Import AlloyRef.
From S2P Require Import Transitions.
From S2P Require Import Receipt.
From S2P Require TxEnv.
From S2P Require Import Executor.
From S2P Require Import PoolTx.
From S2P Require PoolCapacity.
From S2P Require Import PoolValidator.
From S2P Require Import PoolAdmission.

Import (hints) TxEnv.

(** ** Notifications and time

    A receiver of tokio's broadcast channel, read at some moment. [recv] is a
    [try_recv] that waits while the channel is empty. *)

Inductive TryRecv : Type :=
| Received
| Lagged (skipped : Z)
| Empty
| Closed.

Class Notifications (W Rx : Type) := {
  subscribe : W -> Rx;
  resubscribe : W -> Rx -> Rx;
  try_recv : W -> Rx -> TryRecv * Rx;
  (** [Instant::now], in nanoseconds. *)
  now : W -> Z;
  (** The receiver of the ready signal is still there. *)
  ready_open : W -> bool;
}.

(** The messages sent so far, and how far a receiver has read. *)
Class ChannelView (W Rx : Type) := {
  sent : W -> Z;
  position : Rx -> Z;
}.

(** Documented: a receiver reads messages in order from its subscription on, or
    learns how many it missed; a new subscription starts at the end. *)
Class NotificationsLaws (W E Rx : Type) `{ClientView W E} `{Notifications W Rx} `{ChannelView W Rx} : Prop := {
  sent_grows w w' : moves w w' -> sent w <= sent w';
  now_grows w w' : moves w w' -> now w <= now w';
  subscribe_at_end w : position (subscribe w) = sent w;
  resubscribe_at_end w rx : position (resubscribe w rx) = sent w;
  try_recv_spec w rx r rx' : position rx <= sent w -> try_recv w rx = (r, rx') ->
    match r with
    | Received => position rx' = position rx + 1 /\ position rx' <= sent w
    | Lagged skipped => 0 < skipped /\ position rx' = position rx + skipped /\ position rx' <= sent w
    | Empty | Closed => position rx' = position rx /\ position rx = sent w
    end;
}.

(** ** Delays *)

Record L1FeeRetryBackoff := { initial : Z; max : Z }.

Definition seconds (s : Z) : Z := s * 10 ^ 9.

Definition L1_FEE_RETRY_BACKOFF : L1FeeRetryBackoff := {| initial := seconds 1; max := seconds 30 |}.

(** [Duration::saturating_mul]. *)
Definition duration_max : Z := u64_max * 10 ^ 9 + 999999999.
Definition duration_saturating_mul (d k : Z) : Z := Z.min (d * k) duration_max.

(** ** The task *)

(** The two loops, and the end of the task, which may come before the signal. *)
Inductive Phase : Type :=
| Draining
| Serving (available : bool) (retry_delay : Z) (retry_deadline : option Z)
| Stopped (ready_sent : bool).

Record Task (Rx V : Type) := { notifications : Rx; validator : V; phase : Phase }.
Arguments notifications {Rx V} _.
Arguments validator {Rx V} _.
Arguments phase {Rx V} _.

Section Task.
Context {W Rx V : Type} `{!Notifications W Rx}.
(** The refresh the task is given; it works on shared state. *)
Context (refresh : V -> W -> outcome (bool * V) * W) (retry_backoff : L1FeeRetryBackoff).

(** [(!available).then(|| Instant::now() + retry_delay)]. *)
Definition deadline (available : bool) (w : W) (retry_delay : Z) : option Z :=
  if available then None else Some (now w + retry_delay).

Definition with_phase (t : Task Rx V) (p : Phase) : Task Rx V :=
  {| notifications := notifications t; validator := validator t; phase := p |}.

(** A refresh, then what follows it. A panic ends the task. *)
Definition refreshing (t : Task Rx V) (w : W) (next : bool -> W -> Phase) : outcome (Task Rx V) * W :=
  match refresh (validator t) w with
  | (Panics msg, w) => (Panics msg, w)
  | (Returns (available, v), w) =>
      (Returns {| notifications := notifications t; validator := v; phase := next available w |}, w)
  end.

Definition with_notifications (t : Task Rx V) (rx : Rx) : Task Rx V :=
  {| notifications := rx; validator := validator t; phase := phase t |}.

(** After the drain: the last refresh, and the signal. *)
Definition reconcile (t : Task Rx V) (w : W) : outcome (Task Rx V) * W :=
  refreshing t w (fun available w =>
    if ready_open w then Serving available (initial retry_backoff) (deadline available w (initial retry_backoff))
    else Stopped false).

(** One iteration of the first loop. *)
Definition drain_step (t : Task Rx V) (w : W) : outcome (Task Rx V) * W :=
  let '(r, rx) := try_recv w (notifications t) in
  let t := with_notifications t rx in
  match r with
  | Received => refreshing t w (fun _ _ => Draining)
  | Lagged _ => refreshing (with_notifications t (resubscribe w rx)) w (fun _ _ => Draining)
  | Empty => reconcile t w
  | Closed => (Returns (with_phase t (Stopped false)), w)
  end.

(** The first arm of the second loop; nothing while the channel is empty. *)
Definition on_notification (t : Task Rx V) (w : W) : option (outcome (Task Rx V) * W) :=
  let '(r, rx) := try_recv w (notifications t) in
  let t := with_notifications t rx in
  let serve t :=
    refreshing t w (fun available w =>
      Serving available (initial retry_backoff) (deadline available w (initial retry_backoff))) in
  match r with
  | Empty => None
  | Received => Some (serve t)
  | Lagged _ => Some (serve (with_notifications t (resubscribe w rx)))
  | Closed => Some (Returns (with_phase t (Stopped true)), w)
  end.

(** The second arm; nothing without a deadline or before it. *)
Definition on_retry (t : Task Rx V) (w : W) (retry_delay : Z) (retry_deadline : option Z) :
    option (outcome (Task Rx V) * W) :=
  match retry_deadline with
  | None => None
  | Some d =>
      if now w <? d then None
      else Some (refreshing t w (fun available w =>
        if available then Serving available (initial retry_backoff) None
        else
          let retry_delay := Z.min (duration_saturating_mul retry_delay 2) (max retry_backoff) in
          Serving available retry_delay (Some (now w + retry_delay))))
  end.

(** The task runs its loops; [fuel] bounds the iterations of the first. *)
Fixpoint drain (fuel : nat) (t : Task Rx V) (w : W) : outcome (Task Rx V) * W :=
  match fuel, phase t with
  | S fuel, Draining =>
      match drain_step t w with
      | (Returns t, w) => drain fuel t w
      | (Panics msg, w) => (Panics msg, w)
      end
  | _, _ => (Returns t, w)
  end.
End Task.

(** ** Building the pool *)

(** [PoolBuilderConfigOverrides] of reth. *)
Class PoolOverrides := {
  PoolBuilderConfigOverrides : Type;
  additional_validation_tasks : PoolBuilderConfigOverrides -> option Z;
}.

Section Builder.
Context `{AlloyForks} `{TxEnv.EvmTypes} `{!EthPool} `{ReceiptTypes} {S : Type} `{DogeosHardforks S}
  {DB E : Type} `{Database DB E} `{!Revm DB} {W : Type} `{!Client W DB E} {Sidecar Inv Boxed : Type}
  `{!EthValidation DogeosPooledTransaction Sidecar Inv Boxed} `{!PoolCapacity.Tokio} `{!PoolOverrides}
  {Rx : Type} `{!Notifications W Rx}.
Context (try_fetch : DB -> ScrollSpecId -> result L1BlockInfo E) (chain_spec : S).

Abbreviation Validator :=
  (DogeosTransactionValidator (DB := DB) (E := E) (Sidecar := Sidecar) (Inv := Inv) (Boxed := Boxed)).

Record DogeosPoolBuilder := {
  pool_config_overrides : PoolBuilderConfigOverrides;
  code_witness_config : CodeWitnessValidationConfig;
}.

Definition with_code_witness_config (self : DogeosPoolBuilder) (config : CodeWitnessValidationConfig) :
    DogeosPoolBuilder :=
  {| pool_config_overrides := pool_config_overrides self; code_witness_config := config |}.

Definition with_pool_config_overrides (self : DogeosPoolBuilder) (overrides : PoolBuilderConfigOverrides) :
    DogeosPoolBuilder :=
  {| pool_config_overrides := overrides; code_witness_config := code_witness_config self |}.

(** The executor of the pool, and the spawned task, which shares its validator. *)
Record Built := {
  executor : PoolCapacity.DogeosValidationExecutor Validator;
  fee_task : option (Task Rx Validator);
}.

(** The subscription comes before the snapshot is loaded. *)
Definition load_snapshot (require_l1_data_gas_fee : bool) (w : W) :
    result (option (Rx * DogeosL1FeeSnapshot L1BlockInfo)) (DogeosL1FeeError E) * W :=
  if negb require_l1_data_gas_fee then (Ok None, w)
  else
    let notifications := subscribe w in
    match load_latest try_fetch chain_spec w with
    | (Err e, w) => (Err e, w)
    | (Ok snapshot, w) => (Ok (Some (notifications, snapshot)), w)
    end.

(** Up to the wait for the task: [dev] and the number of additional tasks are
    the node's configuration, [inner] reth's validator, [check] the closure over
    [validate_code_witness]. *)
Definition build_pool (self : DogeosPoolBuilder) (dev : bool) (additional_tasks : Z)
    (inner : EthTransactionValidator) (check : DogeosPooledTransaction -> result unit Boxed) (w : W) :
    outcome (result Built (DogeosL1FeeError E)) * W :=
  let additional := default additional_tasks (additional_validation_tasks (pool_config_overrides self)) in
  match load_snapshot (negb dev) w with
  | (Err e, w) => (Returns (Err e), w)
  | (Ok l1_fee, w) =>
      let validator :=
        with_admission_check
          match l1_fee with
          | Some (_, snapshot) => PoolValidator.new inner snapshot
          | None => PoolValidator.disabled inner
          end check in
      match PoolCapacity.new validator (cw_max_inflight (code_witness_config self)) additional with
      | Panics msg => (Panics msg, w)
      | Returns executor =>
          (Returns (Ok
             {| executor := executor;
                fee_task :=
                  match l1_fee with
                  | Some (rx, _) =>
                      Some {| notifications := rx; validator := PoolCapacity.validator executor; phase := Draining |}
                  | None => None
                  end |}), w)
      end
  end.

(** [ready_rx.await], once the task has sent the signal or is gone. *)
Definition ready_result {V} (t : Task Rx V) : option (result unit string) :=
  match phase t with
  | Draining => None
  | Serving _ _ _ | Stopped true => Some (Ok tt)
  | Stopped false =>
      Some (Err "DogeOS L1 fee canonical state task stopped before startup reconciliation"%string)
  end.
End Builder.

(** ** Runs *)

Section Runs.
Context {W E Rx V C : Type} `{!ClientView W E} `{!Notifications W Rx} `{!ChannelView W Rx}.
Context (refresh : V -> W -> outcome (bool * V) * W) (backoff : L1FeeRetryBackoff) (cache : V -> C).

Abbreviation State := (W * Task Rx V)%type.

Definition with_validator (t : Task Rx V) (v : V) : Task Rx V :=
  {| notifications := notifications t; validator := v; phase := phase t |}.

(** The rest of the node moves at any moment and does not touch the cache. *)
Inductive task_step : State -> State -> Prop :=
| Elsewhere w w' t v :
    moves w w' -> cache v = cache (validator t) -> task_step (w, t) (w', with_validator t v)
| DrainStep w t t' w' :
    phase t = Draining -> drain_step refresh backoff t w = (Returns t', w') -> task_step (w, t) (w', t')
| NotifyStep w t a d r t' w' :
    phase t = Serving a d r -> on_notification refresh backoff t w = Some (Returns t', w') ->
    task_step (w, t) (w', t')
| RetryStep w t a d r t' w' :
    phase t = Serving a d r -> on_retry refresh backoff t w d r = Some (Returns t', w') ->
    task_step (w, t) (w', t').

Context (good : C -> Prop).

(** What the last refresh was: it started after all messages taken so far were
    sent, and the task acts on its answer. *)
Definition served (w0 w : W) (rx : Rx) (c : C) (available : bool) (delay : Z) (retry : option Z) : Prop :=
  exists v ws v' we,
    good (cache v) /\ moves w0 ws /\ position rx <= sent ws /\ refresh v ws = (Returns (available, v'), we) /\ moves we w
    /\ cache v' = c /\ retry = (if available then None else Some (now we + delay))
    /\ exists k, 0 <= k /\ delay = Z.min (initial backoff * 2 ^ k) (max backoff).

Definition task_ok (w0 : W) (n : State) : Prop :=
  moves w0 n.1 /\ position (notifications n.2) <= sent n.1 /\ good (cache (validator n.2)) /\
  match phase n.2 with
  | Serving available delay retry =>
      served w0 n.1 (notifications n.2) (cache (validator n.2)) available delay retry
  | _ => True
  end.

Context {DB : Type} `{!Client W DB E} `{!ClientLaws W DB E} `{!NotificationsLaws W E Rx}.
Context (refresh_moves : forall v w out w', refresh v w = (out, w') -> moves w w')
  (refresh_good : forall v w ok v' w', refresh v w = (Returns (ok, v'), w') -> good (cache v) -> good (cache v')).
Context (backoff_range : 0 <= initial backoff <= max backoff) (backoff_fits : max backoff <= duration_max).

Lemma served_later w0 w w' rx c a d r : moves w w' -> served w0 w rx c a d r -> served w0 w' rx c a d r.
Proof.
  intros Hm (v & ws & v' & we & Hv & M1 & Hp & Hr & M2 & Hrest). exists v, ws, v', we.
  do 4 (split; [done|]). split; [by etransitivity|done].
Qed.

Lemma doubled k : 0 <= k ->
  Z.min (duration_saturating_mul (Z.min (initial backoff * 2 ^ k) (max backoff)) 2) (max backoff)
  = Z.min (initial backoff * 2 ^ (k + 1)) (max backoff).
Proof. intros Hk. rewrite Z.pow_add_r by lia. unfold duration_saturating_mul. lia. Qed.

(** A refresh started with no message taken that was sent later keeps the
    invariant, when the next phase acts on its answer. *)
Lemma refreshing_ok w0 w t next t' w' :
  moves w0 w -> position (notifications t) <= sent w -> good (cache (validator t)) ->
  (forall a w, match next a w with
               | Serving a' d r => a' = a /\ r = (if a then None else Some (now w + d))
                                   /\ exists k, 0 <= k /\ d = Z.min (initial backoff * 2 ^ k) (max backoff)
               | _ => True
               end) ->
  refreshing refresh t w next = (Returns t', w') -> task_ok w0 (w', t').
Proof.
  intros Hm Hp Hg Hn. unfold refreshing.
  destruct (refresh (validator t) w) as [[[a v]|msg] w1] eqn:Er; [|done]. intros [= <- <-].
  pose proof (refresh_moves _ _ _ _ Er) as Hm1. pose proof (sent_grows _ _ Hm1).
  split; [by etransitivity|]. split; [simpl; lia|]. split; [by eapply refresh_good|]. simpl.
  specialize (Hn a w1). destruct (next a w1) as [|a' d r|]; [done| |done].
  destruct Hn as (-> & -> & Hk). exists (validator t), w, v, w1.
  do 4 (split; [done|]). split; [reflexivity|]. done.
Qed.

Lemma first_delay : exists k, 0 <= k /\ initial backoff = Z.min (initial backoff * 2 ^ k) (max backoff).
Proof. exists 0. lia. Qed.

Lemma drain_step_ok w0 w t t' w' :
  task_ok w0 (w, t) -> drain_step refresh backoff t w = (Returns t', w') -> task_ok w0 (w', t').
Proof.
  intros (Hm & Hp & Hg & _). simpl in *. unfold drain_step.
  destruct (try_recv w (notifications t)) as [r rx] eqn:Et. apply (try_recv_spec _ _ _ _ Hp) in Et.
  destruct r as [|skipped| |].
  - apply refreshing_ok; [done|simpl; lia|done|done].
  - apply refreshing_ok; [done|simpl|done|done]. by rewrite resubscribe_at_end.
  - apply refreshing_ok; [done|simpl; lia|done|]. intros a w1. destruct (ready_open w1); [|done].
    split; [done|]. split; [by destruct a|]. apply first_delay.
  - intros [= <- <-]. split; [done|]. split; [simpl; lia|done].
Qed.

Lemma on_notification_ok w0 w t t' w' :
  task_ok w0 (w, t) -> on_notification refresh backoff t w = Some (Returns t', w') ->
  task_ok w0 (w', t').
Proof.
  intros (Hm & Hp & Hg & _). simpl in *. unfold on_notification.
  destruct (try_recv w (notifications t)) as [r rx] eqn:Et. apply (try_recv_spec _ _ _ _ Hp) in Et.
  pose proof first_delay as Hnext.
  destruct r as [|skipped| |]; [| |done|].
  - intros [= Hr]. revert Hr. apply refreshing_ok; [done|simpl; lia|done|]. intros a w1. by destruct a.
  - intros [= Hr]. revert Hr. apply refreshing_ok; [done|simpl; by rewrite resubscribe_at_end|done|].
    intros a w1. by destruct a.
  - intros [= <- <-]. split; [done|]. split; [simpl; lia|done].
Qed.

Lemma on_retry_ok w0 w t a d r t' w' :
  task_ok w0 (w, t) -> phase t = Serving a d r ->
  on_retry refresh backoff t w d r = Some (Returns t', w') -> task_ok w0 (w', t').
Proof.
  intros (Hm & Hp & Hg & Hs) Ep. simpl in *. rewrite Ep in Hs.
  destruct Hs as (_ & _ & _ & _ & _ & _ & _ & _ & _ & _ & _ & k & Hk & ->). unfold on_retry.
  destruct r as [r|]; [|done]. destruct (now w <? r); [done|]. intros [= Hr]. revert Hr.
  apply refreshing_ok; [done|done|done|]. intros a' w1. destruct a'.
  - split; [done|]. split; [done|]. apply first_delay.
  - split; [done|]. split; [done|]. exists (k + 1). split; [lia|by apply doubled].
Qed.

Lemma task_step_ok w0 n n' : task_step n n' -> task_ok w0 n -> task_ok w0 n'.
Proof.
  intros Hs Hok. destruct Hs as [w w' t v Hm Hc|w t t' w' Ep Ed|w t a d r t' w' Ep En|w t a d r t' w' Ep Er].
  - destruct Hok as (M & Hp & Hg & Hv). pose proof (sent_grows _ _ Hm). simpl in *.
    split; [simpl; by etransitivity|]. simpl. split; [lia|]. rewrite Hc. split; [done|].
    destruct (phase t); [done|by eapply served_later|done].
  - by eapply drain_step_ok.
  - by eapply on_notification_ok.
  - by eapply on_retry_ok.
Qed.

Lemma task_run_ok w0 n n' : rtc task_step n n' -> task_ok w0 n -> task_ok w0 n'.
Proof. intros Hrun. induction Hrun; [done|]. intros. eauto using task_step_ok. Qed.
End Runs.

(** ** The end of the drain *)

Section DrainLemmas.
Context {W E Rx V DB : Type} `{!ClientView W E} `{!Notifications W Rx} `{!ChannelView W Rx}
  `{!Client W DB E} `{!ClientLaws W DB E} `{!NotificationsLaws W E Rx}.
Context (refresh : V -> W -> outcome (bool * V) * W) (backoff : L1FeeRetryBackoff).
Context (refresh_returns : forall v w, exists ok v' w', refresh v w = (Returns (ok, v'), w') /\ moves w w').

Lemma refreshing_returns (t : Task Rx V) w next :
  exists v a w', refreshing refresh t w next
    = (Returns {| notifications := notifications t; validator := v; phase := next a w' |}, w') /\ moves w w'.
Proof.
  unfold refreshing. destruct (refresh_returns (validator t) w) as (a & v & w' & -> & Hm). by exists v, a, w'.
Qed.

(** An iteration ends the drain or takes a message. *)
Lemma drain_step_progress (t : Task Rx V) w :
  position (notifications t) <= sent w ->
  exists t' w', drain_step refresh backoff t w = (Returns t', w') /\ moves w w' /\
    (phase t' <> Draining \/
     position (notifications t) < position (notifications t') <= sent w').
Proof.
  intros Hp. unfold drain_step. destruct (try_recv w (notifications t)) as [r rx] eqn:Et.
  apply (try_recv_spec _ _ _ _ Hp) in Et. destruct r as [|skipped| |].
  - destruct (refreshing_returns (with_notifications t rx) w (fun _ _ => Draining)) as (v & a & w' & -> & Hm).
    eexists _, w'. split; [done|]. split; [done|]. right. simpl. pose proof (sent_grows _ _ Hm). lia.
  - destruct (refreshing_returns (with_notifications (with_notifications t rx) (resubscribe w rx)) w
      (fun _ _ => Draining)) as (v & a & w' & -> & Hm).
    eexists _, w'. split; [done|]. split; [done|]. right. simpl. rewrite resubscribe_at_end.
    pose proof (sent_grows _ _ Hm). lia.
  - unfold reconcile. edestruct refreshing_returns as (v & a & w' & -> & Hm).
    eexists _, w'. split; [done|]. split; [done|]. left. simpl. by destruct (ready_open w').
  - eexists _, w. split; [done|]. split; [reflexivity|]. by left.
Qed.

Lemma drain_ends fuel (t : Task Rx V) w bound :
  (forall w', moves w w' -> sent w' <= bound) -> position (notifications t) <= sent w ->
  bound - position (notifications t) < Z.of_nat fuel ->
  exists t' w', drain refresh backoff fuel t w = (Returns t', w') /\ moves w w' /\ phase t' <> Draining.
Proof.
  revert t w. induction fuel as [|fuel IH]; intros t w Hb Hp Hf.
  { pose proof (Hb w ltac:(reflexivity)). lia. }
  simpl. destruct (phase t) eqn:Ep; [|exists t, w; rewrite Ep; done..].
  destruct (drain_step_progress t w Hp) as (t1 & w1 & -> & Hm & Hd).
  destruct Hd as [Hd|Hd].
  - exists t1, w1. split; [|done]. destruct fuel; simpl; by destruct (phase t1).
  - destruct (IH t1 w1) as (t' & w' & -> & Hm' & Hph); [|lia|lia|].
    + intros w' Hw'. apply Hb. by etransitivity.
    + exists t', w'. split; [done|]. split; [by etransitivity|done].
Qed.
End DrainLemmas.

(** ** The task over the validator's refresh *)

Section FeeTask.
Context `{AlloyForks} `{TxEnv.EvmTypes} `{!EthPool} `{ReceiptTypes} {S : Type} `{DogeosHardforks S}
  {DB E : Type} `{Database DB E} `{!Revm DB} {W : Type} `{!Client W DB E} `{!ClientView W E}
  `{!ClientLaws W DB E} {Sidecar Inv Boxed : Type}
  `{!EthValidation DogeosPooledTransaction Sidecar Inv Boxed} `{!PoolCapacity.Tokio} `{!PoolOverrides}
  {Rx : Type} `{!Notifications W Rx} `{!ChannelView W Rx} `{!NotificationsLaws W E Rx}.
Context (try_fetch : DB -> ScrollSpecId -> result L1BlockInfo E) (chain_spec : S).

Abbreviation Validator :=
  (DogeosTransactionValidator (DB := DB) (E := E) (Sidecar := Sidecar) (Inv := Inv) (Boxed := Boxed)).
Abbreviation refresh_fee := (refresh_l1_fee_cache_from_latest try_fetch chain_spec).

(** What a refresh leaves in the cache. *)
Lemma refreshed_cache w w' (self self' : Validator) ok :
  refreshed try_fetch chain_spec w w' self ok self' ->
  match l1_fee_cache self' with
  | Ready s => ok = true /\ exists h, head w' = Ok (Some h) /\ head_hash s = sealed_hash h
  | Unavailable _ => ok = false
  | Disabled => False
  end.
Proof.
  intros [s h Ec Hh Hs|s target h Hl Hs Hh Ht| | | | ]; simpl; try done.
  - rewrite Ec. eauto.
  - split; [done|]. exists h. split; [done|congruence].
Qed.

Lemma refresh_fee_moves (v : Validator) w out w' : refresh_fee v w = (out, w') -> moves w w'.
Proof. intros Hr. by destruct (refresh_cases _ _ _ _ _ _ Hr) as (? & ? & _ & ? & _). Qed.

Lemma refresh_fee_enabled (v : Validator) w ok v' w' :
  refresh_fee v w = (Returns (ok, v'), w') -> l1_fee_cache v <> Disabled -> l1_fee_cache v' <> Disabled.
Proof.
  intros Hr Hd. destruct (refresh_cases _ _ _ _ _ _ Hr) as (ok' & self' & [= <- <-] & _ & _ & Hs).
  specialize (Hs Hd). apply refreshed_cache in Hs. by destruct (l1_fee_cache v').
Qed.

Lemma refresh_fee_returns (v : Validator) w :
  exists ok v' w', refresh_fee v w = (Returns (ok, v'), w') /\ moves w w'.
Proof.
  destruct (refresh_fee v w) as [out w'] eqn:Hr.
  destruct (refresh_cases _ _ _ _ _ _ Hr) as (ok & self' & -> & Hm & _). by exists ok, self', w'.
Qed.

(** The executor holds the validator it was built with. *)
Lemma capacity_new_validator {V} (v : V) m a e : PoolCapacity.new v m a = Returns e -> PoolCapacity.validator e = v.
Proof. unfold PoolCapacity.new. repeat (case_match; try done). by intros [= <-]. Qed.

(** A pool outside of development mode: its task was subscribed before its
    snapshot was loaded. *)
Lemma built_pool_task self additional eth check w0 built w1 :
  build_pool try_fetch chain_spec self false additional eth check w0 = (Returns (Ok built), w1) ->
  exists task, fee_task built = Some task /\ phase task = Draining
    /\ task_ok refresh_fee L1_FEE_RETRY_BACKOFF l1_fee_cache (fun c => c <> Disabled) w0 (w1, task)
    /\ position (notifications task) = sent w0.
Proof.
  unfold build_pool, load_snapshot. simpl.
  destruct (load_latest try_fetch chain_spec w0) as [[s|e] w] eqn:El; [|done].
  destruct (load_latest_was_head _ _ _ _ _ El) as [Hm _].
  destruct (PoolCapacity.new _ _ _) as [executor|msg] eqn:En; [|done]. intros [= <- <-].
  eexists. split; [done|]. split; [done|]. split; [|apply subscribe_at_end].
  split; [done|]. simpl. rewrite subscribe_at_end. split; [by apply sent_grows|]. split; [|done].
  by rewrite (capacity_new_validator _ _ _ _ En).
Qed.

Abbreviation fee_step := (task_step refresh_fee L1_FEE_RETRY_BACKOFF l1_fee_cache).
Abbreviation fee_task_ok := (task_ok refresh_fee L1_FEE_RETRY_BACKOFF l1_fee_cache (fun c => c <> Disabled)).

Lemma fee_run_ok w0 (n n' : W * Task Rx Validator) : rtc fee_step n n' -> fee_task_ok w0 n -> fee_task_ok w0 n'.
Proof.
  eapply task_run_ok; [apply _|apply _|..].
  - apply refresh_fee_moves.
  - intros v w ok v' w' Hr. by apply (refresh_fee_enabled _ _ _ _ _ Hr).
  - unfold L1_FEE_RETRY_BACKOFF, seconds. simpl. lia.
  - vm_compute. discriminate.
Qed.

(** The state of a serving task. *)
Lemma serving_cache w0 w (task : Task Rx Validator) available delay retry :
  task_ok refresh_fee L1_FEE_RETRY_BACKOFF l1_fee_cache (fun c => c <> Disabled) w0 (w, task) ->
  phase task = Serving available delay retry ->
  exists v ws v' we,
    moves w0 ws /\ position (notifications task) <= sent ws /\ moves ws we /\ moves we w
    /\ l1_fee_cache v' = l1_fee_cache (validator task)
    /\ refreshed try_fetch chain_spec ws we v available v'
    /\ retry = (if available then None else Some (now we + delay))
    /\ seconds 1 <= delay <= seconds 30.
Proof.
  intros (_ & _ & _ & Hs) Ep. simpl in Hs. rewrite Ep in Hs.
  destruct Hs as (v & ws & v' & we & Hg & Hm0 & Hp & Hr & Hm & Hc & Hretry & k & Hk & Hd).
  destruct (refresh_cases _ _ _ _ _ _ Hr) as (ok & self' & [= <- <-] & Hm1 & _ & Href).
  exists v, ws, v', we. repeat (split; [by auto|]). rewrite Hd. simpl.
  assert (1 <= 2 ^ k) by (change 1 with (2 ^ 0); apply Z.pow_le_mono_r; lia). unfold seconds. lia.
Qed.

(** A head that stays, with a state that loads, is found in one attempt. *)
Lemma refresh_steady (v : Validator) w h :
  (forall w', moves w w' -> head w' = Ok (Some h)) ->
  (forall w', moves w w' -> exists s, (load_header try_fetch chain_spec h w').1 = Ok s) ->
  l1_fee_cache v <> Disabled ->
  exists v' w' s, refresh_fee v w = (Returns (true, v'), w') /\ moves w w'
    /\ l1_fee_cache v' = Ready s /\ head_hash s = sealed_hash h.
Proof.
  intros Hh Hl Hd.
  assert (Hread : forall w1, moves w w1 -> exists w2, read_latest w1 = (Ok h, w2) /\ moves w w2).
  { intros w1 M1. destruct (read_latest w1) as [r w2] eqn:Er. apply read_latest_spec in Er as [M2 Er].
    assert (M : moves w w2) by (by etransitivity). rewrite (Hh w2 M) in Er. exists w2. split; [|done].
    destruct r; [by simplify_eq|]. by destruct Er as [(? & ? & _)|[? _]]. }
  destruct (Hread w ltac:(reflexivity)) as (w1 & E1 & M1). destruct (Hl w1 M1) as [s Es].
  destruct (load_header try_fetch chain_spec h w1) as [r w2] eqn:El. simpl in Es. subst r.
  destruct (load_header_spec _ _ _ _ _ _ El) as [M12 Hs]. destruct (Hread w2) as (w3 & E3 & M3); [by etransitivity|].
  unfold refresh_l1_fee_cache_from_latest. destruct (l1_fee_cache v) as [s0|e|] eqn:Ec; [| |done];
    simpl; rewrite E1; unfold ready_for; rewrite Ec; [destruct (Z.eqb_spec (head_hash s0) (sealed_hash h))|].
  1: by exists v, w1, s0.
  all: rewrite El, E3, Z.eqb_refl; simpl; by exists (set_cache v (Ready s)), w3, s.
Qed.
End FeeTask.

(** ** Properties *)

(** C18: The pool that the node builds keeps its fee cache current. The task of a
    pool outside of development mode is subscribed before the first snapshot is
    loaded and is ready only after a refresh; at every later moment of a run, in
    which heads, messages and timers come in any order, the last refresh started
    after every message taken so far was sent (so none is passed over), it left
    the cache as it is, and the task acts on it: a cache that holds the snapshot
    of the head the refresh last saw waits for messages only, an unavailable one
    has a deadline between one and thirty seconds after the refresh. In
    development mode there is no task and no cache. *)
Theorem fee_task_keeps_cache_current `{AlloyForks} `{TxEnv.EvmTypes} `{!EthPool} `{ReceiptTypes} {S}
    `{DogeosHardforks S} {DB E} `{Database DB E} `{!Revm DB} {W} `{!Client W DB E} `{!ClientView W E}
    `{!ClientLaws W DB E} {Sidecar Inv Boxed} `{!EthValidation DogeosPooledTransaction Sidecar Inv Boxed}
    `{!PoolCapacity.Tokio} `{!PoolOverrides} {Rx} `{!Notifications W Rx} `{!ChannelView W Rx}
    `{!NotificationsLaws W E Rx} (try_fetch : DB -> ScrollSpecId -> result L1BlockInfo E) (chain_spec : S)
    (self : DogeosPoolBuilder) (dev : bool) (additional : Z) (eth : EthTransactionValidator)
    (check : DogeosPooledTransaction -> result unit Boxed) (w0 w1 : W) (built : Built) :
  build_pool try_fetch chain_spec self dev additional eth check w0 = (Returns (Ok built), w1) ->
  if dev then fee_task built = None /\ l1_fee_cache (PoolCapacity.validator (executor built)) = Disabled
  else
    exists task0, fee_task built = Some task0 /\ ready_result task0 = None /\
    forall w task, rtc (task_step (refresh_l1_fee_cache_from_latest try_fetch chain_spec) L1_FEE_RETRY_BACKOFF
                          l1_fee_cache) (w1, task0) (w, task) ->
    match phase task with
    | Serving available delay retry =>
        exists v ws v' we,
          moves w0 ws /\ position (notifications task) <= sent ws /\ moves we w
          /\ refreshed try_fetch chain_spec ws we v available v'
          /\ l1_fee_cache v' = l1_fee_cache (validator task)
          /\ match l1_fee_cache (validator task) with
             | Ready s => retry = None /\ exists h, head we = Ok (Some h) /\ head_hash s = sealed_hash h
             | Unavailable _ => retry = Some (now we + delay) /\ seconds 1 <= delay <= seconds 30
             | Disabled => False
             end
    | _ => l1_fee_cache (validator task) <> Disabled
    end.
Proof.
  intros Hb. destruct dev.
  - revert Hb. unfold build_pool. simpl. destruct (PoolCapacity.new _ _ _) as [e|msg] eqn:En; [|done].
    intros [= <- _]. split; [done|]. simpl. by rewrite (capacity_new_validator _ _ _ _ En).
  - destruct (built_pool_task _ _ _ _ _ _ _ _ _ Hb) as (task0 & Ht & Hph & Hok & _).
    exists task0. split; [done|]. split; [unfold ready_result; by rewrite Hph|]. intros w task Hrun.
    pose proof (fee_run_ok _ _ _ _ _ Hrun Hok) as Hrun'.
    destruct (phase task) as [|available delay retry|sent] eqn:Ep; [by apply Hrun'| |by apply Hrun'].
    destruct (serving_cache _ _ _ _ _ _ _ _ Hrun' Ep) as (v & ws & v' & we & Hm & Hp & _ & Hme & Hc & Hr & Hd & Hdelay).
    exists v, ws, v', we. repeat (split; [done|]). apply refreshed_cache in Hr. rewrite Hc in Hr.
    destruct (l1_fee_cache (validator task)); [by destruct Hr as [-> ?]|by rewrite Hr in Hd|done].
Qed.

(** C27: An unavailable cache recovers without a new block. Thirty seconds after
    the moment a serving task is in, its retry is due whatever the backoff has
    grown to; when the head then stays and its state loads, that one retry leaves
    the cache with the head's snapshot, and the task without a deadline and with
    the first delay again. *)
Theorem unavailable_cache_recovers `{AlloyForks} `{TxEnv.EvmTypes} `{!EthPool} `{ReceiptTypes} {S}
    `{DogeosHardforks S} {DB E} `{Database DB E} `{!Revm DB} {W} `{!Client W DB E} `{!ClientView W E}
    `{!ClientLaws W DB E} {Sidecar Inv Boxed} `{!EthValidation DogeosPooledTransaction Sidecar Inv Boxed}
    `{!PoolCapacity.Tokio} `{!PoolOverrides} {Rx} `{!Notifications W Rx} `{!ChannelView W Rx}
    `{!NotificationsLaws W E Rx} (try_fetch : DB -> ScrollSpecId -> result L1BlockInfo E) (chain_spec : S)
    (self : DogeosPoolBuilder) (additional : Z) (eth : EthTransactionValidator)
    (check : DogeosPooledTransaction -> result unit Boxed) (w0 w1 w w' : W) (built : Built)
    (task0 task : Task Rx DogeosTransactionValidator) e available delay retry h :
  build_pool try_fetch chain_spec self false additional eth check w0 = (Returns (Ok built), w1) ->
  fee_task built = Some task0 ->
  rtc (task_step (refresh_l1_fee_cache_from_latest try_fetch chain_spec) L1_FEE_RETRY_BACKOFF l1_fee_cache)
    (w1, task0) (w, task) ->
  phase task = Serving available delay retry -> l1_fee_cache (validator task) = Unavailable e ->
  moves w w' -> now w + seconds 30 <= now w' ->
  (forall w2, moves w' w2 -> head w2 = Ok (Some h)) ->
  (forall w2, moves w' w2 -> exists s, (load_header try_fetch chain_spec h w2).1 = Ok s) ->
  exists task' w'' s,
    on_retry (refresh_l1_fee_cache_from_latest try_fetch chain_spec) L1_FEE_RETRY_BACKOFF task w' delay retry
      = Some (Returns task', w'')
    /\ l1_fee_cache (validator task') = Ready s /\ head_hash s = sealed_hash h
    /\ phase task' = Serving true (seconds 1) None.
Proof.
  intros Hb Ht Hrun Ep Ec Hm Hnow Hh Hl.
  destruct (built_pool_task _ _ _ _ _ _ _ _ _ Hb) as (task0' & Ht' & _ & Hok & _).
  rewrite Ht' in Ht. injection Ht as ->. pose proof (fee_run_ok _ _ _ _ _ Hrun Hok) as Hrun'.
  destruct (serving_cache _ _ _ _ _ _ _ _ Hrun' Ep) as (v & ws & v' & we & _ & _ & _ & Hme & Hc & Hr & -> & Hdelay).
  apply refreshed_cache in Hr. rewrite Hc, Ec in Hr. subst available.
  destruct (refresh_steady try_fetch chain_spec (validator task) w' h Hh Hl) as (v2 & w2 & s & Er & _ & Es & Hs);
    [by rewrite Ec|].
  pose proof (now_grows _ _ Hme). unfold on_retry.
  rewrite (proj2 (Z.ltb_ge _ _)) by lia. unfold refreshing. rewrite Er.
  by eexists _, w2, s.
Qed.

(** Startup ends. When at most [n] messages are sent while the task drains,
    [n + 1] iterations end the drain: the task has sent the ready signal and
    serves, or it stopped because the channel was closed or nobody waits; none of
    the refreshes panics. *)
Theorem startup_drains `{AlloyForks} `{TxEnv.EvmTypes} `{!EthPool} `{ReceiptTypes} {S}
    `{DogeosHardforks S} {DB E} `{Database DB E} `{!Revm DB} {W} `{!Client W DB E} `{!ClientView W E}
    `{!ClientLaws W DB E} {Sidecar Inv Boxed} `{!EthValidation DogeosPooledTransaction Sidecar Inv Boxed}
    `{!PoolCapacity.Tokio} `{!PoolOverrides} {Rx} `{!Notifications W Rx} `{!ChannelView W Rx}
    `{!NotificationsLaws W E Rx} (try_fetch : DB -> ScrollSpecId -> result L1BlockInfo E) (chain_spec : S)
    (self : DogeosPoolBuilder) (additional : Z) (eth : EthTransactionValidator)
    (check : DogeosPooledTransaction -> result unit Boxed) (w0 w1 : W) (built : Built)
    (task0 : Task Rx DogeosTransactionValidator) (n : nat) :
  build_pool try_fetch chain_spec self false additional eth check w0 = (Returns (Ok built), w1) ->
  fee_task built = Some task0 ->
  (forall w, moves w1 w -> sent w <= sent w0 + Z.of_nat n) ->
  exists task w,
    drain (refresh_l1_fee_cache_from_latest try_fetch chain_spec) L1_FEE_RETRY_BACKOFF (n + 1) task0 w1
      = (Returns task, w)
    /\ moves w1 w /\ is_Some (ready_result task).
Proof.
  intros Hb Ht Hsent. destruct (built_pool_task _ _ _ _ _ _ _ _ _ Hb) as (task0' & Ht' & _ & Hok & Hpos).
  rewrite Ht' in Ht. injection Ht as ->. destruct Hok as (_ & Hp & _).
  destruct (drain_ends _ L1_FEE_RETRY_BACKOFF (refresh_fee_returns try_fetch chain_spec) (n + 1) task0 w1
    (sent w0 + Z.of_nat n) Hsent Hp) as (task & w & Ed & Hm & Hph); [rewrite Hpos; lia|].
  exists task, w. split; [done|]. split; [done|]. unfold ready_result.
  destruct (phase task) as [| |[]]; [done|by eexists..].
Qed.

(** ** Witnesses

    Time is the integer moment of the clock world, ten seconds a tick; one head
    is announced after the second moment, on a channel of unbounded capacity. *)

#[export] Instance ref_notifications : Notifications Z Z := {
  subscribe m := if m <=? 2 then 0 else 1;
  resubscribe m _ := if m <=? 2 then 0 else 1;
  try_recv m rx := if rx <? (if m <=? 2 then 0 else 1) then (Received, rx + 1) else (Empty, rx);
  now m := m * seconds 10;
  ready_open _ := true;
}.

#[export] Instance ref_channel_view : ChannelView Z Z := {
  sent m := if m <=? 2 then 0 else 1;
  position rx := rx;
}.

#[export] Instance ref_notifications_laws : NotificationsLaws Z unit Z.
Proof.
  split; simpl; try done.
  - intros w w' Hm. destruct (Z.leb_spec w 2), (Z.leb_spec w' 2); lia.
  - intros w w' Hm. unfold seconds. lia.
  - intros w rx r rx' Hp. destruct (Z.ltb_spec rx (if w <=? 2 then 0 else 1)); intros [= <- <-]; lia.
Qed.

#[export] Instance ref_overrides : PoolOverrides := {
  PoolBuilderConfigOverrides := option Z;
  additional_validation_tasks o := o;
}.

#[local] Instance silent_validation : EthValidation DogeosPooledTransaction unit InvalidTransactionError
    (option (DogeosL1FeeError unit)) := {
  EthTransactionValidator := bool;
  eth_validate_one _ _ tx := Invalid tx TxTypeNotSupported;
  prague v := v;
  store_prague _ b := b;
  eth_on_new_head_block v _ := v;
}.

#[local] Instance sample_tokio : PoolCapacity.Tokio := { PoolCapacity.MAX_PERMITS := 2 ^ 61 - 1 }.

Definition sample_builder : DogeosPoolBuilder :=
  {| pool_config_overrides := None; code_witness_config := default_config |}.

(** States cannot be opened between the third and the seventh moment. *)
#[local] Instance flaky_client : Client Z MemDb unit := {
  latest_header m := (sample_head (m + 1), m + 1);
  state_by_block_hash m _ := (if (3 <=? m) && (m <=? 7) then Err tt else Ok oracle_db, m + 1);
}.

#[local] Instance flaky_laws : ClientLaws Z MemDb unit.
Proof.
  split; simpl; [split; [intros x; apply Z.le_refl|intros x y z; apply Z.le_trans]| |].
  - intros w r w' [= <- <-]. split; [lia|done].
  - intros w h r w' [= <- <-]. lia.
Qed.

Definition sample_build (dev : bool) :=
  build_pool (Revm0 := ref_revm) (Rx := Z) sample_fetch (new_schedule mainnet) sample_builder dev 1 false
    (fun _ => Ok tt) 0.

Definition sample_refresh_fee :=
  refresh_l1_fee_cache_from_latest (DB := MemDb) (Revm0 := ref_revm) (EthValidation0 := silent_validation)
    sample_fetch (new_schedule mainnet).

Definition built_validator : DogeosTransactionValidator (DB := MemDb) (E := unit) :=
  with_admission_check (new false sample_snapshot) (fun _ => Ok tt).

Definition sample_task0 : Task Z (DogeosTransactionValidator (DB := MemDb) (E := unit)) :=
  {| notifications := 0; validator := built_validator; phase := Draining |}.

Definition sample_built : Built :=
  {| executor := {| PoolCapacity.validator := built_validator;
                    PoolCapacity.inflight := {| PoolCapacity.available_permits := 64 |};
                    PoolCapacity.workers := {| PoolCapacity.available_permits := 2 |} |};
     fee_task := Some sample_task0 |}.

(** The last refresh of the drain finds the state closed. *)
Definition sample_task1 : Task Z (DogeosTransactionValidator (DB := MemDb) (E := unit)) :=
  {| notifications := 0; validator := set_cache built_validator (Unavailable (ExactStateOpen 11 5 tt));
     phase := Serving false (seconds 1) (Some (seconds 51)) |}.

Lemma sample_run : rtc (task_step sample_refresh_fee L1_FEE_RETRY_BACKOFF l1_fee_cache) (2, sample_task0) (5, sample_task1).
Proof. apply rtc_once, DrainStep; reflexivity. Qed.

Lemma fee_task_keeps_cache_current_witness :
  sample_build false = (Returns (Ok sample_built), 2)
  /\ exists we, moves we 5 /\ seconds 51 = now we + seconds 1.
Proof.
  assert (Hb : sample_build false = (Returns (Ok sample_built), 2)) by reflexivity.
  split; [exact Hb|].
  destruct (fee_task_keeps_cache_current (Revm0 := ref_revm) (EthValidation0 := silent_validation) sample_fetch (new_schedule mainnet) sample_builder
    false 1 false (fun _ => Ok tt) 0 2 sample_built Hb) as (task0 & Ht & _ & Hrun).
  injection Ht as <-. destruct (Hrun _ _ sample_run) as (v & ws & v' & we & _ & _ & Hm & _ & _ & Hr & _).
  exists we. split; [exact Hm|]. by injection Hr.
Defined.

Lemma unavailable_cache_recovers_witness :
  exists task' w'' s,
    on_retry sample_refresh_fee L1_FEE_RETRY_BACKOFF sample_task1 8 (seconds 1) (Some (seconds 51))
      = Some (Returns task', w'')
    /\ l1_fee_cache (validator task') = Ready s /\ head_hash s = 11.
Proof.
  destruct (unavailable_cache_recovers (Revm0 := ref_revm) (EthValidation0 := silent_validation) sample_fetch (new_schedule mainnet) sample_builder
    1 false (fun _ => Ok tt) 0 2 5 8 sample_built sample_task0 sample_task1 (ExactStateOpen 11 5 tt)
    false (seconds 1) (Some (seconds 51))
    {| sealed_hash := 11; sealed_header := sample_header (Some 1000000000) |}) as (task' & w'' & s & Hr & Hc & Hs & _).
  - reflexivity.
  - reflexivity.
  - exact sample_run.
  - reflexivity.
  - reflexivity.
  - vm_compute. discriminate.
  - vm_compute. discriminate.
  - intros w2 Hw. change (sample_head w2 = sample_head 8). unfold sample_head. simpl in Hw.
    by rewrite (proj2 (Z.leb_gt w2 2)) by lia.
  - intros w2 Hw. exists (snapshot_at 11). simpl in Hw. unfold load_header, load_for_head. simpl.
    rewrite (proj2 (Z.leb_gt w2 7)), andb_false_r by lia. reflexivity.
  - exists task', w'', s. split; [exact Hr|]. split; [exact Hc|exact Hs].
Defined.

Lemma startup_drains_witness :
  exists task w, drain sample_refresh_fee L1_FEE_RETRY_BACKOFF 2 sample_task0 2 = (Returns task, w)
    /\ is_Some (ready_result task).
Proof.
  destruct (startup_drains (Revm0 := ref_revm) (EthValidation0 := silent_validation) sample_fetch (new_schedule mainnet) sample_builder
    1 false (fun _ => Ok tt) 0 2 sample_built sample_task0 1) as (task & w & Hd & _ & Hr).
  - reflexivity.
  - reflexivity.
  - intros w Hw. simpl. destruct (w <=? 2); lia.
  - exists task, w. split; [exact Hd|exact Hr].
Defined.
