(* ===== verification/Wire.v ===== *)
(** * Block announcements on the wire (dogeos-scroll-wire)

    protocol/proto.rs, signature.rs, config.rs and the static part of
    connection/handler.rs: the message of the [scroll/1] protocol and its bytes,
    the hash the sequencer signs, and the check of its signature. *)

From stdpp Require Import prelude gmap list strings.
From Stdlib Require Import ZArith Lia.
From S2P Require Import Prelude.
From S2P Require Import Chain.
From S2P Require Import Alloy.
From S2P Require Import AlloyRef.
From S2P Require Import TxType.
From S2P Require Import Consensus.

(** ** The libraries the protocol uses *)

(** The RLP of hashes, 64-bit nonces and blooms: strings of fixed length. *)
Class HeaderRlp := {
  rlp_b256 : codec B256;
  rlp_b64 : codec Z;
  rlp_bloom : codec Z;
}.

Definition in_b256 (x : Z) : Prop := 0 <= x < 2 ^ 256.
Definition in_bloom (x : Z) : Prop := 0 <= x < 2 ^ 2048.

(** Round trips, and the sizes of the encodings. *)
Class HeaderRlpLaws `{Rlp} `{HeaderRlp} : Prop := {
  rlp_b256_ok : codec_ok in_b256 rlp_b256;
  rlp_b64_ok : codec_ok in_u64 rlp_b64;
  rlp_bloom_ok : codec_ok in_bloom rlp_bloom;
  rlp_b256_size x : len rlp_b256 x = 33;
  rlp_b64_size x : len rlp_b64 x = 9;
  rlp_bloom_size x : len rlp_bloom x = 259;
  rlp_address_size x : len rlp_address x = 21;
  rlp_u256_size x : in_u256 x -> 1 <= len rlp_u256 x <= 33;
  rlp_u64_size x : in_u64 x -> 1 <= len rlp_u64 x <= 9;
}.

(** [as_rsy] and [from_raw] of a signature. *)
Class SignatureBytes `{AlloyTypes} := {
  SignatureError : Type;
  as_rsy : Signature -> bytes;
  from_raw : bytes -> result Signature SignatureError;
}.

Class SignatureBytesLaws `{SignatureBytes} : Prop := {
  from_raw_as_rsy s : from_raw (as_rsy s) = Ok s;
  as_rsy_bytes s : Forall in_u8 (as_rsy s);
  as_rsy_length s : length (as_rsy s) = 65%nat;
}.

(** [derive(RlpEncodable, RlpDecodable)] on a struct of two fields: the list of
    the fields in the order of their declaration. *)
Class RlpDerive `{Rlp} := { derive_rlp : forall {A B}, codec A -> codec B -> codec (A * B) }.

Class RlpDeriveLaws `{RlpDerive} : Prop := {
  derive_layout {A B} (ca : codec A) (cb : codec B) a b :
    let payload := enc ca a ++ enc cb b in
    enc (derive_rlp ca cb) (a, b)
    = enc rlp_header {| header_list := true; payload_length := blen payload |} ++ payload;
  derive_ok {A B} (va : A -> Prop) (vb : B -> Prop) (ca : codec A) (cb : codec B) :
    codec_ok va ca -> codec_ok vb cb ->
    codec_ok (fun p => va p.1 /\ vb p.2 /\ blen (enc ca p.1 ++ enc cb p.2) <= u64_max) (derive_rlp ca cb);
}.

(** A block as the protocol types encode it. *)
Class BlockRlp (T : Type) := { rlp_block : codec (SealedBlock T) }.

(** ** Messages (proto.rs) *)

Inductive ScrollMessageId : Type := NewBlockId.

Definition message_id (i : ScrollMessageId) : Z := match i with NewBlockId => 0 end.

(** [TryFrom<u8>]. *)
Definition try_from_u8 (value : Z) : result ScrollMessageId unit :=
  if value =? 0 then Ok NewBlockId else Err tt.

Section Messages.
Context `{AlloyTypes} `{!SignatureBytes} {T : Type} `{BlockRlp T} `{RlpDerive}.

Record NewBlock := { nb_signature : bytes; nb_block : SealedBlock T }.

Definition new (signature : Signature) (block : SealedBlock T) : NewBlock :=
  {| nb_signature := as_rsy signature; nb_block := block |}.

(** The derived encoding, in the order of the fields. *)
Definition rlp_new_block : codec NewBlock :=
  let c := derive_rlp rlp_bytes rlp_block in
  {| enc nb := enc c (nb_signature nb, nb_block nb);
     dec b := rmap (fun '(p, rest) => ({| nb_signature := p.1; nb_block := p.2 |}, rest)) (dec c b);
     len nb := len c (nb_signature nb, nb_block nb) |}.

Inductive ScrollMessagePayload : Type := PNewBlock (block : NewBlock).

Record ScrollMessage := { msg_id : ScrollMessageId; msg_payload : ScrollMessagePayload }.

Definition new_block (block : NewBlock) : ScrollMessage :=
  {| msg_id := NewBlockId; msg_payload := PNewBlock block |}.

Definition encoded (self : ScrollMessage) : bytes :=
  message_id (msg_id self) :: match msg_payload self with PNewBlock block => enc rlp_new_block block end.

(** [decode]: the message and the bytes left in the buffer. *)
Definition decode (buffer : bytes) : option (ScrollMessage * bytes) :=
  match buffer with
  | [] => None
  | first :: buffer =>
      match try_from_u8 first with
      | Err _ => None
      | Ok NewBlockId =>
          match dec rlp_new_block buffer with
          | Err _ => None
          | Ok (block, rest) => Some ({| msg_id := NewBlockId; msg_payload := PNewBlock block |}, rest)
          end
      end
  end.
End Messages.
Arguments NewBlock T : clear implicits.
Arguments ScrollMessagePayload T : clear implicits.
Arguments ScrollMessage T : clear implicits.

(** The capability of the protocol: name, version, and number of message ids. *)
Definition capability : string * Z := ("scroll"%string, 1).
Definition protocol : (string * Z) * Z := (capability, 1).

(** ** Configuration (config.rs, connection/handler.rs) *)

Record ScrollWireConfig := { connect_unsupported_peer : bool }.

Inductive OnNotSupported : Type := KeepAlive | Disconnect.

Definition on_unsupported_by_peer (config : ScrollWireConfig) : OnNotSupported :=
  if connect_unsupported_peer config then KeepAlive else Disconnect.

(** ** Signatures (signature.rs) *)

Inductive BlockSignatureError : Type :=
| RecoveryFailed
| UnauthorizedSigner (expected actual : Address).

Section Signatures.
Context `{Rlp} `{HeaderRlp} (keccak256 : bytes -> B256).

Definition signing_payload_length (header : Header) : Z :=
  len rlp_b256 (parent_hash header) + len rlp_b256 (ommers_hash header)
  + len rlp_address (beneficiary header) + len rlp_b256 (state_root header)
  + len rlp_b256 (transactions_root header) + len rlp_b256 (receipts_root header)
  + len rlp_bloom (logs_bloom header) + len rlp_u256 (difficulty header)
  + len rlp_u256 (number header) + len rlp_u256 (gas_limit header) + len rlp_u256 (gas_used header)
  + len rlp_u64 (timestamp header) + len rlp_b256 (mix_hash header) + len rlp_b64 (nonce header)
  + match base_fee_per_gas header with Some fee => len rlp_u256 fee | None => 0 end.

(** The items of the list, in order. *)
Definition signing_fields (header : Header) : bytes :=
  enc rlp_b256 (parent_hash header) ++ enc rlp_b256 (ommers_hash header)
  ++ enc rlp_address (beneficiary header) ++ enc rlp_b256 (state_root header)
  ++ enc rlp_b256 (transactions_root header) ++ enc rlp_b256 (receipts_root header)
  ++ enc rlp_bloom (logs_bloom header) ++ enc rlp_u256 (difficulty header)
  ++ enc rlp_u256 (number header) ++ enc rlp_u256 (gas_limit header) ++ enc rlp_u256 (gas_used header)
  ++ enc rlp_u64 (timestamp header) ++ enc rlp_b256 (mix_hash header) ++ enc rlp_b64 (nonce header)
  ++ match base_fee_per_gas header with Some fee => enc rlp_u256 fee | None => [] end.

(** The buffer [signature_hash] hashes. *)
Definition signing_encoding (header : Header) : bytes :=
  enc rlp_header {| header_list := true; payload_length := signing_payload_length header |}
  ++ signing_fields header.

Definition signature_hash (header : Header) : B256 := keccak256 (signing_encoding header).

Context `{AlloyTypes} {RecoveryError : Type} (recover_signer : Signature -> B256 -> result Address RecoveryError).

Definition verify_block_signature (header : Header) (signature : Signature)
    (authorized_signer : option Address) : result unit BlockSignatureError :=
  match authorized_signer with
  | None => Ok tt
  | Some expected =>
      let? actual := map_err (fun _ => RecoveryFailed) (recover_signer signature (signature_hash header)) in
      if negb (actual =? expected) then Err (UnauthorizedSigner expected actual) else Ok tt
  end.
End Signatures.

(** ** Specifications *)

(** Every header field at its width. *)
Record header_widths (h : Header) : Prop := {
  w_parent_hash : in_b256 (parent_hash h);
  w_ommers_hash : in_b256 (ommers_hash h);
  w_beneficiary : in_address (beneficiary h);
  w_state_root : in_b256 (state_root h);
  w_transactions_root : in_b256 (transactions_root h);
  w_receipts_root : in_b256 (receipts_root h);
  w_logs_bloom : in_bloom (logs_bloom h);
  w_difficulty : in_u256 (difficulty h);
  w_number : in_u256 (number h);
  w_gas_limit : in_u256 (gas_limit h);
  w_gas_used : in_u256 (gas_used h);
  w_timestamp : in_u64 (timestamp h);
  w_mix_hash : in_b256 (mix_hash h);
  w_nonce : in_u64 (nonce h);
  w_base_fee : forall fee, base_fee_per_gas h = Some fee -> in_u256 fee;
}.

(** Two headers that agree on everything the sequencer signs: every field up to
    the base fee, except the extra data. *)
Definition same_signed (h h' : Header) : Prop :=
  parent_hash h = parent_hash h' /\ ommers_hash h = ommers_hash h' /\ beneficiary h = beneficiary h'
  /\ state_root h = state_root h' /\ transactions_root h = transactions_root h'
  /\ receipts_root h = receipts_root h' /\ logs_bloom h = logs_bloom h' /\ difficulty h = difficulty h'
  /\ number h = number h' /\ gas_limit h = gas_limit h' /\ gas_used h = gas_used h'
  /\ timestamp h = timestamp h' /\ mix_hash h = mix_hash h' /\ nonce h = nonce h'
  /\ base_fee_per_gas h = base_fee_per_gas h'.

(** ** Lemmas *)

(** A codec's output is read back in front of anything, so it is prefix-free. *)
Lemma codec_app_inj {A} (valid : A -> Prop) (c : codec A) a a' r r' :
  codec_ok valid c -> valid a -> valid a' -> enc c a ++ r = enc c a' ++ r' -> a = a' /\ r = r'.
Proof.
  intros Hc Ha Ha' E. pose proof (dec_enc Hc a r Ha) as D. rewrite E, (dec_enc Hc a' r' Ha') in D.
  by injection D as -> ->.
Qed.

Section SigningLemmas.
Context `{HeaderRlpLaws} `{!RlpLaws}.

Lemma signing_length h : header_widths h -> signing_payload_length h = blen (signing_fields h).
Proof.
  intros W. unfold signing_fields. rewrite !blen_app.
  rewrite <- !(len_enc rlp_b256_ok), <- !(len_enc rlp_u256_ok), <- (len_enc rlp_address_ok),
    <- (len_enc rlp_bloom_ok), <- (len_enc rlp_b64_ok), <- (len_enc rlp_u64_ok) by apply W.
  unfold signing_payload_length. destruct (base_fee_per_gas h) as [fee|] eqn:E.
  - rewrite <- (len_enc rlp_u256_ok) by (by apply (w_base_fee h W)). lia.
  - rewrite blen_nil. lia.
Qed.

Lemma signing_length_range h : header_widths h -> 0 <= signing_payload_length h <= u64_max.
Proof.
  intros W. unfold signing_payload_length.
  rewrite !rlp_b256_size, rlp_address_size, rlp_bloom_size, rlp_b64_size.
  pose proof (rlp_u256_size _ (w_difficulty h W)). pose proof (rlp_u256_size _ (w_number h W)).
  pose proof (rlp_u256_size _ (w_gas_limit h W)). pose proof (rlp_u256_size _ (w_gas_used h W)).
  pose proof (rlp_u64_size _ (w_timestamp h W)).
  destruct (base_fee_per_gas h) as [fee|] eqn:E; [|solve_ints].
  pose proof (rlp_u256_size _ (w_base_fee h W fee E)). solve_ints.
Qed.

(** Peels the first item off two equal encodings: its codec and its field. *)
Ltac peel E W W' ok width :=
  let E' := fresh in
  destruct (codec_app_inj _ _ _ _ _ _ ok (width _ W) (width _ W') E) as [? E']; clear E; rename E' into E.

Lemma signing_fields_inj h h' :
  header_widths h -> header_widths h' -> signing_fields h = signing_fields h' -> same_signed h h'.
Proof.
  intros W W' E. unfold signing_fields in E.
  peel E W W' rlp_b256_ok w_parent_hash.  peel E W W' rlp_b256_ok w_ommers_hash.
  peel E W W' rlp_address_ok w_beneficiary.  peel E W W' rlp_b256_ok w_state_root.
  peel E W W' rlp_b256_ok w_transactions_root.  peel E W W' rlp_b256_ok w_receipts_root.
  peel E W W' rlp_bloom_ok w_logs_bloom.  peel E W W' rlp_u256_ok w_difficulty.
  peel E W W' rlp_u256_ok w_number.  peel E W W' rlp_u256_ok w_gas_limit.
  peel E W W' rlp_u256_ok w_gas_used.  peel E W W' rlp_u64_ok w_timestamp.
  peel E W W' rlp_b256_ok w_mix_hash.  peel E W W' rlp_b64_ok w_nonce.
  unfold same_signed.
  do 14 (split; [assumption|]).
  assert (Hpos : forall fee, in_u256 fee -> enc rlp_u256 fee <> []).
  { intros fee Hf En. pose proof (rlp_u256_size fee Hf) as S. rewrite (len_enc rlp_u256_ok) in S by done.
    rewrite En, blen_nil in S. lia. }
  destruct (base_fee_per_gas h) as [f|] eqn:Ef, (base_fee_per_gas h') as [f'|] eqn:Ef'; [| | |done].
  - f_equal. eapply (codec_app_inj _ rlp_u256 f f' [] []); [exact rlp_u256_ok|by apply W|by apply W'|].
    by rewrite !app_nil_r.
  - by destruct (Hpos f (w_base_fee h W f Ef)).
  - symmetry in E. by destruct (Hpos f' (w_base_fee h' W' f' Ef')).
Qed.

Lemma signing_encoding_inj h h' :
  header_widths h -> header_widths h' ->
  signing_encoding h = signing_encoding h' <-> same_signed h h'.
Proof.
  intros W W'. split.
  - intros E. apply signing_fields_inj; [done..|]. unfold signing_encoding in E.
    pose proof (signing_length_range h W). pose proof (signing_length_range h' W').
    pose proof (rlp_list_header (signing_payload_length h) (signing_fields h)
      ltac:(rewrite <- signing_length by done; lia) ltac:(lia)) as D.
    rewrite E in D. rewrite rlp_list_header in D by (rewrite <- ?signing_length by done; lia).
    by injection D.
  - intros (E1 & E2 & E3 & E4 & E5 & E6 & E7 & E8 & E9 & E10 & E11 & E12 & E13 & E14 & E15).
    unfold signing_encoding, signing_payload_length, signing_fields.
    by rewrite E1, E2, E3, E4, E5, E6, E7, E8, E9, E10, E11, E12, E13, E14, E15.
Qed.
End SigningLemmas.

Lemma header_valid_signed `{RethConsensusLaws} now now' h h' :
  header_valid now h -> header_valid now' h' -> same_signed h h' -> h = h'.
Proof.
  intros V V' (? & ? & ? & ? & ? & ? & ? & ? & ? & ? & ? & ? & ? & ? & ?).
  destruct V as [_ _ _ _ _ Ex _ Ew [Eb Ee] Ep Er _ _], V' as [_ _ _ _ _ Ex' _ Ew' [Eb' Ee'] Ep' Er' _ _].
  destruct h as [? ? ? ? ? ? ? ? ? ? ? ? x1 ? ? ? x2 x3 x4 x5 x6],
    h' as [? ? ? ? ? ? ? ? ? ? ? ? y1 ? ? ? y2 y3 y4 y5 y6]; simpl in *. subst. reflexivity.
Qed.

Section MessageLemmas.
Context `{SignatureBytesLaws} {T : Type} (valid_block : SealedBlock T -> Prop) `{!BlockRlp T}
  `{RlpDeriveLaws} `{!RlpLaws} (block_ok : codec_ok valid_block rlp_block).

(** An announcement whose encoding fits in memory. *)
Definition announcement_ok (nb : NewBlock T) : Prop :=
  Forall in_u8 (nb_signature nb) /\ valid_block (nb_block nb)
  /\ blen (enc rlp_bytes (nb_signature nb) ++ enc rlp_block (nb_block nb)) <= u64_max.

Lemma rlp_new_block_ok : codec_ok announcement_ok rlp_new_block.
Proof.
  pose proof (derive_ok _ _ _ _ rlp_bytes_ok block_ok) as Hd. split.
  - intros [s b] rest Ha. simpl. rewrite (dec_enc Hd (s, b) rest) by exact Ha. reflexivity.
  - intros [s b] Ha. simpl. by apply (len_enc Hd (s, b)).
Qed.

Lemma decode_encoded nb rest :
  announcement_ok nb -> decode (encoded (new_block nb) ++ rest) = Some (new_block nb, rest).
Proof.
  intros Ha. pose proof (dec_enc rlp_new_block_ok nb rest Ha) as E.
  unfold decode, encoded, new_block. cbn [msg_id msg_payload message_id app].
  change (try_from_u8 0) with (@Ok ScrollMessageId unit NewBlockId). cbn iota. by rewrite E.
Qed.
End MessageLemmas.

(** ** Properties *)

(** A block announcement survives the wire: its bytes decode to the message they
    encode, whatever follows them; they start with the message id and hold the
    signature before the block; the signature reads back as the one it was made
    from; and an empty message or another id is refused. *)
Theorem wire_message_roundtrip `{SignatureBytesLaws} {T} (valid_block : SealedBlock T -> Prop) `{!BlockRlp T}
    `{RlpDeriveLaws} `{!RlpLaws} (s : Signature) (b : SealedBlock T) (rest : bytes) :
  codec_ok valid_block rlp_block ->
  valid_block b -> blen (enc rlp_bytes (as_rsy s) ++ enc rlp_block b) <= u64_max ->
  let nb := new s b in
  decode (encoded (new_block nb) ++ rest) = Some (new_block nb, rest)
  /\ (exists header, encoded (new_block nb) = 0 :: header ++ enc rlp_bytes (as_rsy s) ++ enc rlp_block b)
  /\ from_raw (nb_signature nb) = Ok s
  /\ decode (T := T) [] = None
  /\ (forall id body, id <> 0 -> decode (T := T) (id :: body) = None).
Proof.
  intros Hblock Hb Hlen. cbn zeta. split; [|split; [|split; [|split]]].
  - apply (decode_encoded valid_block Hblock). split; [apply as_rsy_bytes|done].
  - eexists. unfold encoded, new_block, new. cbn [msg_id msg_payload message_id]. f_equal.
    exact (derive_layout rlp_bytes rlp_block (as_rsy s) b).
  - apply from_raw_as_rsy.
  - reflexivity.
  - intros id body Hid. simpl. unfold try_from_u8. by rewrite (proj2 (Z.eqb_neq _ _)).
Qed.

(** C30: What the sequencer signs. The hashed list announces the length of its items;
    two headers give the same list exactly when they agree on every field up to
    the base fee other than the extra data, so the hash never depends on the
    extra data or on the later optional fields; and among the headers consensus
    accepts, whose extra data and later fields are empty, the signed list
    determines the whole header. *)
Theorem signature_hash_commits `{HeaderRlpLaws} `{!RlpLaws} `{RethConsensusLaws}
    (keccak256 : bytes -> B256) (now now' : option Z) (h h' : Header) :
  header_widths h -> header_widths h' ->
  signing_payload_length h = blen (signing_fields h)
  /\ (signing_encoding h = signing_encoding h' <-> same_signed h h')
  /\ (same_signed h h' -> signature_hash keccak256 h = signature_hash keccak256 h')
  /\ (validate_header now h = Ok tt -> validate_header now' h' = Ok tt ->
      signing_encoding h = signing_encoding h' -> h = h').
Proof.
  intros W W'. pose proof (signing_encoding_inj h h' W W') as Hinj. split; [|split; [|split]].
  - by apply signing_length.
  - exact Hinj.
  - intros Hs%Hinj. unfold signature_hash. by rewrite Hs.
  - intros V%validate_header_valid V'%validate_header_valid E%Hinj. by apply (header_valid_signed now now').
Qed.

(** ** Witnesses *)

(** A fixed string of more than 55 bytes, with its two-byte length. *)
Definition ref_long (k : nat) : codec Z :=
  {| enc x := [0xb9; Z.of_nat k / 256; Z.of_nat k mod 256] ++ be_bytes k x;
     dec b := if (length b <? 3)%nat then Err InputTooShort else take_value k (drop 3 b);
     len _ := 3 + Z.of_nat k |}.

Lemma ref_long_ok (P : Z -> Prop) k :
  (forall n, P n -> 0 <= n < 256 ^ Z.of_nat k) -> codec_ok P (ref_long k).
Proof.
  intros HP. split; intros n.
  - intros rest Hn%HP. unfold ref_long, dec, enc. rewrite <- app_assoc.
    rewrite (proj2 (Nat.ltb_ge _ _)) by (rewrite length_app; simpl; lia).
    rewrite drop_app_length' by done. by apply take_value_be.
  - intros _. unfold ref_long, len, enc. unfold blen. rewrite length_app, be_bytes_length. simpl length. lia.
Qed.

#[export] Instance ref_header_rlp : HeaderRlp := {
  rlp_b256 := ref_fixed 32;
  rlp_b64 := ref_fixed 8;
  rlp_bloom := ref_long 256;
}.

Lemma enc_uint_size n k : (0 < k)%nat -> 0 <= n < 256 ^ Z.of_nat k -> 1 <= blen (enc_uint n) <= 1 + Z.of_nat k.
Proof.
  intros Hk Hn. unfold enc_uint, prefixed. destruct (_ && _); unfold blen; simpl length.
  - lia.
  - rewrite be_bytes_length. pose proof (num_bytes_le n k Hn). lia.
Qed.

#[export] Instance ref_header_rlp_laws : HeaderRlpLaws.
Proof.
  split.
  - apply ref_fixed_ok. unfold in_b256. change (256 ^ Z.of_nat 32) with (2 ^ 256). lia.
  - apply ref_fixed_ok. unfold in_u64, u64_max. change (256 ^ Z.of_nat 8) with (2 ^ 64). lia.
  - apply ref_long_ok. unfold in_bloom. change (256 ^ Z.of_nat 256) with (2 ^ 2048). lia.
  - done.
  - done.
  - done.
  - done.
  - intros x Hx. apply (enc_uint_size x 32); [lia|]. change (256 ^ Z.of_nat 32) with (2 ^ 256).
    unfold in_u256, u256_max in Hx. lia.
  - intros x Hx. apply (enc_uint_size x 8); [lia|]. change (256 ^ Z.of_nat 8) with (2 ^ 64).
    unfold in_u64, u64_max in Hx. lia.
Qed.

#[export] Instance ref_signature_bytes : SignatureBytes (H := ref_types) := {
  SignatureError := unit;
  as_rsy s := repeat 0 64 ++ [if s : bool then 1 else 0];
  from_raw b := if bool_decide (length b = 65%nat) then Ok (nth 64 b 0 =? 1) else Err tt;
}.

#[export] Instance ref_signature_bytes_laws : SignatureBytesLaws (H := ref_types).
Proof.
  split; [by intros []| |by intros []].
  intros s. apply (bool_decide_unpack _). destruct s; vm_compute; exact I.
Qed.

#[export] Instance ref_derive : RlpDerive := {
  derive_rlp A B ca cb :=
    let payload p := enc ca (fst p) ++ enc cb (snd p) in
    let encode p := enc rlp_header {| header_list := true; payload_length := blen (payload p) |} ++ payload p in
    {| enc := encode;
       dec b :=
         let? h := dec rlp_header b in
         if negb (header_list h.1) then Err UnexpectedString
         else
           let? a := dec ca h.2 in
           let? x := dec cb a.2 in
           if bool_decide (blen x.2 + payload_length h.1 = blen h.2) then Ok ((a.1, x.1), x.2)
           else Err (ListLengthMismatch (payload_length h.1) (blen h.2 - blen x.2));
       len p := blen (encode p) |};
}.

#[export] Instance ref_derive_laws : RlpDeriveLaws.
Proof.
  split; [done|]. intros A B va vb ca cb Ha Hb. split; [|done].
  intros [a b] rest (Va & Vb & Hlen). cbn [fst snd] in *. cbn [derive_rlp ref_derive dec enc fst snd].
  pose proof (blen_nonneg (enc ca a ++ enc cb b)) as Hp. pose proof (blen_nonneg rest) as Hr.
  rewrite <- app_assoc, rlp_list_header by (rewrite ?blen_app in *; lia).
  cbn [rbind fst snd header_list payload_length negb].
  rewrite <- app_assoc, (dec_enc Ha a _ Va). cbn [rbind fst snd]. rewrite (dec_enc Hb b rest Vb). cbn [rbind fst snd].
  rewrite bool_decide_true; [done|]. rewrite !blen_app. lia.
Qed.

(** Blocks that differ in their number only. *)
Definition numbered (n : Z) : SealedBlock unit :=
  {| block_header :=
       {| parent_hash := 1; ommers_hash := EMPTY_OMMER_ROOT_HASH; beneficiary := 0; state_root := 0;
          transactions_root := 0; receipts_root := 0; logs_bloom := 0; difficulty := 1; number := n;
          gas_limit := 20000000; gas_used := 10000000; timestamp := 50; extra_data := [];
          mix_hash := 0; nonce := 0; base_fee_per_gas := Some 15680000; withdrawals_root := None;
          blob_gas_used := None; excess_blob_gas := None; parent_beacon_block_root := None;
          requests_hash := None |};
     transactions := []; ommers := Some []; withdrawals := None |}.

#[export] Instance ref_block_rlp : BlockRlp unit := {
  rlp_block :=
    {| enc b := enc rlp_u64 (number (block_header b));
       dec b := rmap (fun '(n, rest) => (numbered n, rest)) (dec rlp_u64 b);
       len b := len rlp_u64 (number (block_header b)) |};
}.

Definition numbered_ok (b : SealedBlock unit) : Prop := exists n, in_u64 n /\ b = numbered n.

Lemma ref_block_ok : codec_ok numbered_ok (rlp_block (T := unit)).
Proof.
  split.
  - intros b rest (n & Hn & ->). cbn [rlp_block ref_block_rlp enc dec]. by rewrite (dec_enc rlp_u64_ok n rest Hn).
  - intros b (n & Hn & ->). apply (len_enc rlp_u64_ok n Hn).
Qed.

Definition odd_signature : @Signature ref_types := true.

Lemma wire_message_roundtrip_witness :
  exists bytes, bytes = encoded (new_block (new odd_signature (numbered 7)))
    /\ length bytes = 71%nat
    /\ decode (bytes ++ [9]) = Some (new_block (new odd_signature (numbered 7)), [9]).
Proof.
  destruct (wire_message_roundtrip numbered_ok odd_signature (numbered 7) [9]) as [Hd _].
  - apply ref_block_ok.
  - exists 7. split; [unfold in_u64, u64_max; lia|reflexivity].
  - apply Z.leb_le. vm_compute. reflexivity.
  - eexists. split; [reflexivity|]. split; [reflexivity|exact Hd].
Defined.

Lemma numbered_widths n : in_u64 n -> header_widths (block_header (numbered n)).
Proof.
  intros Hn. split; try (by intros fee [= <-]); unfold in_b256, in_address, in_bloom, in_u256, in_u64 in *;
    cbn [block_header numbered parent_hash ommers_hash beneficiary state_root transactions_root receipts_root
         logs_bloom difficulty number gas_limit gas_used timestamp mix_hash nonce base_fee_per_gas];
    try (split; reflexivity || discriminate).
  solve_ints.
Qed.

Lemma signature_hash_commits_witness :
  signing_encoding (block_header (numbered 7)) <> signing_encoding (block_header (numbered 8)).
Proof.
  destruct (signature_hash_commits (fun _ => 0) None None (block_header (numbered 7)) (block_header (numbered 8)))
    as (_ & _ & _ & Hinj).
  - apply numbered_widths. unfold in_u64, u64_max. lia.
  - apply numbered_widths. unfold in_u64, u64_max. lia.
  - intros E. apply Hinj in E; [discriminate E|reflexivity..].
Defined.
