(* ===== verification/WireNet.v ===== *)
(** * Connections, announcements and their import (dogeos-scroll-wire, dogeos-reth-node)

    connection/mod.rs, connection/handler.rs, protocol/event.rs, manager.rs and
    error.rs of the wire crate, and wire_import.rs of the node: the stream of a
    connection, the manager that routes announcements, and the importer that
    hands authorized blocks to the engine. *)

From stdpp Require Import prelude gmap list strings.
From Stdlib Require Import ZArith Lia.
From S2P Require Import Prelude.
From S2P Require Import Chain.
From S2P Require Import Alloy.
From S2P Require Import AlloyRef.
From S2P Require Import TxType.
From S2P Require Import Consensus.
From S2P Require Import Engine.
From S2P Require Import Wire.

(** ** Channels

    An unbounded tokio channel is a queue; a send fails once the receiver is
    gone, and a receiver learns when every sender is. *)

Inductive Poll (A : Type) : Type :=
| Ready (a : A)
| Pending.
Arguments Ready {A} a.
Arguments Pending {A}.

Record Channel (M : Type) := { waiting : list M; sender_alive : bool; receiver_alive : bool }.
Arguments Build_Channel {M}.
Arguments waiting {M} _.
Arguments sender_alive {M} _.
Arguments receiver_alive {M} _.

Definition unbounded_channel {M} : Channel M := Build_Channel [] true true.

(** [None]: the receiver is gone. *)
Definition send {M} (c : Channel M) (m : M) : option (Channel M) :=
  if receiver_alive c then Some (Build_Channel (waiting c ++ [m]) (sender_alive c) true) else None.

Definition poll_recv {M} (c : Channel M) : Poll (option M) * Channel M :=
  match waiting c with
  | m :: ms => (Ready (Some m), Build_Channel ms (sender_alive c) (receiver_alive c))
  | [] => (if sender_alive c then Pending else Ready None, c)
  end.

Definition drop_sender {M} (c : Channel M) : Channel M := Build_Channel (waiting c) false (receiver_alive c).

(** ** Events (protocol/event.rs) *)

Abbreviation PeerId := Z.

Inductive Direction : Type := Incoming | Outgoing (peer : PeerId).

Section Wire.
Context `{AlloyTypes} `{!SignatureBytes} {T : Type} `{BlockRlp T} `{RlpDerive}.

(** The sending half of a connection's channel is the channel's name. *)
Inductive ScrollWireEvent : Type :=
| ConnectionEstablished (direction : Direction) (peer_id : PeerId) (to_connection : nat)
| EventNewBlock (peer_id : PeerId) (block : SealedBlock T) (signature : Signature).

Definition connection_established (direction : Direction) (peer_id : PeerId) (to_connection : nat) :
    ScrollWireEvent := ConnectionEstablished direction peer_id to_connection.
Definition event_new_block (peer_id : PeerId) (block : SealedBlock T) (signature : Signature) :
    ScrollWireEvent := EventNewBlock peer_id block signature.

(** The channels of one node: from its connections to the manager, and from the
    manager to each connection. *)
Record World := { events : Channel ScrollWireEvent; outbounds : gmap nat (Channel (ScrollMessage T)) }.

Definition set_events (w : World) (c : Channel ScrollWireEvent) : World :=
  {| events := c; outbounds := outbounds w |}.
Definition set_outbound (w : World) (id : nat) (c : Channel (ScrollMessage T)) : World :=
  {| events := events w; outbounds := <[id := c]> (outbounds w) |}.

(** ** A connection (connection/mod.rs, connection/handler.rs) *)

(** [conn] is the peer's side: the frames that arrived, and whether it is open. *)
Record ScrollWireConnection := {
  conn : list bytes;
  conn_open : bool;
  direction : Direction;
  outbound : nat;
  peer_id : PeerId;
}.

Definition set_conn (self : ScrollWireConnection) (frames : list bytes) : ScrollWireConnection :=
  {| conn := frames; conn_open := conn_open self; direction := direction self; outbound := outbound self;
     peer_id := peer_id self |}.

Definition new_connection (peer_id : PeerId) (frames : list bytes) (open : bool) (direction : Direction)
    (outbound : nat) : ScrollWireConnection :=
  {| conn := frames; conn_open := open; direction := direction; outbound := outbound; peer_id := peer_id |}.

(** The new channel takes an unused name; a manager that is gone is ignored, and
    the sender in the unsent event is dropped. *)
Definition into_connection (dir : Direction) (peer : PeerId) (frames : list bytes) (open : bool) (w : World) :
    ScrollWireConnection * World :=
  let id := fresh (dom (outbounds w)) in
  let w := set_outbound w id unbounded_channel in
  let w := match send (events w) (connection_established dir peer id) with
           | Some c => set_events w c
           | None => set_outbound w id (drop_sender unbounded_channel)
           end in
  (new_connection peer frames open dir id, w).

(** [self.outbound.poll_next]. *)
Definition poll_outbound (id : nat) (w : World) : Poll (option (ScrollMessage T)) * World :=
  match outbounds w !! id with
  | Some c => let '(p, c) := poll_recv c in (p, set_outbound w id c)
  | None => (Ready None, w)
  end.

(** The loop of [poll_next] over the frames that have arrived. *)
Fixpoint poll_frames (self : ScrollWireConnection) (frames : list bytes) (w : World) :
    Poll (option bytes) * ScrollWireConnection * World :=
  match poll_outbound (outbound self) w with
  | (Ready (Some message), w) => (Ready (Some (encoded message)), set_conn self frames, w)
  | (_, w) =>
      match frames with
      | [] => (if conn_open self then Pending else Ready None, set_conn self [], w)
      | message :: frames =>
          let close := (Ready None, set_conn self frames, w) in
          match decode message with
          | None => close
          | Some (message, _) =>
              match msg_payload message with
              | PNewBlock new_block =>
                  match from_raw (nb_signature new_block) with
                  | Err _ => close
                  | Ok signature =>
                      match send (events w) (event_new_block (peer_id self) (nb_block new_block) signature) with
                      | None => close
                      | Some c => poll_frames self frames (set_events w c)
                      end
                  end
              end
          end
      end
  end.

Definition poll_next (self : ScrollWireConnection) (w : World) :
    Poll (option bytes) * ScrollWireConnection * World := poll_frames self (conn self) w.

(** ** The manager (manager.rs) *)

Record ScrollWireManager := { connections : gmap PeerId nat }.

Inductive AnnounceBlockError : Type :=
| PeerNotConnected (peer : PeerId)
| SendFailed (peer : PeerId).

Definition new_manager : ScrollWireManager := {| connections := ∅ |}.

(** A sender that leaves the map is dropped. *)
Definition drop_connection (sender : option nat) (w : World) : World :=
  match sender with
  | Some id =>
      match outbounds w !! id with Some c => set_outbound w id (drop_sender c) | None => w end
  | None => w
  end.

Definition announce_block (self : ScrollWireManager) (peer : PeerId) (block : NewBlock T) (w : World) :
    result unit AnnounceBlockError * ScrollWireManager * World :=
  match connections self !! peer with
  | None => (Err (PeerNotConnected peer), self, w)
  | Some id =>
      match outbounds w !! id ≫= fun c => send c (new_block block) with
      | Some c => (Ok tt, self, set_outbound w id c)
      | None =>
          (Err (SendFailed peer), {| connections := delete peer (connections self) |},
           drop_connection (Some id) w)
      end
  end.

Definition connected_peers (self : ScrollWireManager) : gset PeerId := dom (connections self).
Definition is_connected (self : ScrollWireManager) (peer : PeerId) : bool :=
  bool_decide (is_Some (connections self !! peer)).

(** [connections.insert], dropping the sender it replaces. *)
Definition insert_connection (self : ScrollWireManager) (peer : PeerId) (id : nat) (w : World) :
    ScrollWireManager * World :=
  ({| connections := <[peer := id]> (connections self) |}, drop_connection (connections self !! peer) w).

(** The loop of [poll] over the events that wait. *)
Fixpoint poll_events (self : ScrollWireManager) (waiting : list ScrollWireEvent) (w : World) :
    Poll ScrollWireEvent * ScrollWireManager * World :=
  match waiting with
  | [] => (Pending, self, set_events w (Build_Channel [] (sender_alive (events w)) (receiver_alive (events w))))
  | EventNewBlock peer block signature :: waiting =>
      (Ready (EventNewBlock peer block signature), self,
       set_events w (Build_Channel waiting (sender_alive (events w)) (receiver_alive (events w))))
  | ConnectionEstablished _ peer to_connection :: waiting =>
      let '(self, w) := insert_connection self peer to_connection w in
      poll_events self waiting w
  end.

Definition poll (self : ScrollWireManager) (w : World) : Poll ScrollWireEvent * ScrollWireManager * World :=
  poll_events self (waiting (events w)) w.
End Wire.
Arguments ScrollWireEvent {_} T.
Arguments World {_} T.

(** ** The importer (wire_import.rs) *)

(** [reth_network::cache::LruCache]: the keys it holds, most recent first, are
    the last [limit] inserted. *)
Class LruCache (C K : Type) := {
  lru_new : Z -> C;
  lru_contains : C -> K -> bool;
  lru_insert : C -> K -> bool * C;
  lru_limit : C -> Z;
  lru_entries : C -> list K;
}.

Class LruCacheLaws (C K : Type) `{LruCache C K} : Prop := {
  lru_new_limit n : 0 < n -> lru_limit (lru_new n) = n;
  lru_new_entries n : lru_entries (lru_new n) = [];
  lru_contains_entries c k : lru_contains c k = true <-> k ∈ lru_entries c;
  lru_insert_limit c k : lru_limit (lru_insert c k).2 = lru_limit c;
  lru_insert_new c k :
    k ∉ lru_entries c ->
    lru_entries (lru_insert c k).2 = take (Z.to_nat (lru_limit c)) (k :: lru_entries c);
}.

(** The handle of the consensus engine, and the calls made on it. *)
Class EngineHandle (Eng T : Type) `{EnginePayloads T} := {
  PayloadStatus : Type;
  BeaconOnNewPayloadError : Type;
  new_payload : Eng -> ExecutionData (T := T) -> result PayloadStatus BeaconOnNewPayloadError * Eng;
  payload_calls : Eng -> list (ExecutionData (T := T));
}.

Class EngineHandleLaws (Eng T : Type) `{EngineHandle Eng T} : Prop := {
  new_payload_calls e d : payload_calls (new_payload e d).2 = payload_calls e ++ [d];
}.

Definition LRU_CACHE_SIZE : Z := 100.

Section Importing.
Context `{AlloyTypes} {T : Type} `{EnginePayloads T} {Eng : Type} `{!EngineHandle Eng T}
  `{Rlp} `{HeaderRlp} (keccak256 : bytes -> B256) {RecoveryError : Type}
  (recover_signer : Signature -> B256 -> result Address RecoveryError)
  {C : Type} `{!LruCache C (B256 * Signature)}.

Inductive ScrollWireImportError : Type :=
| SignatureFailure (e : BlockSignatureError)
| EngineFailure (e : BeaconOnNewPayloadError).

Record DogeosScrollWireEngineImporter := {
  manager : ScrollWireManager;
  engine : Eng;
  authorized_signer : option Address;
  blocks_seen : C;
}.

Definition new_importer (manager : ScrollWireManager) (engine : Eng) (authorized_signer : option Address) :
    DogeosScrollWireEngineImporter :=
  {| manager := manager; engine := engine; authorized_signer := authorized_signer;
     blocks_seen := lru_new LRU_CACHE_SIZE |}.

Definition set_seen (self : DogeosScrollWireEngineImporter) (seen : C) (engine : Eng) :
    DogeosScrollWireEngineImporter :=
  {| manager := manager self; engine := engine; authorized_signer := authorized_signer self;
     blocks_seen := seen |}.
Definition set_manager (self : DogeosScrollWireEngineImporter) (m : ScrollWireManager) :
    DogeosScrollWireEngineImporter :=
  {| manager := m; engine := engine self; authorized_signer := authorized_signer self;
     blocks_seen := blocks_seen self |}.

Definition import_event (self : DogeosScrollWireEngineImporter) (event : ScrollWireEvent T) :
    result (option PayloadStatus) ScrollWireImportError * DogeosScrollWireEngineImporter :=
  match event with
  | ConnectionEstablished _ _ _ => (Ok None, self)
  | EventNewBlock _ block signature =>
      match verify_block_signature keccak256 recover_signer (block_header block) signature
              (authorized_signer self) with
      | Err e => (Err (SignatureFailure e), self)
      | Ok _ =>
          let block_key := (hash_slow (block_header block), signature) in
          if lru_contains (blocks_seen self) block_key then (Ok None, self)
          else
            let seen := (lru_insert (blocks_seen self) block_key).2 in
            let payload := block_to_payload (block, hash_slow (block_header block)) in
            let '(status, engine) := new_payload (engine self) payload in
            (map_err EngineFailure (rmap Some status), set_seen self seen engine)
      end
  end.

(** [run], while the manager has events: a failed import is logged and the loop
    goes on. *)
Fixpoint run (fuel : nat) (self : DogeosScrollWireEngineImporter) (w : World T) :
    option (DogeosScrollWireEngineImporter * World T) :=
  match fuel with
  | O => None
  | S fuel =>
      match poll (manager self) w with
      | (Pending, m, w) => Some (set_manager self m, w)
      | (Ready event, m, w) => run fuel (import_event (set_manager self m) event).2 w
      end
  end.
End Importing.

(** ** Specifications *)

Section Specs.
Context `{AlloyTypes} `{!SignatureBytes} {T : Type} `{BlockRlp T} `{RlpDerive}.

(** What a frame announces, when it is a well-formed announcement. *)
Definition announcement (frame : bytes) : option (SealedBlock T * Signature) :=
  match decode frame with
  | Some (m, _) =>
      match msg_payload m with
      | PNewBlock nb =>
          match from_raw (nb_signature nb) with Ok s => Some (nb_block nb, s) | Err _ => None end
      end
  | None => None
  end.

Definition announced_by (peer : PeerId) (a : SealedBlock T * Signature) : ScrollWireEvent T :=
  EventNewBlock peer a.1 a.2.

(** The messages waiting for a connection. *)
Definition outbound_waiting (w : World T) (id : nat) : list (ScrollMessage T) :=
  match outbounds w !! id with Some c => waiting c | None => [] end.

(** The block announcements among events, and the connections they establish. *)
Definition announced (e : ScrollWireEvent T) : option (SealedBlock T * Signature) :=
  match e with EventNewBlock _ b s => Some (b, s) | ConnectionEstablished _ _ _ => None end.
Definition establish (m : gmap PeerId nat) (e : ScrollWireEvent T) : gmap PeerId nat :=
  match e with ConnectionEstablished _ p id => <[p := id]> m | EventNewBlock _ _ _ => m end.

(** No sender is leaked: an open one is held by the manager, or by an event it
    has still to read. *)
Definition senders_held (m : ScrollWireManager) (ws : list (ScrollWireEvent T)) (w : World T) : Prop :=
  forall id c, outbounds w !! id = Some c -> sender_alive c = true ->
  (exists p, connections m !! p = Some id) \/ exists dir p, ConnectionEstablished dir p id ∈ ws.

(** What happens on a node: a connection is made, one is polled, one ends, a block
    is announced, the manager is polled. *)
Inductive wire_step : ScrollWireManager * World T -> ScrollWireManager * World T -> Prop :=
| StepConnect m w dir peer frames open self w' :
    into_connection dir peer frames open w = (self, w') -> wire_step (m, w) (m, w')
| StepConnection m w self r self' w' :
    poll_next self w = (r, self', w') -> wire_step (m, w) (m, w')
| StepEnd m w id c :
    outbounds w !! id = Some c ->
    wire_step (m, w) (m, set_outbound w id (Build_Channel (waiting c) (sender_alive c) false))
| StepAnnounce m w peer nb r m' w' :
    announce_block m peer nb w = (r, m', w') -> wire_step (m, w) (m', w')
| StepPoll m w r m' w' : poll m w = (r, m', w') -> wire_step (m, w) (m', w').

(** *** Connections *)

Lemma poll_outbound_empty id w :
  outbound_waiting w id = [] ->
  exists r, poll_outbound id w = (r, w) /\ (r = Pending \/ r = Ready None).
Proof.
  unfold outbound_waiting, poll_outbound. destruct (outbounds w !! id) as [c|] eqn:E.
  - intros Hc. unfold poll_recv. rewrite Hc. unfold set_outbound. rewrite insert_id by done.
    destruct w. destruct (sender_alive c); eexists; split; eauto.
  - intros _. eexists. split; eauto.
Qed.

Lemma poll_frames_unfold self frames w :
  outbound_waiting w (outbound self) = [] ->
  poll_frames self frames w =
  match frames with
  | [] => (if conn_open self then Pending else Ready None, set_conn self [], w)
  | f :: frames =>
      match announcement f with
      | None => (Ready None, set_conn self frames, w)
      | Some a =>
          match send (events w) (announced_by (peer_id self) a) with
          | None => (Ready None, set_conn self frames, w)
          | Some c => poll_frames self frames (set_events w c)
          end
      end
  end.
Proof.
  intros Hw. destruct (poll_outbound_empty _ _ Hw) as (r & Er & Hr).
  destruct frames as [|f frames]; cbn [poll_frames]; rewrite Er;
    [by destruct Hr as [-> | ->]|].
  unfold announcement. destruct Hr as [-> | ->]; destruct (decode f) as [[[i [nb]] rest]|]; try done;
    cbn [msg_payload]; by destruct (from_raw (nb_signature nb)).
Qed.

Lemma poll_next_sends self w c m ms :
  outbounds w !! outbound self = Some c -> waiting c = m :: ms ->
  poll_next self w =
  (Ready (Some (encoded m)), self,
   set_outbound w (outbound self) (Build_Channel ms (sender_alive c) (receiver_alive c))).
Proof.
  intros Ec Hm. unfold poll_next.
  assert (Ep : poll_outbound (outbound self) w
    = (Ready (Some m), set_outbound w (outbound self) (Build_Channel ms (sender_alive c) (receiver_alive c))))
    by (unfold poll_outbound, poll_recv; by rewrite Ec, Hm).
  assert (Es : set_conn self (conn self) = self) by by destruct self.
  destruct (conn self) as [|f fs]; cbn [poll_frames]; by rewrite Ep, Es.
Qed.

Lemma outbound_waiting_events w c id : outbound_waiting (set_events w c) id = outbound_waiting w id.
Proof. reflexivity. Qed.

(** Good frames become events, in order. *)
Lemma poll_frames_good self good anns rest w :
  outbound_waiting w (outbound self) = [] -> receiver_alive (events w) = true ->
  map announcement good = map Some anns ->
  poll_frames self (good ++ rest) w =
  poll_frames self rest
    (set_events w (Build_Channel (waiting (events w) ++ map (announced_by (peer_id self)) anns)
                     (sender_alive (events w)) true)).
Proof.
  revert anns w. induction good as [|f good IH]; intros [|a anns] w Hw Ha Hg; try done.
  - rewrite app_nil_r. destruct w as [[ws sa ra] os]. cbn in *. by subst ra.
  - simpl in Hg. injection Hg as Hf Hg. cbn [app].
    rewrite poll_frames_unfold by done. rewrite Hf. unfold send. rewrite Ha.
    rewrite (IH anns) by done. cbn [map set_events events waiting sender_alive outbounds].
    by rewrite <- app_assoc.
Qed.

(** *** The manager *)

Lemma drop_connection_events sender (w : World T) : events (drop_connection sender w) = events w.
Proof. destruct sender as [id|]; [|done]. simpl. by destruct (outbounds w !! id). Qed.

Lemma drop_connection_lookup sender (w : World T) id :
  outbounds (drop_connection sender w) !! id
  = if bool_decide (sender = Some id) then drop_sender <$> outbounds w !! id else outbounds w !! id.
Proof.
  destruct sender as [id'|]; cbn [drop_connection]; [|done].
  destruct (outbounds w !! id') as [c|] eqn:E.
  - unfold set_outbound. cbn [outbounds]. case_bool_decide as Hid.
    + injection Hid as ->. by rewrite lookup_insert_eq, E.
    + rewrite lookup_insert_ne by congruence. done.
  - case_bool_decide as Hid; [|done]. injection Hid as ->. by rewrite E.
Qed.

(** The loop consumes events up to the first announcement. *)
Lemma poll_events_spec m ws w :
  exists es rest m' w', ws = es ++ rest /\ Forall (fun e => announced e = None) es
    /\ connections m' = fold_left establish es (connections m)
    /\ receiver_alive (events w') = receiver_alive (events w) /\ sender_alive (events w') = sender_alive (events w)
    /\ match rest with
       | [] => poll_events m ws w = (Pending, m', w') /\ waiting (events w') = []
       | e :: rest => is_Some (announced e) /\ poll_events m ws w = (Ready e, m', w') /\ waiting (events w') = rest
       end.
Proof.
  revert m w. induction ws as [|e ws IH]; intros m w.
  - exists [], [], m, (set_events w (Build_Channel [] (sender_alive (events w)) (receiver_alive (events w)))).
    by repeat split.
  - destruct e as [dir p id|p b s].
    + cbn [poll_events]. unfold insert_connection. set (m1 := {| connections := _ |}).
      set (w1 := drop_connection _ w).
      destruct (IH m1 w1) as (es & rest & m' & w' & -> & He & Hc & Hr & Hs & Hp).
      unfold w1 in Hr, Hs. rewrite drop_connection_events in Hr, Hs.
      exists (ConnectionEstablished dir p id :: es), rest, m', w'. split; [done|].
      split; [by constructor|]. done.
    + exists [], (EventNewBlock p b s :: ws), m,
        (set_events w (Build_Channel ws (sender_alive (events w)) (receiver_alive (events w)))).
      repeat split; try done; by eexists.
Qed.

Lemma insert_connection_held m dir p id w ws m' w' :
  senders_held m (ConnectionEstablished dir p id :: ws) w ->
  insert_connection m p id w = (m', w') -> senders_held m' ws w'.
Proof.
  intros Hh [= <- <-] i c. rewrite drop_connection_lookup. case_bool_decide as Ho.
  { destruct (outbounds w !! i) as [c0|]; [|done]. by intros [= <-]. }
  cbn [connections]. intros Ei Ea. destruct (Hh i c Ei Ea) as [[q Hq]|(d & q & Hq)].
  - left. exists q. rewrite lookup_insert_ne; [done|]. intros ->. by rewrite Hq in Ho.
  - apply elem_of_cons in Hq as [[= _ -> ->]|Hq].
    + left. exists p. by rewrite lookup_insert_eq.
    + right. by exists d, q.
Qed.

Lemma poll_events_held m ws w r m' w' :
  senders_held m ws w -> poll_events m ws w = (r, m', w') -> senders_held m' (waiting (events w')) w'.
Proof.
  revert m w. induction ws as [|[dir p id|p b s] ws IH]; intros m w Hh E; cbn [poll_events] in E.
  - injection E as _ <- <-. exact Hh.
  - destruct (insert_connection m p id w) as [m1 w1] eqn:Ei. eapply IH, E. by eapply insert_connection_held.
  - injection E as _ <- <-. intros i c Hi Hc.
    destruct (Hh i c Hi Hc) as [|(d & q & Hq)]; [by left|right].
    apply elem_of_cons in Hq as [|]; [done|]. by exists d, q.
Qed.

(** A channel whose sender did not come back to life keeps the invariant. *)
Lemma senders_held_update m ws w id c c' :
  senders_held m ws w -> outbounds w !! id = Some c -> (sender_alive c' = true -> sender_alive c = true) ->
  senders_held m ws (set_outbound w id c').
Proof.
  intros Hh Ec Hs i x. cbn [set_outbound outbounds]. destruct (decide (i = id)) as [->|].
  - rewrite lookup_insert_eq. intros [= <-] Hx. eauto.
  - rewrite lookup_insert_ne by done. apply Hh.
Qed.

Lemma senders_held_more m ws ws' w :
  senders_held m ws w -> (forall e, e ∈ ws -> e ∈ ws') -> senders_held m ws' w.
Proof. intros Hh Hs i c Ei Ec. destruct (Hh i c Ei Ec) as [|(d & q & Hq)]; [by left|right; eauto]. Qed.

Lemma removed_held m peer id w :
  connections m !! peer = Some id -> senders_held m (waiting (events w)) w ->
  senders_held {| connections := delete peer (connections m) |} (waiting (events (drop_connection (Some id) w)))
    (drop_connection (Some id) w).
Proof.
  intros Em Hh i x. rewrite drop_connection_events, drop_connection_lookup. case_bool_decide as Ho.
  { destruct (outbounds w !! i); [|done]. by intros [= <-]. }
  intros Ei Ex. destruct (Hh i x Ei Ex) as [[q Hq]|]; [left|by right]. exists q. cbn [connections].
  rewrite lookup_delete_ne; [done|]. intros ->. congruence.
Qed.

Lemma poll_frames_held m self frames w r self' w' :
  senders_held m (waiting (events w)) w -> poll_frames self frames w = (r, self', w') ->
  senders_held m (waiting (events w')) w'.
Proof.
  assert (Hout : forall w p w1, senders_held m (waiting (events w)) w ->
    poll_outbound (outbound self) w = (p, w1) -> senders_held m (waiting (events w1)) w1).
  { intros w0 p w1 Hh. unfold poll_outbound. destruct (outbounds w0 !! outbound self) as [c|] eqn:Ec;
      [|by intros [= _ <-]].
    unfold poll_recv. destruct (waiting c) as [|x xs] eqn:Ew; intros [= _ <-];
      by apply (senders_held_update m _ w0 (outbound self) c). }
  revert w. induction frames as [|f frames IH]; intros w Hh E; cbn [poll_frames] in E;
    destruct (poll_outbound (outbound self) w) as [p w1] eqn:Ep; apply (Hout _ _ _ Hh) in Ep.
  - destruct p as [[x|]|]; injection E as _ _ <-; exact Ep.
  - assert (Hk : senders_held m (waiting (events w')) w' \/ exists c, send (events w1) c <> None /\
        exists c', send (events w1) c = Some c' /\ poll_frames self frames (set_events w1 c') = (r, self', w')).
    { destruct p as [[x|]|]; [left; by injection E as _ _ <-| |];
        (destruct (decode f) as [[[i [nb]] rest]|]; [|left; by injection E as _ _ <-]);
        cbn [msg_payload] in E; (destruct (from_raw (nb_signature nb)) as [s|]; [|left; by injection E as _ _ <-]);
        (destruct (send (events w1) _) as [c'|] eqn:Es; [|left; by injection E as _ _ <-]);
        right; eexists; (split; [by rewrite Es|]); by eexists. }
    destruct Hk as [|(e & _ & c' & Es & E')]; [done|]. apply (IH (set_events w1 c')); [|done].
    unfold send in Es. destruct (receiver_alive (events w1)); [|done]. injection Es as <-.
    cbn [set_events events waiting]. apply (senders_held_more _ (waiting (events w1))); [exact Ep|].
    intros x Hx. apply elem_of_app. by left.
Qed.

Lemma wire_step_held m w m' w' :
  wire_step (m, w) (m', w') -> senders_held m (waiting (events w)) w -> senders_held m' (waiting (events w')) w'.
Proof.
  intros Hst. inversion Hst as [? ? dir peer frames open self ? E|? ? self r self' ? E|? ? id c E|? ? peer nb r ? ? E|? ? r ? ? E];
    subst; intros Hh.
  - unfold into_connection in E. set (id := fresh _) in E.
    assert (Hid : outbounds w !! id = None) by (apply not_elem_of_dom, is_fresh).
    unfold send in E. cbn [set_outbound events] in E.
    destruct (receiver_alive (events w)); injection E as _ <-; intros i c; cbn [set_events set_outbound events outbounds waiting];
      (destruct (decide (i = id)) as [->|Hne]; [rewrite lookup_insert_eq; intros [= <-] Ha|rewrite !lookup_insert_ne by done; intros Ei Ec]).
    + right. exists dir, peer. apply elem_of_app. right. by left.
    + destruct (Hh i c Ei Ec) as [|(d & q & Hq)]; [by left|right]. exists d, q. apply elem_of_app. by left.
    + done.
    + by apply (Hh i c).
  - by eapply poll_frames_held.
  - by eapply senders_held_update.
  - unfold announce_block in E. destruct (connections m !! peer) as [id|] eqn:Em; [|by injection E as _ <- <-].
    destruct (outbounds w !! id ≫= _) as [c'|] eqn:Es.
    + injection E as _ <- <-. destruct (outbounds w !! id) as [c|] eqn:Ec; [|done]. cbn in Es.
      apply (senders_held_update _ _ _ id c); [done..|]. unfold send in Es.
      destruct (receiver_alive c); [|done]. by injection Es as <-.
    + assert (Ew : m' = {| connections := delete peer (connections m) |} /\ w' = drop_connection (Some id) w)
        by (by split; inversion E). destruct Ew as [-> ->]. by apply removed_held.
  - by eapply poll_events_held.
Qed.

Lemma wire_run_held n n' :
  rtc wire_step n n' -> senders_held n.1 (waiting (events n.2)) n.2 -> senders_held n'.1 (waiting (events n'.2)) n'.2.
Proof.
  induction 1 as [n|[m1 w1] [m2 w2] n3 Hs _ IH]; [done|]. intros Hh. apply IH. by apply (wire_step_held m1 w1).
Qed.
End Specs.

(** ** Imports *)

Section ImportSpecs.
Context `{AlloyTypes} {T : Type} `{EnginePayloads T} {Eng : Type} `{!EngineHandle Eng T} `{!EngineHandleLaws Eng T}
  `{Rlp} `{HeaderRlp} (keccak256 : bytes -> B256) {RecoveryError : Type}
  (recover_signer : Signature -> B256 -> result Address RecoveryError)
  {C : Type} `{!LruCache C (B256 * Signature)} `{!LruCacheLaws C (B256 * Signature)}.

Abbreviation Importer := (DogeosScrollWireEngineImporter (Eng := Eng) (C := C)).
Abbreviation Announced := (SealedBlock T * Signature)%type.
Abbreviation import := (import_event keccak256 recover_signer).

(** The authorized signer, when there is one, signed the block's header. *)
Definition authorized (signer : option Address) (a : Announced) : Prop :=
  forall expected, signer = Some expected ->
  recover_signer a.2 (signature_hash keccak256 (block_header a.1)) = Ok expected.

Definition key_of (a : Announced) : B256 * Signature := (hash_slow (block_header a.1), a.2).
Definition payload_of (a : Announced) : ExecutionData (T := T) :=
  block_to_payload (a.1, hash_slow (block_header a.1)).

(** The importer over a list of events. *)
Definition import_all (self : Importer) (events : list (ScrollWireEvent T)) : Importer :=
  fold_left (fun self e => (import self e).2) events self.

Lemma verify_authorized signer (a : Announced) :
  (exists e, verify_block_signature keccak256 recover_signer (block_header a.1) a.2 signer = Err e
     /\ ~ authorized signer a)
  \/ verify_block_signature keccak256 recover_signer (block_header a.1) a.2 signer = Ok tt /\ authorized signer a.
Proof.
  unfold verify_block_signature, authorized. destruct signer as [expected|]; [|by right].
  destruct (recover_signer _ _) as [actual|e] eqn:Er; cbn [map_err rbind].
  - destruct (Z.eqb_spec actual expected) as [->|Hne]; cbn [negb].
    + right. split; [done|]. by intros ? [= <-].
    + left. eexists. split; [reflexivity|]. intros Ha. specialize (Ha expected eq_refl). congruence.
  - left. eexists. split; [reflexivity|]. intros Ha. specialize (Ha expected eq_refl). congruence.
Qed.

(** One event on every branch. *)
Lemma import_cases (self : Importer) e :
  match announced e with
  | None => import self e = (Ok None, self)
  | Some a =>
      (exists err, import self e = (Err (SignatureFailure err), self)) /\ ~ authorized (authorized_signer self) a
      \/ authorized (authorized_signer self) a /\
         (import self e = (Ok None, self) /\ key_of a ∈ lru_entries (blocks_seen self)
          \/ (key_of a ∉ lru_entries (blocks_seen self)) /\
             import self e =
               (map_err EngineFailure (rmap Some (new_payload (engine self) (payload_of a)).1),
                set_seen self (lru_insert (blocks_seen self) (key_of a)).2
                  (new_payload (engine self) (payload_of a)).2))
  end.
Proof.
  destruct e as [dir p id|p b s]; [done|]. cbn [announced import_event].
  destruct (verify_authorized (authorized_signer self) (b, s)) as [(e & Ev & Ha)|[Ev Ha]];
    cbn [fst snd] in Ev; rewrite Ev.
  - left. split; [by eexists|done].
  - right. split; [done|]. change (hash_slow (block_header b), s) with (key_of (b, s)).
    destruct (lru_contains (blocks_seen self) (key_of (b, s))) eqn:Ec.
    + left. split; [done|]. by apply lru_contains_entries.
    + right. split; [intros Hin; apply lru_contains_entries in Hin; congruence|].
      change (block_to_payload _) with (payload_of (b, s)). by destruct (new_payload _ _).
Qed.

(** What an importer that made the calls [done] since it was new remembers. *)
Record imported (signer : option Address) (calls : list (ExecutionData (T := T))) (done : list Announced)
    (self : Importer) : Prop := {
  im_signer : authorized_signer self = signer;
  im_calls : payload_calls (engine self) = calls ++ map payload_of done;
  im_limit : lru_limit (blocks_seen self) = 100;
  im_seen : lru_entries (blocks_seen self) = take 100 (reverse (map key_of done));
  im_authorized : Forall (authorized signer) done;
  im_once : forall i j a b, (i < j)%nat -> (j <= i + 100)%nat -> done !! i = Some a -> done !! j = Some b ->
              key_of a <> key_of b;
}.

Lemma imported_new m e signer : imported signer (payload_calls e) [] (new_importer m e signer).
Proof.
  split; try done.
  - cbn. by rewrite app_nil_r.
  - cbn. by rewrite lru_new_limit.
  - cbn. by rewrite lru_new_entries.
Qed.

(** A key among the last [n] of a list, by position. *)
Lemma elem_of_take_reverse {A} (x : A) l i n :
  l !! i = Some x -> (length l <= i + n)%nat -> x ∈ take n (reverse l).
Proof.
  intros Hi Hn. pose proof (lookup_lt_Some _ _ _ Hi). apply list_elem_of_lookup.
  exists (length l - S i)%nat. rewrite lookup_take_lt by lia.
  rewrite reverse_lookup by lia. by replace (length l - S (length l - S i))%nat with i by lia.
Qed.

Lemma imported_step signer calls done self e :
  imported signer calls done self ->
  exists new, imported signer calls (done ++ new) (import self e).2
    /\ (forall a, announced e = Some a -> authorized signer a -> exists b, b ∈ done ++ new /\ key_of b = key_of a)
    /\ (new `sublist_of` option_list (announced e)).
Proof.
  intros [Hs Hc Hl He Ha Ho]. pose proof (import_cases self e) as Hi.
  destruct (announced e) as [a|] eqn:Ea; cbn [option_list].
  2:{ exists []. rewrite app_nil_r, Hi. by split. }
  destruct Hi as [[[err ->] Hna]|[Hau [[-> Hin]|[Hnin ->]]]].
  - exists []. rewrite app_nil_r. repeat split; try done; [|apply sublist_nil_l].
    intros b [= <-] Hb. by rewrite Hs in Hna.
  - exists []. rewrite app_nil_r. repeat split; try done; [|apply sublist_nil_l].
    intros b [= <-] _. rewrite He in Hin. apply elem_of_take in Hin as (k & Hk & _).
    rewrite <- list_elem_of_lookup in Hk || apply list_elem_of_lookup_2 in Hk. rewrite elem_of_reverse in Hk.
    apply list_elem_of_fmap in Hk as (b & Eb & Hb). by exists b.
  - exists [a]. split; [|split].
    + assert (Hlen : forall i x, done !! i = Some x -> (length done <= i + 100)%nat -> key_of x <> key_of a).
      { intros i x Hx Hle Ek. apply Hnin. rewrite He, <- Ek. apply (elem_of_take_reverse _ _ i).
        - by rewrite list_lookup_fmap, Hx.
        - by rewrite length_map. }
      split; cbn [snd set_seen authorized_signer engine blocks_seen].
      * done.
      * rewrite new_payload_calls, Hc, map_app, app_assoc. reflexivity.
      * by rewrite lru_insert_limit.
      * rewrite lru_insert_new by done. rewrite Hl, He, map_app, reverse_app. cbn [map reverse app].
        change (Z.to_nat 100) with 100%nat. simpl take. f_equal. by rewrite take_take.
      * apply Forall_app. split; [done|]. constructor; [by rewrite Hs in Hau|constructor].
      * intros i j x y Hij Hle Hx Hy. apply lookup_app_Some in Hy as [Hy|[Hge Hy]].
        { eapply (Ho i j); try done. apply lookup_lt_Some in Hy. by rewrite lookup_app_l in Hx by lia. }
        destruct (j - length done)%nat eqn:Ej; [|done]. injection Hy as <-.
        rewrite lookup_app_l in Hx by lia. apply (Hlen i); [done|lia].
    + intros b [= <-] _. exists a. split; [apply elem_of_app; right; by left|done].
    + done.
Qed.

Lemma imported_all signer calls self es done :
  imported signer calls done self ->
  exists new, imported signer calls (done ++ new) (import_all self es)
    /\ (forall a, a ∈ omap announced es -> authorized signer a -> exists b, b ∈ done ++ new /\ key_of b = key_of a)
    /\ (new `sublist_of` omap announced es).
Proof.
  revert self done. induction es as [|e es IH]; intros self done Hi.
  - exists []. rewrite app_nil_r. split; [exact Hi|]. split; [|done]. intros a Ha. by apply not_elem_of_nil in Ha.
  - destruct (imported_step _ _ _ _ e Hi) as (n1 & Hi1 & Hd1 & Hs1).
    destruct (IH (import self e).2 _ Hi1) as (n2 & Hi2 & Hd2 & Hs2).
    exists (n1 ++ n2). rewrite app_assoc. split; [exact Hi2|].
    assert (Eo : omap announced (e :: es) = option_list (announced e) ++ omap announced es)
      by (cbn; by destruct (announced e)).
    rewrite Eo. split; [|by apply sublist_app].
    intros a Ha Hau. apply elem_of_app in Ha as [Ha|Ha]; [|by apply Hd2].
    destruct (announced e) as [x|]; [|by apply not_elem_of_nil in Ha].
    apply list_elem_of_singleton in Ha as ->. destruct (Hd1 x eq_refl Hau) as (b & Hb & Ek).
    exists b. split; [apply elem_of_app; by left|done].
Qed.
End ImportSpecs.

Section RunSpecs.
Context `{AlloyTypes} {T : Type} `{EnginePayloads T} {Eng : Type} `{!EngineHandle Eng T}
  `{Rlp} `{HeaderRlp} (keccak256 : bytes -> B256) {RecoveryError : Type}
  (recover_signer : Signature -> B256 -> result Address RecoveryError)
  {C : Type} `{!LruCache C (B256 * Signature)}.

Abbreviation Importer := (DogeosScrollWireEngineImporter (Eng := Eng) (C := C)).
Abbreviation import := (import_event keccak256 recover_signer).

(** Importing does not look at the connections. *)
Lemma import_set_manager (self : Importer) m (e : ScrollWireEvent T) :
  import (set_manager self m) e = ((import self e).1, set_manager (import self e).2 m).
Proof.
  destruct e as [|p b s]; [done|]. cbn [import_event set_manager authorized_signer blocks_seen engine].
  destruct (verify_block_signature _ _ _ _ _); [|done].
  destruct (lru_contains _ _); [done|]. by destruct (new_payload _ _).
Qed.

Lemma import_all_set_manager (self : Importer) m (es : list (ScrollWireEvent T)) :
  import_all keccak256 recover_signer (set_manager self m) es
  = set_manager (import_all keccak256 recover_signer self es) m.
Proof.
  revert self. induction es as [|e es IH]; intros self; [done|]. unfold import_all in *. cbn [fold_left].
  rewrite import_set_manager. apply IH.
Qed.

Lemma import_all_established (self : Importer) (es : list (ScrollWireEvent T)) :
  Forall (fun e => announced e = None) es -> import_all keccak256 recover_signer self es = self.
Proof. induction 1 as [|[|] es He _ IH]; [done| |done]. exact IH. Qed.

Lemma run_spec fuel (self : Importer) (w : World T) :
  (length (waiting (events w)) < fuel)%nat ->
  exists m w',
    run keccak256 recover_signer fuel self w
    = Some (set_manager (import_all keccak256 recover_signer self (waiting (events w))) m, w')
    /\ waiting (events w') = []
    /\ connections m = fold_left establish (waiting (events w)) (connections (manager self)).
Proof.
  revert self w. induction fuel as [|fuel IH]; intros self w Hlen; [lia|]. cbn [run]. unfold poll.
  destruct (poll_events_spec (manager self) (waiting (events w)) w)
    as (es & rest & m & w1 & Ews & Hes & Hm & _ & _ & Hp).
  destruct rest as [|e rest].
  - destruct Hp as [-> Hw]. exists m, w1. rewrite Ews, app_nil_r in *.
    rewrite import_all_established by done. repeat split; [done|exact Hm].
  - destruct Hp as (Ha & -> & Hw).
    destruct (IH (import (set_manager self m) e).2 w1) as (m' & w' & -> & Hw' & Hm').
    { rewrite Hw. rewrite Ews in Hlen. rewrite length_app in Hlen. simpl in Hlen. lia. }
    rewrite import_set_manager in Hm' |- *. cbn [snd] in *. rewrite import_all_set_manager, Hw. rewrite Hw in Hm'.
    exists m', w'. split; [|split; [done|]].
    + rewrite Ews. unfold import_all at 2. rewrite fold_left_app.
      fold (import_all keccak256 recover_signer self es). rewrite (import_all_established self es Hes). reflexivity.
    + rewrite Hm', Ews, fold_left_app. cbn [manager set_manager]. rewrite Hm. cbn [fold_left].
      destruct e as [|]; [by destruct Ha|done].
Qed.
End RunSpecs.

(** ** Properties *)

(** A connection passes messages on in order and stops at the first bad frame. A
    message waiting for the peer goes out first, and no frame is read. Otherwise
    the well-formed announcements at the head of the received frames become
    events of the peer, in order; then the connection waits, or ends when the
    peer closed; a frame that does not decode or whose signature is not one
    ends it, and nothing after it is read. Without a manager it ends too. *)
Theorem connection_stream_spec `{AlloyTypes} `{!SignatureBytes} {T} `{BlockRlp T} `{RlpDerive}
    (self : ScrollWireConnection) (w : World T) (good rest : list bytes) (anns : list (SealedBlock T * Signature)) :
  conn self = good ++ rest -> map announcement good = map Some anns ->
  (forall m ms, outbound_waiting w (outbound self) = m :: ms ->
     exists w', poll_next self w = (Ready (Some (encoded m)), self, w')
       /\ outbound_waiting w' (outbound self) = ms /\ events w' = events w)
  /\ (outbound_waiting w (outbound self) = [] -> receiver_alive (events w) = true ->
      let w' := set_events w (Build_Channel (waiting (events w) ++ map (announced_by (peer_id self)) anns)
                  (sender_alive (events w)) true) in
      (rest = [] -> poll_next self w = (if conn_open self then Pending else Ready None, set_conn self [], w'))
      /\ (forall bad rest', rest = bad :: rest' -> announcement bad = None ->
          poll_next self w = (Ready None, set_conn self rest', w')))
  /\ (outbound_waiting w (outbound self) = [] -> receiver_alive (events w) = false -> good <> [] ->
      exists self', poll_next self w = (Ready None, self', w)).
Proof.
  intros Hconn Hg. split; [|split].
  - intros m ms Hm. unfold outbound_waiting in Hm. destruct (outbounds w !! outbound self) as [c|] eqn:Ec; [|done].
    eexists. split; [by apply poll_next_sends|]. unfold outbound_waiting. cbn [set_outbound outbounds events].
    by rewrite lookup_insert_eq.
  - intros Hw Ha. cbn zeta. unfold poll_next. rewrite Hconn, (poll_frames_good _ _ anns) by done. split.
    + intros ->. by rewrite poll_frames_unfold.
    + intros bad rest' -> Hbad. rewrite poll_frames_unfold by done. by rewrite Hbad.
  - intros Hw Ha Hne. unfold poll_next. rewrite Hconn. destruct good as [|f good]; [done|]. destruct anns as [|a anns]; [done|].
    simpl in Hg. injection Hg as Hf _. eexists. rewrite <- app_comm_cons, poll_frames_unfold by done.
    rewrite Hf. unfold send. by rewrite Ha.
Qed.

(** The manager leaks no sender. Whatever happens on a node, connections made,
    polled and ended, blocks announced, reconnections and failed sends, a
    channel whose sender is still open is one the manager can send to, or one in
    an event it has still to read; so a replaced or failed connection is closed. *)
Theorem no_sender_leaked `{AlloyTypes} `{!SignatureBytes} {T} `{BlockRlp T} `{RlpDerive}
    (m : ScrollWireManager) (w : World T) :
  rtc wire_step (new_manager, {| events := unbounded_channel; outbounds := ∅ |}) (m, w) ->
  forall id c, outbounds w !! id = Some c -> sender_alive c = true ->
  (exists p, connections m !! p = Some id)
  \/ exists dir p, ConnectionEstablished dir p id ∈ waiting (events w).
Proof.
  intros Hrun. apply wire_run_held in Hrun; [exact Hrun|]. by intros id c.
Qed.

(** C12: Only authorized blocks reach the engine, each once while it is remembered. An
    importer that was new, after any events, has called the engine with
    announced blocks in the order of their announcement; each was signed by the
    authorized signer, when one is configured; every authorized announcement was
    passed on, or has the header hash and signature of one that was; and two
    calls for the same hash and signature are more than a hundred calls apart. *)
Theorem imports_authorized_once `{AlloyTypes} {T} `{EnginePayloads T} {Eng} `{!EngineHandle Eng T}
    `{!EngineHandleLaws Eng T} `{Rlp} `{HeaderRlp} (keccak256 : bytes -> B256) {RecoveryError}
    (recover_signer : Signature -> B256 -> result Address RecoveryError)
    {C} `{!LruCache C (B256 * Signature)} `{!LruCacheLaws C (B256 * Signature)}
    (m : ScrollWireManager) (e : Eng) (signer : option Address) (es : list (ScrollWireEvent T)) :
  let self := import_all keccak256 recover_signer (new_importer (C := C) m e signer) es in
  exists done : list (SealedBlock T * Signature),
  payload_calls (engine self) = payload_calls e ++ map payload_of done
  /\ (done `sublist_of` omap announced es)
  /\ Forall (authorized keccak256 recover_signer signer) done
  /\ (forall a, a ∈ omap announced es -> authorized keccak256 recover_signer signer a ->
      exists b, b ∈ done /\ key_of b = key_of a)
  /\ (forall i j a b, (i < j)%nat -> (j <= i + 100)%nat -> done !! i = Some a -> done !! j = Some b ->
      key_of a <> key_of b).
Proof.
  cbn zeta. destruct (imported_all keccak256 recover_signer _ _ _ es _
    (imported_new keccak256 recover_signer m e signer)) as (new & [] & Hall & Hsub).
  by exists new.
Qed.

(** The import loop drains its events. With fuel above the number of events that
    wait, the loop comes to rest with none left, having imported the
    announcements in order and recorded every connection, whatever imports
    failed; more fuel changes nothing. *)
Theorem import_loop_drains `{AlloyTypes} {T} `{EnginePayloads T} {Eng} `{!EngineHandle Eng T}
    `{Rlp} `{HeaderRlp} (keccak256 : bytes -> B256) {RecoveryError}
    (recover_signer : Signature -> B256 -> result Address RecoveryError)
    {C} `{!LruCache C (B256 * Signature)} (self : DogeosScrollWireEngineImporter) (w : World T) (fuel : nat) :
  (length (waiting (events w)) < fuel)%nat ->
  exists self' w',
    run keccak256 recover_signer fuel self w = Some (self', w')
    /\ waiting (events w') = []
    /\ engine self' = engine (import_all keccak256 recover_signer self (waiting (events w)))
    /\ blocks_seen self' = blocks_seen (import_all keccak256 recover_signer self (waiting (events w)))
    /\ connections (manager self') = fold_left establish (waiting (events w)) (connections (manager self)).
Proof.
  intros Hf. destruct (run_spec keccak256 recover_signer fuel self w Hf) as (m & w' & -> & Hw & Hm).
  by eexists _, w'.
Qed.

(** C29: An announced block reaches the engine of the peer. When one node announces a
    block it signed to a connected peer, its connection puts out one frame; the
    peer's connection turns the frame into an event, and the peer's importer
    calls the engine with that very block, provided the signer is authorized
    there and the block was not imported just before. *)
Theorem announced_block_imported `{SignatureBytesLaws} {T} (valid_block : SealedBlock T -> Prop) `{!BlockRlp T}
    `{RlpDeriveLaws} `{!RlpLaws} `{HeaderRlp} `{EnginePayloads T} {Eng} `{!EngineHandle Eng T}
    `{!EngineHandleLaws Eng T} (keccak256 : bytes -> B256) {RecoveryError}
    (recover_signer : Signature -> B256 -> result Address RecoveryError)
    {C} `{!LruCache C (B256 * Signature)} `{!LruCacheLaws C (B256 * Signature)}
    (s : Signature) (b : SealedBlock T)
    (* the announcing node *) (m : ScrollWireManager) (w : World T) (here : ScrollWireConnection) (peer : PeerId)
    (* the peer *) (there : ScrollWireConnection) (wp : World T) (self : DogeosScrollWireEngineImporter (Eng := Eng)) :
  codec_ok valid_block rlp_block ->
  valid_block b -> blen (enc rlp_bytes (as_rsy s) ++ enc rlp_block b) <= u64_max ->
  connections m !! peer = Some (outbound here) ->
  outbounds w !! outbound here = Some unbounded_channel ->
  outbound_waiting wp (outbound there) = [] -> events wp = unbounded_channel ->
  authorized keccak256 recover_signer (authorized_signer self) (b, s) ->
  key_of (b, s) ∉ lru_entries (C := C) (blocks_seen self) ->
  exists w1 w2 frame,
    announce_block m peer (new s b) w = (Ok tt, m, w1)
    /\ poll_next here w1 = (Ready (Some frame), here, w2)
    /\ (conn there = [frame] ->
        exists r wp1 self' wp2,
          poll_next there wp = (r, set_conn there [], wp1)
          /\ run keccak256 recover_signer 2 self wp1 = Some (self', wp2)
          /\ payload_calls (engine self')
             = payload_calls (engine self) ++ [block_to_payload (b, hash_slow (block_header b))]).
Proof.
  intros Hcodec Hb Hlen Hconn Hout Hquiet Hev Hau Hnew.
  assert (Hann : announcement (T := T) (encoded (new_block (new s b))) = Some (b, s)).
  { pose proof (decode_encoded valid_block Hcodec (new s b) []) as D. rewrite app_nil_r in D.
    unfold announcement. rewrite D by (split; [apply as_rsy_bytes|done]). cbn [msg_payload new_block].
    cbn [new nb_signature nb_block]. by rewrite from_raw_as_rsy. }
  exists (set_outbound w (outbound here) (Build_Channel [new_block (new s b)] true true)). eexists.
  exists (encoded (new_block (new s b))). split; [|split].
  - unfold announce_block. rewrite Hconn, Hout. reflexivity.
  - apply (poll_next_sends here _ (Build_Channel [new_block (new s b)] true true)); [|done].
    cbn [set_outbound outbounds]. by rewrite lookup_insert_eq.
  - intros Hframe. unfold poll_next. rewrite Hframe.
    pose proof (poll_frames_good there [encoded (new_block (new s b))] [(b, s)] [] wp Hquiet
      ltac:(by rewrite Hev) ltac:(simpl; by rewrite Hann)) as Eg.
    rewrite app_nil_r in Eg. rewrite Eg, poll_frames_unfold by done. set (wp1 := set_events wp _).
    assert (Hw : waiting (events wp1) = [EventNewBlock (peer_id there) b s])
      by (unfold wp1; by rewrite Hev).
    eexists _, wp1. destruct (run_spec keccak256 recover_signer 2 self wp1 ltac:(rewrite Hw; simpl; lia))
      as (m' & wp2 & Er & _ & _).
    eexists _, wp2. split; [reflexivity|]. split; [exact Er|]. cbn [set_manager engine]. rewrite Hw.
    unfold import_all. cbn [fold_left].
    pose proof (import_cases keccak256 recover_signer self (EventNewBlock (peer_id there) b s)) as Hi.
    cbn [announced] in Hi. destruct Hi as [[_ Hn]|[_ [[_ Hin]|[_ ->]]]]; [done..|].
    cbn [snd set_seen engine]. by rewrite new_payload_calls.
Qed.

(** ** Witnesses *)

(** A cache that keeps its keys in a list. *)
#[export] Instance ref_lru {K} `{EqDecision K} : LruCache (Z * list K) K := {
  lru_new n := (n, []);
  lru_contains c k := bool_decide (k ∈ c.2);
  lru_insert c k := (bool_decide (k ∉ c.2), (c.1, take (Z.to_nat c.1) (k :: filter (fun x => x <> k) c.2)));
  lru_limit c := c.1;
  lru_entries c := c.2;
}.

#[export] Instance ref_lru_laws {K} `{EqDecision K} : LruCacheLaws (Z * list K) K.
Proof.
  split; try done.
  - intros c k. apply bool_decide_eq_true.
  - intros [n l] k Hk. cbn in *. do 2 f_equal. clear n. induction l as [|x l IH]; [done|].
    apply not_elem_of_cons in Hk as [Hx Hk]. rewrite filter_cons_True by congruence. f_equal. by apply IH.
Qed.

(** An engine that answers nothing and remembers its calls. *)
#[export] Instance ref_handle {T} `{EnginePayloads T} : EngineHandle (list (ExecutionData (T := T))) T := {
  PayloadStatus := unit;
  BeaconOnNewPayloadError := unit;
  new_payload e d := (Ok tt, e ++ [d]);
  payload_calls e := e;
}.

#[export] Instance ref_handle_laws {T} `{EnginePayloads T} : EngineHandleLaws (list (ExecutionData (T := T))) T.
Proof. by split. Qed.

(** The signer recovered from a signature is eleven for the odd one. *)
Definition sample_recover (s : @Signature ref_types) (_ : B256) : result Address unit :=
  if s : bool then Ok 11 else Err tt.

Definition sample_block (n : Z) : SealedBlock unit := numbered n.
Definition sample_frame (s : @Signature ref_types) (n : Z) : bytes := encoded (new_block (new s (sample_block n))).

Definition sample_world : World (H := ref_types) unit :=
  {| events := unbounded_channel; outbounds := {[ 3%nat := unbounded_channel ]} |}.
Definition sample_connection (frames : list bytes) : ScrollWireConnection :=
  new_connection 7 frames true Incoming 3.
Definition sample_manager : ScrollWireManager := {| connections := {[ 7 := 3%nat ]} |}.

Lemma connection_stream_spec_witness :
  poll_next (sample_connection [sample_frame odd_signature 5; [1]; sample_frame odd_signature 6]) sample_world
  = (Ready None, sample_connection [sample_frame odd_signature 6],
     set_events sample_world (Build_Channel [EventNewBlock 7 (sample_block 5) odd_signature] true true)).
Proof.
  destruct (connection_stream_spec
    (sample_connection [sample_frame odd_signature 5; [1]; sample_frame odd_signature 6]) sample_world
    [sample_frame odd_signature 5] [[1]; sample_frame odd_signature 6] [(sample_block 5, odd_signature)])
    as (_ & Hread & _); [reflexivity|reflexivity|].
  destruct (Hread eq_refl eq_refl) as [_ Hbad]. by apply (Hbad [1] [sample_frame odd_signature 6]).
Defined.

(** A peer connects, and the manager learns of it. *)
Definition connected : World (H := ref_types) unit :=
  (into_connection Incoming 7 [] true {| events := unbounded_channel; outbounds := ∅ |}).2.

Lemma no_sender_leaked_witness :
  exists m w, poll new_manager connected = (Pending, m, w)
    /\ outbounds w !! 0%nat = Some unbounded_channel /\ connections m !! 7 = Some 0%nat.
Proof.
  destruct (poll new_manager connected) as [[r m] w] eqn:E. exists m, w.
  assert (Hw : outbounds w !! 0%nat = Some unbounded_channel) by (vm_compute in E; injection E as _ _ <-; reflexivity).
  assert (Hr : r = Pending) by (vm_compute in E; by injection E as <- _ _).
  split; [by rewrite Hr|]. split; [exact Hw|].
  destruct (no_sender_leaked m w) with (id := 0%nat) (c := @unbounded_channel (ScrollMessage unit))
    as [[p Hp]|(d & p & Hp)]; [|exact Hw|reflexivity| |].
  - eapply rtc_l; [eapply (StepConnect _ _ Incoming 7 [] true); apply surjective_pairing|].
    eapply rtc_l; [apply (StepPoll _ _ r m w); exact E|apply rtc_refl].
  - vm_compute in E. injection E as _ <- <-. reflexivity.
  - exfalso. vm_compute in E. injection E as _ <- <-. vm_compute in Hp. by apply not_elem_of_nil in Hp.
Defined.

Definition sample_events : list (ScrollWireEvent (H := ref_types) unit) :=
  [ConnectionEstablished Incoming 7 3; EventNewBlock 7 (sample_block 5) odd_signature;
   EventNewBlock 8 (sample_block 5) odd_signature; EventNewBlock 8 (sample_block 6) (negb odd_signature)].

Definition sample_payload (n : Z) : ExecutionData (T := unit) :=
  block_to_payload (sample_block n, hash_slow (T := unit) (block_header (sample_block n))).

Definition sample_importer : DogeosScrollWireEngineImporter (Eng := list (ExecutionData (T := unit))) :=
  new_importer (C := Z * list (B256 * bool)) new_manager [] (Some 11).

Lemma imports_authorized_once_witness :
  payload_calls (engine (import_all (fun _ => 0) sample_recover sample_importer sample_events)) = [sample_payload 5]
  /\ exists a : SealedBlock unit * @Signature ref_types, key_of a = key_of (sample_block 5, odd_signature).
Proof.
  split; [reflexivity|].
  destruct (imports_authorized_once (fun _ => 0) sample_recover (C := Z * list (B256 * bool)) new_manager
    ([] : list (ExecutionData (T := unit))) (Some 11) sample_events) as (done & _ & _ & _ & Hall & _).
  destruct (Hall (sample_block 5, odd_signature)) as (b & _ & Eb).
  - right. by left.
  - by intros ? [= <-].
  - by exists b.
Defined.

Lemma import_loop_drains_witness :
  exists self' w',
    run (fun _ => 0) sample_recover 5 sample_importer
      (set_events sample_world (Build_Channel sample_events true true)) = Some (self', w')
    /\ payload_calls (engine self') = [sample_payload 5] /\ connections (manager self') = {[ 7 := 3%nat ]}.
Proof.
  destruct (import_loop_drains (fun _ => 0) sample_recover sample_importer
    (set_events sample_world (Build_Channel sample_events true true)) 5)
    as (self' & w' & Er & _ & He & _ & Hc); [simpl; lia|].
  exists self', w'. split; [exact Er|]. by rewrite He, Hc.
Defined.

Lemma announced_block_imported_witness :
  exists w1 w2 frame,
    announce_block sample_manager 7 (new odd_signature (sample_block 5)) sample_world = (Ok tt, sample_manager, w1)
    /\ poll_next (sample_connection []) w1 = (Ready (Some frame), sample_connection [], w2)
    /\ frame = sample_frame odd_signature 5.
Proof.
  destruct (announced_block_imported numbered_ok (fun _ => 0) sample_recover odd_signature (sample_block 5)
    sample_manager sample_world (sample_connection []) 7
    (sample_connection [sample_frame odd_signature 5]) sample_world sample_importer)
    as (w1 & w2 & frame & Ea & Ep & _).
  - apply ref_block_ok.
  - exists 5. split; [unfold in_u64, u64_max; lia|reflexivity].
  - apply Z.leb_le. vm_compute. reflexivity.
  - reflexivity.
  - reflexivity.
  - reflexivity.
  - reflexivity.
  - by intros ? [= <-].
  - apply not_elem_of_nil.
  - exists w1, w2, frame. split; [exact Ea|]. split; [exact Ep|].
    vm_compute in Ea. injection Ea as <-. vm_compute in Ep. by injection Ep as <- _.
Defined.
