(* ===== verification/Follow.v ===== *)
(** * A chain over the wire (all crates)

    Blocks one node builds (Payload.v, Build.v) and announces (WireNet.v), and
    what a node that only receives the frames does with them: its connection
    turns them into events, its importer into payloads (WireNet.v), the Engine
    validator into blocks (Engine.v), the body check and the header checks let
    them through (Consensus.v) and the import executes them (Replay.v, Sync.v).
    What reth's engine does between these parts is to call them in order. The two
    nodes and the wire are a state with the steps each of them may take next; what
    was announced is, at every moment, imported, read, on the wire or queued. *)

From stdpp Require Import prelude gmap list strings.
From Stdlib Require Import ZArith Lia.
From S2P Require Import Prelude.
From S2P Require Import Hardforks.
From S2P Require Import GenesisConfig.
From S2P Require Import ChainSpec.
From S2P Require Import Chain.
From S2P Require Import BaseFee.
From S2P Require Import Alloy.
From S2P Require Import AlloyRef.
From S2P Require Import TxType.
From S2P Require Import L1Message.
From S2P Require Import Envelope.
From S2P Require Import TxTheorems.
From S2P Require Import Consensus.
From S2P Require CodeWitness.
From S2P Require Import Transitions.
From S2P Require Import Receipt.
From S2P Require TxEnv.
From S2P Require Import Executor.
From S2P Require Import Build.
From S2P Require Import Engine.
From S2P Require Import Payload.
From S2P Require Import Replay.
From S2P Require Import Sync.
From S2P Require Import Wire.
From S2P Require Import WireNet.

Import (hints) TxEnv.
Import NodeReceipt(ScrollReceipt).
Import TxEnvelope(ScrollTxEnvelope).

(** A sublist of a list whose keys differ, that has every key, is the list. *)
Lemma sublist_keys_eq {A K} (key : A -> K) (l k : list A) :
  l `sublist_of` k -> NoDup (map key k) -> (forall a, a ∈ k -> exists b, b ∈ l /\ key b = key a) -> l = k.
Proof.
  induction 1 as [|x l k Hs IH|x l k Hs IH]; intros Hn Ha; [done|..]; simpl in Hn; apply NoDup_cons in Hn as [Hx Hn].
  - f_equal. apply IH; [done|]. intros a Hk. destruct (Ha a) as (b & Hb & E); [by right|].
    apply elem_of_cons in Hb as [->|Hb]; [|by exists b]. destruct Hx. rewrite E. by apply list_elem_of_fmap_2.
  - destruct (Ha x) as (b & Hb & E); [by left|]. destruct Hx. rewrite <- E. apply list_elem_of_fmap_2.
    by eapply sublist_subseteq.
Qed.

(** ** What a node receives *)

Section Received.
Context `{SignatureBytesLaws} {T : Type} (valid_block : SealedBlock T -> Prop) `{!BlockRlp T}
  `{RlpDeriveLaws} `{!RlpLaws} (block_ok : codec_ok valid_block rlp_block).

(** An announcement that can be encoded. *)
Definition encodable (a : SealedBlock T * Signature) : Prop :=
  valid_block a.1 /\ blen (enc rlp_bytes (as_rsy a.2) ++ enc rlp_block a.1) <= u64_max.

Definition new_of (a : SealedBlock T * Signature) : NewBlock T := new a.2 a.1.

Lemma announcement_encoded a : encodable a -> announcement (T := T) (encoded (new_block (new_of a))) = Some a.
Proof.
  intros [Hb Hlen]. pose proof (decode_encoded valid_block block_ok (new_of a) []) as D. rewrite app_nil_r in D.
  unfold announcement. rewrite D by (split; [apply as_rsy_bytes|done]). cbn [msg_payload new_block].
  unfold new_of. cbn [new nb_signature nb_block]. rewrite from_raw_as_rsy. by destruct a.
Qed.

Lemma announcements_encoded anns :
  Forall encodable anns ->
  map announcement (map (fun nb => encoded (new_block nb)) (map new_of anns)) = map Some anns.
Proof. induction 1 as [|a anns Ha _ IH]; [done|]. simpl. by rewrite announcement_encoded, IH. Qed.
End Received.

(** ** The receiving node *)

Section Relayed.
Context `{SignatureBytesLaws} {T : Type} (valid_block : SealedBlock T -> Prop) `{!BlockRlp T}
  `{RlpDeriveLaws} `{!RlpLaws} (block_ok : codec_ok valid_block rlp_block) `{HeaderRlp} `{EnginePayloads T}
  {Eng : Type} `{!EngineHandle Eng T} `{!EngineHandleLaws Eng T} (keccak256 : bytes -> B256)
  {RecoveryError : Type} (recover_signer : Signature -> B256 -> result Address RecoveryError)
  {C : Type} `{!LruCache C (B256 * Signature)} `{!LruCacheLaws C (B256 * Signature)}.

Lemma omap_announced peer (anns : list (SealedBlock T * Signature)) :
  omap announced (map (announced_by peer) anns) = anns.
Proof. induction anns as [|[b s] anns IH]; [done|]. simpl. f_equal. exact IH. Qed.

(** Announcements of distinct blocks, all authorized, reach the engine, all and in
    order. *)
Lemma relayed pm (e : Eng) signer peer anns :
  Forall (authorized keccak256 recover_signer signer) anns -> NoDup (map key_of anns) ->
  payload_calls (engine (import_all keccak256 recover_signer (new_importer (C := C) pm e signer)
    (map (announced_by peer) anns))) = payload_calls e ++ map payload_of anns.
Proof.
  intros Hau Hn.
  destruct (imported_all keccak256 recover_signer _ _ _ (map (announced_by peer) anns) _
    (imported_new keccak256 recover_signer pm e signer)) as (done & [_ -> _ _ _ _] & Hall & Hsub).
  rewrite omap_announced in Hall, Hsub. f_equal. f_equal. apply (sublist_keys_eq key_of); [done..|].
  intros a Ha. apply Hall; [done|]. rewrite Forall_forall in Hau. by apply Hau.
Qed.

(** The importer drains the events of announcements and leaves the rest as it was. *)
Lemma run_announced fuel peer anns (self : DogeosScrollWireEngineImporter (Eng := Eng) (C := C)) (w : World T) :
  (length anns < fuel)%nat -> waiting (events w) = map (announced_by peer) anns ->
  run keccak256 recover_signer fuel self w
  = Some (import_all keccak256 recover_signer self (map (announced_by peer) anns),
          set_events w (Build_Channel [] (sender_alive (events w)) (receiver_alive (events w)))).
Proof.
  revert self w anns. induction fuel as [|fuel IH]; intros self w anns Hf Hw; [lia|].
  assert (Em : forall m : ScrollWireManager, m = manager self -> set_manager self m = self)
    by (intros m ->; by destruct self).
  cbn [run]. unfold poll. rewrite Hw. destruct anns as [|[b s] anns]; cbn [map poll_events].
  - by rewrite Em.
  - change (announced_by peer (b, s)) with (EventNewBlock peer b s). cbn iota. rewrite Em by done.
    rewrite (IH _ _ anns); [done|simpl in Hf; lia|done].
Qed.
End Relayed.

(** ** Two nodes and the wire between them *)

Section Net.
Context `{SignatureBytesLaws} {T : Type} (valid_block : SealedBlock T -> Prop) `{!BlockRlp T}
  `{RlpDeriveLaws} `{!RlpLaws} (block_ok : codec_ok valid_block rlp_block) `{HeaderRlp} `{EnginePayloads T}
  {Eng : Type} `{!EngineHandle Eng T} `{!EngineHandleLaws Eng T} (keccak256 : bytes -> B256)
  {RecoveryError : Type} (recover_signer : Signature -> B256 -> result Address RecoveryError)
  {C : Type} `{!LruCache C (B256 * Signature)} `{!LruCacheLaws C (B256 * Signature)}.

Abbreviation Announced := (SealedBlock T * Signature)%type.

(** The announcing node and its end of a connection; the peer's end, with the
    frames that arrived there, its channels and its importer. *)
Record Net := {
  net_manager : ScrollWireManager;
  net_world : World T;
  net_here : ScrollWireConnection;
  net_there : ScrollWireConnection;
  net_peer_world : World T;
  net_importer : DogeosScrollWireEngineImporter (Eng := Eng) (C := C);
}.

(** What may happen next: a block is announced, the connection is polled for a
    frame, the peer polls its end, the peer's importer runs. *)
Inductive Action : Type := Announce (a : Announced) | Send | Receive | ImportEvents.

Definition act (peer : PeerId) (n : Net) (x : Action) : Net :=
  match x with
  | Announce a =>
      let '(_, m, w) := announce_block (net_manager n) peer (new_of a) (net_world n) in
      {| net_manager := m; net_world := w; net_here := net_here n; net_there := net_there n;
         net_peer_world := net_peer_world n; net_importer := net_importer n |}
  | Send =>
      let '(r, here, w) := poll_next (net_here n) (net_world n) in
      {| net_manager := net_manager n; net_world := w; net_here := here;
         net_there :=
           match r with
           | Ready (Some frame) => set_conn (net_there n) (conn (net_there n) ++ [frame])
           | _ => net_there n
           end;
         net_peer_world := net_peer_world n; net_importer := net_importer n |}
  | Receive =>
      let '(_, there, w) := poll_next (net_there n) (net_peer_world n) in
      {| net_manager := net_manager n; net_world := net_world n; net_here := net_here n; net_there := there;
         net_peer_world := w; net_importer := net_importer n |}
  | ImportEvents =>
      match run keccak256 recover_signer (S (length (waiting (events (net_peer_world n))))) (net_importer n)
              (net_peer_world n) with
      | Some (importer, w) =>
          {| net_manager := net_manager n; net_world := net_world n; net_here := net_here n;
             net_there := net_there n; net_peer_world := w; net_importer := importer |}
      | None => n
      end
  end.

(** The announcements of a run. *)
Definition announces (xs : list Action) : list Announced :=
  omap (fun x => match x with Announce a => Some a | _ => None end) xs.

(** A connection just made: nothing is under way on either side. *)
Record just_connected (peer : PeerId) (n : Net) : Prop := {
  cn_peer : connections (net_manager n) !! peer = Some (outbound (net_here n));
  cn_outbound : outbounds (net_world n) !! outbound (net_here n) = Some unbounded_channel;
  cn_here : conn (net_here n) = [];
  cn_there : conn (net_there n) = [];
  cn_quiet : outbound_waiting (net_peer_world n) (outbound (net_there n)) = [];
  cn_events : events (net_peer_world n) = unbounded_channel;
}.

Definition frame_of (a : Announced) : bytes := encoded (new_block (new_of a)).

(** Where the announcements of a run are: imported, read, on the wire, queued. *)
Record carried (peer : PeerId) (from : PeerId) (start : DogeosScrollWireEngineImporter (Eng := Eng) (C := C))
    (n : Net) (imported read unread queued : list Announced) : Prop := {
  ca_peer : connections (net_manager n) !! peer = Some (outbound (net_here n));
  ca_outbound : outbounds (net_world n) !! outbound (net_here n)
                = Some (Build_Channel (map (fun a => new_block (new_of a)) queued) true true);
  ca_here : conn (net_here n) = [];
  ca_there : conn (net_there n) = map frame_of unread;
  ca_from : peer_id (net_there n) = from;
  ca_quiet : outbound_waiting (net_peer_world n) (outbound (net_there n)) = [];
  ca_events : events (net_peer_world n) = Build_Channel (map (announced_by from) read) true true;
  ca_importer : net_importer n = import_all keccak256 recover_signer start (map (announced_by from) imported);
}.

Lemma just_connected_carried peer n :
  just_connected peer n -> carried peer (peer_id (net_there n)) (net_importer n) n [] [] [] [].
Proof. by intros []. Qed.

Lemma carried_announce peer from start n imported read unread queued a :
  carried peer from start n imported read unread queued ->
  carried peer from start (act peer n (Announce a)) imported read unread (queued ++ [a]).
Proof.
  intros [Hp Ho Hh Ht Hf Hq He Hi]. cbn [act]. unfold announce_block. rewrite Hp, Ho.
  cbn [mbind option_bind send receiver_alive waiting sender_alive].
  split; try done. cbn [net_world net_here set_outbound outbounds]. by rewrite lookup_insert_eq, map_app.
Qed.

Lemma carried_send peer from start n imported read unread queued :
  carried peer from start n imported read unread queued ->
  carried peer from start (act peer n Send) imported read (unread ++ take 1 queued) (drop 1 queued).
Proof.
  intros [Hp Ho Hh Ht Hf Hq He Hi]. cbn [act]. destruct queued as [|a queued]; cbn [take drop].
  - unfold poll_next. rewrite Hh. rewrite poll_frames_unfold by (unfold outbound_waiting; by rewrite Ho).
    rewrite app_nil_r. destruct (conn_open (net_here n)); (split; try done).
  - rewrite (poll_next_sends _ _ _ (new_block (new_of a)) (map (fun a => new_block (new_of a)) queued) Ho eq_refl).
    split; try done; cbn [net_world net_here net_there set_outbound outbounds conn set_conn].
    + by rewrite lookup_insert_eq.
    + by rewrite Ht, map_app.
Qed.

Lemma carried_receive peer from start n imported read unread queued :
  Forall (encodable valid_block) unread -> carried peer from start n imported read unread queued ->
  carried peer from start (act peer n Receive) imported (read ++ unread) [] queued.
Proof.
  intros Hok [Hp Ho Hh Ht Hf Hq He Hi]. cbn [act].
  assert (Eg : map announcement (map frame_of unread) = map Some unread).
  { pose proof (announcements_encoded valid_block block_ok unread Hok) as E. rewrite (map_map new_of) in E. exact E. }
  pose proof (poll_frames_good (net_there n) (map frame_of unread) unread [] (net_peer_world n) Hq
    ltac:(by rewrite He) Eg) as E.
  rewrite app_nil_r in E. unfold poll_next. rewrite Ht, E, poll_frames_unfold by done.
  split; try done. cbn [net_peer_world set_events events]. by rewrite He, Hf, map_app.
Qed.

Lemma carried_import peer from start n imported read unread queued :
  carried peer from start n imported read unread queued ->
  carried peer from start (act peer n ImportEvents) (imported ++ read) [] unread queued.
Proof.
  intros [Hp Ho Hh Ht Hf Hq He Hi]. cbn [act].
  rewrite (run_announced keccak256 recover_signer _ from read) by (rewrite He; cbn [waiting]; rewrite ?length_map; done || lia).
  split; try done; cbn [net_peer_world net_importer set_events events].
  - by rewrite He.
  - rewrite Hi, map_app. unfold import_all. by rewrite fold_left_app.
Qed.

(** Over a run nothing is lost, doubled or reordered. *)
Lemma carried_run peer from start xs n imported read unread queued :
  carried peer from start n imported read unread queued ->
  Forall (encodable valid_block) (unread ++ queued ++ announces xs) ->
  exists imported' read' unread' queued',
    carried peer from start (fold_left (act peer) xs n) imported' read' unread' queued'
    /\ imported' ++ read' ++ unread' ++ queued' = imported ++ read ++ unread ++ queued ++ announces xs.
Proof.
  revert n imported read unread queued.
  induction xs as [|x xs IH]; intros n imported read unread queued Hc Hok; cbn [fold_left].
  { exists imported, read, unread, queued. by rewrite app_nil_r. }
  destruct x as [a| | |].
  - change (announces (Announce a :: xs)) with ([a] ++ announces xs) in *.
    destruct (IH _ _ _ _ _ (carried_announce _ _ _ _ _ _ _ _ a Hc)) as (i & r & u & q & Hc' & E);
      [by rewrite <- app_assoc|]. exists i, r, u, q. split; [exact Hc'|]. by rewrite E, <- !app_assoc.
  - change (announces (Send :: xs)) with (announces xs) in *.
    destruct (IH _ _ _ _ _ (carried_send _ _ _ _ _ _ _ _ Hc)) as (i & r & u & q & Hc' & E).
    { rewrite <- app_assoc, (app_assoc (take 1 queued)), take_drop. exact Hok. }
    exists i, r, u, q. split; [exact Hc'|].
    by rewrite E, <- !app_assoc, (app_assoc (take 1 queued)), take_drop.
  - change (announces (Receive :: xs)) with (announces xs) in *. apply Forall_app in Hok as [Hu Hok].
    destruct (IH _ _ _ _ _ (carried_receive _ _ _ _ _ _ _ _ Hu Hc)) as (i & r & u & q & Hc' & E); [exact Hok|].
    exists i, r, u, q. split; [exact Hc'|]. by rewrite E, <- !app_assoc.
  - change (announces (ImportEvents :: xs)) with (announces xs) in *.
    destruct (IH _ _ _ _ _ (carried_import _ _ _ _ _ _ _ _ Hc)) as (i & r & u & q & Hc' & E); [exact Hok|].
    exists i, r, u, q. split; [exact Hc'|]. by rewrite E, <- !app_assoc.
Qed.

(** Sends, one poll of the peer and one run of its importer bring everything in. *)
Definition settle (k : nat) : list Action := replicate k Send ++ [Receive; ImportEvents].

Lemma carried_sends peer from start k n imported read unread queued :
  carried peer from start n imported read unread queued -> (length queued <= k)%nat ->
  carried peer from start (fold_left (act peer) (replicate k Send) n) imported read (unread ++ queued) [].
Proof.
  revert n unread queued. induction k as [|k IH]; intros n unread queued Hc Hk; cbn [replicate fold_left].
  - destruct queued; [by rewrite app_nil_r|simpl in Hk; lia].
  - replace (unread ++ queued) with ((unread ++ take 1 queued) ++ drop 1 queued)
      by (by rewrite <- app_assoc, take_drop).
    apply IH; [by apply carried_send|rewrite length_drop; lia].
Qed.

Lemma carried_settle peer from start k n imported read unread queued :
  carried peer from start n imported read unread queued -> (length queued <= k)%nat ->
  Forall (encodable valid_block) (unread ++ queued) ->
  carried peer from start (fold_left (act peer) (settle k) n) (imported ++ read ++ unread ++ queued) [] [] [].
Proof.
  intros Hc Hk Hok. unfold settle. rewrite fold_left_app. cbn [fold_left].
  apply carried_import, carried_receive; [exact Hok|]. by apply carried_sends.
Qed.
End Net.

(** ** The chain *)

Section Follow.
Context `{AlloyForks} `{AlloyEips} `{TxEnv.EvmTypesLaws} `{Rlp} `{!EthTxsLaws} `{!RlpLaws} `{!TxEnv.Zstd}
  `{!Eip2718} `{ReceiptRlp} `{!AssemblyTypes} `{!AssemblyLaws} `{RevmAccounts} `{SystemAddresses} {S : Type}
  `{DogeosHardforks S} `{EthChainSpec S} `{ChainConfig S} `{!ChainId S} {DB E : Type} `{Database DB E}
  `{DatabaseView DB} `{!DatabaseLaws DB E} `{!Revm DB} `{!ReadErrors EVMError} `{!RevmLaws DB}
  `{!ReplayLaws DB} `{!InvalidTxErrors EVMError} `{BlockBuilderLaws} `{!ChainConstants} `{RethConsensusLaws}
  `{!ScrollContext DB}.
Context (show show_debug : E -> string) (keccak256 : bytes -> B256)
  (rlp_error_from : Eip2718Error -> RlpError) {SigError : Type}
  (recover : Signature -> B256 -> result Address SigError)
  (effective_tip_per_gas : ScrollTxEnvelope -> Z -> option Z) {P : Type} `{!BestTransactions P}.
Context (valid_tx : ScrollTxEnvelope -> Prop) `{!EnginePayloads ScrollTxEnvelope}
  `{!EnginePayloadsLaws ScrollTxEnvelope calculate_transaction_root valid_tx}.
Context (W : Type) (s : S) (config : ScrollBuilderConfig) (now : option Z) (no_op : CodeWitness.Inspector).

Abbreviation ScrollBlock := (AssembledBlock ScrollTxEnvelope).
Abbreviation Sealed := (SealedBlock ScrollTxEnvelope).

(** An assembled block with the rest of its body, and back. *)
Definition sealed_of (block : ScrollBlock) : Sealed :=
  {| block_header := ab_header block; transactions := ab_transactions block; ommers := Some [];
     withdrawals := None |}.
Definition block_of (block : Sealed) : ScrollBlock :=
  {| ab_header := block_header block; ab_transactions := transactions block |}.

Inductive FollowFailure : Type :=
| PayloadRefused (e : PayloadError EngineError)
| BodyPanics (msg : string)
| BodyRefused (e : ConsensusError)
| BlockRefused (f : SyncFailure (E := E)).

(** The database could not be read. *)
Definition only_reads (f : FollowFailure) : Prop := exists g, f = BlockRefused g /\ unread g.

(** A payload the engine is called with: converted, its body checked, its header
    checked and the block executed; the state, header and hash to go on from. *)
Definition follow_payload (dbi : DB) (parent : Header) (seal : B256) (d : ExecutionData) :
    result (DB * Header * B256) FollowFailure :=
  let? '(block, hash) := map_err PayloadRefused (convert_payload_to_block d) in
  match Consensus.validate_block_pre_execution calculate_transaction_root block with
  | Panics msg => Err (BodyPanics msg)
  | Returns verdict =>
      let? _ := map_err BodyRefused verdict in
      let? '(_, y) := map_err BlockRefused
                        (sync_block show show_debug recover s now no_op dbi parent seal (block_of block)) in
      Ok (evm_db (evm y), block_header block, hash)
  end.

Fixpoint follow (dbi : DB) (parent : Header) (seal : B256) (ds : list ExecutionData) : result DB FollowFailure :=
  match ds with
  | [] => Ok dbi
  | d :: ds =>
      let? '(dbi, parent, seal) := follow_payload dbi parent seal d in follow dbi parent seal ds
  end.

(** What the sequencer owes a block it announces: the L1 messages come first and in
    order, and the transactions are ones a payload carries. *)
Definition publishable (block : ScrollBlock) : Prop :=
  Forall valid_tx (ab_transactions block) /\ validate_l1_messages (ab_transactions block) = Returns (Ok tt).

Abbreviation payload_of_block block := (block_to_payload (sealed_of block, hash_slow (ab_header block))).
Abbreviation Built_on :=
  (built_on (P := P) show show_debug keccak256 rlp_error_from recover effective_tip_per_gas W s config now).
Abbreviation Built_chain :=
  (built_chain (P := P) show show_debug keccak256 rlp_error_from recover effective_tip_per_gas W s config
     hash_slow now).

(** A block whose import is not refused had its header accepted. *)
Lemma synced_header dbi parent seal (block : ScrollBlock) :
  match sync_block show show_debug recover s now no_op dbi parent seal block with
  | Ok _ => True | Err f => unread f
  end ->
  validate_header now (ab_header block) = Ok tt.
Proof. unfold sync_block. destruct (validate_header now (ab_header block)) as [[]|e]; [done|by intros []]. Qed.

(** The body of a built block passes the body check. *)
Lemma built_body db0 parent seal block left :
  Built_on db0 parent seal block left -> publishable block -> validate_header now (ab_header block) = Ok tt ->
  Consensus.validate_block_pre_execution calculate_transaction_root (sealed_of block) = Returns (Ok tt).
Proof.
  intros Hb [_ Hl1] Hh%validate_header_valid.
  assert (Hroot : transactions_root (ab_header block) = calculate_transaction_root (ab_transactions block))
    by (destruct Hb; by eapply assemble_root).
  unfold Consensus.validate_block_pre_execution. cbn [sealed_of ommers block_header transactions withdrawals].
  by rewrite (hv_ommers _ _ Hh), Hroot, !Z.eqb_refl, Hl1.
Qed.

(** The payload of a block another node built is accepted, and leaves the state
    the build left. *)
Lemma follow_block (db0 dbi : DB) parent seal block left :
  BEACON_NONCE = 0 -> pool_signed (P := P) recover -> ramp_target_ok config -> parent_limit_ok parent ->
  Built_on db0 parent seal block left -> publishable block -> same_contents db0 dbi ->
  parent_limit_ok (ab_header block)
  /\ match follow_payload dbi parent seal (payload_of_block block) with
     | Ok (dbi', header, hash) =>
         same_contents left dbi' /\ header = ab_header block /\ hash = hash_slow (ab_header block)
     | Err f => only_reads f
     end.
Proof.
  intros Hnonce Hsig Htarget Hl Hb Hpub Hd.
  destruct (sync_block_replays show show_debug keccak256 rlp_error_from recover effective_tip_per_gas W s config
    now no_op db0 dbi parent seal block left Hnonce Hsig Htarget Hl Hb Hd) as [Hl' Hs].
  split; [exact Hl'|]. unfold follow_payload.
  assert (Hh : validate_header now (ab_header block) = Ok tt).
  { apply (synced_header dbi parent seal). by destruct (sync_block _ _ _ _ _ _ _ _ _ _) as [[]|]. }
  pose proof (built_body _ _ _ _ _ Hb Hpub Hh) as Hbody.
  pose proof (consensus_converts calculate_transaction_root valid_tx (sealed_of block) now
    (proj1 Hpub) eq_refl Hbody Hh) as Hc.
  cbn [sealed_of block_header] in Hc. rewrite Hc. cbn [map_err rbind]. rewrite Hbody. cbn [map_err rbind].
  assert (Eb : block_of (sealed_of block) = block) by by destruct block.
  rewrite Eb. destruct (sync_block _ _ _ _ _ _ _ _ _ _) as [[r y]|f]; cbn [map_err rbind]; [done|].
  by exists f.
Qed.

Lemma follow_chain (db0 final dbi : DB) parent seal blocks :
  BEACON_NONCE = 0 -> pool_signed (P := P) recover -> ramp_target_ok config -> parent_limit_ok parent ->
  Built_chain db0 parent seal blocks final -> Forall publishable blocks -> same_contents db0 dbi ->
  match follow dbi parent seal (map (fun b => payload_of_block b) blocks) with
  | Ok dbi' => same_contents final dbi'
  | Err f => only_reads f
  end.
Proof.
  intros Hnonce Hsig Htarget Hl Hc. revert dbi Hl.
  induction Hc as [db parent seal|db parent seal block left db' blocks final Hb Hleft _ IH];
    intros dbi Hl Hp Hd; [exact Hd|]. apply Forall_cons in Hp as [Hpub Hp].
  destruct (follow_block db dbi parent seal block left Hnonce Hsig Htarget Hl Hb Hpub Hd) as [Hl' Hs].
  cbn [map follow]. destruct (follow_payload _ _ _ _) as [[[dbi' h] x]|f]; [|exact Hs].
  destruct Hs as (Hd' & -> & ->). cbn [rbind]. apply IH; [done..|]. by rewrite <- Hleft.
Qed.

(** ** Properties *)

Context `{!SignatureBytes} `{!SignatureBytesLaws} (valid_block : Sealed -> Prop) `{!BlockRlp ScrollTxEnvelope}
  `{!RlpDerive} `{!RlpDeriveLaws} `{!HeaderRlp} {Eng : Type} `{!EngineHandle Eng ScrollTxEnvelope}
  `{!EngineHandleLaws Eng ScrollTxEnvelope} {RecoveryError : Type}
  (recover_signer : Signature -> B256 -> result Address RecoveryError)
  {C : Type} `{!LruCache C (B256 * Signature)} `{!LruCacheLaws C (B256 * Signature)}.

(** C1: A chain one node builds and announces is the chain of every node that hears
    it. Take blocks built one on the other, each with its own pool, clock and
    attributes, each signed by a signer the peer authorizes, announced in their
    order over a connection just made, while the connection is polled, the peer
    reads and its importer runs in any order and any number of times. At every
    moment the peer's importer has handed its engine the payloads of the first
    blocks, in order; once the frames are sent and read, those of all of them.
    Each payload converts to its block, passes the body check, the header checks
    and the import, and the last state has the contents of the builder's last.
    The only other outcome is that a read of the peer's database fails. *)
Theorem announced_chain_followed (db0 final dbi : DB) (parent : Header) (seal : B256)
    (signed : list (ScrollBlock * Signature)) (peer : PeerId)
    (n : Net (T := ScrollTxEnvelope) (Eng := Eng) (C := C)) (xs : list (Action (T := ScrollTxEnvelope)))
    (pm : ScrollWireManager) (engine0 : Eng) (signer : option Address) :
  let anns := map (fun x => (sealed_of x.1, x.2)) signed in
  BEACON_NONCE = 0 -> pool_signed (P := P) recover -> ramp_target_ok config -> parent_limit_ok parent ->
  Built_chain db0 parent seal (map fst signed) final -> same_contents db0 dbi ->
  Forall publishable (map fst signed) ->
  codec_ok valid_block rlp_block -> Forall (encodable valid_block) anns ->
  Forall (authorized keccak256 recover_signer signer) anns -> NoDup (map key_of anns) ->
  just_connected peer n -> net_importer n = new_importer pm engine0 signer -> announces xs = anns ->
  let ds := map payload_of anns in
  let run xs n := fold_left (act keccak256 recover_signer peer) xs n in
  let calls n := payload_calls (engine (net_importer n)) in
  (exists k, calls (run xs n) = payload_calls engine0 ++ take k ds)
  /\ calls (run (settle (length anns)) (run xs n)) = payload_calls engine0 ++ ds
  /\ match follow dbi parent seal ds with
     | Ok dbi' => same_contents final dbi'
     | Err f => only_reads f
     end.
Proof.
  intros anns Hnonce Hsig Htarget Hl Hc Hd Hpub Hcodec Hok Hau Hn Hconn Himp Hxs ds run calls.
  destruct (carried_run valid_block Hcodec keccak256 recover_signer peer _ _ xs n [] [] [] []
    (just_connected_carried keccak256 recover_signer peer n Hconn)) as (i & r & u & q & Hcar & Eall);
    [cbn [app]; by rewrite Hxs|].
  cbn [app] in Eall. rewrite Hxs in Eall.
  assert (Hcalls : forall n' i' rest r' u' q',
    carried keccak256 recover_signer peer (peer_id (net_there n)) (net_importer n) n' i' r' u' q' ->
    i' ++ rest = anns -> calls n' = payload_calls engine0 ++ map payload_of i').
  { intros n' i' rest r' u' q' [_ _ _ _ _ _ _ Hi] Ei. unfold calls. rewrite Hi, Himp.
    apply (relayed keccak256 recover_signer).
    - rewrite <- Ei in Hau. by apply Forall_app in Hau as [Hau _].
    - rewrite <- Ei, map_app in Hn. by apply NoDup_app in Hn as [Hn _]. }
  split; [|split].
  - exists (length i). unfold run. rewrite (Hcalls _ _ (r ++ u ++ q) _ _ _ Hcar Eall). unfold ds.
    rewrite <- Eall, map_app, take_app_length'; [done|by rewrite length_map].
  - assert (Hq : (length q <= length anns)%nat) by (rewrite <- Eall, !length_app; lia).
    pose proof (carried_settle valid_block Hcodec keccak256 recover_signer peer _ _ _ _ _ _ _ _ Hcar Hq) as Hs.
    rewrite Eall in Hs. unfold run. rewrite (Hcalls _ anns [] _ _ _ ltac:(apply Hs;
      rewrite <- Eall in Hok; apply Forall_app in Hok as [_ Hok]; by apply Forall_app in Hok as [_ Hok])); [done|].
    by rewrite app_nil_r.
  - pose proof (follow_chain db0 final dbi parent seal _ Hnonce Hsig Htarget Hl Hc Hpub Hd) as Hf.
    unfold ds, anns. rewrite map_map in Hf |- *. exact Hf.
Qed.
End Follow.

(** ** Witness *)

(** The engine of Engine.v, with headers that hash to their number. *)
#[local] Instance numbered_engine : EnginePayloads ScrollTxEnvelope := {
  ExecutionPayload := B256 * SealedBlock ScrollTxEnvelope;
  Sidecar := option B256;
  Withdrawal := Z;
  EngineError := unit;
  payload_block_hash p := p.1;
  payload_withdrawals p := withdrawals p.2;
  sidecar_parent_beacon_block_root x := x;
  try_into_block_with_sidecar p _ := Ok (with_header p.2 (with_difficulty (block_header p.2) 0));
  from_block_unchecked h b := ((h, b), parent_beacon_block_root (block_header b));
  hash_slow h := number h;
}.

#[local] Instance numbered_engine_laws `{RethConsensus} (transaction_root : list ScrollTxEnvelope -> B256)
    (valid_tx : ScrollTxEnvelope -> Prop) :
  EnginePayloadsLaws ScrollTxEnvelope transaction_root valid_tx.
Proof. by split. Qed.

Abbreviation SampleAssembled := (AssembledBlock ScrollTxEnvelope).

(** Two blocks told apart by their number. *)
Definition two_blocks (b1 b2 : SealedBlock ScrollTxEnvelope) : BlockRlp ScrollTxEnvelope := {|
  rlp_block :=
    {| enc b := enc rlp_u64 (number (block_header b));
       dec x := rmap (fun '(n, rest) => (if n =? number (block_header b1) then b1 else b2, rest)) (dec rlp_u64 x);
       len b := len rlp_u64 (number (block_header b)) |};
|}.

Lemma two_blocks_ok b1 b2 :
  number (block_header b1) = 6 -> number (block_header b2) = 7 ->
  codec_ok (fun b => b = b1 \/ b = b2) (rlp_block (BlockRlp := two_blocks b1 b2)).
Proof.
  intros E1 E2. split; cbn [rlp_block two_blocks enc dec len].
  - intros b rest [-> | ->]; rewrite ?E1, ?E2, (dec_enc rlp_u64_ok _ rest) by solve_ints; reflexivity.
  - intros b [-> | ->]; rewrite ?E1, ?E2; apply (len_enc rlp_u64_ok); solve_ints.
Qed.

Definition l1_fine (block : SampleAssembled) : bool :=
  match validate_l1_messages (ab_transactions block) with Returns (Ok _) => true | _ => false end.

Abbreviation sample_follow ds := (follow (E := unit) (Revm0 := ref_revm) show_unit show_unit
  Payload.sample_recover (new_schedule []) (Some 60) (CodeWitness.new_inspector 0 0) fresh_db
  sample_parent_header 777 ds).

Abbreviation announced_payload block :=
  (block_to_payload (sealed_of block, hash_slow (EnginePayloads := numbered_engine) (ab_header block))).

Abbreviation next_block x :=
  (Sync.sample_block (evm_db (evm x.1.2.1)) 52 [] [true] (ab_header x.2) (number (ab_header x.2))).

(** The sample chain, built with these hashes, can be announced and followed. *)
Lemma sample_followed :
  exists x1 : SampleBuilt, first_block = Some x1
    /\ (number (ab_header x1.2) =? 6) && (timestamp (ab_header x1.2) =? 51)
       && (gas_limit (ab_header x1.2) =? 20000000) && l1_fine x1.2
       && match next_block x1 with
          | Some x2 => (number (ab_header x2.2) =? 7) && l1_fine x2.2
                       && is_ok (sample_follow [announced_payload x1.2; announced_payload x2.2])
          | None => false
          end = true.
Proof.
  apply (holds_value _ (fun x1 : SampleBuilt =>
    (number (ab_header x1.2) =? 6) && (timestamp (ab_header x1.2) =? 51)
    && (gas_limit (ab_header x1.2) =? 20000000) && l1_fine x1.2
    && match next_block x1 with
       | Some x2 => (number (ab_header x2.2) =? 7) && l1_fine x2.2
                    && is_ok (sample_follow [announced_payload x1.2; announced_payload x2.2])
       | None => false
       end)).
  vm_compute. reflexivity.
Qed.

Abbreviation sample_chain := (built_chain (E := unit) (Revm0 := ref_revm) (P := list bool) show_unit
  show_unit sample_hash sample_error Payload.sample_recover (fun _ _ => Some 3) Z (new_schedule []) sample_config
  (hash_slow (EnginePayloads := numbered_engine)) (Some 60)).

Lemma l1_fine_ok block : l1_fine block = true -> publishable (fun _ => True) block.
Proof.
  unfold l1_fine, publishable. destruct (validate_l1_messages _) as [[[]|]|]; try done. intros _.
  split; [by apply Forall_true|done].
Qed.

Lemma sample_announced :
  exists block1 block2 final,
    sample_chain fresh_db sample_parent_header 777 [block1; block2] final
    /\ number (ab_header block1) = 6 /\ number (ab_header block2) = 7
    /\ publishable (fun _ => True) block1 /\ publishable (fun _ => True) block2
    /\ is_ok (sample_follow [announced_payload block1; announced_payload block2]) = true.
Proof.
  destruct sample_followed as ([[f1 b1] block1] & E1 & Hr).
  rewrite !andb_true_iff in Hr. destruct Hr as [[[[Hn Ht] Hg] Hl1] Hr].
  destruct (holds_value (next_block (f1, b1, block1)) (fun x2 =>
    (number (ab_header x2.2) =? 7) && l1_fine x2.2
    && is_ok (sample_follow [announced_payload block1; announced_payload x2.2])) Hr)
    as ([[f2 b2] block2] & E2 & Hok). clear Hr. rewrite !andb_true_iff in Hok. destruct Hok as [[Hn2 Hl2] Hok].
  cbn [snd] in Hn, Ht, Hg, Hn2, Hl1, Hl2, Hok. apply Z.eqb_eq in Hn, Ht, Hg, Hn2.
  apply sample_block_built in E1; [|vm_compute; split; done|vm_compute; split; discriminate|done
    |vm_compute; split; discriminate|vm_compute; discriminate].
  apply sample_block_built in E2; cbn [snd];
    [|rewrite Hn; vm_compute; split; done|rewrite Ht; lia|done
    |rewrite Hg; vm_compute; split; discriminate|vm_compute; discriminate].
  exists block1, block2, (evm_db (evm b2.1)). split; [|do 2 (split; [done|]); split; [by apply l1_fine_ok|split; [by apply l1_fine_ok|exact Hok]]].
  eapply ChainBlock; [exact E1|by split|]. eapply ChainBlock; [exact E2|by split|]. apply ChainEnd.
Qed.

Definition new_world : World (H := ref_types) ScrollTxEnvelope :=
  {| events := unbounded_channel; outbounds := {[ 3%nat := unbounded_channel ]} |}.

Definition sample_net : Net (T := ScrollTxEnvelope) (Eng := list (ExecutionData (T := ScrollTxEnvelope)))
    (C := Z * list (B256 * bool)) :=
  {| net_manager := sample_manager; net_world := new_world; net_here := sample_connection [];
     net_there := sample_connection []; net_peer_world := new_world;
     net_importer := new_importer new_manager [] (Some 11) |}.

(** The second block is announced while the first is on the wire, and is still
    queued when the importer runs. *)
Definition sample_actions (block1 block2 : SampleAssembled) : list (Action (T := ScrollTxEnvelope)) :=
  [Announce (sealed_of block1, odd_signature); Send; Announce (sealed_of block2, odd_signature); Receive;
   ImportEvents].

Lemma announced_chain_followed_witness :
  exists block1 block2 final db,
    let B := two_blocks (sealed_of block1) (sealed_of block2) in
    let run xs n := fold_left (act sample_hash WireNet.sample_recover 7) xs n in
    sample_chain fresh_db sample_parent_header 777 [block1; block2] final
    /\ payload_calls (engine (net_importer (run (settle 2) (run (sample_actions block1 block2) sample_net))))
       = [announced_payload block1; announced_payload block2]
    /\ sample_follow [announced_payload block1; announced_payload block2] = Ok db /\ same_contents final db.
Proof.
  destruct sample_announced as (block1 & block2 & final & Hc & Hn1 & Hn2 & Hp1 & Hp2 & Hok).
  pose (B := two_blocks (sealed_of block1) (sealed_of block2)).
  edestruct (announced_chain_followed (Revm0 := ref_revm) (P := list bool) show_unit show_unit sample_hash
    sample_error Payload.sample_recover (fun _ _ => Some 3) (fun _ => True) Z (new_schedule []) sample_config
    (Some 60) (CodeWitness.new_inspector 0 0) (fun b => b = sealed_of block1 \/ b = sealed_of block2)
    WireNet.sample_recover (C := Z * list (B256 * bool)) fresh_db final fresh_db sample_parent_header 777
    [(block1, odd_signature); (block2, odd_signature)] 7 sample_net (sample_actions block1 block2) new_manager
    ([] : list (ExecutionData (T := ScrollTxEnvelope))) (Some 11))
    as (_ & Ec & Hf).
  - reflexivity.
  - exact sample_pool_signed.
  - done.
  - vm_compute. repeat split; discriminate.
  - exact Hc.
  - by split.
  - constructor; [exact Hp1|constructor; [exact Hp2|constructor]].
  - by apply two_blocks_ok.
  - repeat constructor; cbn [map fst snd]; try (by left || by right);
      cbn [rlp_block enc B two_blocks sealed_of block_header]; rewrite ?Hn1, ?Hn2; apply Z.leb_le; reflexivity.
  - by repeat constructor; intros ? [= <-].
  - repeat constructor; unfold key_of; cbn [map fst snd sealed_of block_header hash_slow numbered_engine];
      rewrite ?Hn1, ?Hn2; [|by apply not_elem_of_nil]. by intros [= ?]%list_elem_of_singleton.
  - by split.
  - reflexivity.
  - reflexivity.
  - destruct (sample_follow [announced_payload block1; announced_payload block2]) as [db|f] eqn:Es; [|done].
    exists block1, block2, final, db. cbn zeta.
    change (map payload_of _) with [announced_payload block1; announced_payload block2] in Ec, Hf.
    rewrite Es in Hf. do 3 (split; [done|]). done.
Defined.
