(* ===== verification/RpcFee.v ===== *)
(** * Fee suggestions and forwarding (dogeos-reth-rpc)

    priority_fee.rs: the priority-fee suggestion and the fee history served over
    JSON-RPC; forwarder.rs and sequencer.rs: where a raw transaction goes. *)

From stdpp Require Import prelude gmap list strings sorting.
From Stdlib Require Import ZArith Lia Sorting.Sorted.
From S2P Require Import Prelude.
From S2P Require Import Hardforks.
From S2P Require Import GenesisConfig.
From S2P Require Import ChainSpec.
From S2P Require Import Chain.
From S2P Require Import BaseFee.
From S2P Require Import Alloy.
From S2P Require Import AlloyRef.
From S2P Require Import TxType.
From S2P Require Import L1Message.
From S2P Require Import Envelope.
From S2P Require Import PoolValidator.

Definition DEFAULT_MIN_SUGGESTED_PRIORITY_FEE : Z := 100.

(** ** Capacity and tips *)

Definition is_at_capacity (gas_used gas_limit max_tx_gas_used total_payload_size max_tx_payload_size
    payload_size_limit : Z) : bool :=
  (gas_limit <? saturating_add u64_max gas_used max_tx_gas_used)
  || (payload_size_limit <? saturating_add u64_max total_payload_size max_tx_payload_size).

(** The median of sorted tips; the sum of two [u128] wraps in the release
    profile. *)
Definition median_tip (tips : list Z) : Z :=
  let n := length tips in
  if bool_decide (n mod 2 = 1)%nat then nth (n / 2) tips 0
  else wrap u128_max (nth (n / 2 - 1) tips 0 + nth (n / 2) tips 0) / 2.

Definition capacity_tip (tips : list Z) (minimum : U256) (maximum : option U256) : U256 :=
  match tips with
  | [] => minimum
  | _ =>
      let tips := merge_sort Z.le tips in
      let median := median_tip tips in
      let suggestion := Z.max (wrap u256_max (median + median / 10)) minimum in
      match maximum with Some maximum => Z.min suggestion maximum | None => suggestion end
  end.

(** ** The node as the RPC reads it *)

Inductive BlockNumberOrTag : Type :=
| Latest | Finalized | Safe | Earliest | PendingTag | Number (n : Z).

(** A block with the receipts of its transactions, as the cache returns them. *)
Record CachedBlock `{EthTxs} := {
  cb_base_fee_per_gas : option Z;
  cb_transactions : list TxEnvelope.ScrollTxEnvelope;
  cb_cumulative_gas : list Z;
}.

(** reth's history: base fees of the blocks asked for and the next one. *)
Record FeeHistory := {
  base_fee_per_gas : list Z;
  gas_used_ratio : list Z;
  oldest_block : Z;
  reward : option (list (list Z));
}.

(** The provider, the block cache and reth's own fee history; and the provided
    method [Transaction::effective_tip_per_gas]. *)
Class EthRpc (W Percentile E X : Type) `{EthTxs} := {
  sealed_header_by_number_or_tag : W -> BlockNumberOrTag -> result (option SealedHeader) E * W;
  get_block_and_receipts : W -> B256 -> result (option CachedBlock) E * W;
  eth_fee_history : W -> Z -> BlockNumberOrTag -> option (list Percentile) -> result FeeHistory X * W;
  effective_tip_per_gas : TxEnvelope.ScrollTxEnvelope -> Z -> option Z;
}.

Class EthRpcLaws (W Percentile E X : Type) `{EthRpc W Percentile E X} : Prop := {
  (** No tip when the fee cap is below the base fee, else what is left of the cap
      up to the priority fee. *)
  effective_tip_spec tx base_fee :
    effective_tip_per_gas tx base_fee =
    if TxEnvelope.max_fee_per_gas tx <? base_fee then None
    else Some (match TxEnvelope.max_priority_fee_per_gas tx with
               | Some p => Z.min (TxEnvelope.max_fee_per_gas tx - base_fee) p
               | None => TxEnvelope.max_fee_per_gas tx - base_fee
               end);
}.

Inductive RpcFeeError (E X : Type) : Type :=
| ProviderError (e : E)
| HeaderNotFound (block : BlockNumberOrTag)
| Internal (e : E)
| EthFeesError (x : X).
Arguments ProviderError {E X} e.
Arguments HeaderNotFound {E X} block.
Arguments Internal {E X} e.
Arguments EthFeesError {E X} x.

(** ** The API (priority_fee.rs) *)

Section PriorityFee.
Context `{AlloyForks} `{AlloyEips} {S : Type} `{DogeosHardforks S} `{!EthChainSpec S} `{!ChainConfig S}
  {DB E : Type} `{Database DB E} `{EthTxs} `{Rlp} {W Percentile X : Type} `{!Client W DB E}
  `{!EthRpc W Percentile E X}.
Context (chain_spec : S).

Record DogeosPriorityFeeApi := {
  max_price : option U256;
  min_suggested_priority_fee : U256;
  payload_size_limit : Z;
}.

(** [new] takes the minimum as a [u64]. *)
Definition new (max_price : option U256) (min_suggested_priority_fee payload_size_limit : Z) :
    DogeosPriorityFeeApi :=
  {| max_price := max_price; min_suggested_priority_fee := min_suggested_priority_fee;
     payload_size_limit := payload_size_limit |}.

(** The largest gas of a transaction, from the cumulative gas of the receipts. *)
Definition max_gas_used (receipts : list Z) : Z :=
  (fold_left (fun '(max_tx_gas_used, last_cumulative_gas) cumulative_gas =>
     (Z.max max_tx_gas_used (saturating_sub cumulative_gas last_cumulative_gas), cumulative_gas))
   receipts (0, 0)).1.

Definition payload_sizes (transactions : list TxEnvelope.ScrollTxEnvelope) : Z * Z :=
  fold_left (fun '(total, max) transaction =>
    let len := TxEnvelope.encode_2718_len transaction in
    (saturating_add u64_max total len, Z.max max len)) transactions (0, 0).

Definition block_at_capacity (self : DogeosPriorityFeeApi) (header : Header) (block : CachedBlock) : bool :=
  let '(total_payload_size, max_tx_payload_size) := payload_sizes (cb_transactions block) in
  is_at_capacity (gas_used header) (gas_limit header) (max_gas_used (cb_cumulative_gas block))
    total_payload_size max_tx_payload_size (payload_size_limit self).

(** The tips of a block: above its base fee, or the priority fee without one. *)
Definition block_tips (block : CachedBlock) : list Z :=
  omap (fun transaction =>
    match cb_base_fee_per_gas block with
    | Some base_fee => effective_tip_per_gas transaction base_fee
    | None => Some (TxEnvelope.priority_fee_or_price transaction)
    end) (cb_transactions block).

Definition priority_fee_for_block (self : DogeosPriorityFeeApi) (block : BlockNumberOrTag) :
    sresult W (RpcFeeError E X) (U256 * bool) := fun w =>
  match sealed_header_by_number_or_tag w block with
  | (Err e, w) => (Err (ProviderError e), w)
  | (Ok None, w) => (Err (HeaderNotFound block), w)
  | (Ok (Some header), w) =>
      match get_block_and_receipts w (sealed_hash header) with
      | (Err e, w) => (Err (ProviderError e), w)
      | (Ok None, w) => (Ok (min_suggested_priority_fee self, false), w)
      | (Ok (Some block), w) =>
          if negb (block_at_capacity self (sealed_header header) block) then
            (Ok (min_suggested_priority_fee self, false), w)
          else
            (Ok (capacity_tip (block_tips block) (min_suggested_priority_fee self) (max_price self), true), w)
      end
  end.

Definition suggested_priority_fee (self : DogeosPriorityFeeApi) : sresult W (RpcFeeError E X) U256 := fun w =>
  let '(r, w) := priority_fee_for_block self Latest w in (rmap fst r, w).

(** [last_mut]. *)
Definition set_last (l : list Z) (x : Z) : list Z :=
  match l with [] => [] | _ => removelast l ++ [x] end.

Definition with_next_base_fee (history : FeeHistory) (next_base_fee : Z) : FeeHistory :=
  {| base_fee_per_gas := set_last (base_fee_per_gas history) next_base_fee;
     gas_used_ratio := gas_used_ratio history; oldest_block := oldest_block history;
     reward := reward history |}.

(** [U256::to::<u128>] panics when the value does not fit. *)
Definition with_reward (history : FeeHistory) (suggestion : U256) (percentiles : nat) : outcome FeeHistory :=
  if u128_max <? suggestion then Panics "Uint conversion error"
  else Returns
    {| base_fee_per_gas := base_fee_per_gas history; gas_used_ratio := gas_used_ratio history;
       oldest_block := oldest_block history;
       reward := Some (replicate (length (gas_used_ratio history)) (replicate percentiles suggestion)) |}.

(** The fee of the block after [last_header], from its own state. *)
Definition next_base_fee (last_header : SealedHeader) (w : W) :
    outcome (result Z (RpcFeeError E X)) * W :=
  match state_by_block_hash w (sealed_hash last_header) with
  | (Err e, w) => (Returns (Err (ProviderError e)), w)
  | (Ok state, w) =>
      (match predict_next_block_base_fee chain_spec state (sealed_header last_header) with
       | Panics msg => Panics msg
       | Returns (r, _) => Returns (map_err Internal r)
       end, w)
  end.

Definition fee_history (self : DogeosPriorityFeeApi) (block_count : Z) (newest_block : BlockNumberOrTag)
    (reward_percentiles : option (list Percentile)) (w : W) : outcome (result FeeHistory (RpcFeeError E X)) * W :=
  match eth_fee_history w block_count newest_block reward_percentiles with
  | (Err x, w) => (Returns (Err (EthFeesError x)), w)
  | (Ok history, w) =>
      if block_count =? 0 then (Returns (Ok history), w)
      else
        let newest_block := match newest_block with PendingTag => Latest | b => b end in
        match sealed_header_by_number_or_tag w newest_block with
        | (Err e, w) => (Returns (Err (ProviderError e)), w)
        | (Ok None, w) => (Returns (Err (HeaderNotFound newest_block)), w)
        | (Ok (Some last_header), w) =>
            match next_base_fee last_header w with
            | (Panics msg, w) => (Panics msg, w)
            | (Returns (Err e), w) => (Returns (Err e), w)
            | (Returns (Ok next), w) =>
                let history := with_next_base_fee history next in
                match reward_percentiles with
                | None => (Returns (Ok history), w)
                | Some percentiles =>
                    match priority_fee_for_block self newest_block w with
                    | (Err e, w) => (Returns (Err e), w)
                    | (Ok (suggestion, at_capacity), w) =>
                        if negb at_capacity then
                          (match with_reward history suggestion (length percentiles) with
                           | Panics msg => Panics msg
                           | Returns history => Returns (Ok history)
                           end, w)
                        else (Returns (Ok history), w)
                    end
                end
            end
        end
  end.

(** [into_rpc]: the methods by name. Parameters are read in order, and nothing is
    asked of the node before they all are. *)
Inductive FeeAnswer : Type := SuggestedFee (tip : U256) | History (history : FeeHistory).

Class FeeParams (Params ParamError : Type) := {
  Sequence : Type;
  sequence : Params -> Sequence;
  next_u64 : Sequence -> result Z ParamError * Sequence;
  next_block : Sequence -> result BlockNumberOrTag ParamError * Sequence;
  optional_next_percentiles : Sequence -> result (option (list Percentile)) ParamError * Sequence;
}.

Definition read_fee_history_params {Params ParamError} `{!FeeParams Params ParamError} (params : Params) :
    result (Z * BlockNumberOrTag * option (list Percentile)) ParamError :=
  let params := sequence params in
  let '(block_count, params) := next_u64 params in
  let? block_count := block_count in
  let '(newest_block, params) := next_block params in
  let? newest_block := newest_block in
  let? reward_percentiles := (optional_next_percentiles params).1 in
  Ok (block_count, newest_block, reward_percentiles).

Definition priority_fee_into_rpc {Params ParamError} `{!FeeParams Params ParamError} (self : DogeosPriorityFeeApi) :
    list (string * (Params -> W -> outcome (result FeeAnswer (ParamError + RpcFeeError E X)) * W)) :=
  [ ("eth_maxPriorityFeePerGas"%string, fun _ w =>
       let '(r, w) := suggested_priority_fee self w in (Returns (map_err inr (rmap SuggestedFee r)), w));
    ("eth_feeHistory"%string, fun params w =>
       match read_fee_history_params params with
       | Err e => (Returns (Err (inl e)), w)
       | Ok (block_count, newest_block, reward_percentiles) =>
           match fee_history self block_count newest_block reward_percentiles w with
           | (Panics msg, w) => (Panics msg, w)
           | (Returns r, w) => (Returns (map_err inr (rmap History r)), w)
           end
       end) ].
End PriorityFee.

(** ** Forwarding (forwarder.rs, sequencer.rs) *)

(** The local node's own method, the JSON-RPC client of the sequencer, and hex
    strings; [EthApiError::other]. *)
Class Forwarding (W EthApiError RpcError : Type) := {
  eth_send_raw_transaction : W -> bytes -> result B256 EthApiError * W;
  rpc_request : W -> string -> list string -> result B256 RpcError * W;
  hex_encode_prefixed : bytes -> string;
  other_error : RpcError -> EthApiError;
}.

Section Forwarder.
Context {W EthApiError RpcError : Type} `{!Forwarding W EthApiError RpcError}.

Definition forward_raw_transaction (transaction : bytes) (w : W) : result B256 RpcError * W :=
  rpc_request w "eth_sendRawTransaction" [hex_encode_prefixed transaction].

(** The node with the tasks its runtime has still to run: each forwards one
    transaction and logs the answer. *)
Record Node := { world : W; tasks : list bytes }.

Definition spawn_task (n : Node) (raw : bytes) : Node := {| world := world n; tasks := tasks n ++ [raw] |}.

Definition run_task (n : Node) : option Node :=
  match tasks n with
  | [] => None
  | raw :: tasks => Some {| world := (forward_raw_transaction raw (world n)).2; tasks := tasks |}
  end.

Record DogeosRawTransactionForwarder := { propagate_local_transactions : bool }.

Definition new_forwarder (propagate_local_transactions : bool) : DogeosRawTransactionForwarder :=
  {| propagate_local_transactions := propagate_local_transactions |}.

Definition send_raw_transaction (self : DogeosRawTransactionForwarder) (raw : bytes) (n : Node) :
    result B256 EthApiError * Node :=
  match eth_send_raw_transaction (world n) raw with
  | (Err e, w) => (Err e, {| world := w; tasks := tasks n |})
  | (Ok local_hash, w) =>
      let n := {| world := w; tasks := tasks n |} in
      if propagate_local_transactions self then (Ok local_hash, spawn_task n raw)
      else
        match forward_raw_transaction raw (world n) with
        | (Err error, w) => (Err (other_error error), {| world := w; tasks := tasks n |})
        | (Ok sequencer_hash, w) => (Ok local_hash, {| world := w; tasks := tasks n |})
        end
  end.

(** [into_rpc]: the one method, whose parameter is read first. *)
Definition forwarder_into_rpc {Params ParamError : Type} (one_bytes : Params -> result bytes ParamError)
    (self : DogeosRawTransactionForwarder) :
    list (string * (Params -> Node -> result B256 (ParamError + EthApiError) * Node)) :=
  [ ("eth_sendRawTransaction"%string, fun params n =>
       match one_bytes params with
       | Err e => (Err (inl e), n)
       | Ok raw => let '(r, n) := send_raw_transaction self raw n in (map_err inr r, n)
       end) ].
End Forwarder.

(** ** The sequencer's client (sequencer.rs) *)

(** Connection strings, URLs, transports and clients of alloy and reqwest. *)
Class ClientLib (W : Type) := {
  Url : Type;
  OtherConnection : Type;
  ReqwestClient : Type;
  Transport : Type;
  RpcClient : Type;
  TransportError : Type;
  ReqwestError : Type;
  connection_from_str : string -> result (Url + OtherConnection) TransportError;
  rustls_client : result ReqwestClient ReqwestError;
  url_string : Url -> string;
  parse_url : string -> option Url;
  http_with_client : ReqwestClient -> Url -> Transport;
  guess_local : Transport -> bool;
  client_transport : Transport -> bool -> RpcClient;
  connect_with : OtherConnection -> sresult W TransportError RpcClient;
}.

(** A URL's string parses back to it; a connection string that names a URL is a
    string that parses to it. *)
Class ClientLibLaws (W : Type) `{ClientLib W} : Prop := {
  url_parses u : parse_url (url_string u) = Some u;
  http_parses s u : connection_from_str s = Ok (inl u) -> parse_url s = Some u;
}.

Module Sequencer.
Section Client.
Context {W : Type} `{ClientLib W}.

Inductive SequencerConnectError : Type :=
| InvalidUrl (endpoint : string)
| TransportFailed (e : TransportError)
| HttpClient (e : ReqwestError).

(** The client behind an [Arc]. *)
Record SequencerClient := { endpoint : string; client : RpcClient }.

Definition from_client (endpoint : string) (client : RpcClient) : SequencerClient :=
  {| endpoint := endpoint; client := client |}.

Definition with_http_client (endpoint : string) (client : ReqwestClient) :
    result SequencerClient SequencerConnectError :=
  match parse_url endpoint with
  | None => Err (InvalidUrl endpoint)
  | Some url =>
      let transport := http_with_client client url in
      let is_local := guess_local transport in
      Ok (from_client endpoint (client_transport transport is_local))
  end.

Definition new (endpoint : string) : sresult W SequencerConnectError SequencerClient := fun w =>
  match connection_from_str endpoint with
  | Err e => (Err (TransportFailed e), w)
  | Ok (inl url) =>
      match rustls_client with
      | Err e => (Err (HttpClient e), w)
      | Ok client => (with_http_client (url_string url) client, w)
      end
  | Ok (inr connection) =>
      match connect_with connection w with
      | (Err e, w) => (Err (TransportFailed e), w)
      | (Ok client, w) => (Ok (from_client endpoint client), w)
      end
  end.

(** An HTTP endpoint costs no connection and never fails on its URL: the client
    is that of the URL with the transport's own guess, and its endpoint is the
    URL's string. *)
Lemma new_http `{!ClientLibLaws W} s url (w : W) :
  connection_from_str s = Ok (inl url) ->
  new s w = (match rustls_client with
             | Err e => Err (HttpClient e)
             | Ok c => let transport := http_with_client c url in
                       Ok (from_client (url_string url) (client_transport transport (guess_local transport)))
             end, w)
  /\ forall c self, with_http_client s c = Ok self ->
       client self = client_transport (http_with_client c url) (guess_local (http_with_client c url)).
Proof.
  intros Hs. split.
  - unfold new, with_http_client. rewrite Hs. destruct rustls_client; [|done]. by rewrite url_parses.
  - intros c self. unfold with_http_client. rewrite (http_parses s url Hs). by intros [= <-].
Qed.
End Client.
End Sequencer.

(** ** Specifications *)

(** A median: the middle tip, or the mean, rounded down, of the middle two. *)
Inductive median_of (tips : list Z) : Z -> Prop :=
| MedianOdd lo m hi :
    tips ≡ₚ lo ++ m :: hi -> length lo = length hi ->
    Forall (fun x => x <= m) lo -> Forall (fun x => m <= x) hi -> median_of tips m
| MedianEven lo a b hi :
    tips ≡ₚ lo ++ a :: b :: hi -> length lo = length hi -> a <= b ->
    Forall (fun x => x <= a) lo -> Forall (fun x => b <= x) hi -> median_of tips ((a + b) / 2).

(** The capacity rule on the true gas and sizes of a block. *)
Definition full_block (largest_gas payload largest_payload limit : Z) (header : Header) : Prop :=
  gas_limit header < gas_used header + largest_gas \/ limit < payload + largest_payload.

Lemma sorted_split l k x :
  StronglySorted Z.le l -> l !! k = Some x ->
  l = take k l ++ x :: drop (S k) l /\ Forall (fun y => y <= x) (take k l) /\ Forall (fun y => x <= y) (drop (S k) l).
Proof.
  intros Hs Hk. assert (El : l = take k l ++ x :: drop (S k) l) by (symmetry; by apply take_drop_middle).
  split; [done|]. rewrite El in Hs. apply StronglySorted_app in Hs as (Hc & _ & Hs). split.
  - apply Forall_forall. intros y Hy. apply Hc; [done|by left].
  - apply StronglySorted_cons in Hs as [Hs _]. exact Hs.
Qed.

Lemma median_tip_sorted l :
  StronglySorted Z.le l -> l <> [] -> Forall (fun x => 0 <= x < 2 ^ 127) l ->
  median_of l (median_tip l) /\ 0 <= median_tip l < 2 ^ 127.
Proof.
  intros Hs Hne Hr. unfold median_tip. pose proof (Nat.div_mod_eq (length l) 2) as Hdm.
  assert (0 < length l)%nat by (destruct l; [done|simpl; lia]).
  assert (Hnth : forall k, (k < length l)%nat -> l !! k = Some (nth k l 0))
    by (intros k Hk; rewrite nth_lookup; by destruct (lookup_lt_is_Some_2 l k Hk) as [x ->]).
  set (h := (length l / 2)%nat) in *. case_bool_decide as Hm.
  - rewrite Hm in Hdm. destruct (sorted_split l h _ Hs (Hnth h ltac:(lia))) as (El & Hlo & Hhi). split.
    + apply (MedianOdd l (take h l) (nth h l 0) (drop (S h) l)); [by rewrite <- El| |done|done].
      rewrite length_take, length_drop. lia.
    + rewrite Forall_forall in Hr. apply Hr, list_elem_of_lookup. exists h. apply Hnth. lia.
  - assert (Hz : (length l mod 2 = 0)%nat) by (pose proof (Nat.mod_upper_bound (length l) 2); lia).
    rewrite Hz in Hdm. set (a := nth (h - 1)%nat l 0). set (b := nth h l 0).
    assert (Ha : 0 <= a < 2 ^ 127) by (rewrite Forall_forall in Hr; apply Hr, list_elem_of_lookup; exists (h - 1)%nat; apply Hnth; lia).
    assert (Hb : 0 <= b < 2 ^ 127) by (rewrite Forall_forall in Hr; apply Hr, list_elem_of_lookup; exists h; apply Hnth; lia).
    replace (wrap u128_max (a + b)) with (a + b) by (unfold wrap, u128_max; rewrite Z.mod_small; lia).
    destruct (sorted_split l (h - 1)%nat a Hs (Hnth (h - 1)%nat ltac:(lia))) as (El & Hlo & Hhi).
    assert (Eh : (S (h - 1))%nat = h) by lia. rewrite Eh in El, Hhi.
    assert (Ed : drop h l = b :: drop (S h) l) by (apply drop_S, Hnth; lia).
    rewrite Ed in Hhi. apply Forall_cons in Hhi as [Hab _].
    split; [|split; [apply Z.div_pos|apply Z.div_lt_upper_bound]; lia].
    destruct (sorted_split l h b Hs (Hnth h ltac:(lia))) as (_ & _ & Hhi).
    eapply (MedianEven l (take (h - 1)%nat l) a b (drop (S h) l)); try done.
    + by rewrite <- Ed, <- El.
    + rewrite length_take, length_drop. lia.
Qed.

Lemma capacity_tip_median tips minimum maximum :
  tips <> [] -> Forall (fun x => 0 <= x < 2 ^ 127) tips ->
  exists m, median_of tips m /\
    capacity_tip tips minimum maximum =
    match maximum with
    | Some cap => Z.min (Z.max (m + m / 10) minimum) cap
    | None => Z.max (m + m / 10) minimum
    end.
Proof.
  intros Hne Hr. exists (median_tip (merge_sort Z.le tips)).
  pose proof (merge_sort_Permutation Z.le tips) as Hp.
  destruct (median_tip_sorted (merge_sort Z.le tips)) as [Hm Hb].
  - apply StronglySorted_merge_sort; apply _.
  - intros E. rewrite E in Hp. by apply Permutation_nil_l in Hp.
  - by rewrite Hp.
  - split.
    + destruct Hm as [lo m hi Hl ? ? ?|lo a b hi Hl ? ? ? ?]; [eapply MedianOdd|eapply MedianEven]; try done;
        by rewrite <- Hl, Hp.
    + unfold capacity_tip. destruct tips as [|t tips]; [done|].
      set (m := median_tip _) in *. assert (0 <= m / 10 <= m) by (split; [apply Z.div_pos|apply Z.div_le_upper_bound]; lia).
      replace (wrap u256_max (m + m / 10)) with (m + m / 10); [done|].
      unfold wrap, u256_max. rewrite Z.mod_small; [done|]. change (2 ^ 256 - 1 + 1) with (2 ^ 256).
      assert (2 ^ 128 <= 2 ^ 256) by (apply Z.pow_le_mono_r; lia). lia.
Qed.

Lemma capacity_tip_perm tips tips' minimum maximum :
  tips ≡ₚ tips' -> capacity_tip tips minimum maximum = capacity_tip tips' minimum maximum.
Proof.
  intros Hp. assert (E : merge_sort Z.le tips = merge_sort Z.le tips').
  { apply (Sorted_unique Z.le); [apply Sorted_merge_sort; apply _..|].
    by rewrite !merge_sort_Permutation. }
  unfold capacity_tip. rewrite E. destruct tips as [|a l], tips' as [|a' l']; try done.
  - by apply Permutation_nil_cons in Hp.
  - symmetry in Hp. by apply Permutation_nil_cons in Hp.
Qed.

(** The gas of each transaction, from the cumulative gas before and after it. *)
Fixpoint gas_of_each (before : Z) (cumulative : list Z) : list Z :=
  match cumulative with [] => [] | c :: cs => (c - before) :: gas_of_each c cs end.

Definition largest (l : list Z) : Z := foldr Z.max 0 l.
Definition total (l : list Z) : Z := foldr Z.add 0 l.

Lemma largest_nonneg l : 0 <= largest l.
Proof. unfold largest. induction l; cbn; lia. Qed.
Lemma total_nonneg l : Forall (fun n => 0 <= n) l -> 0 <= total l.
Proof. unfold total. induction 1; cbn; lia. Qed.

Lemma max_gas_used_largest receipts : max_gas_used receipts = largest (gas_of_each 0 receipts).
Proof.
  unfold max_gas_used. assert (G : forall l m b, 0 <= m ->
    (fold_left (fun '(max, last) c => (Z.max max (saturating_sub c last), c)) l (m, b)).1
    = Z.max m (largest (gas_of_each b l))).
  { induction l as [|c l IH]; intros m b Hm; cbn [fold_left gas_of_each].
    - unfold largest. cbn. lia.
    - rewrite IH by solve_ints. pose proof (largest_nonneg (gas_of_each c l)).
      unfold saturating_sub, largest in *. cbn [foldr]. lia. }
  rewrite G by lia. pose proof (largest_nonneg (gas_of_each 0 receipts)). lia.
Qed.

Section FeeLemmas.
Context `{EthTxs} `{Rlp}.

Definition sizes (txs : list TxEnvelope.ScrollTxEnvelope) : list Z := map TxEnvelope.encode_2718_len txs.

Lemma payload_sizes_spec txs :
  Forall (fun n => 0 <= n) (sizes txs) ->
  payload_sizes txs = (Z.min (total (sizes txs)) u64_max, largest (sizes txs)).
Proof.
  unfold payload_sizes. assert (G : forall l t m, Forall (fun n => 0 <= n) (sizes l) -> 0 <= t <= u64_max -> 0 <= m ->
    fold_left (fun '(total, max) tx =>
      let len := TxEnvelope.encode_2718_len tx in (saturating_add u64_max total len, Z.max max len)) l (t, m)
    = (Z.min (t + total (sizes l)) u64_max, Z.max m (largest (sizes l)))).
  { induction l as [|x l IH]; intros t m Hl Ht Hm; cbn [fold_left].
    - unfold total, largest. cbn. f_equal; lia.
    - change (sizes (x :: l)) with (TxEnvelope.encode_2718_len x :: sizes l) in Hl |- *.
      apply Forall_cons in Hl as [Hx Hl]. cbn zeta. rewrite IH by (solve_ints || done).
      pose proof (total_nonneg _ Hl). unfold total, largest, saturating_add in *. cbn [foldr].
      f_equal; lia. }
  intros Hl. rewrite G by (done || (unfold u64_max; lia)).
  pose proof (largest_nonneg (sizes txs)). f_equal; lia.
Qed.

Lemma is_at_capacity_true u l g p m s :
  l < u64_max -> s < u64_max ->
  is_at_capacity u l g (Z.min p u64_max) m s = true <-> (l < u + g \/ s < Z.min p u64_max + m).
Proof. unfold is_at_capacity, saturating_add. rewrite orb_true_iff, !Z.ltb_lt. lia. Qed.

Lemma block_at_capacity_spec (self : DogeosPriorityFeeApi) (header : Header) (block : CachedBlock) :
  gas_limit header < u64_max -> payload_size_limit self < u64_max ->
  Forall (fun n => 0 <= n) (sizes (cb_transactions block)) ->
  block_at_capacity self header block = true <->
  full_block (largest (gas_of_each 0 (cb_cumulative_gas block))) (total (sizes (cb_transactions block)))
    (largest (sizes (cb_transactions block))) (payload_size_limit self) header.
Proof.
  intros Hg Hp Hs. unfold block_at_capacity, full_block. rewrite payload_sizes_spec, max_gas_used_largest by done.
  rewrite is_at_capacity_true by done.
  pose proof (largest_nonneg (sizes (cb_transactions block))). lia.
Qed.

(** A block with room gets the minimum. *)
Lemma priority_fee_not_full {W Percentile E X} `{!EthRpc W Percentile E X} (self : DogeosPriorityFeeApi) block w tip w' :
  priority_fee_for_block self block w = (Ok (tip, false), w') -> tip = min_suggested_priority_fee self.
Proof.
  unfold priority_fee_for_block.
  destruct (sealed_header_by_number_or_tag w block) as [[[h|]|e] w1]; try done.
  destruct (get_block_and_receipts w1 _) as [[[b|]|e] w2]; try done; [|by intros [= <- _]].
  destruct (negb (block_at_capacity self (sealed_header h) b)); intros [=]; done.
Qed.
End FeeLemmas.

(** ** Properties *)

(** The tip suggested for a full block is the median of its tips and a tenth more,
    raised to the configured minimum and then cut at the maximum; it does not
    depend on the order of the transactions. A block without tips gives the
    minimum. The two middle tips are added on 128 bits, so the mean is exact
    while they are below [2^127]. *)
Theorem capacity_tip_spec (tips : list Z) (minimum : U256) (maximum : option U256) :
  capacity_tip [] minimum maximum = minimum
  /\ (forall tips', tips ≡ₚ tips' -> capacity_tip tips minimum maximum = capacity_tip tips' minimum maximum)
  /\ (tips <> [] -> Forall (fun x => 0 <= x < 2 ^ 127) tips ->
      exists m, median_of tips m /\
        capacity_tip tips minimum maximum =
        match maximum with
        | Some cap => Z.min (Z.max (m + m / 10) minimum) cap
        | None => Z.max (m + m / 10) minimum
        end)
  /\ (tips <> [] ->
      (forall cap, maximum = Some cap -> capacity_tip tips minimum maximum <= cap)
      /\ (minimum <= capacity_tip tips minimum maximum \/ maximum = Some (capacity_tip tips minimum maximum))).
Proof.
  split; [done|]. split; [intros; by apply capacity_tip_perm|]. split; [apply capacity_tip_median|].
  intros Hne. unfold capacity_tip. destruct tips as [|t tips]; [done|]. set (s := wrap _ _).
  destruct maximum as [cap|]; [|split; [done|left; lia]]. split.
  - intros c [= <-]. lia.
  - destruct (Z.le_ge_cases (Z.max s minimum) cap); [left|right; f_equal]; lia.
Qed.

(** The priority fee of a block. A missing header is an error; without the block in
    the cache, or while the block has room for one more transaction as large as
    its largest, in gas and in bytes, the configured minimum is suggested;
    otherwise the tip of the full block. Gas and sizes are the true ones: the
    saturating sums of the code do not change the answer. *)
Theorem priority_fee_spec `{EthTxs} `{Rlp} {W Percentile E X} `{!EthRpc W Percentile E X}
    (self : DogeosPriorityFeeApi) (tag : BlockNumberOrTag) (w w1 w2 : W)
    (found : option SealedHeader) (cached : option CachedBlock) :
  sealed_header_by_number_or_tag w tag = (Ok found, w1) ->
  (forall h, found = Some h -> get_block_and_receipts w1 (sealed_hash h) = (Ok cached, w2)
     /\ gas_limit (sealed_header h) < u64_max) ->
  payload_size_limit self < u64_max ->
  (forall b, cached = Some b -> Forall (fun n => 0 <= n) (sizes (cb_transactions b))) ->
  (found = None -> priority_fee_for_block self tag w = (Err (HeaderNotFound tag), w1))
  /\ (forall h, found = Some h -> cached = None ->
        priority_fee_for_block self tag w = (Ok (min_suggested_priority_fee self, false), w2))
  /\ (forall h b, found = Some h -> cached = Some b ->
        let full := full_block (largest (gas_of_each 0 (cb_cumulative_gas b))) (total (sizes (cb_transactions b)))
                      (largest (sizes (cb_transactions b))) (payload_size_limit self) (sealed_header h) in
        (~ full -> priority_fee_for_block self tag w = (Ok (min_suggested_priority_fee self, false), w2))
        /\ (full -> priority_fee_for_block self tag w
              = (Ok (capacity_tip (block_tips b) (min_suggested_priority_fee self) (max_price self), true), w2))).
Proof.
  intros Hh Hc Hp Hs. unfold priority_fee_for_block. rewrite Hh. split; [by intros ->|]. split.
  - intros h Ef Eb. subst found cached. destruct (Hc h eq_refl) as [-> _]. done.
  - intros h b Ef Eb. subst found cached. destruct (Hc h eq_refl) as [-> Hg].
    pose proof (block_at_capacity_spec self (sealed_header h) b Hg Hp (Hs b eq_refl)) as Hfull.
    destruct (block_at_capacity self (sealed_header h) b); cbn [negb]; split; intros Hx; try done.
    + by destruct Hx, Hfull; auto.
    + by apply Hfull in Hx.
Qed.

(** The fee history served. It is reth's, unchanged when no block is asked for;
    otherwise its last base fee, the one of the next block, is replaced by the
    base-fee rule on the state of the newest block, at the next second, and the
    rewards, when asked for, by the minimum tip for every percentile of every
    block while the newest block has room. The answer never panics when the
    minimum is a machine integer and the headers carry a base fee. *)
Theorem fee_history_spec `{AlloyForks} `{AlloyEips} {S} `{DogeosHardforks S} `{!EthChainSpec S} `{!ChainConfig S}
    {DB E} `{Database DB E} `{DatabaseView DB} `{!DatabaseLaws DB E} `{EthTxs} `{Rlp} {W Percentile X}
    `{!Client W DB E} `{!EthRpc W Percentile E X} (chain_spec : S) (self : DogeosPriorityFeeApi) (count : Z)
    (newest : BlockNumberOrTag) (percentiles : option (list Percentile)) (w : W) :
  let block := match newest with PendingTag => Latest | b => b end in
  (forall history' w', fee_history chain_spec self count newest percentiles w = (Returns (Ok history'), w') ->
   exists history w1, eth_fee_history w count newest percentiles = (Ok history, w1) /\
   (count = 0 -> history' = history) /\
   (count <> 0 -> exists h state p w2 w3,
      sealed_header_by_number_or_tag w1 block = (Ok (Some h), w2)
      /\ state_by_block_hash w2 (sealed_hash h) = (Ok state, w3) /\ from_header (sealed_header h) = Some p
      /\ base_fee_per_gas history' = set_last (base_fee_per_gas history)
           (expected_base_fee chain_spec
              (slot_of state (l2_system_config_address (l1_config (chain_config chain_spec))) 101) p
              (Z.min (timestamp (sealed_header h) + 1) u64_max))
      /\ gas_used_ratio history' = gas_used_ratio history /\ oldest_block history' = oldest_block history
      /\ match percentiles with
         | None => reward history' = reward history
         | Some ps =>
             exists tip full, priority_fee_for_block self block w3 = (Ok (tip, full), w')
             /\ reward history' =
                  if full : bool then reward history
                  else Some (replicate (length (gas_used_ratio history))
                               (replicate (length ps) (min_suggested_priority_fee self)))
         end))
  /\ (in_u64 (min_suggested_priority_fee self) ->
      (forall w h w', sealed_header_by_number_or_tag w block = (Ok (Some h), w') ->
         is_Some (Chain.base_fee_per_gas (sealed_header h))) ->
      forall msg w', fee_history chain_spec self count newest percentiles w <> (Panics msg, w')).
Proof.
  cbn zeta. unfold fee_history. set (block := match newest with PendingTag => Latest | b => b end).
  destruct (eth_fee_history w count newest percentiles) as [[history|x] w1]; [|split; [done|by intros ? ? ? ?]].
  destruct (Z.eqb_spec count 0) as [->|Hc].
  { split; [|by intros ? ? ? ?]. intros h' w' [= <- <-]. exists history, w1. by repeat split. }
  destruct (sealed_header_by_number_or_tag w1 block) as [[[h|]|e] w2] eqn:Eh; try (split; [done|by intros ? ? ? ?]).
  unfold next_base_fee, predict_next_block_base_fee, next_block_base_fee.
  destruct (state_by_block_hash w2 (sealed_hash h)) as [[state|e] w3] eqn:Es; try (split; [done|by intros ? ? ? ?]).
  destruct (from_header (sealed_header h)) as [p|] eqn:Ep.
  2:{ split; [done|]. intros _ Hb. specialize (Hb w1 h w2 Eh). unfold from_header in Ep.
      by destruct (Chain.base_fee_per_gas (sealed_header h)); [|destruct Hb]. }
  destruct (next_block_base_fee_for_parent chain_spec state p _) as [[fee|e] db] eqn:En;
    cbn [map_err]; [|split; [done|by intros ? ? ? ?]].
  apply for_parent_reads in En. subst fee.
  destruct percentiles as [ps|].
  - destruct (priority_fee_for_block self block w3) as [[[tip full]|e] w4] eqn:Ef; [|split; [done|by intros ? ? ? ?]].
    destruct full; cbn [negb].
    + split; [|by intros ? ? ? ?]. intros h' w' [= <- <-]. exists history, w1. split; [done|]. split; [done|].
      intros _. exists h, state, p, w2, w3. repeat split; try done. by exists tip, true.
    + apply priority_fee_not_full in Ef as Hmin. subst tip. unfold with_reward.
      destruct (Z.ltb_spec u128_max (min_suggested_priority_fee self)) as [Hbig|Hsmall].
      * split; [done|]. intros Hu. exfalso. revert Hu Hbig. solve_ints.
      * split; [|by intros ? ? ? ?]. intros h' w' [= <- <-]. exists history, w1. split; [done|]. split; [done|].
        intros _. exists h, state, p, w2, w3. repeat split; try done. by exists (min_suggested_priority_fee self), false.
  - split; [|by intros ? ? ? ?]. intros h' w' [= <- <-]. exists history, w1. split; [done|]. split; [done|].
    intros _. by exists h, state, p, w2, w3.
Qed.

(** Where a raw transaction goes. It is given to the local node first; when that
    fails, its error is the answer and nothing is forwarded. A node that
    propagates local transactions answers with the local hash at once, and one
    task is left that forwards the transaction, whose answer no caller sees;
    another node forwards it before it answers, and reports the sequencer's
    failure, with the transaction in the local pool all the same. *)
Theorem forwarding_policy {W EthApiError RpcError} `{!Forwarding W EthApiError RpcError}
    (self : DogeosRawTransactionForwarder) (raw : bytes) (n : Node) :
  let '(local, w) := eth_send_raw_transaction (world n) raw in
  let '(answer, n') := send_raw_transaction self raw n in
  match local with
  | Err e => answer = Err e /\ n' = {| world := w; tasks := tasks n |}
  | Ok hash =>
      if propagate_local_transactions self then
        answer = Ok hash /\ n' = {| world := w; tasks := tasks n ++ [raw] |}
        /\ (tasks n = [] -> run_task n'
            = Some {| world := (rpc_request w "eth_sendRawTransaction" [hex_encode_prefixed raw]).2; tasks := [] |})
      else
        tasks n' = tasks n
        /\ world n' = (rpc_request w "eth_sendRawTransaction" [hex_encode_prefixed raw]).2
        /\ answer = match (rpc_request w "eth_sendRawTransaction" [hex_encode_prefixed raw]).1 with
                    | Ok _ => Ok hash
                    | Err e => Err (other_error e)
                    end
  end.
Proof.
  unfold send_raw_transaction, forward_raw_transaction, spawn_task, run_task.
  destruct (eth_send_raw_transaction (world n) raw) as [[hash|e] w]; [|done].
  destruct (propagate_local_transactions self); cbn [world tasks].
  - split; [done|]. split; [done|]. intros ->. reflexivity.
  - by destruct (rpc_request w _ _) as [[h|e] w'].
Qed.

(** ** Witnesses *)

(** A node whose latest block has one transaction; nothing is known of others. *)
#[export] Instance ref_eth_rpc : EthRpc Z Z unit string := {
  sealed_header_by_number_or_tag m tag :=
    (Ok (match tag with
         | Latest => Some {| sealed_hash := 10; sealed_header := sample_header (Some 1000000000) |}
         | _ => None
         end), m + 1);
  get_block_and_receipts m hash :=
    (Ok (Some {| cb_base_fee_per_gas := Some 5; cb_transactions := [TxEnvelope.Eip1559 TxEnv.sample_signed];
                 cb_cumulative_gas := [21000] |}), m + 1);
  eth_fee_history m _ _ _ :=
    (Ok {| base_fee_per_gas := [1000000000; 7]; gas_used_ratio := [50]; oldest_block := 5; reward := None |}, m + 1);
  effective_tip_per_gas tx base_fee :=
    if TxEnvelope.max_fee_per_gas tx <? base_fee then None
    else Some (match TxEnvelope.max_priority_fee_per_gas tx with
               | Some p => Z.min (TxEnvelope.max_fee_per_gas tx - base_fee) p
               | None => TxEnvelope.max_fee_per_gas tx - base_fee
               end);
}.

#[export] Instance ref_eth_rpc_laws : EthRpcLaws Z Z unit string.
Proof. by split. Qed.

Definition sample_fee_api (limit : Z) : DogeosPriorityFeeApi := new None 100 limit.

Lemma capacity_tip_spec_witness :
  exists m, median_of [100; 300; 200; 220] m
    /\ capacity_tip [100; 300; 200; 220] 100 (Some 500) = Z.min (Z.max (m + m / 10) 100) 500.
Proof.
  destruct (capacity_tip_spec [100; 300; 200; 220] 100 (Some 500)) as (_ & _ & Hm & _).
  apply Hm; [discriminate|]. repeat constructor; discriminate.
Defined.

Definition sample_cached : CachedBlock :=
  {| cb_base_fee_per_gas := Some 5; cb_transactions := [TxEnvelope.Eip1559 TxEnv.sample_signed];
     cb_cumulative_gas := [21000] |}.

Lemma priority_fee_spec_witness :
  priority_fee_for_block (E := unit) (X := string) (sample_fee_api 5) Latest 0 = (Ok (100, true), 2).
Proof.
  destruct (priority_fee_spec (E := unit) (X := string) (sample_fee_api 5) Latest 0 1 2
    (Some {| sealed_hash := 10; sealed_header := sample_header (Some 1000000000) |}) (Some sample_cached))
    as (_ & _ & Hfull).
  - reflexivity.
  - intros h [= <-]. split; [reflexivity|vm_compute; reflexivity].
  - vm_compute. reflexivity.
  - intros b [= <-]. repeat constructor. vm_compute. discriminate.
  - destruct (Hfull _ _ eq_refl eq_refl) as [_ Hf]. rewrite Hf; [vm_compute; reflexivity|].
    right. vm_compute. reflexivity.
Defined.

Lemma fee_history_spec_witness :
  exists h, fee_history (DB := MemDb) (E := unit) (X := string) (new_schedule mainnet) (sample_fee_api 100000) 1
      PendingTag (Some [10; 90]) 0 = (Returns (Ok h), 5)
    /\ length (base_fee_per_gas h) = 2%nat /\ reward h = Some [[100; 100]].
Proof.
  destruct (fee_history_spec (DB := MemDb) (E := unit) (X := string) (new_schedule mainnet) (sample_fee_api 100000) 1
    PendingTag (Some [10; 90]) 0) as [Hok _].
  destruct (fee_history (DB := MemDb) (E := unit) (X := string) (new_schedule mainnet) (sample_fee_api 100000) 1
    PendingTag (Some [10; 90]) 0) as [[[h|e]|msg] w'] eqn:Eh; [|by vm_compute in Eh..].
  destruct (Hok h w' eq_refl) as (history & w1 & E1 & _ & Hn). injection E1 as <- <-.
  destruct (Hn ltac:(done)) as (hd & state & p & w2 & w3 & _ & _ & _ & Hb & _ & _ & tip & full & Ef & Hr).
  exists h. split; [f_equal; vm_compute in Eh; by injection Eh as _ <-|]. split; [by rewrite Hb|].
  vm_compute in Eh. by injection Eh as <- _.
Defined.

#[export] Instance ref_forwarding : Forwarding (list string) string string := {
  eth_send_raw_transaction w raw :=
    if bool_decide (raw = []) then (Err "empty"%string, w) else (Ok 7, w ++ ["local"%string]);
  rpc_request w method _ := (Ok 7, w ++ [method]);
  hex_encode_prefixed _ := "0x"%string;
  other_error e := e;
}.

Lemma forwarding_policy_witness :
  send_raw_transaction (new_forwarder false) [1] {| world := []; tasks := [] |}
  = (Ok 7, {| world := ["local"%string; "eth_sendRawTransaction"%string]; tasks := [] |}).
Proof.
  pose proof (forwarding_policy (new_forwarder false) [1] {| world := []; tasks := [] |}) as Hp.
  destruct (send_raw_transaction (new_forwarder false) [1] {| world := []; tasks := [] |}) as [answer [w ts]].
  destruct Hp as (Ht & Hw & Ha). cbn in Ht, Hw, Ha. by subst.
Defined.
