(* ===== verification/RpcTypes.v ===== *)
(** * Transactions and receipts of the JSON-RPC (dogeos-rpc-types, dogeos-reth-rpc)

    request.rs and network.rs: transaction requests and what they build;
    transaction.rs and receipt.rs: the answers and their JSON fields; and the
    converters of dogeos-reth-rpc (transaction.rs, receipt.rs) between them and
    the node's own types. *)

From stdpp Require Import prelude gmap list strings.
From Stdlib Require Import ZArith Lia.
From S2P Require Import Prelude.
From S2P Require Import Alloy.
From S2P Require Import AlloyRef.
From S2P Require Import TxType.
From S2P Require Import L1Message.
From S2P Require Import Envelope.
From S2P Require Import Typed.
From S2P Require Import Receipt.
From S2P Require Import TxEnv.

(** ** Requests of [alloy_rpc_types_eth] *)

(** [alloy_consensus::TxType]. *)
Inductive EthTxType : Type := ELegacy | EEip2930 | EEip1559 | EEip4844 | EEip7702.

Definition eth_type_id (t : EthTxType) : Z :=
  match t with ELegacy => 0 | EEip2930 => 1 | EEip1559 => 2 | EEip4844 => 3 | EEip7702 => 4 end.

Class RequestTypes `{EthTxs} := {
  TransactionInput : Type;
  BlobSidecar : Type;
  TxEip4844 : Type;
  (** [TransactionInput::default] and the conversion from bytes. *)
  no_input : TransactionInput;
  input_of_bytes : bytes -> TransactionInput;
}.

Record TransactionRequest `{RequestTypes} := {
  rq_from : option Address;
  rq_to : option TxKind;
  rq_gas_price : option Z;
  rq_max_fee_per_gas : option Z;
  rq_max_priority_fee_per_gas : option Z;
  rq_max_fee_per_blob_gas : option Z;
  rq_gas : option Z;
  rq_value : option U256;
  rq_input : TransactionInput;
  rq_nonce : option Z;
  rq_chain_id : option Z;
  rq_access_list : option AccessList;
  rq_transaction_type : option Z;
  rq_blob_versioned_hashes : option (list B256);
  rq_sidecar : option BlobSidecar;
  rq_authorization_list : option (list SignedAuthorization);
}.

Inductive TypedTransaction `{RequestTypes} : Type :=
| TLegacy (t : TxLegacy)
| TEip2930 (t : TxEip2930)
| TEip1559 (t : TxEip1559)
| TEip4844 (t : TxEip4844)
| TEip7702 (t : TxEip7702).

Definition typed_transaction_type `{RequestTypes} (t : TypedTransaction) : EthTxType :=
  match t with
  | TLegacy _ => ELegacy | TEip2930 _ => EEip2930 | TEip1559 _ => EEip1559
  | TEip4844 _ => EEip4844 | TEip7702 _ => EEip7702
  end.

(** The methods of the request, and the conversions into one. *)
Class Requests `{RequestTypes} := {
  has_eip4844_fields : TransactionRequest -> bool;
  build_consensus_tx : TransactionRequest -> result TypedTransaction TransactionRequest;
  missing_keys : TransactionRequest -> result EthTxType (EthTxType * list string);
  eth_complete_type : TransactionRequest -> EthTxType -> result unit (list string);
  can_submit : TransactionRequest -> bool;
  can_build : TransactionRequest -> bool;
  preferred_type : TransactionRequest -> EthTxType;
  buildable_type : TransactionRequest -> option EthTxType;
  eth_prep_for_submission : TransactionRequest -> TransactionRequest;
  eth_type_try_from : Z -> result EthTxType unit;
  request_of_legacy : TxLegacy -> TransactionRequest;
  request_of_eip2930 : TxEip2930 -> TransactionRequest;
  request_of_eip1559 : TxEip1559 -> TransactionRequest;
  request_of_eip4844 : TxEip4844 -> TransactionRequest;
  request_of_eip7702 : TxEip7702 -> TransactionRequest;
}.

Class RequestsLaws `{Requests} : Prop := {
  (** A request with any blob field. *)
  has_eip4844_fields_spec r :
    has_eip4844_fields r = true <->
    is_Some (rq_sidecar r) \/ is_Some (rq_blob_versioned_hashes r) \/ is_Some (rq_max_fee_per_blob_gas r);
  (** Building yields the preferred type, or gives the request back. *)
  build_preferred r t : build_consensus_tx r = Ok t -> typed_transaction_type t = preferred_type r;
  build_error r e : build_consensus_tx r = Err e -> e = r;
  (** The blob type is preferred only when it is asked for. *)
  preferred_blob r :
    preferred_type r = EEip4844 -> rq_transaction_type r = Some 3 \/ has_eip4844_fields r = true;
  missing_keys_type r :
    match missing_keys r with Ok t => t = preferred_type r | Err (t, _) => t = preferred_type r end;
  (** A request that lacks nothing builds. *)
  missing_keys_build r t : missing_keys r = Ok t -> exists tx, build_consensus_tx r = Ok tx;
  eth_type_try_from_id t : eth_type_try_from (eth_type_id t) = Ok t;
}.

(** ** Requests (request.rs) *)

Module Request.
Section Request.
Context `{Requests}.

Definition BLOB_REQUEST_UNSUPPORTED : string := "blob transactions are not supported".

(** [ScrollTransactionRequest] is a transparent wrapper. *)
Definition ScrollTransactionRequest : Type := TransactionRequest.

Definition default : ScrollTransactionRequest :=
  {| rq_from := None; rq_to := None; rq_gas_price := None; rq_max_fee_per_gas := None;
     rq_max_priority_fee_per_gas := None; rq_max_fee_per_blob_gas := None; rq_gas := None; rq_value := None;
     rq_input := no_input; rq_nonce := None; rq_chain_id := None; rq_access_list := None;
     rq_transaction_type := None; rq_blob_versioned_hashes := None; rq_sidecar := None;
     rq_authorization_list := None |}.

(** The builder methods. *)
Definition from (self : ScrollTransactionRequest) (v : Address) : ScrollTransactionRequest :=
  {| rq_from := Some v; rq_to := rq_to self; rq_gas_price := rq_gas_price self;
     rq_max_fee_per_gas := rq_max_fee_per_gas self;
     rq_max_priority_fee_per_gas := rq_max_priority_fee_per_gas self;
     rq_max_fee_per_blob_gas := rq_max_fee_per_blob_gas self; rq_gas := rq_gas self;
     rq_value := rq_value self; rq_input := rq_input self; rq_nonce := rq_nonce self;
     rq_chain_id := rq_chain_id self; rq_access_list := rq_access_list self;
     rq_transaction_type := rq_transaction_type self;
     rq_blob_versioned_hashes := rq_blob_versioned_hashes self; rq_sidecar := rq_sidecar self;
     rq_authorization_list := rq_authorization_list self |}.
Definition transaction_type (self : ScrollTransactionRequest) (v : Z) : ScrollTransactionRequest :=
  {| rq_from := rq_from self; rq_to := rq_to self; rq_gas_price := rq_gas_price self;
     rq_max_fee_per_gas := rq_max_fee_per_gas self;
     rq_max_priority_fee_per_gas := rq_max_priority_fee_per_gas self;
     rq_max_fee_per_blob_gas := rq_max_fee_per_blob_gas self; rq_gas := rq_gas self;
     rq_value := rq_value self; rq_input := rq_input self; rq_nonce := rq_nonce self;
     rq_chain_id := rq_chain_id self; rq_access_list := rq_access_list self; rq_transaction_type := Some v;
     rq_blob_versioned_hashes := rq_blob_versioned_hashes self; rq_sidecar := rq_sidecar self;
     rq_authorization_list := rq_authorization_list self |}.
Definition gas_limit (self : ScrollTransactionRequest) (v : Z) : ScrollTransactionRequest :=
  {| rq_from := rq_from self; rq_to := rq_to self; rq_gas_price := rq_gas_price self;
     rq_max_fee_per_gas := rq_max_fee_per_gas self;
     rq_max_priority_fee_per_gas := rq_max_priority_fee_per_gas self;
     rq_max_fee_per_blob_gas := rq_max_fee_per_blob_gas self; rq_gas := Some v; rq_value := rq_value self;
     rq_input := rq_input self; rq_nonce := rq_nonce self; rq_chain_id := rq_chain_id self;
     rq_access_list := rq_access_list self; rq_transaction_type := rq_transaction_type self;
     rq_blob_versioned_hashes := rq_blob_versioned_hashes self; rq_sidecar := rq_sidecar self;
     rq_authorization_list := rq_authorization_list self |}.
Definition nonce (self : ScrollTransactionRequest) (v : Z) : ScrollTransactionRequest :=
  {| rq_from := rq_from self; rq_to := rq_to self; rq_gas_price := rq_gas_price self;
     rq_max_fee_per_gas := rq_max_fee_per_gas self;
     rq_max_priority_fee_per_gas := rq_max_priority_fee_per_gas self;
     rq_max_fee_per_blob_gas := rq_max_fee_per_blob_gas self; rq_gas := rq_gas self;
     rq_value := rq_value self; rq_input := rq_input self; rq_nonce := Some v;
     rq_chain_id := rq_chain_id self; rq_access_list := rq_access_list self;
     rq_transaction_type := rq_transaction_type self;
     rq_blob_versioned_hashes := rq_blob_versioned_hashes self; rq_sidecar := rq_sidecar self;
     rq_authorization_list := rq_authorization_list self |}.
Definition max_fee_per_gas (self : ScrollTransactionRequest) (v : Z) : ScrollTransactionRequest :=
  {| rq_from := rq_from self; rq_to := rq_to self; rq_gas_price := rq_gas_price self;
     rq_max_fee_per_gas := Some v; rq_max_priority_fee_per_gas := rq_max_priority_fee_per_gas self;
     rq_max_fee_per_blob_gas := rq_max_fee_per_blob_gas self; rq_gas := rq_gas self;
     rq_value := rq_value self; rq_input := rq_input self; rq_nonce := rq_nonce self;
     rq_chain_id := rq_chain_id self; rq_access_list := rq_access_list self;
     rq_transaction_type := rq_transaction_type self;
     rq_blob_versioned_hashes := rq_blob_versioned_hashes self; rq_sidecar := rq_sidecar self;
     rq_authorization_list := rq_authorization_list self |}.
Definition max_priority_fee_per_gas (self : ScrollTransactionRequest) (v : Z) : ScrollTransactionRequest :=
  {| rq_from := rq_from self; rq_to := rq_to self; rq_gas_price := rq_gas_price self;
     rq_max_fee_per_gas := rq_max_fee_per_gas self; rq_max_priority_fee_per_gas := Some v;
     rq_max_fee_per_blob_gas := rq_max_fee_per_blob_gas self; rq_gas := rq_gas self;
     rq_value := rq_value self; rq_input := rq_input self; rq_nonce := rq_nonce self;
     rq_chain_id := rq_chain_id self; rq_access_list := rq_access_list self;
     rq_transaction_type := rq_transaction_type self;
     rq_blob_versioned_hashes := rq_blob_versioned_hashes self; rq_sidecar := rq_sidecar self;
     rq_authorization_list := rq_authorization_list self |}.
Definition to (self : ScrollTransactionRequest) (v : Address) : ScrollTransactionRequest :=
  {| rq_from := rq_from self; rq_to := Some (Call v); rq_gas_price := rq_gas_price self;
     rq_max_fee_per_gas := rq_max_fee_per_gas self;
     rq_max_priority_fee_per_gas := rq_max_priority_fee_per_gas self;
     rq_max_fee_per_blob_gas := rq_max_fee_per_blob_gas self; rq_gas := rq_gas self;
     rq_value := rq_value self; rq_input := rq_input self; rq_nonce := rq_nonce self;
     rq_chain_id := rq_chain_id self; rq_access_list := rq_access_list self;
     rq_transaction_type := rq_transaction_type self;
     rq_blob_versioned_hashes := rq_blob_versioned_hashes self; rq_sidecar := rq_sidecar self;
     rq_authorization_list := rq_authorization_list self |}.
Definition value (self : ScrollTransactionRequest) (v : U256) : ScrollTransactionRequest :=
  {| rq_from := rq_from self; rq_to := rq_to self; rq_gas_price := rq_gas_price self;
     rq_max_fee_per_gas := rq_max_fee_per_gas self;
     rq_max_priority_fee_per_gas := rq_max_priority_fee_per_gas self;
     rq_max_fee_per_blob_gas := rq_max_fee_per_blob_gas self; rq_gas := rq_gas self; rq_value := Some v;
     rq_input := rq_input self; rq_nonce := rq_nonce self; rq_chain_id := rq_chain_id self;
     rq_access_list := rq_access_list self; rq_transaction_type := rq_transaction_type self;
     rq_blob_versioned_hashes := rq_blob_versioned_hashes self; rq_sidecar := rq_sidecar self;
     rq_authorization_list := rq_authorization_list self |}.
Definition access_list (self : ScrollTransactionRequest) (v : AccessList) : ScrollTransactionRequest :=
  {| rq_from := rq_from self; rq_to := rq_to self; rq_gas_price := rq_gas_price self;
     rq_max_fee_per_gas := rq_max_fee_per_gas self;
     rq_max_priority_fee_per_gas := rq_max_priority_fee_per_gas self;
     rq_max_fee_per_blob_gas := rq_max_fee_per_blob_gas self; rq_gas := rq_gas self;
     rq_value := rq_value self; rq_input := rq_input self; rq_nonce := rq_nonce self;
     rq_chain_id := rq_chain_id self; rq_access_list := Some v;
     rq_transaction_type := rq_transaction_type self;
     rq_blob_versioned_hashes := rq_blob_versioned_hashes self; rq_sidecar := rq_sidecar self;
     rq_authorization_list := rq_authorization_list self |}.
Definition input (self : ScrollTransactionRequest) (v : TransactionInput) : ScrollTransactionRequest :=
  {| rq_from := rq_from self; rq_to := rq_to self; rq_gas_price := rq_gas_price self;
     rq_max_fee_per_gas := rq_max_fee_per_gas self;
     rq_max_priority_fee_per_gas := rq_max_priority_fee_per_gas self;
     rq_max_fee_per_blob_gas := rq_max_fee_per_blob_gas self; rq_gas := rq_gas self;
     rq_value := rq_value self; rq_input := v; rq_nonce := rq_nonce self; rq_chain_id := rq_chain_id self;
     rq_access_list := rq_access_list self; rq_transaction_type := rq_transaction_type self;
     rq_blob_versioned_hashes := rq_blob_versioned_hashes self; rq_sidecar := rq_sidecar self;
     rq_authorization_list := rq_authorization_list self |}.

Definition is_blob_request (self : ScrollTransactionRequest) : bool :=
  match rq_transaction_type self with Some ty => ty =? 3 | None => false end || has_eip4844_fields self.

(** The error holds the request and the message. *)
Definition build_typed_tx (self : ScrollTransactionRequest) :
    result TypedTx.ScrollTypedTransaction (ScrollTransactionRequest * string) :=
  if is_blob_request self then Err (self, BLOB_REQUEST_UNSUPPORTED)
  else
    let? transaction := map_err (fun tx => (tx, "required fields missing"%string)) (build_consensus_tx self) in
    match transaction with
    | TLegacy transaction => Ok (TypedTx.Legacy transaction)
    | TEip2930 transaction => Ok (TypedTx.Eip2930 transaction)
    | TEip1559 transaction => Ok (TypedTx.Eip1559 transaction)
    | TEip4844 transaction => Err (request_of_eip4844 transaction, BLOB_REQUEST_UNSUPPORTED)
    | TEip7702 transaction => Ok (TypedTx.Eip7702 transaction)
    end.

Inductive SignTxRequestError (E : Type) : Type :=
| InvalidTransactionRequest
| SigningFailed (e : E).

(** A signer may change the transaction it signs. *)
Definition try_build_and_sign `{Rlp} {E} (keccak256 : bytes -> B256)
    (sign_transaction : TypedTx.ScrollTypedTransaction -> result Signature E * TypedTx.ScrollTypedTransaction)
    (self : ScrollTransactionRequest) : result TxEnvelope.ScrollTxEnvelope (SignTxRequestError E) :=
  match build_typed_tx self with
  | Err _ => Err (InvalidTransactionRequest E)
  | Ok transaction =>
      match sign_transaction transaction with
      | (Err e, _) => Err (SigningFailed E e)
      | (Ok signature, transaction) =>
          Ok (TypedTx.envelope_from_signed (TypedTx.into_signed keccak256 transaction signature))
      end
  end.

(** *** Conversions into a request *)

Definition from_l1_message (transaction : TxL1Message) : ScrollTransactionRequest :=
  {| rq_from := Some (l1_sender transaction); rq_to := Some (Call (l1_to transaction));
     rq_gas_price := None; rq_max_fee_per_gas := None; rq_max_priority_fee_per_gas := None;
     rq_max_fee_per_blob_gas := None; rq_gas := Some (l1_gas_limit transaction);
     rq_value := Some (l1_value transaction); rq_input := input_of_bytes (l1_input transaction);
     rq_nonce := None; rq_chain_id := None; rq_access_list := None; rq_transaction_type := None;
     rq_blob_versioned_hashes := None; rq_sidecar := None; rq_authorization_list := None |}.

Definition from_sealed_l1_message (transaction : Sealed TxL1Message) : ScrollTransactionRequest :=
  from_l1_message (inner transaction).

Definition from_signed {T} (into : T -> TransactionRequest) (transaction : Signed T) : ScrollTransactionRequest :=
  into (stx transaction).

Definition from_typed (transaction : TypedTx.ScrollTypedTransaction) : ScrollTransactionRequest :=
  match transaction with
  | TypedTx.Legacy value => request_of_legacy value
  | TypedTx.Eip2930 value => request_of_eip2930 value
  | TypedTx.Eip1559 value => request_of_eip1559 value
  | TypedTx.Eip7702 value => request_of_eip7702 value
  | TypedTx.L1Message value => from_l1_message value
  end.

Definition from_envelope (transaction : TxEnvelope.ScrollTxEnvelope) : ScrollTransactionRequest :=
  match transaction with
  | TxEnvelope.Legacy value => from_signed request_of_legacy value
  | TxEnvelope.Eip2930 value => from_signed request_of_eip2930 value
  | TxEnvelope.Eip1559 value => from_signed request_of_eip1559 value
  | TxEnvelope.Eip7702 value => from_signed request_of_eip7702 value
  | TxEnvelope.L1Message value => from_sealed_l1_message value
  end.

(** ** The network's builder (network.rs) *)

Definition map_tx_type (tx_type : EthTxType) : ScrollTxType.t :=
  match tx_type with
  | ELegacy => ScrollTxType.Legacy
  | EEip2930 => ScrollTxType.Eip2930
  | EEip1559 | EEip4844 => ScrollTxType.Eip1559
  | EEip7702 => ScrollTxType.Eip7702
  end.

Definition complete_type (self : ScrollTransactionRequest) (ty : ScrollTxType.t) :
    outcome (result unit (list string)) :=
  if bool_decide (ty = ScrollTxType.L1Message) then
    Returns (Err ["L1 message transactions cannot be submitted over RPC"%string])
  else
    match eth_type_try_from (ScrollTxType.to_u8 ty) with
    | Err _ => Panics "known Ethereum type"
    | Ok t => Returns (eth_complete_type self t)
    end.

Definition output_tx_type (self : ScrollTransactionRequest) : ScrollTxType.t := map_tx_type (preferred_type self).
Definition output_tx_type_checked (self : ScrollTransactionRequest) : option ScrollTxType.t :=
  map_tx_type <$> buildable_type self.

Definition prep_for_submission (self : ScrollTransactionRequest) : ScrollTransactionRequest :=
  if is_blob_request self then self else eth_prep_for_submission self.

Inductive TransactionBuilderError : Type :=
| CustomError (message : string)
| InvalidRequest (ty : ScrollTxType.t) (missing : list string).

(** An unbuilt error carries the request. *)
Definition build_unsigned (self : ScrollTransactionRequest) :
    result TypedTx.ScrollTypedTransaction (ScrollTransactionRequest * TransactionBuilderError) :=
  if is_blob_request self then Err (self, CustomError BLOB_REQUEST_UNSUPPORTED)
  else
    match missing_keys self with
    | Err (tx_type, missing) => Err (self, InvalidRequest (map_tx_type tx_type) missing)
    | Ok _ =>
        map_err (fun '(request, _) => (request, InvalidRequest (output_tx_type request) ["required fields"%string]))
          (build_typed_tx self)
    end.

(** ** The simulated transaction (dogeos-reth-rpc/src/transaction.rs) *)

Definition convert_sim_tx `{Rlp} (keccak256 : bytes -> B256) (request : ScrollTransactionRequest) :
    result TxEnvelope.ScrollTxEnvelope (ScrollTransactionRequest * string) :=
  let? transaction := build_typed_tx request in
  Ok (TypedTx.envelope_from_signed (TypedTx.into_signed keccak256 transaction (signature_new 0 0 false))).
End Request.
End Request.

(** ** Transactions (transaction.rs) *)

(** [TransactionInfo], and the additional fields of dogeos-protocol-types (meta.rs). *)
Record TransactionInfo := {
  ti_hash : option B256;
  ti_index : option Z;
  ti_block_hash : option B256;
  ti_block_number : option Z;
  ti_base_fee : option Z;
}.

Record ScrollAdditionalInfo := { l1_fee : U256 }.

Record ScrollTransactionInfo := { info_inner : TransactionInfo; additional_info : ScrollAdditionalInfo }.

Definition new_info (inner : TransactionInfo) (additional_info : ScrollAdditionalInfo) : ScrollTransactionInfo :=
  {| info_inner := inner; additional_info := additional_info |}.

Module RpcTx.
Section RpcTx.
Context `{EthTxs}.

(** The RPC transaction of [alloy_rpc_types_eth] over the envelope. *)
Record ScrollRpcTransaction := {
  transaction : TxEnvelope.ScrollTxEnvelope;
  signer : Address;
  block_hash : option B256;
  block_number : option Z;
  transaction_index : option Z;
  effective_gas_price : option Z;
}.

(** [effective_tip_per_gas] is a provided method of the transaction trait; the sum
    wraps in the release profile. *)
Definition from_transaction (effective_tip_per_gas : TxEnvelope.ScrollTxEnvelope -> Z -> option Z)
    (tx : TxEnvelope.ScrollTxEnvelope * Address) (info : ScrollTransactionInfo) : ScrollRpcTransaction :=
  let price :=
    if TxEnvelope.is_l1_message tx.1 then 0
    else
      match ti_base_fee (info_inner info) with
      | None => TxEnvelope.max_fee_per_gas tx.1
      | Some base_fee => wrap u128_max (default 0 (effective_tip_per_gas tx.1 base_fee) + base_fee)
      end in
  {| transaction := tx.1; signer := tx.2; block_hash := ti_block_hash (info_inner info);
     block_number := ti_block_number (info_inner info); transaction_index := ti_index (info_inner info);
     effective_gas_price := Some price |}.

#[export] Instance ScrollRpcTransaction_transaction : Transaction ScrollRpcTransaction := {
  tx_ty self := TxEnvelope.ty (transaction self);
  tx_chain_id self := TxEnvelope.chain_id (transaction self);
  tx_nonce self := TxEnvelope.nonce (transaction self);
  tx_gas_limit self := TxEnvelope.gas_limit (transaction self);
  tx_gas_price self := TxEnvelope.gas_price (transaction self);
  tx_max_fee_per_gas self := TxEnvelope.max_fee_per_gas (transaction self);
  tx_max_priority_fee_per_gas self := TxEnvelope.max_priority_fee_per_gas (transaction self);
  tx_max_fee_per_blob_gas self := TxEnvelope.max_fee_per_blob_gas (transaction self);
  tx_priority_fee_or_price self := TxEnvelope.priority_fee_or_price (transaction self);
  tx_to self := TxEnvelope.to (transaction self);
  tx_kind self := TxEnvelope.kind (transaction self);
  tx_value self := TxEnvelope.value (transaction self);
  tx_input self := TxEnvelope.input (transaction self);
  tx_access_list self := TxEnvelope.access_list (transaction self);
  tx_blob_versioned_hashes self := TxEnvelope.blob_versioned_hashes (transaction self);
  tx_authorization_list self := TxEnvelope.authorization_list (transaction self);
  tx_is_dynamic_fee self := TxEnvelope.is_dynamic_fee (transaction self);
  tx_effective_gas_price self := TxEnvelope.effective_gas_price (transaction self);
  tx_is_create self := TxEnvelope.is_create (transaction self);
}.

Definition tx_hash `{Rlp} (self : ScrollRpcTransaction) : B256 := TxEnvelope.tx_hash (transaction self).
Definition from (self : ScrollRpcTransaction) : Address := signer self.

(** *** JSON *)

Record OptionalFields := { of_from : option Address; of_effective_gas_price : option Z }.

Record TransactionSerde := {
  ts_inner : TxEnvelope.ScrollTxEnvelope;
  ts_block_hash : option B256;
  ts_block_number : option Z;
  ts_transaction_index : option Z;
  ts_other : OptionalFields;
}.

(** [Serialize], up to the fields. *)
Definition serialize (self : ScrollRpcTransaction) : TransactionSerde :=
  {| ts_inner := transaction self; ts_block_hash := block_hash self; ts_block_number := block_number self;
     ts_transaction_index := transaction_index self;
     ts_other :=
       {| of_from := Some (signer self);
          of_effective_gas_price :=
            match TxEnvelope.gas_price (transaction self) with
            | None => effective_gas_price self
            | Some _ => None
            end |} |}.

(** [Deserialize], from the fields read. *)
Definition deserialize (value : TransactionSerde) : result ScrollRpcTransaction string :=
  let from :=
    match of_from (ts_other value), ts_inner value with
    | Some from, _ => Some from
    | None, TxEnvelope.L1Message transaction => Some (l1_sender (inner transaction))
    | None, _ => None
    end in
  let? from := ok_or from "missing `from` field"%string in
  let effective_gas_price :=
    match of_effective_gas_price (ts_other value) with
    | Some p => Some p
    | None => TxEnvelope.gas_price (ts_inner value)
    end in
  Ok {| transaction := ts_inner value; signer := from; block_hash := ts_block_hash value;
        block_number := ts_block_number value; transaction_index := ts_transaction_index value;
        effective_gas_price := effective_gas_price |}.
End RpcTx.
End RpcTx.

(** ** The JSON of a transaction ([serde])

    The fields of the envelope and the optional fields share one object: a
    [gasPrice] the envelope writes is also read as the optional one. *)
Class TransactionJson `{EthTxs} := {
  Json : Type;
  to_json : RpcTx.TransactionSerde -> Json;
  of_json : Json -> result RpcTx.TransactionSerde string;
}.

(** What is read back of the fields written. *)
Definition read_back `{EthTxs} (s : RpcTx.TransactionSerde) : RpcTx.TransactionSerde :=
  {| RpcTx.ts_inner := RpcTx.ts_inner s; RpcTx.ts_block_hash := RpcTx.ts_block_hash s;
     RpcTx.ts_block_number := RpcTx.ts_block_number s; RpcTx.ts_transaction_index := RpcTx.ts_transaction_index s;
     RpcTx.ts_other :=
       {| RpcTx.of_from := RpcTx.of_from (RpcTx.ts_other s);
          RpcTx.of_effective_gas_price :=
            match TxEnvelope.gas_price (RpcTx.ts_inner s) with
            | Some p => Some p
            | None => RpcTx.of_effective_gas_price (RpcTx.ts_other s)
            end |} |}.

Class TransactionJsonLaws `{TransactionJson} : Prop := {
  (** An object has each key once. *)
  of_to_json s :
    (is_Some (TxEnvelope.gas_price (RpcTx.ts_inner s)) -> RpcTx.of_effective_gas_price (RpcTx.ts_other s) = None) ->
    of_json (to_json s) = Ok (read_back s);
}.

(** What the transaction trait documents of the effective price and tip. *)
Class EffectivePrice `{EthTxs} (effective_tip_per_gas : TxEnvelope.ScrollTxEnvelope -> Z -> option Z) : Prop := {
  effective_tip_rule tx base_fee :
    effective_tip_per_gas tx base_fee =
    if TxEnvelope.max_fee_per_gas tx <? base_fee then None
    else Some (match TxEnvelope.max_priority_fee_per_gas tx with
               | Some p => Z.min (TxEnvelope.max_fee_per_gas tx - base_fee) p
               | None => TxEnvelope.max_fee_per_gas tx - base_fee
               end);
  effective_price_rule tx base_fee :
    TxEnvelope.is_l1_message tx = false ->
    TxEnvelope.effective_gas_price tx base_fee =
    match base_fee, TxEnvelope.max_priority_fee_per_gas tx with
    | Some b, Some p => Z.min (TxEnvelope.max_fee_per_gas tx) (b + p)
    | _, _ => TxEnvelope.max_fee_per_gas tx
    end;
  (** A transaction with a gas price has it as its cap, and no priority fee. *)
  gas_price_rule tx p :
    TxEnvelope.is_l1_message tx = false -> TxEnvelope.gas_price tx = Some p ->
    TxEnvelope.max_fee_per_gas tx = p /\ TxEnvelope.max_priority_fee_per_gas tx = None;
}.

(** ** Receipts (receipt.rs of both crates) *)

(** Logs with their place in the chain, and what [build_receipt] of reth adds to a
    receipt from its context. *)
Class RpcReceipts `{ReceiptTypes} := {
  RpcLog : Type;
  log_inner : RpcLog -> Log;
  rpc_logs_bloom : list RpcLog -> Bloom;
  TransactionMeta : Type;
  ReceiptFields : Type;
  collect_for_receipt : Z -> TransactionMeta -> list Log -> list RpcLog;
  receipt_fields : Z -> Z -> TransactionMeta -> ReceiptFields;
}.

Class RpcReceiptsLaws `{RpcReceipts} : Prop := {
  collect_inner i m l : map log_inner (collect_for_receipt i m l) = l;
  rpc_bloom_inner l : rpc_logs_bloom l = logs_bloom (map log_inner l);
}.

Module RpcReceipt.
Section RpcReceipt.
Context `{ReceiptTypes} `{!RpcReceipts}.

Record ConvertReceiptInput := {
  in_receipt : NodeReceipt.ScrollReceipt;
  in_gas_used : Z;
  in_next_log_index : Z;
  in_meta : TransactionMeta;
}.

(** [Receipt<Log>] and its bloom, over RPC logs. *)
Record LoggedReceipt := { lr_status : Eip658Value; lr_cumulative_gas_used : Z; lr_logs : list RpcLog }.
Record LoggedWithBloom := { lb_receipt : LoggedReceipt; lb_logs_bloom : Bloom }.

(** [ScrollReceiptEnvelope<Log>], over RPC logs. *)
Inductive LoggedEnvelope : Type :=
| Legacy (t : LoggedWithBloom)
| Eip2930 (t : LoggedWithBloom)
| Eip1559 (t : LoggedWithBloom)
| Eip7702 (t : LoggedWithBloom)
| L1Message (t : LoggedWithBloom).

Definition into_with_bloom (r : LoggedReceipt) : LoggedWithBloom :=
  {| lb_receipt := r; lb_logs_bloom := rpc_logs_bloom (lr_logs r) |}.

Record ScrollTransactionReceiptFields := { fields_l1_fee : option Z }.

Record ScrollReceiptBuilder := {
  core_receipt : LoggedEnvelope;
  core_fields : ReceiptFields;
  scroll_receipt_fields : ScrollTransactionReceiptFields;
}.

Record ScrollTransactionReceipt := {
  rpc_inner : LoggedEnvelope;
  rpc_fields : ReceiptFields;
  rpc_l1_fee : option Z;
}.

(** The closures of [new]: the logs of a receipt get their place, and its type
    stays. *)
Definition map_logs (next_log_index : Z) (meta : TransactionMeta) (receipt : Receipt) : LoggedReceipt :=
  {| lr_status := r_status receipt; lr_cumulative_gas_used := r_cumulative_gas_used receipt;
     lr_logs := collect_for_receipt next_log_index meta (r_logs receipt) |}.

Definition map_receipt (receipt : NodeReceipt.ScrollReceipt) (next_log_index : Z) (meta : TransactionMeta) :
    LoggedEnvelope :=
  let logged r := into_with_bloom (map_logs next_log_index meta r) in
  match receipt with
  | NodeReceipt.Legacy receipt => Legacy (logged (L2Receipt.inner receipt))
  | NodeReceipt.Eip2930 receipt => Eip2930 (logged (L2Receipt.inner receipt))
  | NodeReceipt.Eip1559 receipt => Eip1559 (logged (L2Receipt.inner receipt))
  | NodeReceipt.Eip7702 receipt => Eip7702 (logged (L2Receipt.inner receipt))
  | NodeReceipt.L1Message receipt => L1Message (logged receipt)
  end.

Definition new (input : ConvertReceiptInput) : ScrollReceiptBuilder :=
  {| core_receipt := map_receipt (in_receipt input) (in_next_log_index input) (in_meta input);
     core_fields := receipt_fields (in_gas_used input) (in_next_log_index input) (in_meta input);
     scroll_receipt_fields :=
       {| fields_l1_fee := Some (saturating_to u128_max (NodeReceipt.l1_fee (in_receipt input))) |} |}.

Definition build (self : ScrollReceiptBuilder) : ScrollTransactionReceipt :=
  {| rpc_inner := core_receipt self; rpc_fields := core_fields self;
     rpc_l1_fee := fields_l1_fee (scroll_receipt_fields self) |}.

Definition convert_receipts (inputs : list ConvertReceiptInput) : list ScrollTransactionReceipt :=
  map (fun input => build (new input)) inputs.

(** *** Back to the consensus envelope (dogeos-rpc-types) *)

Definition consensus (value : LoggedWithBloom) : ReceiptWithBloom Receipt :=
  {| wb_receipt := {| r_status := lr_status (lb_receipt value);
                      r_cumulative_gas_used := lr_cumulative_gas_used (lb_receipt value);
                      r_logs := map log_inner (lr_logs (lb_receipt value)) |};
     wb_logs_bloom := lb_logs_bloom value |}.

Definition into_envelope (value : ScrollTransactionReceipt) : ReceiptEnvelope.ScrollReceiptEnvelope :=
  match rpc_inner value with
  | Legacy receipt => ReceiptEnvelope.Legacy (consensus receipt)
  | Eip2930 receipt => ReceiptEnvelope.Eip2930 (consensus receipt)
  | Eip1559 receipt => ReceiptEnvelope.Eip1559 (consensus receipt)
  | Eip7702 receipt => ReceiptEnvelope.Eip7702 (consensus receipt)
  | L1Message receipt => ReceiptEnvelope.L1Message (consensus receipt)
  end.
End RpcReceipt.
End RpcReceipt.

(** ** Converters (dogeos-reth-rpc/src/transaction.rs) *)

(** The receipts the node has stored, and the Ethereum call environment. *)
Class RpcProvider (W Err : Type) `{ReceiptTypes} := {
  receipt_by_hash : W -> B256 -> result (option NodeReceipt.ScrollReceipt) Err * W;
}.

Section Converters.
Context `{EthTxs} `{Rlp} `{ReceiptTypes} {W Err : Type} `{!RpcProvider W Err}.

(** [ScrollTxInfoMapper::try_map]. *)
Definition try_map (tx : TxEnvelope.ScrollTxEnvelope) (tx_info : TransactionInfo) (w : W) :
    result ScrollTransactionInfo Err * W :=
  let additional (r : option NodeReceipt.ScrollReceipt) :=
    new_info tx_info {| l1_fee := match r with Some r => NodeReceipt.l1_fee r | None => 0 end |} in
  if TxEnvelope.is_l1_message tx then (Ok (additional None), w)
  else
    let '(receipt, w) := receipt_by_hash w (TxEnvelope.tx_hash tx) in
    (rmap additional receipt, w).

Definition convert_rpc_tx (effective_tip_per_gas : TxEnvelope.ScrollTxEnvelope -> Z -> option Z)
    (tx : TxEnvelope.ScrollTxEnvelope) (signer : Address) (tx_info : ScrollTransactionInfo) :
    RpcTx.ScrollRpcTransaction :=
  RpcTx.from_transaction effective_tip_per_gas (tx, signer) tx_info.
End Converters.

Section TxEnvConverter.
Context `{EvmTypes} `{!RequestTypes} `{!Requests} `{Zstd} {EnvError BlockEnv : Type}.

(** [try_into_tx_env] is reth's conversion of a request. A call is simulated without
    an L1 fee: no bytes, the neutral ratio, and no compressed bytes. *)
Definition convert_tx_env
    (try_into_tx_env : TransactionRequest -> BlockEnv -> result (TxEnv Authorization) EnvError)
    (request : TransactionRequest) (evm_env : BlockEnv) : result ScrollTransactionIntoTxEnv EnvError :=
  let? tx_env := try_into_tx_env request evm_env in
  Ok (TxEnv.new tx_env (Some []) (Some TX_L1_FEE_PRECISION) (Some 0)).
End TxEnvConverter.

(** ** Theorems *)

(** The prices of a transaction at their width. *)
Definition prices_ok `{EthTxs} (tx : TxEnvelope.ScrollTxEnvelope) : Prop :=
  in_u128 (TxEnvelope.max_fee_per_gas tx) /\
  forall p, TxEnvelope.max_priority_fee_per_gas tx = Some p -> 0 <= p.

(** The transaction with the price its JSON is read back with. *)
Definition with_read_price `{EthTxs} (t : RpcTx.ScrollRpcTransaction) : RpcTx.ScrollRpcTransaction :=
  {| RpcTx.transaction := RpcTx.transaction t; RpcTx.signer := RpcTx.signer t;
     RpcTx.block_hash := RpcTx.block_hash t; RpcTx.block_number := RpcTx.block_number t;
     RpcTx.transaction_index := RpcTx.transaction_index t;
     RpcTx.effective_gas_price :=
       match TxEnvelope.gas_price (RpcTx.transaction t) with
       | Some p => Some p
       | None => RpcTx.effective_gas_price t
       end |}.

Section RequestLemmas.
Context `{RequestsLaws}.

Lemma blob_type r : Request.is_blob_request r = false -> preferred_type r <> EEip4844.
Proof.
  unfold Request.is_blob_request. rewrite orb_false_iff. intros [Ht Hf] Hp.
  destruct (preferred_blob r Hp) as [E|E]; [by rewrite E in Ht|congruence].
Qed.

(** Every result of [build_typed_tx]. *)
Lemma build_typed_cases r :
  if Request.is_blob_request r then Request.build_typed_tx r = Err (r, Request.BLOB_REQUEST_UNSUPPORTED)
  else
    (build_consensus_tx r = Err r /\ Request.build_typed_tx r = Err (r, "required fields missing"%string)) \/
    exists t, Request.build_typed_tx r = Ok t /\ TypedTx.tx_type t = Request.output_tx_type r /\
              TypedTx.tx_type t <> ScrollTxType.L1Message /\ exists c, build_consensus_tx r = Ok c.
Proof.
  unfold Request.build_typed_tx, Request.output_tx_type.
  destruct (Request.is_blob_request r) eqn:Eb; [done|]. apply blob_type in Eb.
  destruct (build_consensus_tx r) as [c|e] eqn:Ec; simpl.
  - right. pose proof (build_preferred _ _ Ec) as Hp.
    destruct c; simpl in *; rewrite <- Hp in *; try done; eexists; repeat split; eauto.
  - left. by rewrite (build_error _ _ Ec).
Qed.

Lemma build_unsigned_iff r t :
  Request.build_unsigned r = Ok t <-> Request.build_typed_tx r = Ok t /\ exists ty, missing_keys r = Ok ty.
Proof.
  pose proof (build_typed_cases r) as Hc. unfold Request.build_unsigned.
  destruct (Request.is_blob_request r); [rewrite Hc; split; [done|by intros [? _]]|].
  destruct (missing_keys r) as [ty|[ty missing]]; [|split; [done|by intros [_ [? ?]]]].
  destruct (Request.build_typed_tx r) as [t'|[]]; simpl; [|split; [done|by intros [? _]]].
  split; [intros [= ->]; eauto|by intros [[= ->] _]].
Qed.

Lemma build_unsigned_complete r :
  Request.is_blob_request r = false -> (exists ty, missing_keys r = Ok ty) ->
  exists t, Request.build_unsigned r = Ok t.
Proof.
  intros Eb [ty Hty]. pose proof (build_typed_cases r) as Hc. rewrite Eb in Hc.
  destruct (missing_keys_build _ _ Hty) as [c Hb].
  destruct Hc as [[Hc _]|(t & Hc & _)]; [congruence|].
  exists t. apply build_unsigned_iff. eauto.
Qed.

Lemma sim_tx_not_l1 `{Rlp} (keccak256 : bytes -> B256) r tx :
  Request.convert_sim_tx keccak256 r = Ok tx -> TxEnvelope.is_l1_message tx = false.
Proof.
  pose proof (build_typed_cases r) as Hc. unfold Request.convert_sim_tx.
  destruct (Request.is_blob_request r); [by rewrite Hc|].
  destruct Hc as [[_ Hc]|(t & Hc & _ & Ht & _)]; rewrite Hc; simpl; [done|].
  intros [= <-]. by destruct t.
Qed.

(** A type that is not an L1 message is one Ethereum knows. *)
Lemma complete_type_total r ty : exists res, Request.complete_type r ty = Returns res /\
  (ty = ScrollTxType.L1Message -> exists e, res = Err e).
Proof.
  unfold Request.complete_type. case_bool_decide as E; [by eauto|].
  assert (exists t, eth_type_try_from (ScrollTxType.to_u8 ty) = Ok t) as [t ->]; [|eexists; split; [done|by intros]].
  destruct ty; [|..|congruence]; simpl;
    [change 0 with (eth_type_id ELegacy)|change 1 with (eth_type_id EEip2930)
    |change 2 with (eth_type_id EEip1559)|change 4 with (eth_type_id EEip7702)];
    rewrite eth_type_try_from_id; eauto.
Qed.
End RequestLemmas.

(** C28: A request builds a transaction of the type the network announces for it,
    never an L1 message and never from a blob request: a blob request is
    rejected by both builders with the request itself, and its preparation
    keeps it. The unsigned build succeeds exactly when no key is missing, and
    completing a type is total with L1 messages refused. *)
Theorem requests_build_supported_types `{RequestsLaws} `{Rlp} (keccak256 : bytes -> B256)
    (r : Request.ScrollTransactionRequest) :
  (forall t, Request.build_typed_tx r = Ok t ->
     TypedTx.tx_type t = Request.output_tx_type r /\ TypedTx.tx_type t <> ScrollTxType.L1Message /\
     Request.is_blob_request r = false) /\
  (forall e, Request.build_typed_tx r = Err e -> e.1 = r) /\
  (Request.is_blob_request r = true ->
     Request.build_typed_tx r = Err (r, Request.BLOB_REQUEST_UNSUPPORTED) /\
     Request.build_unsigned r = Err (r, Request.CustomError Request.BLOB_REQUEST_UNSUPPORTED) /\
     Request.prep_for_submission r = r) /\
  (forall t, Request.build_unsigned r = Ok t <->
     Request.build_typed_tx r = Ok t /\ exists ty, missing_keys r = Ok ty) /\
  (Request.is_blob_request r = false -> (exists ty, missing_keys r = Ok ty) ->
     exists t, Request.build_unsigned r = Ok t) /\
  (forall tx, Request.convert_sim_tx keccak256 r = Ok tx -> TxEnvelope.is_l1_message tx = false) /\
  (forall ty, exists res, Request.complete_type r ty = Returns res /\
     (ty = ScrollTxType.L1Message -> exists e, res = Err e)).
Proof.
  pose proof (build_typed_cases r) as Hc.
  split_and!; [..|apply build_unsigned_iff|apply build_unsigned_complete|apply sim_tx_not_l1
              |apply complete_type_total].
  - intros t Ht. destruct (Request.is_blob_request r); [congruence|].
    destruct Hc as [[_ Hc]|(t' & Hc & ? & ? & _)]; rewrite Ht in Hc; by simplify_eq.
  - intros e He. destruct (Request.is_blob_request r); [by rewrite Hc in He; simplify_eq|].
    destruct Hc as [[_ Hc]|(t & Hc & _)]; rewrite He in Hc; by simplify_eq.
  - unfold Request.build_unsigned, Request.prep_for_submission. intros Eb. by rewrite Eb in *.
Qed.

(** ** Prices and JSON of a transaction *)

Section PriceLemmas.
Context `{EthTxs} {eff : TxEnvelope.ScrollTxEnvelope -> Z -> option Z} `{!EffectivePrice eff}.

Lemma l1_has_no_price tx : TxEnvelope.is_l1_message tx = true ->
  TxEnvelope.gas_price tx = None /\ TxEnvelope.max_fee_per_gas tx = 0.
Proof. by destruct tx. Qed.

(** The price of a transaction that pays: its own effective price up to the cap,
    the base fee above it. *)
Lemma from_transaction_price tx signer info :
  prices_ok tx -> TxEnvelope.is_l1_message tx = false ->
  (forall b, ti_base_fee (info_inner info) = Some b -> in_u64 b) ->
  RpcTx.effective_gas_price (RpcTx.from_transaction eff (tx, signer) info) =
  Some (match ti_base_fee (info_inner info) with
        | Some b => Z.max b (TxEnvelope.effective_gas_price tx (Some b))
        | None => TxEnvelope.effective_gas_price tx None
        end).
Proof.
  intros [Hc Hp] Hl Hb. unfold RpcTx.from_transaction. simpl. rewrite Hl.
  destruct (ti_base_fee (info_inner info)) as [b|];
    rewrite (effective_price_rule tx _ Hl); [|done].
  rewrite effective_tip_rule. specialize (Hb b eq_refl). f_equal.
  destruct (Z.ltb_spec (TxEnvelope.max_fee_per_gas tx) b); simpl;
    destruct (TxEnvelope.max_priority_fee_per_gas tx) as [p|] eqn:Ep;
    try specialize (Hp p eq_refl); unfold wrap; rewrite ?Z.mod_small; solve_ints.
Qed.

(** A gas price the transaction carries is the price it has in a block. *)
Lemma from_transaction_gas_price tx signer info p :
  prices_ok tx -> TxEnvelope.gas_price tx = Some p ->
  (forall b, ti_base_fee (info_inner info) = Some b -> 0 <= b <= u64_max /\ b <= TxEnvelope.max_fee_per_gas tx) ->
  RpcTx.effective_gas_price (RpcTx.from_transaction eff (tx, signer) info) = Some p.
Proof.
  intros Hok Hg Hb. destruct (TxEnvelope.is_l1_message tx) eqn:Hl.
  { apply l1_has_no_price in Hl as [Hl _]. congruence. }
  destruct (gas_price_rule tx p Hl Hg) as [Hc Hn].
  rewrite from_transaction_price; [|done..|by intros b Eb; destruct (Hb b Eb)].
  destruct (ti_base_fee (info_inner info)) as [b|];
    rewrite (effective_price_rule tx _ Hl), ?Hn; f_equal; [|done].
  specialize (Hb b eq_refl). lia.
Qed.
End PriceLemmas.

Section JsonLemmas.
Context `{TransactionJsonLaws} {eff : TxEnvelope.ScrollTxEnvelope -> Z -> option Z} `{!EffectivePrice eff}.

Lemma json_of_serialize t : of_json (to_json (RpcTx.serialize t)) = Ok (read_back (RpcTx.serialize t)).
Proof. apply of_to_json. simpl. by intros [p ->]. Qed.

Lemma deserialize_serialize t : RpcTx.deserialize (read_back (RpcTx.serialize t)) = Ok (with_read_price t).
Proof.
  unfold RpcTx.deserialize, with_read_price. simpl. do 2 f_equal.
  destruct (TxEnvelope.gas_price (RpcTx.transaction t)); [done|].
  by destruct (RpcTx.effective_gas_price t).
Qed.

Lemma with_read_price_id t :
  with_read_price t = t <->
  forall p, TxEnvelope.gas_price (RpcTx.transaction t) = Some p -> RpcTx.effective_gas_price t = Some p.
Proof.
  unfold with_read_price. destruct t as [tx s bh bn ti price]; simpl.
  destruct (TxEnvelope.gas_price tx) as [p|]; split.
  - intros [= <-]. by intros ? [= ->].
  - intros Hp. by rewrite (Hp p eq_refl).
  - done.
  - done.
Qed.

(** Within its cap a transaction answers with its own effective price. *)
Lemma affordable_price tx signer info :
  prices_ok tx ->
  (forall b, ti_base_fee (info_inner info) = Some b -> in_u64 b /\ b <= TxEnvelope.max_fee_per_gas tx) ->
  RpcTx.effective_gas_price (RpcTx.from_transaction eff (tx, signer) info) =
  Some (TxEnvelope.effective_gas_price tx (ti_base_fee (info_inner info))).
Proof.
  intros Hok Hb. destruct (TxEnvelope.is_l1_message tx) eqn:Hl; [by destruct tx|].
  rewrite from_transaction_price; [|done..|by intros b Eb; destruct (Hb b Eb)].
  destruct (ti_base_fee (info_inner info)) as [b|]; [|done]. destruct (Hb b eq_refl). destruct Hok as [_ Hp].
  f_equal. rewrite (effective_price_rule tx (Some b) Hl).
  destruct (TxEnvelope.max_priority_fee_per_gas tx) as [p|]; [specialize (Hp p eq_refl)|]; lia.
Qed.
End JsonLemmas.

(** C35: What the node answers about a transaction is read back from its JSON
    unchanged, for every transaction whose base fee is within its cap: a gas
    price the transaction carries stands for the price it paid, and one without
    carries its effective price. Any other answer changes only in its price, and
    is unchanged exactly when that price is the gas price; a missing sender is
    known only for an L1 message. *)
Theorem rpc_transaction_json_roundtrip `{TransactionJsonLaws} `{!EffectivePrice eff} :
  (forall tx signer info,
     prices_ok tx ->
     (forall b, ti_base_fee (info_inner info) = Some b -> in_u64 b /\ b <= TxEnvelope.max_fee_per_gas tx) ->
     let answer := RpcTx.from_transaction eff (tx, signer) info in
     RpcTx.effective_gas_price answer =
       Some (TxEnvelope.effective_gas_price tx (ti_base_fee (info_inner info))) /\
     match of_json (to_json (RpcTx.serialize answer)) with
     | Ok value => RpcTx.deserialize value = Ok answer
     | Err _ => False
     end) /\
  (forall t : RpcTx.ScrollRpcTransaction,
     match of_json (to_json (RpcTx.serialize t)) with
     | Ok value =>
         RpcTx.deserialize value = Ok (with_read_price t) /\
         (with_read_price t = t <->
          forall p, TxEnvelope.gas_price (RpcTx.transaction t) = Some p -> RpcTx.effective_gas_price t = Some p)
     | Err _ => False
     end) /\
  (forall value, RpcTx.of_from (RpcTx.ts_other value) = None ->
     match RpcTx.deserialize value with
     | Ok t => exists m, RpcTx.ts_inner value = TxEnvelope.L1Message m /\ RpcTx.signer t = l1_sender (inner m)
     | Err _ => TxEnvelope.is_l1_message (RpcTx.ts_inner value) = false
     end).
Proof.
  split_and!.
  - intros tx signer info Hok Hb answer. split; [by apply affordable_price|].
    rewrite json_of_serialize, deserialize_serialize. f_equal. apply with_read_price_id. intros p Hp.
    apply from_transaction_gas_price; [done|done|]. intros b Eb. by destruct (Hb b Eb).
  - intros t. rewrite json_of_serialize, deserialize_serialize. split; [done|apply with_read_price_id].
  - intros value Hf. unfold RpcTx.deserialize. rewrite Hf. destruct (RpcTx.ts_inner value); simpl; eauto.
Qed.

(** ** Receipts *)

(** The logs of an answer are the stored ones behind their place in the chain. *)
Lemma consensus_logged `{RpcReceiptsLaws} i m (r : Receipt) :
  RpcReceipt.consensus (RpcReceipt.into_with_bloom (RpcReceipt.map_logs i m r)) =
  Build_ReceiptWithBloom r (logs_bloom (r_logs r)).
Proof.
  unfold RpcReceipt.consensus, RpcReceipt.into_with_bloom, RpcReceipt.map_logs; simpl.
  rewrite rpc_bloom_inner, collect_inner. by destruct r.
Qed.

(** A receipt answered over the RPC leads back to the consensus envelope of
    the receipt the node stored, with its bloom, whatever its type and place in
    the block; its L1 fee is the stored one up to the largest [u128], and the
    answers of a block keep the order of its receipts. *)
Theorem rpc_receipt_roundtrip `{RpcReceiptsLaws} (inputs : list RpcReceipt.ConvertReceiptInput) (i : nat) :
  length (RpcReceipt.convert_receipts inputs) = length inputs /\
  forall input, inputs !! i = Some input ->
  exists answer, RpcReceipt.convert_receipts inputs !! i = Some answer /\
  let receipt := RpcReceipt.in_receipt input in
  RpcReceipt.into_envelope answer =
    envelope_of receipt (logs_bloom (r_logs (NodeReceipt.as_receipt receipt))) /\
  RpcReceipt.rpc_l1_fee answer = Some (Z.min (NodeReceipt.l1_fee receipt) u128_max).
Proof.
  unfold RpcReceipt.convert_receipts. split; [apply length_map|]. intros input Hi.
  exists (RpcReceipt.build (RpcReceipt.new input)). split; [by rewrite list_lookup_fmap, Hi|].
  split; [|done]. unfold RpcReceipt.into_envelope, RpcReceipt.build, RpcReceipt.new; simpl.
  destruct (RpcReceipt.in_receipt input) as [[]|[]|[]|[]|[]]; simpl; by rewrite consensus_logged.
Qed.

(** ** A concrete library for the witnesses *)

#[export] Instance ref_request_types : RequestTypes := {
  TransactionInput := bytes;
  BlobSidecar := unit;
  TxEip4844 := RefTx 3;
  no_input := [];
  input_of_bytes b := b;
}.

Definition ref_blob (r : TransactionRequest) : bool :=
  bool_decide (is_Some (rq_sidecar r)) || bool_decide (is_Some (rq_blob_versioned_hashes r))
  || bool_decide (is_Some (rq_max_fee_per_blob_gas r)).

Definition ref_preferred (r : TransactionRequest) : EthTxType :=
  if match rq_transaction_type r with Some ty => ty =? 3 | None => false end || ref_blob r then EEip4844
  else
    match rq_authorization_list r, rq_gas_price r, rq_access_list r with
    | Some _, _, _ => EEip7702
    | None, Some _, Some _ => EEip2930
    | None, Some _, None => ELegacy
    | None, None, _ => EEip1559
    end.

Definition ref_eth_type (x : Z) : result EthTxType unit :=
  if x =? 0 then Ok ELegacy else if x =? 1 then Ok EEip2930 else if x =? 2 then Ok EEip1559
  else if x =? 3 then Ok EEip4844 else if x =? 4 then Ok EEip7702 else Err ().

Definition ref_build (nonce : Z) (t : EthTxType) : TypedTransaction :=
  match t with
  | ELegacy => TLegacy (Build_RefTx 0 (ascii_of nonce))
  | EEip2930 => TEip2930 (Build_RefTx 1 (ascii_of nonce))
  | EEip1559 => TEip1559 (Build_RefTx 2 (ascii_of nonce))
  | EEip4844 => TEip4844 (Build_RefTx 3 (ascii_of nonce))
  | EEip7702 => TEip7702 (Build_RefTx 4 (ascii_of nonce))
  end.

Definition ref_request {id} (t : RefTx id) : TransactionRequest :=
  {| rq_from := None; rq_to := Some (Call 5); rq_gas_price := tx_gas_price t;
     rq_max_fee_per_gas := Some 7; rq_max_priority_fee_per_gas := tx_max_priority_fee_per_gas t;
     rq_max_fee_per_blob_gas := None; rq_gas := Some 21000; rq_value := Some 0; rq_input := tx_input t;
     rq_nonce := Some (tx_nonce t); rq_chain_id := Some 1; rq_access_list := None;
     rq_transaction_type := Some id; rq_blob_versioned_hashes := None; rq_sidecar := None;
     rq_authorization_list := None |}.

#[export] Instance ref_requests : Requests := {
  has_eip4844_fields := ref_blob;
  build_consensus_tx r := match rq_nonce r with Some n => Ok (ref_build n (ref_preferred r)) | None => Err r end;
  missing_keys r :=
    match rq_nonce r with
    | Some _ => Ok (ref_preferred r)
    | None => Err (ref_preferred r, ["nonce"%string])
    end;
  eth_complete_type r _ := match rq_nonce r with Some _ => Ok () | None => Err ["nonce"%string] end;
  can_submit r := bool_decide (is_Some (rq_from r));
  can_build r := bool_decide (is_Some (rq_nonce r));
  preferred_type := ref_preferred;
  buildable_type r := match rq_nonce r with Some _ => Some (ref_preferred r) | None => None end;
  eth_prep_for_submission r := r;
  eth_type_try_from := ref_eth_type;
  request_of_legacy := ref_request;
  request_of_eip2930 := ref_request;
  request_of_eip1559 := ref_request;
  request_of_eip4844 := ref_request;
  request_of_eip7702 := ref_request;
}.

#[export] Instance ref_requests_laws : RequestsLaws.
Proof.
  split; simpl.
  - intros r. unfold ref_blob. rewrite !orb_true_iff, !bool_decide_eq_true. tauto.
  - intros r t. destruct (rq_nonce r); [|done]. intros [= <-]. by destruct (ref_preferred r).
  - intros r e. destruct (rq_nonce r); [done|by intros [= <-]].
  - intros r. unfold ref_preferred.
    destruct (match rq_transaction_type r with Some ty => ty =? 3 | None => false end) eqn:Et; simpl.
    + destruct (rq_transaction_type r) as [ty|]; [|done]. apply Z.eqb_eq in Et as ->. by left.
    + destruct (ref_blob r); [by right|]. by destruct (rq_authorization_list r), (rq_gas_price r), (rq_access_list r).
  - intros r. by destruct (rq_nonce r).
  - intros r t. destruct (rq_nonce r); [eauto|done].
  - by intros [].
Qed.

#[export] Instance ref_transaction_json : TransactionJson := {
  Json := RpcTx.TransactionSerde;
  to_json s := s;
  of_json s := Ok (read_back s);
}.

#[export] Instance ref_transaction_json_laws : TransactionJsonLaws.
Proof. by split. Qed.

(** The tip of the transaction trait. *)
Definition ref_tip (tx : TxEnvelope.ScrollTxEnvelope) (base_fee : Z) : option Z :=
  let cap := TxEnvelope.max_fee_per_gas tx in
  if cap <? base_fee then None
  else Some (match TxEnvelope.max_priority_fee_per_gas tx with
             | Some p => Z.min (cap - base_fee) p
             | None => cap - base_fee
             end).

#[export] Instance ref_effective_price : EffectivePrice ref_tip.
Proof.
  split; [done|..].
  - intros [] base_fee Hl; simpl in *; try done; by destruct base_fee.
  - intros [] p Hl Hp; simpl in *; by simplify_eq.
Qed.

#[export] Instance ref_rpc_receipts : RpcReceipts := {
  RpcLog := Z * Z;
  log_inner := snd;
  rpc_logs_bloom l := match l with [] => false | _ => true end;
  TransactionMeta := Z;
  ReceiptFields := Z;
  collect_for_receipt next _ l := imap (fun i log => (next + Z.of_nat i, log)) l;
  receipt_fields gas _ _ := gas;
}.

#[export] Instance ref_rpc_receipts_laws : RpcReceiptsLaws.
Proof.
  split; simpl.
  - intros i m l. change (map snd) with (fmap (M := list) (snd (A := Z) (B := Z))).
    rewrite fmap_imap. revert i. induction l as [|x l IH]; intros i; [done|]. simpl. f_equal. apply (IH i).
  - intros [|[] l]; done.
Qed.

(** ** Witnesses *)

Definition sample_request : Request.ScrollTransactionRequest :=
  Request.nonce (Request.max_fee_per_gas Request.default 10) 3.

Lemma requests_build_supported_types_witness :
  (exists t, Request.build_unsigned sample_request = Ok t)
  /\ Request.build_typed_tx (Request.transaction_type sample_request 3)
     = Err (Request.transaction_type sample_request 3, Request.BLOB_REQUEST_UNSUPPORTED).
Proof.
  split.
  - apply (requests_build_supported_types blen sample_request); [reflexivity|].
    exists EEip1559. reflexivity.
  - apply (requests_build_supported_types blen (Request.transaction_type sample_request 3)). reflexivity.
Defined.

Definition sample_info : ScrollTransactionInfo :=
  new_info {| ti_hash := Some 1; ti_index := Some 0; ti_block_hash := Some 2; ti_block_number := Some 9;
              ti_base_fee := Some 4 |} {| l1_fee := 11 |}.

Definition sample_answered : TxEnvelope.ScrollTxEnvelope :=
  TxEnvelope.Eip1559 (new_unhashed (T := RefTx 2) {| ref_byte := Ascii.ascii_of_nat 77 |} true).

Lemma rpc_transaction_json_roundtrip_witness :
  let answer := RpcTx.from_transaction ref_tip (sample_answered, 6) sample_info in
  RpcTx.effective_gas_price answer = Some 5 /\
  RpcTx.deserialize (read_back (RpcTx.serialize answer)) = Ok answer.
Proof.
  destruct (rpc_transaction_json_roundtrip (eff := ref_tip)) as (H1 & _ & _).
  destruct (H1 sample_answered 6 sample_info) as [Hp Hr].
  - split; [simpl; solve_ints|]. by intros p [= <-].
  - intros b [= <-]. split; [solve_ints|vm_compute; discriminate].
  - split; [exact Hp|exact Hr].
Defined.

Definition sample_input : RpcReceipt.ConvertReceiptInput :=
  {| RpcReceipt.in_receipt := sample_l2_receipt; RpcReceipt.in_gas_used := 21000;
     RpcReceipt.in_next_log_index := 4; RpcReceipt.in_meta := 0 |}.

Lemma rpc_receipt_roundtrip_witness :
  exists answer, RpcReceipt.convert_receipts [sample_input] !! 0%nat = Some answer /\
    RpcReceipt.into_envelope answer = ReceiptEnvelope.Eip1559 (Build_ReceiptWithBloom sample_receipt true) /\
    RpcReceipt.rpc_l1_fee answer = Some 77.
Proof.
  destruct (rpc_receipt_roundtrip [sample_input] 0) as [_ H].
  destruct (H sample_input eq_refl) as (answer & Ha & He & Hf).
  exists answer. split; [exact Ha|]. split; [exact He|exact Hf].
Defined.
