(* ===== verification/RpcBuilder.v ===== *)
(** * Building a request field by field (dogeos-rpc-types/src/network.rs)

    The [TransactionBuilder] a client fills a request through: what every
    setting leaves in the request, and what building the result may answer. The
    fields are those of alloy's request, which the program only forwards to. *)

From stdpp Require Import prelude gmap list strings.
From Stdlib Require Import ZArith Lia.
From S2P Require Import Prelude.
From S2P Require Import Alloy.
From S2P Require Import AlloyRef.
From S2P Require Import TxType.
From S2P Require Import Envelope.
From S2P Require Import Typed.
From S2P Require Import Receipt.
From S2P Require Import TxEnv.
From S2P Require Import RpcTypes.

(** ** The builder of [alloy_network] *)

Inductive Field : Type :=
| FChainId | FNonce | FInput | FFrom | FKind | FValue | FGasPrice | FMaxFeePerGas | FMaxPriorityFeePerGas
| FGasLimit | FAccessList.

#[export] Instance field_eq_dec : EqDecision Field.
Proof. solve_decision. Defined.

Definition field_type `{EthTxs} (f : Field) : Type :=
  match f with
  | FInput => bytes
  | FFrom => Address
  | FKind => TxKind
  | FValue => U256
  | FAccessList => AccessList
  | FChainId | FNonce | FGasPrice | FMaxFeePerGas | FMaxPriorityFeePerGas | FGasLimit => Z
  end.

(** Its getters and setters over alloy's own request. *)
Class EthBuilder `{RequestTypes} := {
  eth_get (f : Field) : TransactionRequest -> option (field_type f);
  eth_set (f : Field) : TransactionRequest -> field_type f -> TransactionRequest;
  eth_clear_kind : TransactionRequest -> TransactionRequest;
}.

(** The parts no setting is about: the type and the blob fields. *)
Definition same_blob_parts `{RequestTypes} (r r' : TransactionRequest) : Prop :=
  rq_transaction_type r' = rq_transaction_type r /\ rq_sidecar r' = rq_sidecar r
  /\ rq_blob_versioned_hashes r' = rq_blob_versioned_hashes r
  /\ rq_max_fee_per_blob_gas r' = rq_max_fee_per_blob_gas r.

Class EthBuilderLaws `{EthBuilder} : Prop := {
  get_set f r v : eth_get f (eth_set f r v) = Some v;
  get_set_other f g r v : f <> g -> eth_get g (eth_set f r v) = eth_get g r;
  set_blob_parts f r v : same_blob_parts r (eth_set f r v);
  get_cleared r : eth_get FKind (eth_clear_kind r) = None;
  get_cleared_other g r : g <> FKind -> eth_get g (eth_clear_kind r) = eth_get g r;
  clear_blob_parts r : same_blob_parts r (eth_clear_kind r);
  (** The nonce is a field; no other getter reads it. *)
  get_nonce r : eth_get FNonce r = rq_nonce r;
  get_without_nonce g (r r' : TransactionRequest) :
    g <> FNonce ->
    rq_from r' = rq_from r -> rq_to r' = rq_to r -> rq_gas_price r' = rq_gas_price r ->
    rq_max_fee_per_gas r' = rq_max_fee_per_gas r ->
    rq_max_priority_fee_per_gas r' = rq_max_priority_fee_per_gas r -> rq_gas r' = rq_gas r ->
    rq_value r' = rq_value r -> rq_input r' = rq_input r -> rq_chain_id r' = rq_chain_id r ->
    rq_access_list r' = rq_access_list r -> eth_get g r' = eth_get g r;
}.

(** ** The network's builder (network.rs) *)

Module NetworkBuilder.
Section NetworkBuilder.
Context `{EthBuilder}.
Abbreviation R := Request.ScrollTransactionRequest.

Definition chain_id (self : R) : option Z := eth_get FChainId self.
Definition set_chain_id (self : R) (chain_id : Z) : R := eth_set FChainId self chain_id.
Definition nonce (self : R) : option Z := eth_get FNonce self.
Definition set_nonce (self : R) (nonce : Z) : R := eth_set FNonce self nonce.

(** [self.as_mut().nonce.take()]. *)
Definition take_nonce (self : R) : option Z * R :=
  (rq_nonce self,
   {| rq_from := rq_from self; rq_to := rq_to self; rq_gas_price := rq_gas_price self;
      rq_max_fee_per_gas := rq_max_fee_per_gas self;
      rq_max_priority_fee_per_gas := rq_max_priority_fee_per_gas self;
      rq_max_fee_per_blob_gas := rq_max_fee_per_blob_gas self; rq_gas := rq_gas self;
      rq_value := rq_value self; rq_input := rq_input self; rq_nonce := None;
      rq_chain_id := rq_chain_id self; rq_access_list := rq_access_list self;
      rq_transaction_type := rq_transaction_type self;
      rq_blob_versioned_hashes := rq_blob_versioned_hashes self; rq_sidecar := rq_sidecar self;
      rq_authorization_list := rq_authorization_list self |}).

Definition input (self : R) : option bytes := eth_get FInput self.
Definition set_input (self : R) (input : bytes) : R := eth_set FInput self input.
Definition from (self : R) : option Address := eth_get FFrom self.
Definition set_from (self : R) (from : Address) : R := eth_set FFrom self from.
Definition kind (self : R) : option TxKind := eth_get FKind self.
Definition clear_kind (self : R) : R := eth_clear_kind self.
Definition set_kind (self : R) (kind : TxKind) : R := eth_set FKind self kind.
Definition value (self : R) : option U256 := eth_get FValue self.
Definition set_value (self : R) (value : U256) : R := eth_set FValue self value.
Definition gas_price (self : R) : option Z := eth_get FGasPrice self.
Definition set_gas_price (self : R) (gas_price : Z) : R := eth_set FGasPrice self gas_price.
Definition max_fee_per_gas (self : R) : option Z := eth_get FMaxFeePerGas self.
Definition set_max_fee_per_gas (self : R) (fee : Z) : R := eth_set FMaxFeePerGas self fee.
Definition max_priority_fee_per_gas (self : R) : option Z := eth_get FMaxPriorityFeePerGas self.
Definition set_max_priority_fee_per_gas (self : R) (fee : Z) : R := eth_set FMaxPriorityFeePerGas self fee.
Definition gas_limit (self : R) : option Z := eth_get FGasLimit self.
Definition set_gas_limit (self : R) (gas_limit : Z) : R := eth_set FGasLimit self gas_limit.
Definition access_list (self : R) : option AccessList := eth_get FAccessList self.
Definition set_access_list (self : R) (access_list : AccessList) : R := eth_set FAccessList self access_list.

(** [build]: the wallet signs the request. *)
Definition build {W E BuildError} (sign_request : W -> R -> result TxEnvelope.ScrollTxEnvelope E)
    (from_error : E -> BuildError) (self : R) (wallet : W) : result TxEnvelope.ScrollTxEnvelope BuildError :=
  map_err from_error (sign_request wallet self).
End NetworkBuilder.
End NetworkBuilder.

(** ** A client's settings *)

Section Settings.
Context `{EthBuilder}.
Import NetworkBuilder.

Inductive Setting : Type :=
| SetChainId (v : Z) | SetNonce (v : Z) | TakeNonce | SetInput (v : bytes) | SetFrom (v : Address)
| SetKind (v : TxKind) | ClearKind | SetValue (v : U256) | SetGasPrice (v : Z) | SetMaxFeePerGas (v : Z)
| SetMaxPriorityFeePerGas (v : Z) | SetGasLimit (v : Z) | SetAccessList (v : AccessList).

Definition apply (self : TransactionRequest) (x : Setting) : TransactionRequest :=
  match x with
  | SetChainId v => set_chain_id self v
  | SetNonce v => set_nonce self v
  | TakeNonce => (take_nonce self).2
  | SetInput v => set_input self v
  | SetFrom v => set_from self v
  | SetKind v => set_kind self v
  | ClearKind => clear_kind self
  | SetValue v => set_value self v
  | SetGasPrice v => set_gas_price self v
  | SetMaxFeePerGas v => set_max_fee_per_gas self v
  | SetMaxPriorityFeePerGas v => set_max_priority_fee_per_gas self v
  | SetGasLimit v => set_gas_limit self v
  | SetAccessList v => set_access_list self v
  end.

(** What a setting says of a field: nothing, or its new contents. *)
Definition says (x : Setting) (f : Field) : option (option (field_type f)) :=
  match x, f return option (option (field_type f)) with
  | SetChainId v, FChainId => Some (Some v)
  | SetNonce v, FNonce => Some (Some v)
  | TakeNonce, FNonce => Some None
  | SetInput v, FInput => Some (Some v)
  | SetFrom v, FFrom => Some (Some v)
  | SetKind v, FKind => Some (Some v)
  | ClearKind, FKind => Some None
  | SetValue v, FValue => Some (Some v)
  | SetGasPrice v, FGasPrice => Some (Some v)
  | SetMaxFeePerGas v, FMaxFeePerGas => Some (Some v)
  | SetMaxPriorityFeePerGas v, FMaxPriorityFeePerGas => Some (Some v)
  | SetGasLimit v, FGasLimit => Some (Some v)
  | SetAccessList v, FAccessList => Some (Some v)
  | _, _ => None
  end.

(** What a list of settings says of a field: what the last one that speaks of it
    does. *)
Fixpoint last_said (xs : list Setting) (f : Field) : option (option (field_type f)) :=
  match xs with
  | [] => None
  | x :: xs => match last_said xs f with Some v => Some v | None => says x f end
  end.

(** The getter of a field. *)
Definition read (self : TransactionRequest) (f : Field) : option (field_type f) :=
  match f with
  | FChainId => chain_id self
  | FNonce => nonce self
  | FInput => input self
  | FFrom => from self
  | FKind => kind self
  | FValue => value self
  | FGasPrice => gas_price self
  | FMaxFeePerGas => max_fee_per_gas self
  | FMaxPriorityFeePerGas => max_priority_fee_per_gas self
  | FGasLimit => gas_limit self
  | FAccessList => access_list self
  end.
End Settings.
Arguments Setting : clear implicits.
Arguments Setting {_}.

(** ** Lemmas *)

Section SettingLemmas.
Context `{EthBuilderLaws}.

Lemma read_get self f : read self f = eth_get f self.
Proof. by destruct f. Qed.

Lemma get_taken self f :
  eth_get f (NetworkBuilder.take_nonce self).2 = match says TakeNonce f with Some v => v | None => eth_get f self end.
Proof.
  destruct (decide (f = FNonce)) as [->|Hf]; [by rewrite get_nonce|].
  rewrite (get_without_nonce f self) by done. by destruct f.
Qed.

(** One setting. *)
Lemma apply_get self x f :
  eth_get f (apply self x) = match says x f with Some v => v | None => eth_get f self end.
Proof.
  destruct x; try apply get_taken; cbn [apply]; unfold NetworkBuilder.set_chain_id, NetworkBuilder.set_nonce,
    NetworkBuilder.set_input, NetworkBuilder.set_from, NetworkBuilder.set_kind, NetworkBuilder.clear_kind,
    NetworkBuilder.set_value, NetworkBuilder.set_gas_price, NetworkBuilder.set_max_fee_per_gas,
    NetworkBuilder.set_max_priority_fee_per_gas, NetworkBuilder.set_gas_limit, NetworkBuilder.set_access_list;
    destruct f; cbn [says]; first [exact (get_set _ _ _) | apply get_set_other; discriminate | apply get_cleared
      | apply get_cleared_other; discriminate].
Qed.

Lemma apply_blob_parts self x : same_blob_parts self (apply self x).
Proof. destruct x; try apply set_blob_parts; [by repeat split|apply clear_blob_parts]. Qed.

Lemma same_blob_parts_trans (a b c : TransactionRequest) :
  same_blob_parts a b -> same_blob_parts b c -> same_blob_parts a c.
Proof. intros (?&?&?&?) (?&?&?&?). repeat split; congruence. Qed.

Lemma applied_blob_parts xs self : same_blob_parts self (fold_left apply xs self).
Proof.
  revert self. induction xs as [|x xs IH]; intros self; [by repeat split|].
  eapply same_blob_parts_trans; [apply apply_blob_parts|apply IH].
Qed.

Lemma applied_get xs self f :
  eth_get f (fold_left apply xs self) = match last_said xs f with Some v => v | None => eth_get f self end.
Proof.
  revert self. induction xs as [|x xs IH]; intros self; [done|]. cbn [fold_left last_said].
  rewrite IH. destruct (last_said xs f); [done|]. apply apply_get.
Qed.
End SettingLemmas.

Section BlobLemmas.
Context `{RequestsLaws}.

Lemma blob_parts_request r r' :
  same_blob_parts r r' -> Request.is_blob_request r' = Request.is_blob_request r.
Proof.
  intros (Ht & Hs & Hh & Hf). unfold Request.is_blob_request. rewrite Ht. f_equal.
  apply eq_true_iff_eq. by rewrite !has_eip4844_fields_spec, Hs, Hh, Hf.
Qed.

Lemma build_unsigned_errors r q e :
  Request.is_blob_request r = false -> Request.build_unsigned r = Err (q, e) ->
  q = r /\ exists ty missing, e = Request.InvalidRequest ty missing.
Proof.
  intros Eb. pose proof (build_typed_cases r) as Hc. unfold Request.build_unsigned. rewrite Eb in Hc |- *.
  destruct (missing_keys r) as [ty|[ty missing]]; [|intros [= <- <-]; eauto].
  destruct Hc as [[_ ->]|(t & -> & _)]; [|done]. intros [= <- <-]. eauto.
Qed.
End BlobLemmas.

(** ** Properties *)

(** A client that fills a request through the network's builder gets what it set:
    after any settings, in any order and with any repetitions, every getter
    answers with the last setting of its field, or with what the request held;
    no setting makes a blob request or hides one; and building the result of
    settings on another request fails only for missing keys, with the request
    itself. *)
Theorem settings_last_write_wins `{EthBuilderLaws} `{!Requests} `{!RequestsLaws} (self : TransactionRequest)
    (xs : list Setting) :
  let filled := fold_left apply xs self in
  (forall f, read filled f = match last_said xs f with Some v => v | None => read self f end)
  /\ Request.is_blob_request filled = Request.is_blob_request self
  /\ (Request.is_blob_request self = false ->
      forall q e, Request.build_unsigned filled = Err (q, e) ->
      q = filled /\ exists ty missing, e = Request.InvalidRequest ty missing).
Proof.
  intros filled. pose proof (blob_parts_request _ _ (applied_blob_parts xs self)) as Hb. fold filled in Hb.
  split; [intros f; rewrite !read_get; apply applied_get|]. split; [exact Hb|].
  intros Hs q e. apply build_unsigned_errors. by rewrite Hb.
Qed.

(** ** Witness *)

(** A request with some fields of another. *)
Definition ref_fields (r : TransactionRequest) (chain_id nonce : option Z) (input : bytes) (from : option Address)
    (to : option TxKind) (value : option U256) (gas_price max_fee max_priority gas : option Z)
    (access_list : option AccessList) : TransactionRequest :=
  {| rq_from := from; rq_to := to; rq_gas_price := gas_price; rq_max_fee_per_gas := max_fee;
     rq_max_priority_fee_per_gas := max_priority; rq_max_fee_per_blob_gas := rq_max_fee_per_blob_gas r;
     rq_gas := gas; rq_value := value; rq_input := input; rq_nonce := nonce; rq_chain_id := chain_id;
     rq_access_list := access_list; rq_transaction_type := rq_transaction_type r;
     rq_blob_versioned_hashes := rq_blob_versioned_hashes r; rq_sidecar := rq_sidecar r;
     rq_authorization_list := rq_authorization_list r |}.

Definition ref_get (f : Field) (r : TransactionRequest) : option (field_type f) :=
  match f with
  | FChainId => rq_chain_id r
  | FNonce => rq_nonce r
  | FInput => Some (rq_input r)
  | FFrom => rq_from r
  | FKind => rq_to r
  | FValue => rq_value r
  | FGasPrice => rq_gas_price r
  | FMaxFeePerGas => rq_max_fee_per_gas r
  | FMaxPriorityFeePerGas => rq_max_priority_fee_per_gas r
  | FGasLimit => rq_gas r
  | FAccessList => rq_access_list r
  end.

(** Its new contents where the field is the one written. *)
Definition written (f g : Field) (v : field_type f) (old : option (field_type g)) : option (field_type g) :=
  match decide (f = g) with left e => Some (eq_rect f field_type v g e) | right _ => old end.

Definition ref_set (f : Field) (r : TransactionRequest) (v : field_type f) : TransactionRequest :=
  ref_fields r (written f FChainId v (rq_chain_id r)) (written f FNonce v (rq_nonce r))
    (default [] (written f FInput v (Some (rq_input r)))) (written f FFrom v (rq_from r))
    (written f FKind v (rq_to r)) (written f FValue v (rq_value r)) (written f FGasPrice v (rq_gas_price r))
    (written f FMaxFeePerGas v (rq_max_fee_per_gas r))
    (written f FMaxPriorityFeePerGas v (rq_max_priority_fee_per_gas r)) (written f FGasLimit v (rq_gas r))
    (written f FAccessList v (rq_access_list r)).

#[export] Instance ref_builder : EthBuilder := {
  eth_get := ref_get;
  eth_set := ref_set;
  eth_clear_kind r :=
    ref_fields r (rq_chain_id r) (rq_nonce r) (rq_input r) (rq_from r) None (rq_value r) (rq_gas_price r)
      (rq_max_fee_per_gas r) (rq_max_priority_fee_per_gas r) (rq_gas r) (rq_access_list r);
}.

#[export] Instance ref_builder_laws : EthBuilderLaws.
Proof.
  split.
  - intros [] r v; reflexivity.
  - intros [] [] r v Hne; first [reflexivity | by destruct Hne].
  - intros f r v. by repeat split.
  - reflexivity.
  - intros [] r Hne; first [reflexivity | by destruct Hne].
  - intros r. by repeat split.
  - reflexivity.
  - intros [] r r' Hg Ef Et Ep Em Emp Eg Ev Ei Ec Ea; cbn; first [assumption | by rewrite Ei | by destruct Hg].
Qed.

Abbreviation sample_settings := [SetNonce 3; SetInput [1; 2]; SetNonce 4; SetKind (Call 9); TakeNonce].

Lemma sample_settings_build :
  exists q e, Request.build_unsigned (fold_left apply sample_settings Request.default) = Err (q, e).
Proof.
  assert (match Request.build_unsigned (fold_left apply sample_settings Request.default) with
          | Ok _ => false | Err _ => true end = true) as H by (vm_compute; reflexivity).
  destruct (Request.build_unsigned _) as [t|[q e]]; [done|eauto].
Qed.

Lemma settings_last_write_wins_witness :
  let filled := fold_left apply sample_settings Request.default in
  read filled FNonce = None /\ read filled FInput = Some [1; 2] /\ read filled FKind = Some (Call 9)
  /\ exists ty missing, Request.build_unsigned filled = Err (filled, Request.InvalidRequest ty missing).
Proof.
  cbv zeta. destruct (settings_last_write_wins Request.default sample_settings) as (Hread & _ & Hb).
  split; [exact (Hread FNonce)|]. split; [exact (Hread FInput)|]. split; [exact (Hread FKind)|].
  destruct sample_settings_build as (q & e & E).
  destruct (Hb eq_refl q e E) as [Eq (ty & missing & Ee)]. exists ty, missing. rewrite E, Eq, Ee. reflexivity.
Defined.
