(* ===== verification/Node.v ===== *)
(** * The node (dogeos-reth-node/src)

    The command line and its limits (args.rs, code_witness_args.rs), the parts it
    configures (lib.rs, payload.rs, network.rs, rpc.rs), the storage of block
    bodies (storage.rs) and the attributes of locally mined and of pending
    blocks. *)

From stdpp Require Import prelude gmap list strings pretty.
From Stdlib Require Import Ascii ZArith Lia.
From S2P Require Import Prelude.
From S2P Require ChainSpec.
From S2P Require Import Chain.
From S2P Require Import Alloy.
From S2P Require Import AlloyRef.
From S2P Require Import TxType.
From S2P Require Import Consensus.
From S2P Require CodeWitness.
From S2P Require Import Build.
From S2P Require Import Engine.
From S2P Require Payload.
From S2P Require PoolCapacity.
From S2P Require Import PoolValidator.
From S2P Require Import PoolAdmission.
From S2P Require PoolTask.
From S2P Require Import Wire.
From S2P Require WireNet.
From S2P Require RpcFee.

Import (hints) WireNet.

(** ** The command line (code_witness_args.rs, args.rs) *)

Record CodeWitnessArgs := {
  max_code_witness_bytes : Z;
  max_steps : Z;
  max_inflight : Z;
}.

Definition default_code_witness_args : CodeWitnessArgs :=
  {| max_code_witness_bytes := cw_max_code_witness_bytes default_config;
     max_steps := cw_max_steps default_config; max_inflight := cw_max_inflight default_config |}.

Definition validation_config (self : CodeWitnessArgs) : CodeWitnessValidationConfig :=
  {| cw_max_code_witness_bytes := max_code_witness_bytes self; cw_max_steps := max_steps self;
     cw_max_inflight := max_inflight self |}.

(** [str::parse::<usize>]: digits after an optional sign; an empty or lone sign, a
    character that is no digit, and a value above the width are errors. *)
Definition digit (c : Ascii.ascii) : option Z :=
  let n := Z.of_nat (Ascii.nat_of_ascii c) in
  if (48 <=? n) && (n <=? 57) then Some (n - 48) else None.

Fixpoint parse_digits (acc : Z) (value : string) : result Z string :=
  match value with
  | EmptyString => Ok acc
  | String c value =>
      match digit c with
      | None => Err "invalid digit found in string"%string
      | Some d =>
          if u64_max <? acc * 10 + d then Err "number too large to fit in target type"%string
          else parse_digits (acc * 10 + d) value
      end
  end.

Definition parse_usize (value : string) : result Z string :=
  match value with
  | EmptyString => Err "cannot parse integer from empty string"%string
  | String "+"%char EmptyString => Err "invalid digit found in string"%string
  | String "+"%char value => parse_digits 0 value
  | value => parse_digits 0 value
  end.

Definition parse_nonzero_usize `{PoolCapacity.Tokio} (value : string) : result Z string :=
  let? value := parse_usize value in
  if (value =? 0) || (PoolCapacity.MAX_PERMITS <? value) then
    Err ("value must be between 1 and " +:+ pretty PoolCapacity.MAX_PERMITS)
  else Ok value.

Definition DOGEOS_DEFAULT_GAS_LIMIT : Z := 20000000.
Definition DOGEOS_DEFAULT_PAYLOAD_SIZE_LIMIT : Z := 122880.
(** Nanoseconds. *)
Definition DOGEOS_DEFAULT_PAYLOAD_BUILDING_DURATION : Z := PoolTask.seconds 1.

Record DogeosRollupArgs := {
  code_witness : CodeWitnessArgs;
  sequencer : option string;
  min_suggested_priority_fee : Z;
  payload_size_limit : Z;
  enable_scroll_wire : bool;
  scroll_wire_signer : option Address;
}.

Definition default_args : DogeosRollupArgs :=
  {| code_witness := default_code_witness_args; sequencer := None;
     min_suggested_priority_fee := RpcFee.DEFAULT_MIN_SUGGESTED_PRIORITY_FEE;
     payload_size_limit := DOGEOS_DEFAULT_PAYLOAD_SIZE_LIMIT; enable_scroll_wire := true;
     scroll_wire_signer := None |}.

(** The chain identifier of the built-in development chain ([Chain::dev]). *)
Class DevChain := { dev_chain : Z }.

Definition validate_for_chain `{DevChain} (self : DogeosRollupArgs) (chain : Z) : result unit string :=
  let is_dev := chain =? dev_chain in
  if enable_scroll_wire self && negb (bool_decide (is_Some (scroll_wire_signer self))) && negb is_dev then
    Err "--network.valid-signer is required when --network.scroll-wire=true on non-development chains"%string
  else Ok tt.

(** ** Payload building (payload.rs) *)

Record DogeosPayloadBuilderBuilder := {
  payload_building_time_limit : Z;
  block_da_size_limit : option Z;
  pb_max_code_witness_bytes : Z;
}.

Definition default_payload_builder : DogeosPayloadBuilderBuilder :=
  {| payload_building_time_limit := DOGEOS_DEFAULT_PAYLOAD_BUILDING_DURATION;
     block_da_size_limit := Some DOGEOS_DEFAULT_PAYLOAD_SIZE_LIMIT;
     pb_max_code_witness_bytes := max_code_witness_bytes default_code_witness_args |}.

Definition builder_config (self : DogeosPayloadBuilderBuilder) (gas_limit : Z) : Payload.ScrollBuilderConfig :=
  Payload.with_max_code_witness_bytes
    (Payload.new_config (Some gas_limit) (payload_building_time_limit self) (block_da_size_limit self))
    (pb_max_code_witness_bytes self).

(** The configuration of the builder; the node's gas limit may be missing. *)
Definition build_payload_builder (self : DogeosPayloadBuilderBuilder) (configured_gas_limit : option Z) :
    Payload.ScrollBuilderConfig :=
  builder_config self (default DOGEOS_DEFAULT_GAS_LIMIT configured_gas_limit).

(** ** The network (network.rs, protocol/handler.rs) *)

Record ScrollWireProtocolHandler := { handler_config : ScrollWireConfig }.

(** Its events reach the manager through the channel of the wire's world. *)
Definition new_handler (config : ScrollWireConfig) : ScrollWireProtocolHandler := {| handler_config := config |}.

(** Both directions get a handler with the same configuration. *)
Definition on_incoming (self : ScrollWireProtocolHandler) : option ScrollWireConfig := Some (handler_config self).
Definition on_outgoing (self : ScrollWireProtocolHandler) : option ScrollWireConfig := Some (handler_config self).

Record DogeosNetworkBuilder := { extra_protocols : list ScrollWireProtocolHandler }.

Definition new_network : DogeosNetworkBuilder := {| extra_protocols := [] |}.

Definition with_sub_protocol (self : DogeosNetworkBuilder) (protocol : ScrollWireProtocolHandler) :
    DogeosNetworkBuilder :=
  {| extra_protocols := extra_protocols self ++ [protocol] |}.

Definition with_scroll_wire (self : DogeosNetworkBuilder) (config : ScrollWireConfig) :
    DogeosNetworkBuilder * WireNet.ScrollWireManager :=
  (with_sub_protocol self (new_handler config), WireNet.new_manager).

(** ** The shared manager and the RPC (rpc.rs) *)

(** One cell, shared by the component builder and the RPC builder. *)
Definition ScrollWireRuntime : Type := option WireNet.ScrollWireManager.

Definition install (self : ScrollWireRuntime) (manager : WireNet.ScrollWireManager) : ScrollWireRuntime := Some manager.
Definition take (self : ScrollWireRuntime) : option WireNet.ScrollWireManager * ScrollWireRuntime := (self, None).

Definition pending_env_attributes (parent : Header) : ScrollNextBlockEnvAttributes :=
  {| attr_timestamp := timestamp parent; attr_suggested_fee_recipient := beneficiary parent;
     attr_gas_limit := gas_limit parent; attr_base_fee := default 0 (base_fee_per_gas parent) |}.

Section EthApi.
Context `{AlloyTypes} {Eng C : Type} `{!WireNet.LruCache C (B256 * Signature)}.

(** The importer the launch of the RPC spawns, if a manager is there. *)
Definition build_eth_api (runtime : ScrollWireRuntime) (signer : option Address) (engine_handle : Eng) :
    option (WireNet.DogeosScrollWireEngineImporter (Eng := Eng) (C := C)) * ScrollWireRuntime :=
  match take runtime with
  | (Some manager, runtime) => (Some (WireNet.new_importer manager engine_handle signer), runtime)
  | (None, runtime) => (None, runtime)
  end.
End EthApi.

(** ** Putting the node together (lib.rs) *)

Section Assembly.
Context `{!PoolTask.PoolOverrides} (default_overrides : PoolTask.PoolBuilderConfigOverrides).

Record DogeosNodeTypes := { args : DogeosRollupArgs; scroll_wire : ScrollWireRuntime }.

Definition new_node (args : DogeosRollupArgs) : DogeosNodeTypes := {| args := args; scroll_wire := None |}.

(** The configured builders; those of the executor and of consensus have no
    configuration. *)
Record ComponentsBuilder := {
  pool : PoolTask.DogeosPoolBuilder;
  payload : DogeosPayloadBuilderBuilder;
  network : DogeosNetworkBuilder;
}.

(** The builders of consensus, of the EVM configuration and of the Engine
    validator (consensus.rs, execution.rs, engine.rs) take the chain of the node
    and nothing else; the consensus checks have no state. *)
Inductive DogeosConsensus : Type := TheConsensus.

Definition build_consensus : DogeosConsensus := TheConsensus.
Definition build_evm {S} (ctx_chain_spec : S) : ScrollEvmConfig S := dogeos ctx_chain_spec.
Definition build_engine_validator {S} (config_chain : S) : DogeosEngineValidator S := new_validator config_chain.

Definition default_pool : PoolTask.DogeosPoolBuilder :=
  {| PoolTask.pool_config_overrides := default_overrides; PoolTask.code_witness_config := default_config |}.

(** The preset without arguments. *)
Definition components : ComponentsBuilder :=
  {| pool := default_pool; payload := default_payload_builder; network := new_network |}.

Definition components_builder (self : DogeosNodeTypes) : ComponentsBuilder * DogeosNodeTypes :=
  let '(network, self) :=
    if enable_scroll_wire (args self) then
      let '(network, manager) := with_scroll_wire new_network {| connect_unsupported_peer := true |} in
      (network, {| args := args self; scroll_wire := install (scroll_wire self) manager |})
    else (new_network, self) in
  ({| pool := PoolTask.with_code_witness_config default_pool (validation_config (code_witness (args self)));
      payload :=
        {| payload_building_time_limit := payload_building_time_limit default_payload_builder;
           block_da_size_limit := Some (payload_size_limit (args self));
           pb_max_code_witness_bytes := max_code_witness_bytes (code_witness (args self)) |};
      network := network |}, self).

(** *** The methods added to the RPC

    URLs are parsed by [reqwest]; the node's own configuration has a forwarder
    URL, the price cap of reth's gas oracle, and whether local transactions stay
    local. *)
Record RpcContext (Url : Type) := {
  gas_oracle_max_price : option U256;
  rpc_forwarder : option Url;
  no_local_transactions_propagation : bool;
}.
Arguments gas_oracle_max_price {Url} _.
Arguments rpc_forwarder {Url} _.
Arguments no_local_transactions_propagation {Url} _.

Record RpcModules (Url : Type) := {
  priority_fee_api : RpcFee.DogeosPriorityFeeApi;
  forwarder : option (Url * RpcFee.DogeosRawTransactionForwarder);
}.
Arguments priority_fee_api {Url} _.
Arguments forwarder {Url} _.

(** The policy of the add-ons, kept by the closure that extends the modules. *)
Record AddOns := {
  sequencer_url : option string;
  ao_min_suggested_priority_fee : Z;
  ao_payload_size_limit : Z;
  ao_scroll_wire_signer : option Address;
}.

Definition add_ons_with_policy (sequencer_url : option string) (min_suggested_priority_fee payload_size_limit : Z)
    (scroll_wire_signer : option Address) : AddOns :=
  {| sequencer_url := sequencer_url; ao_min_suggested_priority_fee := min_suggested_priority_fee;
     ao_payload_size_limit := payload_size_limit; ao_scroll_wire_signer := scroll_wire_signer |}.

Definition default_add_ons : AddOns :=
  add_ons_with_policy None RpcFee.DEFAULT_MIN_SUGGESTED_PRIORITY_FEE DOGEOS_DEFAULT_PAYLOAD_SIZE_LIMIT None.

Definition add_ons (self : DogeosNodeTypes) : AddOns :=
  add_ons_with_policy (sequencer (args self)) (min_suggested_priority_fee (args self))
    (payload_size_limit (args self)) (scroll_wire_signer (args self)).

(** [Option::transpose]. *)
Definition transpose {A E} (o : option (result A E)) : result (option A) E :=
  match o with
  | None => Ok None
  | Some (Ok a) => Ok (Some a)
  | Some (Err e) => Err e
  end.

Definition extend_rpc_modules {Url ParseError} (parse_url : string -> result Url ParseError) (self : AddOns)
    (ctx : RpcContext Url) : result (RpcModules Url) ParseError :=
  let api := RpcFee.new (gas_oracle_max_price ctx) (ao_min_suggested_priority_fee self) (ao_payload_size_limit self) in
  let? url := transpose (parse_url <$> sequencer_url self) in
  let forwarder_url := match url with Some url => Some url | None => rpc_forwarder ctx end in
  Ok {| priority_fee_api := api;
        forwarder :=
          match forwarder_url with
          | Some url => Some (url, RpcFee.new_forwarder (negb (no_local_transactions_propagation ctx)))
          | None => None
          end |}.
End Assembly.
Arguments gas_oracle_max_price {Url} _.
Arguments rpc_forwarder {Url} _.
Arguments no_local_transactions_propagation {Url} _.
Arguments priority_fee_api {Url} _.
Arguments forwarder {Url} _.

(** ** Storage (storage.rs)

    A stored block has its header and transactions; a body has nothing else. *)

Section Storage.
Context {T Tables E : Type}.

Record DogeosBlockBody := {
  body_transactions : list T;
  body_ommers : list Header;
  body_withdrawals : option (list Z);
}.

(** The body of a block, as consensus reads it. *)
Definition block_of (h : Header) (b : DogeosBlockBody) : SealedBlock T :=
  {| block_header := h; transactions := body_transactions b; ommers := Some (body_ommers b);
     withdrawals := body_withdrawals b |}.

Definition read_block_bodies (inputs : list (Header * list T)) : result (list DogeosBlockBody) E :=
  Ok (map (fun '(_header, transactions) =>
    {| body_transactions := transactions; body_ommers := []; body_withdrawals := None |}) inputs).

Definition write_block_bodies (bodies : list (Z * option DogeosBlockBody)) (tables : Tables) :
    result unit E * Tables :=
  (Ok tt, tables).

Definition remove_block_bodies_above (block : Z) (tables : Tables) : result unit E * Tables := (Ok tt, tables).
End Storage.
Arguments DogeosBlockBody : clear implicits.

(** ** Local mining (lib.rs) *)

Section LocalMining.
Context {Withdrawal : Type}.

(** [BlockDataHint::default]. *)
Definition default_hint : BlockDataHint :=
  {| hint_extra_data := None; hint_state_root := None; hint_coinbase := None; hint_nonce := None;
     hint_difficulty := None |}.

(** [inner] is reth's builder over the chain specification. *)
Definition build_local_attributes (inner : Header -> PayloadAttributes Withdrawal) (parent : Header) :
    ScrollPayloadAttributes Withdrawal :=
  let a := inner parent in
  {| payload_attributes :=
       {| pa_timestamp := pa_timestamp a; pa_prev_randao := pa_prev_randao a;
          pa_suggested_fee_recipient := pa_suggested_fee_recipient a; pa_withdrawals := None;
          pa_parent_beacon_block_root := pa_parent_beacon_block_root a |};
     spa_transactions := None; no_tx_pool := false; block_data_hint := default_hint; spa_gas_limit := None |}.
End LocalMining.

(** ** Theorems *)

(** The number a string of digits denotes after a prefix, without a width. *)
Fixpoint digits_value (acc : Z) (value : string) : option Z :=
  match value with
  | EmptyString => Some acc
  | String c value => match digit c with Some d => digits_value (acc * 10 + d) value | None => None end
  end.

(** The number a numeral denotes: digits, at least one, after an optional sign. *)
Definition numeral (value : string) : option Z :=
  match value with
  | EmptyString => None
  | String c rest =>
      if Ascii.eqb c "+" then match rest with EmptyString => None | _ => digits_value 0 rest end
      else digits_value 0 value
  end.

Lemma digit_range c d : digit c = Some d -> 0 <= d <= 9.
Proof. unfold digit. destruct (_ && _) eqn:E; [|done]. intros [= <-]. bool_to_prop. lia. Qed.

Lemma digits_value_grows acc value n : 0 <= acc -> digits_value acc value = Some n -> acc <= n.
Proof.
  revert acc. induction value as [|c value IH]; intros acc Ha; simpl; [by intros [= ->]|].
  destruct (digit c) as [d|] eqn:Ed; [|done]. apply digit_range in Ed. intros Hn.
  specialize (IH (acc * 10 + d) ltac:(lia) Hn). lia.
Qed.

Lemma parse_digits_spec acc value n :
  0 <= acc <= u64_max -> parse_digits acc value = Ok n <-> digits_value acc value = Some n /\ n <= u64_max.
Proof.
  revert acc. induction value as [|c value IH]; intros acc Ha; simpl.
  { split; [intros [= ->]; split; [done|lia]|by intros [[= ->] _]]. }
  destruct (digit c) as [d|] eqn:Ed; [|split; [done|by intros [? _]]]. apply digit_range in Ed.
  destruct (Z.ltb_spec u64_max (acc * 10 + d)); [|apply IH; lia].
  split; [done|]. intros [Hn Hle]. apply digits_value_grows in Hn; lia.
Qed.

Lemma parse_usize_spec value n : parse_usize value = Ok n <-> numeral value = Some n /\ n <= u64_max.
Proof.
  unfold parse_usize, numeral. destruct value as [|c rest]; [by split; [|intros [? _]]|].
  destruct (Ascii.eqb_spec c "+") as [->|Hc].
  - destruct rest; [by split; [|intros [? _]]|]. apply parse_digits_spec. by vm_compute.
  - transitivity (parse_digits 0 (String c rest) = Ok n); [|apply parse_digits_spec; by vm_compute].
    destruct c as [[] [] [] [] [] [] [] []]; try done; by destruct rest.
Qed.

Lemma numeral_nonneg value n : numeral value = Some n -> 0 <= n.
Proof.
  unfold numeral. destruct value as [|c rest]; [done|].
  destruct (Ascii.eqb c "+"); [destruct rest; [done|]|]; by apply digits_value_grows.
Qed.

(** The limit of concurrent admissions is the numeral given, when it is
    between one and what a semaphore can hold; and any limit the command line
    accepts lets the executor of the pool be built, with as many validation
    workers as tasks asked for plus one, but no more than the limit. *)
Theorem accepted_inflight_builds `{PoolCapacity.Tokio} (value : string) (n : Z) :
  PoolCapacity.MAX_PERMITS <= u64_max ->
  (parse_nonzero_usize value = Ok n <-> numeral value = Some n /\ 1 <= n <= PoolCapacity.MAX_PERMITS) /\
  (parse_nonzero_usize value = Ok n -> forall V (validator : V) additional, in_u64 additional ->
   exists executor, PoolCapacity.new validator n additional = Returns executor /\
     PoolCapacity.available_permits (PoolCapacity.inflight executor) = n /\
     PoolCapacity.available_permits (PoolCapacity.workers executor) = Z.min (additional + 1) n).
Proof.
  intros Hmax.
  assert (Hp : parse_nonzero_usize value = Ok n <-> numeral value = Some n /\ 1 <= n <= PoolCapacity.MAX_PERMITS).
  { unfold parse_nonzero_usize. pose proof (parse_usize_spec value) as Hs.
    destruct (parse_usize value) as [m|e] eqn:Em; simpl.
    - destruct (proj1 (Hs m) eq_refl) as [Hn Hle]. rewrite Hn.
      assert (0 <= m) by (by eapply numeral_nonneg).
      destruct (Z.eqb_spec m 0), (Z.ltb_spec PoolCapacity.MAX_PERMITS m); simpl; split; try done;
        try (intros [[= ->] ?]; lia); [by intros [= ->]; split; [|lia]|by intros [[= ->] _]].
    - split; [done|]. intros [Hn Hr]. destruct (Hs n) as [_ Hs']. by discriminate Hs'; [split; [|lia]]. }
  split; [exact Hp|]. intros Hn V validator additional Ha. apply Hp in Hn as [_ Hn].
  unfold PoolCapacity.new, PoolCapacity.semaphore_new.
  rewrite (proj2 (Z.ltb_lt 0 n)), (proj2 (Z.ltb_ge PoolCapacity.MAX_PERMITS n)) by lia. simpl.
  assert (Z.min (saturating_add u64_max additional 1) n = Z.min (additional + 1) n) as -> by (revert Hmax Ha Hn; solve_ints).
  rewrite (proj2 (Z.ltb_ge _ _)) by lia. by eexists.
Qed.

(** The policy of the add-ons in the modules they install. *)
Lemma rpc_modules_policy `{DevChain} {Url ParseError} (parse_url : string -> result Url ParseError) node
    (ctx : RpcContext Url) modules :
  extend_rpc_modules parse_url (add_ons node) ctx = Ok modules ->
  RpcFee.payload_size_limit (priority_fee_api modules) = payload_size_limit (args node)
  /\ RpcFee.min_suggested_priority_fee (priority_fee_api modules) = min_suggested_priority_fee (args node)
  /\ (sequencer (args node) = None -> fst <$> forwarder modules = rpc_forwarder ctx)
  /\ (forall url, sequencer (args node) = Some url ->
      exists u, parse_url url = Ok u /\ fst <$> forwarder modules = Some u).
Proof.
  unfold extend_rpc_modules, add_ons. simpl. destruct (sequencer (args node)) as [url|]; simpl.
  - destruct (parse_url url) as [u|e] eqn:Eu; [|done]. intros [= <-]. simpl. split_and!; try done.
    intros url' [= <-]. eauto.
  - intros [= <-]. simpl. split_and!; try done. by destruct (rpc_forwarder ctx).
Qed.

(** The bodies consensus accepts have nothing but transactions. *)
Lemma accepted_body `{RethConsensus} {T : Type} `{ScrollTransaction T} (transaction_root : list T -> B256) h b :
  Consensus.validate_block_pre_execution transaction_root (block_of h b) = Returns (Ok tt) ->
  {| body_transactions := body_transactions b; body_ommers := []; body_withdrawals := None |} = b.
Proof.
  unfold Consensus.validate_block_pre_execution. destruct b as [txs [|o os] [ws|]]; simpl; try done;
    repeat (case_match; try done).
Qed.

(** The policy of the command line reaches every part it governs. The pool's
    admission and the payload builder count code against one limit; the payload
    limit bounds the builder's candidates and marks full blocks for the fee
    suggestion, which has the configured minimum; the builder has the node's gas
    limit or the default. The wire importer is installed exactly when the
    protocol is on, once, with the configured signer, so arguments accepted for a
    chain other than the development chain never import unauthenticated
    blocks. *)
Theorem node_policy_reaches_parts `{DevChain} `{!PoolTask.PoolOverrides} `{AlloyTypes}
    {Eng C : Type} `{!WireNet.LruCache C (B256 * Signature)} {Url ParseError : Type}
    (overrides : PoolTask.PoolBuilderConfigOverrides) (parse_url : string -> result Url ParseError)
    (a : DogeosRollupArgs) (configured_gas_limit : option Z) (ctx : RpcContext Url) (engine : Eng) :
  let '(parts, node) := components_builder overrides (new_node a) in
  let builder := build_payload_builder (payload parts) configured_gas_limit in
  let policy := add_ons node in
  let '(importer, runtime) := build_eth_api (C := C) (scroll_wire node) (ao_scroll_wire_signer policy) engine in
  cw_max_code_witness_bytes (PoolTask.code_witness_config (pool parts)) = max_code_witness_bytes (code_witness a)
  /\ Payload.bc_max_code_witness_bytes builder = max_code_witness_bytes (code_witness a)
  /\ Payload.bc_max_da_block_size builder = Some (payload_size_limit a)
  /\ Payload.bc_gas_limit builder = Some (default 20000000 configured_gas_limit)
  /\ (forall modules, extend_rpc_modules parse_url policy ctx = Ok modules ->
      RpcFee.payload_size_limit (priority_fee_api modules) = payload_size_limit a
      /\ RpcFee.min_suggested_priority_fee (priority_fee_api modules) = min_suggested_priority_fee a
      /\ (sequencer a = None -> fst <$> forwarder modules = rpc_forwarder ctx)
      /\ (forall url, sequencer a = Some url -> exists u, parse_url url = Ok u /\ fst <$> forwarder modules = Some u))
  /\ length (extra_protocols (network parts)) = (if enable_scroll_wire a then 1 else 0)%nat
  /\ match importer with
     | Some i => enable_scroll_wire a = true /\ WireNet.authorized_signer i = scroll_wire_signer a
                 /\ WireNet.engine i = engine
     | None => enable_scroll_wire a = false
     end
  /\ (build_eth_api (C := C) runtime (ao_scroll_wire_signer policy) engine).1 = None
  /\ (forall chain i, validate_for_chain a chain = Ok tt -> chain <> dev_chain -> importer = Some i ->
      is_Some (WireNet.authorized_signer i)).
Proof.
  unfold components_builder. simpl.
  destruct (enable_scroll_wire a) eqn:Ee; simpl; split_and!; try done.
  1,3: intros modules; apply rpc_modules_policy.
  - intros chain i. unfold validate_for_chain. rewrite Ee. simpl. intros Hv Hc [= <-]. simpl.
    rewrite (proj2 (Z.eqb_neq _ _) Hc), andb_true_r in Hv. case_bool_decide; [done|by destruct (scroll_wire_signer a)].
Qed.

(** A block that consensus accepts is stored without loss: the body read back
    beside its header and transactions is the body written, and the block made of
    it is accepted again; the tables of the storage stay as they are. *)
Theorem stored_bodies_read_back `{RethConsensus} {T : Type} `{ScrollTransaction T} {Tables E : Type}
    (transaction_root : list T -> B256) (blocks : list (Header * DogeosBlockBody T)) (tables : Tables) :
  Forall (fun '(h, b) => Consensus.validate_block_pre_execution transaction_root (block_of h b) = Returns (Ok tt)) blocks ->
  exists bodies,
    read_block_bodies (E := E) (map (fun '(h, b) => (h, body_transactions b)) blocks) = Ok bodies
    /\ bodies = map snd blocks
    /\ Forall2 (fun '(h, _) b => Consensus.validate_block_pre_execution transaction_root (block_of h b) = Returns (Ok tt))
         blocks bodies
    /\ write_block_bodies (E := E) (map (fun b => (0, Some b)) bodies) tables = (Ok tt, tables).
Proof.
  intros Hb. assert (Hr : read_block_bodies (E := E) (map (fun '(h, b) => (h, body_transactions b)) blocks)
                    = Ok (map snd blocks)).
  { unfold read_block_bodies. f_equal. rewrite map_map. apply map_ext_Forall. eapply Forall_impl; [exact Hb|].
    intros [h b] Hv. by apply accepted_body in Hv. }
  exists (map snd blocks). split; [exact Hr|]. split; [done|]. split; [|done].
  clear Hr. induction Hb as [|[h b] blocks Hv _ IH]; simpl; by constructor.
Qed.

(** Locally mined attributes pass the Engine API unless reth's builder gives them
    a beacon root. *)
Lemma local_attributes_accepted {T : Type} `{EnginePayloads T}
    (inner : Header -> PayloadAttributes Engine.Withdrawal) (parent : Header) :
  ensure_well_formed_attributes (build_local_attributes inner parent) = Ok tt <->
  pa_parent_beacon_block_root (inner parent) = None.
Proof.
  unfold ensure_well_formed_attributes, validate_dogeos_fields. simpl.
  by destruct (pa_parent_beacon_block_root (inner parent)).
Qed.

(** ** Witnesses *)

#[local] Instance sample_permits : PoolCapacity.Tokio := { PoolCapacity.MAX_PERMITS := 2 ^ 61 - 1 }.

Lemma accepted_inflight_builds_witness :
  parse_nonzero_usize "64" = Ok 64
  /\ exists executor, PoolCapacity.new tt 64 1 = Returns executor
     /\ PoolCapacity.available_permits (PoolCapacity.workers executor) = 2.
Proof.
  destruct (accepted_inflight_builds "64" 64) as [Hp Hb]; [vm_compute; discriminate|].
  assert (Hn : parse_nonzero_usize "64" = Ok 64) by (apply Hp; split; [reflexivity|vm_compute; by split]).
  split; [exact Hn|]. destruct (Hb Hn unit tt 1) as (executor & He & _ & Hw); [vm_compute; by split|].
  exists executor. split; [exact He|exact Hw].
Defined.

#[local] Instance sample_dev : DevChain := { dev_chain := 1337 }.

Definition sample_args : DogeosRollupArgs :=
  {| code_witness := {| max_code_witness_bytes := 4096; max_steps := 2000; max_inflight := 16 |};
     sequencer := None; min_suggested_priority_fee := 100; payload_size_limit := 122880;
     enable_scroll_wire := true; scroll_wire_signer := Some 7 |}.

Lemma node_policy_reaches_parts_witness :
  let '(_, node) := components_builder (H := PoolTask.ref_overrides) None (new_node sample_args) in
  validate_for_chain sample_args 534352 = Ok tt
  /\ match (build_eth_api (H := ref_types) (C := Z * list (B256 * bool)) (scroll_wire node) (Some 7) tt).1 with
     | Some i => is_Some (WireNet.authorized_signer i)
     | None => False
     end.
Proof.
  pose proof (node_policy_reaches_parts (H0 := PoolTask.ref_overrides) (H1 := ref_types) (C := Z * list (B256 * bool))
    (ParseError := unit) None (fun url => Ok url) sample_args None
    {| gas_oracle_max_price := None; rpc_forwarder := None; no_local_transactions_propagation := false |} tt) as H.
  destruct H as (_ & _ & _ & _ & _ & _ & _ & _ & H). split; [reflexivity|].
  apply (H 534352); [reflexivity|discriminate|reflexivity].
Defined.

Definition sample_body : DogeosBlockBody (option Z) :=
  {| body_transactions := [Some 3; None]; body_ommers := []; body_withdrawals := None |}.

Lemma stored_bodies_read_back_witness :
  exists bodies, read_block_bodies (T := option Z) (E := unit) [(plain_header, [Some 3; None])] = Ok bodies
    /\ bodies = [sample_body].
Proof.
  destruct (stored_bodies_read_back (E := unit) (fun _ => 0) [(plain_header, sample_body)] tt)
    as (bodies & Hr & Hb & _); [by repeat constructor|].
  exists bodies. split; [exact Hr|exact Hb].
Defined.
