(* ===== verification/Start.v ===== *)
(** * Starting the node (bin/dogeos-reth)

    lib.rs: the chain a command line names; main.rs: what runs on it, and the
    refusal of arguments that do not fit it. reth's reader of genesis documents
    is an argument; the commands other than running the node are reth's. *)

From stdpp Require Import prelude gmap list strings.
From Stdlib Require Import ZArith Lia.
From S2P Require Import Prelude.
From S2P Require Import Hardforks.
From S2P Require Import GenesisConfig.
From S2P Require Import ChainSpec.
From S2P Require Import Networks.
From S2P Require Import Chain.
From S2P Require Import Alloy.
From S2P Require Import AlloyRef.
From S2P Require Import TxType.
From S2P Require Import Consensus.
From S2P Require Import Build.
From S2P Require Import Engine.
From S2P Require PoolTask.
From S2P Require Import Wire.
From S2P Require WireNet.
From S2P Require Import Node.

Import (hints) WireNet.

(** [DOGEOS_DEV.chain()]. *)
#[export] Instance builtin_dev : DevChain := { dev_chain := CHAIN_DEV }.

(** ** The chain (lib.rs) *)

Definition SUPPORTED_CHAINS : list string := ["dogeos-mainnet"; "dogeos-chikyu"; "dev"]%string.

(** A value that a panic may replace, as a result. *)
Definition returns_ok {A E} (o : outcome A) : outcome (result A E) :=
  match o with Returns a => Returns (Ok a) | Panics msg => Panics msg end.

Section Start.
Context `{AlloyForks} `{!RethChainSpec} `{PrimitiveJson} (state_root_of : Genesis -> B256) (default_chain_id : Z)
  {ParseError : Type} (parse_genesis : string -> result Genesis ParseError).

Definition parse (value : string) : outcome (result DogeosChainSpec ParseError) :=
  if String.eqb value "dogeos-mainnet" then returns_ok (DOGEOS_MAINNET state_root_of)
  else if String.eqb value "dogeos-chikyu" then returns_ok (DOGEOS_CHIKYU state_root_of)
  else if String.eqb value "dev" then returns_ok (DOGEOS_DEV state_root_of default_chain_id)
  else
    match parse_genesis value with
    | Err e => Returns (Err e)
    | Ok genesis => returns_ok (from_custom_genesis state_root_of genesis)
    end.

(** ** Running (main.rs) *)

(** The first closure: what executes and checks blocks, over the chain. *)
Definition command_components (chain_spec : DogeosChainSpec) : ScrollEvmConfig DogeosChainSpec * DogeosConsensus :=
  (dogeos chain_spec, TheConsensus).

(** The second closure, up to the launch. *)
Definition launch (chain_spec : DogeosChainSpec) (args : DogeosRollupArgs) : result DogeosNodeTypes string :=
  let? _ := validate_for_chain args (chain chain_spec) in
  Ok (new_node args).

Inductive StartError : Type := BadChain (e : ParseError) | BadArgs (message : string).

(** The node command: the chain is parsed first. The node's builders of the EVM and
    of the Engine validator get the chain it parsed. *)
Definition start (value : string) (args : DogeosRollupArgs) :
    outcome (result (DogeosChainSpec * DogeosNodeTypes) StartError) :=
  match parse value with
  | Panics msg => Panics msg
  | Returns (Err e) => Returns (Err (BadChain e))
  | Returns (Ok chain_spec) =>
      Returns (let? node := map_err BadArgs (launch chain_spec args) in Ok (chain_spec, node))
  end.

End Start.

(** ** Lemmas *)

Section StartLemmas.
Context `{AlloyForks} `{!RethChainSpec} `{PrimitiveJson} (state_root_of : Genesis -> B256) (default_chain_id : Z)
  {ParseError : Type} (parse_genesis : string -> result Genesis ParseError).

Abbreviation Start := (start state_root_of default_chain_id parse_genesis).
Abbreviation Parse := (parse state_root_of default_chain_id parse_genesis).

Lemma start_Ok value a spec node :
  Start value a = Returns (Ok (spec, node)) ->
  Parse value = Returns (Ok spec) /\ validate_for_chain a (chain spec) = Ok tt /\ node = new_node a.
Proof.
  unfold start, launch. destruct (Parse value) as [[s|e]|msg]; [|done..].
  destruct (validate_for_chain a (chain s)) as [[]|e] eqn:Ev; [|done]. by intros [= <- <-].
Qed.

Lemma start_value value a :
  Start value a =
  match Parse value with
  | Panics msg => Panics msg
  | Returns (Err e) => Returns (Err (BadChain e))
  | Returns (Ok s) =>
      Returns (match validate_for_chain a (chain s) with
               | Ok _ => Ok (s, new_node a)
               | Err e => Err (BadArgs e)
               end)
  end.
Proof.
  unfold start, launch. destruct (Parse value) as [[s|e]|msg]; [|done..]. by destruct (validate_for_chain _ _).
Qed.

Lemma parse_named :
  Parse "dogeos-mainnet" = returns_ok (DOGEOS_MAINNET state_root_of)
  /\ Parse "dogeos-chikyu" = returns_ok (DOGEOS_CHIKYU state_root_of)
  /\ Parse "dev" = returns_ok (DOGEOS_DEV state_root_of default_chain_id).
Proof. done. Qed.

Lemma parse_custom value :
  value ∉ SUPPORTED_CHAINS ->
  Parse value = match parse_genesis value with
                | Err e => Returns (Err e)
                | Ok g => returns_ok (from_custom_genesis state_root_of g)
                end.
Proof.
  intros Hv. unfold parse. unfold SUPPORTED_CHAINS in Hv. rewrite !not_elem_of_cons in Hv.
  destruct Hv as (N1 & N2 & N3 & _). by rewrite !(proj2 (String.eqb_neq _ _)).
Qed.
End StartLemmas.

(** A spec the crate builds has the chain of its description. *)
Lemma validate_spec_chain (a : DogeosRollupArgs) c :
  validate_for_chain a c = Ok tt <->
  (enable_scroll_wire a = false \/ is_Some (scroll_wire_signer a) \/ c = CHAIN_DEV).
Proof.
  unfold validate_for_chain. change dev_chain with CHAIN_DEV.
  destruct (enable_scroll_wire a); [|naive_solver].
  destruct (scroll_wire_signer a); [simpl; naive_solver|].
  destruct (Z.eqb_spec c CHAIN_DEV); simpl; [naive_solver|]. split; [done|]. intros [?|[[]|?]]; done.
Qed.

(** The importer of a node whose arguments were accepted on another chain than the
    development chain. *)
Lemma accepted_importer `{!PoolTask.PoolOverrides} `{AlloyTypes} {Eng C : Type}
    `{!WireNet.LruCache C (B256 * Signature)} overrides (a : DogeosRollupArgs) c (engine : Eng) i :
  validate_for_chain a c = Ok tt -> c <> CHAIN_DEV ->
  let node := (components_builder overrides (new_node a)).2 in
  (build_eth_api (C := C) (scroll_wire node) (ao_scroll_wire_signer (add_ons node)) engine).1 = Some i ->
  exists signer, scroll_wire_signer a = Some signer
    /\ i = WireNet.new_importer WireNet.new_manager engine (Some signer).
Proof.
  intros Hv%validate_spec_chain Hc. unfold components_builder. cbn [args new_node].
  destruct (enable_scroll_wire a); [|done]. cbn [snd build_eth_api take scroll_wire install fst].
  intros [= <-]. destruct Hv as [|[[signer Es]|]]; [done| |done]. exists signer.
  by cbn [add_ons add_ons_with_policy ao_scroll_wire_signer args]; rewrite Es.
Qed.

(** ** Properties *)

(** C13: What a command line starts. Each supported name starts the network of that
    name, with the chain id, the configuration and the schedule the crates
    declare, the two public networks only with a signer when the wire is on; any
    other value is read as a genesis document, whose error is reported, and
    whose invalid configuration panics. A node that started runs the chain it
    parsed, and on any chain but the development chain every block its importer
    ever hands to its engine was announced to it and signed by the signer of its
    command line. *)
Theorem started_node_authenticated `{AlloyForksLaws} `{!RethChainSpec} `{!RethChainSpecLaws} `{PrimitiveJsonLaws}
    (state_root_of : Genesis -> B256) (default_chain_id : Z) {ParseError : Type}
    (parse_genesis : string -> result Genesis ParseError) (value : string) (a : DogeosRollupArgs)
    `{!PoolTask.PoolOverrides} (overrides : PoolTask.PoolBuilderConfigOverrides)
    `{AlloyTypes} {T} `{EnginePayloads T} {Eng} `{!WireNet.EngineHandle Eng T} `{!WireNet.EngineHandleLaws Eng T}
    `{Rlp} `{HeaderRlp} (keccak256 : bytes -> B256) {RecoveryError}
    (recover_signer : Signature -> B256 -> result Address RecoveryError)
    {C} `{!WireNet.LruCache C (B256 * Signature)} `{!WireNet.LruCacheLaws C (B256 * Signature)}
    (engine : Eng) (es : list (WireNet.ScrollWireEvent T)) :
  let Start := start state_root_of default_chain_id parse_genesis in
  let signed := enable_scroll_wire a = false \/ is_Some (scroll_wire_signer a) in
  (signed -> exists s, Start "dogeos-mainnet" a = Returns (Ok (s, new_node a))
               /\ describes s mainnet_genesis 1122005 scroll_config_mainnet mainnet)
  /\ (signed -> exists s, Start "dogeos-chikyu" a = Returns (Ok (s, new_node a))
               /\ describes s chikyu_genesis 6281971 scroll_config_chikyu chikyu)
  /\ (exists s, Start "dev" a = Returns (Ok (s, new_node a))
               /\ describes s (dev_genesis default_chain_id) CHAIN_DEV scroll_config_dev dev)
  /\ (value ∉ SUPPORTED_CHAINS ->
      match parse_genesis value with
      | Err e => Start value a = Returns (Err (BadChain e))
      | Ok g =>
          match from_custom_genesis state_root_of g with
          | Panics msg => Start value a = Panics msg
          | Returns s => (exists msg, Start value a = Returns (Err (BadArgs msg))
                          /\ ~ signed /\ chain s <> CHAIN_DEV)
                         \/ Start value a = Returns (Ok (s, new_node a))
          end
      end)
  /\ (forall s node, Start value a = Returns (Ok (s, node)) -> chain s <> CHAIN_DEV ->
      let node := (components_builder overrides node).2 in
      match (build_eth_api (C := C) (scroll_wire node) (ao_scroll_wire_signer (add_ons node)) engine).1 with
      | None => enable_scroll_wire a = false
      | Some i =>
          exists signer done, scroll_wire_signer a = Some signer
          /\ WireNet.payload_calls (WireNet.engine (WireNet.import_all keccak256 recover_signer i es))
             = WireNet.payload_calls engine ++ map WireNet.payload_of done
          /\ (done `sublist_of` omap WireNet.announced es)
          /\ Forall (fun b => recover_signer b.2 (signature_hash keccak256 (block_header b.1)) = Ok signer) done
      end).
Proof.
  intros Start signed.
  destruct (builtin_specs state_root_of default_chain_id) as (s1 & s2 & s3 & E1 & E2 & E3 & D1 & D2 & D3).
  destruct (parse_named state_root_of default_chain_id parse_genesis) as (P1 & P2 & P3).
  rewrite E1 in P1. rewrite E2 in P2. rewrite E3 in P3.
  assert (Hstart : forall v s, parse state_root_of default_chain_id parse_genesis v = Returns (Ok s) ->
    signed \/ chain s = CHAIN_DEV -> Start v a = Returns (Ok (s, new_node a))).
  { intros v s Hp Hs. unfold Start. rewrite start_value, Hp.
    rewrite (proj2 (validate_spec_chain a (chain s))); [done|]. unfold signed in Hs. tauto. }
  split; [|split; [|split; [|split]]].
  - intros Hs. exists s1. split; [|exact D1]. apply Hstart; [exact P1|by left].
  - intros Hs. exists s2. split; [|exact D2]. apply Hstart; [exact P2|by left].
  - exists s3. split; [|exact D3]. apply Hstart; [exact P3|]. right. apply D3.
  - intros Hv. pose proof (parse_custom state_root_of default_chain_id parse_genesis value Hv) as Hp.
    unfold Start. rewrite start_value, Hp. destruct (parse_genesis value) as [g|e]; [|done].
    destruct (from_custom_genesis state_root_of g) as [s|msg]; [|done]. cbn [returns_ok].
    pose proof (validate_spec_chain a (chain s)) as Hc.
    destruct (validate_for_chain a (chain s)) as [[]|e]; [by right|left].
    assert (Hno : ~ (signed \/ chain s = CHAIN_DEV)).
    { intros Hs. assert (@Err unit string e = Ok tt) as [=]. apply Hc. unfold signed in Hs. tauto. }
    exists e. tauto.
  - intros s node Hs Hc. apply start_Ok in Hs as (_ & Hv & ->). cbn zeta.
    destruct (build_eth_api _ _ _).1 as [i|] eqn:Ei.
    + destruct (accepted_importer overrides a (chain s) engine i Hv Hc Ei) as (signer & Es & ->).
      destruct (WireNet.imported_all keccak256 recover_signer _ _ _ es _
        (WireNet.imported_new keccak256 recover_signer WireNet.new_manager engine (Some signer)))
        as (done & [_ Hcalls _ _ Hau _] & _ & Hsub).
      exists signer, done. split; [done|]. split; [exact Hcalls|]. split; [exact Hsub|].
      eapply Forall_impl; [exact Hau|]. intros b Hb. by apply Hb.
    + unfold components_builder in Ei. cbn [args new_node] in Ei. by destruct (enable_scroll_wire a).
Qed.

(** ** Witness *)

Abbreviation sample_start := (start (fun _ => 0) 1 (fun _ => Err tt : result Genesis unit)).

Abbreviation signed_args := {|
  code_witness := default_code_witness_args; sequencer := None; min_suggested_priority_fee := 100;
  payload_size_limit := 122880; enable_scroll_wire := true; scroll_wire_signer := Some 11 |}.

Abbreviation sample_announced := [WireNet.EventNewBlock 7 (WireNet.sample_block 5) odd_signature].

Lemma started_node_authenticated_witness :
  exists s, sample_start "dogeos-chikyu" signed_args = Returns (Ok (s, new_node signed_args))
  /\ sample_start "nowhere" signed_args = Returns (Err (BadChain tt))
  /\ exists done : list (SealedBlock unit * @Signature ref_types),
     WireNet.payload_calls (WireNet.engine (WireNet.import_all (fun _ => 0) WireNet.sample_recover
       (WireNet.new_importer (C := Z * list (B256 * bool)) WireNet.new_manager
          ([] : list (ExecutionData (T := unit))) (Some 11)) sample_announced)) = map WireNet.payload_of done
     /\ Forall (fun b => WireNet.sample_recover b.2 (signature_hash (fun _ => 0) (block_header b.1)) = Ok 11) done.
Proof.
  destruct (started_node_authenticated (fun _ => 0) 1 (fun _ => Err tt : result Genesis unit) "nowhere" signed_args
    (H5 := PoolTask.ref_overrides) None (fun _ => 0) WireNet.sample_recover (C := Z * list (B256 * bool))
    ([] : list (ExecutionData (T := unit))) []) as (_ & _ & _ & Hn & _).
  destruct (started_node_authenticated (fun _ => 0) 1 (fun _ => Err tt : result Genesis unit) "dogeos-chikyu" signed_args
    (H5 := PoolTask.ref_overrides) None (fun _ => 0) WireNet.sample_recover (C := Z * list (B256 * bool))
    ([] : list (ExecutionData (T := unit))) sample_announced) as (_ & Hc & _ & _ & Hrun).
  destruct Hc as (s & Es & D); [by right; eexists|]. exists s. split; [exact Es|]. split.
  - apply Hn. apply (bool_decide_unpack _). vm_compute. exact I.
  - specialize (Hrun s _ Es). rewrite (d_chain _ _ _ _ _ D) in Hrun.
    destruct (Hrun ltac:(discriminate)) as (signer & done & [= <-] & Hcalls & _ & Hd).
    exists done. split; [exact Hcalls|exact Hd].
Defined.
