(* ===== verification/Witness.v ===== *)
(** * Execution witnesses (dogeos-reth-evm/src/witness_state.rs,
    dogeos-reth-rpc/src/witness.rs)

    The message-queue state that belongs to a witness although no transaction
    reads it, and the endpoint that re-executes a block and answers with its
    witness. revm's caching state, reth's executor and the provider are
    interfaces with laws. *)

From stdpp Require Import prelude gmap list strings.
From Stdlib Require Import ZArith Lia.
From S2P Require Import Prelude.
From S2P Require Import Hardforks.
From S2P Require Import Chain.

(** ** revm's caching state *)

(** [EvmDatabaseError], with the errors of the block-access list left abstract. *)
Inductive EvmDatabaseError (E Bal : Type) : Type :=
| DatabaseFailed (e : E)
| BalFailed (e : Bal).
Arguments DatabaseFailed {E Bal} e.
Arguments BalFailed {E Bal} e.

(** What the cache holds of an account: nothing of an account that is not in the
    state, the slots read so far of one that is. *)
Abbreviation CacheAccount := (option (gmap U256 U256)).

(** [State] over a database with errors [E]. A slot read of an account that is
    not cached is [unreachable!]. *)
Class CachingState (S E Bal : Type) := {
  load_cache_account : S -> Address -> result unit E * S;
  state_storage : S -> Address -> U256 -> outcome (result U256 (EvmDatabaseError E Bal) * S);
  cached : S -> Address -> option CacheAccount;
  (** What the state says of a slot, cached or not. *)
  slot_value : S -> Address -> U256 -> U256;
}.

(** The entry a load leaves where there was none. *)
Definition fresh_account (o : CacheAccount) : Prop := o = None \/ o = Some ∅.

Class CachingStateLaws (S E Bal : Type) `{CachingState S E Bal} : Prop := {
  load_other s a b : b <> a -> cached (load_cache_account s a).2 b = cached s b;
  load_kept s a c : cached s a = Some c -> cached (load_cache_account s a).2 a = Some c;
  load_fresh s a s' : cached s a = None -> load_cache_account s a = (Ok tt, s') ->
    exists c, cached s' a = Some c /\ fresh_account c;
  load_failed s a e s' : load_cache_account s a = (Err e, s') -> cached s' a = cached s a;
  load_values s a b k : slot_value (load_cache_account s a).2 b k = slot_value s b k;
  storage_of_cached s a k c : cached s a = Some c -> exists r, state_storage s a k = Returns r;
  storage_values s a k r s' b k' :
    state_storage s a k = Returns (r, s') -> slot_value s' b k' = slot_value s b k';
  storage_other s a k r s' b :
    state_storage s a k = Returns (r, s') -> b <> a -> cached s' b = cached s b;
  storage_absent s a k r s' :
    state_storage s a k = Returns (r, s') -> cached s a = Some None -> cached s' a = Some None;
  storage_present s a k v s' m :
    state_storage s a k = Returns (Ok v, s') -> cached s a = Some (Some m) ->
    v = slot_value s a k /\ cached s' a = Some (Some (<[k := v]> m));
  storage_failed s a k e s' :
    state_storage s a k = Returns (Err e, s') -> cached s' a = cached s a;
  (** A cached slot has the value of the state. *)
  cached_value s a m k v :
    cached s a = Some (Some m) -> m !! k = Some v -> v = slot_value s a k;
}.

(** [StorageWithOriginalValues]'s [storage_slot]: the value of a cached slot. *)
Definition storage_slot {S E Bal} `{CachingState S E Bal} (s : S) (a : Address) (k : U256) : option U256 :=
  match cached s a with Some (Some m) => m !! k | _ => None end.

(** ** witness_state.rs *)

Definition L2_MESSAGE_QUEUE_ADDRESS : Address := 0x5300000000000000000000000000000000000000.
Definition WITHDRAW_TRIE_ROOT_SLOT : U256 := 0.
Definition NEXT_MESSAGE_INDEX_SLOT : U256 := 1.

Section Load.
Context {S E Bal : Type} `{CachingState S E Bal}.

Abbreviation Loaded := (outcome (result unit (EvmDatabaseError E Bal) * S)).

(** The body the two loads share, at their slots. *)
Definition load_queue_slot (s : S) (k : U256) : Loaded :=
  match load_cache_account s L2_MESSAGE_QUEUE_ADDRESS with
  | (Err e, s) => Returns (Err (DatabaseFailed e), s)
  | (Ok _, s) =>
      match state_storage s L2_MESSAGE_QUEUE_ADDRESS k with
      | Panics msg => Panics msg
      | Returns (Err e, s) => Returns (Err e, s)
      | Returns (Ok _, s) => Returns (Ok tt, s)
      end
  end.

Definition load_withdraw_root (s : S) : Loaded := load_queue_slot s WITHDRAW_TRIE_ROOT_SLOT.
Definition load_next_message_index (s : S) : Loaded := load_queue_slot s NEXT_MESSAGE_INDEX_SLOT.

Definition load_message_queue_witness_state (s : S) (include_next_message_index : bool) : Loaded :=
  match load_withdraw_root s with
  | Panics msg => Panics msg
  | Returns (Err e, s) => Returns (Err e, s)
  | Returns (Ok _, s) =>
      if include_next_message_index then
        match load_next_message_index s with
        | Panics msg => Panics msg
        | Returns (Err e, s) => Returns (Err e, s)
        | Returns (Ok _, s) => Returns (Ok tt, s)
        end
      else Returns (Ok tt, s)
  end.
End Load.

(** ** witness.rs *)

(** How a block is asked for: a hash, or a number or tag. *)
Inductive BlockId (Tag : Type) : Type :=
| ByHash (hash : B256)
| ByNumberOrTag (tag : Tag).
Arguments ByHash {Tag} hash.
Arguments ByNumberOrTag {Tag} tag.

(** The errors of the endpoint: those [EthApiError] wraps, and those the node's
    own API raises while it finds the block or opens its state. *)
Inductive WitnessError (Tag E Bal X Pr Up : Type) : Type :=
| HeaderNotFound (id : BlockId Tag)
| Internal (e : X)
| EvmDatabase (e : EvmDatabaseError E Bal)
| ProviderFailed (e : Pr)
| Upstream (e : Up).
Arguments HeaderNotFound {Tag E Bal X Pr Up} id.
Arguments Internal {Tag E Bal X Pr Up} e.
Arguments EvmDatabase {Tag E Bal X Pr Up} e.
Arguments ProviderFailed {Tag E Bal X Pr Up} e.
Arguments Upstream {Tag E Bal X Pr Up} e.

(** A recovered block, as far as the endpoint reads it. *)
Record WitnessBlock (T : Type) := {
  wb_number : Z;
  wb_timestamp : Z;
  wb_parent_hash : B256;
  wb_body : T;
}.
Arguments wb_number {T} _.
Arguments wb_timestamp {T} _.
Arguments wb_parent_hash {T} _.
Arguments wb_body {T} _.

(** [alloy_rpc_types_debug::ExecutionWitness]. *)
Record ExecutionWitness := {
  witness_state : list bytes;
  witness_codes : list bytes;
  witness_keys : list bytes;
  witness_headers : list bytes;
}.

(** reth's [ExecutionWitnessRecord]. *)
Record ExecutionWitnessRecord (Hs : Type) := {
  hashed_state : Hs;
  codes : list bytes;
  keys : list bytes;
  lowest_block_number : option Z;
}.
Arguments hashed_state {Hs} _.
Arguments codes {Hs} _.
Arguments keys {Hs} _.
Arguments lowest_block_number {Hs} _.

(** The node the endpoint runs on: block lookup, the state after a block, reth's
    executor over it, the recorder, the state proofs and the headers. *)
Class WitnessNode (Tag T St S X Pr Up Hs : Type) := {
  recovered_block : BlockId Tag -> result (option (WitnessBlock T)) Up;
  state_at_block : B256 -> result St Up;
  execute_one : St -> WitnessBlock T -> result S X;
  record_executed_state : S -> ExecutionWitnessRecord Hs;
  state_witness : St -> Hs -> result (list bytes) Pr;
  headers_range : Z -> Z -> result (list Header) Pr;
  header_encode : Header -> bytes;
}.

Section Endpoint.
Context `{AlloyForks} {C : Type} `{DogeosHardforks C} {Tag T St S E Bal X Pr Up Hs : Type}
  `{CachingState S E Bal} `{WitnessNode Tag T St S X Pr Up Hs}.

Abbreviation Error := (WitnessError Tag E Bal X Pr Up).

(** The closure that runs with the parent's state. *)
Definition witness_at_state (include_next_message_index : bool) (block : WitnessBlock T) (db : St) :
    outcome (result (ExecutionWitness * option Z) Error) :=
  match execute_one db block with
  | Err e => Returns (Err (Internal e))
  | Ok state =>
      match load_message_queue_witness_state state include_next_message_index with
      | Panics msg => Panics msg
      | Returns (Err e, _) => Returns (Err (EvmDatabase e))
      | Returns (Ok _, state) =>
          let record := record_executed_state state in
          Returns (let? nodes := map_err ProviderFailed (state_witness db (hashed_state record)) in
                   Ok ({| witness_state := nodes; witness_codes := codes record;
                          witness_keys := keys record; witness_headers := [] |},
                       lowest_block_number record))
      end
  end.

Definition with_headers (w : ExecutionWitness) (headers : list bytes) : ExecutionWitness :=
  {| witness_state := witness_state w; witness_codes := witness_codes w;
     witness_keys := witness_keys w; witness_headers := headers |}.

Definition execution_witness_for_block (chain_spec : C) (block : WitnessBlock T) :
    outcome (result ExecutionWitness Error) :=
  let block_number := wb_number block in
  let include_next_message_index := is_tsuki_active_at_timestamp chain_spec (wb_timestamp block) in
  match state_at_block (wb_parent_hash block) with
  | Err e => Returns (Err (Upstream e))
  | Ok db =>
      match witness_at_state include_next_message_index block db with
      | Panics msg => Panics msg
      | Returns (Err e) => Returns (Err e)
      | Returns (Ok (witness, lowest_block_number)) =>
          let smallest := default (saturating_sub block_number 1) lowest_block_number in
          Returns (let? headers := map_err ProviderFailed (headers_range smallest block_number) in
                   Ok (with_headers witness (map header_encode headers)))
      end
  end.

(** The two lookups differ in the identifier only. *)
Definition witness_by_id (chain_spec : C) (id : BlockId Tag) : outcome (result ExecutionWitness Error) :=
  match recovered_block id with
  | Err e => Returns (Err (Upstream e))
  | Ok None => Returns (Err (HeaderNotFound id))
  | Ok (Some block) => execution_witness_for_block chain_spec block
  end.

Definition execution_witness_by_block_hash (chain_spec : C) (hash : B256) :
    outcome (result ExecutionWitness Error) := witness_by_id chain_spec (ByHash hash).

Definition execution_witness (chain_spec : C) (block : Tag) :
    outcome (result ExecutionWitness Error) := witness_by_id chain_spec (ByNumberOrTag block).

(** [into_rpc]: the methods by name; the parameters are read first. *)
Definition into_rpc {Params ParamError : Type} (one_hash : Params -> result B256 ParamError)
    (one_block : Params -> result Tag ParamError) (chain_spec : C) :
    list (string * (Params -> outcome (result ExecutionWitness (ParamError + Error)))) :=
  let call {A} (one : Params -> result A ParamError) (f : A -> outcome (result ExecutionWitness Error)) params :=
    match one params with
    | Err e => Returns (Err (inl e))
    | Ok a => match f a with Panics msg => Panics msg | Returns r => Returns (map_err inr r) end
    end in
  [ ("debug_executionWitnessByBlockHash", call one_hash (execution_witness_by_block_hash chain_spec));
    ("debug_executionWitness", call one_block (execution_witness chain_spec)) ].
End Endpoint.

(** ** Lemmas *)

Section LoadLemmas.
Context {S E Bal : Type} `{CachingStateLaws S E Bal}.

Abbreviation queue := L2_MESSAGE_QUEUE_ADDRESS.

(** Whether a cached account exists in the state. *)
Definition in_state (c : option CacheAccount) : bool :=
  match c with Some (Some _) => true | _ => false end.

(** What a load leaves unchanged. *)
Definition same_elsewhere (s s' : S) : Prop :=
  (forall b k, slot_value s' b k = slot_value s b k)
  /\ (forall b, b <> queue -> cached s' b = cached s b).

Lemma load_queue_account s r s' :
  load_cache_account s queue = (r, s') ->
  same_elsewhere s s' /\ (forall k, storage_slot s' queue k = storage_slot s queue k)
  /\ (r = Ok tt -> is_Some (cached s' queue)).
Proof.
  intros Hl. assert (Hs' : s' = (load_cache_account s queue).2) by by rewrite Hl. repeat split.
  - intros b k. rewrite Hs'. apply load_values.
  - intros b Hb. rewrite Hs'. by apply load_other.
  - intros k. unfold storage_slot. destruct (cached s queue) as [c|] eqn:Ec.
    + by rewrite Hs', (load_kept _ _ c).
    + destruct r as [[]|e]; [|by rewrite (load_failed _ _ _ _ Hl), Ec].
      destruct (load_fresh _ _ _ Ec Hl) as (c & -> & [->| ->]); [done|apply lookup_empty].
  - intros ->. destruct (cached s queue) as [c|] eqn:Ec.
    + exists c. by rewrite Hs', (load_kept _ _ c).
    + destruct (load_fresh _ _ _ Ec Hl) as (c & -> & _). by exists c.
Qed.

(** One load never reaches the [unreachable!] and changes at most its slot. *)
Lemma load_queue_slot_spec s k :
  exists r s', load_queue_slot s k = Returns (r, s') /\ same_elsewhere s s'
  /\ (forall k' v, storage_slot s queue k' = Some v -> storage_slot s' queue k' = Some v)
  /\ (r = Ok tt -> is_Some (cached s' queue)
      /\ forall k', storage_slot s' queue k' =
           if bool_decide (k' = k) && in_state (cached s' queue)
           then Some (slot_value s queue k) else storage_slot s queue k').
Proof.
  unfold load_queue_slot. destruct (load_cache_account s queue) as [[[]|e] s1] eqn:El;
    destruct (load_queue_account s _ s1 El) as ([Hv Hc] & Hslot & Hin).
  2:{ eexists _, s1. split; [done|split; [done|split; [|done]]]. intros k' v. by rewrite Hslot. }
  destruct (Hin eq_refl) as [c Hcached]. destruct (storage_of_cached s1 queue k c Hcached) as [[r s2] Es].
  rewrite Es. assert (same_elsewhere s s2) as Hsame.
  { split; [intros b k'; rewrite (storage_values _ _ _ _ _ _ _ Es); apply Hv|].
    intros b Hb. rewrite (storage_other _ _ _ _ _ _ Es Hb). by apply Hc. }
  destruct r as [v|e]; eexists _, s2; (split; [done|split; [done|]]).
  - destruct c as [m|].
    + destruct (storage_present _ _ _ _ _ _ Es Hcached) as [-> Hc2]. rewrite Hv in Hc2.
      assert (Hs2 : forall k', storage_slot s2 queue k' =
                if decide (k' = k) then Some (slot_value s queue k) else storage_slot s queue k').
      { intros k'. rewrite <- Hslot. unfold storage_slot. rewrite Hc2, Hcached.
        destruct (decide (k' = k)) as [->|]; [apply lookup_insert_eq|by apply lookup_insert_ne]. }
      split.
      * intros k' w Hw. rewrite Hs2. destruct (decide (k' = k)) as [->|]; [|done].
        rewrite <- Hslot in Hw. unfold storage_slot in Hw. rewrite Hcached in Hw.
        rewrite <- Hv. by rewrite (cached_value _ _ _ _ _ Hcached Hw).
      * intros _. split; [by eexists|]. intros k'. rewrite Hs2, Hc2, andb_true_r.
        by case_bool_decide; destruct (decide (k' = k)).
    + pose proof (storage_absent _ _ _ _ _ Es Hcached) as Hc2.
      assert (Hs2 : forall k', storage_slot s2 queue k' = storage_slot s queue k').
      { intros k'. rewrite <- Hslot. unfold storage_slot. by rewrite Hc2, Hcached. }
      split; [intros k' w; by rewrite Hs2|]. intros _. split; [by eexists|]. intros k'.
      by rewrite Hs2, Hc2, andb_false_r.
  - split; [|done]. intros k' w. rewrite <- Hslot. unfold storage_slot.
    by rewrite (storage_failed _ _ _ _ _ Es).
Qed.

(** Once the account is cached, whether it exists is settled. *)
Lemma load_queue_slot_stable s k r s' :
  load_queue_slot s k = Returns (r, s') -> is_Some (cached s queue) ->
  in_state (cached s' queue) = in_state (cached s queue).
Proof.
  unfold load_queue_slot. intros Hl [c Hc]. pose proof (load_kept s queue c Hc) as Hc1.
  destruct (load_cache_account s queue) as [[[]|e] s1]; simpl in Hc1; [|by simplify_eq; rewrite Hc, Hc1].
  destruct (storage_of_cached s1 queue k c Hc1) as [[[v|e] s2] Es]; rewrite Es in Hl; simplify_eq.
  - rewrite Hc. destruct c as [m|].
    + by destruct (storage_present _ _ _ _ _ _ Es Hc1) as [_ ->].
    + by rewrite (storage_absent _ _ _ _ _ Es Hc1).
  - by rewrite (storage_failed _ _ _ _ _ Es), Hc, Hc1.
Qed.

(** The slots a witness asks for. *)
Definition requested (include_next_message_index : bool) (k : U256) : bool :=
  (k =? WITHDRAW_TRIE_ROOT_SLOT) || (include_next_message_index && (k =? NEXT_MESSAGE_INDEX_SLOT)).

(** What a state must look like after the loads. *)
Definition queue_loaded (include : bool) (s s' : S) : Prop :=
  is_Some (cached s' queue)
  /\ forall k, storage_slot s' queue k =
       if requested include k && in_state (cached s' queue)
       then Some (slot_value s queue k) else storage_slot s queue k.

Lemma same_elsewhere_trans s s1 s2 :
  same_elsewhere s s1 -> same_elsewhere s1 s2 -> same_elsewhere s s2.
Proof.
  intros [Hv Hc] [Hv' Hc']. split; [intros; by rewrite Hv'|]. intros b Hb. by rewrite Hc', Hc.
Qed.

Lemma load_message_queue_spec s include :
  exists r s', load_message_queue_witness_state s include = Returns (r, s')
  /\ same_elsewhere s s'
  /\ (forall k v, storage_slot s queue k = Some v -> storage_slot s' queue k = Some v)
  /\ (r = Ok tt -> queue_loaded include s s').
Proof.
  unfold load_message_queue_witness_state, load_withdraw_root, load_next_message_index.
  destruct (load_queue_slot_spec s WITHDRAW_TRIE_ROOT_SLOT) as (r & s1 & E1 & Hs1 & Hk1 & Hr1).
  rewrite E1. destruct r as [[]|e]; [|by eexists _, s1]. destruct (Hr1 eq_refl) as [Hin1 Hslot1].
  destruct include.
  2:{ eexists _, s1. split; [done|split; [done|split; [done|]]]. intros _. split; [done|]. intros k.
      rewrite Hslot1. unfold requested. rewrite orb_false_r.
      case_bool_decide; destruct (Z.eqb_spec k WITHDRAW_TRIE_ROOT_SLOT); naive_solver. }
  destruct (load_queue_slot_spec s1 NEXT_MESSAGE_INDEX_SLOT) as (r & s2 & E2 & Hs2 & Hk2 & Hr2).
  rewrite E2. pose proof (load_queue_slot_stable _ _ _ _ E2 Hin1) as Hst.
  pose proof (same_elsewhere_trans _ _ _ Hs1 Hs2).
  destruct r as [[]|e]; eexists _, s2; (split; [done|split; [done|split; [by auto|]]]); [|done].
  intros _. destruct (Hr2 eq_refl) as [Hin2 Hslot2]. split; [done|]. intros k. destruct Hs1 as [Hv1 _].
  rewrite Hslot2, Hslot1, Hv1, Hst. unfold requested, WITHDRAW_TRIE_ROOT_SLOT, NEXT_MESSAGE_INDEX_SLOT.
  simpl. repeat case_bool_decide; destruct (Z.eqb_spec k 0), (Z.eqb_spec k 1); subst; simpl; try lia;
    by destruct (in_state _).
Qed.

(** Loading the message-queue state for a witness never reaches the
    [unreachable!] of revm's slot reads, since the account is loaded first. It
    changes no value of the state and no other account of the cache, and loses
    no slot that was cached. When it succeeds the account is cached, and if it
    exists, so is the withdraw root, and after Tsuki the next message index,
    each with the value of the state: no further slot appears. *)
Theorem queue_state_loaded (s : S) (include_next_message_index : bool) :
  exists r s', load_message_queue_witness_state s include_next_message_index = Returns (r, s')
  /\ (forall b k, slot_value s' b k = slot_value s b k)
  /\ (forall b, b <> queue -> cached s' b = cached s b)
  /\ (forall k v, storage_slot s queue k = Some v -> storage_slot s' queue k = Some v)
  /\ (r = Ok tt ->
      is_Some (cached s' queue)
      /\ forall k, storage_slot s' queue k =
           if requested include_next_message_index k && in_state (cached s' queue)
           then Some (slot_value s queue k) else storage_slot s queue k).
Proof.
  destruct (load_message_queue_spec s include_next_message_index) as (r & s' & Hl & [Hv Hc] & Hk & Hr).
  by exists r, s'.
Qed.
End LoadLemmas.

(** ** The endpoint *)

(** What the interfaces promise: the recorder takes every cached slot, and the
    lowest block whose hash was asked for; execution asks only for hashes of
    earlier blocks; a range of headers has those the provider has. *)
Class WitnessNodeLaws {Tag T St S E Bal X Pr Up Hs : Type} `{CachingState S E Bal} `{WitnessNode Tag T St S X Pr Up Hs}
    (recorded : Hs -> Address -> U256 -> option U256) (block_hashes : S -> list Z)
    (header_at : Z -> option Header) : Prop := {
  recorded_slots s a k : recorded (hashed_state (record_executed_state s)) a k = storage_slot s a k;
  recorded_none s :
    lowest_block_number (record_executed_state s) = None -> block_hashes s = [];
  recorded_lowest s n :
    lowest_block_number (record_executed_state s) = Some n ->
    n ∈ block_hashes s /\ Forall (fun m => n <= m) (block_hashes s);
  load_hashes s a : block_hashes (load_cache_account s a).2 = block_hashes s;
  storage_hashes s a k r s' :
    state_storage s a k = Returns (r, s') -> block_hashes s' = block_hashes s;
  executed_hashes (db : St) block s :
    execute_one db block = Ok s -> Forall (fun m => 0 <= m < wb_number block) (block_hashes s);
  headers_range_has lo hi hs :
    headers_range lo hi = Ok hs -> hs = omap header_at (seqZ lo (hi - lo));
}.

Section EndpointLemmas.
Context `{AlloyForks} {C : Type} `{DogeosHardforks C} {Tag T St S E Bal X Pr Up Hs : Type}
  `{CachingStateLaws S E Bal} `{!WitnessNode Tag T St S X Pr Up Hs}
  {recorded : Hs -> Address -> U256 -> option U256} {block_hashes : S -> list Z}
  {header_at : Z -> option Header}.
Context `{!WitnessNodeLaws recorded block_hashes header_at}.

Abbreviation queue := L2_MESSAGE_QUEUE_ADDRESS.

Lemma load_queue_slot_hashes (s : S) k r s' :
  load_queue_slot s k = Returns (r, s') -> block_hashes s' = block_hashes s.
Proof.
  unfold load_queue_slot. pose proof (load_hashes s queue) as Hh.
  destruct (load_cache_account s queue) as [[[]|e] s1]; simpl in Hh; [|by intros; simplify_eq].
  destruct (state_storage s1 queue k) as [[[v|e] s2]|] eqn:Es; intros; simplify_eq;
    by rewrite (storage_hashes _ _ _ _ _ Es).
Qed.

Lemma load_message_queue_hashes (s : S) include r s' :
  load_message_queue_witness_state s include = Returns (r, s') -> block_hashes s' = block_hashes s.
Proof.
  unfold load_message_queue_witness_state, load_withdraw_root, load_next_message_index.
  destruct (load_queue_slot s _) as [[[[]|e] s1]|] eqn:E1; [| |done].
  - apply load_queue_slot_hashes in E1. destruct include; [|naive_solver].
    destruct (load_queue_slot s1 _) as [[[[]|e] s2]|] eqn:E2; [| |done];
      apply load_queue_slot_hashes in E2; naive_solver congruence.
  - apply load_queue_slot_hashes in E1. naive_solver.
Qed.

(** The first block whose header a witness carries. *)
Definition first_header (block : WitnessBlock T) (s : S) (lo : Z) : Prop :=
  (block_hashes s = [] /\ lo = saturating_sub (wb_number block) 1)
  \/ (lo ∈ block_hashes s /\ Forall (fun m => lo <= m) (block_hashes s)).

Lemma first_header_below (db : St) block s lo n :
  execute_one db block = Ok s -> 0 < wb_number block -> first_header block s lo ->
  n = wb_number block - 1 \/ n ∈ block_hashes s -> lo <= n < wb_number block.
Proof.
  intros Hx Hpos Hlo Hn. pose proof (executed_hashes _ _ _ Hx) as Hall.
  rewrite Forall_forall in Hall. destruct Hlo as [[Hnil ->]|[Hin Hmin]].
  - rewrite Hnil in Hn. destruct Hn as [->|Hn]; [unfold saturating_sub; lia|by apply not_elem_of_nil in Hn].
  - rewrite Forall_forall in Hmin. destruct Hn as [->|Hn]; [|split; [by apply Hmin|by apply Hall]].
    destruct (Hall lo Hin). lia.
Qed.

(** The shape of an answer. *)
Definition answers (include : bool) (block : WitnessBlock T) (w : ExecutionWitness) : Prop :=
  exists (db : St) s s' lo,
    state_at_block (wb_parent_hash block) = Ok db /\ execute_one db block = Ok s
    /\ queue_loaded include s s'
    /\ (let record := record_executed_state s' in
        state_witness db (hashed_state record) = Ok (witness_state w)
        /\ witness_codes w = codes record /\ witness_keys w = keys record
        /\ forall k, recorded (hashed_state record) queue k = storage_slot s' queue k)
    /\ first_header block s lo
    /\ witness_headers w = map header_encode (omap header_at (seqZ lo (wb_number block - lo))).

Lemma witness_for_block_spec (chain_spec : C) block :
  exists r : result _ (WitnessError Tag E Bal X Pr Up), execution_witness_for_block chain_spec block = Returns r
  /\ forall w, r = Ok w -> answers (is_tsuki_active_at_timestamp chain_spec (wb_timestamp block)) block w.
Proof.
  unfold execution_witness_for_block, witness_at_state.
  destruct (state_at_block (wb_parent_hash block)) as [db|e] eqn:Ed; [|by eexists].
  destruct (execute_one db block) as [s|e] eqn:Ex; [|by eexists].
  set (include := is_tsuki_active_at_timestamp _ _).
  destruct (load_message_queue_spec s include) as (r & s' & El & _ & _ & Hr). rewrite El.
  pose proof (load_message_queue_hashes _ _ _ _ El) as Hh. destruct r as [[]|e]; [|by eexists].
  destruct (state_witness db _) as [nodes|e] eqn:Ew; simpl; [|by eexists].
  destruct (headers_range _ _) as [hs|e] eqn:Eh; simpl; [|by eexists].
  eexists; split; [done|]. intros w [= <-]. apply headers_range_has in Eh as ->.
  eexists db, s, s', _. do 3 (split; [by auto|]). split; [|split; [|done]].
  { simpl. split; [done|split; [done|split; [done|]]]. intros k. apply recorded_slots. }
  unfold first_header. rewrite <- Hh. destruct (lowest_block_number _) as [n|] eqn:En; simpl.
  - right. by apply recorded_lowest.
  - left. by apply recorded_none in En.
Qed.

(** C15: The endpoint answers or fails, but never panics. An answer belongs to the block
    that was asked for: it was executed on the state after its parent; the
    recorded state has the withdraw root of the message queue, and its next
    message index exactly from Tsuki on, with the values after execution; and
    the headers are those of a run of blocks that ends with the parent and
    reaches back to the lowest block whose hash the execution asked for, so
    that the header of every such block is there. *)
Theorem execution_witness_complete (chain_spec : C) (id : BlockId Tag) :
  exists r : result _ (WitnessError Tag E Bal X Pr Up), witness_by_id chain_spec id = Returns r
  /\ forall w, r = Ok w ->
     exists block (db : St) (s s' : S) lo, recovered_block id = Ok (Some block)
       /\ state_at_block (wb_parent_hash block) = Ok db /\ execute_one db block = Ok s
       /\ state_witness db (hashed_state (record_executed_state s')) = Ok (witness_state w)
       /\ (forall k, recorded (hashed_state (record_executed_state s')) queue k =
            if requested (is_tsuki_active_at_timestamp chain_spec (wb_timestamp block)) k
               && in_state (cached s' queue)
            then Some (slot_value s queue k) else storage_slot s queue k)
       /\ witness_headers w = map header_encode (omap header_at (seqZ lo (wb_number block - lo)))
       /\ (0 < wb_number block -> forall n h,
             n = wb_number block - 1 \/ n ∈ block_hashes s ->
             header_at n = Some h -> header_encode h ∈ witness_headers w).
Proof.
  unfold witness_by_id. destruct (recovered_block id) as [[block|]|e]; [|by eexists..].
  destruct (witness_for_block_spec chain_spec block) as (r & Hr & Hok). rewrite Hr.
  exists r. split; [done|]. intros w ->.
  destruct (Hok w eq_refl) as (db & s & s' & lo & Ed & Ex & [_ Hq] & (Hw & _ & _ & Hrec) & Hlo & Hh).
  exists block, db, s, s', lo. do 4 (split; [done|]). split; [intros k; by rewrite Hrec, Hq|].
  split; [done|]. intros Hpos n h Hn Hat. rewrite Hh.
  apply (list_elem_of_fmap_2 header_encode), list_elem_of_omap. exists n. split; [|done].
  apply elem_of_seqZ. destruct (first_header_below _ _ _ _ _ Ex Hpos Hlo Hn). lia.
Qed.
End EndpointLemmas.

(** ** A concrete node *)

(** A cache over a database in memory, with the blocks whose hash was asked for. *)
Record MemState := {
  ms_db : MemDb;
  ms_cache : gmap Address CacheAccount;
  ms_hashes : list Z;
}.

Definition with_account (s : MemState) (a : Address) (c : CacheAccount) : MemState :=
  {| ms_db := ms_db s; ms_cache := <[a := c]> (ms_cache s); ms_hashes := ms_hashes s |}.

Definition ms_load (s : MemState) (a : Address) : result unit unit * MemState :=
  match ms_cache s !! a with
  | Some _ => (Ok tt, s)
  | None => (Ok tt, with_account s a ((fun _ => ∅) <$> mem_accounts (ms_db s) !! a))
  end.

Definition ms_value (s : MemState) (a : Address) (k : U256) : U256 :=
  match ms_cache s !! a with
  | Some (Some m) => default (mem_slot (ms_db s) a k) (m !! k)
  | Some None => 0
  | None => match mem_accounts (ms_db s) !! a with Some _ => mem_slot (ms_db s) a k | None => 0 end
  end.

Definition ms_storage (s : MemState) (a : Address) (k : U256) :
    outcome (result U256 (EvmDatabaseError unit unit) * MemState) :=
  match ms_cache s !! a with
  | Some (Some m) => Returns (Ok (ms_value s a k), with_account s a (Some (<[k := ms_value s a k]> m)))
  | Some None => Returns (Ok 0, s)
  | None => Panics "unreachable"
  end.

#[export] Instance mem_caching : CachingState MemState unit unit := {
  load_cache_account := ms_load;
  state_storage := ms_storage;
  cached s a := ms_cache s !! a;
  slot_value := ms_value;
}.

Lemma ms_load_cases s a :
  (exists c, ms_cache s !! a = Some c /\ ms_load s a = (Ok tt, s))
  \/ (ms_cache s !! a = None
      /\ exists c, fresh_account c
         /\ c = (fun _ => ∅) <$> mem_accounts (ms_db s) !! a /\ ms_load s a = (Ok tt, with_account s a c)).
Proof.
  unfold ms_load, fresh_account. destruct (ms_cache s !! a) as [c|]; [left; by exists c|].
  right. split; [done|]. eexists. split; [|done]. destruct (_ !! a); simpl; auto.
Qed.

#[export] Instance mem_caching_laws : CachingStateLaws MemState unit unit.
Proof.
  split; simpl.
  - intros s a b Hb. destruct (ms_load_cases s a) as [(c & _ & ->)|(_ & c & _ & _ & ->)]; [done|].
    by apply lookup_insert_ne.
  - intros s a c Hc. destruct (ms_load_cases s a) as [(c' & _ & ->)|(Hn & _)]; [done|congruence].
  - intros s a s' Hn Hl. destruct (ms_load_cases s a) as [(c & Hc & _)|(_ & c & Hf & _ & Heq)]; [congruence|].
    rewrite Heq in Hl. simplify_eq. exists c. split; [apply lookup_insert_eq|done].
  - intros s a e s' Hl. destruct (ms_load_cases s a) as [(c & _ & Heq)|(_ & c & _ & _ & Heq)];
      by rewrite Heq in Hl.
  - intros s a b k. destruct (ms_load_cases s a) as [(c & _ & ->)|(Hn & c & _ & Hc & ->)]; [done|].
    unfold ms_value; simpl. destruct (decide (b = a)) as [->|]; [|by rewrite lookup_insert_ne].
    rewrite lookup_insert_eq, Hn, Hc. destruct (mem_accounts _ !! a); [|done]. simpl. by rewrite lookup_empty.
  - intros s a k c Hc. unfold ms_storage. rewrite Hc. destruct c; by eexists.
  - intros s a k r s' b k'. unfold ms_storage. destruct (ms_cache s !! a) as [[m|]|] eqn:Ea;
      intros; simplify_eq; [|done]. unfold ms_value; simpl.
    destruct (decide (b = a)) as [->|]; [|by rewrite lookup_insert_ne].
    rewrite lookup_insert_eq, Ea. by destruct (decide (k' = k)) as [->|];
      [rewrite lookup_insert_eq|rewrite lookup_insert_ne].
  - intros s a k r s' b. unfold ms_storage. destruct (ms_cache s !! a) as [[m|]|]; intros; simplify_eq; [|done].
    by apply lookup_insert_ne.
  - intros s a k r s'. unfold ms_storage. destruct (ms_cache s !! a) as [[m|]|] eqn:Ea; naive_solver.
  - intros s a k v s' m Hs Hm. unfold ms_storage in Hs. rewrite Hm in Hs. simplify_eq.
    split; [done|apply lookup_insert_eq].
  - intros s a k e s'. unfold ms_storage. destruct (ms_cache s !! a) as [[m|]|]; naive_solver.
  - intros s a m k v Hm Hk. unfold ms_value. by rewrite Hm, Hk.
Qed.

Definition lowest (l : list Z) : option Z :=
  match l with [] => None | n :: l => Some (foldr Z.min n l) end.

Definition sample_chain (n : Z) : option Header :=
  if (0 <=? n) && (n <=? 100) then
    Some {| parent_hash := n - 1; ommers_hash := 0; beneficiary := 0; state_root := 0;
            transactions_root := 0; receipts_root := 0; logs_bloom := 0; difficulty := 1;
            number := n; gas_limit := 0; gas_used := 0; timestamp := n; extra_data := [];
            mix_hash := 0; nonce := 0; base_fee_per_gas := None; withdrawals_root := None;
            blob_gas_used := None; excess_blob_gas := None; parent_beacon_block_root := None;
            requests_hash := None |}
  else None.

(** A chain of a hundred blocks, addressed by number. A block's body is the
    depths of the hashes it asks for; execution raises the message index to 8. *)
#[export] Instance sample_node :
    WitnessNode Z (list Z) MemDb MemState unit unit unit MemState := {
  recovered_block id :=
    match id with
    | ByHash n | ByNumberOrTag n =>
        Ok (if (0 <=? n) && (n <=? 100)
            then Some {| wb_number := n; wb_timestamp := n; wb_parent_hash := n - 1; wb_body := [3; 1] |}
            else None)
    end;
  state_at_block h :=
    if h <? 0 then Err tt
    else Ok {| mem_accounts := {[L2_MESSAGE_QUEUE_ADDRESS :=
                 {| acc_balance := 0; acc_nonce := 1; acc_code_hash := 0; acc_code := None |}]};
               mem_storage := {[L2_MESSAGE_QUEUE_ADDRESS := {[0 := 7; 1 := 7]}]} |};
  execute_one db block :=
    Ok {| ms_db := db; ms_cache := {[L2_MESSAGE_QUEUE_ADDRESS := Some {[1 := 8]}]};
          ms_hashes := filter (fun n => 0 <= n < wb_number block)
                         (map (fun d => wb_number block - d) (wb_body block)) |};
  record_executed_state s :=
    {| hashed_state := s; codes := []; keys := []; lowest_block_number := lowest (ms_hashes s) |};
  state_witness db s := Ok [[ms_value s L2_MESSAGE_QUEUE_ADDRESS 1]];
  headers_range lo hi := Ok (omap sample_chain (seqZ lo (hi - lo)));
  header_encode h := [number h];
}.

Lemma foldr_min_in n l : foldr Z.min n l ∈ n :: l /\ Forall (fun m => foldr Z.min n l <= m) (n :: l).
Proof.
  induction l as [|m l [Hin Hall]]; simpl.
  - split; [by left|by repeat constructor].
  - rewrite Forall_cons in Hall. destruct Hall as [Hn Hl]. split.
    + destruct (Z.min_spec m (foldr Z.min n l)) as [[_ ->]|[_ ->]]; [by right; left|].
      apply elem_of_cons in Hin as [->|Hin]; [by left|by right; right].
    + do 2 (constructor; [lia|]). eapply Forall_impl; [exact Hl|]. simpl. lia.
Qed.

#[export] Instance sample_node_laws :
  WitnessNodeLaws (fun (s : MemState) a k => storage_slot s a k) ms_hashes sample_chain.
Proof.
  split; simpl.
  - done.
  - by intros [db cache []].
  - intros s n. unfold lowest. destruct (ms_hashes s) as [|m l]; intros [= <-]. apply foldr_min_in.
  - intros s a. by destruct (ms_load_cases s a) as [(c & _ & ->)|(_ & c & _ & _ & ->)].
  - intros s a k r s'. unfold ms_storage. destruct (ms_cache s !! a) as [[m|]|]; naive_solver.
  - intros db block s [= <-]. simpl. apply Forall_forall. by intros m [Hm _]%list_elem_of_filter.
  - by intros lo hi hs [= <-].
Qed.

(** A state whose queue account was not read yet. *)
Definition unread_state : MemState :=
  {| ms_db := {| mem_accounts := {[L2_MESSAGE_QUEUE_ADDRESS :=
                   {| acc_balance := 0; acc_nonce := 1; acc_code_hash := 0; acc_code := None |}]};
                 mem_storage := {[L2_MESSAGE_QUEUE_ADDRESS := {[0 := 7; 1 := 8]}]} |};
     ms_cache := ∅; ms_hashes := [] |}.

Definition loaded_slots (include : bool) : option (option U256 * option U256) :=
  match load_message_queue_witness_state unread_state include with
  | Returns (Ok _, s) => Some (storage_slot s L2_MESSAGE_QUEUE_ADDRESS 0, storage_slot s L2_MESSAGE_QUEUE_ADDRESS 1)
  | _ => None
  end.

Lemma queue_state_loaded_witness :
  loaded_slots true = Some (Some 7, Some 8) /\ loaded_slots false = Some (Some 7, None)
  /\ forall include, exists s', load_message_queue_witness_state unread_state include = Returns (Ok tt, s')
     /\ (forall k, storage_slot s' L2_MESSAGE_QUEUE_ADDRESS k =
           if requested include k then Some (slot_value unread_state L2_MESSAGE_QUEUE_ADDRESS k)
           else storage_slot unread_state L2_MESSAGE_QUEUE_ADDRESS k).
Proof.
  split; [reflexivity|]. split; [reflexivity|]. intros include.
  destruct (queue_state_loaded unread_state include) as (r & s' & Hl & _ & _ & _ & Hr).
  assert (Hrun : match load_message_queue_witness_state unread_state include with
                 | Returns (Ok _, s) => in_state (cached s L2_MESSAGE_QUEUE_ADDRESS)
                 | _ => false
                 end = true) by by destruct include.
  rewrite Hl in Hrun. destruct r as [[]|]; [rename Hrun into Hin|done]. exists s'. split; [exact Hl|]. intros k.
  destruct (Hr eq_refl) as [_ Hk]. by rewrite Hk, Hin, andb_true_r.
Defined.

(** Block 10 asks for the hashes of blocks 7 and 9: its witness has the headers
    7, 8 and 9, and the message index the execution left. *)
Lemma execution_witness_complete_witness :
  exists w, execution_witness (new_schedule mainnet) 10 = Returns (Ok w)
    /\ witness_headers w = [[7]; [8]; [9]] /\ witness_state w = [[8]]
    /\ forall n h, n = 9 \/ n ∈ [7; 9] -> sample_chain n = Some h -> header_encode h ∈ witness_headers w.
Proof.
  destruct (execution_witness_complete (E := unit) (Bal := unit) (new_schedule mainnet) (ByNumberOrTag 10))
    as (r & Hr & Hok).
  eexists. split; [reflexivity|]. split; [reflexivity|]. split; [reflexivity|].
  assert (E := Hr). vm_compute in E. injection E as <-.
  destruct (Hok _ eq_refl) as (block & db & s & s' & lo & Hb & Hd & Hx & _ & _ & _ & Hall).
  simpl in Hb. injection Hb as <-. simpl in Hx. injection Hx as <-.
  intros n h Hn Hh. apply (Hall eq_refl n h); [|exact Hh]. destruct Hn as [->|Hn]; [by left|right].
  exact Hn.
Defined.
